(* ===== verification/_CoqProject ===== *)
-Q . S2P
Prelude.v
Kube.v
Gardener.v
RuntimeApi.v
Objects.v
Effects.v
ErrorHandler.v
Config.v
RegistryCache.v
StructuredAuth.v
SkrDetails.v
Seeds.v
Rbac.v
AuditLog.v
VersionLog.v
AuditLogPool.v
Sscanf.v
GoStrings.v
Duration.v
Floats.v
Rfc3339.v
Netip.v
Zones.v
ZonesAws.v
ZonesAlicloud.v
ZonesAzure.v
ZonesGdch.v
MaxPods.v
AwsConfig.v
AzureConfig.v
GcpConfig.v
OpenStackConfig.v
AlicloudConfig.v
GdchConfig.v
ConverterApi.v
Extenders.v
Workers.v
GVisor.v
Provider.v
Extensions.v
Converter.v
FsmState.v
Bootstrapper.v
ConfigReload.v
RegistryCacheController.v
KubeconfigController.v
Metrics.v
FsmProvision.v
FsmPatch.v
FsmConfigure.v
FsmDelete.v
Fsm.v
FsmRun.v
FsmCalls.v
FsmSafety.v
FsmSteps.v
FsmExample.v
FsmProps.v
FsmProgress.v
Serving.v
FsmConverge.v
World.v
Operator.v
Provisioning.v
OperatorProvisioning.v
Startup.v
RuntimeSystem.v
Permissions.v
OperatorPermissions.v
CredentialBindings.v
