(* ===== verification/Prelude.v ===== *)
(** * A verification library for the Kyma Infrastructure Manager

    The Kyma Infrastructure Manager (KIM) is a Kubernetes operator written in
    Go.  Its custom resource [Runtime] describes a Kyma runtime; the operator
    keeps a Gardener [Shoot] (the cluster), a [GardenerCluster] (which makes
    another controller provide the kubeconfig) and the inside of the runtime
    cluster (namespace, OIDC, role bindings, configuration) in line with it.  The
    reconciliation of a Runtime is a state machine of about twenty state
    functions under src/internal/controller/runtime/fsm; each makes calls to
    three API servers (the Kyma control plane, the Gardener project, the runtime
    cluster), changes the in-memory Runtime and Shoot, and chooses the next
    function, a requeue or a stop.

    ** How the code is modelled

    Data are records and inductive types with the fields the code reads or
    writes (Kube, Gardener, RuntimeApi, Objects, Config).  Opaque bytes (raw JSON)
    are strings behind a class [Codec] with the round-trip law the code relies
    on.  Pure helpers of third-party packages (apimachinery, controllerutil,
    Gardener's helpers, semver, the registry-cache API) are not under src/: they
    are operations of the classes [MetaLib], [GardenerLib] and [RegistryCacheLib];
    the laws used are their documented behaviour ([MetaLaws], with a reference
    instance [MetaRef] that satisfies it).

    Effects (Effects): code that calls an API server, reads the clock or a file,
    sets a metric or emits an event is a [prog], a tree of calls whose branches
    are the answers; a nil dereference is [Panic].  [wp R G p h Q] says that
    against every environment whose answers satisfy the rely [R], every call of
    [p] after history [h] satisfies the guarantee [G] and every end satisfies [Q];
    [wp_adequate] relates it to the small-step semantics, [run] evaluates a
    program against a concrete environment, [prog_equiv] is the equivalence of
    programs with its [Proper] instances.  [only P p] confines the calls of a
    program and is how one component states to another what it does.

    State functions (FsmState) are programs in a state monad over [systemState]
    (runtime_state.go); closures that the Go code returns as next function are
    constructors of [stateFn] with the captured values.  The aliasing that
    matters is modelled: the converter returns the Runtime and the Shoot
    resources as the caller sees them afterwards, a write replaces the in-memory
    object by what the server returned.

    ** Files and what they show

    - Kube, Gardener, RuntimeApi, Objects, Config: data, names, methods of the
      resources (api/v1, pkg/config).  [UpdateState_correct]: the methods that
      record conditions.
    - ErrorHandler (pkg/gardener/gardener_error_handler.go): [IsRetryable_spec].
    - RegistryCache (internal/registrycache): the syncer and the manager of the
      registry cache secrets: [Do_correct], [DeleteUnused_correct],
      [GetCacheUIDToSecretNameMap_correct].
    - StructuredAuth (pkg/gardener/structuredauth), Seeds (fsm/seed.go), Rbac
      (fsm/runtime_fsm_apply_clusterrolebindings.go), SkrDetails
      (pkg/gardener/skrdetails): one functional theorem each.
    - AuditLog (pkg/auditlog): the provider of dedicated and shared audit logs,
      with the interface [DataProviderOk] the state machine relies on.
      AuditLogPool: any number of reconciliations work on the pool concurrently,
      with stale reads and optimistic locking (VersionLog: the versions of the
      objects a server has stored); no audit log is ever assigned to two runtimes
      ([assignment_exclusive]).
    - Sscanf: integers of package strconv (a formatted one parses, [ParseInt64_pretty]), fmt.Sscanf for the format the code uses.
    - Netip: net/netip, with parsing and printing; prefixes as sets of addresses.
      Zones, ZonesAws, ZonesAzure, ZonesAlicloud, ZonesGdch (shoot/hyperscaler):
      the subnets of availability zones.  For every IPv4 CIDR they lie inside it
      and are disjoint, the generators accept exactly the CIDRs and names that fit,
      and adding a zone keeps the present ones (not on GDCH): [aws_subnets_disjoint],
      [aws_accepts], [aws_zones_stable], [azure_zones_correct],
      [alicloud_zones_correct], [gdch_zones_correct].
    - MaxPods (extender/workers/maxpods): the size of a pod network and the
      clamping of the workers to it, [ApplyMaxPodsWithTotalCap_correct].
    - GoStrings, Duration, Floats, Rfc3339: what the code uses of packages strings
      and time, with float64 as SpecFloat; a time survives its text to the second.
    - AwsConfig, AzureConfig, GcpConfig, OpenStackConfig, AlicloudConfig, GdchConfig
      (shoot/hyperscaler): the configuration objects of the infrastructures.
    - ConverterApi: options and interface of the Shoot converter ([ConverterOk]),
      with what a conversion leaves of the specification of the Runtime it was
      given ([sameUserSpec]: Shoot and Runtime share memory); the state machine is
      verified against the interface.  Extenders, Workers,
      GVisor, Provider, Extensions (shoot/extender) and Converter
      (shoot/converter.go): the converter itself.  [converter_refines_interface]
      discharges the interface; [created_shoot_as_specified] equates a new Shoot
      with an independent description; [patch_keeps_infrastructure],
      [patch_provider_correct], [workers_aligned] and [extensions_of_patch] say
      what a patch keeps and changes.
    - FsmState, FsmProvision, FsmPatch, FsmConfigure, FsmDelete, Fsm: the state
      functions, [step], the loop of [Run] and [Reconcile].
    - FsmRun: [Run_terminates].  The loop takes fuel; 15 is the length of the
      longest path through the machine, the rank of every chosen function is
      smaller than that of the function that chooses it, and any larger fuel
      gives an equivalent program.
    - FsmCalls, FsmSafety, FsmSteps: [allowed] is the closed list of the calls and
      says after which history each is justified (only reads, metrics, calls to the
      runtime cluster and updates of AuditLog resources need no justification),
      [entry] says what holds when a state function starts; every state function
      keeps them, by a symbolic execution that the tactic [sx]
      does.
    - FsmProps: the safety of a reconciliation, for every Runtime and every
      behaviour of the servers: when the finalizer is removed, when the Shoot is
      created, patched, deleted, what the suspend annotation stops, when the
      status is written and which events are emitted, and that only ill-formed
      answers make it panic.
    - FsmProgress: a deletion completes when the servers cooperate; the
      classification of write errors.
    - Serving: what environments store and grant, the interface [Serves] between the
      state functions and the servers of a liveness proof.
    - FsmConverge: a provisioning converges.  Every reconciliation records one more
      of the conditions on the way and asks to be called again; with cooperating
      clusters, and a bootstrapper whose Deployment runs ([installer_bootstrapped]), the
      Runtime is Ready after at most four ([provisioning_converges]); of the objects
      of the Runtime it writes the status only.
    - World, Provisioning, OperatorProvisioning: from the creation of a Runtime to
      Ready.  World is what the servers hold of one Runtime (the resource, its Shoot and
      how far Gardener is with it, its GardenerCluster, its secret), read as it stood
      when a reconciliation started ([during]) and changed by what it wrote ([after]),
      with the round of the kubeconfig controller and the kubeconfigs Gardener issues
      for a Shoot ([issued]), one of which the secret ends with.  Provisioning proves, against the
      interfaces, that the rounds of the state machine, the kubeconfig controller and
      Gardener end with the Runtime Ready; its example runs them.  OperatorProvisioning
      is that for the operator of cmd/main.go ([operator_provisions]): the Shoot is
      the one the converter specifies.
    - Bootstrapper (internal/rtbootstrapper): copies configuration to the runtime
      cluster ([configuration_copied]), applies manifests, judges the installation, validates the flags;
      [bootstrapper_refines_interface] discharges the interface [InstallerOk] the
      state machine is verified against.
    - ConfigReload (controller/configreload): the watcher that makes Runtimes
      reconcile after a change of the configuration by the force annotation, and
      changes nothing else of them, [reload_reaches_runtimes], with the filter of the events the Runtime controller is called for.
    - RegistryCacheController (controller/registrycache,
      registrycache/runtimewatcher): copies the caches a cluster asks for to its
      Runtime as last read, and nothing else of it, [caching_follows_configs]; the goroutine that forwards events is a
      step relation, [events_forwarded].
    - KubeconfigController (controller/kubeconfig, pkg/gardener/kubeconfig): the
      kubeconfig secrets; [kubeconfig_writes_justified] says when each is created,
      renewed, stripped and deleted, [sync_time_recorded] that what is recorded in
      a secret is what the next reconciliation reads, and which of these writes
      the controllers are called for.
    - Metrics (controller/metrics): the gauges as collections of series, driven by
      the calls of all other components; the series of an object, label by label, and
      the frame of every call, [metrics_well_formed].
    - Operator (cmd/main.go): the components put together.  [operator_safe] is the
      safety of the state machine with its real converter, audit log provider and
      bootstrapper; [configuration_watched] and [kubeconfig_secret_found] tie the
      controllers to each other's objects.
    - Startup (cmd/main.go, config.Load, auditlog.LoadConfiguration): the
      configuration is read, validated and checked before the controllers start,
      [startup_checked].
    - RuntimeSystem: all controllers work on the Runtime resources concurrently, in
      any interleaving with each other and with users, from stale reads, against a
      server with optimistic locking; [ownChange] says what each controller changes of
      labels, annotations, finalizers, specification and status, and what a user
      wrote there stays until the user changes it ([field_owners]).
    - Permissions, OperatorPermissions: the role that the markers of the controllers
      declare, the leader election role bound to the same account (which admits the
      events and the reads of config maps) and the namespaces of the cache; every
      request of every controller to the control plane is admitted, but for the reads
      of trust bundles, which nothing admits ([requests_permitted]).
    - CredentialBindings (hack/credentialbindings): the tool that makes credential
      bindings of secret bindings.
    - FsmExample: a concrete configuration, to which the theorems are applied and
      on which reconciliations are run by [vm_compute].

    ** Bounds

    Machine integers that the code compares only (generations, durations) are
    [Z]; [int32] and [int64] of this file are the wrapping conversions, written out
    where the code converts or adds.  [big.Int] is [Z]; an address is the integer
    of its bytes.  Lists and
    maps are unbounded.

    A duration that is a float is within the range of int64 where the code
    converts it; the flags of the program keep it there.  The events of a
    history are finitely many, the queue of events unbounded.

    The rounds to Ready are bounded by the world they start in ([rounds]): the steps
    Gardener still needs and eleven more (the finalizer, the first condition, the
    creation, the GardenerCluster, the wait for it, the milestones that [ahead] counts
    and the last pass).  Gardener may take several steps in a round, so it is a bound
    and not the exact number; the example of Provisioning needs eight.

    ** Not modelled

    Logging, the registration of controllers with the manager (but for the watches
    and event filters), client construction, flag parsing, generated code, test
    doubles and the debug dump of Shoots are left out: they are process I/O or calls
    of libraries.  So are functions nothing calls (GetKubeconfigSecret of package
    fsm, GetRuntimeClient, the status helpers of the AuditLog resource).  The JSON decoders and the struct validator are
    third-party code, parameters of Startup.

    The theorems about progress assume servers that grant requests; what a
    reconciliation does when one fails is in the theorems about safety.  Provisioning is
    about Runtimes without a dedicated audit log and without an enforced seed location. *)

From stdpp Require Export base tactics option list strings gmap fin_maps pretty.
From Stdlib Require Export ZArith Lia.

Declare Scope kim_scope.
Delimit Scope kim_scope with kim.

(** ** Errors

    A Go [error] as the code under src/ observes it: the text that ends in
    messages and the API status reason that [apierrors.IsNotFound] and its
    siblings look for through wrapped errors. *)
Inductive StatusReason :=
| ReasonNotFound
| ReasonAlreadyExists
| ReasonConflict
| ReasonForbidden
| ReasonOther.

#[export] Instance StatusReason_eq_dec : EqDecision StatusReason.
Proof. solve_decision. Defined.

Record GoError := mkError { errReason : StatusReason; errText : string }.

#[export] Instance GoError_eq_dec : EqDecision GoError.
Proof. solve_decision. Defined.

(** [errors.New] and [fmt.Errorf] without a wrapped error. *)
Definition newError (text : string) : GoError := mkError ReasonOther text.

(** [fmt.Errorf("prefix: %w", err)] and [errors.Wrap(err, prefix)]: the status
    reason of the wrapped error stays visible. *)
Definition wrapError (prefix : string) (e : GoError) : GoError :=
  mkError (errReason e) (prefix +:+ ": " +:+ errText e).

Definition IsNotFound (e : GoError) : bool := bool_decide (errReason e = ReasonNotFound).
Definition IsAlreadyExists (e : GoError) : bool := bool_decide (errReason e = ReasonAlreadyExists).
Definition IsConflict (e : GoError) : bool := bool_decide (errReason e = ReasonConflict).
Definition IsForbidden (e : GoError) : bool := bool_decide (errReason e = ReasonForbidden).

(** ** Fallible results: Go's [(value, error)] pairs whose value is not used
    when the error is set. *)
Inductive result (A : Type) :=
| Ok (a : A)
| Err (e : GoError).
Arguments Ok {A} a.
Arguments Err {A} e.

#[export] Instance result_eq_dec {A} `{EqDecision A} : EqDecision (result A).
Proof. solve_decision. Defined.

#[export] Instance result_ret : MRet result := fun A a => Ok a.
#[export] Instance result_bind : MBind result := fun A B f r =>
  match r with Ok a => f a | Err e => Err e end.
#[export] Instance result_fmap : FMap result := fun A B f r =>
  match r with Ok a => Ok (f a) | Err e => Err e end.

Definition isOk {A} (r : result A) : bool := match r with Ok _ => true | Err _ => false end.

(** Rewriting the error of a result, as [if err != nil { return wrap(err) }]. *)
Definition mapErr {A} (f : GoError -> GoError) (r : result A) : result A :=
  match r with Ok a => Ok a | Err e => Err (f e) end.

Definition errOf {A} (r : result A) : option GoError :=
  match r with Ok _ => None | Err e => Some e end.

(** [guardErr b e]: early return with an error when the guard holds. *)
Definition guardErr (b : bool) (e : GoError) : result unit :=
  if b then Err e else Ok tt.

(** [err != nil && !errors.IsNotFound(err)] *)
Definition failsUnlessNotFound {A} (r : result A) : option GoError :=
  match r with
  | Ok _ => None
  | Err e => if IsNotFound e then None else Some e
  end.

Lemma isOk_true {A} (r : result A) : isOk r = true <-> exists a, r = Ok a.
Proof. destruct r; naive_solver. Qed.

Lemma result_bind_Ok {A B} (f : A -> result B) (r : result A) (b : B) :
  (r ≫= f) = Ok b <-> exists a, r = Ok a /\ f a = Ok b.
Proof. destruct r as [a|e]; cbn; naive_solver. Qed.

Lemma result_bind_Err {A B} (f : A -> result B) (r : result A) e :
  (r ≫= f) = Err e <-> r = Err e \/ exists a, r = Ok a /\ f a = Err e.
Proof. destruct r as [a|e']; cbn; naive_solver. Qed.

Lemma mapErr_Ok {A} f (r : result A) a : mapErr f r = Ok a <-> r = Ok a.
Proof. destruct r; cbn; naive_solver. Qed.

Lemma guardErr_Ok b e u : guardErr b e = Ok u <-> b = false.
Proof. destruct b, u; cbn; naive_solver. Qed.

Lemma failsUnlessNotFound_None {A} (r : result A) :
  failsUnlessNotFound r = None <-> (exists a, r = Ok a) \/ exists e, r = Err e /\ IsNotFound e = true.
Proof.
  destruct r as [a|e]; cbn; [split; eauto|]. destruct (IsNotFound e) eqn:E; split; try done.
  - intros _. right. by exists e.
  - intros [[a ?]|(e' & [= <-] & E')]; congruence.
Qed.

(** ** Go values *)

(** Reading a Go [map[string]string]: a missing key reads as the empty string. *)
Definition mapGet (m : gmap string string) (k : string) : string := default "" (m !! k).

(** [ptr != nil && *ptr] *)
Definition isTrue (b : option bool) : bool := match b with Some true => true | _ => false end.

(** Machine integers: the value of a conversion to a w-bit signed integer. *)
Definition wrapS (w : Z) (z : Z) : Z :=
  ((z + 2 ^ (w - 1)) mod 2 ^ w - 2 ^ (w - 1))%Z.
Definition int32 (z : Z) : Z := wrapS 32 z.
Definition int64 (z : Z) : Z := wrapS 64 z.

Lemma wrapS_small w z :
  (0 < w)%Z -> (- 2 ^ (w - 1) <= z < 2 ^ (w - 1))%Z -> wrapS w z = z.
Proof.
  intros Hw Hz. unfold wrapS.
  assert (2 ^ w = 2 * 2 ^ (w - 1))%Z as E.
  { rewrite <- Z.pow_succ_r by lia. f_equal. lia. }
  rewrite Z.mod_small by lia. lia.
Qed.

Lemma int32_small z : (- 2 ^ 31 <= z < 2 ^ 31)%Z -> int32 z = z.
Proof. intros. apply wrapS_small; lia. Qed.

Lemma int64_small z : (- 2 ^ 63 <= z < 2 ^ 63)%Z -> int64 z = z.
Proof. intros. apply wrapS_small; lia. Qed.

(** ** The [slices] package *)

(** [slices.Contains] on comparable elements. *)
Definition slicesContains {A} `{EqDecision A} (l : list A) (x : A) : bool :=
  bool_decide (x ∈ l).

(** [slices.ContainsFunc] *)
Definition slicesContainsFunc {A} (l : list A) (f : A -> bool) : bool := existsb f l.

(** [slices.IndexFunc], with [None] for -1. *)
Fixpoint slicesIndexFunc {A} (l : list A) (f : A -> bool) : option nat :=
  match l with
  | [] => None
  | x :: l' => if f x then Some 0 else S <$> slicesIndexFunc l' f
  end.

(** [slices.Delete(s, i, i+1)] for an index in range. *)
Definition slicesDelete1 {A} (l : list A) (i : nat) : list A := take i l ++ drop (S i) l.

Lemma slicesContains_spec {A} `{EqDecision A} (l : list A) x :
  slicesContains l x = true <-> x ∈ l.
Proof. apply bool_decide_eq_true. Qed.

Lemma slicesContains_false {A} `{EqDecision A} (l : list A) x :
  slicesContains l x = false <-> x ∉ l.
Proof. apply bool_decide_eq_false. Qed.

Lemma slicesContainsFunc_spec {A} (l : list A) f :
  slicesContainsFunc l f = true <-> exists x, x ∈ l /\ f x = true.
Proof.
  unfold slicesContainsFunc. rewrite existsb_exists.
  setoid_rewrite list_elem_of_In. done.
Qed.

Lemma slicesContainsFunc_false {A} (l : list A) f :
  slicesContainsFunc l f = false <-> forall x, x ∈ l -> f x = false.
Proof.
  rewrite <- not_true_iff_false, slicesContainsFunc_spec. split.
  - intros H x Hx. apply not_true_iff_false. intros Hf. apply H. eauto.
  - intros H (x & Hx & Hf). rewrite H in Hf; done.
Qed.

Lemma slicesIndexFunc_Some {A} (l : list A) f i :
  slicesIndexFunc l f = Some i ->
  exists x, l !! i = Some x /\ f x = true /\
            forall j y, j < i -> l !! j = Some y -> f y = false.
Proof.
  revert i. induction l as [|x l IH]; intros i; cbn; [done|].
  destruct (f x) eqn:Hf.
  - intros [= <-]. exists x. split_and!; [done..|]. intros; lia.
  - intros (i' & Hi & ->)%fmap_Some. destruct (IH _ Hi) as (z & ? & ? & Hz).
    exists z. split_and!; [done..|].
    intros [|j] y Hj; cbn; [naive_solver|]. intros. eapply Hz; eauto; lia.
Qed.

Lemma slicesIndexFunc_None {A} (l : list A) f :
  slicesIndexFunc l f = None <-> forall x, x ∈ l -> f x = false.
Proof.
  induction l as [|x l IH]; cbn.
  - split; [intros _ x Hx; inversion Hx | done].
  - destruct (f x) eqn:Hf.
    + split; [done|]. intros H. rewrite H in Hf; [done | constructor].
    + rewrite fmap_None. etransitivity; [exact IH|].
      setoid_rewrite elem_of_cons. naive_solver.
Qed.

(** ** Shared automation *)

Create HintDb kim discriminated.
Create Rewrite HintDb kim_rw.
#[export] Hint Rewrite @result_bind_Ok @result_bind_Err @mapErr_Ok guardErr_Ok : kim_rw.
#[export] Hint Resolve int32_small int64_small : kim.

(** Invert every equation between results in the context. *)
Ltac inv_result :=
  repeat match goal with
  | H : Ok _ = Ok _ |- _ => injection H as H; subst
  | H : Err _ = Err _ |- _ => injection H as H; subst
  | H : Ok _ = Err _ |- _ => discriminate H
  | H : Err _ = Ok _ |- _ => discriminate H
  | H : (_ ≫= _) = Ok _ |- _ => apply result_bind_Ok in H as (? & ? & H)
  | H : guardErr _ _ = Ok _ |- _ => apply guardErr_Ok in H
  | H : mapErr _ _ = Ok _ |- _ => apply mapErr_Ok in H
  end.

(** Split on the conditions the code branches on. *)
Ltac split_ifs :=
  repeat match goal with
  | |- context [ if ?b then _ else _ ] => destruct b eqn:?
  end.

Ltac done_by_bools :=
  repeat match goal with
  | H : bool_decide _ = true |- _ => apply bool_decide_eq_true in H
  | H : bool_decide _ = false |- _ => apply bool_decide_eq_false in H
  | H : andb _ _ = true |- _ => apply andb_true_iff in H as [? ?]
  | H : orb _ _ = false |- _ => apply orb_false_iff in H as [? ?]
  | H : negb _ = true |- _ => apply negb_true_iff in H
  | H : negb _ = false |- _ => apply negb_false_iff in H
  end.
