(* ===== verification/Kube.v ===== *)
(** * Kubernetes objects and the apimachinery functions the code calls

    Object metadata, status conditions, secrets, config maps and role bindings
    as the code under src/ reads and writes them.  The pure helpers of
    k8s.io/apimachinery and sigs.k8s.io/controller-runtime are not under src/:
    they are the operations of the class [MetaLib], with the behaviour their
    documentation promises as the laws [MetaLaws], and a reference instance
    that satisfies the laws. *)

From S2P Require Import Prelude.

(** Points in time and durations, in nanoseconds; the zero [time.Time] is 0. *)
Definition Second : Z := 1000000000.
Definition Minute : Z := 60 * Second.
Definition Hour : Z := 60 * Minute.

(** [(t *metav1.Time) IsZero()]: true of the nil pointer too. *)
Definition timeIsZero (t : option Z) : bool :=
  match t with None => true | Some t => (t =? 0)%Z end.

Record NamespacedName := mkNN { nn_Namespace : string; nn_Name : string }.

#[export] Instance NamespacedName_eq_dec : EqDecision NamespacedName.
Proof. solve_decision. Defined.

Record ObjectMeta := mkMeta {
  Name : string;
  GenerateName : string;
  Namespace : string;
  UID : string;
  ResourceVersion : string;
  Generation : Z;
  DeletionTimestamp : option Z;
  Labels : gmap string string;
  Annotations : gmap string string;
  Finalizers : list string;
  ManagedFields : list string
}.

Definition metaNamed (name namespace : string) : ObjectMeta :=
  mkMeta name "" namespace "" "" 0 None ∅ ∅ [] [].

Definition meta_with_labels (m : ObjectMeta) (l : gmap string string) : ObjectMeta :=
  mkMeta (Name m) (GenerateName m) (Namespace m) (UID m) (ResourceVersion m) (Generation m)
    (DeletionTimestamp m) l (Annotations m) (Finalizers m) (ManagedFields m).
Definition meta_with_annotations (m : ObjectMeta) (a : gmap string string) : ObjectMeta :=
  mkMeta (Name m) (GenerateName m) (Namespace m) (UID m) (ResourceVersion m) (Generation m)
    (DeletionTimestamp m) (Labels m) a (Finalizers m) (ManagedFields m).
Definition meta_with_finalizers (m : ObjectMeta) (f : list string) : ObjectMeta :=
  mkMeta (Name m) (GenerateName m) (Namespace m) (UID m) (ResourceVersion m) (Generation m)
    (DeletionTimestamp m) (Labels m) (Annotations m) f (ManagedFields m).
Definition meta_without_managed_fields (m : ObjectMeta) : ObjectMeta :=
  mkMeta (Name m) (GenerateName m) (Namespace m) (UID m) (ResourceVersion m) (Generation m)
    (DeletionTimestamp m) (Labels m) (Annotations m) (Finalizers m) [].

(** metav1.ConditionStatus *)
Inductive ConditionStatus := ConditionTrue | ConditionFalse | ConditionUnknown.

#[export] Instance ConditionStatus_eq_dec : EqDecision ConditionStatus.
Proof. solve_decision. Defined.

(** metav1.Condition *)
Record Condition := mkCondition {
  condType : string;
  condStatus : ConditionStatus;
  condLastTransitionTime : Z;
  condReason : string;
  condMessage : string
}.

#[export] Instance Condition_eq_dec : EqDecision Condition.
Proof. solve_decision. Defined.

(** ** Core objects *)

Record Secret := mkSecret {
  secretMeta : ObjectMeta;
  secretType : string;
  secretImmutable : option bool;
  secretData : option (gmap string string);     (* nil or a map *)
  secretStringData : gmap string string         (* write-only; the server merges it into the data *)
}.

Record ConfigMap := mkConfigMap {
  cmMeta : ObjectMeta;
  cmData : gmap string string
}.

(** rbacv1 *)
Record Subject := mkSubject { subjKind : string; subjName : string; subjAPIGroup : string }.
Record RoleRef := mkRoleRef { roleAPIGroup : string; roleKind : string; roleName : string }.
Record ClusterRoleBinding := mkCRB {
  crbMeta : ObjectMeta;
  crbSubjects : list Subject;
  crbRoleRef : RoleRef
}.
Definition UserKind : string := "User".
Definition rbacGroupName : string := "rbac.authorization.k8s.io".

#[export] Instance Subject_eq_dec : EqDecision Subject.
Proof. solve_decision. Defined.
#[export] Instance RoleRef_eq_dec : EqDecision RoleRef.
Proof. solve_decision. Defined.

#[export] Instance ObjectMeta_eq_dec : EqDecision ObjectMeta.
Proof. solve_decision. Defined.
#[export] Instance ClusterRoleBinding_eq_dec : EqDecision ClusterRoleBinding.
Proof. solve_decision. Defined.

(** autoscalingv1.CrossVersionObjectReference *)
Record ObjRef := mkObjRef { refKind : string; refName : string; refAPIVersion : string }.

#[export] Instance ObjRef_eq_dec : EqDecision ObjRef.
Proof. solve_decision. Defined.

(** ** The library functions *)

(** Pure helpers of k8s.io/apimachinery (api/meta, labels) and of
    controller-runtime's controllerutil. *)
Class MetaLib := {
  FindStatusCondition : list Condition -> string -> option Condition;
  SetStatusCondition : list Condition -> Condition -> list Condition;
  RemoveStatusCondition : list Condition -> string -> list Condition;
  ContainsFinalizer : ObjectMeta -> string -> bool;
  AddFinalizer : ObjectMeta -> string -> ObjectMeta;
  RemoveFinalizer : ObjectMeta -> string -> ObjectMeta;
  (** [labels.Set(sel).AsSelector().Matches(labels.Set(ls))] *)
  selectorMatches : gmap string string -> gmap string string -> bool
}.

(** What a condition says, apart from the time of its last transition. *)
Definition condKey (c : Condition) : string * ConditionStatus * string * string :=
  (condType c, condStatus c, condReason c, condMessage c).

(** predicate.Or of controller-runtime's GenerationChangedPredicate,
    LabelChangedPredicate and AnnotationChangedPredicate, for an update; they let
    all other events pass. *)
Definition metaChanged (old new : ObjectMeta) : bool :=
  negb (Generation old =? Generation new)%Z ||
  negb (bool_decide (Labels old = Labels new)) ||
  negb (bool_decide (Annotations old = Annotations new)).

Lemma metaChanged_refl m : metaChanged m m = false.
Proof. unfold metaChanged. by rewrite Z.eqb_refl, !bool_decide_true. Qed.

Lemma metaChanged_same old new :
  Generation new = Generation old -> Labels new = Labels old -> Annotations new = Annotations old ->
  metaChanged old new = false.
Proof. intros Hg Hl Ha. unfold metaChanged. by rewrite Hg, Hl, Ha, Z.eqb_refl, !bool_decide_true. Qed.

Lemma metaChanged_annotations old new : Annotations old <> Annotations new -> metaChanged old new = true.
Proof. intros Hne. unfold metaChanged. rewrite (bool_decide_false (Annotations _ = _)) by done. by rewrite orb_true_r. Qed.

(** At most one condition per type. *)
Definition uniqueTypes (cs : list Condition) : Prop := NoDup (condType <$> cs).

Class MetaLaws `{MetaLib} : Prop := {
  find_type cs t c : FindStatusCondition cs t = Some c -> condType c = t;
  find_set cs c :
    exists c', FindStatusCondition (SetStatusCondition cs c) (condType c) = Some c' /\
               condKey c' = condKey c;
  find_set_ne cs c t :
    t <> condType c -> FindStatusCondition (SetStatusCondition cs c) t = FindStatusCondition cs t;
  set_unique cs c : uniqueTypes cs -> uniqueTypes (SetStatusCondition cs c);
  set_same cs c c0 :
    FindStatusCondition cs (condType c) = Some c0 -> condKey c0 = condKey c ->
    SetStatusCondition cs c = cs;
  find_remove cs t : FindStatusCondition (RemoveStatusCondition cs t) t = None;
  find_remove_ne cs t t' :
    t' <> t -> FindStatusCondition (RemoveStatusCondition cs t) t' = FindStatusCondition cs t';
  remove_unique cs t : uniqueTypes cs -> uniqueTypes (RemoveStatusCondition cs t);
  contains_finalizer m f : ContainsFinalizer m f = true <-> f ∈ Finalizers m;
  add_finalizer m f g : g ∈ Finalizers (AddFinalizer m f) <-> g = f \/ g ∈ Finalizers m;
  remove_finalizer m f g : g ∈ Finalizers (RemoveFinalizer m f) <-> g <> f /\ g ∈ Finalizers m;
  add_finalizer_meta m f :
    meta_with_finalizers (AddFinalizer m f) (Finalizers m) = m;
  remove_finalizer_meta m f :
    meta_with_finalizers (RemoveFinalizer m f) (Finalizers m) = m;
  selector_matches sel ls : selectorMatches sel ls = true <-> sel ⊆ ls
}.

(** ** A reference instance of the documented behaviour *)
Module MetaRef.

Definition find (cs : list Condition) (t : string) : option Condition :=
  snd <$> list_find (fun c => condType c = t) cs.

(** An existing condition of the type is updated in place, its transition time
    only when the status changes; otherwise the condition is appended. *)
Fixpoint set (cs : list Condition) (c : Condition) : list Condition :=
  match cs with
  | [] => [c]
  | c0 :: cs' =>
      if decide (condType c0 = condType c) then
        mkCondition (condType c0) (condStatus c)
          (if decide (condStatus c0 = condStatus c) then condLastTransitionTime c0
           else condLastTransitionTime c)
          (condReason c) (condMessage c) :: cs'
      else c0 :: set cs' c
  end.

Definition remove (cs : list Condition) (t : string) : list Condition :=
  filter (fun c => condType c <> t) cs.

Definition add_fin (m : ObjectMeta) (f : string) : ObjectMeta :=
  if decide (f ∈ Finalizers m) then m
  else meta_with_finalizers m (Finalizers m ++ [f]).

Definition remove_fin (m : ObjectMeta) (f : string) : ObjectMeta :=
  meta_with_finalizers m (filter (fun g => g <> f) (Finalizers m)).

#[export] Instance lib : MetaLib := {|
  FindStatusCondition := find;
  SetStatusCondition := set;
  RemoveStatusCondition := remove;
  ContainsFinalizer m f := bool_decide (f ∈ Finalizers m);
  AddFinalizer := add_fin;
  RemoveFinalizer := remove_fin;
  selectorMatches sel ls := bool_decide (sel ⊆ ls)
|}.

Lemma find_cons c0 cs t :
  find (c0 :: cs) t = if decide (condType c0 = t) then Some c0 else find cs t.
Proof.
  unfold find; cbn. case_decide; [done|].
  destruct (list_find _ cs) as [[i c]|]; done.
Qed.

Lemma find_type' cs t c : find cs t = Some c -> condType c = t.
Proof.
  induction cs as [|c0 cs IH]; [done|]. rewrite find_cons.
  case_decide; naive_solver.
Qed.

Lemma set_types cs c :
  (condType <$> set cs c) = (condType <$> cs) \/
  ((condType c ∉ (condType <$> cs)) /\ (condType <$> set cs c) = ((condType <$> cs) ++ [condType c])).
Proof.
  induction cs as [|c0 cs IH]; cbn; [right; set_solver|].
  case_decide as E; cbn; [by left|].
  destruct IH as [->|[? ->]]; [by left | right].
  split; [set_solver | done].
Qed.

Lemma find_app_none cs cs' t : find cs t = None -> find (cs ++ cs') t = find cs' t.
Proof.
  induction cs as [|c0 cs IH]; [done|]. cbn [app]. rewrite !find_cons. by case_decide.
Qed.

Lemma find_set_eq cs c :
  exists c', find (set cs c) (condType c) = Some c' /\ condKey c' = condKey c.
Proof.
  induction cs as [|c0 cs IH]; cbn [set].
  - exists c. by rewrite find_cons, decide_True.
  - case_decide as E.
    + eexists. rewrite find_cons, decide_True by (cbn; done). split; [done|].
      unfold condKey; cbn. by rewrite E.
    + by rewrite find_cons, decide_False.
Qed.

Lemma find_set_ne' cs c t : t <> condType c -> find (set cs c) t = find cs t.
Proof.
  intros Ht. induction cs as [|c0 cs IH]; cbn [set].
  - by rewrite find_cons, decide_False.
  - case_decide as E; rewrite !find_cons; cbn.
    + by rewrite !decide_False by congruence.
    + by rewrite IH.
Qed.

Lemma set_same' cs c c0 :
  find cs (condType c) = Some c0 -> condKey c0 = condKey c -> set cs c = cs.
Proof.
  intros Hf Hk. induction cs as [|c1 cs IH]; [done|]. cbn [set].
  rewrite find_cons in Hf. case_decide as E.
  - injection Hf as ->. f_equal. unfold condKey in Hk. injection Hk as Ht Hs Hr Hm.
    destruct c0; cbn in *; subst. by rewrite decide_True.
  - by rewrite IH.
Qed.

Lemma find_remove' cs t : find (remove cs t) t = None.
Proof.
  unfold remove. induction cs as [|c0 cs IH]; [done|].
  rewrite filter_cons. case_decide; [|done]. by rewrite find_cons, decide_False.
Qed.

Lemma find_remove_ne' cs t t' : t' <> t -> find (remove cs t) t' = find cs t'.
Proof.
  intros Ht. unfold remove. induction cs as [|c0 cs IH]; [done|].
  rewrite filter_cons, find_cons. case_decide as E.
  - rewrite find_cons. by case_decide.
  - by rewrite decide_False by congruence.
Qed.

Lemma remove_unique' cs t : uniqueTypes cs -> uniqueTypes (remove cs t).
Proof.
  unfold uniqueTypes, remove. induction cs as [|c0 cs IH]; [done|].
  rewrite filter_cons. cbn. intros [Hn Hd]%NoDup_cons. case_decide; [|auto].
  cbn. apply NoDup_cons. split; [|auto]. contradict Hn.
  apply list_elem_of_fmap in Hn as (c & -> & Hc).
  apply list_elem_of_filter in Hc as [_ Hc]. by apply list_elem_of_fmap_2.
Qed.

#[export] Instance laws : MetaLaws.
Proof.
  split; cbn.
  - exact find_type'.
  - exact find_set_eq.
  - exact find_set_ne'.
  - intros cs c Hu. unfold uniqueTypes in *. destruct (set_types cs c) as [->|[Hn ->]]; [done|].
    apply NoDup_app. split_and!; [done | set_solver | apply NoDup_singleton].
  - exact set_same'.
  - exact find_remove'.
  - exact find_remove_ne'.
  - exact remove_unique'.
  - intros. apply bool_decide_eq_true.
  - intros m f g. unfold add_fin. case_decide; cbn; set_solver.
  - intros m f g. unfold remove_fin; cbn. rewrite list_elem_of_filter. done.
  - intros m f. unfold add_fin. case_decide; by destruct m.
  - intros m f. by destruct m.
  - intros. apply bool_decide_eq_true.
Qed.

End MetaRef.
