(* ===== verification/Gardener.v ===== *)
(** * Gardener API objects

    The part of Gardener's v1beta1 types that the code under src/ reads or
    writes, and the gardener helper functions it calls (class [GardenerLib]).
    A field of type [Opaque] stands for the rest of a third-party struct: the
    code copies and compares it and never looks inside. *)

From S2P Require Import Prelude Kube.

Definition Opaque : Type := string.

(** The bytes of a [runtime.RawExtension]. *)
Definition Raw : Type := string.

(** Encoding of a type [A] to bytes with encoding/json or sigs.k8s.io/yaml. *)
Class Codec (A : Type) := {
  marshal : A -> result Raw;
  unmarshal : Raw -> result A
}.
Arguments marshal {A _} a.
Arguments unmarshal {A _} r.
Class CodecLaws (A : Type) `{Codec A} : Prop := {
  unmarshal_marshal (a : A) r : marshal a = Ok r -> unmarshal r = Ok a
}.

(** A codec that knows a single value, for concrete examples. *)
Definition singleCodec {A} `{EqDecision A} (a0 : A) (bytes : Raw) : Codec A := {|
  marshal a := if decide (a = a0) then Ok bytes else Err (newError "unsupported value");
  unmarshal r := if decide (r = bytes) then Ok a0 else Err (newError "unsupported bytes")
|}.

Lemma singleCodec_laws {A} `{EqDecision A} (a0 : A) bytes :
  @CodecLaws A (singleCodec a0 bytes).
Proof.
  split; cbn. intros a r. destruct (decide (a = a0)) as [->|]; [|done]. intros [= <-].
  by rewrite decide_True.
Qed.

(** A codec that knows the values of a table. *)
Fixpoint tableMarshal {A} `{EqDecision A} (table : list (A * Raw)) (a : A) : result Raw :=
  match table with
  | [] => Err (newError "unsupported value")
  | (a0, bytes) :: rest => if decide (a = a0) then Ok bytes else tableMarshal rest a
  end.
Fixpoint tableUnmarshal {A} (table : list (A * Raw)) (r : Raw) : result A :=
  match table with
  | [] => Err (newError "unsupported bytes")
  | (a0, bytes) :: rest => if decide (r = bytes) then Ok a0 else tableUnmarshal rest r
  end.
Definition tableCodec {A} `{EqDecision A} (table : list (A * Raw)) : Codec A := {|
  marshal := tableMarshal table;
  unmarshal := tableUnmarshal table
|}.

Lemma tableCodec_laws {A} `{EqDecision A} (table : list (A * Raw)) :
  NoDup table.*2 -> @CodecLaws A (tableCodec table).
Proof.
  intros Hnd. split; cbn. intros a r. induction table as [|[a0 bytes] rest IH]; cbn; [done|].
  apply NoDup_cons in Hnd as [Hni Hnd]. destruct (decide (a = a0)) as [->|].
  - intros [= <-]. by rewrite decide_True.
  - intros Hm. rewrite decide_False; [by apply IH|]. intros ->. apply Hni. clear -Hm.
    induction rest as [|[a1 b] rest IH]; cbn in *; [done|].
    destruct (decide (a = a1)); [injection Hm as ->; by left|right; by apply IH].
Qed.

(** ** Operations and errors of a Shoot *)

Inductive LastOperationState :=
| LastOperationStateProcessing
| LastOperationStateSucceeded
| LastOperationStateError
| LastOperationStateFailed
| LastOperationStatePending
| LastOperationStateAborted
| LastOperationStateOther (s : string).

Inductive LastOperationType :=
| LastOperationTypeCreate
| LastOperationTypeReconcile
| LastOperationTypeDelete
| LastOperationTypeOther (s : string).

Record LastOperation := mkLastOperation {
  loDescription : string;
  loLastUpdateTime : Z;
  loProgress : Z;
  loState : LastOperationState;
  loType : LastOperationType
}.

Inductive ErrorCode :=
| ErrorInfraUnauthenticated
| ErrorInfraUnauthorized
| ErrorInfraRateLimitsExceeded
| ErrorInfraQuotaExceeded
| ErrorInfraDependencies
| ErrorConfigurationProblem
| ErrorProblematicWebhook
| ErrorCodeOther (s : string).

Record LastError := mkLastError {
  leDescription : string;
  leTaskID : option string;
  leCodes : list ErrorCode;
  leLastUpdateTime : option Z
}.

#[export] Instance LastOperationState_eq_dec : EqDecision LastOperationState.
Proof. solve_decision. Defined.
#[export] Instance LastOperationType_eq_dec : EqDecision LastOperationType.
Proof. solve_decision. Defined.
#[export] Instance LastOperation_eq_dec : EqDecision LastOperation.
Proof. solve_decision. Defined.
#[export] Instance ErrorCode_eq_dec : EqDecision ErrorCode.
Proof. solve_decision. Defined.
#[export] Instance LastError_eq_dec : EqDecision LastError.
Proof. solve_decision. Defined.

(** ** Workers *)

Record ShootMachineImage := mkImage { imgName : string; imgVersion : option string }.

Record ContainerRuntime := mkContainerRuntime { crType : string; crProviderConfig : option Raw }.
Record CRI := mkCRI { criName : string; criContainerRuntimes : list ContainerRuntime }.

Record KubeletConfig := mkKubelet {
  kubeletMaxPods : option Z;
  kubeletFeatureGates : list (string * bool);
  kubeletRest : Opaque
}.
Record WorkerKubernetes := mkWorkerKubernetes {
  wkKubelet : option KubeletConfig;
  wkRest : Opaque
}.
Record MachineControllerManagerSettings := mkMCM {
  mcmMachineDrainTimeout : option Z;
  mcmMaxEvictRetries : option Z;
  mcmRest : Opaque
}.

Record Worker := mkWorker {
  wName : string;
  wMachineType : string;
  wMachineImage : option ShootMachineImage;
  wMinimum : Z;
  wMaximum : Z;
  wZones : list string;
  wKubernetes : option WorkerKubernetes;
  wCRI : option CRI;
  wProviderConfig : option Raw;
  wUpdateStrategy : option string;
  wMCMSettings : option MachineControllerManagerSettings;
  wRest : Opaque
}.

#[export] Instance ShootMachineImage_eq_dec : EqDecision ShootMachineImage.
Proof. solve_decision. Defined.
#[export] Instance ContainerRuntime_eq_dec : EqDecision ContainerRuntime.
Proof. solve_decision. Defined.
#[export] Instance CRI_eq_dec : EqDecision CRI.
Proof. solve_decision. Defined.
#[export] Instance KubeletConfig_eq_dec : EqDecision KubeletConfig.
Proof. solve_decision. Defined.
#[export] Instance WorkerKubernetes_eq_dec : EqDecision WorkerKubernetes.
Proof. solve_decision. Defined.
#[export] Instance MachineControllerManagerSettings_eq_dec : EqDecision MachineControllerManagerSettings.
Proof. solve_decision. Defined.
#[export] Instance Worker_eq_dec : EqDecision Worker.
Proof. solve_decision. Defined.

Definition worker_with_image (w : Worker) (i : option ShootMachineImage) : Worker :=
  mkWorker (wName w) (wMachineType w) i (wMinimum w) (wMaximum w) (wZones w) (wKubernetes w)
    (wCRI w) (wProviderConfig w) (wUpdateStrategy w) (wMCMSettings w) (wRest w).
Definition worker_with_zones (w : Worker) (z : list string) : Worker :=
  mkWorker (wName w) (wMachineType w) (wMachineImage w) (wMinimum w) (wMaximum w) z (wKubernetes w)
    (wCRI w) (wProviderConfig w) (wUpdateStrategy w) (wMCMSettings w) (wRest w).
Definition worker_with_kubernetes (w : Worker) (k : option WorkerKubernetes) : Worker :=
  mkWorker (wName w) (wMachineType w) (wMachineImage w) (wMinimum w) (wMaximum w) (wZones w) k
    (wCRI w) (wProviderConfig w) (wUpdateStrategy w) (wMCMSettings w) (wRest w).
Definition worker_with_cri (w : Worker) (c : option CRI) : Worker :=
  mkWorker (wName w) (wMachineType w) (wMachineImage w) (wMinimum w) (wMaximum w) (wZones w)
    (wKubernetes w) c (wProviderConfig w) (wUpdateStrategy w) (wMCMSettings w) (wRest w).
Definition worker_with_provider_config (w : Worker) (p : option Raw) : Worker :=
  mkWorker (wName w) (wMachineType w) (wMachineImage w) (wMinimum w) (wMaximum w) (wZones w)
    (wKubernetes w) (wCRI w) p (wUpdateStrategy w) (wMCMSettings w) (wRest w).
Definition worker_with_update_strategy (w : Worker) (u : option string) : Worker :=
  mkWorker (wName w) (wMachineType w) (wMachineImage w) (wMinimum w) (wMaximum w) (wZones w)
    (wKubernetes w) (wCRI w) (wProviderConfig w) u (wMCMSettings w) (wRest w).
Definition worker_with_mcm (w : Worker) (m : option MachineControllerManagerSettings) : Worker :=
  mkWorker (wName w) (wMachineType w) (wMachineImage w) (wMinimum w) (wMaximum w) (wZones w)
    (wKubernetes w) (wCRI w) (wProviderConfig w) (wUpdateStrategy w) m (wRest w).

(** [w.Kubernetes.Kubelet.MaxPods], [None] when a pointer on the way is nil. *)
Definition wMaxPods (w : Worker) : option Z :=
  k ← wKubernetes w; l ← wkKubelet k; kubeletMaxPods l.

(** ** The Shoot *)

Record OIDCConfig := mkOIDC {
  oidcClientID : option string;
  oidcGroupsClaim : option string;
  oidcGroupsPrefix : option string;
  oidcIssuerURL : option string;
  oidcRequiredClaims : gmap string string;
  oidcSigningAlgs : list string;
  oidcUsernameClaim : option string;
  oidcUsernamePrefix : option string
}.

Record ServiceAccountConfig := mkServiceAccountConfig {
  saExtendTokenExpiration : option bool;
  saMaxTokenExpiration : option Z
}.

Record KubeAPIServerConfig := mkKubeAPIServer {
  kasFeatureGates : gmap string bool;
  kasRuntimeConfig : gmap string bool;
  kasOIDCConfig : option OIDCConfig;
  kasStructuredAuthentication : option string;     (* .ConfigMapName *)
  kasAuditPolicyConfigMap : option string;         (* .AuditConfig.AuditPolicy.ConfigMapRef.Name *)
  kasServiceAccountConfig : option ServiceAccountConfig
}.

Record ShootKubernetes := mkShootKubernetes {
  skVersion : string;
  skKubeAPIServer : option KubeAPIServerConfig;
  skKubelet : option (gmap string bool)            (* .FeatureGates *)
}.

Inductive IPFamily := IPFamilyIPv4 | IPFamilyIPv6.
#[export] Instance IPFamily_eq_dec : EqDecision IPFamily.
Proof. solve_decision. Defined.

Record ShootNetworking := mkShootNetworking {
  snType : option string;
  snPods : option string;
  snNodes : option string;
  snServices : option string;
  snIPFamilies : list IPFamily;
  snProviderConfig : option Raw
}.

Record ShootDNSProvider := mkShootDNSProvider {
  sdpInclude : list string;
  sdpPrimary : option bool;
  sdpType : option string;
  sdpCredentialsRef : option ObjRef
}.
Record ShootDNS := mkShootDNS {
  dnsDomain : option string;
  dnsProviders : list ShootDNSProvider
}.

Record Extension := mkExtension {
  extType : string;
  extProviderConfig : option Raw;
  extDisabled : option bool
}.

Record NamedResourceReference := mkResource { resName : string; resRef : ObjRef }.

Record MaintenanceTimeWindow := mkWindow { mtwBegin : string; mtwEnd : string }.
Record Maintenance := mkMaintenance {
  mAutoUpdateKubernetes : bool;
  mAutoUpdateMachineImage : option bool;
  mTimeWindow : option MaintenanceTimeWindow
}.

Record Toleration := mkToleration { tolKey : string; tolValue : option string }.
Record AccessRestriction := mkAccessRestriction { arName : string; arOptions : gmap string string }.

Record ShootProvider := mkShootProvider {
  spType : string;
  spControlPlaneConfig : option Raw;
  spInfrastructureConfig : option Raw;
  spWorkers : list Worker;
  spWorkersSettingsSSH : option bool               (* .WorkersSettings.SSHAccess.Enabled *)
}.

#[export] Instance ObjExtension_eq_dec : EqDecision Extension.
Proof. solve_decision. Defined.
#[export] Instance NamedResourceReference_eq_dec : EqDecision NamedResourceReference.
Proof. solve_decision. Defined.

Record ShootSpec := mkShootSpec {
  ssPurpose : option string;
  ssRegion : string;
  ssControlPlane : option Opaque;
  ssCloudProfile : option (string * string);       (* Kind, Name *)
  ssDNS : option ShootDNS;
  ssExtensions : list Extension;
  ssKubernetes : ShootKubernetes;
  ssNetworking : option ShootNetworking;
  ssProvider : ShootProvider;
  ssSecretBindingName : option string;
  ssCredentialsBindingName : option string;
  ssSeedName : option string;
  ssSeedSelector : option (gmap string string);    (* .MatchLabels *)
  ssResources : list NamedResourceReference;
  ssTolerations : list Toleration;
  ssExposureClassName : option string;
  ssAccessRestrictions : list AccessRestriction;
  ssMaintenance : option Maintenance
}.

Record ShootStatus := mkShootStatus {
  stLastOperation : option LastOperation;
  stLastErrors : list LastError;
  stObservedGeneration : Z
}.

Record Shoot := mkShoot {
  shootKind : string;
  shootAPIVersion : string;
  shootMeta : ObjectMeta;
  shootSpec : ShootSpec;
  shootStatus : ShootStatus
}.

Definition emptyShootSpec : ShootSpec :=
  mkShootSpec None "" None None None [] (mkShootKubernetes "" None None) None
    (mkShootProvider "" None None [] None) None None None None [] [] None [] None.
Definition emptyShootStatus : ShootStatus := mkShootStatus None [] 0.
Definition emptyShoot : Shoot :=
  mkShoot "" "" (metaNamed "" "") emptyShootSpec emptyShootStatus.

Definition shoot_with_meta (s : Shoot) (m : ObjectMeta) : Shoot :=
  mkShoot (shootKind s) (shootAPIVersion s) m (shootSpec s) (shootStatus s).
Definition shoot_with_spec (s : Shoot) (sp : ShootSpec) : Shoot :=
  mkShoot (shootKind s) (shootAPIVersion s) (shootMeta s) sp (shootStatus s).

(** ** Seeds *)

Inductive SeedConditionType :=
| GardenletReady
| SeedBackupBucketsReady
| SeedConditionOther (s : string).
#[export] Instance SeedConditionType_eq_dec : EqDecision SeedConditionType.
Proof. solve_decision. Defined.

Record SeedCondition := mkSeedCondition {
  scType : SeedConditionType;
  scStatusTrue : bool                              (* Status == ConditionTrue *)
}.

Record Seed := mkSeed {
  seedName : string;
  seedDeletionTimestamp : option Z;
  seedProviderType : string;
  seedProviderRegion : string;
  seedSettings : option (option bool);             (* .Settings, .Scheduling, .Visible *)
  seedHasBackup : bool;                            (* .Backup != nil *)
  seedLastOperation : option LastOperation;
  seedConditions : list SeedCondition
}.

(** ** The library functions *)

Class GardenerLib := {
  errorCodeText : ErrorCode -> string;
  (** v1beta1helper.HasNonRetryableErrorCode *)
  HasNonRetryableErrorCode : list LastError -> bool;
  (** v1beta1helper.GetCondition *)
  GetCondition : list SeedCondition -> SeedConditionType -> option SeedCondition;
  (** Masterminds/semver: NewVersion and Compare, -1, 0 or 1 *)
  semverCompare : string -> string -> result Z
}.

Class GardenerLaws `{GardenerLib} : Prop := {
  get_condition_type cs t c : GetCondition cs t = Some c -> scType c = t /\ c ∈ cs;
  get_condition_none cs t : GetCondition cs t = None -> forall c, c ∈ cs -> scType c <> t;
  semver_refl v r : semverCompare v v = Ok r -> r = 0%Z;
  semver_antisym v w r : semverCompare v w = Ok r -> semverCompare w v = Ok (- r)%Z
}.
