(* ===== verification/RuntimeApi.v ===== *)
(** * The custom resources of the operator (api/v1)

    The [Runtime] and [GardenerCluster] objects, their states, condition types
    and reasons, and the methods that change their status.  A method that calls
    [metav1.Now()] takes the time as its first argument. *)

From S2P Require Import Prelude Kube Gardener.

Local Open Scope string_scope.

(** ** Names *)

(*@consts src/api/v1/runtime_types.go:34-37 *)
Definition Finalizer : string :=
  "runtime-controller.infrastructure-manager.kyma-project.io/deletion-hook".
Definition AnnotationGardenerCloudDelConfirmation : string := "confirmation.gardener.cloud/deletion".

(*@consts src/api/v1/runtime_types.go:39-52 *)
Definition LabelKymaInstanceID : string := "kyma-project.io/instance-id".
Definition LabelKymaRuntimeID : string := "kyma-project.io/runtime-id".
Definition LabelKymaShootName : string := "kyma-project.io/shoot-name".
Definition LabelKymaRegion : string := "kyma-project.io/region".
Definition LabelKymaName : string := "operator.kyma-project.io/kyma-name".
Definition LabelKymaBrokerPlanID : string := "kyma-project.io/broker-plan-id".
Definition LabelKymaBrokerPlanName : string := "kyma-project.io/broker-plan-name".
Definition LabelKymaGlobalAccountID : string := "kyma-project.io/global-account-id".
Definition LabelKymaSubaccountID : string := "kyma-project.io/subaccount-id".
Definition LabelKymaManagedBy : string := "operator.kyma-project.io/managed-by".
Definition LabelKymaInternal : string := "operator.kyma-project.io/internal".
Definition LabelKymaPlatformRegion : string := "kyma-project.io/platform-region".

(*@consts src/api/v1/runtime_types.go:54-59 *)
Definition RuntimeStateReady : string := "Ready".
Definition RuntimeStateFailed : string := "Failed".
Definition RuntimeStatePending : string := "Pending".
Definition RuntimeStateTerminating : string := "Terminating".

(*@consts src/api/v1/runtime_types.go:61-74 *)
Definition ConditionTypeRuntimeProvisioned : string := "Provisioned".
Definition ConditionTypeRuntimeKubeconfigReady : string := "KubeconfigReady".
Definition ConditionTypeOidcAndCMsConfigured : string := "OidcAndConfigMapConfigured".
Definition ConditionTypeKymaSystemCreated : string := "KymaSystemNSCreated".
Definition ConditionTypeRuntimeConfigured : string := "Configured".
Definition ConditionTypeRuntimeDeprovisioned : string := "Deprovisioned".
Definition ConditionTypeRegistryCacheConfigured : string := "RegistryCacheConfigured".
Definition ConditionTypeRuntimeBootstrapperReady : string := "RuntimeBootstrapperReady".
Definition ConditionTypeCustomAuditLogConfigured : string := "CustomAuditLogConfigured".
Definition ConditionTypeAuditLogCredentialsCopied : string := "AuditLogCredentialsCopied".

(*@consts src/api/v1/runtime_types.go:76-126 *)
Definition ConditionReasonProcessing : string := "Processing".
Definition ConditionReasonProcessingErr : string := "ProcessingErr".
Definition ConditionReasonInitialized : string := "Initialised".
Definition ConditionReasonShootCreationPending : string := "Pending".
Definition ConditionReasonShootCreationCompleted : string := "ShootCreationCompleted".
Definition ConditionReasonGardenerCRCreated : string := "GardenerClusterCRCreated".
Definition ConditionReasonGardenerCRReady : string := "GardenerClusterCRReady".
Definition ConditionReasonConfigurationCompleted : string := "ConfigurationCompleted".
Definition ConditionReasonConfigurationErr : string := "ConfigurationError".
Definition ConditionReasonGardenerCRDeleted : string := "GardenerClusterCRDeleted".
Definition ConditionReasonGardenerShootDeleted : string := "GardenerShootDeleted".
Definition ConditionReasonStructuredConfigDeleted : string := "StructuredConfigDeleted".
Definition ConditionReasonConversionError : string := "ConversionErr".
Definition ConditionReasonCreationError : string := "CreationErr".
Definition ConditionReasonGardenerError : string := "GardenerErr".
Definition ConditionReasonKubernetesAPIErr : string := "KubernetesErr".
Definition ConditionReasonAuditLogError : string := "AuditLogErr".
Definition ConditionReasonCustomAuditLogError : string := "CustomAuditLogErr".
Definition ConditionReasonCustomAuditLogConfigured : string := "CustomAuditLogConfigured".
Definition ConditionReasonCredentialsCopyError : string := "CredentialsCopyErr".
Definition ConditionReasonCredentialsCopied : string := "CredentialsCopied".
Definition ConditionReasonAdministratorsConfigured : string := "AdministratorsConfigured".
Definition ConditionReasonOidcAndCMsConfigured : string := "OidcAndConfigMapsConfigured".
Definition ConditionReasonOidcError : string := "OidcConfigurationErr".
Definition ConditionReasonCMError : string := "ConfigMapErr".
Definition ConditionReasonKymaSystemNSError : string := "KymaSystemNSError".
Definition ConditionReasonKymaSystemNSReady : string := "KymaSystemNSReady".
Definition ConditionReasonSeedNotFound : string := "SeedNotFound".
Definition ConditionReasonRegistryCacheConfigured : string := "RegistryCacheConfigured".
Definition ConditionReasonRegistryCacheGardenClusterConfigurationFailed : string :=
  "RegistryCacheGardenClusterConfigurationFailed".
Definition ConditionReasonRegistryCacheGardenClusterCleanupFailed : string :=
  "RegistryCacheGardenClusterCleanupFailed".
Definition ConditionReasonRuntimeBootstrapperStatusUnknown : string := "RuntimeBootstrapperStatusUnknown".
Definition ConditionReasonRuntimeBootstrapperInstallationFailed : string :=
  "RuntimeBootstrapperInstallationFailed".
Definition ConditionReasonRuntimeBootstrapperInstallationInProgress : string :=
  "RuntimeBootstrapperInstallationInProgress".
Definition ConditionReasonRuntimeBootstrapperConfigured : string := "RuntimeBootstrapperConfigured".
Definition ConditionReasonRuntimeBootstrapperUpgradeFailed : string := "RuntimeBootstrapperUpgradeFailed".
Definition ConditionReasonRuntimeBootstrapperUpgradeInProgress : string :=
  "RuntimeBootstrapperUpgradeInProgress".
Definition ConditionReasonRuntimeBootstrapperConfigurationFailed : string :=
  "RuntimeBootstrapperConfigurationFailed".

(** ** The Runtime resource *)

(** registry-cache's RegistryCacheConfigSpec *)
Record CacheVolume := mkCacheVolume { cvolSize : option Opaque; cvolStorageClassName : option string }.
Record CacheProxy := mkCacheProxy { cproxyHTTP : option string; cproxyHTTPS : option string }.
Record RegistryCacheConfigSpec := mkRegistryCacheConfigSpec {
  rcUpstream : string;
  rcRemoteURL : option string;
  rcVolume : option CacheVolume;
  rcGarbageCollection : option Z;                  (* .TTL *)
  rcSecretReferenceName : option string;
  rcProxy : option CacheProxy
}.

(*@ src/api/v1/runtime_types.go:163-168 ImageRegistryCache *)
Record ImageRegistryCache := mkCache {
  cacheName : string;
  cacheNamespace : string;
  cacheUID : string;
  cacheConfig : RegistryCacheConfigSpec
}.

(*@ src/api/v1/runtime_types.go:170-192 RuntimeStatus *)
Record RuntimeStatus := mkStatus {
  State : string;
  Conditions : list Condition;
  ProvisioningCompleted : bool;
  ShootLastOperation : option LastOperation;
  ShootLastErrors : list LastError;
  AuditLogCR : string
}.

(*@ src/api/v1/runtime_types.go:229-236 Provider *)
Record RuntimeProvider := mkRuntimeProvider {
  rpType : string;
  rpWorkers : list Worker;
  rpAdditionalWorkers : option (list Worker);
  rpControlPlaneConfig : option Raw;
  rpInfrastructureConfig : option Raw
}.

(*@ src/api/v1/runtime_types.go:238-245 Networking *)
Record RuntimeNetworking := mkRuntimeNetworking {
  rnType : option string;
  rnPods : string;
  rnNodes : string;
  rnServices : string;
  rnDualStack : option bool;
  rnVPCNetwork : option string
}.

(*@ src/api/v1/runtime_types.go:214-219 OIDCConfig *)
Record RuntimeOIDCConfig := mkRuntimeOIDC { roOIDC : OIDCConfig; roJWKS : string }.

(*@ src/api/v1/runtime_types.go:221-228 APIServer *)
Record RuntimeAPIServer := mkRuntimeAPIServer {
  raOidcConfig : OIDCConfig;
  raAdditionalOidcConfig : option (list RuntimeOIDCConfig);
  raACL : option (list string)                     (* .AllowedCIDRs *)
}.

(*@ src/api/v1/runtime_types.go:209-212 Kubernetes *)
Record RuntimeKubernetes := mkRuntimeKubernetes {
  rkVersion : option string;
  rkKubeAPIServer : RuntimeAPIServer
}.

(*@ src/api/v1/runtime_types.go:194-207 RuntimeShoot *)
Record RuntimeShoot := mkRuntimeShoot {
  rsName : string;
  rsPurpose : string;
  rsPlatformRegion : string;
  rsRegion : string;
  rsLicenceType : option string;
  rsSecretBindingName : string;
  rsEnforceSeedLocation : option bool;
  rsEnableNvidiaOpenshell : option bool;
  rsKubernetes : RuntimeKubernetes;
  rsProvider : RuntimeProvider;
  rsNetworking : RuntimeNetworking;
  rsControlPlane : option Opaque
}.

(*@ src/api/v1/runtime_types.go:246-270 Security *)
Record Filter := mkFilter {
  filterIngress : option bool;                     (* .Ingress.Enabled *)
  filterEgress : bool                              (* .Egress.Enabled *)
}.
Record Security := mkSecurity { Administrators : list string; secFilter : Filter }.

(*@ src/api/v1/runtime_types.go:153-161 RuntimeSpec *)
Record RuntimeSpec := mkRuntimeSpec {
  rShoot : RuntimeShoot;
  rSecurity : Security;
  rCaching : list ImageRegistryCache;
  rAuditLogAccessEnabled : option bool
}.

(*@ src/api/v1/runtime_types.go:135-142 Runtime *)
Record Runtime := mkRuntime {
  rtMeta : ObjectMeta;
  rtSpec : RuntimeSpec;
  rtStatus : RuntimeStatus
}.

#[export] Instance RuntimeStatus_eq_dec : EqDecision RuntimeStatus.
Proof. solve_decision. Defined.

Definition runtime_with_status (k : Runtime) (st : RuntimeStatus) : Runtime :=
  mkRuntime (rtMeta k) (rtSpec k) st.
Definition runtime_with_meta (k : Runtime) (m : ObjectMeta) : Runtime :=
  mkRuntime m (rtSpec k) (rtStatus k).
Definition runtime_with_spec (k : Runtime) (sp : RuntimeSpec) : Runtime :=
  mkRuntime (rtMeta k) sp (rtStatus k).

Definition status_with (st : RuntimeStatus) (state : string) (cs : list Condition) : RuntimeStatus :=
  mkStatus state cs (ProvisioningCompleted st) (ShootLastOperation st) (ShootLastErrors st)
    (AuditLogCR st).

(** ** Methods of Runtime *)

Section Methods.
Context `{MetaLib}.

(** The common body of the four [UpdateState*] methods. *)
Definition setState (now : Z) (state c r : string) (status : ConditionStatus) (msg : string)
    (k : Runtime) : Runtime :=
  runtime_with_status k
    (status_with (rtStatus k) state
       (SetStatusCondition (Conditions (rtStatus k)) (mkCondition c status now r msg))).

(*@ src/api/v1/runtime_types.go:276-286 UpdateStateReady *)
Definition UpdateStateReady (now : Z) (c r msg : string) (k : Runtime) : Runtime :=
  setState now RuntimeStateReady c r ConditionTrue msg k.

(*@ src/api/v1/runtime_types.go:288-299 UpdateStateDeletion *)
Definition UpdateStateDeletion (now : Z) (c r : string) (status : ConditionStatus) (msg : string)
    (k : Runtime) : Runtime :=
  setState now RuntimeStateTerminating c r status msg k.

(*@ src/api/v1/runtime_types.go:301-311 UpdateStateFailed *)
Definition UpdateStateFailed (now : Z) (c r msg : string) (k : Runtime) : Runtime :=
  setState now RuntimeStateFailed c r ConditionFalse msg k.

(*@ src/api/v1/runtime_types.go:313-324 UpdateStatePending *)
Definition UpdateStatePending (now : Z) (c r : string) (status : ConditionStatus) (msg : string)
    (k : Runtime) : Runtime :=
  setState now RuntimeStatePending c r status msg k.

(*@ src/api/v1/runtime_types.go:326-328 UpdateStateProvisioningCompleted *)
Definition UpdateStateProvisioningCompleted (k : Runtime) : Runtime :=
  runtime_with_status k
    (mkStatus (State (rtStatus k)) (Conditions (rtStatus k)) true (ShootLastOperation (rtStatus k))
       (ShootLastErrors (rtStatus k)) (AuditLogCR (rtStatus k))).

(*@ src/api/v1/runtime_types.go:330-332 IsProvisioningCompletedStatusSet *)
Definition IsProvisioningCompletedStatusSet (k : Runtime) : bool :=
  ProvisioningCompleted (rtStatus k).

(*@ src/api/v1/runtime_types.go:342-348 IsConditionSet *)
Definition IsConditionSet (k : Runtime) (c r : string) : bool :=
  match FindStatusCondition (Conditions (rtStatus k)) c with
  | Some condition => String.eqb (condReason condition) r
  | None => false
  end.

(*@ src/api/v1/runtime_types.go:334-340 IsStateWithConditionSet *)
Definition IsStateWithConditionSet (k : Runtime) (runtimeState c r : string) : bool :=
  if negb (String.eqb (State (rtStatus k)) runtimeState) then false
  else IsConditionSet k c r.

(*@ src/api/v1/runtime_types.go:358-364 IsConditionSetWithStatus *)
Definition IsConditionSetWithStatus (k : Runtime) (c r : string) (s : ConditionStatus) : bool :=
  match FindStatusCondition (Conditions (rtStatus k)) c with
  | Some condition =>
      String.eqb (condReason condition) r && bool_decide (condStatus condition = s)
  | None => false
  end.

(*@ src/api/v1/runtime_types.go:350-356 IsStateWithConditionAndStatusSet *)
Definition IsStateWithConditionAndStatusSet (k : Runtime) (runtimeState c r : string)
    (s : ConditionStatus) : bool :=
  if negb (String.eqb (State (rtStatus k)) runtimeState) then false
  else IsConditionSetWithStatus k c r s.

Definition requiredLabelKeys : list string :=
  [LabelKymaInstanceID; LabelKymaRuntimeID; LabelKymaRegion; LabelKymaName;
   LabelKymaBrokerPlanID; LabelKymaBrokerPlanName; LabelKymaGlobalAccountID; LabelKymaSubaccountID].

(** The loop over the required keys: the first missing label is reported. *)
Fixpoint checkLabels (labels : gmap string string) (keys : list string) : option GoError :=
  match keys with
  | [] => None
  | key :: keys' =>
      if String.eqb (mapGet labels key) ""
      then Some (newError ("missing required label " +:+ key))
      else checkLabels labels keys'
  end.

(*@ src/api/v1/runtime_types.go:366-384 ValidateRequiredLabels *)
Definition ValidateRequiredLabels (k : Runtime) : option GoError :=
  checkLabels (Labels (rtMeta k)) requiredLabelKeys.

(*@ src/api/v1/runtime_types.go:387-389 IsDedicatedAuditLogEnabled *)
Definition IsDedicatedAuditLogEnabled (k : Runtime) : bool :=
  isTrue (rAuditLogAccessEnabled (rtSpec k)).

End Methods.

(** ** Reconciliation annotations (pkg/reconciler) *)

(*@consts src/pkg/reconciler/annotations_utils.go:3-6 *)
Definition ForceReconcileAnnotation : string := "operator.kyma-project.io/force-patch-reconciliation".
Definition SuspendReconcileAnnotation : string :=
  "operator.kyma-project.io/suspend-patch-reconciliation".

(*@ src/pkg/reconciler/annotations_utils.go:8-14 ShouldSuspendReconciliation *)
Definition ShouldSuspendReconciliation (annotations : gmap string string) : bool :=
  match annotations !! SuspendReconcileAnnotation with
  | Some suspendValue => String.eqb suspendValue "true"
  | None => false
  end.

(*@ src/pkg/reconciler/annotations_utils.go:16-22 ShouldForceReconciliation *)
Definition ShouldForceReconciliation (annotations : gmap string string) : bool :=
  match annotations !! ForceReconcileAnnotation with
  | Some forceReconciliation => String.eqb forceReconciliation "true"
  | None => false
  end.

(** ** The GardenerCluster resource *)

(*@consts src/api/v1/gardenercluster_types.go:74-79 *)
Definition ReadyState : string := "Ready".
Definition ErrorState : string := "Error".

(*@ src/api/v1/gardenercluster_types.go:81-97 ConditionReason *)
Inductive ClusterConditionReason :=
| ConditionReasonKubeconfigSecretCreated
| ConditionReasonKubeconfigSecretRotated
| ConditionReasonFailedToGetSecret
| ConditionReasonFailedToCreateSecret
| ConditionReasonFailedToDeleteSecret
| ConditionReasonFailedToUpdateSecret
| ConditionReasonFailedToGetKubeconfig.
Definition ConditionTypeKubeconfigManagement : string := "KubeconfigManagement".

Definition clusterReasonText (r : ClusterConditionReason) : string :=
  match r with
  | ConditionReasonKubeconfigSecretCreated => "KubeconfigSecretCreated"
  | ConditionReasonKubeconfigSecretRotated => "KubeconfigSecretRotated"
  | ConditionReasonFailedToGetSecret => "FailedToCheckSecret"
  | ConditionReasonFailedToCreateSecret => "ConditionReasonFailedToCreateSecret"
  | ConditionReasonFailedToDeleteSecret => "ConditionReasonFailedToDeleteSecret"
  | ConditionReasonFailedToUpdateSecret => "FailedToUpdateSecret"
  | ConditionReasonFailedToGetKubeconfig => "FailedToGetKubeconfig"
  end.

(*@ src/api/v1/gardenercluster_types.go:33-72 GardenerCluster *)
Record GardenerCluster := mkGardenerCluster {
  gcMeta : ObjectMeta;
  gcShootName : string;                            (* .Spec.Shoot.Name *)
  gcSecretName : string;                           (* .Spec.Kubeconfig.Secret *)
  gcSecretNamespace : string;
  gcSecretKey : string;
  gcState : string;                                (* .Status.State *)
  gcConditions : list Condition                    (* .Status.Conditions *)
}.

(*@ src/api/v1/gardenercluster_types.go:140-158 getMessage *)
Definition getMessage (reason : ClusterConditionReason) : string :=
  match reason with
  | ConditionReasonKubeconfigSecretCreated => "Secret created successfully."
  | ConditionReasonKubeconfigSecretRotated => "Secret rotated successfully."
  | ConditionReasonFailedToCreateSecret => "Failed to create secret."
  | ConditionReasonFailedToUpdateSecret => "Failed to rotate secret."
  | ConditionReasonFailedToGetSecret => "Failed to get secret."
  | ConditionReasonFailedToGetKubeconfig => "Failed to get kubeconfig."
  | _ => "Unknown condition"
  end.

Section ClusterMethods.
Context `{MetaLib}.

Definition setClusterCondition (state : string) (c : Condition) (cluster : GardenerCluster) :
    GardenerCluster :=
  mkGardenerCluster (gcMeta cluster) (gcShootName cluster) (gcSecretName cluster)
    (gcSecretNamespace cluster) (gcSecretKey cluster) state
    (SetStatusCondition (RemoveStatusCondition (gcConditions cluster) (condType c)) c).

(*@ src/api/v1/gardenercluster_types.go:112-124 UpdateConditionForReadyState *)
Definition UpdateConditionForReadyState (now : Z) (conditionType : string)
    (reason : ClusterConditionReason) (conditionStatus : ConditionStatus)
    (cluster : GardenerCluster) : GardenerCluster :=
  setClusterCondition ReadyState
    (mkCondition conditionType conditionStatus now (clusterReasonText reason) (getMessage reason))
    cluster.

(*@ src/api/v1/gardenercluster_types.go:126-138 UpdateConditionForErrorState *)
Definition UpdateConditionForErrorState (now : Z) (conditionType : string)
    (reason : ClusterConditionReason) (error : GoError) (cluster : GardenerCluster) :
    GardenerCluster :=
  setClusterCondition ErrorState
    (mkCondition conditionType ConditionFalse now (clusterReasonText reason)
       (getMessage reason +:+ " Error: " +:+ errText error))
    cluster.

End ClusterMethods.

(** ** Lemmas *)

Section Lemmas.
Context `{MetaLib} `{!MetaLaws}.

Lemma setState_found now state c r st msg k :
  IsStateWithConditionAndStatusSet (setState now state c r st msg k) state c r st = true.
Proof.
  unfold IsStateWithConditionAndStatusSet, IsConditionSetWithStatus, setState; cbn.
  rewrite String.eqb_refl. cbn.
  destruct (find_set (Conditions (rtStatus k)) (mkCondition c st now r msg)) as (c' & Hf & Hk).
  cbn in Hf. rewrite Hf. unfold condKey in Hk; cbn in Hk. injection Hk as _ -> -> _.
  by rewrite String.eqb_refl, bool_decide_true.
Qed.

(** What a recorded condition leaves of the Runtime. *)
Definition onlyCondition (c : string) (k k' : Runtime) : Prop :=
  rtMeta k' = rtMeta k /\ rtSpec k' = rtSpec k /\
  ProvisioningCompleted (rtStatus k') = ProvisioningCompleted (rtStatus k) /\
  ShootLastOperation (rtStatus k') = ShootLastOperation (rtStatus k) /\
  ShootLastErrors (rtStatus k') = ShootLastErrors (rtStatus k) /\
  (forall t, t <> c -> FindStatusCondition (Conditions (rtStatus k')) t =
                       FindStatusCondition (Conditions (rtStatus k)) t) /\
  (uniqueTypes (Conditions (rtStatus k)) -> uniqueTypes (Conditions (rtStatus k'))).

Lemma setState_frame now state c r st msg k :
  onlyCondition c k (setState now state c r st msg k).
Proof.
  split_and!; try done; cbn.
  - intros t Ht. by apply find_set_ne.
  - apply set_unique.
Qed.

(** Recording a condition that is there already changes nothing. *)
Lemma setState_same now state c r st msg k c0 :
  State (rtStatus k) = state -> FindStatusCondition (Conditions (rtStatus k)) c = Some c0 ->
  condKey c0 = (c, st, r, msg) -> setState now state c r st msg k = k.
Proof.
  intros Hs Hf Hk. unfold setState, runtime_with_status, status_with.
  rewrite (set_same _ (mkCondition c st now r msg) c0) by done.
  destruct k as [me sp [s cs pc lo le al]]; cbn in *. by subst.
Qed.

End Lemmas.

(** ** Properties *)

(** The four methods that record a condition on a Runtime set the state and
    the condition so that the matching query answers yes; other conditions, the
    metadata, the spec and the rest of the status stay as they were, the
    conditions keep one entry per type, and recording again what is recorded
    leaves the Runtime as it is, so that no status write follows. *)
Theorem UpdateState_correct `{MetaLib} `{!MetaLaws} (now : Z) (c r msg : string) (st : ConditionStatus)
    (k : Runtime) (f : Runtime -> Runtime) (state : string) (status : ConditionStatus)
    (Hf : (f, state, status) ∈
       [(UpdateStatePending now c r st msg, RuntimeStatePending, st);
        (UpdateStateDeletion now c r st msg, RuntimeStateTerminating, st);
        (UpdateStateFailed now c r msg, RuntimeStateFailed, ConditionFalse);
        (UpdateStateReady now c r msg, RuntimeStateReady, ConditionTrue)]) :
  State (rtStatus (f k)) = state /\
  IsStateWithConditionAndStatusSet (f k) state c r status = true /\
  onlyCondition c k (f k) /\ f (f k) = f k.
Proof.
  assert (f = setState now state c r status msg) as ->.
  { repeat (apply elem_of_cons in Hf as [E|Hf]; [by simplify_eq|]). inversion Hf. }
  split_and!; [done|apply setState_found|apply setState_frame|].
  destruct (find_set (Conditions (rtStatus k)) (mkCondition c status now r msg)) as (c' & Hfd & Hk).
  by eapply setState_same.
Qed.

Lemma UpdateState_correct_witness :
  let k := mkRuntime (metaNamed "rt" "kcp-system")
    (mkRuntimeSpec
       (mkRuntimeShoot "" "" "" "" None "" None None
          (mkRuntimeKubernetes None (mkRuntimeAPIServer (mkOIDC None None None None ∅ [] None None) None None))
          (mkRuntimeProvider "" [] None None None) (mkRuntimeNetworking None "" "" "" None None) None)
       (mkSecurity [] (mkFilter None false)) [] None)
    (mkStatus "" [mkCondition "Provisioned" ConditionUnknown 3 "Pending" ""] false None [] "") in
  let f := @UpdateStateReady MetaRef.lib 7 "Provisioned" "Done" "ok" in
  State (rtStatus (f k)) = RuntimeStateReady /\
  @IsStateWithConditionAndStatusSet MetaRef.lib (f k) RuntimeStateReady "Provisioned" "Done" ConditionTrue
    = true /\
  @onlyCondition MetaRef.lib "Provisioned" k (f k) /\ f (f k) = f k.
Proof.
  intros k f.
  apply (@UpdateState_correct MetaRef.lib MetaRef.laws 7 "Provisioned" "Done" "ok" ConditionTrue k f).
  right. right. right. left.
Defined.
