(* ===== verification/Objects.v ===== *)
(** * Further custom resources

    The AuditLog resources of the pool (pkg/auditlog/v1beta1), the OpenIDConnect
    resources of the runtime cluster and the RegistryCacheConfig resources of
    the registry-cache component.  The last two types belong to third-party
    modules: their records hold what the code under src/ reads and writes. *)

From S2P Require Import Prelude Kube Gardener RuntimeApi.

Local Open Scope string_scope.

(** ** Resources of runtime clusters *)

(** The modules of a Kyma resource (lifecycle-manager/api/v1beta2). *)
Record Kyma := mkKyma { kymaMeta : ObjectMeta; kymaModules : list string }.

(** appsv1.Deployment; certificates.k8s.io ClusterTrustBundle. *)
Record DeploymentCondition := mkDeploymentCondition { dcType : string; dcStatus : string }.
Record Deployment := mkDeployment {
  depMeta : ObjectMeta;
  depReplicas : option Z;                          (* .Spec.Replicas *)
  depReadyReplicas : Z;                            (* .Status.ReadyReplicas *)
  depConditions : list DeploymentCondition         (* .Status.Conditions *)
}.
Record ClusterTrustBundleSpec := mkTrustBundleSpec { ctbSignerName : string; ctbTrustBundle : string }.
Record ClusterTrustBundle := mkTrustBundle { ctbMeta : ObjectMeta; ctbSpec : ClusterTrustBundleSpec }.

(** A decoded manifest: what is read of it, and the rest of its content. *)
Record GroupVersionKind := mkGVK { gvkGroup : string; gvkVersion : string; gvkKind : string }.
Record GroupVersionResource := mkGVR { gvrGroup : string; gvrVersion : string; gvrResource : string }.
Record Unstructured := mkUnstructured { uGVK : GroupVersionKind; uMeta : ObjectMeta; uContent : Raw }.
(** meta.RESTMapping, and the mapper built from what discovery answers. *)
Record RESTMapping := mkRESTMapping { rmResource : GroupVersionResource; rmNamespaced : bool }.
Definition RESTMapper : Type := GroupVersionKind -> result RESTMapping.

#[export] Instance GroupVersionKind_eq_dec : EqDecision GroupVersionKind.
Proof. solve_decision. Defined.
#[export] Instance GroupVersionResource_eq_dec : EqDecision GroupVersionResource.
Proof. solve_decision. Defined.
#[export] Instance ClusterTrustBundleSpec_eq_dec : EqDecision ClusterTrustBundleSpec.
Proof. solve_decision. Defined.

(** ** AuditLog *)

(*@ src/pkg/auditlog/v1beta1/auditlog_types.go:24-26 State *)
(*@ src/pkg/auditlog/v1beta1/auditlog_types.go:97-119 State *)
Inductive AuditLogState :=
| StatePending
| StateRegistrationReady
| StateSiemApproved
| StateAssigned
| StatePendingDelete
| StateOrphaned
| StateUnrecoverableError.

#[export] Instance AuditLogState_eq_dec : EqDecision AuditLogState.
Proof. solve_decision. Defined.

(*@ src/pkg/auditlog/v1beta1/auditlog_types.go:28-49 AuditLogConfig *)
Record AuditLogConfig := mkAuditLogConfig {
  alcServiceURL : string;
  alcGardenerSecretName : string;
  alcReadCredsSecretName : string
}.

(*@ src/pkg/auditlog/v1beta1/auditlog_types.go:51-95 AuditLogSpec *)
Record AuditLogSpec := mkAuditLogSpec {
  alPlatformRegion : string;
  alRegions : list string;
  alSubaccountID : string;
  alAssignedToRuntimeID : string;
  alOrphaned : bool;
  alConfig : AuditLogConfig;
  alRetentionDays : Z
}.

Record AuditLog := mkAuditLog {
  alMeta : ObjectMeta;
  alSpec : AuditLogSpec;
  alState : AuditLogState                          (* .Status.State *)
}.

#[export] Instance AuditLogConfig_eq_dec : EqDecision AuditLogConfig.
Proof. solve_decision. Defined.
#[export] Instance AuditLogSpec_eq_dec : EqDecision AuditLogSpec.
Proof. solve_decision. Defined.
#[export] Instance AuditLog_eq_dec : EqDecision AuditLog.
Proof. solve_decision. Defined.

(** Assignments to fields of an AuditLog. *)
Definition auditlog_with_labels (a : AuditLog) (l : gmap string string) : AuditLog :=
  mkAuditLog (meta_with_labels (alMeta a) l) (alSpec a) (alState a).
Definition auditlog_assigned_to (a : AuditLog) (rid : string) : AuditLog :=
  mkAuditLog (alMeta a)
    (mkAuditLogSpec (alPlatformRegion (alSpec a)) (alRegions (alSpec a)) (alSubaccountID (alSpec a))
       rid (alOrphaned (alSpec a)) (alConfig (alSpec a)) (alRetentionDays (alSpec a)))
    (alState a).
Definition auditlog_orphaned (a : AuditLog) : AuditLog :=
  mkAuditLog (alMeta a)
    (mkAuditLogSpec (alPlatformRegion (alSpec a)) (alRegions (alSpec a)) (alSubaccountID (alSpec a))
       (alAssignedToRuntimeID (alSpec a)) true (alConfig (alSpec a)) (alRetentionDays (alSpec a)))
    (alState a).

(** ** OpenIDConnect (authentication.gardener.cloud/v1alpha1) *)

Record OpenIDConnect := mkOpenIDConnect {
  oicMeta : ObjectMeta;
  oicIssuerURL : string;
  oicClientID : string;
  oicUsernameClaim : option string;
  oicUsernamePrefix : option string;
  oicGroupsClaim : option string;
  oicGroupsPrefix : option string;
  oicRequiredClaims : gmap string string;
  oicSupportedSigningAlgs : list string;
  oicJWKS : string
}.

(** ** RegistryCacheConfig (registry-cache/api/v1beta1) *)

Record RegistryCacheConfig := mkRegistryCacheConfig {
  rccMeta : ObjectMeta;
  rccSpec : RegistryCacheConfigSpec;
  rccState : string;
  rccConditions : list Condition
}.

(** The status methods of that module; the condition carries the current time. *)
Class RegistryCacheLib := {
  RegistryCacheConfiguredUpdateStatusReady :
    Z -> string -> RegistryCacheConfig -> RegistryCacheConfig;
  RegistryCacheConfiguredUpdateStatusFailed :
    Z -> string -> string -> RegistryCacheConfig -> RegistryCacheConfig;
  RegistryCacheConfiguredUpdateStatusPendingUnknown :
    Z -> string -> RegistryCacheConfig -> RegistryCacheConfig
}.

(** Reasons of that module the code passes. *)
Definition CacheReasonRegistryCacheConfigured : string := "RegistryCacheConfigured".
Definition CacheReasonExtensionConfigurationFailed : string :=
  "RegistryCacheExtensionConfigurationFailed".
Definition CacheReasonGardenClusterConfigurationFailed : string :=
  "RegistryCacheGardenClusterConfigurationFailed".
