(* ===== verification/Effects.v ===== *)
(** * Effectful programs

    The operator reads and writes Kubernetes objects in three clusters, reads
    the clock, counts metrics and emits events.  A function of the source that
    does any of this is a [prog]: a tree whose nodes are the calls it makes and
    whose branches are the answers.  Nothing is assumed about the answers here:
    a property is proved for every environment allowed by a rely relation
    ([wp]), and can be evaluated against a concrete one ([run]). *)

From Stdlib Require Import SpecFloat.
From S2P Require Import Prelude Kube Gardener RuntimeApi Objects.

(** ** Calls and answers *)

(** The clients of the operator: the Kyma control plane, the Gardener project
    and the runtime cluster (SKR) of the reconciled instance. *)
Inductive cluster := Kcp | Garden | Skr.

Inductive kind :=
| KRuntime
| KGardenerCluster
| KAuditLog
| KShoot
| KSeed
| KSecret
| KConfigMap
| KNamespace
| KClusterRoleBinding
| KOpenIDConnect
| KRegistryCacheConfig
| KCustomResourceDefinition
| KKyma
| KDeployment
| KClusterTrustBundle
| KDynamic (resource : GroupVersionResource).       (* through the dynamic client *)

#[export] Instance cluster_eq_dec : EqDecision cluster.
Proof. solve_decision. Defined.
#[export] Instance kind_eq_dec : EqDecision kind.
Proof. solve_decision. Defined.

Definition objT (k : kind) : Type :=
  match k with
  | KRuntime => Runtime
  | KGardenerCluster => GardenerCluster
  | KAuditLog => AuditLog
  | KShoot => Shoot
  | KSeed => Seed
  | KSecret => Secret
  | KConfigMap => ConfigMap
  | KNamespace => ObjectMeta
  | KClusterRoleBinding => ClusterRoleBinding
  | KOpenIDConnect => OpenIDConnect
  | KRegistryCacheConfig => RegistryCacheConfig
  | KCustomResourceDefinition => ObjectMeta
  | KKyma => Kyma
  | KDeployment => Deployment
  | KClusterTrustBundle => ClusterTrustBundle
  | KDynamic _ => Unstructured
  end.

(** The metadata an API server keys objects by. *)
Definition objName (k : kind) : objT k -> NamespacedName :=
  match k with
  | KRuntime => fun o => mkNN (Namespace (rtMeta o)) (Name (rtMeta o))
  | KGardenerCluster => fun o => mkNN (Namespace (gcMeta o)) (Name (gcMeta o))
  | KAuditLog => fun o => mkNN (Namespace (alMeta o)) (Name (alMeta o))
  | KShoot => fun o => mkNN (Namespace (shootMeta o)) (Name (shootMeta o))
  | KSeed => fun o => mkNN ""%string (seedName o)
  | KSecret => fun o => mkNN (Namespace (secretMeta o)) (Name (secretMeta o))
  | KConfigMap => fun o => mkNN (Namespace (cmMeta o)) (Name (cmMeta o))
  | KNamespace => fun o => mkNN ""%string (Name o)
  | KClusterRoleBinding => fun o => mkNN ""%string (Name (crbMeta o))
  | KOpenIDConnect => fun o => mkNN ""%string (Name (oicMeta o))
  | KRegistryCacheConfig => fun o => mkNN (Namespace (rccMeta o)) (Name (rccMeta o))
  | KCustomResourceDefinition => fun o => mkNN ""%string (Name o)
  | KKyma => fun o => mkNN (Namespace (kymaMeta o)) (Name (kymaMeta o))
  | KDeployment => fun o => mkNN (Namespace (depMeta o)) (Name (depMeta o))
  | KClusterTrustBundle => fun o => mkNN ""%string (Name (ctbMeta o))
  | KDynamic _ => fun o => mkNN (Namespace (uMeta o)) (Name (uMeta o))
  end.

(** client.Patch: server-side apply with forced ownership, or a merge patch
    computed against a base object. *)
Inductive patchMode (k : kind) :=
| Apply
| MergeFrom (base : objT k).
Arguments Apply {k}.
Arguments MergeFrom k base : clear implicits.

Inductive metricOp :=
| IncRuntimeFSMStopCounter
| SetRuntimeStates (r : Runtime)
| CleanUpRuntimeGauge (runtimeID runtimeName : string)
| SetGardenerClusterStates (cluster : GardenerCluster)
| CleanUpGardenerClusterGauge (runtimeID : string)
| CleanUpKubeconfigExpiration (runtimeID : string)
| SetKubeconfigExpiration (secret : Secret) (rotationPeriod : Z) (minimalRotationTimeRatio : spec_float).

Inductive call :=
| CGet (c : cluster) (k : kind) (key : NamespacedName)
| CList (c : cluster) (k : kind) (ns : string) (sel : gmap string string)
| CCreate (c : cluster) (k : kind) (o : objT k)
| CUpdate (c : cluster) (k : kind) (o : objT k)
| CUpdateStatus (c : cluster) (k : kind) (o : objT k)
| CPatch (c : cluster) (k : kind) (o : objT k) (mode : patchMode k)
| CDelete (c : cluster) (k : kind) (o : objT k)
| CDeleteAllOf (c : cluster) (k : kind) (sel : gmap string string)
| CBuildClient (kubeconfig : Secret)             (* a client for the runtime cluster *)
| CAdminKubeconfig (shoot : Shoot) (expirationSeconds : Z)  (* AdminKubeconfigRequest *)
| CDiscover (c : cluster)                        (* the API group resources *)
| CReadFile (path : string)
| CNow                                           (* the clock *)
| CNewUUID
| CCtxDone                                       (* ctx.Done(), ctx.Err() *)
| CMetric (m : metricOp)
| CEvent (r : Runtime) (eventType reason message : string).

(** A write that succeeds returns the object as the server stored it, which
    the client decodes into the object passed. *)
Definition resp (c : call) : Type :=
  match c with
  | CGet _ k _ => result (objT k)
  | CList _ k _ _ => result (list (objT k))
  | CCreate _ k _ | CUpdate _ k _ | CUpdateStatus _ k _ | CPatch _ k _ _ => result (objT k)
  | CDelete _ _ _ | CDeleteAllOf _ _ _ | CBuildClient _ => result unit
  | CAdminKubeconfig _ _ => result string
  | CDiscover _ => result RESTMapper
  | CReadFile _ => result string
  | CNow => Z
  | CNewUUID => string
  | CCtxDone => option GoError
  | CMetric _ | CEvent _ _ _ _ => unit
  end.

(** All calls, by cluster and kind. *)
Ltac case_call c :=
  destruct c as [[] []|[] []|[] []|[] []|[] []|[] []|[] []| | | | | | | | | |].

(** ** Programs *)

Inductive prog (A : Type) : Type :=
| Ret (a : A)
| Panic                                          (* a run-time panic *)
| Vis (c : call) (k : resp c -> prog A).
Arguments Ret {A} a.
Arguments Panic {A}.
Arguments Vis {A} c k.

Fixpoint prog_bind_def {A B} (f : A -> prog B) (p : prog A) : prog B :=
  match p with
  | Ret a => f a
  | Panic => Panic
  | Vis c k => Vis c (fun r => prog_bind_def f (k r))
  end.

#[export] Instance prog_ret : MRet prog := @Ret.
#[export] Instance prog_bind : MBind prog := @prog_bind_def.

Definition callP (c : call) : prog (resp c) := Vis c Ret.

Definition Now : prog Z := callP CNow.
Definition metric (m : metricOp) : prog unit := callP (CMetric m).

(** Dereferencing a pointer. *)
Definition deref {A} (x : option A) : prog A :=
  match x with Some a => Ret a | None => Panic end.

(** A loop that stops at the first error, as [if err := f(x); err != nil
    { return err }] in the body of a [for]. *)
Fixpoint forEach {A} (l : list A) (f : A -> prog (option GoError)) : prog (option GoError) :=
  match l with
  | [] => Ret None
  | x :: l' =>
      e ← f x;
      match e with Some err => Ret (Some err) | None => forEach l' f end
  end.

(** ** Histories and the program logic *)

Inductive event := Ev (c : call) (r : resp c).

(** The latest event comes first. *)
Definition history := list event.

Inductive outcome (A : Type) := Done (a : A) | Panicked.
Arguments Done {A} a.
Arguments Panicked {A}.

(** What the environment may answer, and which calls are allowed, after a
    history. *)
Definition rely := history -> event -> Prop.
Definition guar := history -> call -> Prop.

Definition anyEnv : rely := fun _ _ => True.
Definition anyCall : guar := fun _ _ => True.

(** Every call the program makes from [h] is allowed by [G], and every way it
    can end satisfies [Q], whatever [R] lets the environment answer. *)
Fixpoint wp {A} (R : rely) (G : guar) (p : prog A) (h : history)
    (Q : outcome A -> history -> Prop) : Prop :=
  match p with
  | Ret a => Q (Done a) h
  | Panic => Q Panicked h
  | Vis c k => G h c /\ forall r, R h (Ev c r) -> wp R G (k r) (Ev c r :: h) Q
  end.

(** Postconditions on normal ends; a panic is then excluded. *)
Definition returns {A} (Q : A -> history -> Prop) : outcome A -> history -> Prop :=
  fun o h => match o with Done a => Q a h | Panicked => False end.
(** Postconditions that also tolerate a panic. *)
Definition mayPanic {A} (Q : A -> history -> Prop) : outcome A -> history -> Prop :=
  fun o h => match o with Done a => Q a h | Panicked => True end.

Section Logic.
Context (R : rely) (G : guar).

Lemma wp_mono {A} (p : prog A) h (Q Q' : outcome A -> history -> Prop) :
  (forall o h', Q o h' -> Q' o h') -> wp R G p h Q -> wp R G p h Q'.
Proof.
  intros HQ. revert h. induction p as [a| |c k IH]; intros h; cbn; [apply HQ..|].
  intros [Hg Hk]. split; [done|]. intros r Hr. apply IH, Hk, Hr.
Qed.

Lemma wp_bind {A B} (p : prog A) (f : A -> prog B) h Q :
  wp R G (p ≫= f) h Q <->
  wp R G p h (fun o h' => match o with Done a => wp R G (f a) h' Q | Panicked => Q Panicked h' end).
Proof.
  revert h. induction p as [a| |c k IH]; intros h; cbn; [done..|].
  split; intros [Hg Hk]; (split; [done|]); intros r Hr; apply IH, Hk, Hr.
Qed.

(** Sequencing, in the direction proofs use it. *)
Lemma wp_seq {A B} (p : prog A) (f : A -> prog B) h Q :
  wp R G p h (fun o h' => match o with Done a => wp R G (f a) h' Q | Panicked => Q Panicked h' end) ->
  wp R G (p ≫= f) h Q.
Proof. apply wp_bind. Qed.

Lemma wp_call c h (Q : outcome (resp c) -> history -> Prop) :
  wp R G (callP c) h Q <-> G h c /\ forall r, R h (Ev c r) -> Q (Done r) (Ev c r :: h).
Proof. done. Qed.

Lemma wp_conj {A} (p : prog A) h (Q Q' : outcome A -> history -> Prop) :
  wp R G p h Q -> wp R G p h Q' -> wp R G p h (fun o h' => Q o h' /\ Q' o h').
Proof.
  revert h. induction p as [a| |c k IH]; intros h; cbn; [by split..|].
  intros [Hg H1] [_ H2]. split; [done|]. intros r Hr. apply IH; auto.
Qed.

(** The history only grows. *)
Lemma wp_history {A} (p : prog A) h (Q : outcome A -> history -> Prop) :
  wp R G p h Q -> wp R G p h (fun o h' => Q o h' /\ suffix h h').
Proof.
  revert h. induction p as [a| |c k IH]; intros h; cbn; [by split..|].
  intros [Hg Hk]. split; [done|]. intros r Hr.
  eapply wp_mono, IH, Hk, Hr. intros o h' [HQ Hs]. split; [done|].
  etransitivity; [|exact Hs]. by apply suffix_cons_r.
Qed.

(** A loop invariant for [forEach]: [I n h] holds after [n] iterations. *)
Lemma wp_forEach {A} (l : list A) (f : A -> prog (option GoError)) (I : nat -> history -> Prop) h Q :
  I 0 h ->
  (forall i x h', l !! i = Some x -> I i h' ->
     wp R G (f x) h' (fun o h'' =>
       match o with
       | Done None => I (S i) h''
       | Done (Some e) => Q (Done (Some e)) h''
       | Panicked => Q Panicked h''
       end)) ->
  (forall h', I (length l) h' -> Q (Done None) h') ->
  wp R G (forEach l f) h Q.
Proof.
  revert I h. induction l as [|x l IH]; intros I h H0 Hf HQ; cbn; [by apply HQ|].
  apply wp_seq. eapply wp_mono; [|apply (Hf 0 x h); done].
  intros [[e|]|] h' Hx; [done| |done].
  apply (IH (fun i => I (S i))); [done| |done].
  intros i y h'' Hy. apply (Hf (S i) y). done.
Qed.

End Logic.

Lemma wp_weaken {A} (R R' : rely) (G G' : guar) (p : prog A) h Q :
  (forall h e, R' h e -> R h e) -> (forall h c, G h c -> G' h c) ->
  wp R G p h Q -> wp R' G' p h Q.
Proof.
  intros HR HG. revert h. induction p as [a| |c k IH]; intros h; cbn; [done..|].
  intros [Hg Hk]. split; [auto|]. intros r Hr. apply IH, Hk, HR, Hr.
Qed.

(** Under a guarantee, every event recorded since [h] was allowed. *)
Lemma wp_guar_conj {A} (R : rely) (G G' : guar) (p : prog A) h Q Q' :
  wp R G p h Q -> wp R G' p h Q' ->
  wp R (fun h c => G h c /\ G' h c) p h (fun o h' => Q o h' /\ Q' o h').
Proof.
  revert h. induction p as [a| |c k IH]; intros h; cbn; [by split..|].
  intros [? H1] [? H2]. split; [done|]. intros r Hr. apply IH; auto.
Qed.

(** ** Programs confined to some calls *)

(** Every call of the program satisfies [P] and it never panics, whatever the
    answers. *)
Fixpoint only {A} (P : call -> Prop) (p : prog A) : Prop :=
  match p with
  | Ret _ => True
  | Panic => False
  | Vis c k => P c /\ forall r, only P (k r)
  end.

Definition callOf (e : event) : call := match e with Ev c _ => c end.

(** [h'] extends [h] by events whose calls satisfy [P]. *)
Definition extends (P : call -> Prop) (h h' : history) : Prop :=
  exists k, h' = k ++ h /\ Forall (fun e => P (callOf e)) k.

Lemma extends_refl P h : extends P h h.
Proof. exists []. by split. Qed.

Lemma extends_trans P h1 h2 h3 : extends P h1 h2 -> extends P h2 h3 -> extends P h1 h3.
Proof.
  intros (k & -> & Hk) (k' & -> & Hk'). exists (k' ++ k). split; [by rewrite app_assoc|].
  by apply Forall_app.
Qed.

Lemma extends_cons (P : call -> Prop) h h' c (r : resp c) :
  P c -> extends P (Ev c r :: h) h' -> extends P h h'.
Proof.
  intros Hc. apply extends_trans. exists [Ev c r]. split; [done|]. by apply Forall_singleton.
Qed.

Lemma extends_mono (P P' : call -> Prop) h h' :
  (forall c, P c -> P' c) -> extends P h h' -> extends P' h h'.
Proof.
  intros HP (k & -> & Hk). exists k. split; [done|]. eapply Forall_impl; [done|].
  intros [c r]. apply HP.
Qed.

Lemma extends_suffix P h h' : extends P h h' -> suffix h h'.
Proof. intros (k & -> & _). by exists k. Qed.

Lemma suffix_elem (h h' : history) e : suffix h h' -> e ∈ h -> e ∈ h'.
Proof. intros [k ->] He. apply elem_of_app. by right. Qed.

(** What a client may conclude of a confined program. *)
Lemma wp_only {A} (R : rely) (G : guar) P (p : prog A) h (Q : outcome A -> history -> Prop) :
  only P p -> (forall h' c, P c -> G h' c) ->
  (forall a h', extends P h h' -> Q (Done a) h') -> wp R G p h Q.
Proof.
  intros Hp HG. revert h. induction p as [a| |c k IH]; intros h HQ; cbn in *; [|done|].
  - apply HQ, extends_refl.
  - destruct Hp as [Hc Hk]. split; [by apply HG|]. intros r _. apply IH; [done|].
    intros a h' Hh. apply HQ. by eapply extends_cons.
Qed.

(** What the guarantee says of every call, the history keeps. *)
Lemma wp_extends {A} (R : rely) (G : guar) P (p : prog A) h (Q : outcome A -> history -> Prop) :
  (forall h' c, G h' c -> P c) -> wp R G p h Q ->
  wp R (fun h' c => G h' c /\ extends P h h') p h (fun o h' => Q o h' /\ extends P h h').
Proof.
  intros HG. assert (forall k, extends P h k -> wp R G p k Q ->
    wp R (fun h' c => G h' c /\ extends P h h') p k (fun o h' => Q o h' /\ extends P h h')) as Hgen.
  { induction p as [a| |c f IH]; intros k Hk; cbn; [by split..|]. intros [Hc Hf]. split; [done|].
    intros r Hr. apply IH; [|by apply Hf]. eapply extends_trans; [exact Hk|].
    exists [Ev c r]. split; [done|]. apply Forall_singleton. by eapply HG. }
  apply Hgen, extends_refl.
Qed.

Lemma only_bind {A B} P (p : prog A) (f : A -> prog B) :
  only P p -> (forall a, only P (f a)) -> only P (p ≫= f).
Proof.
  intros Hp Hf. induction p as [a| |c k IH]; cbn in *; [done..|].
  destruct Hp as [Hc Hk]. split; [done|]. intros r. by apply IH.
Qed.

Lemma only_mono {A} (P P' : call -> Prop) (p : prog A) :
  (forall c, P c -> P' c) -> only P p -> only P' p.
Proof.
  intros HP. induction p as [a| |c k IH]; cbn; [done..|]. intros [Hc Hk]. split; [auto|].
  intros r. by apply IH.
Qed.

Lemma only_forEach {A} P (l : list A) (f : A -> prog (option GoError)) :
  (forall x, only P (f x)) -> only P (forEach l f).
Proof.
  intros Hf. induction l as [|x l IH]; cbn; [done|]. apply only_bind; [done|].
  by intros [e|].
Qed.

(** The same with a postcondition, for programs that may panic when [Pan] holds. *)
Fixpoint confined {A} (P : call -> Prop) (Pan : Prop) (Post : A -> Prop) (p : prog A) : Prop :=
  match p with
  | Ret a => Post a
  | Panic => Pan
  | Vis c k => P c /\ forall r, confined P Pan Post (k r)
  end.

Lemma confined_bind {A B} P Pan (Post : A -> Prop) (Post' : B -> Prop) (p : prog A) (f : A -> prog B) :
  confined P Pan Post p -> (forall a, Post a -> confined P Pan Post' (f a)) -> confined P Pan Post' (p ≫= f).
Proof.
  intros Hp Hf. induction p as [a| |c k IH]; cbn in *; [by apply Hf|done|].
  destruct Hp as [Hc Hk]. split; [done|]. intros r. by apply IH.
Qed.

Lemma confined_impl {A} P Pan (Post Post' : A -> Prop) (p : prog A) :
  confined P Pan Post p -> (forall a, Post a -> Post' a) -> confined P Pan Post' p.
Proof.
  intros Hp Hi. induction p as [a| |c k IH]; cbn in *; [by apply Hi|done|].
  destruct Hp as [Hc Hk]. split; [done|]. intros r. by apply IH.
Qed.

Lemma confined_conj {A} P P' Pan Pan' (Post Post' : A -> Prop) (p : prog A) :
  confined P Pan Post p -> confined P' Pan' Post' p -> confined P Pan (fun a => Post a /\ Post' a) p.
Proof.
  induction p as [a| |c k IH]; cbn; [done..|]. intros [Hc Hk] [_ Hk']. split; [done|]. intros r. by apply IH.
Qed.

(** No claim. *)
Lemma confined_any {A} (p : prog A) : confined (fun _ => True) True (fun _ => True) p.
Proof. induction p as [a| |c k IH]; cbn; [done..|]. split; [done|]. apply IH. Qed.

Lemma wp_confined {A} (R : rely) (G : guar) P Pan (Post : A -> Prop) (p : prog A) h
    (Q : outcome A -> history -> Prop) :
  confined P Pan Post p -> (forall h' c, P c -> G h' c) ->
  (forall a h', Post a -> extends P h h' -> Q (Done a) h') ->
  (Pan -> forall h', extends P h h' -> Q Panicked h') -> wp R G p h Q.
Proof.
  intros Hp HG. revert h. induction p as [a| |c k IH]; intros h Ha HP; cbn in *.
  - apply Ha; [done|apply extends_refl].
  - apply HP; [done|apply extends_refl].
  - destruct Hp as [Hc Hk]. split; [by apply HG|]. intros r _. apply IH; [done| |].
    + intros a h' HPost Hh. apply Ha; [done|]. by eapply extends_cons.
    + intros HPan h' Hh. apply HP; [done|]. by eapply extends_cons.
Qed.

(** A program that is proved from the start, in the middle of a history. *)
Lemma wp_frame {A} (R : rely) (G : guar) P (p : prog A) k h (Q0 Q : outcome A -> history -> Prop) :
  wp anyEnv (fun _ => P) p k Q0 -> (forall k' c, P c -> G (k' ++ h) c) ->
  (forall o k', extends P k k' -> Q0 o k' -> Q o (k' ++ h)) -> wp R G p (k ++ h) Q.
Proof.
  intros Hp HG. revert k Hp. induction p as [a| |c f IH]; intros k Hp HQ; cbn in *;
    [apply HQ; [apply extends_refl|done]..|].
  destruct Hp as [Hc Hf]. split; [by apply HG|]. intros r _. apply (IH r (Ev c r :: k)); [by apply Hf|].
  intros o k' Hk. apply HQ. by eapply extends_cons.
Qed.

Lemma only_wp {A} P (p : prog A) h (Q : A -> history -> Prop) :
  wp anyEnv (fun _ => P) p h (returns Q) -> only P p.
Proof.
  revert h. induction p as [a| |c f IH]; intros h; cbn; [done..|]. intros [Hc Hf]. split; [done|].
  intros r. eapply IH, Hf. done.
Qed.

(** ** Operational meaning *)

(** One call of a program, answered by the environment. *)
Inductive pstep {A} (R : rely) : prog A * history -> prog A * history -> Prop :=
| pstep_call c k h r : R h (Ev c r) -> pstep R (Vis c k, h) (k r, Ev c r :: h).

Definition preach {A} (R : rely) : prog A * history -> prog A * history -> Prop :=
  rtc (pstep R).

(** A configuration that has returned or panicked satisfies [Q]; one that is
    about to make a call is allowed to. *)
Definition psafe {A} (G : guar) (Q : outcome A -> history -> Prop) (c : prog A * history) : Prop :=
  match c with
  | (Ret a, h) => Q (Done a) h
  | (Panic, h) => Q Panicked h
  | (Vis c _, h) => G h c
  end.

(** [wp] says exactly that every reachable configuration is safe. *)
Lemma wp_adequate {A} (R : rely) (G : guar) (p : prog A) h Q :
  wp R G p h Q <-> forall c, preach R (p, h) c -> psafe G Q c.
Proof.
  split.
  - intros Hwp c Hc. remember (p, h) as c0 eqn:E. revert p h E Hwp.
    induction Hc as [c|c1 c2 c3 Hs Hr IH]; intros p h -> Hwp.
    + destruct p; cbn in *; [done..|]. apply Hwp.
    + inversion Hs; subst. cbn in Hwp. eapply IH; [done|]. by apply Hwp.
  - revert h. induction p as [a| |c k IH]; intros h Hs; cbn.
    + by apply (Hs (Ret a, h)), rtc_refl.
    + by apply (Hs (Panic, h)), rtc_refl.
    + split; [by apply (Hs (Vis c k, h)), rtc_refl|].
      intros r Hr. apply IH. intros c' Hc'. apply Hs.
      eapply rtc_l; [by constructor|done].
Qed.

(** A concrete environment. *)
Definition oracle := history -> forall c : call, resp c.

Fixpoint run {A} (orc : oracle) (p : prog A) (h : history) : outcome A * history :=
  match p with
  | Ret a => (Done a, h)
  | Panic => (Panicked, h)
  | Vis c k => let r := orc h c in run orc (k r) (Ev c r :: h)
  end.

Lemma run_wp {A} (R : rely) (G : guar) (orc : oracle) (p : prog A) h Q :
  (forall h c, R h (Ev c (orc h c))) ->
  wp R G p h Q -> Q (fst (run orc p h)) (snd (run orc p h)).
Proof.
  intros HR. revert h. induction p as [a| |c k IH]; intros h; cbn; [done..|].
  intros [_ Hk]. apply IH, Hk, HR.
Qed.

Lemma run_bind {A B} (orc : oracle) (p : prog A) (f : A -> prog B) h :
  run orc (p ≫= f) h =
  match run orc p h with
  | (Done a, h') => run orc (f a) h'
  | (Panicked, h') => (Panicked, h')
  end.
Proof. revert h. induction p as [a| |c k IH]; intros h; cbn; [done..|]. apply IH. Qed.

(** ** Equivalent programs

    Two programs are equivalent when no property distinguishes them: they make
    the same calls and end in the same way against every environment. *)

#[export] Instance prog_equiv {A} : Equiv (prog A) := fun p q =>
  forall R G h Q, wp R G p h Q <-> wp R G q h Q.

#[export] Instance prog_equivalence {A} : Equivalence (≡@{prog A}).
Proof.
  split.
  - intros p R G h Q. done.
  - intros p q H R G h Q. symmetry. apply H.
  - intros p q r H1 H2 R G h Q. etransitivity; [apply H1 | apply H2].
Qed.

#[export] Instance wp_proper {A} (R : rely) (G : guar) :
  Proper ((≡) ==> (=) ==> (=) ==> iff) (@wp A R G).
Proof. intros p q H h ? <- Q ? <-. apply H. Qed.

#[export] Instance prog_bind_proper {A B} :
  Proper (pointwise_relation A (≡) ==> (≡) ==> (≡)) (@prog_bind_def A B).
Proof.
  intros f g Hfg p q Hpq R G h Q. rewrite (wp_bind R G p), (wp_bind R G q), (Hpq R G h _).
  split; apply wp_mono; intros [a|] h'; [apply (Hfg a) | done | apply (Hfg a) | done].
Qed.

#[export] Instance Vis_proper {A} c :
  Proper (pointwise_relation (resp c) (≡) ==> (≡)) (@Vis A c).
Proof.
  intros k k' Hk R G h Q. cbn. split; intros [HG H]; (split; [done|]); intros r Hr;
    apply Hk, H, Hr.
Qed.

Lemma prog_bind_ret_l {A B} (a : A) (f : A -> prog B) : prog_bind_def f (Ret a) ≡ f a.
Proof. done. Qed.

Lemma prog_bind_ret_r {A} (p : prog A) : prog_bind_def Ret p ≡ p.
Proof.
  intros R G h Q. rewrite (wp_bind R G p). split; apply wp_mono; by intros [a|] h'.
Qed.

Lemma prog_bind_assoc {A B C} (p : prog A) (f : A -> prog B) (g : B -> prog C) :
  prog_bind_def g (prog_bind_def f p) ≡ prog_bind_def (fun a => prog_bind_def g (f a)) p.
Proof.
  intros R G h Q. rewrite (wp_bind R G (prog_bind_def f p)), (wp_bind R G p), (wp_bind R G p).
  split; apply wp_mono; intros [a|] h'; rewrite ?(wp_bind R G (f a)); done.
Qed.

(** ** Proof automation for programs *)

(** One step of symbolic execution: make the first call of the program and
    name its answer; the first goal is the guarantee. *)
Ltac wp_norm := cbn [mbind prog_bind prog_bind_def mret prog_ret callP Now].
Ltac wp_call r Hr := wp_norm; split; [cbn|intros r Hr; wp_norm].

(** Make every call of a straight-line program whose guarantee is trivial. *)
Ltac wp_steps :=
  repeat (cbn [wp prog_bind_def mbind prog_bind mret prog_ret callP];
          first
            [ match goal with |- _ /\ _ => split; [solve [done | exact I]|] end
            | match goal with |- forall r, _ -> _ => intros ? _ end ]).
