(* ===== verification/ErrorHandler.v ===== *)
(** * Gardener error classification (pkg/gardener/gardener_error_handler.go)

    Which errors of a Shoot are worth waiting for. *)

From S2P Require Import Prelude Kube Gardener.

Local Open Scope string_scope.

(** [strings.Join] and [strconv.Itoa] *)
Definition join (sep : string) (l : list string) : string :=
  match l with
  | [] => ""
  | x :: l' => fold_left (fun acc y => acc +:+ sep +:+ y) l' x
  end.
Definition Itoa (z : Z) : string := pretty z.

Definition nonRetryableCode (code : ErrorCode) : bool :=
  bool_decide (code = ErrorInfraUnauthenticated) || bool_decide (code = ErrorInfraUnauthorized).

(*@ src/pkg/gardener/gardener_error_handler.go:37-47 hasOneOfGardenerNonRetryableErrorCode *)
Definition hasOneOfGardenerNonRetryableErrorCode (lastErrors : list LastError) : bool :=
  existsb (fun lastError => existsb nonRetryableCode (leCodes lastError)) lastErrors.

Definition retryableCode (code : ErrorCode) : bool :=
  bool_decide (code = ErrorInfraRateLimitsExceeded) ||
  bool_decide (code = ErrorInfraQuotaExceeded) ||
  bool_decide (code = ErrorInfraDependencies) ||
  bool_decide (code = ErrorConfigurationProblem) ||
  bool_decide (code = ErrorProblematicWebhook).

(*@ src/pkg/gardener/gardener_error_handler.go:49-62 hasOneOfKnownRetryableGardenerErrorCode *)
Definition hasOneOfKnownRetryableGardenerErrorCode (lastErrors : list LastError) : bool :=
  existsb (fun lastError => existsb retryableCode (leCodes lastError)) lastErrors.

Section Handler.
Context `{GardenerLib}.

(*@ src/pkg/gardener/gardener_error_handler.go:14-35 IsRetryable *)
Definition IsRetryable (lastErrors : list LastError) : bool :=
  if Nat.eqb (length lastErrors) 0 then false
  else if hasOneOfGardenerNonRetryableErrorCode lastErrors then false
  else if hasOneOfKnownRetryableGardenerErrorCode lastErrors then true
  else if negb (HasNonRetryableErrorCode lastErrors) then true
  else false.

(*@ src/pkg/gardener/gardener_error_handler.go:64-79 ToErrReason *)
Definition ToErrReason (lastErrors : list LastError) : string :=
  let codes := flat_map (fun e => if Nat.ltb 0 (length (leCodes e)) then leCodes e else []) lastErrors in
  join ", " (errorCodeText <$> codes).

(** The loop of [CombineErrorDescriptions]: [i] is the index of the head. *)
Fixpoint combineFrom (i : Z) (lastErrors : list LastError) (descriptions : string) : string :=
  match lastErrors with
  | [] => descriptions
  | lastError :: rest =>
      combineFrom (i + 1) rest
        (descriptions +:+ Itoa (i + 1) +:+ ") " +:+ leDescription lastError +:+ " ")
  end.

(*@ src/pkg/gardener/gardener_error_handler.go:81-87 CombineErrorDescriptions *)
Definition CombineErrorDescriptions (lastErrors : list LastError) : string :=
  combineFrom 0 lastErrors "".

End Handler.

(** ** Lemmas *)

Lemma nonRetryableCode_spec code :
  nonRetryableCode code = true <->
  code = ErrorInfraUnauthenticated \/ code = ErrorInfraUnauthorized.
Proof. unfold nonRetryableCode. by rewrite orb_true_iff, !bool_decide_eq_true. Qed.

(** Some error of the list carries the code. *)
Definition hasCode (lastErrors : list LastError) (code : ErrorCode) : Prop :=
  exists e, e ∈ lastErrors /\ code ∈ leCodes e.

Lemma exists_code (f : ErrorCode -> bool) lastErrors :
  existsb (fun e => existsb f (leCodes e)) lastErrors = true <->
  exists code, hasCode lastErrors code /\ f code = true.
Proof.
  unfold hasCode. rewrite existsb_exists. setoid_rewrite existsb_exists.
  setoid_rewrite <- list_elem_of_In. naive_solver.
Qed.

Lemma exists_code_false (f : ErrorCode -> bool) lastErrors :
  existsb (fun e => existsb f (leCodes e)) lastErrors = false <->
  forall code, hasCode lastErrors code -> f code = false.
Proof.
  rewrite <- not_true_iff_false, exists_code. split.
  - intros H code Hc. apply not_true_iff_false. naive_solver.
  - intros H (code & Hc & Hf). rewrite (H code Hc) in Hf. done.
Qed.

(** ** Properties *)

(** IsRetryable classifies the last errors of a Shoot: an empty list is not
    retryable; an error code of missing or wrong infrastructure credentials makes
    the whole list not retryable, whatever else it carries; otherwise one of the
    codes known to be transient makes it retryable; otherwise Gardener's own
    classification decides. *)
Theorem IsRetryable_spec `{GardenerLib} (lastErrors : list LastError) :
  IsRetryable lastErrors = true <->
  lastErrors <> [] /\
  (forall code, hasCode lastErrors code ->
     code <> ErrorInfraUnauthenticated /\ code <> ErrorInfraUnauthorized) /\
  ((exists code, hasCode lastErrors code /\
      code ∈ [ErrorInfraRateLimitsExceeded; ErrorInfraQuotaExceeded; ErrorInfraDependencies;
              ErrorConfigurationProblem; ErrorProblematicWebhook]) \/
   HasNonRetryableErrorCode lastErrors = false).
Proof.
  unfold IsRetryable, hasOneOfGardenerNonRetryableErrorCode, hasOneOfKnownRetryableGardenerErrorCode.
  assert (forall code, retryableCode code = true <->
    code ∈ [ErrorInfraRateLimitsExceeded; ErrorInfraQuotaExceeded; ErrorInfraDependencies;
            ErrorConfigurationProblem; ErrorProblematicWebhook]) as Hr.
  { intros code. unfold retryableCode. rewrite !orb_true_iff, !bool_decide_eq_true.
    rewrite !elem_of_cons, list_elem_of_In. cbn. tauto. }
  destruct lastErrors as [|e es]; [by split; [|intros [? _]]|]. cbn [length Nat.eqb].
  set (l := e :: es) in *. destruct (existsb _ l) eqn:En.
  { split; [done|]. intros (_ & Hno & _). apply exists_code in En as (code & Hc & Hn).
    apply nonRetryableCode_spec in Hn. destruct (Hno code Hc). tauto. }
  rewrite exists_code_false in En.
  assert (forall code, hasCode l code ->
    code <> ErrorInfraUnauthenticated /\ code <> ErrorInfraUnauthorized) as Hno.
  { intros code Hc. specialize (En code Hc). rewrite <- not_true_iff_false, nonRetryableCode_spec in En.
    tauto. }
  destruct (existsb _ l) eqn:Er.
  - apply exists_code in Er as (code & Hc & Hk%Hr). split; [|done]. intros _. split_and!; [done..|].
    left. by exists code.
  - rewrite exists_code_false in Er.
    destruct (HasNonRetryableErrorCode l) eqn:Eh; cbn [negb].
    + split; [done|]. intros (_ & _ & [(code & Hc & Hk%Hr)|?]); [|done].
      rewrite (Er code Hc) in Hk. done.
    + split; [|done]. intros _. split_and!; [done..|by right].
Qed.
