(* ===== verification/Config.v ===== *)
(** * Configuration of the operator (pkg/config) *)

From S2P Require Import Prelude Kube Gardener.

Local Open Scope string_scope.

(*@consts src/pkg/gardener/shoot/hyperscaler/const.go:3-10 *)
Definition TypeAWS : string := "aws".
Definition TypeAzure : string := "azure".
Definition TypeGCP : string := "gcp".
Definition TypeOpenStack : string := "openstack".
Definition TypeGDCH : string := "gdch".
Definition TypeAlicloud : string := "alicloud".

(*@ src/pkg/config/config.go:56-63 OidcProvider *)
Record OidcProvider := mkOidcProvider {
  opClientID : string;
  opGroupsClaim : string;
  opIssuerURL : string;
  opSigningAlgs : list string;
  opUsernameClaim : string;
  opUsernamePrefix : string
}.

(*@ src/pkg/config/config.go:65-74 ToOIDCConfig *)
Definition ToOIDCConfig (p : OidcProvider) : OIDCConfig :=
  mkOIDC (Some (opClientID p)) (Some (opGroupsClaim p)) None (Some (opIssuerURL p)) ∅
    (opSigningAlgs p) (Some (opUsernameClaim p)) (Some (opUsernamePrefix p)).

(*@ src/pkg/config/config.go:15-17 ClusterConfig *)
Record ClusterConfig := mkClusterConfig { DefaultSharedIASTenant : OidcProvider }.

(*@ src/pkg/config/config.go:25-28 WorkerConfig *)
Record WorkerConfig := mkWorkerConfig {
  DefaultMaxEvictRetries : string;
  DefaultMachineDrainTimeout : string
}.

(*@ src/pkg/config/config.go:30-32 AWSConfig *)
Record AWSConfig := mkAWSConfig { EnableIMDSv2 : bool }.

(*@ src/pkg/config/config.go:34-39 GDCHConfig *)
Record GDCHConfig := mkGDCHConfig {
  CloudProfileName : string;
  ParentReferenceName : string;
  ParentReferenceNamespace : string;
  ParentReferenceType : string
}.

(*@ src/pkg/config/config.go:19-23 ProviderConfig *)
Record ProviderConfig := mkProviderConfig {
  pcAWS : AWSConfig;
  pcGDCH : GDCHConfig;
  pcWorker : WorkerConfig
}.

(*@ src/pkg/config/config.go:41-45 DNSConfig *)
Record DNSConfig := mkDNSConfig {
  dcSecretName : string;
  dcDomainPrefix : string;
  dcProviderType : string
}.

(*@ src/pkg/config/config.go:128-130 IsGardenerInternal *)
Definition IsGardenerInternal (c : DNSConfig) : bool :=
  String.eqb (dcProviderType c) "" && String.eqb (dcSecretName c) "" &&
  String.eqb (dcDomainPrefix c) "".

(*@ src/pkg/config/config.go:98-103 KubeApiServer *)
Record KubeApiServer := mkKubeApiServer {
  ACLConfigMapName : string;                       (* .ACL.ConfigMapName *)
  MaxTokenExpiration : string;
  RuntimeConfig : gmap string bool;
  FeatureGates : gmap string bool
}.

(*@ src/pkg/config/config.go:47-54 KubernetesConfig *)
Record KubernetesConfig := mkKubernetesConfig {
  kcKubeApiServer : KubeApiServer;
  KubeletFeatureGates : gmap string bool;          (* .Kubelet.FeatureGates *)
  DefaultVersion : string;
  EnableKubernetesVersionAutoUpdate : bool;
  EnableMachineImageVersionAutoUpdate : bool;
  DefaultOperatorOidc : OidcProvider
}.

(*@ src/pkg/config/config.go:85-88 GardenerConfig *)
Record GardenerConfig := mkGardenerConfig {
  ProjectName : string;
  EnableCredentialBinding : bool
}.

(*@ src/pkg/config/config.go:90-93 MachineImageConfig *)
Record MachineImageConfig := mkMachineImageConfig {
  DefaultImageName : string;
  DefaultImageVersion : string
}.

(*@ src/pkg/config/config.go:115-125 ConverterConfig *)
Record ConverterConfig := mkConverterConfig {
  ccKubernetes : KubernetesConfig;
  ccDNS : DNSConfig;
  ccProvider : ProviderConfig;
  ccMachineImage : MachineImageConfig;
  ccGardener : GardenerConfig;
  ccAuditLogPolicyConfigMapName : string;          (* .AuditLog.PolicyConfigMapName *)
  ccWindowMapPath : string;                        (* .MaintenanceWindow.WindowMapPath *)
  ccTolerations : list (string * list Toleration); (* a map, in some order *)
  ccEnableDualStackIP : bool;                      (* .Networking.EnableDualStackIP *)
  ccTenantConfigPath : string                      (* .AuditLog.TenantConfigPath *)
}.

(*@ src/pkg/config/config.go:10-13 Config *)
Record Config := mkConfig { cfgConverterConfig : ConverterConfig; cfgClusterConfig : ClusterConfig }.
