(* ===== verification/RegistryCache.v ===== *)
(** * Registry cache secrets (internal/registrycache)

    The secrets of the registry caches live in the runtime cluster; Gardener
    needs immutable copies of them in the project namespace.  The syncer creates
    and replaces the copies, the secret manager finds and deletes them, the
    status manager reports on the RegistryCacheConfig resources. *)

From S2P Require Import Prelude Kube Gardener RuntimeApi Objects Effects.

Local Open Scope string_scope.

(*@consts src/internal/registrycache/garden_secret_syncer.go:16-22 *)
Definition RuntimeSecretLabel : string := "kyma-project.io/runtime-id".
Definition CacheIDLabel : string := "kyma-project.io/registry-cache-id".
Definition CacheNameAnnotation : string := "kyma-project.io/registry-cache-name".
Definition CacheNamespaceAnnotation : string := "kyma-project.io/registry-cache-namespace".
Definition ManagedByLabel : string := "app.kubernetes.io/managed-by".
Definition ManagedByValue : string := "infrastructure-manager".
Definition DirtyLabel : string := "kyma-project.io/dirty".

(** ** Secret manager *)

(*@ src/internal/registrycache/garden_secret_manager.go:12-16 GardenSecretManager *)
Record GardenSecretManager := mkSecretManager {
  gsmRuntimeID : string;
  gsmGardenNamespace : string
}.

(*@ src/internal/registrycache/garden_secret_manager.go:18-24 NewGardenSecretManager *)
Definition NewGardenSecretManager (gardenNamespace runtimeID : string) : GardenSecretManager :=
  mkSecretManager runtimeID gardenNamespace.

(** The label selector of the three operations. *)
Definition managedSelector (m : GardenSecretManager) : gmap string string :=
  {[ RuntimeSecretLabel := gsmRuntimeID m; ManagedByLabel := ManagedByValue ]}.

Definition listManaged (m : GardenSecretManager) : prog (result (list Secret)) :=
  r ← callP (CList Garden KSecret (gsmGardenNamespace m) (managedSelector m));
  mret (mapErr (wrapError "failed to list garden secrets") r).

Definition secretLabel (s : Secret) (key : string) : string :=
  mapGet (Labels (secretMeta s)) key.
Definition isDirty (s : Secret) : bool := String.eqb (secretLabel s DirtyLabel) "true".

(** The loop body: a dirty secret and one without a cache id are skipped. *)
Definition addCacheSecret (acc : gmap string string) (s : Secret) : gmap string string :=
  if isDirty s then acc
  else
    let cacheUID := secretLabel s CacheIDLabel in
    if negb (String.eqb cacheUID "") then <[cacheUID := Name (secretMeta s)]> acc else acc.

(*@ src/internal/registrycache/garden_secret_manager.go:26-43 GetCacheUIDToSecretNameMap *)
Definition GetCacheUIDToSecretNameMap (m : GardenSecretManager) :
    prog (result (gmap string string)) :=
  gardenSecrets ← listManaged m;
  mret (fmap (M:=result) (fun secrets => fold_left addCacheSecret secrets ∅) gardenSecrets).

(*@ src/internal/registrycache/garden_secret_manager.go:89-97 registryCacheUidExists *)
Fixpoint registryCacheUidExists (uid : string) (registryCaches : list ImageRegistryCache) : bool :=
  match registryCaches with
  | [] => false
  | cache :: rest => if String.eqb (cacheUID cache) uid then true else registryCacheUidExists uid rest
  end.

Definition hasSecretRef (cache : ImageRegistryCache) : bool :=
  match rcSecretReferenceName (cacheConfig cache) with
  | Some n => negb (String.eqb n "")
  | None => false
  end.

(*@ src/internal/registrycache/garden_secret_syncer.go:139-147 getRegistryCachesWithSecret *)
Definition getRegistryCachesWithSecret (caches : list ImageRegistryCache) :
    list ImageRegistryCache :=
  filter (fun c => Is_true (hasSecretRef c)) caches.

(*@ src/internal/registrycache/garden_secret_syncer.go:149-152 HasCachesWithSecrets *)
Definition HasCachesWithSecrets (caches : list ImageRegistryCache) : bool :=
  Nat.ltb 0 (length (getRegistryCachesWithSecret caches)).

(** Whether [DeleteUnused] has to delete a listed secret. *)
Definition isUnused (cachesWithSecret : list ImageRegistryCache) (s : Secret) : bool :=
  let registryCacheUID := secretLabel s CacheIDLabel in
  let dirty := isDirty s in
  let orphaned := negb (String.eqb registryCacheUID "") &&
                  negb (registryCacheUidExists registryCacheUID cachesWithSecret) in
  dirty || orphaned.

Definition deleteSecret (prefix : string) (s : Secret) : prog (option GoError) :=
  r ← callP (CDelete Garden KSecret s);
  mret (wrapError (prefix +:+ Name (secretMeta s)) <$> failsUnlessNotFound r).

(*@ src/internal/registrycache/garden_secret_manager.go:45-69 DeleteUnused *)
Definition DeleteUnused (m : GardenSecretManager) (registryCaches : list ImageRegistryCache) :
    prog (option GoError) :=
  let cachesWithSecret := getRegistryCachesWithSecret registryCaches in
  gardenSecrets ← listManaged m;
  match gardenSecrets with
  | Err e => mret (Some e)
  | Ok items =>
      forEach items (fun gardenSecret =>
        if isUnused cachesWithSecret gardenSecret
        then deleteSecret "failed to delete unused garden secret " gardenSecret
        else mret None)
  end.

(*@ src/internal/registrycache/garden_secret_manager.go:71-87 DeleteAll *)
Definition DeleteAll (m : GardenSecretManager) : prog (option GoError) :=
  gardenSecrets ← listManaged m;
  match gardenSecrets with
  | Err e => mret (Some e)
  | Ok items => forEach items (deleteSecret "failed to delete garden secret ")
  end.

(** ** Secret syncer *)

(*@ src/internal/registrycache/garden_secret_syncer.go:24-32 GardenSecretSyncer *)
Record GardenSecretSyncer := mkSyncer {
  gssRuntimeID : string;
  gssGardenNamespace : string;
  gssSecretNameGenerator : string -> string -> prog string
}.

(*@ src/internal/registrycache/garden_secret_syncer.go:34-42 NewGardenSecretSyncer *)
Definition NewGardenSecretSyncer (secretNameGenerator : string -> string -> prog string)
    (gardenNamespace runtimeID : string) : GardenSecretSyncer :=
  mkSyncer runtimeID gardenNamespace secretNameGenerator.

(*@ src/internal/registrycache/garden_secret_syncer.go:154-156 DefaultGardenSecretNameGenerator *)
Definition DefaultGardenSecretNameGenerator (_ _ : string) : prog string :=
  uuid ← callP CNewUUID;
  mret ("reg-cache-" +:+ uuid).

(*@ src/internal/registrycache/garden_secret_syncer.go:119-137 newGardenSecret *)
Definition newGardenSecret (s : GardenSecretSyncer) (cache : ImageRegistryCache)
    (data : option (gmap string string)) : prog Secret :=
  name ← gssSecretNameGenerator s (gssRuntimeID s) (cacheUID cache);
  mret
    (mkSecret
       (mkMeta name "" (gssGardenNamespace s) "" "" 0 None
          {[ RuntimeSecretLabel := gssRuntimeID s;
             CacheIDLabel := cacheUID cache;
             ManagedByLabel := ManagedByValue ]}
          {[ CacheNameAnnotation := cacheName cache;
             CacheNamespaceAnnotation := cacheNamespace cache ]}
          [] [])
       "" (Some true) data ∅).

(** The loop over the entries of the first map. *)
Definition entriesMatch (a b : gmap string string) : bool :=
  forallb (fun '(key, valA) =>
    match b !! key with Some valB => String.eqb valA valB | None => false end) (map_to_list a).

(*@ src/internal/registrycache/garden_secret_syncer.go:106-117 secretDataEqual *)
Definition secretDataEqual (a b : option (gmap string string)) : bool :=
  let a := default ∅ a in
  let b := default ∅ b in
  if negb (Nat.eqb (size a) (size b)) then false else entriesMatch a b.

Definition getRuntimeSecret (cache : ImageRegistryCache) : prog (result Secret) :=
  name ← deref (rcSecretReferenceName (cacheConfig cache));
  callP (CGet Skr KSecret (mkNN (cacheNamespace cache) name)).

(*@ src/internal/registrycache/garden_secret_syncer.go:78-85 copySecretFromRuntimeToGardenCluster *)
Definition copySecretFromRuntimeToGardenCluster (s : GardenSecretSyncer)
    (cache : ImageRegistryCache) : prog (option GoError) :=
  secret ← getRuntimeSecret cache;
  match secret with
  | Err e => mret (Some e)
  | Ok secret =>
      newSecret ← newGardenSecret s cache (secretData secret);
      r ← callP (CCreate Garden KSecret newSecret);
      mret (errOf r)
  end.

Definition markDirty (s : Secret) : Secret :=
  mkSecret (meta_with_labels (secretMeta s) (<[DirtyLabel := "true"]> (Labels (secretMeta s))))
    (secretType s) (secretImmutable s) (secretData s) (secretStringData s).

(*@ src/internal/registrycache/garden_secret_syncer.go:87-104 replaceSecretInGardenCluster *)
Definition replaceSecretInGardenCluster (s : GardenSecretSyncer) (cache : ImageRegistryCache)
    (gardenerSecret : Secret) : prog (option GoError) :=
  runtimeSecret ← getRuntimeSecret cache;
  match runtimeSecret with
  | Err e => mret (Some e)
  | Ok runtimeSecret =>
      if secretDataEqual (secretData gardenerSecret) (secretData runtimeSecret) then mret None
      else
        r ← callP (CPatch Garden KSecret (markDirty gardenerSecret) (MergeFrom KSecret gardenerSecret));
        match failsUnlessNotFound r with
        | Some e => mret (Some e)
        | None =>
            newSecret ← newGardenSecret s cache (secretData runtimeSecret);
            r ← callP (CCreate Garden KSecret newSecret);
            mret (errOf r)
        end
  end.

Definition cacheSelector (s : GardenSecretSyncer) (cache : ImageRegistryCache) :
    gmap string string :=
  {[ RuntimeSecretLabel := gssRuntimeID s; CacheIDLabel := cacheUID cache ]}.

(** The loop body of [Do]: the first secret the server lists for the cache is
    the one that is compared and replaced. *)
Definition syncCache (s : GardenSecretSyncer) (cache : ImageRegistryCache) :
    prog (option GoError) :=
  r ← callP (CList Garden KSecret (gssGardenNamespace s) (cacheSelector s cache));
  match r with
  | Err e => mret (Some (wrapError "failed to list garden secrets" e))
  | Ok [] =>
      e ← copySecretFromRuntimeToGardenCluster s cache;
      mret (wrapError ("failed to copy secret for registry cache " +:+ cacheName cache) <$> e)
  | Ok (gardenerSecret :: _) =>
      e ← replaceSecretInGardenCluster s cache gardenerSecret;
      mret (wrapError ("failed to replace secret for registry cache " +:+ cacheName cache) <$> e)
  end.

(*@ src/internal/registrycache/garden_secret_syncer.go:44-76 Do *)
Definition Do (s : GardenSecretSyncer) (registryCaches : list ImageRegistryCache) :
    prog (option GoError) :=
  forEach (getRegistryCachesWithSecret registryCaches) (syncCache s).

(** ** Status manager *)

Section StatusManager.
Context `{RegistryCacheLib}.

(** The loop the three methods share: read the resource of every cache, change
    its status, write it back. *)
Definition forEachCache (instance : Runtime)
    (change : Z -> RegistryCacheConfig -> RegistryCacheConfig) : prog (option GoError) :=
  forEach (rCaching (rtSpec instance)) (fun cache =>
    r ← callP (CGet Skr KRegistryCacheConfig (mkNN (cacheNamespace cache) (cacheName cache)));
    match r with
    | Err e => mret (Some e)
    | Ok registryCache =>
        now ← Now;
        r ← callP (CUpdateStatus Skr KRegistryCacheConfig (change now registryCache));
        match r with
        | Err e => mret (Some (newError ("failed to update registry cache status: " +:+ errText e)))
        | Ok _ => mret None
        end
    end).

(*@ src/internal/registrycache/statusmanager.go:21-43 SetStatusReady *)
Definition SetStatusReady (instance : Runtime) (conditionReason : string) : prog (option GoError) :=
  forEachCache instance (fun now => RegistryCacheConfiguredUpdateStatusReady now conditionReason).

(*@ src/internal/registrycache/statusmanager.go:45-66 SetStatusFailed *)
Definition SetStatusFailed (instance : Runtime) (conditionReason errorMessage : string) :
    prog (option GoError) :=
  forEachCache instance (fun now =>
    RegistryCacheConfiguredUpdateStatusFailed now conditionReason errorMessage).

(*@ src/internal/registrycache/statusmanager.go:68-89 SetStatusPending *)
Definition SetStatusPending (instance : Runtime) (conditionReason : string) :
    prog (option GoError) :=
  forEachCache instance (fun now =>
    RegistryCacheConfiguredUpdateStatusPendingUnknown now conditionReason).

End StatusManager.

(** ** Change of the number of caches *)

(** registry-cache extension's RegistryConfig. *)
Record ExtVolume := mkExtVolume { evSize : option Opaque; evStorageClassName : option string }.
Record ExtProxy := mkExtProxy { epHTTP : option string; epHTTPS : option string }.
Record ExtRegistryCache := mkExtRegistryCache {
  ercUpstream : string;
  ercRemoteURL : option string;
  ercVolume : option ExtVolume;
  ercGarbageCollection : option Z;                 (* .TTL *)
  ercSecretReferenceName : option string;
  ercProxy : option ExtProxy
}.
Record RegistryConfig := mkRegistryConfig {
  rcfgAPIVersion : string;
  rcfgKind : string;
  rcfgCaches : list ExtRegistryCache
}.

#[export] Instance ExtVolume_eq_dec : EqDecision ExtVolume.
Proof. solve_decision. Defined.
#[export] Instance ExtProxy_eq_dec : EqDecision ExtProxy.
Proof. solve_decision. Defined.
#[export] Instance ExtRegistryCache_eq_dec : EqDecision ExtRegistryCache.
Proof. solve_decision. Defined.
#[export] Instance RegistryConfig_eq_dec : EqDecision RegistryConfig.
Proof. solve_decision. Defined.

Definition RegistryCacheExtensionType : string := "registry-cache".

(** The loop: the last enabled registry-cache extension wins. *)
Definition findCacheExt (currentExtensions : list Extension) : option Extension :=
  fold_left (fun acc ext =>
    if String.eqb (extType ext) RegistryCacheExtensionType &&
       match extDisabled ext with Some d => negb d | None => false end
    then Some ext else acc) currentExtensions None.

(*@ src/internal/registrycache/registrycache_predicates.go:12-35 HasRegistryCacheCountChanged *)
Definition HasRegistryCacheCountChanged `{Codec RegistryConfig}
    (currentExtensions : list Extension) (desired : list ImageRegistryCache) :
    prog (result bool) :=
  match findCacheExt currentExtensions with
  | None => mret (Ok false)
  | Some registryCacheExt =>
      raw ← deref (extProviderConfig registryCacheExt);
      mret
        (match unmarshal raw with
         | Err e => Err (wrapError "failed to unmarshal registry cache config" e)
         | Ok registryConfig =>
             Ok (negb (Nat.eqb (length desired) (length (rcfgCaches registryConfig))))
         end)
  end.

(** ** Lemmas *)

Lemma entriesMatch_spec a b : entriesMatch a b = true <-> a ⊆ b.
Proof.
  unfold entriesMatch. rewrite forallb_forall, map_subseteq_spec. split.
  - intros Hf k v Hk. specialize (Hf (k, v)). cbn in Hf.
    rewrite <- list_elem_of_In, elem_of_map_to_list in Hf. specialize (Hf Hk).
    destruct (b !! k) as [w|]; [|done]. apply String.eqb_eq in Hf as ->. done.
  - intros Hs [k v]. rewrite <- list_elem_of_In, elem_of_map_to_list. intros Hk.
    rewrite (Hs k v Hk). apply String.eqb_refl.
Qed.

Lemma secretDataEqual_spec a b :
  secretDataEqual a b = true <-> default ∅ a = default ∅ b.
Proof.
  unfold secretDataEqual. destruct (Nat.eqb_spec (size (default ∅ a)) (size (default ∅ b))) as [E|E]; cbn.
  - rewrite entriesMatch_spec. split; [|by intros ->].
    intros Hs. apply map_subseteq_size_eq; [done|]. lia.
  - split; [done|]. intros Hab. by rewrite Hab in E.
Qed.

Lemma findCacheExt_Some exts ext :
  findCacheExt exts = Some ext -> ext ∈ exts /\ extType ext = RegistryCacheExtensionType.
Proof.
  unfold findCacheExt. induction exts as [|e exts IH] using rev_ind; [done|].
  rewrite fold_left_app. cbn. destruct (_ && _) eqn:E.
  - intros [= <-]. apply andb_true_iff in E as [E%String.eqb_eq _]. set_solver.
  - intros [? ?]%IH. set_solver.
Qed.

Lemma registryCacheUidExists_spec uid caches :
  registryCacheUidExists uid caches = true <-> exists c, c ∈ caches /\ cacheUID c = uid.
Proof.
  induction caches as [|c caches IH]; cbn.
  - split; [done|]. intros (c & Hc & _). inversion Hc.
  - destruct (String.eqb_spec (cacheUID c) uid) as [E|E].
    + split; [|done]. intros _. exists c. split; [constructor|done].
    + rewrite IH. setoid_rewrite elem_of_cons. naive_solver.
Qed.

(** The fold keeps one entry per cache id, and only entries of clean secrets. *)
Lemma addCacheSecret_fold items acc uid n :
  fold_left addCacheSecret items acc !! uid = Some n ->
  acc !! uid = Some n \/
  exists s, s ∈ items /\ isDirty s = false /\ secretLabel s CacheIDLabel = uid /\
            Name (secretMeta s) = n.
Proof.
  revert acc. induction items as [|s items IH]; intros acc; cbn; [by left|].
  intros [Hacc|(s' & ? & ?)]%IH; [|right; exists s'; set_solver].
  unfold addCacheSecret in Hacc. destruct (isDirty s) eqn:Hd; [by left|].
  destruct (String.eqb _ _) eqn:E; cbn in Hacc; [by left|].
  apply lookup_insert_Some in Hacc as [[Hu Hn]|[_ ?]]; [|by left].
  right. exists s. split_and!; [constructor|done..].
Qed.

Lemma addCacheSecret_dom items acc s uid :
  is_Some (acc !! uid) \/
  (s ∈ items /\ isDirty s = false /\ secretLabel s CacheIDLabel = uid /\ uid <> "") ->
  is_Some (fold_left addCacheSecret items acc !! uid).
Proof.
  revert acc. induction items as [|s' items IH]; intros acc; cbn.
  - intros [?|(H & _)]; [done|]. inversion H.
  - intros H. apply IH. unfold addCacheSecret.
    destruct H as [Ha|(Hs & Hd & Hu & Hne)].
    + left. destruct (isDirty s'); [done|]. destruct (String.eqb _ _); [done|]. cbn.
      destruct (decide (secretLabel s' CacheIDLabel = uid)) as [->|];
        [by rewrite lookup_insert_eq | by rewrite lookup_insert_ne].
    + apply elem_of_cons in Hs as [<-|Hs]; [left | right; done].
      rewrite Hd, Hu. destruct (String.eqb_spec uid "") as [->|_]; [done|]. cbn.
      by rewrite lookup_insert_eq.
Qed.

(** A secret is unused if it is dirty, or carries the id of no cache with a secret. *)
Lemma isUnused_spec caches s :
  isUnused (getRegistryCachesWithSecret caches) s = true ->
  secretLabel s DirtyLabel = "true" \/
  (secretLabel s CacheIDLabel <> "" /\
   forall cache, cache ∈ caches -> hasSecretRef cache = true -> cacheUID cache <> secretLabel s CacheIDLabel).
Proof.
  unfold isUnused, isDirty. intros [Hd|[Hid Hex]%andb_true_iff]%orb_true_iff; [left; by apply String.eqb_eq|right].
  split; [by apply negb_true_iff, String.eqb_neq in Hid|]. intros cache Hc Href.
  intros Huid. apply negb_true_iff, not_true_iff_false in Hex. apply Hex, registryCacheUidExists_spec.
  exists cache. split; [|done]. apply list_elem_of_filter. split; [by apply Is_true_true|done].
Qed.

(** Which secrets a deleting operation may touch, given its selection. *)
Definition deletesListed (m : GardenSecretManager) (sel : Secret -> bool) : guar := fun h c =>
  match c with
  | CList Garden KSecret ns ls => ns = gsmGardenNamespace m /\ ls = managedSelector m
  | CDelete Garden KSecret s =>
      sel s = true /\
      exists items, s ∈ items /\
        Ev (CList Garden KSecret (gsmGardenNamespace m) (managedSelector m)) (Ok items) ∈ h
  | _ => False
  end.

(** Every selected secret of the listing has been deleted or was already gone. *)
Definition allDeleted (m : GardenSecretManager) (sel : Secret -> bool) (h : history) : Prop :=
  exists items,
    Ev (CList Garden KSecret (gsmGardenNamespace m) (managedSelector m)) (Ok items) ∈ h /\
    forall s, s ∈ items -> sel s = true ->
      exists r, Ev (CDelete Garden KSecret s) r ∈ h /\ failsUnlessNotFound r = None.

Lemma wp_deleteSecret m sel prefix s items h (Q : outcome (option GoError) -> history -> Prop) :
  sel s = true -> s ∈ items ->
  Ev (CList Garden KSecret (gsmGardenNamespace m) (managedSelector m)) (Ok items) ∈ h ->
  (forall r, failsUnlessNotFound r = None -> Q (Done None) (Ev (CDelete Garden KSecret s) r :: h)) ->
  (forall e h', Q (Done (Some e)) h') ->
  wp anyEnv (deletesListed m sel) (deleteSecret prefix s) h Q.
Proof.
  intros Hsel Hs Hh HN HE. unfold deleteSecret. wp_call r Hr; [cbn; eauto|].
  cbn. destruct (failsUnlessNotFound r) eqn:E; cbn; auto.
Qed.

Lemma wp_deleteLoop m (sel : Secret -> bool) prefix items h :
  Ev (CList Garden KSecret (gsmGardenNamespace m) (managedSelector m)) (Ok items) ∈ h ->
  wp anyEnv (deletesListed m sel)
    (forEach items (fun s => if sel s then deleteSecret prefix s else mret None)) h
    (returns (fun e h' => e = None -> allDeleted m sel h')).
Proof.
  intros Hh.
  set (L := Ev (CList Garden KSecret (gsmGardenNamespace m) (managedSelector m)) (Ok items)) in *.
  apply (wp_forEach _ _ _ _ (fun n h' => L ∈ h' /\
    forall s, s ∈ take n items -> sel s = true ->
      exists r, Ev (CDelete Garden KSecret s) r ∈ h' /\ failsUnlessNotFound r = None)).
  - split; [done|]. intros s Hs. inversion Hs.
  - intros i s h' Hi [HL Hdone].
    assert (take (S i) items = (take i items ++ [s])%list) as Ht by (by apply take_S_r).
    destruct (sel s) eqn:Hs.
    + apply (wp_deleteSecret m sel prefix s items); [done|by eapply list_elem_of_lookup_2|done| |done].
      intros r Hr. split; [set_solver|]. intros s'. rewrite Ht, elem_of_app.
      intros [Hin|Hin%list_elem_of_singleton] Hsel; [|subst s'].
      * destruct (Hdone s' Hin Hsel) as (r' & ? & ?). exists r'. set_solver.
      * exists r. split; [constructor|done].
    + cbn [wp mret prog_ret]. split; [done|]. intros s'. rewrite Ht, elem_of_app.
      intros [Hin|Hin%list_elem_of_singleton] Hsel; [auto|congruence].
  - intros h' [HL Hdone] _. exists items. split; [done|]. by rewrite firstn_all in Hdone.
Qed.

Lemma wp_listManaged m sel h (Q : outcome (result (list Secret)) -> history -> Prop) :
  (forall items,
     let h' := Ev (CList Garden KSecret (gsmGardenNamespace m) (managedSelector m)) (Ok items) :: h in
     Q (Done (Ok items)) h') ->
  (forall e h', Q (Done (Err e)) h') ->
  wp anyEnv (deletesListed m sel) (listManaged m) h Q.
Proof. intros HO HE. unfold listManaged. wp_call r Hr; [done|]. destruct r; cbn; auto. Qed.

Lemma forEach_select {A} (l : list A) (f : A -> prog (option GoError)) :
  forEach l f = forEach l (fun x => if true then f x else mret None).
Proof. done. Qed.

(** [DeleteAll], as the finalizer of the runtime needs it. *)
Lemma DeleteAll_correct (m : GardenSecretManager) h :
  wp anyEnv (deletesListed m (fun _ => true)) (DeleteAll m) h
    (returns (fun e h' => e = None -> allDeleted m (fun _ => true) h')).
Proof.
  unfold DeleteAll. apply wp_seq, wp_listManaged; [|done].
  intros items. rewrite forEach_select. apply (wp_deleteLoop m (fun _ => true)). constructor.
Qed.

(** A secret marked dirty, and otherwise as it was. *)
Definition dirtied (s : Secret) : Secret :=
  let meta := secretMeta s in
  mkSecret
    (mkMeta (Name meta) (GenerateName meta) (Namespace meta) (UID meta) (ResourceVersion meta) (Generation meta)
       (DeletionTimestamp meta) (<["kyma-project.io/dirty" := "true"]> (Labels meta)) (Annotations meta)
       (Finalizers meta) (ManagedFields meta))
    (secretType s) (secretImmutable s) (secretData s) (secretStringData s).

(** Which secrets the syncer creates, and when: a copy for a cache carries the
    labels that the secret manager looks for, and is created only after the
    server listed no copy for that cache or after the listed copy was marked
    dirty (or had disappeared). *)
Definition createsCopy (s : GardenSecretSyncer) (cache : ImageRegistryCache) (h : history)
    (o : Secret) : Prop :=
  (Labels (secretMeta o) =
     {[ RuntimeSecretLabel := gssRuntimeID s; CacheIDLabel := cacheUID cache;
        ManagedByLabel := ManagedByValue ]} /\
   secretImmutable o = Some true /\ Namespace (secretMeta o) = gssGardenNamespace s) /\
  (exists src name, rcSecretReferenceName (cacheConfig cache) = Some name /\
     Ev (CGet Skr KSecret (mkNN (cacheNamespace cache) name)) (Ok src) ∈ h /\
     secretData o = secretData src) /\
  (Ev (CList Garden KSecret (gssGardenNamespace s) (cacheSelector s cache)) (Ok []) ∈ h \/
   exists old rest r,
     Ev (CList Garden KSecret (gssGardenNamespace s) (cacheSelector s cache)) (Ok (old :: rest)) ∈ h /\
     Ev (CPatch Garden KSecret (dirtied old) (MergeFrom KSecret old)) r ∈ h /\
     failsUnlessNotFound r = None).

Definition syncGuar (s : GardenSecretSyncer) (caches : list ImageRegistryCache) : guar := fun h c =>
  match c with
  | CCreate Garden KSecret o =>
      exists cache, cache ∈ caches /\ hasSecretRef cache = true /\ createsCopy s cache h o
  | CPatch Garden KSecret o mode =>
      exists cache old rest, cache ∈ caches /\ hasSecretRef cache = true /\
        Ev (CList Garden KSecret (gssGardenNamespace s) (cacheSelector s cache)) (Ok (old :: rest)) ∈ h /\
        o = dirtied old /\ mode = MergeFrom KSecret old
  | CGet Skr KSecret _ | CList Garden KSecret _ _ | CNewUUID => True
  | _ => False
  end.

(** What [Do] establishes for a cache: the copy it found has the data of the
    runtime's secret, or it created one that has. *)
Definition synced (s : GardenSecretSyncer) (cache : ImageRegistryCache) (h : history) : Prop :=
  exists src name, rcSecretReferenceName (cacheConfig cache) = Some name /\
    Ev (CGet Skr KSecret (mkNN (cacheNamespace cache) name)) (Ok src) ∈ h /\
    ((exists old rest,
        Ev (CList Garden KSecret (gssGardenNamespace s) (cacheSelector s cache))
           (Ok (old :: rest)) ∈ h /\
        default ∅ (secretData old) = default ∅ (secretData src)) \/
     (exists o stored, Ev (CCreate Garden KSecret o) (Ok stored) ∈ h /\
        secretLabel o CacheIDLabel = cacheUID cache /\ secretData o = secretData src)).

Section Syncer.
Context (s : GardenSecretSyncer) (caches : list ImageRegistryCache).
(** The name generator makes no call but asking for a UUID. *)
Hypothesis gen_ok : forall a b h (Q : outcome string -> history -> Prop),
  (forall n h', suffix h h' -> Q (Done n) h') ->
  wp anyEnv (syncGuar s caches) (gssSecretNameGenerator s a b) h Q.

Lemma wp_createCopy cache src name h (Q : outcome (option GoError) -> history -> Prop) :
  cache ∈ caches -> hasSecretRef cache = true ->
  rcSecretReferenceName (cacheConfig cache) = Some name ->
  Ev (CGet Skr KSecret (mkNN (cacheNamespace cache) name)) (Ok src) ∈ h ->
  (Ev (CList Garden KSecret (gssGardenNamespace s) (cacheSelector s cache)) (Ok []) ∈ h \/
   exists old rest r,
     Ev (CList Garden KSecret (gssGardenNamespace s) (cacheSelector s cache)) (Ok (old :: rest)) ∈ h /\
     Ev (CPatch Garden KSecret (markDirty old) (MergeFrom KSecret old)) r ∈ h /\
     failsUnlessNotFound r = None) ->
  (forall h', suffix h h' -> synced s cache h' -> Q (Done None) h') ->
  (forall e h', suffix h h' -> Q (Done (Some e)) h') ->
  wp anyEnv (syncGuar s caches)
    (newSecret ← newGardenSecret s cache (secretData src);
     r ← callP (CCreate Garden KSecret newSecret); mret (errOf r)) h Q.
Proof.
  intros Hc Href Hname Hsrc Hwhen HN HE. apply wp_seq. unfold newGardenSecret.
  apply wp_seq, gen_ok. intros n h1 Hs1.
  assert (forall e, e ∈ h -> e ∈ h1) as Hin by (intros; by eapply suffix_elem). wp_call r Hr.
  - exists cache. do 2 (split; [done|]). split; [by split_and!|]. split; [exists src, name; by auto|].
    destruct Hwhen as [?|(old & rest & r & ? & ? & ?)]; [left; by auto|right; exists old, rest, r; by auto].
  - cbn. destruct r as [stored|e]; cbn.
    + apply HN; [by apply suffix_cons_r|]. exists src, name. split_and!; [done|set_solver|].
      right. eexists _, stored. split; [constructor|]. split; [|done].
      unfold secretLabel, mapGet. cbn. by simplify_map_eq.
    + apply HE. by apply suffix_cons_r.
Qed.

Lemma wp_syncCache cache h (Q : outcome (option GoError) -> history -> Prop) :
  cache ∈ caches -> hasSecretRef cache = true ->
  (forall h', suffix h h' -> synced s cache h' -> Q (Done None) h') ->
  (forall e h', suffix h h' -> Q (Done (Some e)) h') ->
  wp anyEnv (syncGuar s caches) (syncCache s cache) h Q.
Proof.
  intros Hc Href HN HE. unfold syncCache.
  assert (exists name, rcSecretReferenceName (cacheConfig cache) = Some name) as [name Hname].
  { unfold hasSecretRef in Href. destruct (rcSecretReferenceName _); [eauto|done]. }
  wp_call r Hr; [done|].
  destruct r as [[|old rest]|e]; wp_norm; [| |by apply HE, suffix_cons_r].
  - apply wp_seq. unfold copySecretFromRuntimeToGardenCluster, getRuntimeSecret.
    rewrite Hname. wp_call r Hr'; [done|]. destruct r as [src|e]; wp_norm; [|apply HE; by do 2 apply suffix_cons_r].
    eapply wp_createCopy; try done; [constructor|left; set_solver| |].
    + intros h' Hs. apply HN. etransitivity; [|done]. by do 2 apply suffix_cons_r.
    + intros e h' Hs. apply HE. etransitivity; [|done]. by do 2 apply suffix_cons_r.
  - apply wp_seq. unfold replaceSecretInGardenCluster, getRuntimeSecret.
    rewrite Hname. wp_call r Hr'; [done|]. destruct r as [src|e]; wp_norm; [|apply HE; by do 2 apply suffix_cons_r].
    destruct (secretDataEqual _ _) eqn:Heq.
    { apply secretDataEqual_spec in Heq. apply HN; [by do 2 apply suffix_cons_r|].
      exists src, name. split_and!; [done|constructor|]. left. exists old, rest. set_solver. }
    wp_call r Hr''; [exists cache, old, rest; split_and!; [done..|set_solver|done|done]|].
    destruct (failsUnlessNotFound r) eqn:Hf;
      [apply HE; by do 3 apply suffix_cons_r|].
    eapply wp_createCopy; try done; [set_solver|right; exists old, rest, r; set_solver| |].
    + intros h' Hs. apply HN. etransitivity; [|done]. by do 3 apply suffix_cons_r.
    + intros e h' Hs. apply HE. etransitivity; [|done]. by do 3 apply suffix_cons_r.
Qed.

Lemma synced_suffix cache h h' : suffix h h' -> synced s cache h -> synced s cache h'.
Proof.
  intros Hs (src & name & Hn & Hg & H). exists src, name.
  split_and!; [done|by eapply suffix_elem|].
  destruct H as [(old & rest & ? & ?)|(o & st & ? & ? & ?)]; [left; exists old, rest|right; exists o, st];
    split_and!; try done; by eapply suffix_elem.
Qed.

Lemma wp_Do h :
  wp anyEnv (syncGuar s caches) (Do s caches) h
    (returns (fun e h' => e = None ->
       forall cache, cache ∈ caches -> hasSecretRef cache = true -> synced s cache h')).
Proof.
  unfold Do.
  apply (wp_forEach _ _ _ _ (fun n h' =>
    forall cache, cache ∈ take n (getRegistryCachesWithSecret caches) -> synced s cache h')).
  - intros cache Hc. inversion Hc.
  - intros i cache h' Hi Hdone.
    assert (take (S i) (getRegistryCachesWithSecret caches) =
            (take i (getRegistryCachesWithSecret caches) ++ [cache])%list) as Ht
      by (by apply take_S_r).
    apply list_elem_of_lookup_2, list_elem_of_filter in Hi as [Href Hc].
    apply wp_syncCache; [done|by apply Is_true_true| |done].
    intros h'' Hs Hsync c. rewrite Ht, elem_of_app.
    intros [Hin|Hin%list_elem_of_singleton]; [|by subst].
    eapply synced_suffix; eauto.
  - intros h' Hdone _ cache Hc Href. apply Hdone. rewrite firstn_all.
    apply list_elem_of_filter. split; [by apply Is_true_true|done].
Qed.

End Syncer.

Lemma DefaultGenerator_ok G a b h (Q : outcome string -> history -> Prop) :
  (forall h, G h CNewUUID) ->
  (forall n h', suffix h h' -> Q (Done n) h') ->
  wp anyEnv G (DefaultGardenSecretNameGenerator a b) h Q.
Proof.
  intros HG HQ. unfold DefaultGardenSecretNameGenerator. wp_call r Hr; [done|].
  by apply HQ, suffix_cons_r.
Qed.

(** ** Properties *)

Lemma wp_DeleteUnused (m : GardenSecretManager) (caches : list ImageRegistryCache) h :
  wp anyEnv (deletesListed m (isUnused (getRegistryCachesWithSecret caches)))
    (DeleteUnused m caches) h
    (returns (fun e h' => e = None -> allDeleted m (isUnused (getRegistryCachesWithSecret caches)) h')).
Proof.
  unfold DeleteUnused. apply wp_seq, wp_listManaged; [|done].
  intros items. apply wp_deleteLoop. constructor.
Qed.

(** DeleteUnused of the registry cache secrets: it deletes only secrets the
    Garden cluster listed for this runtime that are dirty or whose cache is gone,
    and when it reports success every such secret has been deleted (or was
    already gone), whatever the API server answers. *)
Theorem DeleteUnused_correct (m : GardenSecretManager) (caches : list ImageRegistryCache) :
  wp anyEnv (deletesListed m (isUnused (getRegistryCachesWithSecret caches)))
    (DeleteUnused m caches) []
    (returns (fun e h' =>
       e = None -> allDeleted m (isUnused (getRegistryCachesWithSecret caches)) h')).
Proof. apply wp_DeleteUnused. Qed.

(** C24. The secret syncer with the default name generator: every copy it creates
    in the Garden cluster is immutable, carries the data of the runtime's secret
    and the labels of the runtime and the cache, and is created only when the
    server listed no copy for the cache or the listed copy has been marked dirty;
    a merge patch marks dirty a copy that was listed for the cache and changes
    nothing else of it; no other write is made. On success every cache with a secret
    reference has a copy with the data of the runtime's secret: one was created, or
    the first copy listed for it has that data (even one marked dirty before). *)
Theorem Do_correct (gardenNamespace runtimeID : string) (caches : list ImageRegistryCache) :
  let s := NewGardenSecretSyncer DefaultGardenSecretNameGenerator gardenNamespace runtimeID in
  wp anyEnv (syncGuar s caches) (Do s caches) []
    (returns (fun e h' => e = None ->
       forall cache, cache ∈ caches -> hasSecretRef cache = true -> synced s cache h')).
Proof. intros s. apply wp_Do. intros a b h Q. by apply DefaultGenerator_ok. Qed.

(** GetCacheUIDToSecretNameMap maps a cache id only to a listed secret that
    carries it and is not marked dirty, and misses no cache id such a secret
    carries. *)
Theorem GetCacheUIDToSecretNameMap_correct (m : GardenSecretManager) :
  wp anyEnv anyCall (GetCacheUIDToSecretNameMap m) []
    (returns (fun r h' =>
       match r with
       | Err _ => True
       | Ok names =>
           exists items,
             h' = [Ev (CList Garden KSecret (gsmGardenNamespace m) (managedSelector m)) (Ok items)] /\
             (forall uid n, names !! uid = Some n -> exists s,
                s ∈ items /\ isDirty s = false /\ secretLabel s CacheIDLabel = uid /\
                Name (secretMeta s) = n) /\
             (forall s, s ∈ items -> isDirty s = false -> secretLabel s CacheIDLabel <> "" ->
                is_Some (names !! secretLabel s CacheIDLabel))
       end)).
Proof.
  unfold GetCacheUIDToSecretNameMap, listManaged. wp_call r Hr; [done|].
  destruct r as [items|e]; cbn; [|done]. exists items. split_and!; [done| |].
  - intros uid n [Hn|Hs]%addCacheSecret_fold; [|done]. by rewrite lookup_empty in Hn.
  - intros s Hs Hd Hne. eapply addCacheSecret_dom. by right.
Qed.
