(* ===== verification/StructuredAuth.v ===== *)
(** * Structured authentication (pkg/gardener/structuredauth)

    The config map in the Gardener project that configures OIDC for the API
    server of the Shoot. *)

From S2P Require Import Prelude Kube Gardener RuntimeApi Objects Effects.

Local Open Scope string_scope.

(*@ src/pkg/gardener/structuredauth/configmap.go:31-34 PrefixedClaim *)
Record PrefixedClaim := mkPrefixedClaim { pcClaim : string; pcPrefix : option string }.

(*@ src/pkg/gardener/structuredauth/configmap.go:16-29 JWTAuthenticator *)
Record JWTAuthenticator := mkJWT {
  jwtURL : string;                                 (* .Issuer.URL *)
  jwtAudiences : list string;                      (* .Issuer.Audiences *)
  jwtUsername : PrefixedClaim;                     (* .ClaimMappings.Username *)
  jwtGroups : PrefixedClaim                        (* .ClaimMappings.Groups *)
}.

(*@ src/pkg/gardener/structuredauth/configmap.go:36-40 AuthenticationConfiguration *)
Record AuthenticationConfiguration := mkAuthConfig {
  acKind : string;
  acAPIVersion : string;
  acJWT : list JWTAuthenticator
}.

(** [ptr.Deref] *)
Definition Deref (p : option string) (d : string) : string := default d p.

(*@ src/pkg/gardener/structuredauth/configmap.go:42-80 toAuthenticationConfiguration *)
Definition toAuthenticationConfiguration (oidcConfig : OIDCConfig) : AuthenticationConfiguration :=
  let groupsPrefix :=
    match oidcGroupsPrefix oidcConfig with Some p => Some p | None => Some "" end in
  mkAuthConfig "AuthenticationConfiguration" "apiserver.config.k8s.io/v1beta1"
    [mkJWT (Deref (oidcIssuerURL oidcConfig) "") [Deref (oidcClientID oidcConfig) ""]
       (mkPrefixedClaim (Deref (oidcUsernameClaim oidcConfig) "") (oidcUsernamePrefix oidcConfig))
       (mkPrefixedClaim (Deref (oidcGroupsClaim oidcConfig) "") groupsPrefix)].

(*@ src/pkg/gardener/structuredauth/oidcconfig.go:8-16 GetOIDCConfigOrDefault *)
Definition GetOIDCConfigOrDefault (runtime : Runtime) (defaultOIDC : OIDCConfig) : OIDCConfig :=
  let oidcConfig := raOidcConfig (rkKubeAPIServer (rsKubernetes (rShoot (rtSpec runtime)))) in
  match oidcIssuerURL oidcConfig, oidcClientID oidcConfig with
  | Some _, Some _ => oidcConfig
  | _, _ => defaultOIDC
  end.

(*@ src/pkg/gardener/structuredauth/oidcconfig.go:18-26 OIDCConfigured *)
Definition OIDCConfigured (shoot : Shoot) : bool :=
  match skKubeAPIServer (ssKubernetes (shootSpec shoot)) with
  | None => false
  | Some kas =>
      match kasOIDCConfig kas with
      | Some oidcConfig =>
          match oidcIssuerURL oidcConfig, oidcClientID oidcConfig with
          | Some _, Some _ => true
          | _, _ => false
          end
      | None => false
      end
  end.

Section ConfigMap.
Context `{Codec AuthenticationConfiguration}.

(** The closure [creteConfigMapObject]. *)
Definition authConfigMap (cmKey : NamespacedName) (oidcConfig : OIDCConfig) : result ConfigMap :=
  bytes ← marshal (toAuthenticationConfiguration oidcConfig);
  Ok (mkConfigMap (metaNamed (nn_Name cmKey) (nn_Namespace cmKey)) {[ "config.yaml" := bytes ]}).

(*@ src/pkg/gardener/structuredauth/configmap.go:82-126 CreateOrUpdateStructuredAuthConfigMap *)
Definition CreateOrUpdateStructuredAuthConfigMap (cmKey : NamespacedName)
    (oidcConfig : OIDCConfig) : prog (option GoError) :=
  existing ← callP (CGet Garden KConfigMap cmKey);
  match failsUnlessNotFound existing with
  | Some e => mret (Some e)
  | None =>
      match authConfigMap cmKey oidcConfig with
      | Err e => mret (Some e)
      | Ok newConfigMap =>
          match existing with
          | Ok existingCM =>
              r ← callP (CUpdate Garden KConfigMap
                           (mkConfigMap (cmMeta existingCM) (cmData newConfigMap)));
              mret (errOf r)
          | Err _ =>
              r ← callP (CCreate Garden KConfigMap newConfigMap);
              mret (errOf r)
          end
      end
  end.

End ConfigMap.

(*@ src/pkg/gardener/structuredauth/configmap.go:128-147 DeleteStructuredConfigMap *)
Definition DeleteStructuredConfigMap (shoot : Shoot) : prog (option GoError) :=
  match (kas ← skKubeAPIServer (ssKubernetes (shootSpec shoot)); kasStructuredAuthentication kas) with
  | Some cmName =>
      if String.eqb cmName "" then mret None
      else
        r ← callP (CDelete Garden KConfigMap
                     (mkConfigMap (metaNamed cmName (Namespace (shootMeta shoot))) ∅));
        mret (failsUnlessNotFound r)
  | None => mret None
  end.

(** ** Properties *)

(** The one authenticator the config map configures, read back. *)
Definition configures (cm : ConfigMap) (oidcConfig : OIDCConfig) `{Codec AuthenticationConfiguration} :
    Prop :=
  exists bytes, cmData cm = {[ "config.yaml" := bytes ]} /\
    unmarshal bytes = Ok (toAuthenticationConfiguration oidcConfig).

(** CreateOrUpdateStructuredAuthConfigMap writes the config map of the given
    key only, creating it exactly when the server reports that it does not
    exist; the object written decodes to the authentication configuration of the
    given OIDC settings, an update keeps the metadata of the stored object, and
    success means that the write succeeded. *)
Theorem CreateOrUpdate_correct `{CodecLaws AuthenticationConfiguration}
    (cmKey : NamespacedName) (oidcConfig : OIDCConfig) :
  wp anyEnv (fun h c =>
      match c with
      | CGet Garden KConfigMap key => key = cmKey
      | CCreate Garden KConfigMap o =>
          objName KConfigMap o = cmKey /\ configures o oidcConfig /\
          exists e, IsNotFound e = true /\ h = [Ev (CGet Garden KConfigMap cmKey) (Err e)]
      | CUpdate Garden KConfigMap o =>
          configures o oidcConfig /\
          exists old, h = [Ev (CGet Garden KConfigMap cmKey) (Ok old)] /\ cmMeta o = cmMeta old
      | _ => False
      end)
    (CreateOrUpdateStructuredAuthConfigMap cmKey oidcConfig) []
    (returns (fun e h => e = None ->
       exists o stored, configures o oidcConfig /\
         (hd_error h = Some (Ev (CCreate Garden KConfigMap o) (Ok stored)) \/
          hd_error h = Some (Ev (CUpdate Garden KConfigMap o) (Ok stored))))).
Proof.
  unfold CreateOrUpdateStructuredAuthConfigMap. wp_call r Hr; [done|].
  case_match eqn:Hf; [by cbn|]. unfold authConfigMap.
  destruct (marshal _) as [bytes|e] eqn:Hm; [|by cbn]. apply unmarshal_marshal in Hm.
  assert (forall m, configures (mkConfigMap m {[ "config.yaml" := bytes ]}) oidcConfig) as Hc
    by (intros m; by exists bytes).
  destruct r as [old|e]; cbn.
  - split; [split; [apply Hc|by exists old]|]. intros [st|] _; cbn; [|done]. intros _. eexists _, st. split; [apply Hc|by right].
  - apply failsUnlessNotFound_None in Hf as [[? ?]|(e' & [= <-] & He)]; [done|].
    split; [split_and!; [by destruct cmKey|apply Hc|by exists e]|].
    intros [st|] _; cbn; [|done]. intros _. eexists _, st. split; [apply Hc|by left].
Qed.

#[export] Instance PrefixedClaim_eq_dec : EqDecision PrefixedClaim.
Proof. solve_decision. Defined.
#[export] Instance JWTAuthenticator_eq_dec : EqDecision JWTAuthenticator.
Proof. solve_decision. Defined.
#[export] Instance AuthenticationConfiguration_eq_dec : EqDecision AuthenticationConfiguration.
Proof. solve_decision. Defined.

Definition exampleOIDC : OIDCConfig :=
  mkOIDC (Some "client") (Some "groups") None (Some "https://issuer") ∅ ["RS256"] (Some "sub") None.

Definition exampleAuthCodec : Codec AuthenticationConfiguration :=
  singleCodec (toAuthenticationConfiguration exampleOIDC) "jwt: []".

(** With a server that does not know the config map, it is created. *)
Lemma CreateOrUpdate_witness :
  let cmKey := mkNN "garden-kyma" "structured-auth-config-shoot" in
  let cm := mkConfigMap (metaNamed "structured-auth-config-shoot" "garden-kyma")
              {[ "config.yaml" := "jwt: []" ]} in
  configures (H := exampleAuthCodec) cm exampleOIDC /\
  wp anyEnv anyCall
    (CreateOrUpdateStructuredAuthConfigMap (H := exampleAuthCodec) cmKey exampleOIDC) []
    (returns (fun e h => e = None ->
       exists o stored, configures (H := exampleAuthCodec) o exampleOIDC /\
         (hd_error h = Some (Ev (CCreate Garden KConfigMap o) (Ok stored)) \/
          hd_error h = Some (Ev (CUpdate Garden KConfigMap o) (Ok stored))))).
Proof.
  split; [by exists "jwt: []"|]. eapply wp_weaken; [done|done|].
  apply (@CreateOrUpdate_correct exampleAuthCodec (singleCodec_laws _ _)).
Defined.
