(* ===== verification/SkrDetails.v ===== *)
(** * The kyma-provisioning-info config map (pkg/gardener/skrdetails) *)

From S2P Require Import Prelude Kube Gardener RuntimeApi Objects Effects Config.

Local Open Scope string_scope.

(*@ src/pkg/gardener/skrdetails/configmap.go:32-38 WorkerPool *)
Record WorkerPool := mkWorkerPool {
  wpName : string;
  wpMachineType : string;
  wpHighAvailabilityZones : bool;
  wpAutoScalerMin : Z;
  wpAutoScalerMax : Z
}.

(*@ src/pkg/gardener/skrdetails/configmap.go:40-47 NetworkDetails *)
Record NetworkDetails := mkNetworkDetails {
  ndDualStackIPEnabled : bool;
  ndACL : list string                              (* .KubeAPIServer.ACL *)
}.

(*@ src/pkg/gardener/skrdetails/configmap.go:12-31 KymaProvisioningInfo *)
Record KymaProvisioningInfo := mkProvisioningInfo {
  piKymaPool : option WorkerPool;                  (* .WorkerPools.Kyma, None for the zero value *)
  piCustomPools : list WorkerPool;                 (* .WorkerPools.Custom *)
  piGlobalAccountID : string;
  piSubaccountID : string;
  piEnvironmentInstanceID : string;
  piInstanceName : string;
  piRuntimeID : string;
  piInstanceID : string;
  piLastReconcileTime : Z;
  piRegion : string;
  piPlatformRegion : string;
  piInfrastructureConfig : Raw;
  piNetworkDetails : NetworkDetails;
  piSeedRegion : string
}.

(*@ src/pkg/gardener/skrdetails/check_highavailability.go:3-6 IsOdd *)
Definition IsOdd (zones : list string) : bool := negb (Nat.eqb (length zones mod 2) 0).

(*@ src/pkg/gardener/skrdetails/check_highavailability.go:8-10 IsHighAvailability *)
Definition IsHighAvailability (zones : list string) : bool :=
  Nat.leb 3 (length zones) && IsOdd zones.

(*@ src/pkg/gardener/skrdetails/check_dualstack.go:9-20 IsDualStackEnabled *)
Definition IsDualStackEnabled (shoot : Shoot) : bool :=
  match ssNetworking (shootSpec shoot) with
  | None => false
  | Some n =>
      if slicesContains (snIPFamilies n) IPFamilyIPv4 &&
         slicesContains (snIPFamilies n) IPFamilyIPv6 &&
         Nat.eqb (length (snIPFamilies n)) 2
      then true else false
  end.

(*@ src/pkg/gardener/skrdetails/check_acl.go:8-17 AppliedACL *)
Definition AppliedACL (runtime : Runtime) : list string :=
  let shoot := rShoot (rtSpec runtime) in
  match raACL (rkKubeAPIServer (rsKubernetes shoot)) with
  | None => []
  | Some allowedCIDRs =>
      if String.eqb (rpType (rsProvider shoot)) TypeAWS ||
         String.eqb (rpType (rsProvider shoot)) TypeAzure
      then allowedCIDRs else []
  end.

Definition toWorkerPool (w : Worker) : WorkerPool :=
  mkWorkerPool (wName w) (wMachineType w) (IsHighAvailability (wZones w)) (wMinimum w) (wMaximum w).

(** The status of the runtime and the infrastructure config of the shoot are
    dereferenced without a check. *)
(*@ src/pkg/gardener/skrdetails/configmap.go:49-105 ToKymaProvisioningInfo *)
Definition ToKymaProvisioningInfo (runtime : Runtime) (shoot : Shoot) (seedRegion : string) :
    prog KymaProvisioningInfo :=
  let provider := rsProvider (rShoot (rtSpec runtime)) in
  let label := mapGet (Labels (rtMeta runtime)) in
  lastOperation ← deref (ShootLastOperation (rtStatus runtime));
  infrastructureConfig ← deref (spInfrastructureConfig (ssProvider (shootSpec shoot)));
  mret
    (mkProvisioningInfo
       (toWorkerPool <$> hd_error (rpWorkers provider))
       (toWorkerPool <$> default [] (rpAdditionalWorkers provider))
       (label LabelKymaGlobalAccountID) (label LabelKymaSubaccountID) (label LabelKymaInstanceID)
       (label LabelKymaName) (label LabelKymaRuntimeID) (label LabelKymaInstanceID)
       (loLastUpdateTime lastOperation)
       (rsRegion (rShoot (rtSpec runtime))) (rsPlatformRegion (rShoot (rtSpec runtime)))
       infrastructureConfig
       (mkNetworkDetails (IsDualStackEnabled shoot) (AppliedACL runtime))
       seedRegion).

(*@ src/pkg/gardener/skrdetails/configmap.go:107-130 ToKymaProvisioningInfoConfigMap *)
Definition ToKymaProvisioningInfoConfigMap `{Codec KymaProvisioningInfo} (runtime : Runtime)
    (shoot : Shoot) (seedRegion : string) : prog (result ConfigMap) :=
  details ← ToKymaProvisioningInfo runtime shoot seedRegion;
  mret
    (match marshal details with
     | Err e => Err e
     | Ok bytes =>
         Ok (mkConfigMap
               (meta_with_labels (metaNamed "kyma-provisioning-info" "kyma-system")
                  {[ "reconciler.kyma-project.io/managed-by" := "infrastructure-manager" ]})
               {[ "details" := bytes ]})
     end).

(** ** Lemmas *)

Lemma IsHighAvailability_spec zones :
  IsHighAvailability zones = true <-> 3 <= length zones /\ Nat.Odd (length zones).
Proof.
  unfold IsHighAvailability, IsOdd. rewrite andb_true_iff, Nat.leb_le, negb_true_iff, Nat.eqb_neq.
  assert (Nat.Odd (length zones) <-> length zones mod 2 <> 0) as ->; [|done].
  pose proof (Nat.mod_upper_bound (length zones) 2). pose proof (Nat.div_mod_eq (length zones) 2).
  split.
  - intros [k Hk]. lia.
  - intros Hne. exists (length zones / 2). lia.
Qed.

