(* ===== verification/Seeds.v ===== *)
(** * Seed selection (internal/controller/runtime/fsm/seed.go)

    Whether Gardener has a usable seed in the region of the Shoot. *)

From S2P Require Import Prelude Kube Gardener RuntimeApi Objects Effects.

Local Open Scope string_scope.

Section Seeds.
Context `{GardenerLib}.

(** [cond == nil || cond.Status != ConditionTrue], negated *)
Definition seedConditionTrue (seed : Seed) (t : SeedConditionType) : bool :=
  match GetCondition (seedConditions seed) t with
  | Some cond => scStatusTrue cond
  | None => false
  end.

(*@ src/internal/controller/runtime/fsm/seed.go:36-53 verifySeedReadiness *)
Definition verifySeedReadiness (seed : Seed) : bool :=
  match seedLastOperation seed with
  | None => false
  | Some _ =>
      if negb (seedConditionTrue seed GardenletReady) then false
      else if seedHasBackup seed then
        if negb (seedConditionTrue seed SeedBackupBucketsReady) then false else true
      else true
  end.

(** Seed.Spec.Settings and .Scheduling are pointers that the code dereferences;
    the conjunction is evaluated from the left. *)
(*@ src/internal/controller/runtime/fsm/seed.go:32-34 seedCanBeUsed *)
Definition seedCanBeUsed (seed : Seed) : prog bool :=
  match seedDeletionTimestamp seed with
  | Some _ => mret false
  | None =>
      settings ← deref (seedSettings seed);
      visible ← deref settings;
      if visible : bool then mret (verifySeedReadiness seed) else mret false
  end.

(** The loop over the seeds, collecting the regions in order, without
    duplicates. *)
Fixpoint collectRegions (providerType : string) (seeds : list Seed)
    (regionsWithSeeds : list string) : prog (list string) :=
  match seeds with
  | [] => mret regionsWithSeeds
  | seed :: rest =>
      if String.eqb (seedProviderType seed) providerType then
        usable ← seedCanBeUsed seed;
        if (usable : bool) && negb (slicesContains regionsWithSeeds (seedProviderRegion seed))
        then collectRegions providerType rest (regionsWithSeeds ++ [seedProviderRegion seed])%list
        else collectRegions providerType rest regionsWithSeeds
      else collectRegions providerType rest regionsWithSeeds
  end.

(*@ src/internal/controller/runtime/fsm/seed.go:11-30 seedForRegionAvailable *)
Definition seedForRegionAvailable (providerType region : string) :
    prog (result (bool * list string)) :=
  r ← callP (CList Garden KSeed "" ∅);
  match r with
  | Err e => mret (Err e)
  | Ok seeds =>
      regionsWithSeeds ← collectRegions providerType seeds [];
      mret (Ok (slicesContains regionsWithSeeds region, regionsWithSeeds))
  end.

(** ** Lemmas *)

(** A seed the shoot can be scheduled on. *)
Definition usable (providerType : string) (seed : Seed) : Prop :=
  seedProviderType seed = providerType /\ seedDeletionTimestamp seed = None /\
  seedSettings seed = Some (Some true) /\ verifySeedReadiness seed = true.

(** No seed of the provider lacks the scheduling settings the code reads. *)
Definition settingsPresent (providerType : string) (seed : Seed) : Prop :=
  seedProviderType seed = providerType -> seedDeletionTimestamp seed = None ->
  exists visible, seedSettings seed = Some (Some visible).

Lemma wp_collectRegions R G providerType seeds acc h (Q : outcome (list string) -> history -> Prop) :
  Forall (settingsPresent providerType) seeds -> NoDup acc ->
  (forall l, NoDup l ->
     (forall reg, reg ∈ l <-> reg ∈ acc \/
        exists s, s ∈ seeds /\ usable providerType s /\ seedProviderRegion s = reg) ->
     Q (Done l) h) ->
  wp R G (collectRegions providerType seeds acc) h Q.
Proof.
  revert acc. induction seeds as [|s seeds IH]; intros acc Hok Hnd HQ; cbn [collectRegions].
  { apply HQ; [done|]. intros reg. split; [by left|]. intros [?|(s & Hs & _)]; [done|inversion Hs]. }
  inversion Hok as [|? ? Hs Hok']; subst.
  (* the seed does not contribute *)
  assert (~ usable providerType s \/ seedProviderRegion s ∈ acc ->
          wp R G (collectRegions providerType seeds acc) h Q) as Hskip.
  { intros Hno. apply IH; [done..|]. intros l Hl Hspec. apply HQ; [done|]. intros reg.
    rewrite Hspec. setoid_rewrite elem_of_cons. split; [naive_solver|].
    intros [?|(s' & [->|?] & Hu & Hreg)]; [by left| |right; naive_solver].
    left. destruct Hno as [?|?]; [done|by subst]. }
  destruct (String.eqb_spec (seedProviderType s) providerType) as [Ep|Ep];
    [|apply Hskip; left; by intros [? _]].
  unfold seedCanBeUsed. destruct (seedDeletionTimestamp s) as [t|] eqn:Ed; wp_norm.
  { apply Hskip. left. intros (_ & E & _). congruence. }
  destruct (Hs Ep Ed) as [visible Hv]. rewrite Hv. wp_norm. destruct visible; wp_norm;
    [|apply Hskip; left; intros (_ & _ & E & _); congruence].
  destruct (verifySeedReadiness s) eqn:Er; cbn [andb];
    [|apply Hskip; left; intros (_ & _ & _ & E); congruence].
  destruct (slicesContains acc (seedProviderRegion s)) eqn:Ec; cbn [negb].
  { apply Hskip. right. by apply slicesContains_spec. }
  apply slicesContains_false in Ec. apply IH; [done| |].
  { apply NoDup_app. split_and!; [done| |by apply NoDup_singleton].
    intros x Hx ->%list_elem_of_singleton. done. }
  intros l Hl Hspec. apply HQ; [done|]. intros reg.
  rewrite Hspec, elem_of_app, list_elem_of_singleton. setoid_rewrite elem_of_cons. split.
  - intros [[?| ->]|?]; [by left| |right; naive_solver].
    right. exists s. split; [by left|]. split; [by split_and!|done].
  - intros [?|(s' & [->|?] & ? & <-)]; [by left; left|by left; right|right; eauto].
Qed.

(** ** Properties *)

(** seedForRegionAvailable reports a region as available exactly when one of
    the listed seeds is of the provider, not being deleted, visible for
    scheduling and ready, and lies in the region; the regions it reports are the
    regions of such seeds, without repetition. It does not panic as long as the
    seeds of the provider carry scheduling settings. *)
Theorem seedForRegionAvailable_correct (providerType region : string) :
  wp (fun _ e => match e with
        | Ev (CList Garden KSeed _ _) (Ok seeds) => Forall (settingsPresent providerType) seeds
        | _ => True end)
     (fun _ c => c = CList Garden KSeed "" ∅)
    (seedForRegionAvailable providerType region) []
    (returns (fun r h =>
       match r with
       | Err e => h = [Ev (CList Garden KSeed "" ∅) (Err e)]
       | Ok (available, regions) =>
           exists seeds, h = [Ev (CList Garden KSeed "" ∅) (Ok seeds)] /\ NoDup regions /\
             (forall reg, reg ∈ regions <->
                exists s, s ∈ seeds /\ usable providerType s /\ seedProviderRegion s = reg) /\
             (available = true <-> region ∈ regions)
       end)).
Proof.
  unfold seedForRegionAvailable. wp_call r Hr; [done|].
  destruct r as [seeds|e]; wp_norm; [|done]. apply wp_seq, wp_collectRegions; [done|by apply NoDup_nil|].
  intros l Hnd Hspec. cbn. exists seeds. split_and!; [done..| |by apply slicesContains_spec].
  intros reg. rewrite Hspec. split; [|by right]. intros [Hn|?]; [inversion Hn|done].
Qed.

End Seeds.
