(* ===== verification/Rbac.v ===== *)
(** * Administrators of the runtime cluster
      (internal/controller/runtime/fsm/runtime_fsm_apply_clusterrolebindings.go)

    The cluster role bindings to delete and to create so that the users of the
    Runtime's administrators list are the ones bound. *)

From S2P Require Import Prelude Kube Gardener RuntimeApi Objects Effects.

Local Open Scope string_scope.

(*@ src/internal/controller/runtime/fsm/runtime_fsm_apply_clusterrolebindings.go:16-21 labelsManagedByKIM *)
Definition labelsManagedByKIM : gmap string string :=
  {[ "reconciler.kyma-project.io/managed-by" := "infrastructure-manager" ]}.

(*@ src/internal/controller/runtime/fsm/runtime_fsm_apply_clusterrolebindings.go:100-104 isRBACUserKind *)
Definition isRBACUserKind (s : Subject) : bool := String.eqb (subjKind s) UserKind.

(*@ src/internal/controller/runtime/fsm/runtime_fsm_apply_clusterrolebindings.go:106-110 isRBACUserKindOneOf *)
Definition isRBACUserKindOneOf (names : list string) (s : Subject) : bool :=
  slicesContains names (subjName s).

Section Rbac.
Context `{MetaLib}.

(*@ src/internal/controller/runtime/fsm/runtime_fsm_apply_clusterrolebindings.go:142-146 managedByKIM *)
Definition managedByKIM (crb : ClusterRoleBinding) : bool :=
  selectorMatches labelsManagedByKIM (Labels (crbMeta crb)).

(*@ src/internal/controller/runtime/fsm/runtime_fsm_apply_clusterrolebindings.go:112-140 getRemoved *)
Fixpoint getRemoved (crbs : list ClusterRoleBinding) (admins : list string) :
    list ClusterRoleBinding :=
  match crbs with
  | [] => []
  | crb :: rest =>
      if negb (managedByKIM crb) then getRemoved rest admins
      else if negb (String.eqb (roleKind (crbRoleRef crb)) "ClusterRole") &&
              negb (String.eqb (roleName (crbRoleRef crb)) "cluster-admin")
      then getRemoved rest admins
      else if negb (slicesContainsFunc (crbSubjects crb) isRBACUserKind) then getRemoved rest admins
      else if slicesContainsFunc (crbSubjects crb) (isRBACUserKindOneOf admins)
      then getRemoved rest admins
      else crb :: getRemoved rest admins
  end.

(*@ src/internal/controller/runtime/fsm/runtime_fsm_apply_clusterrolebindings.go:149-157 newContainsAdmin *)
Definition newContainsAdmin (admin : string) (crb : ClusterRoleBinding) : bool :=
  if negb (managedByKIM crb) then false
  else slicesContainsFunc (crbSubjects crb) (isRBACUserKindOneOf [admin]).

(*@ src/internal/controller/runtime/fsm/runtime_fsm_apply_clusterrolebindings.go:172-195 toAdminClusterRoleBindingWithLabel *)
Definition toAdminClusterRoleBindingWithLabel (name key value : string) : ClusterRoleBinding :=
  let labels := if negb (String.eqb key "") then {[ key := value ]} else ∅ in
  mkCRB (mkMeta "" "admin-" "" "" "" 0 None labels ∅ [] [])
    [mkSubject UserKind name rbacGroupName]
    (mkRoleRef rbacGroupName "ClusterRole" "cluster-admin").

(*@ src/internal/controller/runtime/fsm/runtime_fsm_apply_clusterrolebindings.go:197-199 toAdminClusterRoleBindingNoLabels *)
Definition toAdminClusterRoleBindingNoLabels (name : string) : ClusterRoleBinding :=
  toAdminClusterRoleBindingWithLabel name "" "".

(*@ src/internal/controller/runtime/fsm/runtime_fsm_apply_clusterrolebindings.go:201-203 toAdminClusterRoleBinding *)
Definition toAdminClusterRoleBinding (name : string) : ClusterRoleBinding :=
  toAdminClusterRoleBindingWithLabel name "reconciler.kyma-project.io/managed-by"
    "infrastructure-manager".

(*@ src/internal/controller/runtime/fsm/runtime_fsm_apply_clusterrolebindings.go:159-170 getMissing *)
Fixpoint getMissing (crbs : list ClusterRoleBinding) (admins : list string) :
    list ClusterRoleBinding :=
  match admins with
  | [] => []
  | admin :: rest =>
      if slicesContainsFunc crbs (newContainsAdmin admin) then getMissing crbs rest
      else toAdminClusterRoleBinding admin :: getMissing crbs rest
  end.

(*@ src/internal/controller/runtime/fsm/runtime_fsm_apply_clusterrolebindings.go:206-216 newDelCRBs *)
Definition newDelCRBs (crbs : list ClusterRoleBinding) : prog (option GoError) :=
  forEach crbs (fun crb => r ← callP (CDelete Skr KClusterRoleBinding crb); mret (errOf r)).

(*@ src/internal/controller/runtime/fsm/runtime_fsm_apply_clusterrolebindings.go:219-228 newAddCRBs *)
Definition newAddCRBs (crbs : list ClusterRoleBinding) : prog (option GoError) :=
  forEach crbs (fun crb => r ← callP (CCreate Skr KClusterRoleBinding crb); mret (errOf r)).

(** ** Lemmas *)

Context `{!MetaLaws}.

(** The user is bound by a binding that the operator manages. *)
Definition binds (crb : ClusterRoleBinding) (user : string) : Prop :=
  managedByKIM crb = true /\ exists s, s ∈ crbSubjects crb /\ subjName s = user.

Lemma managedByKIM_spec crb :
  managedByKIM crb = true <->
  Labels (crbMeta crb) !! "reconciler.kyma-project.io/managed-by" = Some "infrastructure-manager".
Proof.
  unfold managedByKIM, labelsManagedByKIM. rewrite selector_matches.
  by rewrite map_singleton_subseteq_l.
Qed.

Lemma newContainsAdmin_spec admin crb : newContainsAdmin admin crb = true <-> binds crb admin.
Proof.
  unfold newContainsAdmin, binds. destruct (managedByKIM crb); cbn; [|naive_solver].
  rewrite slicesContainsFunc_spec. unfold isRBACUserKindOneOf.
  setoid_rewrite slicesContains_spec. setoid_rewrite list_elem_of_singleton. naive_solver.
Qed.

Lemma toAdmin_binds admin user : binds (toAdminClusterRoleBinding admin) user <-> user = admin.
Proof.
  unfold binds. rewrite managedByKIM_spec. cbn. rewrite lookup_singleton_eq.
  setoid_rewrite list_elem_of_singleton. naive_solver.
Qed.

Lemma getRemoved_elem crbs admins crb :
  crb ∈ getRemoved crbs admins <->
  crb ∈ crbs /\ managedByKIM crb = true /\
  (roleKind (crbRoleRef crb) = "ClusterRole" \/ roleName (crbRoleRef crb) = "cluster-admin") /\
  (exists s, s ∈ crbSubjects crb /\ subjKind s = UserKind) /\
  (forall s, s ∈ crbSubjects crb -> subjName s ∉ admins).
Proof.
  assert (forall c, (exists s, s ∈ crbSubjects c /\ subjKind s = UserKind) <->
                    slicesContainsFunc (crbSubjects c) isRBACUserKind = true) as Hk.
  { intros c. rewrite slicesContainsFunc_spec. unfold isRBACUserKind.
    by setoid_rewrite String.eqb_eq. }
  assert (forall c, (forall s, s ∈ crbSubjects c -> subjName s ∉ admins) <->
                    slicesContainsFunc (crbSubjects c) (isRBACUserKindOneOf admins) = false) as Ha.
  { intros c. rewrite slicesContainsFunc_false. unfold isRBACUserKindOneOf.
    by setoid_rewrite slicesContains_false. }
  induction crbs as [|c crbs IH]; cbn [getRemoved].
  { split; [intros Hn; inversion Hn|intros [Hn _]; inversion Hn]. }
  rewrite elem_of_cons.
  assert ((roleKind (crbRoleRef c) = "ClusterRole" \/ roleName (crbRoleRef c) = "cluster-admin") <->
          negb (String.eqb (roleKind (crbRoleRef c)) "ClusterRole") &&
          negb (String.eqb (roleName (crbRoleRef c)) "cluster-admin") = false) as Hr.
  { rewrite andb_false_iff, !negb_false_iff, !String.eqb_eq. done. }
  pose proof (Hk c) as Hkc. pose proof (Ha c) as Hac.
  assert (forall b : bool, negb b = true -> b = false) as Hneg by (by intros []).
  destruct (managedByKIM c) eqn:Em; cbn [negb];
    [|rewrite IH; split; [naive_solver|intros [[->|?] ?]; [destruct_and?; congruence|done]]].
  destruct (_ && _) eqn:Er;
    [rewrite IH; split; [naive_solver|intros [[->|?] ?]; [naive_solver|done]]|].
  destruct (slicesContainsFunc _ isRBACUserKind) eqn:Eu; cbn [negb];
    [|rewrite IH; split; [naive_solver|intros [[->|?] ?]; [naive_solver|done]]].
  destruct (slicesContainsFunc _ (isRBACUserKindOneOf _)) eqn:Ea;
    [rewrite IH; split; [naive_solver|intros [[->|?] ?]; [naive_solver|done]]|].
  rewrite elem_of_cons, IH. naive_solver.
Qed.

Lemma getMissing_elem crbs admins crb :
  crb ∈ getMissing crbs admins <->
  exists a, a ∈ admins /\ crb = toAdminClusterRoleBinding a /\ forall c, c ∈ crbs -> ~ binds c a.
Proof.
  induction admins as [|a admins IH]; cbn [getMissing].
  { split; [intros Hn; inversion Hn|intros (a & Hn & _); inversion Hn]. }
  setoid_rewrite elem_of_cons.
  destruct (slicesContainsFunc crbs (newContainsAdmin a)) eqn:E.
  - rewrite IH. apply slicesContainsFunc_spec in E as (c & Hc & Hb%newContainsAdmin_spec).
    split; [naive_solver|]. intros (b & [->|?] & ? & Hno); [by destruct (Hno c)|eauto].
  - rewrite elem_of_cons, IH. rewrite slicesContainsFunc_false in E.
    assert (forall c, c ∈ crbs -> ~ binds c a) as Hno.
    { intros c Hc Hb%newContainsAdmin_spec. rewrite E in Hb; done. }
    split; [|naive_solver]. intros [->|(b & ? & ? & ?)]; [|naive_solver]. exists a. auto.
Qed.

End Rbac.

(** ** Properties *)

Section Properties.
Context `{MetaLaws}.

(** The bindings of the cluster once those of [getRemoved] are deleted and those
    of [getMissing] are created. *)
Definition reconciledCRBs (crbs : list ClusterRoleBinding) (admins : list string) :
    list ClusterRoleBinding :=
  filter (fun c => c ∉ getRemoved crbs admins) crbs ++ getMissing crbs admins.

Lemma reconciled_elem crbs admins c :
  c ∈ reconciledCRBs crbs admins <->
  (c ∈ crbs /\ c ∉ getRemoved crbs admins) \/ c ∈ getMissing crbs admins.
Proof. unfold reconciledCRBs. rewrite elem_of_app, list_elem_of_filter. naive_solver. Qed.

Lemma binds_admin_kept crbs admins c a :
  a ∈ admins -> binds c a -> c ∉ getRemoved crbs admins.
Proof.
  intros Ha [_ (s & Hs & <-)] (_ & _ & _ & _ & Hno)%getRemoved_elem. by eapply Hno.
Qed.

Lemma admin_bound_after crbs admins a :
  a ∈ admins -> exists c, c ∈ reconciledCRBs crbs admins /\ binds c a.
Proof.
  intros Ha. destruct (slicesContainsFunc crbs (newContainsAdmin a)) eqn:E.
  - apply slicesContainsFunc_spec in E as (c & Hc & Hb%newContainsAdmin_spec).
    exists c. rewrite reconciled_elem. split; [left|done]. split; [done|].
    by eapply binds_admin_kept.
  - rewrite slicesContainsFunc_false in E. exists (toAdminClusterRoleBinding a).
    rewrite reconciled_elem. split; [right|by apply toAdmin_binds].
    apply getMissing_elem. exists a. split_and!; [done..|].
    intros c Hc Hb%newContainsAdmin_spec. rewrite E in Hb; done.
Qed.

(** getRemoved selects exactly the listed bindings that carry the operator's
    label, refer to some ClusterRole or to a role named cluster-admin, have a
    subject of kind User, and name none of the administrators. *)
Theorem getRemoved_spec (crbs : list ClusterRoleBinding) (admins : list string) crb :
  crb ∈ getRemoved crbs admins <->
  crb ∈ crbs /\
  Labels (crbMeta crb) !! "reconciler.kyma-project.io/managed-by" = Some "infrastructure-manager" /\
  (roleKind (crbRoleRef crb) = "ClusterRole" \/ roleName (crbRoleRef crb) = "cluster-admin") /\
  (exists s, s ∈ crbSubjects crb /\ subjKind s = UserKind) /\
  (forall s, s ∈ crbSubjects crb -> subjName s ∉ admins).
Proof. by rewrite getRemoved_elem, managedByKIM_spec. Qed.

Lemma second_pass crbs admins :
  getRemoved (reconciledCRBs crbs admins) admins = [] /\ getMissing (reconciledCRBs crbs admins) admins = [].
Proof.
  split.
  - apply elem_of_nil_inv. intros c (Hc & Hm & Hr & Hu & Hno)%getRemoved_elem.
    apply reconciled_elem in Hc as [[Hc Hn]|Hc]; [apply Hn, getRemoved_elem; by split_and!|].
    pose proof Hc as (a & Ha & -> & _)%getMissing_elem.
    apply (Hno (mkSubject UserKind a rbacGroupName)); [constructor|done].
  - apply elem_of_nil_inv. intros c (a & Ha & _ & Hno)%getMissing_elem.
    destruct (admin_bound_after crbs admins a Ha) as (c' & Hc' & Hb). by eapply Hno.
Qed.

(** The label of the bindings that the operator makes. *)
Definition labelled (c : ClusterRoleBinding) : Prop :=
  Labels (crbMeta c) !! "reconciler.kyma-project.io/managed-by" = Some "infrastructure-manager".

Definition adminRole : RoleRef := mkRoleRef "rbac.authorization.k8s.io" "ClusterRole" "cluster-admin".

(** The binding makes the user an administrator. *)
Definition makesAdmin (c : ClusterRoleBinding) (user : string) : Prop :=
  crbRoleRef c = adminRole /\ exists s, s ∈ crbSubjects c /\ subjKind s = "User" /\ subjName s = user.

(** A binding as the operator makes them. *)
Definition ownForm (c : ClusterRoleBinding) : Prop :=
  crbRoleRef c = adminRole /\ exists user, crbSubjects c = [mkSubject "User" user "rbac.authorization.k8s.io"].

(** A binding that names one of the users. *)
Definition names (c : ClusterRoleBinding) (users : list string) : Prop :=
  exists s, s ∈ crbSubjects c /\ subjName s ∈ users.

Lemma toAdmin_form a :
  labelled (toAdminClusterRoleBinding a) /\ ownForm (toAdminClusterRoleBinding a) /\
  makesAdmin (toAdminClusterRoleBinding a) a.
Proof.
  split; [apply lookup_singleton_eq|]. split; (split; [done|]); [by exists a|].
  eexists. by split; [apply list_elem_of_singleton|].
Qed.

(** Which of the listed bindings go. *)
Lemma removed_iff crbs admins c :
  c ∈ crbs -> c ∉ reconciledCRBs crbs admins <->
    labelled c /\ (roleKind (crbRoleRef c) = "ClusterRole" \/ roleName (crbRoleRef c) = "cluster-admin") /\
    (exists s, s ∈ crbSubjects c /\ subjKind s = "User") /\ ~ names c admins.
Proof.
  intros Hc. unfold labelled, names. rewrite <- managedByKIM_spec.
  assert (c ∉ reconciledCRBs crbs admins <-> c ∈ getRemoved crbs admins) as ->.
  { rewrite reconciled_elem. split.
    - intros Hno. destruct (decide (c ∈ getRemoved crbs admins)); [done|]. destruct Hno. by left.
    - intros Hr [[_ Hno]|(a & Ha & -> & _)%getMissing_elem]; [done|].
      apply getRemoved_elem in Hr as (_ & _ & _ & _ & Hno). by apply (Hno (mkSubject UserKind a rbacGroupName)); [left|]. }
  rewrite getRemoved_elem. unfold UserKind. naive_solver.
Qed.

(** Which are made. *)
Lemma made_iff crbs admins c :
  c ∈ getMissing crbs admins <->
  exists a, a ∈ admins /\ (forall c', c' ∈ crbs -> labelled c' -> ~ names c' [a]) /\
    c = mkCRB (mkMeta "" "admin-" "" "" "" 0 None
                 {["reconciler.kyma-project.io/managed-by" := "infrastructure-manager"]} ∅ [] [])
          [mkSubject "User" a "rbac.authorization.k8s.io"] adminRole.
Proof.
  rewrite getMissing_elem. unfold binds, labelled, names. setoid_rewrite managedByKIM_spec.
  setoid_rewrite list_elem_of_singleton. naive_solver.
Qed.

(** C23. Reconciling the administrators. Of the listed bindings exactly those go that
    carry the operator's label, refer to a ClusterRole (any) or to a role named
    cluster-admin, have a User among their subjects and name no administrator; all
    others, in particular every binding without the label, stay. For each
    administrator whom no labelled binding names, whatever its role, and for nobody
    else, a labelled binding to cluster-admin is made. A second pass over the result
    removes and makes nothing. When the labelled bindings are of the form in which the
    operator makes them, the goal is reached: a user is made an administrator by a
    labelled binding of the result exactly if the list of administrators has the user. *)
Theorem administrators_reconciled (crbs : list ClusterRoleBinding) (admins : list string) :
  let after := reconciledCRBs crbs admins in
  (forall c, c ∈ crbs -> c ∉ after <->
     labelled c /\ (roleKind (crbRoleRef c) = "ClusterRole" \/ roleName (crbRoleRef c) = "cluster-admin") /\
     (exists s, s ∈ crbSubjects c /\ subjKind s = "User") /\ ~ names c admins) /\
  (forall c, c ∈ after -> c ∈ crbs \/
     exists a, a ∈ admins /\ (forall c', c' ∈ crbs -> labelled c' -> ~ names c' [a]) /\
       c = mkCRB (mkMeta "" "admin-" "" "" "" 0 None
                    {["reconciler.kyma-project.io/managed-by" := "infrastructure-manager"]} ∅ [] [])
             [mkSubject "User" a "rbac.authorization.k8s.io"] adminRole) /\
  (forall a, a ∈ admins -> exists c, c ∈ after /\ labelled c /\ names c [a]) /\
  (getRemoved after admins = [] /\ getMissing after admins = []) /\
  ((forall c, c ∈ crbs -> labelled c -> ownForm c) ->
     forall user, (exists c, c ∈ after /\ labelled c /\ makesAdmin c user) <-> user ∈ admins).
Proof.
  intros after. assert (forall a, a ∈ admins -> exists c, c ∈ after /\ labelled c /\ names c [a]) as Hgoal.
  { intros a (c & Hc & Hb & s & Hs & <-)%(admin_bound_after crbs). exists c. unfold labelled. rewrite <- managedByKIM_spec.
    split_and!; [done..|]. exists s. by rewrite list_elem_of_singleton. }
  split_and!; [intros c; apply removed_iff| |exact Hgoal|apply second_pass..|].
  - intros c [[Hc _]|Hc]%reconciled_elem; [by left|right]. by apply made_iff.
  - intros Hown user. assert (forall c, c ∈ after -> labelled c -> ownForm c) as Hform.
    { intros c [[Hc _]|(a & _ & -> & _)%getMissing_elem]%reconciled_elem Hl; [by apply Hown|apply toAdmin_form]. }
    split.
    + intros (c & Hc & Hl & _ & s & Hs & Hkind & <-). pose proof (Hform c Hc Hl) as (Hrole & u & Hsub).
      rewrite Hsub in Hs. apply list_elem_of_singleton in Hs as ->. cbn.
      apply reconciled_elem in Hc as [[Hc Hno]|(a & Ha & -> & _)%getMissing_elem].
      * destruct (decide (u ∈ admins)) as [|Hu]; [done|]. destruct Hno. apply getRemoved_elem.
        split_and!; [done|by apply managedByKIM_spec|left; by rewrite Hrole|rewrite Hsub; eexists; by split; [left|]|].
        intros s. rewrite Hsub. by intros ->%list_elem_of_singleton.
      * by injection Hsub as <-.
    + intros (c & Hc & Hl & s & Hs & Hu%list_elem_of_singleton)%Hgoal. exists c. split_and!; [done..|].
      pose proof (Hform c Hc Hl) as (Hrole & u & Hsub). split; [done|]. exists s. split_and!; [done| |done].
      rewrite Hsub in Hs. by apply list_elem_of_singleton in Hs as ->.
Qed.

End Properties.

(** ** Concrete bindings *)

#[local] Existing Instances MetaRef.lib MetaRef.laws.

Definition exampleCRB (name user role : string) : ClusterRoleBinding :=
  mkCRB (meta_with_labels (metaNamed name "") labelsManagedByKIM)
    [mkSubject UserKind user rbacGroupName] (mkRoleRef rbacGroupName "ClusterRole" role).

Definition exampleCRBs : list ClusterRoleBinding :=
  [exampleCRB "admin-1" "alice" "cluster-admin"; exampleCRB "admin-2" "bob" "cluster-admin";
   exampleCRB "viewer" "carol" "view"].

Definition ownCRBs : list ClusterRoleBinding :=
  [exampleCRB "admin-1" "alice" "cluster-admin"; exampleCRB "admin-2" "bob" "cluster-admin"].

(** Alice stays, bob is no administrator any more, dave is new. *)
Lemma administrators_reconciled_witness :
  getMissing ownCRBs ["alice"; "dave"] = [toAdminClusterRoleBinding "dave"] /\
  forall user, (exists c, c ∈ reconciledCRBs ownCRBs ["alice"; "dave"] /\ labelled c /\ makesAdmin c user) <->
    user ∈ ["alice"; "dave"].
Proof.
  split; [vm_compute; reflexivity|].
  pose proof (administrators_reconciled ownCRBs ["alice"; "dave"]) as (_ & _ & _ & _ & Hgoal). apply Hgoal.
  intros c Hc _. apply elem_of_cons in Hc as [->|Hc]; [|apply list_elem_of_singleton in Hc as ->];
    (split; [reflexivity|by eexists]).
Defined.

(** An administrator whom a labelled binding to another role names gets none to
    cluster-admin. *)
Example viewer_not_promoted : getMissing exampleCRBs ["carol"] = [].
Proof. by vm_compute. Qed.

(** The binding of carol to the ClusterRole view is among the removed ones. *)
Lemma getRemoved_spec_witness :
  exampleCRB "viewer" "carol" "view" ∈ getRemoved exampleCRBs ["alice"; "dave"] /\
  roleName (crbRoleRef (exampleCRB "viewer" "carol" "view")) <> "cluster-admin".
Proof.
  split; [|discriminate]. apply getRemoved_spec.
  split; [apply list_elem_of_In; right; right; left; reflexivity|].
  split; [vm_compute; reflexivity|]. split; [left; reflexivity|]. split.
  - exists (mkSubject UserKind "carol" rbacGroupName). split; [constructor|reflexivity].
  - intros s Hs Hin. apply list_elem_of_singleton in Hs as ->. vm_compute in Hin.
    repeat (apply elem_of_cons in Hin as [Hin|Hin]; [discriminate Hin|]). inversion Hin.
Defined.
