(* ===== verification/AuditLog.v ===== *)
(** * Audit log data (pkg/auditlog)

    Shared configuration comes from a file; dedicated configuration comes from a
    pool of AuditLog resources, claimed in two phases: a reservation label
    (light lock), then the assignment to the runtime (heavy lock). *)

From S2P Require Import Prelude Kube Gardener RuntimeApi Objects Effects.

Local Open Scope string_scope.

(*@ src/pkg/auditlog/shared.go:19-25 AuditLogData *)
Record AuditLogData := mkAuditLogData {
  TenantID : string;
  ServiceURL : string;
  SecretName : string;
  ReadCredsSecretName : string
}.

#[export] Instance AuditLogData_eq_dec : EqDecision AuditLogData.
Proof. solve_decision. Defined.

Definition emptyAuditLogData : AuditLogData := mkAuditLogData "" "" "" "".

(*@ src/pkg/auditlog/shared.go:27-29 Configuration *)
Definition Configuration : Type := gmap string (gmap string AuditLogData).

Definition ErrConfigurationNotFound : GoError := newError "audit logs configuration not found".

(** [fmt.Errorf("%w: ...", ErrConfigurationNotFound, ...)] *)
Definition notFoundErr (detail : string) : GoError :=
  mkError (errReason ErrConfigurationNotFound)
    (errText ErrConfigurationNotFound +:+ ": " +:+ detail).

(*@ src/pkg/auditlog/shared.go:32-49 GetAuditLogData *)
Definition GetAuditLogData (a : Configuration) (providerType region : string) :
    result AuditLogData :=
  match a !! providerType with
  | None => Err (notFoundErr ("missing providerType: '" +:+ providerType +:+ "'"))
  | Some providerCfg =>
      match providerCfg !! region with
      | None =>
          Err (notFoundErr ("missing region: '" +:+ region +:+ "' for providerType: '" +:+
                            providerType +:+ "'"))
      | Some providerCfgForRegion => Ok providerCfgForRegion
      end
  end.

(*@consts src/pkg/auditlog/dedicated_client.go:13-17 *)
Definition LabelReservedForRuntimeID : string := "reserved-for-runtime-id".
Definition LabelReservedAt : string := "reserved-for-runtime-at".

(** ** The default provider *)

(*@ src/pkg/auditlog/provider.go:39-45 DefaultDataProvider *)
Record DefaultDataProvider := mkDefaultProvider {
  sharedConfig : Configuration;
  poolNamespace : string
}.

Definition listAuditLogs (p : DefaultDataProvider) (sel : gmap string string) :
    prog (result (list AuditLog)) :=
  callP (CList Kcp KAuditLog (poolNamespace p) sel).

Definition reservationSelector (runtimeID : string) : gmap string string :=
  {[ LabelReservedForRuntimeID := runtimeID ]}.

(*@ src/pkg/auditlog/dedicated_client.go:72-95 findAuditLogCRByReservation *)
Definition findAuditLogCRByReservation (p : DefaultDataProvider) (runtimeID : string) :
    prog (result (option AuditLog)) :=
  r ← listAuditLogs p (reservationSelector runtimeID);
  mret
    (match r with
     | Err e => Err (wrapError "failed to list AuditLog CRs by reservation label" e)
     | Ok items => Ok (hd_error items)
     end).

(** The loop stops at the second match, with the first one found. *)
Fixpoint firstAssigned (runtimeID : string) (items : list AuditLog) : option AuditLog :=
  match items with
  | [] => None
  | a :: rest =>
      if String.eqb (alAssignedToRuntimeID (alSpec a)) runtimeID then Some a
      else firstAssigned runtimeID rest
  end.

(*@ src/pkg/auditlog/dedicated_client.go:136-162 findAuditLogCRByRuntimeID *)
Definition findAuditLogCRByRuntimeID (p : DefaultDataProvider) (runtimeID : string) :
    prog (result (option AuditLog)) :=
  r ← listAuditLogs p ∅;
  mret
    (match r with
     | Err e => Err (wrapError "failed to list AuditLog CRs" e)
     | Ok items => Ok (firstAssigned runtimeID items)
     end).

(*@ src/pkg/auditlog/dedicated_client.go:204-211 containsRegion *)
Fixpoint containsRegion (regions : list string) (region : string) : bool :=
  match regions with
  | [] => false
  | r :: rest => if String.eqb r region then true else containsRegion rest region
  end.

(** The conditions of the loop body under which a resource is returned. *)
Definition isAvailable (region : string) (auditLog : AuditLog) : bool :=
  if bool_decide (alState auditLog = StateSiemApproved) ||
     bool_decide (alState auditLog = StateRegistrationReady)
  then
    if negb (String.eqb (alAssignedToRuntimeID (alSpec auditLog)) "") then false
    else if bool_decide (is_Some (Labels (alMeta auditLog) !! LabelReservedForRuntimeID)) then false
    else containsRegion (alRegions (alSpec auditLog)) region
  else false.

Fixpoint firstAvailable (region : string) (items : list AuditLog) : option AuditLog :=
  match items with
  | [] => None
  | auditLog :: rest =>
      if isAvailable region auditLog then Some auditLog else firstAvailable region rest
  end.

(*@ src/pkg/auditlog/dedicated_client.go:167-201 findAvailableAuditLogCR *)
Definition findAvailableAuditLogCR (p : DefaultDataProvider) (region : string) :
    prog (result (option AuditLog)) :=
  r ← listAuditLogs p ∅;
  mret
    (match r with
     | Err e => Err (wrapError "failed to list AuditLog CRs" e)
     | Ok items => Ok (firstAvailable region items)
     end).

(** Setting the two reservation labels; the time is in seconds. *)
Definition withReservation (a : AuditLog) (runtimeID : string) (now : Z) : AuditLog :=
  auditlog_with_labels a
    (<[LabelReservedAt := pretty (now / Second)%Z]>
      (<[LabelReservedForRuntimeID := runtimeID]> (Labels (alMeta a)))).

(*@ src/pkg/auditlog/dedicated_client.go:23-69 reserveAuditLogCR *)
Definition reserveAuditLogCR (p : DefaultDataProvider) (runtimeID region : string) :
    prog (option GoError) :=
  if String.eqb runtimeID "" then mret (Some (newError "runtimeID is empty"))
  else
    reserved ← findAuditLogCRByReservation p runtimeID;
    match reserved with
    | Err e => mret (Some (wrapError "failed to find reserved AuditLogCR" e))
    | Ok (Some _) => mret None
    | Ok None =>
        available ← findAvailableAuditLogCR p region;
        match available with
        | Err e => mret (Some (wrapError "failed to find available AuditLogCR" e))
        | Ok None =>
            mret (Some (newError ("no available AuditLogCR in the pool for region " +:+ region)))
        | Ok (Some available) =>
            now ← Now;
            r ← callP (CUpdate Kcp KAuditLog (withReservation available runtimeID now));
            mret
              (match r with
               | Ok _ => None
               | Err e =>
                   if IsConflict e
                   then Some (newError ("conflict reserving AuditLogCR " +:+ Name (alMeta available) +:+
                                        ": another runtime reserved it concurrently"))
                   else Some (wrapError ("failed to reserve AuditLogCR " +:+ Name (alMeta available)) e)
               end)
        end
    end.

(*@ src/pkg/auditlog/dedicated_client.go:98-132 getOrClaimAuditLogCR *)
Definition getOrClaimAuditLogCR (p : DefaultDataProvider) (runtimeID : string) :
    prog (result AuditLog) :=
  claimed ← findAuditLogCRByRuntimeID p runtimeID;
  match claimed with
  | Err e => mret (Err (wrapError "failed to find claimed AuditLogCR" e))
  | Ok (Some claimed) => mret (Ok claimed)
  | Ok None =>
      reserved ← findAuditLogCRByReservation p runtimeID;
      match reserved with
      | Err e => mret (Err (wrapError "failed to find reserved AuditLogCR" e))
      | Ok None =>
          mret (Err (newError ("no reserved AuditLogCR found for runtime " +:+ runtimeID +:+
                               " (reservation might have been cleaned up or never created)")))
      | Ok (Some reserved) =>
          r ← callP (CUpdate Kcp KAuditLog (auditlog_assigned_to reserved runtimeID));
          mret
            (match r with
             | Ok stored => Ok stored
             | Err e =>
                 if IsConflict e
                 then Err (newError ("conflict claiming AuditLogCR " +:+ Name (alMeta reserved) +:+
                                     ": concurrent update detected"))
                 else Err (wrapError ("failed to claim reserved AuditLogCR " +:+
                                      Name (alMeta reserved)) e)
             end)
      end
  end.

(*@ src/pkg/auditlog/dedicated_client.go:214-231 releaseAuditLogCR *)
Definition releaseAuditLogCR (auditLog : AuditLog) : prog (option GoError) :=
  if bool_decide (alState auditLog <> StateAssigned) then mret None
  else
    r ← callP (CUpdate Kcp KAuditLog (auditlog_orphaned auditLog));
    mret
      (match r with
       | Ok _ => None
       | Err e => Some (wrapError ("failed to mark AuditLogCR " +:+ Name (alMeta auditLog) +:+
                                   " as orphaned") e)
       end).

Definition toData (a : AuditLog) : AuditLogData :=
  mkAuditLogData (alSubaccountID (alSpec a)) (alcServiceURL (alConfig (alSpec a)))
    (alcGardenerSecretName (alConfig (alSpec a))) (alcReadCredsSecretName (alConfig (alSpec a))).

(*@ src/pkg/auditlog/provider.go:78-104 claimAndGetDedicatedAuditLogData *)
Definition claimAndGetDedicatedAuditLogData (p : DefaultDataProvider) (runtimeID : string) :
    prog (result AuditLogData) :=
  reserved ← findAuditLogCRByReservation p runtimeID;
  match reserved with
  | Err e => mret (Err (wrapError "failed to find reserved AuditLogCR" e))
  | Ok None => mret (Err (newError ("no reservation found for runtime " +:+ runtimeID)))
  | Ok (Some reserved) =>
      if negb (String.eqb (alAssignedToRuntimeID (alSpec reserved)) runtimeID) then
        r ← callP (CUpdate Kcp KAuditLog (auditlog_assigned_to reserved runtimeID));
        mret
          (match r with
           | Ok stored => Ok (toData stored)
           | Err e => Err (wrapError "failed to claim AuditLogCR" e)
           end)
      else mret (Ok (toData reserved))
  end.

(*@ src/pkg/auditlog/provider.go:107-130 getDedicatedAuditLogDataWithoutClaim *)
Definition getDedicatedAuditLogDataWithoutClaim (p : DefaultDataProvider) (runtimeID : string) :
    prog (result AuditLogData) :=
  auditLogCR ← findAuditLogCRByRuntimeID p runtimeID;
  match auditLogCR with
  | Err e => mret (Err (wrapError "failed to find claimed AuditLogCR" e))
  | Ok (Some auditLogCR) => mret (Ok (toData auditLogCR))
  | Ok None =>
      auditLogCR ← findAuditLogCRByReservation p runtimeID;
      mret
        (match auditLogCR with
         | Err e => Err (wrapError "failed to find reserved AuditLogCR" e)
         | Ok None => Err (newError ("no AuditLogCR found for runtime " +:+ runtimeID))
         | Ok (Some auditLogCR) => Ok (toData auditLogCR)
         end)
  end.

(** ** The interface *)

(** The operations of the Go interface, and what its clients rely on: they read
    the clock and touch nothing but the AuditLog resources, and they do not
    panic. *)
(*@ src/pkg/auditlog/provider.go:16-37 DataProvider *)
Record DataProvider := mkDataProvider {
  ReserveAuditLog : string -> string -> prog (option GoError);
  GetDedicatedAuditLogData : string -> bool -> prog (result AuditLogData);
  GetSharedAuditLogData : string -> string -> prog (result AuditLogData);
  ClaimAuditLog : string -> string -> prog (result AuditLogData);
  ReleaseDedicated : string -> prog (option GoError)
}.

Definition auditCall (c : call) : Prop :=
  match c with
  | CList Kcp KAuditLog _ _ | CUpdate Kcp KAuditLog _ | CNow => True
  | _ => False
  end.

Class DataProviderOk (p : DataProvider) : Prop := {
  reserve_only region rid : only auditCall (ReserveAuditLog p region rid);
  dedicated_only rid claim : only auditCall (GetDedicatedAuditLogData p rid claim);
  shared_only provider region : only auditCall (GetSharedAuditLogData p provider region);
  claim_only region rid : only auditCall (ClaimAuditLog p region rid);
  release_only rid : only auditCall (ReleaseDedicated p rid)
}.

Section Provider.
Context (p : DefaultDataProvider).

(*@ src/pkg/auditlog/provider.go:63-65 ReserveAuditLog *)
Definition reserveAuditLog (providerRegion runtimeID : string) : prog (option GoError) :=
  reserveAuditLogCR p runtimeID providerRegion.

(*@ src/pkg/auditlog/provider.go:69-74 GetDedicatedAuditLogData *)
Definition getDedicatedAuditLogData (runtimeID : string) (claim : bool) :
    prog (result AuditLogData) :=
  if claim then claimAndGetDedicatedAuditLogData p runtimeID
  else getDedicatedAuditLogDataWithoutClaim p runtimeID.

(*@ src/pkg/auditlog/provider.go:133-139 GetSharedAuditLogData *)
Definition getSharedAuditLogData (providerType region : string) : prog (result AuditLogData) :=
  mret (GetAuditLogData (sharedConfig p) providerType region).

(*@ src/pkg/auditlog/provider.go:143-189 ClaimAuditLog *)
Definition claimAuditLog (providerRegion runtimeID : string) : prog (result AuditLogData) :=
  existingData ← getDedicatedAuditLogDataWithoutClaim p runtimeID;
  match existingData with
  | Ok existingData => mret (Ok existingData)
  | Err _ =>
      auditLogCR ← findAvailableAuditLogCR p providerRegion;
      match auditLogCR with
      | Err e => mret (Err (wrapError "failed to find available AuditLogCR" e))
      | Ok None => mret (Err (newError ("no available AuditLogCR for region " +:+ providerRegion)))
      | Ok (Some auditLogCR) =>
          now ← Now;
          r ← callP (CUpdate Kcp KAuditLog
                       (withReservation (auditlog_assigned_to auditLogCR runtimeID) runtimeID now));
          mret
            (match r with
             | Ok stored => Ok (toData stored)
             | Err e =>
                 if IsConflict e
                 then Err (newError ("conflict claiming AuditLogCR " +:+ Name (alMeta auditLogCR) +:+
                                     ": another runtime claimed it concurrently"))
                 else Err (wrapError "failed to claim AuditLogCR" e)
             end)
      end
  end.

(*@ src/pkg/auditlog/provider.go:192-203 ReleaseDedicated *)
Definition releaseDedicated (runtimeID : string) : prog (option GoError) :=
  auditLogCR ← findAuditLogCRByRuntimeID p runtimeID;
  match auditLogCR with
  | Err e =>
      mret (Some (wrapError ("failed to find assigned AuditLogCR for runtime " +:+ runtimeID) e))
  | Ok None => mret None
  | Ok (Some auditLogCR) => releaseAuditLogCR auditLogCR
  end.

(*@ src/pkg/auditlog/provider.go:48-60 NewDataProvider *)
Definition NewDataProvider : DataProvider :=
  mkDataProvider reserveAuditLog getDedicatedAuditLogData getSharedAuditLogData claimAuditLog
    releaseDedicated.

End Provider.

(** ** Lemmas *)

Lemma firstAvailable_Some region items a :
  firstAvailable region items = Some a -> a ∈ items /\ isAvailable region a = true.
Proof.
  induction items as [|x items IH]; cbn; [done|]. destruct (isAvailable region x) eqn:E.
  - intros [= <-]. split; [constructor|done].
  - intros [? ?]%IH. split; [by constructor|done].
Qed.

Lemma firstAvailable_None region items :
  firstAvailable region items = None <-> forall a, a ∈ items -> isAvailable region a = false.
Proof.
  induction items as [|x items IH]; cbn; [split; [intros _ a Ha; inversion Ha|done]|].
  setoid_rewrite elem_of_cons. destruct (isAvailable region x) eqn:E; [|rewrite IH; naive_solver].
  split; [done|]. intros Hall. rewrite Hall in E; [done|by left].
Qed.

Lemma firstAssigned_Some rid items a :
  firstAssigned rid items = Some a -> a ∈ items /\ alAssignedToRuntimeID (alSpec a) = rid.
Proof.
  induction items as [|x items IH]; cbn; [done|].
  destruct (String.eqb_spec (alAssignedToRuntimeID (alSpec x)) rid).
  - intros [= <-]. split; [constructor|done].
  - intros [? ?]%IH. split; [by constructor|done].
Qed.

Lemma containsRegion_spec regions region : containsRegion regions region = true <-> region ∈ regions.
Proof.
  induction regions as [|r regions IH]; cbn; [split; [done|intros H; inversion H]|].
  rewrite elem_of_cons. destruct (String.eqb_spec r region) as [->|Hne]; [naive_solver|].
  rewrite IH. naive_solver.
Qed.

Definition reservedFor (a : AuditLog) : option string :=
  Labels (alMeta a) !! LabelReservedForRuntimeID.
Definition assignedTo (a : AuditLog) : string := alAssignedToRuntimeID (alSpec a).

Lemma isAvailable_spec region a :
  isAvailable region a = true <->
  (alState a = StateSiemApproved \/ alState a = StateRegistrationReady) /\
  assignedTo a = "" /\ reservedFor a = None /\ region ∈ alRegions (alSpec a).
Proof.
  unfold isAvailable, reservedFor, assignedTo. rewrite <- containsRegion_spec.
  destruct (bool_decide _ || bool_decide _) eqn:E.
  - assert (alState a = StateSiemApproved \/ alState a = StateRegistrationReady) as Hst.
    { apply orb_true_iff in E as [?%bool_decide_eq_true|?%bool_decide_eq_true]; auto. }
    destruct (String.eqb_spec (alAssignedToRuntimeID (alSpec a)) ""); cbn; [|naive_solver].
    clear E. case_bool_decide as Hl; cbn.
    + split; [done|]. intros (_ & _ & Hn & _). rewrite Hn in Hl. by apply is_Some_None in Hl.
    + rewrite <- eq_None_not_Some in Hl. naive_solver.
  - apply orb_false_iff in E as [?%bool_decide_eq_false ?%bool_decide_eq_false]. naive_solver.
Qed.

#[export] Instance NewDataProvider_ok p : DataProviderOk (NewDataProvider p).
Proof.
  split; intros; cbn;
    unfold reserveAuditLog, reserveAuditLogCR, getDedicatedAuditLogData,
      claimAndGetDedicatedAuditLogData, claimAuditLog, releaseDedicated, releaseAuditLogCR,
      getDedicatedAuditLogDataWithoutClaim;
    repeat first
      [ match goal with
        | |- only _ (if ?b then _ else _) => destruct b
        | |- only _ (match ?x with _ => _ end) => destruct x
        | |- only _ (_ ≫= _) => apply only_bind; [|intros ?]
        end
      | done
      | cbn; split; [done|intros ?] ].
Qed.
