(* ===== verification/VersionLog.v ===== *)
(** * Objects under optimistic concurrency

    The log of all versions of the objects of a kind that an API server has
    stored, the latest first; an object has a key and a resource version. *)

From S2P Require Import Prelude Kube.

Section VersionLog.
Context {A : Type} (key : A -> NamespacedName) (version : A -> string).

(** The version that is stored now. *)
Fixpoint current (l : list A) (k : NamespacedName) : option A :=
  match l with
  | [] => None
  | a :: rest => if decide (key a = k) then Some a else current rest k
  end.

Lemma current_Some l k a : current l k = Some a -> a ∈ l /\ key a = k.
Proof.
  induction l as [|x l IH]; cbn; [done|]. case_decide.
  - intros [= <-]. split; [constructor|done].
  - intros [? ?]%IH. split; [by constructor|done].
Qed.

Lemma current_None l k : current l k = None -> forall a, a ∈ l -> key a <> k.
Proof.
  induction l as [|x l IH]; cbn; [intros _ a Ha; inversion Ha|]. case_decide; [done|].
  intros Hn a [->|Ha]%elem_of_cons; [done|by apply IH].
Qed.

(** Versions identify what was stored. *)
Lemma same_version (l : list A) (a b : A) :
  NoDup (version <$> l) -> a ∈ l -> b ∈ l -> version a = version b -> a = b.
Proof.
  intros Hnd (i & Hi)%list_elem_of_lookup_1 (j & Hj)%list_elem_of_lookup_1 Hv.
  assert (i = j) as ->.
  { eapply (NoDup_lookup _ _ _ (version a)); [done|..]; rewrite list_lookup_fmap.
    - by rewrite Hi.
    - by rewrite Hj, Hv. }
  congruence.
Qed.

End VersionLog.
