(* ===== verification/AuditLogPool.v ===== *)
(** * The pool of AuditLog resources under concurrency

    Reconciliations of many runtimes claim AuditLog resources at the same time,
    reading them from caches that may be stale; an update succeeds only against
    the stored version of an object.  This file models that server, shows which
    updates the provider of [AuditLog] issues, and concludes that a resource,
    once assigned to a runtime, stays with it. *)

From S2P Require Import Prelude Kube Gardener RuntimeApi Objects Effects AuditLog VersionLog.

Local Open Scope string_scope.

(** ** The updates a runtime may ask for *)

(** [o] is the listed version [v], changed the way one of the operations does for
    runtime [rid]. *)
Inductive transition (rid : string) (v : AuditLog) : AuditLog -> Prop :=
| t_reserve region now :
    isAvailable region v = true -> transition rid v (withReservation v rid now)
| t_claim :
    reservedFor v = Some rid -> transition rid v (auditlog_assigned_to v rid)
| t_claim_direct region now :
    isAvailable region v = true ->
    transition rid v (withReservation (auditlog_assigned_to v rid) rid now)
| t_release :
    assignedTo v = rid -> alState v = StateAssigned -> transition rid v (auditlog_orphaned v).

(** A version of a resource that some earlier listing returned. *)
Definition listed (h : history) (v : AuditLog) : Prop :=
  exists ns sel items, Ev (CList Kcp KAuditLog ns sel) (Ok items) ∈ h /\ v ∈ items.

(** Calls of a program acting for [rid]. *)
Definition poolGuar (rid : string) : guar := fun h c =>
  match c with
  | CUpdate Kcp KAuditLog o => exists v, listed h v /\ transition rid v o
  | CList Kcp KAuditLog _ _ | CNow => True
  | _ => False
  end.

(** The server honours label selectors. *)
Definition honest : rely := fun _ e =>
  match e with
  | Ev (CList Kcp KAuditLog _ sel) (Ok items) => Forall (fun a => sel ⊆ Labels (alMeta a)) items
  | _ => True
  end.

Section Operations.
Context (p : DefaultDataProvider) (rid : string).

Definition anyEnd {A} : outcome A -> history -> Prop := fun _ _ => True.

Lemma listed_cons h e v : listed h v -> listed (e :: h) v.
Proof. intros (ns & sel & items & Hi & Hv). exists ns, sel, items. split; [by constructor|done]. Qed.

Lemma wp_findByReservation h (Q : outcome (result (option AuditLog)) -> history -> Prop) :
  (forall r h', (forall v, r = Ok (Some v) -> listed h' v /\ reservedFor v = Some rid) ->
     Q (Done r) h') ->
  wp honest (poolGuar rid) (findAuditLogCRByReservation p rid) h Q.
Proof.
  intros HQ. unfold findAuditLogCRByReservation, listAuditLogs. wp_call r Hr; [done|].
  destruct r as [items|e]; apply HQ; [|done]. intros v [= Hv]. destruct items as [|x items]; [done|].
  injection Hv as ->. split.
  - eexists _, _, _. split; constructor.
  - cbn in Hr. inversion Hr as [|? ? Hsel]; subst. by apply map_singleton_subseteq_l in Hsel.
Qed.

Lemma wp_findByRuntimeID h (Q : outcome (result (option AuditLog)) -> history -> Prop) :
  (forall r h', (forall v, r = Ok (Some v) -> listed h' v /\ assignedTo v = rid) -> Q (Done r) h') ->
  wp honest (poolGuar rid) (findAuditLogCRByRuntimeID p rid) h Q.
Proof.
  intros HQ. unfold findAuditLogCRByRuntimeID, listAuditLogs. wp_call r Hr; [done|].
  destruct r as [items|e]; apply HQ; [|done]. intros v [= Hv].
  apply firstAssigned_Some in Hv as [Hv Ha]. split; [|done].
  eexists _, _, _. split; [constructor|done].
Qed.

Lemma wp_findAvailable region h (Q : outcome (result (option AuditLog)) -> history -> Prop) :
  (forall r h', (forall v, r = Ok (Some v) -> listed h' v /\ isAvailable region v = true) ->
     Q (Done r) h') ->
  wp honest (poolGuar rid) (findAvailableAuditLogCR p region) h Q.
Proof.
  intros HQ. unfold findAvailableAuditLogCR, listAuditLogs. wp_call r Hr; [done|].
  destruct r as [items|e]; apply HQ; [|done]. intros v [= Hv].
  apply firstAvailable_Some in Hv as [Hv Ha]. split; [|done].
  eexists _, _, _. split; [constructor|done].
Qed.

Lemma wp_reserve region h : wp honest (poolGuar rid) (reserveAuditLog p region rid) h anyEnd.
Proof.
  unfold reserveAuditLog, reserveAuditLogCR. case_match; [done|].
  apply wp_seq, wp_findByReservation. intros r h1 _. destruct r as [[v|]|e]; [done| |done].
  apply wp_seq, wp_findAvailable. intros r h2 Hr. destruct r as [[v|]|e]; [|done|done].
  destruct (Hr v eq_refl) as [Hl Ha]. wp_call now Hn; [done|]. wp_call u Hu; [|done].
  exists v. split; [by apply listed_cons|by eapply t_reserve].
Qed.

Lemma wp_claimAndGet h :
  wp honest (poolGuar rid) (claimAndGetDedicatedAuditLogData p rid) h anyEnd.
Proof.
  unfold claimAndGetDedicatedAuditLogData.
  apply wp_seq, wp_findByReservation. intros r h1 Hr. destruct r as [[v|]|e]; [|done|done].
  destruct (Hr v eq_refl) as [Hl Hv]. case_match; [|done]. wp_call u Hu; [|done].
  exists v. split; [done|by apply t_claim].
Qed.

Lemma wp_getWithoutClaim h (Q : outcome (result AuditLogData) -> history -> Prop) :
  (forall r h', Q (Done r) h') ->
  wp honest (poolGuar rid) (getDedicatedAuditLogDataWithoutClaim p rid) h Q.
Proof.
  intros HQ. unfold getDedicatedAuditLogDataWithoutClaim.
  apply wp_seq, wp_findByRuntimeID. intros r h1 _. destruct r as [[v|]|e]; [apply HQ| |apply HQ].
  apply wp_seq, wp_findByReservation. intros r h2 _. apply HQ.
Qed.

Lemma wp_claim region h : wp honest (poolGuar rid) (claimAuditLog p region rid) h anyEnd.
Proof.
  unfold claimAuditLog. apply wp_seq, wp_getWithoutClaim. intros r h1. destruct r as [d|e]; [done|].
  apply wp_seq, wp_findAvailable. intros r h2 Hr. destruct r as [[v|]|e']; [|done|done].
  destruct (Hr v eq_refl) as [Hl Ha]. wp_call now Hn; [done|]. wp_call u Hu; [|done].
  exists v. split; [by apply listed_cons|by eapply t_claim_direct].
Qed.

Lemma wp_release h : wp honest (poolGuar rid) (releaseDedicated p rid) h anyEnd.
Proof.
  unfold releaseDedicated. apply wp_seq, wp_findByRuntimeID. intros r h1 Hr.
  destruct r as [[v|]|e]; [|done|done]. destruct (Hr v eq_refl) as [Hl Hv].
  unfold releaseAuditLogCR. case_bool_decide as Hs; [done|]. wp_call u Hu; [|done].
  exists v. split; [done|]. apply t_release; [done|]. by destruct (decide (alState v = StateAssigned)).
Qed.

Lemma wp_getDedicated claim h :
  wp honest (poolGuar rid) (getDedicatedAuditLogData p rid claim) h anyEnd.
Proof.
  destruct claim; cbn; [apply wp_claimAndGet|by apply wp_getWithoutClaim].
Qed.

Lemma wp_getOrClaim h : wp honest (poolGuar rid) (getOrClaimAuditLogCR p rid) h anyEnd.
Proof.
  unfold getOrClaimAuditLogCR. apply wp_seq, wp_findByRuntimeID. intros r h1 _.
  destruct r as [[v|]|e]; [done| |done]. apply wp_seq, wp_findByReservation. intros r h2 Hr.
  destruct r as [[v|]|e]; [|done|done]. destruct (Hr v eq_refl) as [Hl Hv]. wp_call u Hu; [|done].
  exists v. split; [done|by apply t_claim].
Qed.

End Operations.

(** ** The server *)

(** Every version of every AuditLog the server has stored, the latest first. *)
Definition alKey (a : AuditLog) : NamespacedName := objName KAuditLog a.
Definition alVersion (a : AuditLog) : string := ResourceVersion (alMeta a).

Abbreviation current := (current alKey).

(** What the server stores when an update of [cur] with [o] is accepted: the
    object sent, under a new version; the status is not part of an update. *)
Definition storedAs (l : list AuditLog) (cur o new : AuditLog) : Prop :=
  alKey new = alKey o /\ Labels (alMeta new) = Labels (alMeta o) /\ alSpec new = alSpec o /\
  alState new = alState cur /\ alVersion new ∉ (alVersion <$> l).

(** Optimistic concurrency: only an update of the current version is accepted. *)
Definition accepted (l : list AuditLog) (o new : AuditLog) : Prop :=
  exists cur, current l (alKey o) = Some cur /\ alVersion cur = alVersion o /\ storedAs l cur o new.

(** The server answers a call.  A listing returns versions that are or were
    stored; an update that fails for the client may still have been accepted. *)
Definition serves (l : list AuditLog) (e : event) (l' : list AuditLog) : Prop :=
  match e with
  | Ev (CList Kcp KAuditLog ns sel) r =>
      l' = l /\
      match r with
      | Ok items => Forall (fun a => a ∈ l /\ sel ⊆ Labels (alMeta a)) items
      | Err _ => True
      end
  | Ev (CUpdate Kcp KAuditLog o) r =>
      (l' = l /\ exists e, r = Err e) \/
      exists new, accepted l o new /\ l' = new :: l /\ (r = Ok new \/ exists e, r = Err e)
  | Ev CNow _ => l' = l
  | _ => False
  end.

Definition consistent (a : AuditLog) : Prop :=
  assignedTo a <> "" -> reservedFor a = Some (assignedTo a).

(** Writes of the controller that owns the pool: it adds unassigned resources,
    changes their status and configuration, and may drop a reservation that was
    not followed by an assignment. *)
Inductive poolWrite (l : list AuditLog) : AuditLog -> Prop :=
| pw_create new :
    current l (alKey new) = None -> alVersion new ∉ (alVersion <$> l) ->
    assignedTo new = "" -> reservedFor new = None -> poolWrite l new
| pw_change cur new :
    current l (alKey new) = Some cur -> alVersion new ∉ (alVersion <$> l) ->
    assignedTo new = assignedTo cur ->
    (reservedFor new = reservedFor cur \/ (assignedTo cur = "" /\ reservedFor new = None)) ->
    poolWrite l new.

(** ** Concurrent reconciliations *)

Inductive request :=
| ReqReserve (region : string)
| ReqGet (claim : bool)
| ReqClaim (region : string)
| ReqRelease.

Definition perform (p : DefaultDataProvider) (rid : string) (q : request) : prog unit :=
  match q with
  | ReqReserve region => ReserveAuditLog (NewDataProvider p) region rid ≫= fun _ => mret tt
  | ReqGet claim => GetDedicatedAuditLogData (NewDataProvider p) rid claim ≫= fun _ => mret tt
  | ReqClaim region => ClaimAuditLog (NewDataProvider p) region rid ≫= fun _ => mret tt
  | ReqRelease => ReleaseDedicated (NewDataProvider p) rid ≫= fun _ => mret tt
  end.

Fixpoint performAll (p : DefaultDataProvider) (rid : string) (qs : list request) : prog unit :=
  match qs with
  | [] => mret tt
  | q :: rest => perform p rid q ≫= fun _ => performAll p rid rest
  end.

Record thread := mkThread { thRid : string; thProg : prog unit; thHist : history }.

Definition config : Type := list AuditLog * list thread.

Inductive sysStep : config -> config -> Prop :=
| sys_call l ths i rid c k h r l' :
    ths !! i = Some (mkThread rid (Vis c k) h) ->
    serves l (Ev c r) l' ->
    sysStep (l, ths) (l', <[i := mkThread rid (k r) (Ev c r :: h)]> ths)
| sys_pool l ths new :
    poolWrite l new -> sysStep (l, ths) (new :: l, ths).

(** Threads that serve any requests of any runtimes, from a fresh start. *)
Definition startThreads (p : DefaultDataProvider) (jobs : list (string * list request)) :
    list thread :=
  (fun '(rid, qs) => mkThread rid (performAll p rid qs) []) <$> jobs.

(** ** The invariant *)

Fixpoint stableLog (l : list AuditLog) : Prop :=
  match l with
  | [] => True
  | new :: rest =>
      (forall old, old ∈ rest -> alKey old = alKey new -> assignedTo old <> "" ->
         assignedTo new = assignedTo old) /\ stableLog rest
  end.

Definition poolOk (l : list AuditLog) : Prop :=
  NoDup (alVersion <$> l) /\ Forall consistent l /\ stableLog l.

Definition threadOk (l : list AuditLog) (t : thread) : Prop :=
  thRid t <> "" /\ wp honest (poolGuar (thRid t)) (thProg t) (thHist t) anyEnd /\
  forall v, listed (thHist t) v -> v ∈ l.

(** The current version agrees with every earlier assignment. *)
Lemma current_latest l k cur old :
  stableLog l -> current l k = Some cur -> old ∈ l -> alKey old = k -> assignedTo old <> "" ->
  assignedTo cur = assignedTo old.
Proof.
  induction l as [|x l IH]; cbn; [done|]. intros [Hx Hl]. rewrite elem_of_cons. case_decide as Hk.
  - intros [= ->] [->|Hin] Hold Hne; [done|]. apply Hx; [done|congruence|done].
  - intros Hcur [->|Hin] Hold Hne; [done|]. by apply IH.
Qed.

Lemma transition_base rid v o : transition rid v o -> alKey o = alKey v /\ alVersion o = alVersion v.
Proof. by destruct 1; split. Qed.

Lemma reservedFor_withReservation a rid now : reservedFor (withReservation a rid now) = Some rid.
Proof.
  unfold reservedFor, withReservation. cbn. rewrite lookup_insert_ne by done.
  by rewrite lookup_insert_eq.
Qed.

(** A transition keeps an existing assignment, and assigns only to the holder of
    the reservation. *)
Lemma transition_assign rid v o :
  transition rid v o -> consistent v ->
  (assignedTo v <> "" -> assignedTo o = assignedTo v) /\ consistent o.
Proof.
  intros Ht Hv. destruct Ht as [region now Ha|Hres|region now Ha|Has Hst].
  - apply isAvailable_spec in Ha as (_ & Ha & _). split; [done|]. intros Hne. by destruct (Hne Ha).
  - split; [|by intros _]. intros Hne. specialize (Hv Hne). rewrite Hres in Hv. by injection Hv as <-.
  - apply isAvailable_spec in Ha as (_ & Ha & _). split; [done|]. intros _.
    by rewrite reservedFor_withReservation.
  - split; [done|]. intros Hne. by apply Hv.
Qed.

Lemma storedAs_fields l cur o new :
  storedAs l cur o new ->
  alKey new = alKey o /\ assignedTo new = assignedTo o /\ reservedFor new = reservedFor o.
Proof.
  intros (Hk & Hl & Hs & _). unfold assignedTo, reservedFor. by rewrite Hk, Hl, Hs.
Qed.

(** Extending the log by a version that agrees with the current one. *)
Lemma poolOk_cons l new :
  poolOk l -> alVersion new ∉ (alVersion <$> l) -> consistent new ->
  (forall cur, current l (alKey new) = Some cur -> assignedTo cur <> "" ->
     assignedTo new = assignedTo cur) ->
  (current l (alKey new) = None -> forall old, old ∈ l -> alKey old <> alKey new) ->
  poolOk (new :: l).
Proof.
  intros (Hnd & Hc & Hs) Hfresh Hcons Hcur Hnone. split_and!; [by apply NoDup_cons|by constructor|].
  split; [|done]. intros old Hin Hk Hne.
  destruct (current l (alKey new)) as [cur|] eqn:E; [|by destruct (Hnone eq_refl old)].
  pose proof (current_latest _ _ _ _ Hs E Hin Hk Hne) as Heq. rewrite <- Heq in Hne |- *. auto.
Qed.

Lemma poolOk_update l rid v o new :
  poolOk l -> v ∈ l -> transition rid v o -> accepted l o new -> poolOk (new :: l).
Proof.
  intros Hok Hv Ht (cur & Hcur & Hver & Hst). pose proof Hok as (Hnd & Hc & Hs).
  destruct (transition_base _ _ _ Ht) as [Hkey Hvers].
  apply current_Some in Hcur as Hcur'. destruct Hcur' as [Hin Hck].
  assert (cur = v) as -> by (apply (same_version alVersion l); congruence).
  rewrite Forall_forall in Hc. destruct (transition_assign _ _ _ Ht (Hc v Hv)) as [Hkeep Hcons].
  destruct (storedAs_fields _ _ _ _ Hst) as (Hk & Ha & Hr).
  apply poolOk_cons; [done|apply Hst| |rewrite Hk, Hcur|].
  - unfold consistent. by rewrite Ha, Hr.
  - intros cur [= <-] Hne. rewrite Ha. auto.
  - rewrite Hk, Hcur. done.
Qed.

Lemma poolOk_poolWrite l new : poolOk l -> poolWrite l new -> poolOk (new :: l).
Proof.
  intros Hok Hw. pose proof Hok as (_ & Hc & _). rewrite Forall_forall in Hc.
  destruct Hw as [new Hn Hv Ha Hr|cur new Hcur Hv Ha Hr].
  - apply poolOk_cons; [done..| | |]; [by intros Hne|congruence|]. by apply current_None.
  - apply current_Some in Hcur as Hin. destruct Hin as [Hin Hk].
    apply poolOk_cons; [done..| | |]; [|congruence|congruence].
    unfold consistent. rewrite Ha. intros Hne. destruct Hr as [->|[? _]]; [by apply Hc|done].
Qed.

Lemma threadOk_mono l new t : threadOk l t -> threadOk (new :: l) t.
Proof. intros (? & ? & Hl). split_and!; [done..|]. intros v Hv. right. auto. Qed.

Definition sysOk (c : config) : Prop := poolOk (fst c) /\ Forall (threadOk (fst c)) (snd c).

Lemma serves_honest l e l' h : serves l e l' -> honest h e.
Proof.
  destruct e as [c r]. destruct c as [|c k ns sel| | | | | | | | | | | | | | |]; try done.
  destruct c, k; try done. cbn. intros [_ Hr]. destruct r; [|done].
  eapply Forall_impl; [done|]. by intros ? [_ Hsel].
Qed.

Lemma listed_uncons h c r v l l' :
  serves l (Ev c r) l' -> listed (Ev c r :: h) v -> v ∈ l \/ listed h v.
Proof.
  intros Hs (ns & sel & items & [Heq|Hin]%elem_of_cons & Hv).
  - left. revert Hs. rewrite <- Heq. cbn. rewrite Forall_forall. intros [_ Hall]. by apply Hall.
  - right. by exists ns, sel, items.
Qed.

Lemma serves_grows l e l' : serves l e l' -> l' = l \/ exists new, l' = new :: l.
Proof.
  destruct e as [c r]. destruct c as [|c k ns sel| |c k o| | | | | | | | | | | | |]; try done;
    try (destruct c, k; try done; cbn); [by intros [-> _]; left| |by intros ->; left].
  intros [[-> _]|(new & _ & -> & _)]; [by left|right; by exists new].
Qed.

Lemma serves_pool l rid c (k : resp c -> prog unit) h r l' :
  poolOk l -> threadOk l (mkThread rid (Vis c k) h) -> serves l (Ev c r) l' -> poolOk l'.
Proof.
  intros Hok (_ & [HG _] & Hlist) Hs. cbn in HG.
  destruct c as [|c k0 ns sel| |c k0 o| | | | | | | | | | | | |]; try done;
    try (destruct c, k0; try done); [by destruct Hs as [-> _]| |by cbn in Hs; subst].
  cbn in HG, Hs. destruct HG as (v & Hv & Ht).
  destruct Hs as [[-> _]|(new & Hacc & -> & _)]; [done|].
  eapply poolOk_update; [done| |done..]. by apply Hlist.
Qed.

Lemma sysStep_ok c c' : sysOk c -> sysStep c c' -> sysOk c'.
Proof.
  intros [Hl Hths] Hst. destruct Hst as [l ths i rid c k h r l' Hi Hs|l ths new Hw];
    cbn [fst snd] in *.
  - pose proof Hths as Hall. rewrite Forall_forall in Hall.
    pose proof (Hall _ (list_elem_of_lookup_2 _ _ _ Hi)) as Ht.
    split; cbn [fst snd]; [by eapply serves_pool|].
    assert (forall t, threadOk l t -> threadOk l' t) as Hgrow.
    { intros t Hto. destruct (serves_grows _ _ _ Hs) as [->|[new ->]]; [done|by apply threadOk_mono]. }
    apply Forall_insert; [by eapply Forall_impl|].
    destruct (Hgrow _ Ht) as (Hr & [_ Hk] & Hv). split_and!; [done| |]; cbn [thRid thProg thHist] in *.
    + apply Hk. by eapply serves_honest.
    + intros v Hlv. destruct (listed_uncons _ _ _ _ _ _ Hs Hlv) as [Hin|Hin]; [|by apply Hv].
      destruct (serves_grows _ _ _ Hs) as [->|[new ->]]; [done|by right].
  - split; cbn [fst snd]; [by eapply poolOk_poolWrite|]. eapply Forall_impl; [done|].
    intros t. apply threadOk_mono.
Qed.

Lemma sysSteps_ok c c' : sysOk c -> rtc sysStep c c' -> sysOk c'.
Proof. intros Hc Hr. induction Hr as [|c1 c2 c3 Hs _ IH]; [done|]. apply IH. by eapply sysStep_ok. Qed.

Lemma perform_ok p rid q h : wp honest (poolGuar rid) (perform p rid q) h anyEnd.
Proof.
  destruct q as [region|claim|region|]; unfold perform; apply wp_seq;
    (eapply wp_mono; [by intros [?|]|]).
  - apply (wp_reserve p rid region).
  - apply (wp_getDedicated p rid claim).
  - apply (wp_claim p rid region).
  - apply (wp_release p rid).
Qed.

Lemma performAll_ok p rid qs h : wp honest (poolGuar rid) (performAll p rid qs) h anyEnd.
Proof.
  revert h. induction qs as [|q qs IH]; intros h; cbn [performAll]; [done|]. apply wp_seq.
  eapply wp_mono; [|apply perform_ok]. by intros [?|].
Qed.

Lemma startThreads_ok p jobs l :
  Forall (fun j => j.1 <> "") jobs -> Forall (threadOk l) (startThreads p jobs).
Proof.
  intros Hj. unfold startThreads. rewrite Forall_fmap. eapply Forall_impl; [done|].
  intros [rid qs] Hne. cbn in Hne. split_and!; [done|apply performAll_ok|].
  intros v (ns & sel & items & Hn & _). inversion Hn.
Qed.

Lemma stableLog_pair l a b :
  stableLog l -> a ∈ l -> b ∈ l -> alKey a = alKey b -> assignedTo a <> "" -> assignedTo b <> "" ->
  assignedTo a = assignedTo b.
Proof.
  induction l as [|x l IH]; [intros _ Ha; inversion Ha|]. intros [Hx Hl] Ha Hb Hk Hna Hnb.
  apply elem_of_cons in Ha as [->|Ha], Hb as [->|Hb]; [done| | |by apply IH].
  - symmetry in Hk. by apply Hx.
  - symmetry. by apply Hx.
Qed.

(** ** Properties *)

(** C7. Exclusive, permanent assignment of dedicated audit logs. Any number of
    reconciliations of any runtimes run the operations of the provider in any
    interleaving, reading from caches that may be arbitrarily stale, against a
    server that accepts an update only of the current version of an object (and
    may report a failure of an update it accepted), while the pool's own
    controller adds resources, changes them and drops reservations. Then no
    AuditLog resource is ever stored as assigned to two different runtimes: from
    the moment it is assigned it stays with its runtime. *)
Theorem assignment_exclusive (p : DefaultDataProvider) (jobs : list (string * list request))
    (l0 l : list AuditLog) (ths : list thread) :
  poolOk l0 -> Forall (fun j => j.1 <> "") jobs ->
  rtc sysStep (l0, startThreads p jobs) (l, ths) ->
  forall a b, a ∈ l -> b ∈ l -> alKey a = alKey b ->
    assignedTo a <> "" -> assignedTo b <> "" -> assignedTo a = assignedTo b.
Proof.
  intros Hl Hj Hr a b. assert (sysOk (l0, startThreads p jobs)) as H0
    by (split; [done|by apply startThreads_ok]).
  destruct (sysSteps_ok _ _ H0 Hr) as [(_ & _ & Hs) _]. by apply stableLog_pair.
Qed.

(** ** A concrete race: two runtimes upgrade to the only free resource; the
    first one gets it. *)

Definition exampleAuditLog : AuditLog :=
  mkAuditLog (mkMeta "al-1" "" "kcp-system" "" "1" 0 None ∅ ∅ [] [])
    (mkAuditLogSpec "cf-eu10" ["eu-central-1"] "subaccount" "" false
       (mkAuditLogConfig "https://auditlog" "write-creds" "read-creds") 90)
    StateSiemApproved.

Definition exampleClaimed : AuditLog :=
  withReservation
    (auditlog_assigned_to
       (mkAuditLog (mkMeta "al-1" "" "kcp-system" "" "2" 0 None ∅ ∅ [] [])
          (alSpec exampleAuditLog) StateSiemApproved) "r1") "r1" 0.

Definition exampleProvider : DefaultDataProvider := mkDefaultProvider ∅ "kcp-system".

Definition exampleJobs : list (string * list request) :=
  [("r1", [ReqClaim "eu-central-1"]); ("r2", [ReqClaim "eu-central-1"])].

Lemma serves_list l ns sel items :
  Forall (fun a => a ∈ l /\ sel ⊆ Labels (alMeta a)) items ->
  serves l (Ev (CList Kcp KAuditLog ns sel) (Ok items)) l.
Proof. by split. Qed.

Lemma serves_update l o new :
  accepted l o new -> serves l (Ev (CUpdate Kcp KAuditLog o) (Ok new)) (new :: l).
Proof. intros Ha. right. exists new. split_and!; [done..|by left]. Qed.

Lemma serves_now l (t : Z) : serves l (Ev CNow t) l.
Proof. done. Qed.

(** The next call of thread [i], answered by the server as [H] says. *)
Tactic Notation "sys_thread" constr(i) open_constr(H) :=
  eapply rtc_l; [eapply (sys_call _ _ i); [reflexivity|eapply H]|].

Lemma assignment_exclusive_witness :
  exists l ths, rtc sysStep ([exampleAuditLog], startThreads exampleProvider exampleJobs) (l, ths) /\
    (exists a, a ∈ l /\ assignedTo a = "r1") /\
    forall a b, a ∈ l -> b ∈ l -> alKey a = alKey b ->
      assignedTo a <> "" -> assignedTo b <> "" -> assignedTo a = assignedTo b.
Proof.
  assert (exists l ths,
    rtc sysStep ([exampleAuditLog], startThreads exampleProvider exampleJobs) (l, ths) /\
    exists a, a ∈ l /\ assignedTo a = "r1") as (l & ths & Hr & Ha).
  { eexists _, _. split.
    - sys_thread 0 (serves_list _ _ _ []); [constructor|].
      sys_thread 0 (serves_list _ _ _ []); [constructor|].
      sys_thread 0 (serves_list _ _ _ [exampleAuditLog]).
      { constructor; [split; [constructor|apply map_empty_subseteq]|constructor]. }
      sys_thread 0 (serves_now _ 0).
      sys_thread 0 (serves_update _ _ exampleClaimed).
      { exists exampleAuditLog. unfold storedAs. split_and!; [reflexivity..|].
        intros Hin. vm_compute in Hin. apply list_elem_of_singleton in Hin. discriminate Hin. }
      apply rtc_refl.
    - exists exampleClaimed. split; [constructor|reflexivity]. }
  exists l, ths. split; [exact Hr|]. split; [exact Ha|].
  apply (assignment_exclusive exampleProvider exampleJobs [exampleAuditLog] l ths); [|repeat constructor; discriminate|exact Hr].
  split_and!; [apply NoDup_singleton| |].
  - constructor; [|constructor]. intros Hne. by destruct Hne.
  - split; [|done]. intros old Hin. inversion Hin.
Defined.
