(* ===== verification/Sscanf.v ===== *)
(** * Scanning and parsing of text

    Package strconv's integers, and [fmt.Sscanf] with the one format the operator
    uses, on ASCII input: literals match themselves, a space of the format matches
    one or more spaces, [%d] reads a decimal int and [%q] a Go-quoted string. *)

From Stdlib Require Import Ascii.
From S2P Require Import Prelude.

Local Open Scope string_scope.

Definition isSpaceChar (c : ascii) : bool :=
  bool_decide (c = " "%char) || bool_decide (c = "009"%char) || bool_decide (c = "011"%char) ||
  bool_decide (c = "012"%char) || bool_decide (c = "013"%char).

(** Spaces other than newline. *)
Fixpoint skipSpaces (s : string) : string :=
  match s with
  | String c s' => if isSpaceChar c then skipSpaces s' else s
  | EmptyString => s
  end.

Definition isDigitChar (c : ascii) : bool :=
  let n := N_of_ascii c in (48 <=? n)%N && (n <=? 57)%N.
Definition digitVal (c : ascii) : Z := (Z.of_N (N_of_ascii c) - 48)%Z.

(** The digits at the front of the input and their value. *)
Fixpoint scanDigits (s : string) (acc : Z) : Z * string :=
  match s with
  | String c s' =>
      if isDigitChar c then scanDigits s' (acc * 10 + digitVal c)%Z else (acc, s)
  | EmptyString => (acc, s)
  end.

(** [%d] into an int: leading spaces, an optional sign, at least one digit, in
    the range of int64. *)
Definition scanInt (s : string) : option string :=
  let s := skipSpaces s in
  let '(neg, s) :=
    match s with
    | String "-" s' => (true, s')
    | String "+" s' => (false, s')
    | _ => (false, s)
    end in
  match s with
  | String c _ =>
      if isDigitChar c then
        let '(v, rest) := scanDigits s 0 in
        let v := if neg : bool then (- v)%Z else v in
        if (- 2 ^ 63 <=? v)%Z && (v <? 2 ^ 63)%Z then Some rest else None
      else None
  | EmptyString => None
  end.

Definition hexVal (c : ascii) : option Z :=
  let n := Z.of_N (N_of_ascii c) in
  if (48 <=? n)%Z && (n <=? 57)%Z then Some (n - 48)%Z
  else if (97 <=? n)%Z && (n <=? 102)%Z then Some (n - 87)%Z
  else if (65 <=? n)%Z && (n <=? 70)%Z then Some (n - 55)%Z
  else None.

(** Exactly [k] digits of base [b], most significant first. *)
Fixpoint scanBase (k : nat) (b : Z) (s : string) (acc : Z) : option (Z * string) :=
  match k with
  | O => Some (acc, s)
  | S k =>
      match s with
      | String c s' =>
          match hexVal c with
          | Some d => if (d <? b)%Z then scanBase k b s' (acc * b + d)%Z else None
          | None => None
          end
      | EmptyString => None
      end
  end.

Definition validRune (v : Z) : bool :=
  ((0 <=? v) && (v <? 55296) || (57344 <=? v) && (v <=? 1114111))%Z.

(** The rest of an escape sequence after its backslash, as strconv.Unquote
    accepts it between double quotes. *)
Definition scanEscape (s : string) : option string :=
  match s with
  | EmptyString => None
  | String c s' =>
      if bool_decide (c ∈ ["a"; "b"; "f"; "n"; "r"; "t"; "v"; "\"; "034"]%char) then Some s'
      else if bool_decide (c = "x"%char) then snd <$> scanBase 2 16 s' 0
      else if bool_decide (c = "u"%char) then
        '(v, rest) ← scanBase 4 16 s' 0; if validRune v then Some rest else None
      else if bool_decide (c = "U"%char) then
        '(v, rest) ← scanBase 8 16 s' 0; if validRune v then Some rest else None
      else '(v, rest) ← scanBase 3 8 s 0; if (v <=? 255)%Z then Some rest else None
  end.

(** The body of a double-quoted string up to its closing quote; each step
    consumes input, so the length of the input is enough fuel. *)
Fixpoint scanQuoted (fuel : nat) (s : string) : option string :=
  match fuel, s with
  | O, _ | _, EmptyString => None
  | S fuel, String c s' =>
      if bool_decide (c = "034"%char) then Some s'
      else if bool_decide (c = "010"%char) then None
      else if bool_decide (c = "\"%char) then rest ← scanEscape s'; scanQuoted fuel rest
      else scanQuoted fuel s'
  end.

Fixpoint scanBackquoted (s : string) : option string :=
  match s with
  | EmptyString => None
  | String c s' => if bool_decide (c = "`"%char) then Some s' else scanBackquoted s'
  end.

(** [%q] into a string. *)
Definition scanQuotedString (s : string) : option string :=
  match skipSpaces s with
  | EmptyString => None
  | String c s' =>
      if bool_decide (c = "`"%char) then scanBackquoted s'
      else if bool_decide (c = "034"%char) then scanQuoted (S (String.length s')) s'
      else None
  end.

(** The text of the format between verbs. *)
Fixpoint scanLiteral (lit s : string) : option string :=
  match lit with
  | EmptyString => Some s
  | String " " lit' =>
      match s with
      | EmptyString => scanLiteral lit' s
      | String c _ => if isSpaceChar c then scanLiteral lit' (skipSpaces s) else None
      end
  | String l lit' =>
      match s with
      | String c s' => if bool_decide (l = c) then scanLiteral lit' s' else None
      | EmptyString => None
      end
  end.

(** [fmt.Sscanf(s, "Failed to schedule Shoot: none out of the %d seeds has a
    matching provider for %q", &n, &provider)] returns no error. *)
Definition scansNoMatchingSeeds (s : string) : bool :=
  match
    s ← scanLiteral "Failed to schedule Shoot: none out of the " s;
    s ← scanInt s;
    s ← scanLiteral " seeds has a matching provider for " s;
    scanQuotedString s
  with
  | Some _ => true
  | None => false
  end.

Definition quote (s : string) : string := String "034" s +:+ String "034" "".

(** A decimal integer of [w] bits, with an optional sign; [fn] is the function
    that errors name. *)
Definition parseIntAs (fn : string) (w : Z) (s : string) : result Z :=
  let '(neg, digits) :=
    match s with
    | String "-" d => (true, d)
    | String "+" d => (false, d)
    | _ => (false, s)
    end in
  let '(v, rest) := scanDigits digits 0 in
  let v := if neg : bool then (- v)%Z else v in
  if String.eqb digits "" || negb (String.eqb rest "")
  then Err (newError ("strconv." +:+ fn +:+ ": parsing " +:+ quote s +:+ ": invalid syntax"))
  else if (- 2 ^ (w - 1) <=? v)%Z && (v <? 2 ^ (w - 1))%Z then Ok v
  else Err (newError ("strconv." +:+ fn +:+ ": parsing " +:+ quote s +:+ ": value out of range")).

(** [strconv.ParseInt(s, 10, 64)], [strconv.ParseInt(s, 10, 32)], [strconv.Atoi(s)] *)
Definition ParseInt64 : string -> result Z := parseIntAs "ParseInt" 64.
Definition ParseInt32 : string -> result Z := parseIntAs "ParseInt" 32.
Definition Atoi : string -> result Z := parseIntAs "Atoi" 64.

(** *** Formatted integers parse *)

Lemma digit_cases n : (n < 10)%N -> n ∈ [0;1;2;3;4;5;6;7;8;9]%N.
Proof. intros Hn. rewrite !elem_of_cons. lia. Qed.

Lemma isDigit_pretty n : (n < 10)%N -> isDigitChar (pretty_N_char n) = true /\ digitVal (pretty_N_char n) = Z.of_N n.
Proof.
  intros Hin%digit_cases. rewrite !elem_of_cons, elem_of_nil in Hin. by destruct_or? Hin; subst.
Qed.

Lemma scanDigits_pretty x s acc :
  (exists k, scanDigits (pretty_N_go x s) acc = scanDigits s (acc * 10 ^ k + Z.of_N x) /\ 0 <= k)%Z.
Proof.
  revert s acc. induction (N.lt_wf_0 x) as [x _ IH]; intros s acc.
  destruct (decide (x = 0)%N) as [->|Hx].
  { exists 0%Z. by rewrite pretty_N_go_0, Z.add_0_r, Z.pow_0_r, Z.mul_1_r. }
  rewrite pretty_N_go_step by lia.
  destruct (IH (x `div` 10)%N ltac:(apply N.div_lt; lia) (String (pretty_N_char (x `mod` 10)) s) acc) as (k & -> & Hk).
  cbn [scanDigits]. destruct (isDigit_pretty (x `mod` 10)%N) as [-> ->]; [by apply N.mod_lt|].
  exists (Z.succ k). split; [|lia]. f_equal. rewrite Z.pow_succ_r by done.
  pose proof (N.div_mod x 10 ltac:(done)) as E. lia.
Qed.

Lemma pretty_starts x s :
  (0 < x)%N -> exists n r, (n < 10)%N /\ pretty_N_go x s = String (pretty_N_char n) r.
Proof.
  revert s. induction (N.lt_wf_0 x) as [x _ IH]; intros s Hx. rewrite pretty_N_go_step by done.
  destruct (decide (x `div` 10 = 0)%N) as [->|Hd].
  - rewrite pretty_N_go_0. exists (x `mod` 10)%N, s. split; [by apply N.mod_lt|done].
  - apply IH; [by apply N.div_lt|by apply N.neq_0_lt_0].
Qed.

Lemma ParseInt64_pretty z : (0 <= z < 2 ^ 63)%Z -> ParseInt64 (pretty z) = Ok z.
Proof.
  intros Hz. destruct z as [|p|p]; [done| |lia].
  change (pretty (Z.pos p)) with (pretty_N_go (N.pos p) "").
  destruct (pretty_starts (N.pos p) "") as (n & r & Hn & E); [done|].
  destruct (scanDigits_pretty (N.pos p) "" 0) as (k & Hs & _). rewrite E in *.
  assert (parseIntAs "ParseInt" 64 (String (pretty_N_char n) r) =
    let '(v, rest) := scanDigits (String (pretty_N_char n) r) 0 in
    if negb (String.eqb rest "") then Err (newError ("strconv.ParseInt: parsing " +:+ quote (String (pretty_N_char n) r) +:+ ": invalid syntax"))
    else if (- 2 ^ 63 <=? v)%Z && (v <? 2 ^ 63)%Z then Ok v
    else Err (newError ("strconv.ParseInt: parsing " +:+ quote (String (pretty_N_char n) r) +:+ ": value out of range"))) as Hp.
  { apply digit_cases in Hn as Hin. rewrite !elem_of_cons, elem_of_nil in Hin. by destruct_or? Hin; subst. }
  unfold ParseInt64. rewrite Hp, Hs. cbn [scanDigits String.eqb negb]. rewrite Z.mul_0_l, Z.add_0_l.
  destruct (Z.leb_spec (- 2 ^ 63) (Z.of_N (N.pos p))); [|lia]. destruct (Z.ltb_spec (Z.of_N (N.pos p)) (2 ^ 63)); [done|lia].
Qed.

(** [strings.HasPrefix], [strings.Contains] *)
Fixpoint hasPrefix (p s : string) : bool :=
  match p, s with
  | EmptyString, _ => true
  | String a p', String b s' => bool_decide (a = b) && hasPrefix p' s'
  | String _ _, EmptyString => false
  end.

Fixpoint strContains (s sub : string) : bool :=
  hasPrefix sub s ||
  match s with
  | EmptyString => false
  | String _ s' => strContains s' sub
  end.

(** [strings.ToLower] on ASCII letters. *)
Fixpoint toLower (s : string) : string :=
  match s with
  | EmptyString => EmptyString
  | String c s' =>
      let n := N_of_ascii c in
      String (if (65 <=? n)%N && (n <=? 90)%N then ascii_of_N (n + 32) else c) (toLower s')
  end.

Example scan_match :
  scansNoMatchingSeeds
    ("Failed to schedule Shoot: none out of the 12 seeds has a matching provider for " +:+ quote "aws")
  = true.
Proof. vm_compute. reflexivity. Qed.

Example scan_other : scansNoMatchingSeeds "Shoot creation in progress" = false.
Proof. vm_compute. reflexivity. Qed.
