(* ===== verification/GoStrings.v ===== *)
(** * Functions of package strings that the bootstrapper uses *)

From S2P Require Import Prelude.

Local Open Scope string_scope.

(** strings.Split with a separator that is not empty: [cur] is the part read so
    far, [skip] the number of bytes of the separator still to pass. *)
Fixpoint splitFrom (sep cur s : string) (skip : nat) : list string :=
  match s with
  | "" => [cur]
  | String c rest =>
      match skip with
      | S skip => splitFrom sep cur rest skip
      | O =>
          if String.prefix sep s then cur :: splitFrom sep "" rest (String.length sep - 1)
          else splitFrom sep (cur +:+ String c "") rest 0
      end
  end.
Definition Split (s sep : string) : list string := splitFrom sep "" s 0.

(** unicode.IsSpace, as the UTF-8 encodings of the characters. *)
Definition bytesOf (l : list nat) : string := String.string_of_list_ascii (Ascii.ascii_of_nat <$> l).
Definition spaces : list string :=
  bytesOf <$>
    (((fun n => [n]) <$> [9; 10; 11; 12; 13; 32]) ++
     [[194; 133]; [194; 160]; [225; 154; 128]] ++
     ((fun n => [226; 128; n]) <$> (seq 128 11 ++ [168; 169; 175])) ++
     [[226; 129; 159]; [227; 128; 128]])%list.

(** What is left of [s] after a leading member of [pats]. *)
Fixpoint stripOne (pats : list string) (s : string) : option string :=
  match pats with
  | [] => None
  | p :: pats =>
      if String.prefix p s then Some (String.substring (String.length p) (String.length s - String.length p) s)
      else stripOne pats s
  end.
Fixpoint stripAll (fuel : nat) (pats : list string) (s : string) : string :=
  match fuel with
  | O => s
  | S fuel => match stripOne pats s with Some rest => stripAll fuel pats rest | None => s end
  end.

(** [fuel]: every round takes a byte or more. *)
Definition trimLeft (pats : list string) (s : string) : string := stripAll (String.length s) pats s.
Definition TrimSpace (s : string) : string :=
  String.rev (trimLeft (String.rev <$> spaces) (String.rev (trimLeft spaces s))).

(** ** Lemmas *)

(** strings.Join *)
Fixpoint Join (l : list string) (sep : string) : string :=
  match l with
  | [] => ""
  | [s] => s
  | s :: rest => s +:+ sep +:+ Join rest sep
  end.

Lemma append_cons c (a b : string) : String c a +:+ b = String c (a +:+ b).
Proof. done. Qed.
Lemma append_nil (b : string) : "" +:+ b = b.
Proof. done. Qed.

Lemma append_assoc (a b c : string) : (a +:+ b) +:+ c = a +:+ (b +:+ c).
Proof. induction a as [|x a IH]; [done|]. by rewrite !append_cons, IH. Qed.

Lemma append_empty_r (a : string) : a +:+ "" = a.
Proof. induction a as [|x a IH]; [done|]. by rewrite append_cons, IH. Qed.

Lemma prefix_split p s : String.prefix p s = true -> exists t, s = p +:+ t.
Proof.
  revert s. induction p as [|c p IH]; intros s Hp; [by exists s|]. destruct s as [|d s]; cbn in Hp; [done|].
  destruct (Ascii.ascii_dec c d) as [->|]; [|done]. destruct (IH s Hp) as [t ->]. by exists t.
Qed.

(** Dropping the first bytes. *)
Fixpoint dropBytes (n : nat) (s : string) : string :=
  match n, s with
  | O, _ => s
  | S n, String _ s => dropBytes n s
  | S _, "" => ""
  end.

Lemma dropBytes_append p t : dropBytes (String.length p) (p +:+ t) = t.
Proof. by induction p. Qed.

Lemma splitFrom_skip sep cur s n : splitFrom sep cur s n = splitFrom sep cur (dropBytes n s) 0.
Proof. revert n. induction s as [|c s IH]; intros [|n]; cbn; [done..|]. apply IH. Qed.

Lemma splitFrom_nonempty sep cur s n : splitFrom sep cur s n <> [].
Proof.
  revert cur n. induction s as [|c s IH]; intros cur [|n]; [done..| |apply IH].
  cbn [splitFrom]. destruct (String.prefix sep (String c s)); [done|apply IH].
Qed.

Lemma Join_cons s l sep : l <> [] -> Join (s :: l) sep = s +:+ sep +:+ Join l sep.
Proof. by destruct l. Qed.

Lemma dropBytes_length n s : String.length (dropBytes n s) <= String.length s.
Proof. revert s. induction n as [|n IH]; intros [|c s]; cbn; [lia..|]. specialize (IH s). lia. Qed.

Lemma Join_splitFrom n sep cur s :
  sep <> "" -> String.length s <= n -> Join (splitFrom sep cur s 0) sep = cur +:+ s.
Proof.
  intros Hsep. revert cur s. induction n as [|n IH]; intros cur [|c s] Hn; cbn in Hn; try lia;
    try (symmetry; apply append_empty_r).
  cbn [splitFrom]. destruct (String.prefix sep (String c s)) eqn:Hp; cycle 1.
  { rewrite IH by lia. by rewrite append_assoc, append_cons. }
  apply prefix_split in Hp as [t Ht]. destruct sep as [|d sep]; [done|]. injection Ht as -> ->.
  rewrite Join_cons by apply splitFrom_nonempty. rewrite splitFrom_skip. cbn [String.length].
  rewrite Nat.sub_succ, Nat.sub_0_r, dropBytes_append, IH; [done|].
  pose proof (dropBytes_length (String.length sep) (sep +:+ t)) as Hl. rewrite dropBytes_append in Hl. lia.
Qed.

(** Splitting loses nothing: joining the parts gives the text back. *)
Lemma Join_Split s sep : sep <> "" -> Join (Split s sep) sep = s.
Proof. intros Hsep. by apply (Join_splitFrom (String.length s)). Qed.

Example trims_spaces : TrimSpace (bytesOf [32; 10; 194; 160; 97; 32; 98; 226; 128; 131; 9]) = "a b".
Proof. by vm_compute. Qed.
