(* ===== verification/Duration.v ===== *)
(** * Durations (time.ParseDuration)

    Package time's parser of durations such as 1h15m30.5s, in nanoseconds, with
    its limits for 64-bit integers.  A fraction is computed with float64, whose
    operations are those of the Standard Library's SpecFloat. *)

From Stdlib Require Import Ascii SpecFloat.
From S2P Require Import Prelude Kube Sscanf.

Local Open Scope string_scope.
Local Open Scope Z_scope.

Definition Microsecond : Z := 1000.
Definition Millisecond : Z := 1000 * Microsecond.

(** unitMap; the two micro signs are two bytes each in UTF-8. *)
Definition unitOf (u : string) : option Z :=
  if String.eqb u "ns" then Some 1
  else if String.eqb u "us" then Some Microsecond
  else if String.eqb u (String "194" (String "181" "s")) then Some Microsecond
  else if String.eqb u (String "206" (String "188" "s")) then Some Microsecond
  else if String.eqb u "ms" then Some Millisecond
  else if String.eqb u "s" then Some Second
  else if String.eqb u "m" then Some Minute
  else if String.eqb u "h" then Some Hour
  else None.

(** float64 *)
Definition f64 (z : Z) : spec_float := binary_normalize 53 1024 z 0 false.
Definition f64mul := SFmul 53 1024.
Definition f64div := SFdiv 53 1024.

(** The conversion of a float that is not negative to an integer. *)
Definition truncate (x : spec_float) : Z :=
  match x with
  | S754_finite false m e => if 0 <=? e then Z.pos m * 2 ^ e else Z.pos m / 2 ^ (- e)
  | _ => 0
  end.

(** leadingInt: the value of the digits at the front, [None] when it overflows. *)
Fixpoint leadingInt (s : string) (x : Z) : option (Z * string) :=
  match s with
  | String c s' =>
      if isDigitChar c then
        if 2 ^ 63 / 10 <? x then None
        else
          let x := x * 10 + digitVal c in
          if 2 ^ 63 <? x then None else leadingInt s' x
      else Some (x, s)
  | EmptyString => Some (x, s)
  end.

(** leadingFraction: the digits that fit, as an integer and its scale. *)
Fixpoint leadingFraction (s : string) (x scale : Z) (overflow : bool) : Z * Z * string :=
  match s with
  | String c s' =>
      if isDigitChar c then
        if overflow then leadingFraction s' x scale true
        else if (2 ^ 63 - 1) / 10 <? x then leadingFraction s' x scale true
        else
          let y := x * 10 + digitVal c in
          if 2 ^ 63 <? y then leadingFraction s' x scale true
          else leadingFraction s' y (scale * 10) false
      else (x, scale, s)
  | EmptyString => (x, scale, s)
  end.

(** The unit: everything up to a dot or a digit. *)
Fixpoint spanUnit (s : string) : string * string :=
  match s with
  | String c s' =>
      if bool_decide (c = "."%char) || isDigitChar c then ("", s)
      else let '(u, rest) := spanUnit s' in (String c u, rest)
  | EmptyString => ("", "")
  end.

Definition startsNumber (s : string) : bool :=
  match s with
  | String c _ => bool_decide (c = "."%char) || isDigitChar c
  | EmptyString => false
  end.

Definition invalidDuration (orig : string) : GoError := newError ("time: invalid duration " +:+ quote orig).

(** One number with its unit: its value in nanoseconds and the rest. *)
Definition parseComponent (orig s : string) : result (Z * string) :=
  if negb (startsNumber s) then Err (invalidDuration orig)
  else
    match leadingInt s 0 with
    | None => Err (invalidDuration orig)
    | Some (v, s1) =>
        let pre := negb (Nat.eqb (String.length s) (String.length s1)) in
        let '(f, scale, s2, post) :=
          match s1 with
          | String "." s' =>
              let '(f, scale, s2) := leadingFraction s' 0 1 false in
              (f, scale, s2, negb (Nat.eqb (String.length s') (String.length s2)))
          | _ => (0, 1, s1, false)
          end in
        if negb pre && negb post then Err (invalidDuration orig)
        else
          let '(u, rest) := spanUnit s2 in
          if String.eqb u "" then Err (newError ("time: missing unit in duration " +:+ quote orig))
          else
            match unitOf u with
            | None => Err (newError ("time: unknown unit " +:+ quote u +:+ " in duration " +:+ quote orig))
            | Some unit_ =>
                if 2 ^ 63 / unit_ <? v then Err (invalidDuration orig)
                else
                  let v := v * unit_ in
                  let v := if 0 <? f then v + truncate (f64mul (f64 f) (f64div (f64 unit_) (f64 scale))) else v in
                  if (0 <? f) && (2 ^ 63 <? v) then Err (invalidDuration orig) else Ok (v, rest)
            end
    end.

(** The loop over the components; each consumes input. *)
Fixpoint parseComponents (fuel : nat) (orig s : string) (d : Z) : result Z :=
  match s with
  | EmptyString => Ok d
  | _ =>
      match fuel with
      | O => Err (invalidDuration orig)
      | S fuel =>
          '(v, rest) ← parseComponent orig s;
          let d := d + v in
          if 2 ^ 63 <? d then Err (invalidDuration orig) else parseComponents fuel orig rest d
      end
  end.

Definition ParseDuration (orig : string) : result Z :=
  let '(neg, s) :=
    match orig with
    | String "-" s => (true, s)
    | String "+" s => (false, s)
    | _ => (false, orig)
    end in
  if String.eqb s "0" then Ok 0
  else if String.eqb s "" then Err (invalidDuration orig)
  else
    d ← parseComponents (String.length s) orig s 0;
    if neg : bool then Ok (int64 (- d))
    else if 2 ^ 63 - 1 <? d then Err (invalidDuration orig)
    else Ok d.

Example dur_15m : ParseDuration "15m" = Ok (15 * Minute). Proof. vm_compute. reflexivity. Qed.
Example dur_frac : ParseDuration "-1h1.5s" = Ok (- (Hour + 1500 * Millisecond)).
Proof. vm_compute. reflexivity. Qed.
Example dur_720h : ParseDuration "720h" = Ok (30 * 24 * Hour). Proof. vm_compute. reflexivity. Qed.
Example dur_unit : isOk (ParseDuration "90d") = false. Proof. vm_compute. reflexivity. Qed.
Example dur_overflow : isOk (ParseDuration "2562048h") = false. Proof. vm_compute. reflexivity. Qed.
Example dur_empty : isOk (ParseDuration "") = false. Proof. vm_compute. reflexivity. Qed.
Example dur_third : ParseDuration "0.333333333333333333333333h" = Ok 1200000000000.
Proof. vm_compute. reflexivity. Qed.
