(* ===== verification/Floats.v ===== *)
(** * Durations as floats (package time)

    The conversions between durations and float64 that the kubeconfig controller
    and the metrics make. *)

From Stdlib Require Import SpecFloat.
From S2P Require Import Prelude Kube Duration.

Definition f64add := SFadd 53 1024.
Definition f64sub := SFsub 53 1024.

(** [d.Minutes()], [d.Seconds()] *)
Definition Minutes (d : Z) : spec_float :=
  f64add (f64 (Z.quot d Minute)) (f64div (f64 (Z.rem d Minute)) (f64 (60 * 1000000000))).
Definition Seconds (d : Z) : spec_float :=
  f64add (f64 (Z.quot d Second)) (f64div (f64 (Z.rem d Second)) (f64 1000000000)).

(** [time.Duration(x)] of a float within the range of int64. *)
Definition toDuration (x : spec_float) : Z :=
  match x with
  | S754_finite true m e => - truncate (S754_finite false m e)
  | _ => truncate x
  end.
