(* ===== verification/Rfc3339.v ===== *)
(** * Times in the format RFC 3339 (package time)

    A time is the number of nanoseconds since 1970-01-01T00:00:00Z; [Parse] and
    [Format] are time.Parse and Time.UTC().Format for the layout time.RFC3339. *)

From Stdlib Require Import Ascii.
From S2P Require Import Prelude Kube.

Local Open Scope string_scope.
Local Open Scope Z_scope.

(** ** The calendar *)

Definition isLeap (year : Z) : bool :=
  (year mod 4 =? 0) && (negb (year mod 100 =? 0) || (year mod 400 =? 0)).

(** Days before the first of the month [m] (1 to 13) of the year. *)
Definition daysBefore (leap : bool) (m : Z) : Z :=
  nth (Z.to_nat (m - 1)) [0; 31; 59; 90; 120; 151; 181; 212; 243; 273; 304; 334; 365] 365 +
  (if leap && (2 <? m) then 1 else 0).
Definition daysIn (leap : bool) (m : Z) : Z := daysBefore leap (m + 1) - daysBefore leap m.

(** Days from 0001-01-01 to the first day of the year, and to a date. *)
Definition daysBeforeYear (year : Z) : Z :=
  let p := year - 1 in p * 365 + p / 4 - p / 100 + p / 400.
Definition dayNumber (year month day : Z) : Z :=
  daysBeforeYear year + daysBefore (isLeap year) month + (day - 1).

(** 1970-01-01 *)
Definition epochDay : Z := 719162.

(** The month and the day of the month of a day of the year. *)
Fixpoint monthFrom (leap : bool) (yday : Z) (m : Z) (fuel : nat) : Z * Z :=
  match fuel with
  | O => (m, yday - daysBefore leap m + 1)
  | S fuel =>
      if yday <? daysBefore leap (m + 1) then (m, yday - daysBefore leap m + 1)
      else monthFrom leap yday (m + 1) fuel
  end.

(** The date of a day, by cycles of 400, 100, 4 years and one. *)
Definition civil (d : Z) : Z * Z * Z :=
  let n400 := d / 146097 in let r := d mod 146097 in
  let n100 := Z.min 3 (r / 36524) in let r := r - 36524 * n100 in
  let n4 := r / 1461 in let r := r - 1461 * n4 in
  let n1 := Z.min 3 (r / 365) in let yday := r - 365 * n1 in
  let year := 400 * n400 + 100 * n100 + 4 * n4 + n1 + 1 in
  let '(m, day) := monthFrom (isLeap year) yday 1 11 in (year, m, day).

(** ** Digits *)

Definition digit (z : Z) : Ascii.ascii := Ascii.ascii_of_nat (48 + Z.to_nat z).
Definition digitVal (c : Ascii.ascii) : option Z :=
  let n := Z.of_nat (Ascii.nat_of_ascii c) in
  if (48 <=? n) && (n <=? 57) then Some (n - 48) else None.

Definition two (z : Z) (rest : string) : string := String (digit (z / 10)) (String (digit (z mod 10)) rest).
(** A year: four digits at least. *)
Definition fourOrMore (z : Z) (rest : string) : string :=
  if (0 <=? z) && (z <=? 9999) then two (z / 100) (two (z mod 100) rest)
  else if 9999 <? z then pretty z +:+ rest
  else String "-"%char (if -9999 <=? z then two (- z / 100) (two (- z mod 100) rest) else pretty (- z) +:+ rest).

Definition char (c : Ascii.ascii) (rest : string) : string := String c rest.

(** ** Formatting *)

Definition Format (t : Z) : string :=
  let s := t / Second in
  let '(year, month, day) := civil (s / 86400 + epochDay) in
  let sod := s mod 86400 in
  fourOrMore year (char "-"%char (two month (char "-"%char (two day (char "T"
    (two (sod / 3600) (char ":"%char (two (sod / 60 mod 60) (char ":"%char (two (sod mod 60) "Z")))))))))).

(** ** Parsing *)

(** [getnum(s, fixed)] *)
Definition getnum (fixed : bool) (s : string) : option (Z * string) :=
  match s with
  | String a rest =>
      a ← digitVal a;
      match rest with
      | String b rest' =>
          match digitVal b with
          | Some b => Some (10 * a + b, rest')
          | None => if fixed then None else Some (a, rest)
          end
      | "" => if fixed then None else Some (a, rest)
      end
  | "" => None
  end.

Definition skip (c : Ascii.ascii) (s : string) : option string :=
  match s with
  | String d rest => if Ascii.eqb c d then Some rest else None
  | "" => None
  end.

Definition within (lo hi : Z) (x : Z * string) : option (Z * string) :=
  if (lo <=? x.1) && (x.1 <=? hi) then Some x else None.

Definition getYear (s : string) : option (Z * string) :=
  '(a, s) ← getnum true s; '(b, s) ← getnum true s; Some (100 * a + b, s).

(** The digits of a fraction of a second: the first nine count, and stand for
    [scale] nanoseconds at first. *)
Fixpoint fraction (s : string) (scale acc : Z) : Z * string :=
  match s with
  | String c rest =>
      match digitVal c with
      | Some d => fraction rest (scale / 10) (acc + d * scale)
      | None => (acc, s)
      end
  | "" => (acc, s)
  end.

(** A fraction after a comma or a period, if there is one. *)
Definition getFraction (s : string) : Z * string :=
  match s with
  | String sep (String d _ as rest) =>
      if (Ascii.eqb sep "."%char || Ascii.eqb sep ","%char) && bool_decide (is_Some (digitVal d))
      then fraction rest 100000000 0 else (0, s)
  | _ => (0, s)
  end.

(** The offset of the zone, in seconds. *)
Definition getZone (s : string) : option (Z * string) :=
  match s with
  | String "Z"%char rest => Some (0, rest)
  | String sign rest =>
      '(hr, rest) ← getnum true rest ≫= within 0 24;
      rest ← skip ":"%char rest;
      '(mm, rest) ← getnum true rest ≫= within 0 60;
      let offset := (hr * 60 + mm) * 60 in
      if Ascii.eqb sign "+"%char then Some (offset, rest)
      else if Ascii.eqb sign "-"%char then Some (- offset, rest) else None
  | "" => None
  end.

(** The general parser of package time for this layout; the fast path for RFC 3339
    that is tried before it accepts a part of the same texts, with the same
    result. *)
Definition Parse (s : string) : option Z :=
  '(year, s) ← getYear s; s ← skip "-"%char s;
  '(month, s) ← getnum true s ≫= within 1 12; s ← skip "-"%char s;
  '(day, s) ← getnum true s; s ← skip "T"%char s;
  '(hour, s) ← getnum false s ≫= within 0 23; s ← skip ":"%char s;
  '(min, s) ← getnum true s ≫= within 0 59; s ← skip ":"%char s;
  '(sec, s) ← getnum true s ≫= within 0 59;
  let '(nsec, s) := getFraction s in
  '(offset, s) ← getZone s;
  match s with
  | "" =>
      if (1 <=? day) && (day <=? daysIn (isLeap year) month) then
        Some (((dayNumber year month day - epochDay) * 86400 + hour * 3600 + min * 60 + sec - offset) * Second + nsec)
      else None
  | _ => None
  end.

(** [time.Time{}] and [t.Sub(u)]: the difference is a Duration, which saturates. *)
Definition zeroTime : Z := - epochDay * 86400 * Second.
Definition maxDuration : Z := 2 ^ 63 - 1.
Definition minDuration : Z := - 2 ^ 63.
Definition Sub (t u : Z) : Z := Z.max minDuration (Z.min maxDuration (t - u)).

Example parses : Parse "2024-02-29T23:59:59.5+01:30" = Some ((1709251199 - 5400) * Second + 500000000).
Proof. by vm_compute. Qed.
Example formats : Format 951782400123456789 = "2000-02-29T00:00:00Z".
Proof. by vm_compute. Qed.

(** ** Lemmas *)

(** [lia] reasons about divisions by constants here. *)
#[local] Ltac Zify.zify_post_hook ::= Z.to_euclidean_division_equations.

Lemma digitVal_digit z : 0 <= z <= 9 -> digitVal (digit z) = Some z.
Proof.
  intros Hz. assert (z = 0 \/ z = 1 \/ z = 2 \/ z = 3 \/ z = 4 \/ z = 5 \/ z = 6 \/ z = 7 \/ z = 8 \/ z = 9) as Hc by lia.
  by repeat destruct Hc as [->|Hc]; [..|subst].
Qed.

Lemma getnum_two fixed z rest : 0 <= z <= 99 -> getnum fixed (two z rest) = Some (z, rest).
Proof.
  intros Hz. unfold getnum, two. rewrite !digitVal_digit by lia. cbn [mbind option_bind].
  do 2 f_equal. lia.
Qed.

Lemma getYear_four z rest : 0 <= z <= 9999 -> getYear (fourOrMore z rest) = Some (z, rest).
Proof.
  intros Hz. unfold fourOrMore. destruct (_ && _) eqn:E; [|lia]. unfold getYear.
  rewrite getnum_two by lia. cbn [mbind option_bind]. rewrite getnum_two by lia. cbn [mbind option_bind].
  do 2 f_equal. lia.
Qed.

Lemma skip_char c rest : skip c (char c rest) = Some rest.
Proof. unfold skip, char. by rewrite Ascii.eqb_refl. Qed.

Lemma within_ok lo hi z rest : lo <= z <= hi -> within lo hi (z, rest) = Some (z, rest).
Proof. intros Hz. unfold within. cbn [fst]. destruct (_ && _) eqn:E; [done|lia]. Qed.

(** Evaluates [daysBefore] at given months. *)
Ltac days_before :=
  repeat match goal with
  | |- context [daysBefore ?b ?m] =>
      let v := eval vm_compute in (daysBefore b m) in
      match v with Z0 => idtac | Zpos _ => idtac | Zneg _ => idtac end;
      change (daysBefore b m) with v
  end.

Lemma month_spec (leap : bool) yday m d :
  0 <= yday < 365 + (if leap then 1 else 0) -> monthFrom leap yday 1 11 = (m, d) ->
  daysBefore leap m + (d - 1) = yday /\ 1 <= m <= 12 /\ 1 <= d <= daysIn leap m.
Proof.
  intros Hy. unfold daysIn. cbn [monthFrom]. destruct leap; days_before;
    repeat match goal with |- context [if ?b then _ else _] => destruct b eqn:? end;
    intros [= <- <-]; days_before; lia.
Qed.

(** The cycles of a day. *)
Lemma civil_cycles d :
  let n400 := d / 146097 in let r1 := d mod 146097 in
  let n100 := Z.min 3 (r1 / 36524) in let r2 := r1 - 36524 * n100 in
  let n4 := r2 / 1461 in let r3 := r2 - 1461 * n4 in
  let n1 := Z.min 3 (r3 / 365) in let yday := r3 - 365 * n1 in
  d = 146097 * n400 + 36524 * n100 + 1461 * n4 + 365 * n1 + yday /\
  0 <= n100 <= 3 /\ 0 <= n4 <= 24 /\ 0 <= n1 <= 3 /\ 0 <= yday /\
  (yday <= 364 \/ yday = 365 /\ n1 = 3 /\ (n4 <> 24 \/ n100 = 3)).
Proof. cbv zeta. lia. Qed.

Lemma leap_cycles a b c e : 0 <= b <= 3 -> 0 <= c <= 24 -> 0 <= e <= 3 ->
  isLeap (400 * a + 100 * b + 4 * c + e + 1) = (e =? 3) && (negb (c =? 24) || (b =? 3)).
Proof.
  intros Hb Hc He. unfold isLeap. set (x := 400 * a + 100 * b + 4 * c + e + 1).
  assert (x mod 4 = 0 <-> e = 3) as H4 by lia.
  assert (x mod 100 = 0 <-> c = 24 /\ e = 3) as H100 by lia.
  assert (x mod 400 = 0 <-> b = 3 /\ c = 24 /\ e = 3) as H400 by lia.
  destruct (Z.eqb_spec (x mod 4) 0), (Z.eqb_spec (x mod 100) 0), (Z.eqb_spec (x mod 400) 0),
    (Z.eqb_spec e 3), (Z.eqb_spec c 24), (Z.eqb_spec b 3); cbn; tauto.
Qed.

Lemma daysBeforeYear_cycles a b c e : 0 <= b <= 3 -> 0 <= c <= 24 -> 0 <= e <= 3 ->
  daysBeforeYear (400 * a + 100 * b + 4 * c + e + 1) = 146097 * a + 36524 * b + 1461 * c + 365 * e.
Proof. intros Hb Hc He. unfold daysBeforeYear. lia. Qed.

Lemma civil_spec d y m day : civil d = (y, m, day) ->
  dayNumber y m day = d /\ 1 <= m <= 12 /\ 1 <= day <= daysIn (isLeap y) m /\
  (0 <= d < 3652059 -> 1 <= y <= 9999).
Proof.
  unfold civil. destruct (civil_cycles d) as (Hd & Hb & Hc & He & Hy0 & Hy). cbv zeta.
  revert Hd Hb Hc He Hy0 Hy. cbv zeta. generalize (d / 146097) as a.
  set (r1 := d mod 146097). generalize (Z.min 3 (r1 / 36524)) as b. intros b a.
  set (r2 := r1 - 36524 * b). generalize (r2 / 1461) as c. intros c.
  set (r3 := r2 - 1461 * c). generalize (Z.min 3 (r3 / 365)) as e. intros e.
  generalize (r3 - 365 * e) as yday. intros yday. clear. intros Hd Hb Hc He Hy0 Hy.
  destruct (monthFrom _ _ _ _) as [m' day'] eqn:Hm. intros [= <- -> ->].
  apply month_spec in Hm as (E & ? & ?); [|rewrite leap_cycles by done; destruct (_ && _) eqn:El; lia].
  split; [|split; [done|split; [done|lia]]]. unfold dayNumber. rewrite daysBeforeYear_cycles by done. lia.
Qed.

Lemma parse_parts y m d h mi s :
  0 <= y <= 9999 -> 1 <= m <= 12 -> 1 <= d <= daysIn (isLeap y) m -> d <= 99 ->
  0 <= h <= 23 -> 0 <= mi <= 59 -> 0 <= s <= 59 ->
  Parse (fourOrMore y (char "-"%char (two m (char "-"%char (two d (char "T"
    (two h (char ":"%char (two mi (char ":"%char (two s "Z"))))))))))) =
  Some (((dayNumber y m d - epochDay) * 86400 + h * 3600 + mi * 60 + s) * Second).
Proof.
  intros Hy Hm Hd Hd' Hh Hmi Hs. unfold Parse.
  repeat first [ rewrite getYear_four by lia | rewrite skip_char | rewrite getnum_two by lia
               | rewrite within_ok by lia | progress cbn [mbind option_bind] ].
  cbn [getFraction getZone]. cbn [mbind option_bind].
  destruct (_ && _) eqn:E; [|lia]. f_equal. lia.
Qed.

Lemma daysIn_bound leap m : 1 <= m <= 12 -> daysIn leap m <= 31.
Proof.
  intros Hm. assert (m = 1 \/ m = 2 \/ m = 3 \/ m = 4 \/ m = 5 \/ m = 6 \/ m = 7 \/ m = 8 \/ m = 9 \/ m = 10 \/
    m = 11 \/ m = 12) as Hc by lia.
  destruct leap; repeat destruct Hc as [->|Hc]; subst; by vm_compute.
Qed.

(** Times survive their text up to a second: parsing what Format makes of a
    time of the years 1 to 9999 gives the time at the start of its second. *)
Lemma Parse_Format t (Ht : zeroTime <= t < (3652059 - epochDay) * 86400 * Second) :
  Parse (Format t) = Some (t / Second * Second).
Proof.
  unfold Format. destruct (civil _) as [[y m] d] eqn:Hc. apply civil_spec in Hc as (Hn & Hm & Hd & Hy).
  assert (1000000000 = Second) as HS by done. unfold zeroTime, epochDay in Ht. rewrite <- HS in *.
  set (s := t / 1000000000) in *.
  assert (- (719162 * 86400) <= s < (3652059 - 719162) * 86400) as Hs by lia. clearbody s. clear Ht.
  pose proof (daysIn_bound (isLeap y) m Hm). unfold epochDay in *.
  rewrite parse_parts; [|lia..]. rewrite <- HS. unfold epochDay. f_equal. lia.
Qed.
