(* ===== verification/Netip.v ===== *)
(** * IP addresses and prefixes (net/netip)

    The functions of Go's net/netip that the code uses: addresses of 32 and 128
    bits as integers, prefixes, their text.  IPv6 zones cannot occur in a
    prefix.  Parse errors carry the text of the failing rule without the
    position. *)

From Stdlib Require Import Ascii.
From S2P Require Import Prelude Sscanf.

Local Open Scope string_scope.
Local Open Scope Z_scope.

(** netip.Addr; the zero value is invalid. *)
Inductive Addr := AddrInvalid | Addr4 (z : Z) | Addr6 (z : Z).

#[export] Instance Addr_eq_dec : EqDecision Addr.
Proof. solve_decision. Defined.

Definition Is4 (a : Addr) : bool := match a with Addr4 _ => true | _ => false end.
Definition Is6 (a : Addr) : bool := match a with Addr6 _ => true | _ => false end.
Definition BitLen (a : Addr) : Z :=
  match a with AddrInvalid => 0 | Addr4 _ => 32 | Addr6 _ => 128 end.
Definition addrVal (a : Addr) : Z := match a with AddrInvalid => 0 | Addr4 z | Addr6 z => z end.

(** netip.Prefix; [Bits] is -1 when the prefix is not valid. *)
Record Prefix := mkPrefix { pAddr : Addr; Bits : Z }.

#[export] Instance Prefix_eq_dec : EqDecision Prefix.
Proof. solve_decision. Defined.

Definition PrefixFrom (ip : Addr) (bits : Z) : Prefix :=
  mkPrefix ip
    (if bool_decide (ip <> AddrInvalid) && (0 <=? bits) && (bits <=? BitLen ip) then bits else -1).

Definition IsValid (p : Prefix) : bool := 0 <=? Bits p.

(** The address with all but the first [bits] of its [len] bits cleared. *)
Definition maskTo (len bits z : Z) : Z := Z.shiftl (Z.shiftr z (len - bits)) (len - bits).

(** (Addr).Prefix *)
Definition AddrPrefix (ip : Addr) (b : Z) : result Prefix :=
  if b <? 0 then Err (newError "negative Prefix bits")
  else
    match ip with
    | AddrInvalid => Ok (mkPrefix AddrInvalid (-1))
    | Addr4 z =>
        if 32 <? b then Err (newError ("prefix length " +:+ pretty b +:+ " too large for IPv4"))
        else Ok (PrefixFrom (Addr4 (maskTo 32 b z)) b)
    | Addr6 z =>
        if 128 <? b then Err (newError ("prefix length " +:+ pretty b +:+ " too large for IPv6"))
        else Ok (PrefixFrom (Addr6 (maskTo 128 b z)) b)
    end.

(** (Prefix).Masked *)
Definition Masked (p : Prefix) : Prefix :=
  match AddrPrefix (pAddr p) (Bits p) with Ok m => m | Err _ => mkPrefix AddrInvalid (-1) end.

(** (Prefix).Contains *)
Definition Contains (p : Prefix) (ip : Addr) : bool :=
  if negb (IsValid p) then false
  else if (BitLen (pAddr p) =? 0) || (BitLen ip =? 0) || negb (BitLen (pAddr p) =? BitLen ip) then false
  else Z.shiftr (Z.lxor (addrVal ip) (addrVal (pAddr p))) (BitLen ip - Bits p) =? 0.

(** (big.Int).SetBytes(addr.AsSlice()) *)
Definition bigOfAddr (a : Addr) : Z := addrVal a.

(** netip.AddrFromSlice(i.Bytes()): the bytes have no leading zero, so only
    integers of four or of sixteen significant bytes give an address. *)
Definition addrOfBig (z : Z) : Addr :=
  if (2 ^ 24 <=? z) && (z <? 2 ^ 32) then Addr4 z
  else if (2 ^ 120 <=? z) && (z <? 2 ^ 128) then Addr6 z
  else AddrInvalid.

(** ** Text *)

Definition octet (z : Z) (i : Z) : Z := Z.land (Z.shiftr z (8 * i)) 255.

Definition string4 (z : Z) : string :=
  pretty (octet z 3) +:+ "." +:+ pretty (octet z 2) +:+ "." +:+
  pretty (octet z 1) +:+ "." +:+ pretty (octet z 0).

Definition hexDigit (d : Z) : ascii :=
  ascii_of_N (Z.to_N (if d <? 10 then 48 + d else 87 + d)).

(** A 16-bit group without leading zeros. *)
Definition hexGroup (g : Z) : string :=
  let d i := Z.land (Z.shiftr g (4 * i)) 15 in
  let digits := [d 3; d 2; d 1; d 0] in
  let fix strip (l : list Z) : list Z :=
    match l with
    | 0 :: ((_ :: _) as l') => strip l'
    | _ => l
    end in
  String.concat "" ((fun x => String (hexDigit x) "") <$> strip digits).

Definition group6 (z : Z) (i : nat) : Z := Z.land (Z.shiftr z (16 * (7 - Z.of_nat i))) 65535.

(** The number of zero groups from the front. *)
Fixpoint zeroRun (l : list Z) : nat :=
  match l with
  | 0 :: rest => S (zeroRun rest)
  | _ => O
  end.

(** The first longest run of at least two zero groups: start and end. *)
Fixpoint longestRun (i : nat) (l : list Z) (best : nat * nat) : nat * nat :=
  match l with
  | [] => best
  | _ :: rest =>
      let n := zeroRun l in
      let best := if Nat.leb 2 n && Nat.ltb (snd best - fst best) n then (i, (i + n)%nat) else best in
      longestRun (S i) rest best
  end.

(** The groups from [i] on; [zs, ze) is the run to be elided. *)
Fixpoint groupsText (i : nat) (zs ze : nat) (l : list Z) : string :=
  match l with
  | [] => ""
  | g :: rest =>
      if Nat.leb zs i && Nat.ltb i ze then
        (if Nat.eqb i zs then "::" else "") +:+ groupsText (S i) zs ze rest
      else
        (if Nat.ltb 0 i && negb (Nat.eqb i ze && Nat.ltb zs ze) then ":" else "") +:+ hexGroup g +:+
        groupsText (S i) zs ze rest
  end.

Definition is4In6 (z : Z) : bool := Z.shiftr z 32 =? 65535.

Definition string6 (z : Z) : string :=
  if is4In6 z then "::ffff:" +:+ string4 (Z.land z (2 ^ 32 - 1))
  else
    let groups := group6 z <$> seq 0 8 in
    let '(zs, ze) := longestRun 0 groups (O, O) in
    groupsText 0 zs ze groups.

(** (Addr).String *)
Definition AddrString (a : Addr) : string :=
  match a with
  | AddrInvalid => "invalid IP"
  | Addr4 z => string4 z
  | Addr6 z => string6 z
  end.

(** (Prefix).String *)
Definition PrefixString (p : Prefix) : string :=
  if IsValid p then AddrString (pAddr p) +:+ "/" +:+ pretty (Bits p) else "invalid Prefix".

(** ** Parsing *)

(** The loop of parseIPv4Fields over the input: the value and the number of
    digits of the current field, the fields before it. *)
Fixpoint parse4Fields (s : string) (val digLen : Z) (fields : list Z) : result (list Z) :=
  match s with
  | EmptyString =>
      if Nat.ltb (length fields) 3 then Err (newError "IPv4 address too short")
      else Ok (fields ++ [val])%list
  | String c s' =>
      if isDigitChar c then
        if (digLen =? 1) && (val =? 0) then Err (newError "IPv4 field has octet with leading zero")
        else
          let val := val * 10 + digitVal c in
          if 255 <? val then Err (newError "IPv4 field has value >255")
          else parse4Fields s' val (digLen + 1) fields
      else if bool_decide (c = "."%char) then
        if (digLen =? 0) || String.eqb s' "" then
          Err (newError "IPv4 field must have at least one digit")
        else if Nat.eqb (length fields) 3 then Err (newError "IPv4 address too long")
        else parse4Fields s' 0 0 (fields ++ [val])%list
      else Err (newError "unexpected character")
  end.

(** Bytes, most significant first. *)
Definition bytesVal (l : list Z) : Z := fold_left (fun acc b => acc * 256 + b) l 0.

Definition parseIPv4 (s : string) : result Addr :=
  fields ← parse4Fields s 0 0 []; Ok (Addr4 (bytesVal fields)).

(** The hexadecimal digits at the front: their value, how many, the rest;
    [None] is a group of more than four digits. *)
Fixpoint hexRun (s : string) (acc : Z) (off : nat) : option (Z * nat * string) :=
  match s with
  | String c s' =>
      match hexVal c with
      | Some d =>
          if Nat.ltb 3 off then None else hexRun s' (acc * 16 + d) (S off)
      | None => Some (acc, off, s)
      end
  | EmptyString => Some (acc, off, s)
  end.

(** The main loop of parseIPv6: [n] groups may still follow, [ip] are the bytes
    parsed, [ell] the position of the ellipsis; the result is the bytes, the
    ellipsis and what is left of the input. *)
Fixpoint parse6Loop (n : nat) (s : string) (ip : list Z) (ell : option nat) :
    result (list Z * option nat * string) :=
  match n with
  | O => Ok (ip, ell, s)
  | S n =>
      match hexRun s 0 0 with
      | None => Err (newError "each group must have 4 or less digits")
      | Some (acc, off, rest) =>
          if Nat.eqb off 0 then
            Err (newError "each colon-separated field must have at least one digit")
          else
            match rest with
            | EmptyString => Ok ((ip ++ [acc / 256; acc mod 256])%list, ell, rest)
            | String c rest' =>
                if bool_decide (c = "."%char) then
                  if bool_decide (ell = None) && negb (Nat.eqb (length ip) 12) then
                    Err (newError "embedded IPv4 address must replace the final 2 fields of the address")
                  else if Nat.ltb 16 (length ip + 4) then
                    Err (newError "too many hex fields to fit an embedded IPv4 at the end of the address")
                  else
                    match parse4Fields s 0 0 [] with
                    | Err e => Err e
                    | Ok fields => Ok ((ip ++ fields)%list, ell, "")
                    end
                else
                  let ip := (ip ++ [acc / 256; acc mod 256])%list in
                  if negb (bool_decide (c = ":"%char)) then
                    Err (newError "unexpected character, want colon")
                  else
                    match rest' with
                    | EmptyString => Err (newError "colon must be followed by more characters")
                    | String c' rest'' =>
                        if bool_decide (c' = ":"%char) then
                          match ell with
                          | Some _ => Err (newError "multiple :: in address")
                          | None =>
                              match rest'' with
                              | EmptyString => Ok (ip, Some (length ip), "")
                              | _ => parse6Loop n rest'' ip (Some (length ip))
                              end
                          end
                        else parse6Loop n rest' ip ell
                    end
            end
      end
  end.

(** The ellipsis stands for the bytes that are missing. *)
Definition expandEllipsis (ip : list Z) (ell : option nat) : result Addr :=
  let n := (16 - length ip)%nat in
  if Nat.ltb 0 n then
    match ell with
    | None => Err (newError "address string too short")
    | Some at_ => Ok (Addr6 (bytesVal (take at_ ip ++ replicate n 0 ++ drop at_ ip)%list))
    end
  else
    match ell with
    | Some _ => Err (newError "the :: must expand to at least one field of zeros")
    | None => Ok (Addr6 (bytesVal ip))
    end.

(** Without a zone, which a prefix cannot have. *)
Definition parseIPv6 (s : string) : result Addr :=
  match s with
  | String ":" (String ":" EmptyString) => Ok (Addr6 0)
  | String ":" (String ":" s') =>
      '(ip, ell, rest) ← parse6Loop 8 s' [] (Some O);
      if negb (String.eqb rest "") then Err (newError "trailing garbage after address")
      else expandEllipsis ip ell
  | _ =>
      '(ip, ell, rest) ← parse6Loop 8 s [] None;
      if negb (String.eqb rest "") then Err (newError "trailing garbage after address")
      else expandEllipsis ip ell
  end.

Fixpoint hasChar (c : ascii) (s : string) : bool :=
  match s with
  | EmptyString => false
  | String d s' => bool_decide (c = d) || hasChar c s'
  end.

(** The first dot, colon or percent sign decides. *)
Fixpoint ipKind (s : string) : option ascii :=
  match s with
  | EmptyString => None
  | String c s' =>
      if bool_decide (c = "."%char) || bool_decide (c = ":"%char) || bool_decide (c = "%"%char)
      then Some c else ipKind s'
  end.

(** netip.ParseAddr, for the text before the slash of a prefix: an address with
    a zone parses, but [ParsePrefix] then refuses it. *)
Definition ParseAddr (s : string) : result Addr :=
  mapErr (fun e => newError ("ParseAddr(" +:+ quote s +:+ "): " +:+ errText e))
    (match ipKind s with
     | Some "."%char => parseIPv4 s
     | Some ":"%char =>
         if hasChar "%" s then Err (newError "IPv6 zones cannot be present in a prefix")
         else parseIPv6 s
     | Some _ => Err (newError "missing IPv6 address")
     | None => Err (newError "unable to parse IP")
     end).

(** The text before and after the last slash. *)
Fixpoint splitSlash (s : string) : option (string * string) :=
  match s with
  | EmptyString => None
  | String c s' =>
      match splitSlash s' with
      | Some (a, b) => Some (String c a, b)
      | None => if bool_decide (c = "/"%char) then Some ("", s') else None
      end
  end.

(** A length with a sign or a leading zero is refused. *)
Definition plainBits (s : string) : bool :=
  match s with
  | String c (String _ _) => isDigitChar c && negb (bool_decide (c = "0"%char))
  | _ => true
  end.

(** netip.ParsePrefix *)
Definition ParsePrefix (s : string) : result Prefix :=
  mapErr (fun e => newError ("netip.ParsePrefix(" +:+ quote s +:+ "): " +:+ errText e))
    (match splitSlash s with
     | None => Err (newError "no '/'")
     | Some (addr, bitsStr) =>
         ip ← ParseAddr addr;
         if negb (plainBits bitsStr) then Err (newError ("bad bits after slash: " +:+ quote bitsStr))
         else
           match Atoi bitsStr with
           | Err _ => Err (newError ("bad bits after slash: " +:+ quote bitsStr))
           | Ok bits =>
               if (bits <? 0) || (BitLen ip <? bits) then Err (newError "prefix length out of range")
               else Ok (PrefixFrom ip bits)
           end
     end).

Example parse_v4 : ParsePrefix "10.250.0.0/16" = Ok (mkPrefix (Addr4 184156160) 16).
Proof. vm_compute. reflexivity. Qed.
Example parse_v6 :
  PrefixString <$> ParsePrefix "2001:DB8:0:0:1::1/20" = Ok "2001:db8::1:0:0:1/20".
Proof. vm_compute. reflexivity. Qed.
Example parse_4in6 : PrefixString <$> ParsePrefix "::ffff:1.2.3.4/96" = Ok "::ffff:1.2.3.4/96".
Proof. vm_compute. reflexivity. Qed.
Example parse_bad : isOk (ParsePrefix "10.250.0.0/016") = false /\ isOk (ParsePrefix "10.250.0/16") = false.
Proof. vm_compute. done. Qed.

(** ** Prefixes as sets of addresses *)

(** All addresses of [q] belong to [p]. *)
Definition within (p q : Prefix) : Prop :=
  forall ip, Contains q ip = true -> Contains p ip = true.

Definition apart (p q : Prefix) : Prop :=
  forall ip, Contains p ip = true -> Contains q ip = true -> False.

(** An IPv4 prefix of a length in range; [hostSize] is the number of its addresses. *)
Definition prefix4 (a bits : Z) : Prefix := mkPrefix (Addr4 a) bits.
Definition hostSize (bits : Z) : Z := 2 ^ (32 - bits).

Lemma hostSize_pos bits : bits <= 32 -> 0 < hostSize bits.
Proof. intros. unfold hostSize. apply Z.pow_pos_nonneg; lia. Qed.

Lemma hostSize_split bits n : 0 <= n -> bits + n <= 32 -> hostSize bits = 2 ^ n * hostSize (bits + n).
Proof. intros. unfold hostSize. rewrite <- Z.pow_add_r by lia. f_equal. lia. Qed.

Lemma PrefixFrom_4 a bits : 0 <= bits <= 32 -> PrefixFrom (Addr4 a) bits = prefix4 a bits.
Proof.
  intros. unfold PrefixFrom. cbn. rewrite (proj2 (Z.leb_le 0 bits)), (proj2 (Z.leb_le bits 32)) by lia.
  done.
Qed.

Lemma Contains4 a bits x :
  0 <= bits <= 32 ->
  Contains (prefix4 a bits) (Addr4 x) = true <-> x / hostSize bits = a / hostSize bits.
Proof.
  intros Hb. unfold Contains, IsValid, prefix4, hostSize. cbn [pAddr Bits BitLen addrVal].
  rewrite (proj2 (Z.leb_le 0 bits)) by lia. cbn -[Z.sub].
  rewrite Z.eqb_eq, Z.shiftr_lxor, Z.lxor_eq_0_iff, !Z.shiftr_div_pow2 by lia. done.
Qed.

Lemma Contains4_inv a bits ip :
  Contains (prefix4 a bits) ip = true -> exists x, ip = Addr4 x.
Proof.
  unfold Contains, prefix4. cbn [pAddr BitLen addrVal]. destruct (IsValid _); [|done].
  destruct ip as [|x|x]; cbn; try done. eauto.
Qed.

(** An aligned prefix is an interval. *)
Lemma Contains4_interval m bits x :
  0 <= bits <= 32 ->
  Contains (prefix4 (m * hostSize bits) bits) (Addr4 x) = true <->
  m * hostSize bits <= x < m * hostSize bits + hostSize bits.
Proof.
  intros Hb. pose proof (hostSize_pos bits ltac:(lia)) as Hpos.
  rewrite Contains4, Z.div_mul by lia. split.
  - intros <-. pose proof (Z.div_mod x (hostSize bits) ltac:(lia)).
    pose proof (Z.mod_pos_bound x (hostSize bits) Hpos). nia.
  - intros H. symmetry. apply (Z.div_unique x _ _ (x - m * hostSize bits)); [left|]; lia.
Qed.

(** A longer prefix whose first address is in a prefix is within it. *)
Lemma within4 p a bits s bits' :
  p = prefix4 a bits -> 0 <= bits <= bits' -> bits' <= 32 ->
  Contains p (Addr4 s) = true -> within p (prefix4 s bits').
Proof.
  intros -> Hb Hb' Hs ip Hip. destruct (Contains4_inv _ _ _ Hip) as [x ->].
  rewrite Contains4 in Hs, Hip |- * by lia.
  rewrite <- Hs.
  assert (hostSize bits = hostSize bits' * 2 ^ (bits' - bits)) as E.
  { rewrite (hostSize_split bits (bits' - bits)), Z.mul_comm by lia. do 2 f_equal. lia. }
  pose proof (hostSize_pos bits' ltac:(lia)). pose proof (Z.pow_pos_nonneg 2 (bits' - bits)).
  rewrite E, <- !Z.div_div by lia. by rewrite Hip.
Qed.

(** ** Masking *)

Lemma maskTo_eq bits a : 0 <= bits <= 32 -> maskTo 32 bits a = (a / hostSize bits) * hostSize bits.
Proof.
  intros. unfold maskTo, hostSize. rewrite Z.shiftl_mul_pow2, Z.shiftr_div_pow2 by lia. done.
Qed.

Lemma AddrPrefix_4 a bits :
  0 <= bits <= 32 ->
  AddrPrefix (Addr4 a) bits = Ok (prefix4 ((a / hostSize bits) * hostSize bits) bits).
Proof.
  intros Hb. unfold AddrPrefix. rewrite (proj2 (Z.ltb_ge bits 0)), (proj2 (Z.ltb_ge 32 bits)) by lia.
  by rewrite PrefixFrom_4, maskTo_eq by lia.
Qed.

(** The block of a prefix lies in the address space. *)
Lemma Masked_block a bits :
  0 <= bits <= 32 -> 0 <= a < 2 ^ 32 ->
  0 <= a / hostSize bits /\ a / hostSize bits * hostSize bits + hostSize bits <= 2 ^ 32.
Proof.
  intros Hb Hr. pose proof (hostSize_pos bits ltac:(lia)).
  assert (2 ^ 32 = 2 ^ bits * hostSize bits) as E.
  { unfold hostSize. rewrite <- Z.pow_add_r by lia. f_equal. lia. }
  split; [apply Z.div_pos; lia|]. rewrite E in Hr |- *.
  assert (a / hostSize bits < 2 ^ bits) by (apply Z.div_lt_upper_bound; lia). nia.
Qed.

(** A masked prefix starts at a multiple of its size. *)
Lemma Masked_aligned a bits :
  0 <= bits <= 32 -> Masked (prefix4 a bits) = prefix4 a bits -> 0 <= a < 2 ^ 32 ->
  exists m, a = m * hostSize bits /\ a + hostSize bits <= 2 ^ 32.
Proof.
  intros Hb. unfold Masked, prefix4 at 1 2. cbn [pAddr Bits]. rewrite AddrPrefix_4 by done.
  intros [= Ha] Hr. exists (a / hostSize bits). split; [done|].
  rewrite <- Ha. by apply Masked_block.
Qed.

(** ** Runs of subnets

    The prefixes follow each other from [lo] on, each aligned to its own length,
    and end before [hi]. *)
Fixpoint chain (lo : Z) (qs : list Prefix) (hi : Z) : Prop :=
  match qs with
  | [] => lo <= hi
  | q :: qs' =>
      exists m bits, q = prefix4 (m * hostSize bits) bits /\ 0 <= bits <= 32 /\
        lo <= m * hostSize bits /\ chain (m * hostSize bits + hostSize bits) qs' hi
  end.

Lemma chain_app lo qs mid qs' hi : chain lo qs mid -> chain mid qs' hi -> chain lo (qs ++ qs') hi.
Proof.
  revert lo. induction qs as [|q qs IH]; intros lo H H'; cbn in *.
  - destruct qs' as [|q' qs']; cbn in *; [lia|]. destruct H' as (m & bits & ? & ? & ? & ?).
    exists m, bits. split_and!; try done; lia.
  - destruct H as (m & bits & ? & ? & ? & H). exists m, bits. split_and!; [done|lia..|by apply IH].
Qed.

Lemma chain_ge lo qs hi q x :
  chain lo qs hi -> q ∈ qs -> Contains q (Addr4 x) = true -> lo <= x < hi.
Proof.
  revert lo. induction qs as [|q' qs IH]; intros lo H Hq Hx; [by apply not_elem_of_nil in Hq|].
  destruct H as (m & bits & -> & Hb & Hlo & H).
  assert (m * hostSize bits + hostSize bits <= hi) as Hhi.
  { clear - H. set (v := m * hostSize bits + hostSize bits) in *. clearbody v. clear m bits.
    revert v H. induction qs as [|q'' qs IH]; intros v H; [done|].
    destruct H as (m & bits & _ & Hb & ? & H). apply IH in H.
    pose proof (hostSize_pos bits ltac:(lia)). lia. }
  apply elem_of_cons in Hq as [->|Hq].
  - apply Contains4_interval in Hx; lia.
  - pose proof (hostSize_pos bits ltac:(lia)). pose proof (IH _ H Hq Hx). lia.
Qed.

Lemma chain_inv4 lo qs hi q : chain lo qs hi -> q ∈ qs -> exists s bits, q = prefix4 s bits.
Proof.
  revert lo. induction qs as [|q' qs IH]; intros lo H Hq; [by apply not_elem_of_nil in Hq|].
  destruct H as (m & bits & -> & _ & _ & H).
  apply elem_of_cons in Hq as [->|Hq]; [eauto|]. by eapply IH.
Qed.

(** The members of a run are pairwise disjoint. *)
Lemma chain_apart lo qs hi : chain lo qs hi -> ForallOrdPairs apart qs.
Proof.
  revert lo. induction qs as [|q qs IH]; intros lo H; [constructor|].
  destruct H as (m & bits & -> & Hb & Hlo & H). constructor; [|by eapply IH].
  apply List.Forall_forall. intros q' Hq' ip Hip Hip'. apply list_elem_of_In in Hq'.
  destruct (Contains4_inv _ _ _ Hip) as [x ->].
  apply Contains4_interval in Hip; [|done].
  pose proof (chain_ge _ _ _ _ _ H Hq' Hip'). lia.
Qed.

(** ** Printing and parsing IPv4 prefixes *)

(** A decidable statement on a small range is checked by computation. *)
Lemma enum_range (P : Z -> Prop) `{forall z, Decision (P z)} (n : nat) :
  forallb (fun i => bool_decide (P (Z.of_nat i))) (seq 0 n) = true ->
  forall z, 0 <= z < Z.of_nat n -> P z.
Proof.
  intros Hall z Hz. rewrite forallb_forall in Hall.
  specialize (Hall (Z.to_nat z)). rewrite in_seq, Z2Nat.id, bool_decide_eq_true in Hall by lia.
  apply Hall. lia.
Qed.

(** The effect of digits alone on the state of the parser. *)
Fixpoint digits4 (s : string) (val digLen : Z) : option (Z * Z) :=
  match s with
  | EmptyString => Some (val, digLen)
  | String c s' =>
      if isDigitChar c && negb ((digLen =? 1) && (val =? 0)) && (val * 10 + digitVal c <=? 255)
      then digits4 s' (val * 10 + digitVal c) (digLen + 1) else None
  end.

Lemma parse4_digits d s fields v k v' k' :
  digits4 d v k = Some (v', k') ->
  parse4Fields (d +:+ s) v k fields = parse4Fields s v' k' fields.
Proof.
  revert v k. induction d as [|c d IH]; intros v k; cbn [digits4]; [by intros [= <- <-]|].
  change (String c d +:+ s) with (String c (d +:+ s)). cbn [parse4Fields].
  destruct (isDigitChar c); [|done]. destruct ((k =? 1) && (v =? 0)); [done|]. cbn [negb andb].
  destruct (Z.leb_spec (v * 10 + digitVal c) 255); [|done].
  rewrite (proj2 (Z.ltb_ge 255 _)) by lia. apply IH.
Qed.

(** A decimal octet followed by anything is read back. *)
Lemma parse4_octet s fields o :
  0 <= o < 256 ->
  exists k, 0 < k /\ parse4Fields (pretty o +:+ s) 0 0 fields = parse4Fields s o k fields.
Proof.
  intros Ho.
  assert (digits4 (pretty o) 0 0 = Some (o, Z.of_nat (String.length (pretty o))) /\
          0 < Z.of_nat (String.length (pretty o))) as [Hd Hpos].
  { revert o Ho. apply (enum_range _ 256). vm_compute. reflexivity. }
  eexists. split; [exact Hpos|]. by apply parse4_digits.
Qed.

Lemma parse4_dot s o k fields :
  0 < k -> s <> "" -> (length fields < 3)%nat ->
  parse4Fields (String "." s) o k fields = parse4Fields s 0 0 (fields ++ [o])%list.
Proof.
  intros Hk Hs Hf. cbn [parse4Fields]. change (isDigitChar ".") with false. cbn [bool_decide]. rewrite bool_decide_eq_true_2, (proj2 (Z.eqb_neq k 0)) by (done || lia).
  destruct (String.eqb_spec s ""); [done|]. cbn.
  destruct (Nat.eqb_spec (length fields) 3); [lia|done].
Qed.

Definition isAddr4 (z : Z) : Prop := 0 <= z < 2 ^ 32.

Lemma octet_range z i : 0 <= octet z i < 256.
Proof. unfold octet. rewrite Z.land_ones with (n := 8) by lia. apply Z.mod_pos_bound. lia. Qed.

Lemma octet_eq z i : 0 <= i -> octet z i = (z / 2 ^ (8 * i)) mod 256.
Proof.
  intros. unfold octet. rewrite Z.land_ones with (n := 8), Z.shiftr_div_pow2 by lia. done.
Qed.

Lemma octets_value z : isAddr4 z -> bytesVal [octet z 3; octet z 2; octet z 1; octet z 0] = z.
Proof.
  intros [H0 H1]. unfold bytesVal. cbn [fold_left]. rewrite !octet_eq by lia.
  change (2 ^ (8 * 3)) with (256 * (256 * 256)). change (2 ^ (8 * 2)) with (256 * 256).
  change (2 ^ (8 * 1)) with 256. change (2 ^ (8 * 0)) with 1.
  rewrite <- !Z.div_div, Z.div_1_r by lia. change (2 ^ 32) with (256 * (256 * (256 * 256))) in H1.
  pose proof (Z.div_mod z 256). pose proof (Z.div_mod (z / 256) 256).
  pose proof (Z.div_mod (z / 256 / 256) 256).
  rewrite (Z.mod_small (z / 256 / 256 / 256)); [lia|].
  split; [repeat apply Z.div_pos; lia|]. repeat apply Z.div_lt_upper_bound; lia.
Qed.

Lemma pretty_octet_nonempty o : 0 <= o < 256 -> pretty o <> "".
Proof. revert o. apply (enum_range _ 256). vm_compute. reflexivity. Qed.

Lemma string_app_nil_r s : s +:+ "" = s.
Proof. induction s as [|c s IH]; [done|]. exact (f_equal (String c) IH). Qed.

Lemma string_app_nonempty a b : a <> "" -> a +:+ b <> "".
Proof. by destruct a. Qed.

Lemma parse4_string4 z : isAddr4 z -> parseIPv4 (string4 z) = Ok (Addr4 z).
Proof.
  intros Hz. unfold parseIPv4, string4.
  assert (forall i, pretty (octet z i) <> "") as Hne.
  { intros i. apply pretty_octet_nonempty, octet_range. }
  assert (forall s i f, (length f < 3)%nat -> s <> "" ->
    parse4Fields (pretty (octet z i) +:+ "." +:+ s) 0 0 f = parse4Fields s 0 0 (f ++ [octet z i])%list)
    as Hstep.
  { intros s i f Hf Hs.
    destruct (parse4_octet ("." +:+ s) f _ (octet_range z i)) as (k & Hk & ->).
    by apply parse4_dot. }
  rewrite !Hstep by (cbn; try lia; auto using string_app_nonempty).
  destruct (parse4_octet "" [octet z 3; octet z 2; octet z 1] _ (octet_range z 0)) as (k & _ & E).
  rewrite string_app_nil_r in E. cbn [app]. rewrite E. cbn [parse4Fields Nat.ltb Nat.leb length app].
  cbn [mbind result_bind]. f_equal. f_equal. by apply octets_value.
Qed.

Lemma ipKind_digits d s : forallb isDigitChar (String.list_ascii_of_string d) = true ->
  ipKind (d +:+ s) = ipKind s.
Proof.
  induction d as [|c d IH]; [done|]. cbn [String.list_ascii_of_string forallb].
  intros [Hc Hd]%andb_true_iff. change (String c d +:+ s) with (String c (d +:+ s)). cbn [ipKind].
  rewrite !bool_decide_eq_false_2 by (intros ->; vm_compute in Hc; done). by apply IH.
Qed.

Lemma octet_digits o : 0 <= o < 256 ->
  forallb isDigitChar (String.list_ascii_of_string (pretty o)) = true.
Proof. revert o. apply (enum_range _ 256). vm_compute. reflexivity. Qed.

Lemma ParseAddr_string4 z : isAddr4 z -> ParseAddr (string4 z) = Ok (Addr4 z).
Proof.
  intros Hz. unfold ParseAddr.
  replace (ipKind (string4 z)) with (Some "."%char).
  - by rewrite parse4_string4.
  - symmetry. unfold string4. by rewrite (ipKind_digits _ _ (octet_digits _ (octet_range z 3))).
Qed.

Lemma splitSlash_app a b : splitSlash b = None -> splitSlash (a +:+ "/" +:+ b) = Some (a, b).
Proof.
  intros Hb. induction a as [|c a IH]; [change ("" +:+ "/" +:+ b) with (String "/" b); cbn [splitSlash]; by rewrite Hb|].
  change (String c a +:+ "/" +:+ b) with (String c (a +:+ ("/" +:+ b))). cbn [splitSlash]. by rewrite IH.
Qed.

Lemma bits_text b : 0 <= b < 33 ->
  splitSlash (pretty b) = None /\ plainBits (pretty b) = true /\ Atoi (pretty b) = Ok b.
Proof. revert b. apply (enum_range _ 33). vm_compute. reflexivity. Qed.

(** The text of an IPv4 prefix, as the zone generators store it in the
    infrastructure configuration, reads back as the same prefix. *)
Lemma ParsePrefix_String z b :
  isAddr4 z -> 0 <= b <= 32 -> ParsePrefix (PrefixString (prefix4 z b)) = Ok (prefix4 z b).
Proof.
  intros Hz Hb. destruct (bits_text b ltac:(lia)) as (Hs & Hp & Hi).
  unfold ParsePrefix, PrefixString, IsValid, prefix4. cbn [Bits pAddr AddrString].
  rewrite (proj2 (Z.leb_le 0 b)), splitSlash_app by (lia || done).
  rewrite ParseAddr_string4 by done. cbn [mbind result_bind].
  rewrite Hp, Hi. cbn [negb BitLen].
  rewrite (proj2 (Z.ltb_ge b 0)), (proj2 (Z.ltb_ge 32 b)) by lia. cbn [orb mapErr].
  by rewrite PrefixFrom_4.
Qed.

(** ** What a parsed IPv4 prefix satisfies *)

Lemma parse4Fields_range s val k fields l :
  0 <= val < 256 -> Forall (fun b => 0 <= b < 256) fields -> (length fields <= 3)%nat ->
  parse4Fields s val k fields = Ok l -> Forall (fun b => 0 <= b < 256) l /\ length l = 4%nat.
Proof.
  revert val k fields. induction s as [|c s IH]; intros val k fields Hv Hf Hl; cbn [parse4Fields].
  - destruct (Nat.ltb_spec (length fields) 3); [done|]. intros [= <-].
    rewrite length_app, Forall_app. split; [split; [done|by constructor]|cbn; lia].
  - destruct (isDigitChar c) eqn:Hc.
    + destruct (_ && _); [done|]. destruct (Z.ltb_spec 255 (val * 10 + digitVal c)); [done|].
      apply IH; [|done..]. split; [|lia]. unfold isDigitChar, digitVal in *.
      apply andb_true_iff in Hc as [?%N.leb_le _]. lia.
    + destruct (bool_decide _); [|done]. destruct (_ || _); [done|].
      destruct (Nat.eqb_spec (length fields) 3); [done|]. apply IH; [lia| |].
      * apply Forall_app. split; [done|by constructor].
      * rewrite length_app. cbn. lia.
Qed.

Lemma parseIPv4_range s z : parseIPv4 s = Ok (Addr4 z) -> isAddr4 z.
Proof.
  intros (l & Hl & [= <-])%result_bind_Ok.
  apply parse4Fields_range in Hl as [Hb Hl]; [|lia|constructor|cbn; lia].
  destruct l as [|a [|b [|c [|d [|? ?]]]]]; try discriminate Hl.
  rewrite !Forall_cons in Hb. unfold isAddr4, bytesVal. cbn [fold_left]. lia.
Qed.

Lemma parseIPv6_no4 s z : parseIPv6 s <> Ok (Addr4 z).
Proof.
  assert (forall ip ell, expandEllipsis ip ell <> Ok (Addr4 z)) as Hexp.
  { intros ip ell. unfold expandEllipsis. destruct (_ <? _)%nat, ell; done. }
  unfold parseIPv6. intros H.
  repeat match type of H with
  | (match ?x with _ => _ end) = _ => destruct x; try discriminate H
  | (_ ≫= _) = Ok _ => apply result_bind_Ok in H as ([[? ?] ?] & _ & H)
  end; by eapply Hexp.
Qed.

Lemma ParsePrefix_range s a p : ParsePrefix s = Ok (prefix4 a p) -> isAddr4 a /\ 0 <= p <= 32.
Proof.
  unfold ParsePrefix. intros H%mapErr_Ok. destruct (splitSlash s) as [[addr bits]|]; [|done].
  apply result_bind_Ok in H as (ip & Hip & H). destruct (negb _); [done|].
  destruct (Atoi bits) as [b|]; [|done]. destruct (Z.ltb_spec b 0); [done|].
  destruct (Z.ltb_spec (BitLen ip) b); [done|]. cbn [orb] in H.
  assert (ip = Addr4 a) as -> by (by injection H).
  rewrite PrefixFrom_4 in H by done. injection H as ->. split; [|done].
  apply mapErr_Ok in Hip. destruct (ipKind addr) as [k|]; [|done].
  repeat match type of Hip with
  | (if ?b then _ else _) = _ => destruct b; try discriminate Hip
  | (match ?x with _ => _ end) = _ => destruct x; try discriminate Hip
  end; (by eapply parseIPv4_range) || (by apply parseIPv6_no4 in Hip).
Qed.
