(* ===== verification/Zones.v ===== *)
(** * The subnets of availability zones (pkg/gardener/shoot/hyperscaler)

    The zone generators of the hyperscalers: AWS gives a zone three subnets,
    Azure, Alicloud and GDCH one.  They are shown to lie inside the CIDR of the
    nodes, to be disjoint and to survive being written as text; and, except on
    GDCH, to stay what they are when a zone is added to an existing cluster.  This
    file has what they promise and the arithmetic they share; the generators are
    in ZonesAws, ZonesAlicloud, ZonesAzure and ZonesGdch. *)

From S2P Require Import Prelude Sscanf Netip.

Local Open Scope string_scope.
Local Open Scope Z_scope.

(** ** What a generator promises *)

(** The texts are prefixes inside [cidr] that do not overlap. *)
Definition laidOut (cidr : Prefix) (texts : list string) : Prop :=
  exists qs, Forall2 (fun t q => ParsePrefix t = Ok q) texts qs /\
    Forall (within cidr) qs /\ ForallOrdPairs apart qs.

(** The next subnet: the address of an integer, if the node CIDR has it. *)
Lemma addrOfBig_contained a p base bits :
  0 <= p <= bits -> bits <= 32 ->
  Contains (prefix4 a p) (pAddr (PrefixFrom (addrOfBig base) bits)) = true ->
  PrefixFrom (addrOfBig base) bits = prefix4 base bits /\ isAddr4 base /\
  within (prefix4 a p) (prefix4 base bits).
Proof.
  intros Hp Hb HC. unfold PrefixFrom in HC. cbn [pAddr] in HC.
  destruct (Contains4_inv _ _ _ HC) as [x Hx]. unfold addrOfBig in Hx, HC |- *.
  destruct (_ && _) eqn:E in Hx; [|destruct (_ && _) in Hx; discriminate].
  rewrite E in HC |- *. rewrite PrefixFrom_4 by lia. apply andb_true_iff in E as [?%Z.leb_le ?%Z.ltb_lt].
  split_and!; [done|unfold isAddr4; lia|]. eapply within4; [done|lia..|done].
Qed.

Lemma addrOfBig_4 base : 2 ^ 24 <= base < 2 ^ 32 -> addrOfBig base = Addr4 base.
Proof.
  intros [H1 H2]. unfold addrOfBig. by rewrite (proj2 (Z.leb_le _ _) H1), (proj2 (Z.ltb_lt _ _) H2).
Qed.

(** A run of subnets inside the CIDR is what is promised. *)
Lemma chain_laidOut cidr lo qs hi :
  chain lo qs hi -> Forall (fun q => within cidr q /\ isAddr4 (addrVal (pAddr q))) qs ->
  laidOut cidr (PrefixString <$> qs).
Proof.
  intros Hc Hq. exists qs. split_and!.
  - clear - Hc Hq. revert lo Hc. induction Hq as [|q qs [_ Ha] Hq IH]; intros lo Hc; cbn; [constructor|].
    destruct Hc as (m & bits & -> & Hb & _ & Hc). constructor; [|by eapply IH].
    by apply ParsePrefix_String.
  - eapply Forall_impl; [exact Hq|]. by intros q [? _].
  - by eapply chain_apart.
Qed.

(** ** One subnet per zone

    Azure and Alicloud share the arithmetic of their loops: [row] is the loop up
    to the type of the names and of the zones. *)
Section Row.
Context {A : Type} `{Countable A} {B : Type} (dup : A -> GoError) (mk : A -> string -> B).

Fixpoint row (cidr : Prefix) (bits delta value : Z) (processed : gmap A bool) (names : list A) :
    result (list B) :=
  match names with
  | [] => Ok []
  | name :: rest =>
      if bool_decide (is_Some (processed !! name)) then Err (dup name)
      else
        let zoneCidr := PrefixFrom (addrOfBig value) bits in
        if negb (Contains cidr (pAddr zoneCidr)) then
          Err (newError ("calculated subnet CIDR " +:+ PrefixString zoneCidr +:+
                         " is not contained in main worker CIDR " +:+ PrefixString cidr))
        else
          zones ← row cidr bits delta (value + delta) (<[name := true]> processed) rest;
          Ok (mk name (PrefixString zoneCidr) :: zones)
  end.

Lemma row_Ok a p bits value processed names zones :
  0 <= p <= bits -> bits <= 32 -> (exists m, value = m * hostSize bits) ->
  row (prefix4 a p) bits (hostSize bits) value processed names = Ok zones ->
  NoDup names /\ (forall n, n ∈ names -> processed !! n = None) /\
  exists qs hi, chain value qs hi /\ length qs = length names /\
    zones = zip_with mk names (PrefixString <$> qs) /\
    Forall (fun q => within (prefix4 a p) q /\ isAddr4 (addrVal (pAddr q))) qs.
Proof.
  intros Hp Hb. revert value processed zones.
  induction names as [|name names IH]; intros value processed zones [m Hm].
  { intros [= <-]. split_and!; [constructor|by intros n Hn%not_elem_of_nil|].
    exists [], value. split_and!; [cbn; lia|done..|constructor]. }
  cbn [row]. destruct (processed !! name) eqn:Hs; [by rewrite bool_decide_eq_true_2|].
  rewrite bool_decide_eq_false_2 by (intros [? [=]]).
  destruct (Contains _ _) eqn:HC; [|done]. cbn [negb].
  apply addrOfBig_contained in HC as (-> & ? & ?); [|done..].
  intros (rest & (Hnd & Hf & qs & hi & Hc & Hl & -> & Hq)%IH & [= <-])%result_bind_Ok; [|exists (m + 1); lia].
  split_and!.
  - constructor; [|done]. intros Hin. specialize (Hf _ Hin). by rewrite lookup_insert_eq in Hf.
  - intros n [->|Hn]%elem_of_cons; [done|]. specialize (Hf _ Hn). by apply lookup_insert_None in Hf as [? _].
  - exists (prefix4 value bits :: qs), hi. split_and!; [|cbn; lia|done|by constructor].
    exists m, bits. rewrite <- Hm. split_and!; [done|lia..|done].
Qed.

Lemma row_total a p bits M value processed names :
  0 <= p <= bits -> bits <= 32 -> a = M * hostSize p -> 2 ^ 24 <= a -> a + hostSize p <= 2 ^ 32 ->
  a <= value -> value + Z.of_nat (length names) * hostSize bits <= a + hostSize p ->
  NoDup names -> (forall n, n ∈ names -> processed !! n = None) ->
  isOk (row (prefix4 a p) bits (hostSize bits) value processed names) = true.
Proof.
  intros Hp Hb HM Ha Hhi. pose proof (hostSize_pos bits Hb) as Hpos.
  pose proof (hostSize_pos p ltac:(lia)) as Hpos'. revert value processed.
  induction names as [|name names IH]; intros value processed Hlo Hfit Hnd Hf; [done|].
  apply NoDup_cons in Hnd as [Hn Hnd]. cbn [row length] in Hfit |- *.
  rewrite bool_decide_eq_false_2 by (rewrite Hf by constructor; intros [? [=]]).
  rewrite addrOfBig_4, PrefixFrom_4 by nia. cbn [pAddr prefix4]. fold (prefix4 a p).
  rewrite (proj2 (Contains4 a p value ltac:(lia))).
  - cbn [negb]. specialize (IH (value + hostSize bits) (<[name := true]> processed)).
    destruct (row _ _ _ _ _ _); [done|]. apply IH; [lia|lia|done|].
    intros n Hn'. rewrite lookup_insert_ne by (by intros ->). apply Hf. by constructor.
  - rewrite HM at 1. rewrite Z.div_mul by lia. symmetry.
    apply (Z.div_unique _ _ _ (value - a)); [left; nia|lia].
Qed.

Lemma row_app cidr bits delta value processed names more zones' :
  row cidr bits delta value processed (names ++ more) = Ok zones' ->
  exists zones, row cidr bits delta value processed names = Ok zones /\ zones `prefix_of` zones'.
Proof.
  revert value processed zones'. induction names as [|name names IH]; intros value processed zones'.
  { intros _. exists []. split; [done|]. apply prefix_nil. }
  cbn [app row]. destruct (bool_decide _); [done|]. destruct (negb _); [done|].
  intros (rest' & (rest & -> & Hpre)%IH & [= <-])%result_bind_Ok. cbn [mbind result_bind].
  eexists. split; [done|]. by apply prefix_cons.
Qed.

(** The distance between the blocks of two zones is their size. *)
Lemma block_size p : 0 <= p <= 32 -> Z.shiftl 1 (32 - p) = hostSize p.
Proof. intros. unfold hostSize. by rewrite Z.shiftl_mul_pow2, Z.mul_1_l by lia. Qed.

(** Eight blocks of three more bits fill a CIDR. *)
Lemma row_eight a p M names :
  0 <= p <= 24 -> a = M * hostSize p -> 2 ^ 24 <= a -> a + hostSize p <= 2 ^ 32 ->
  (length names <= 8)%nat -> NoDup names ->
  isOk (row (prefix4 a p) (p + 3) (hostSize (p + 3)) (a / hostSize (p + 3) * hostSize (p + 3)) ∅ names)
  = true.
Proof.
  intros Hp HM Ha Hhi Hlen Hnd. pose proof (hostSize_pos (p + 3) ltac:(lia)).
  pose proof (hostSize_split p 3 ltac:(lia) ltac:(lia)) as E. change (2 ^ 3) with 8 in E.
  assert (a / hostSize (p + 3) * hostSize (p + 3) = a) as ->.
  { rewrite HM, E, Z.mul_assoc, Z.div_mul; lia. }
  apply (row_total a p (p + 3) M); try done; nia.
Qed.

End Row.

(** ** Settings of existing zones

    A patch generates the zones anew and then, for every existing zone, takes over
    its settings into the new zones of the same name. *)
Section Restore.
Context {A K : Type} `{EqDecision K} (name : A -> K) (keep : A -> A -> A) (blank : A -> A).
Context (keep_blank : forall z, keep z (blank z) = z) (name_blank : forall z, name (blank z) = name z).

Fixpoint overlay (zone : A) (newZones : list A) : list A :=
  match newZones with
  | [] => []
  | newZone :: rest =>
      (if decide (name newZone = name zone) then keep zone newZone else newZone) :: overlay zone rest
  end.

Lemma overlay_fresh zone zs : name zone ∉ name <$> zs -> overlay zone zs = zs.
Proof.
  induction zs as [|z zs IH]; cbn; [done|]. rewrite not_elem_of_cons. intros [Hne Hn].
  rewrite IH by done. by rewrite decide_False.
Qed.

Lemma overlay_app zone zs zs2 : overlay zone (zs ++ zs2) = (overlay zone zs ++ overlay zone zs2)%list.
Proof. induction zs as [|z zs IH]; cbn; [done|]. by rewrite IH. Qed.

(** With distinct names every existing zone gets back exactly its settings. *)
Lemma overlay_restores pre existing more :
  NoDup (name <$> (pre ++ existing ++ more)%list) ->
  foldl (fun newZones zone => overlay zone newZones) (pre ++ (blank <$> existing) ++ more)%list existing =
  (pre ++ existing ++ more)%list.
Proof.
  revert pre. induction existing as [|z existing IH]; intros pre Hnd; [done|].
  rewrite fmap_cons. cbn [foldl]. change ((blank z :: ?l) ++ more)%list with (blank z :: (l ++ more))%list.
  assert (overlay z (pre ++ blank z :: (blank <$> existing) ++ more) =
    ((pre ++ [z]) ++ (blank <$> existing) ++ more)%list) as ->.
  { rewrite !fmap_app, fmap_cons in Hnd. apply NoDup_app in Hnd as (_ & Hpre & Hrest).
    apply NoDup_cons in Hrest as [Hz _].
    rewrite overlay_app, overlay_fresh by (intros Hin; apply (Hpre _ Hin); by left).
    cbn [overlay]. rewrite decide_True, keep_blank by apply name_blank.
    rewrite overlay_fresh; [by rewrite <- app_assoc|].
    rewrite fmap_app, <- list_fmap_compose.
    by rewrite (list_fmap_ext (name ∘ blank) name) by (intros; apply name_blank). }
  rewrite IH; by rewrite <- app_assoc.
Qed.

End Restore.

(** ** networking/networking.go *)

(*@ src/pkg/gardener/shoot/hyperscaler/networking/networking.go:8-22 IsSubnetInsideWorkerCIDR *)
Definition IsSubnetInsideWorkerCIDR (workerCIDR subnetCIDR : string) : result bool :=
  workerPrefix ← mapErr (wrapError "failed to parse worker CIDR") (ParsePrefix workerCIDR);
  subnetPrefix ← mapErr (wrapError "failed to parse subnet CIDR") (ParsePrefix subnetCIDR);
  Ok (Contains workerPrefix (pAddr subnetPrefix)).

(** The length of the subnet is not looked at: a larger network that starts in
    the worker CIDR passes. *)
Example larger_subnet_inside : IsSubnetInsideWorkerCIDR "10.250.0.0/16" "10.250.0.0/8" = Ok true.
Proof. vm_compute. reflexivity. Qed.
