(* ===== verification/ZonesAws.v ===== *)
(** * The zones of AWS (aws/zones.go)

    A zone has three subnets, of two sizes; the first three zones get the large
    ones.  The generator, its subnets in units of the smallest, and the theorems
    about every accepted IPv4 CIDR. *)

From S2P Require Import Prelude Sscanf Netip Zones.

Local Open Scope string_scope.
Local Open Scope Z_scope.

(** The extension's v1alpha1.Zone. *)
Record aws_Zone := mkZone {
  zName : string;
  Workers : string;
  Public : string;
  Internal : string;
  ElasticIPAllocationID : option string
}.

(*@consts src/pkg/gardener/shoot/hyperscaler/aws/zones.go:11-19 *)
Definition aws_subNetworkBitsSize : Z := 3.
Definition lastBitNumber : Z := 31.
Definition aws_maxNumberOfZones : Z := 8.
Definition aws_minNumberOfZones : Z := 1.
Definition maxPrefixSize : Z := 24.
Definition minPrefixSize : Z := 16.
Definition addSmallSubnetPrefix : Z := 3.
Definition kymaWorkerPoolAZs : Z := 3.

(*@ src/pkg/gardener/shoot/hyperscaler/aws/zones.go:156-165 getCIDRFromInt *)
Definition getCIDRFromInt (base prefixLength : Z) (mainCIDR : Prefix) : result Prefix :=
  let resultCIDR := PrefixFrom (addrOfBig base) prefixLength in
  if negb (Contains mainCIDR (pAddr resultCIDR)) then
    Err (newError ("calculated subnet CIDR " +:+ PrefixString resultCIDR +:+
                   " is not contained in main worker CIDR " +:+ PrefixString mainCIDR))
  else Ok resultCIDR.

(** The loop over the zone names from index [i] on: [base] is the first free
    address, [processed] the names seen. *)
(*@ src/pkg/gardener/shoot/hyperscaler/aws/zones.go:97-154 generateAWSZones *)
Fixpoint awsZoneLoop (cidr : Prefix) (kymaWorkerNetworkPrefixLength kymaWorkerNetworkDelta : Z)
    (additionalWorkerNetworkPrefixLength additionalWorkerNetworkDelta : Z)
    (i : Z) (base : Z) (processed : gmap string bool) (zoneNames : list string) : result (list aws_Zone) :=
  match zoneNames with
  | [] => Ok []
  | name :: rest =>
      if bool_decide (is_Some (processed !! name))
      then Err (newError ("zone name " +:+ name +:+ " is duplicated"))
      else
        let processed := <[name := true]> processed in
        let '(workPrefixLength, publicPrefixLength, internalPrefixLength, deltaStep) :=
          if i <? kymaWorkerPoolAZs then
            (kymaWorkerNetworkPrefixLength, kymaWorkerNetworkPrefixLength + 1,
             kymaWorkerNetworkPrefixLength + 1, kymaWorkerNetworkDelta)
          else
            (additionalWorkerNetworkPrefixLength, additionalWorkerNetworkPrefixLength,
             additionalWorkerNetworkPrefixLength, additionalWorkerNetworkDelta) in
        zoneWorkerCIDR ← mapErr (wrapError ("failed to get worker CIDR for zone " +:+ name))
          (getCIDRFromInt base workPrefixLength cidr);
        let base := base + deltaStep in
        let base := if i <? kymaWorkerPoolAZs then base + deltaStep else base in
        zonePublicCIDR ← mapErr (wrapError ("failed to get public CIDR for zone " +:+ name))
          (getCIDRFromInt base publicPrefixLength cidr);
        let base := base + deltaStep in
        zoneInternalCIDR ← mapErr (wrapError ("failed to get internal CIDR for zone " +:+ name))
          (getCIDRFromInt base internalPrefixLength cidr);
        let base := base + deltaStep in
        zones ← awsZoneLoop cidr kymaWorkerNetworkPrefixLength kymaWorkerNetworkDelta
          additionalWorkerNetworkPrefixLength additionalWorkerNetworkDelta (i + 1) base processed rest;
        Ok (mkZone name (PrefixString zoneWorkerCIDR) (PrefixString zonePublicCIDR)
              (PrefixString zoneInternalCIDR) None :: zones)
  end.

(*@ src/pkg/gardener/shoot/hyperscaler/aws/zones.go:45-96 generateAWSZones *)
Definition generateAWSZones (workerCidr : string) (zoneNames : list string) : result (list aws_Zone) :=
  let numZones := Z.of_nat (length zoneNames) in
  if (numZones <? aws_minNumberOfZones) || (aws_maxNumberOfZones <? numZones)
  then Err (newError "Number of networking zones must be between 1 and 8")
  else
    cidr ← mapErr (wrapError "failed to parse worker network CIDR") (ParsePrefix workerCidr);
    let prefixLength := Bits cidr in
    if (maxPrefixSize <? prefixLength) || (prefixLength <? minPrefixSize)
    then Err (newError "CIDR prefix length must be between 16 and 24")
    else
      let kymaWorkerNetworkPrefixLength := prefixLength + aws_subNetworkBitsSize in
      workerPrefix ← mapErr (wrapError "failed to get worker prefix")
        (AddrPrefix (pAddr cidr) kymaWorkerNetworkPrefixLength);
      let base := bigOfAddr (pAddr workerPrefix) in
      let kymaWorkerNetworkDelta := Z.shiftl 1 (lastBitNumber - kymaWorkerNetworkPrefixLength) in
      let additionalWorkerNetworkPrefixLength := kymaWorkerNetworkPrefixLength + addSmallSubnetPrefix in
      let additionalWorkerNetworkDelta := Z.shiftr kymaWorkerNetworkDelta 2 in
      awsZoneLoop cidr kymaWorkerNetworkPrefixLength kymaWorkerNetworkDelta
        additionalWorkerNetworkPrefixLength additionalWorkerNetworkDelta 0 base ∅ zoneNames.

Example aws_example :
  generateAWSZones "10.250.0.0/16" ["a"; "b"; "c"; "d"] =
  Ok [mkZone "a" "10.250.0.0/19" "10.250.32.0/20" "10.250.48.0/20" None;
      mkZone "b" "10.250.64.0/19" "10.250.96.0/20" "10.250.112.0/20" None;
      mkZone "c" "10.250.128.0/19" "10.250.160.0/20" "10.250.176.0/20" None;
      mkZone "d" "10.250.192.0/22" "10.250.196.0/22" "10.250.200.0/22" None].
Proof. vm_compute. reflexivity. Qed.

Definition subnets (zones : list aws_Zone) : list string :=
  zones ≫= fun z => [Workers z; Public z; Internal z].

Lemma getCIDRFromInt_Ok a p base bits q :
  0 <= p <= bits -> bits <= 32 -> getCIDRFromInt base bits (prefix4 a p) = Ok q ->
  q = prefix4 base bits /\ isAddr4 base /\ within (prefix4 a p) (prefix4 base bits).
Proof.
  intros Hp Hb. unfold getCIDRFromInt. destruct (Contains _ _) eqn:E; [|done].
  cbn [negb]. intros [= <-]. by apply addrOfBig_contained.
Qed.

Lemma getCIDRFromInt_total a p base bits :
  0 <= p <= bits -> bits <= 32 -> 2 ^ 24 <= base < 2 ^ 32 -> base / hostSize p = a / hostSize p ->
  getCIDRFromInt base bits (prefix4 a p) = Ok (prefix4 base bits).
Proof.
  intros Hp Hb Hr Hd. unfold getCIDRFromInt. rewrite addrOfBig_4, PrefixFrom_4 by lia.
  cbn [pAddr prefix4]. fold (prefix4 a p). by rewrite (proj2 (Contains4 a p base ltac:(lia)) Hd).
Qed.

(** The sizes of the subnets in units of a small one. *)
Lemma sizes p : 16 <= p <= 24 ->
  0 < hostSize (p + 6) /\ hostSize (p + 3) = 8 * hostSize (p + 6) /\
  hostSize (p + 3 + 1) = 4 * hostSize (p + 6) /\ hostSize p = 64 * hostSize (p + 6) /\
  hostSize (p + 3 + 3) = hostSize (p + 6).
Proof.
  intros Hp. split_and!; [apply hostSize_pos; lia| | | |f_equal; lia].
  - rewrite (hostSize_split (p + 3) 3) by lia. f_equal. f_equal. lia.
  - rewrite (hostSize_split (p + 3 + 1) 2) by lia. f_equal. f_equal. lia.
  - rewrite (hostSize_split p 6) by lia. done.
Qed.

Lemma deltas p : 16 <= p <= 24 ->
  Z.shiftl 1 (lastBitNumber - (p + 3)) = 4 * hostSize (p + 6) /\
  Z.shiftr (Z.shiftl 1 (lastBitNumber - (p + 3))) 2 = hostSize (p + 6).
Proof.
  intros Hp. unfold lastBitNumber.
  assert (Z.shiftl 1 (31 - (p + 3)) = 4 * hostSize (p + 6)) as ->.
  { rewrite Z.shiftl_mul_pow2, Z.mul_1_l by lia. unfold hostSize. change 4 with (2 ^ 2).
    rewrite <- Z.pow_add_r by lia. f_equal. lia. }
  split; [done|]. rewrite Z.shiftr_div_pow2, Z.mul_comm by lia. change (2 ^ 2) with 4.
  by rewrite Z.div_mul.
Qed.

Lemma chain_cons_at m bits base qs hi :
  base = m * hostSize bits -> 0 <= bits <= 32 -> chain (base + hostSize bits) qs hi ->
  chain base (prefix4 base bits :: qs) hi.
Proof. intros -> Hb Hc. exists m, bits. split_and!; [done|lia..|done]. Qed.

(** One round of the loop: two subnets lengths, three consecutive aligned subnets. *)
Definition zoneShape (p i base : Z) (next : Z) (qs : list Prefix) : Prop :=
  exists b1 b2 m1 m2,
    p <= b1 <= 32 /\ p <= b2 <= 32 /\ base = m1 * hostSize b1 /\
    base + hostSize b1 = m2 * hostSize b2 /\
    next = base + hostSize b1 + hostSize b2 + hostSize b2 /\
    qs = [prefix4 base b1; prefix4 (base + hostSize b1) b2;
          prefix4 (base + hostSize b1 + hostSize b2) b2] /\
    exists m, next = m * (if i + 1 <? 3 then 8 * hostSize (p + 6) else hostSize (p + 6)).

Lemma zoneShape_chain p i base next qs rest hi :
  0 <= p -> zoneShape p i base next qs -> chain next rest hi -> chain base (qs ++ rest) hi.
Proof.
  intros Hp (b1 & b2 & m1 & m2 & ? & ? & H1 & H2 & -> & -> & _) Hc. cbn [app].
  eapply chain_cons_at; [done|lia|]. eapply chain_cons_at; [done|lia|].
  apply (chain_cons_at (m2 + 1)); [lia|lia|done].
Qed.

Definition inCidr (cidr : Prefix) (q : Prefix) : Prop := within cidr q /\ isAddr4 (addrVal (pAddr q)).

Section Loop.
Context (a p : Z) (Hp : 16 <= p <= 24).

Definition loopAt : Z -> Z -> gmap string bool -> list string -> result (list aws_Zone) :=
  awsZoneLoop (prefix4 a p) (p + 3) (4 * hostSize (p + 6)) (p + 3 + 3) (hostSize (p + 6)).

Lemma awsZoneLoop_round i base processed name names zones :
  0 <= i -> (exists m, base = m * (if i <? 3 then 8 * hostSize (p + 6) else hostSize (p + 6))) ->
  loopAt i base processed (name :: names) = Ok zones ->
  processed !! name = None /\
  exists z next qs rest, zones = z :: rest /\ zName z = name /\
    [Workers z; Public z; Internal z] = PrefixString <$> qs /\ zoneShape p i base next qs /\
    Forall (inCidr (prefix4 a p)) qs /\ loopAt (i + 1) next (<[name := true]> processed) names = Ok rest.
Proof.
  intros Hi [m Hb] H. destruct (sizes p Hp) as (He & E3 & E4 & _ & E6).
  unfold loopAt in *. cbn [awsZoneLoop] in H.
  destruct (processed !! name) eqn:Hs; [by rewrite bool_decide_eq_true_2 in H|].
  split; [done|]. rewrite bool_decide_eq_false_2 in H by (intros [? [=]]).
  unfold kymaWorkerPoolAZs in H.
  destruct (i <? 3) eqn:Ei; [|apply Z.ltb_ge in Ei];
    apply result_bind_Ok in H as (q1 & Hq1%mapErr_Ok & H);
    apply result_bind_Ok in H as (q2 & Hq2%mapErr_Ok & H);
    apply result_bind_Ok in H as (q3 & Hq3%mapErr_Ok & H);
    apply result_bind_Ok in H as (rest & Hrest & [= <-]);
    (apply getCIDRFromInt_Ok in Hq1 as (-> & ? & ?); [|lia|lia]);
    (apply getCIDRFromInt_Ok in Hq2 as (-> & ? & ?); [|lia|lia]);
    (apply getCIDRFromInt_Ok in Hq3 as (-> & ? & ?); [|lia|lia]);
    eexists _, _, _, rest; (split_and!; [done|done| | | |exact Hrest]);
    [instantiate (1 := [_; _; _]); done| |by repeat (apply Forall_cons; split; [done|])|
     instantiate (1 := [_; _; _]); done| |by repeat (apply Forall_cons; split; [done|])].
  - exists (p + 3), (p + 3 + 1), m, (2 * m + 2). rewrite E3, E4. split_and!; [lia..| |].
    + do 2 f_equal; [|do 2 f_equal]; f_equal; lia.
    + destruct (i + 1 <? 3); [exists (m + 2)|exists (8 * m + 16)]; lia.
  - exists (p + 3 + 3), (p + 3 + 3), m, (m + 1). rewrite E6. split_and!; [lia..|done|].
    rewrite (proj2 (Z.ltb_ge (i + 1) 3)) by lia. exists (m + 3). lia.
Qed.

Lemma awsZoneLoop_Ok i base processed names zones :
  0 <= i -> (exists m, base = m * (if i <? 3 then 8 * hostSize (p + 6) else hostSize (p + 6))) ->
  loopAt i base processed names = Ok zones ->
  zName <$> zones = names /\ NoDup names /\ (forall n, n ∈ names -> processed !! n = None) /\
  exists qs hi, chain base qs hi /\ subnets zones = PrefixString <$> qs /\
    Forall (inCidr (prefix4 a p)) qs.
Proof.
  revert i base processed zones. induction names as [|name names IH]; intros i base processed zones Hi Hb H.
  { injection H as <-. split_and!; [done|constructor|by intros n Hn%not_elem_of_nil|].
    exists [], base. split_and!; [cbn; lia|done|constructor]. }
  apply awsZoneLoop_round in H as (Hf & z & next & qs & rest & -> & <- & Ht & Hs & Hq & H); [|done..].
  pose proof Hs as (_ & _ & _ & _ & _ & _ & _ & _ & _ & _ & Hm).
  apply IH in H as (Hn & Hnd & Hfresh & qs' & hi & Hc & Ht' & Hq'); [|lia|done].
  split_and!.
  - cbn. by rewrite Hn.
  - constructor; [|done]. intros Hin'. specialize (Hfresh _ Hin'). by rewrite lookup_insert_eq in Hfresh.
  - intros n [->|Hn']%elem_of_cons; [done|].
    specialize (Hfresh _ Hn'). by apply lookup_insert_None in Hfresh as [? _].
  - exists (qs ++ qs')%list, hi. split_and!; [eapply (zoneShape_chain p); [lia|done|done]| |by apply Forall_app].
    rewrite fmap_app, <- Ht, <- Ht'. done.
Qed.

(** The first free address before zone [i], from the first one of the block. *)
Definition offset (i : Z) : Z :=
  (if i <? 3 then 16 * i else 48 + 3 * (i - 3)) * hostSize (p + 6).

Lemma awsZoneLoop_total M i processed names :
  a = M * hostSize p -> 2 ^ 24 <= a -> a + hostSize p <= 2 ^ 32 ->
  0 <= i -> i + Z.of_nat (length names) <= 8 ->
  NoDup names -> (forall n, n ∈ names -> processed !! n = None) ->
  isOk (loopAt i (a + offset i) processed names) = true.
Proof.
  intros HM Ha Hhi. destruct (sizes p Hp) as (He & E3 & E4 & E0 & E6).
  assert (forall b bits, p <= bits <= 32 -> a <= b < a + 64 * hostSize (p + 6) ->
    getCIDRFromInt b bits (prefix4 a p) = Ok (prefix4 b bits)) as Hget.
  { intros b bits Hb Hx. apply getCIDRFromInt_total; [lia..|]. rewrite HM at 1.
    rewrite Z.div_mul by lia. symmetry. apply (Z.div_unique _ _ _ (b - a)); [left; lia|lia]. }
  revert i processed. induction names as [|name names IH]; intros i processed Hi Hlen Hnd Hf; [done|].
  apply NoDup_cons in Hnd as [Hn Hnd]. unfold loopAt in *. cbn [awsZoneLoop length] in Hlen |- *.
  rewrite bool_decide_eq_false_2 by (rewrite Hf by constructor; intros [? [=]]).
  unfold kymaWorkerPoolAZs.
  assert (forall base, base = a + offset (i + 1) ->
    isOk (awsZoneLoop (prefix4 a p) (p + 3) (4 * hostSize (p + 6)) (p + 3 + 3) (hostSize (p + 6)) (i + 1)
      base (<[name:=true]> processed) names) = true) as Hrest.
  { intros base ->. apply IH; [lia|lia|done|]. intros n Hn'.
    rewrite lookup_insert_ne by (by intros ->). apply Hf. by constructor. }
  clear IH. unfold offset in *.
  destruct (Z.ltb_spec i 3) as [Hi3|Hi3]; rewrite !Hget by nia;
    cbn [mapErr mbind result_bind];
    match goal with |- context [awsZoneLoop _ _ _ _ _ _ ?b _ _] => specialize (Hrest b) end;
    (destruct (awsZoneLoop _ _ _ _ _ _ _ _ _); [done|]); apply Hrest.
  - destruct (Z.ltb_spec (i + 1) 3); [lia|]. assert (i = 2) as -> by lia. lia.
  - rewrite (proj2 (Z.ltb_ge (i + 1) 3)) by lia. lia.
Qed.

End Loop.

Lemma awsZoneLoop_app cidr k1 d1 k2 d2 i base processed names more zones' :
  awsZoneLoop cidr k1 d1 k2 d2 i base processed (names ++ more) = Ok zones' ->
  exists zones, awsZoneLoop cidr k1 d1 k2 d2 i base processed names = Ok zones /\ zones `prefix_of` zones'.
Proof.
  revert i base processed zones'. induction names as [|name names IH]; intros i base processed zones'.
  { intros _. exists []. split; [done|]. apply prefix_nil. }
  cbn [app awsZoneLoop]. destruct (bool_decide _); [done|]. destruct (i <? kymaWorkerPoolAZs);
    intros (q1 & -> & H)%result_bind_Ok; cbn [mbind result_bind];
    apply result_bind_Ok in H as (q2 & -> & H); cbn [mbind result_bind];
    apply result_bind_Ok in H as (q3 & -> & H); cbn [mbind result_bind];
    apply result_bind_Ok in H as (rest' & (rest & -> & Hpre)%IH & [= <-]); cbn [mbind result_bind];
    (eexists; split; [done|]; by apply prefix_cons).
Qed.

Lemma awsZoneLoop_names cidr k1 d1 k2 d2 i base processed names zones :
  awsZoneLoop cidr k1 d1 k2 d2 i base processed names = Ok zones ->
  zName <$> zones = names /\ NoDup names /\ (forall n, n ∈ names -> processed !! n = None) /\
  Forall (fun z => ElasticIPAllocationID z = None) zones.
Proof.
  revert i base processed zones. induction names as [|name names IH]; intros i base processed zones; cbn [awsZoneLoop].
  { intros [= <-]. split_and!; [done|constructor|by intros n Hn%not_elem_of_nil|constructor]. }
  destruct (processed !! name) eqn:Hs; [by rewrite bool_decide_eq_true_2|].
  rewrite bool_decide_eq_false_2 by (intros [? [=]]). destruct (i <? kymaWorkerPoolAZs);
    intros (q1 & _ & H)%result_bind_Ok; apply result_bind_Ok in H as (q2 & _ & H);
    apply result_bind_Ok in H as (q3 & _ & H);
    apply result_bind_Ok in H as (rest & (Hn & Hnd & Hf & Hip)%IH & [= <-]); cbn; rewrite Hn;
    (split_and!; [done| | |by constructor]);
    try (constructor; [|done]; intros Hin; specialize (Hf _ Hin); by rewrite lookup_insert_eq in Hf);
    (intros n [->|Hin]%elem_of_cons; [done|]; specialize (Hf _ Hin); by apply lookup_insert_None in Hf as [? _]).
Qed.

Lemma generateAWSZones_names workerCidr names zones :
  generateAWSZones workerCidr names = Ok zones ->
  zName <$> zones = names /\ NoDup names /\ Forall (fun z => ElasticIPAllocationID z = None) zones.
Proof.
  unfold generateAWSZones. destruct (_ || _); [done|].
  intros (cidr & _ & H)%result_bind_Ok. destruct (_ || _); [done|].
  apply result_bind_Ok in H as (wp & _ & H). apply awsZoneLoop_names in H. tauto.
Qed.

(** What the generator does with an IPv4 CIDR that it accepts. *)
Lemma generateAWSZones_loop workerCidr a p names :
  ParsePrefix workerCidr = Ok (prefix4 a p) -> 16 <= p <= 24 -> (1 <= length names <= 8)%nat ->
  generateAWSZones workerCidr names =
  loopAt a p 0 (a / hostSize (p + 3) * hostSize (p + 3)) ∅ names.
Proof.
  intros Hparse Hp Hlen. unfold generateAWSZones, aws_minNumberOfZones, aws_maxNumberOfZones.
  rewrite (proj2 (Z.ltb_ge _ 1)), (proj2 (Z.ltb_ge 8 _)) by lia. cbn [orb].
  rewrite Hparse. cbn [mapErr mbind result_bind Bits pAddr prefix4].
  unfold maxPrefixSize, minPrefixSize, aws_subNetworkBitsSize, addSmallSubnetPrefix.
  rewrite (proj2 (Z.ltb_ge 24 p)), (proj2 (Z.ltb_ge p 16)), AddrPrefix_4 by lia.
  cbn [orb mapErr mbind result_bind pAddr prefix4 bigOfAddr addrVal].
  destruct (deltas p Hp) as [-> ->]. done.
Qed.

Lemma generateAWSZones_bounds workerCidr a p names :
  ParsePrefix workerCidr = Ok (prefix4 a p) -> isOk (generateAWSZones workerCidr names) = true ->
  16 <= p <= 24 /\ (1 <= length names <= 8)%nat.
Proof.
  intros Hparse. unfold generateAWSZones, aws_minNumberOfZones, aws_maxNumberOfZones, maxPrefixSize, minPrefixSize.
  destruct (Z.ltb_spec (Z.of_nat (length names)) 1); [done|].
  destruct (Z.ltb_spec 8 (Z.of_nat (length names))); [done|]. cbn [orb].
  rewrite Hparse. cbn [mapErr mbind result_bind Bits prefix4].
  destruct (Z.ltb_spec 24 p); [done|]. destruct (Z.ltb_spec p 16); [done|]. lia.
Qed.

Lemma generateAWSZones_zones workerCidr a p names zones :
  ParsePrefix workerCidr = Ok (prefix4 a p) -> generateAWSZones workerCidr names = Ok zones ->
  zName <$> zones = names /\ NoDup names /\
  exists qs hi lo, chain lo qs hi /\ subnets zones = PrefixString <$> qs /\
    Forall (inCidr (prefix4 a p)) qs.
Proof.
  intros Hparse H.
  destruct (generateAWSZones_bounds _ _ _ names Hparse) as [Hp Hlen]; [by rewrite H|].
  rewrite (generateAWSZones_loop _ a p) in H by done.
  apply awsZoneLoop_Ok in H as (Hn & Hnd & _ & qs & hi & ?); [|done|lia|].
  - split_and!; [done..|]. by eexists qs, hi, _.
  - exists (a / hostSize (p + 3)). destruct (sizes p Hp) as (_ & -> & _). done.
Qed.

(** C26. generateAWSZones, for an IPv4 CIDR of the nodes: the zones have the given
    names, which are distinct, and every zone's three subnets lie inside the CIDR
    of the nodes; no two of them overlap, within a zone or between zones. An IPv6
    CIDR is not refused, and for one the subnets do overlap (aws_ipv6_overlap). *)
Theorem aws_subnets_disjoint workerCidr a p names zones :
  ParsePrefix workerCidr = Ok (prefix4 a p) -> generateAWSZones workerCidr names = Ok zones ->
  zName <$> zones = names /\ NoDup names /\ laidOut (prefix4 a p) (subnets zones).
Proof.
  intros Hparse H. apply (generateAWSZones_zones _ a p) in H as (? & ? & qs & hi & lo & Hc & -> & Hq); [|done].
  split_and!; [done..|]. by eapply chain_laidOut.
Qed.

Lemma aws_subnets_disjoint_witness :
  exists zones, generateAWSZones "10.250.0.0/16" ["a"; "b"; "c"; "d"] = Ok zones /\
    laidOut (prefix4 184156160 16) (subnets zones).
Proof.
  eexists. split; [vm_compute; reflexivity|].
  eapply (aws_subnets_disjoint "10.250.0.0/16" _ _ ["a"; "b"; "c"; "d"]); vm_compute; reflexivity.
Defined.

(** generateAWSZones accepts a properly masked IPv4 CIDR exactly when its
    prefix length is between 16 and 24 and there are one to eight distinct zone
    names: eight zones always fit. *)
Theorem aws_accepts workerCidr a p names :
  ParsePrefix workerCidr = Ok (prefix4 a p) -> Masked (prefix4 a p) = prefix4 a p ->
  2 ^ 24 <= a ->
  isOk (generateAWSZones workerCidr names) = true <->
  16 <= p <= 24 /\ (1 <= length names <= 8)%nat /\ NoDup names.
Proof.
  intros Hparse Hm Ha. pose proof (ParsePrefix_range _ _ _ Hparse) as [[_ ?] _]. split.
  - intros H'. pose proof H' as (zones & Hz)%isOk_true.
    apply (generateAWSZones_bounds _ a p) in H' as [? ?]; [|done].
    apply (generateAWSZones_zones _ a p) in Hz; [|done]. tauto.
  - intros (Hp & Hlen & Hnd). destruct (Masked_aligned a p) as (M & HM & Hhi); [lia|done|lia|].
    rewrite (generateAWSZones_loop _ a p) by done.
    replace (a / hostSize (p + 3) * hostSize (p + 3)) with (a + offset p 0).
    + apply (awsZoneLoop_total a p Hp M); try done; lia.
    + unfold offset. cbn [Z.ltb Z.compare]. rewrite HM, (hostSize_split p 3) by lia.
      pose proof (hostSize_pos (p + 3) ltac:(lia)).
      rewrite (Z.mul_comm (2 ^ 3)), Z.mul_assoc, (Z.mul_comm (M * _)), Z.mul_assoc, Z.div_mul by lia. lia.
Qed.

Lemma aws_accepts_witness : isOk (generateAWSZones "10.250.0.0/24" ["1"; "2"; "3"; "4"; "5"; "6"; "7"; "8"]) = true.
Proof.
  apply (aws_accepts _ 184156160 24); [vm_compute; reflexivity..|lia|].
  split_and!; [lia..|cbn; lia|cbn; lia|]. apply (bool_decide_unpack _). vm_compute. done.
Defined.

Lemma generateAWSZones_prefix workerCidr names more zones zones' :
  generateAWSZones workerCidr names = Ok zones ->
  generateAWSZones workerCidr (names ++ more) = Ok zones' -> zones `prefix_of` zones'.
Proof.
  unfold generateAWSZones. destruct (_ || _); [done|]. destruct (_ || _); [done|].
  destruct (mapErr _ (ParsePrefix _)) as [cidr|]; [|done]. cbn [mbind result_bind].
  destruct (_ || _); [done|]. destruct (mapErr _ (AddrPrefix _ _)); [|done]. cbn [mbind result_bind].
  intros H (zones0 & H0 & Hpre)%awsZoneLoop_app. 
  assert (Ok zones = Ok zones0) as [= ->]; [|done]. by etransitivity; [symmetry|].
Qed.

(** C27. Adding zones to an AWS cluster leaves the subnets of the zones it has as
    they are. *)
Theorem aws_zones_stable workerCidr names more zones zones' :
  generateAWSZones workerCidr names = Ok zones ->
  generateAWSZones workerCidr (names ++ more) = Ok zones' -> zones `prefix_of` zones'.
Proof. apply generateAWSZones_prefix. Qed.

Lemma aws_zones_stable_witness :
  exists zones zones', generateAWSZones "10.250.0.0/16" ["a"] = Ok zones /\
    generateAWSZones "10.250.0.0/16" ["a"; "b"] = Ok zones' /\ zones `prefix_of` zones'.
Proof.
  do 2 eexists. split_and!; [vm_compute; reflexivity..|].
  apply (aws_zones_stable "10.250.0.0/16" ["a"] ["b"]); vm_compute; reflexivity.
Defined.

(** With an IPv6 CIDR, which is not refused, the distances computed for 32-bit
    addresses are too small: the subnets of all zones are the same block. *)
Example aws_ipv6_overlap :
  generateAWSZones "2001:d00::/24" ["a"; "b"] =
    Ok [mkZone "a" "2001:d00::/27" "2001:d00::20/28" "2001:d00::30/28" None;
        mkZone "b" "2001:d00::40/27" "2001:d00::60/28" "2001:d00::70/28" None] /\
  match ParsePrefix "2001:d00::/27", ParsePrefix "2001:d00::40/27" with
  | Ok p, Ok q => Contains p (pAddr p) && Contains q (pAddr p)
  | _, _ => false
  end = true.
Proof. split; vm_compute; reflexivity. Qed.
