(* ===== verification/ZonesAlicloud.v ===== *)
(** * The zones of Alicloud (alicloud/zones.go)

    One subnet per zone, an eighth of the CIDR each. *)

From S2P Require Import Prelude Sscanf Netip Zones.

Local Open Scope string_scope.
Local Open Scope Z_scope.

(** The extension's v1alpha1.Zone. *)
Record alicloud_Zone := mkZone { zName : string; Workers : string }.

(*@consts src/pkg/gardener/shoot/hyperscaler/alicloud/zones.go:11-15 *)
Definition alicloud_subNetworkBitsSize : Z := 3.
Definition alicloud_cidrLength : Z := 32.
Definition alicloud_maxNumberOfZones : Z := 8.

(*@ src/pkg/gardener/shoot/hyperscaler/alicloud/zones.go:57-77 generateZones *)
Fixpoint alicloudZoneLoop (cidr : Prefix) (workerNetworkPrefixLength delta zoneIPValue : Z)
    (processed : gmap string bool) (zoneNames : list string) : result (list alicloud_Zone) :=
  match zoneNames with
  | [] => Ok []
  | name :: rest =>
      if bool_decide (is_Some (processed !! name))
      then Err (newError ("zone name " +:+ name +:+ " is duplicated"))
      else
        let zoneWorkerIP := addrOfBig zoneIPValue in
        let zoneWorkerCidr := PrefixFrom zoneWorkerIP workerNetworkPrefixLength in
        if negb (Contains cidr (pAddr zoneWorkerCidr)) then
          Err (newError ("calculated subnet CIDR " +:+ PrefixString zoneWorkerCidr +:+
                         " is not contained in main worker CIDR " +:+ PrefixString cidr))
        else
          zones ← alicloudZoneLoop cidr workerNetworkPrefixLength delta (zoneIPValue + delta)
            (<[name := true]> processed) rest;
          Ok (mkZone name (PrefixString zoneWorkerCidr) :: zones)
  end.

(*@ src/pkg/gardener/shoot/hyperscaler/alicloud/zones.go:17-56 generateZones *)
Definition generateZones (workerCidr : string) (zoneNames : list string) : result (list alicloud_Zone) :=
  if alicloud_maxNumberOfZones <? Z.of_nat (length zoneNames)
  then Err (newError "Number of networking zones must be between 0 and 8")
  else
    cidr ← mapErr (wrapError "failed to parse worker network CIDR") (ParsePrefix workerCidr);
    let prefixLength := Bits cidr in
    if 24 <? prefixLength then Err (newError "CIDR prefix length must be less than or equal to 24")
    else if prefixLength <? 16 then Err (newError "CIDR prefix length must be bigger than or equal to 16")
    else
      let workerNetworkPrefixLength := prefixLength + alicloud_subNetworkBitsSize in
      workerPrefix ← AddrPrefix (pAddr cidr) workerNetworkPrefixLength;
      let delta := Z.shiftl 1 (alicloud_cidrLength - workerNetworkPrefixLength) in
      alicloudZoneLoop cidr workerNetworkPrefixLength delta (bigOfAddr (pAddr workerPrefix)) ∅ zoneNames.

Lemma alicloudZoneLoop_row cidr bits delta value processed names :
  alicloudZoneLoop cidr bits delta value processed names =
  row (fun name => newError ("zone name " +:+ name +:+ " is duplicated")) mkZone
    cidr bits delta value processed names.
Proof.
  revert value processed. induction names as [|name names IH]; intros; [done|].
  cbn [alicloudZoneLoop row]. by rewrite IH.
Qed.

Lemma generateZones_row workerCidr a p names :
  ParsePrefix workerCidr = Ok (prefix4 a p) -> 16 <= p <= 24 -> (length names <= 8)%nat ->
  generateZones workerCidr names =
  row (fun name => newError ("zone name " +:+ name +:+ " is duplicated")) mkZone
    (prefix4 a p) (p + 3) (hostSize (p + 3)) (a / hostSize (p + 3) * hostSize (p + 3)) ∅ names.
Proof.
  intros Hparse Hp Hlen. unfold generateZones, alicloud_maxNumberOfZones.
  rewrite (proj2 (Z.ltb_ge 8 _)), Hparse by lia. cbn [mapErr mbind result_bind Bits prefix4 pAddr].
  rewrite (proj2 (Z.ltb_ge 24 p)), (proj2 (Z.ltb_ge p 16)) by lia.
  unfold alicloud_cidrLength, alicloud_subNetworkBitsSize. rewrite block_size by lia. rewrite AddrPrefix_4 by lia.
  cbn [mbind result_bind pAddr prefix4 bigOfAddr addrVal]. by rewrite alicloudZoneLoop_row.
Qed.

Lemma generateZones_bounds workerCidr a p names :
  ParsePrefix workerCidr = Ok (prefix4 a p) -> isOk (generateZones workerCidr names) = true ->
  16 <= p <= 24 /\ (length names <= 8)%nat.
Proof.
  intros Hparse. unfold generateZones, alicloud_maxNumberOfZones.
  destruct (Z.ltb_spec 8 (Z.of_nat (length names))); [done|].
  rewrite Hparse. cbn [mapErr mbind result_bind Bits prefix4].
  destruct (Z.ltb_spec 24 p); [done|]. destruct (Z.ltb_spec p 16); [done|]. lia.
Qed.

Lemma generateZones_sound workerCidr a p names zones :
  ParsePrefix workerCidr = Ok (prefix4 a p) -> generateZones workerCidr names = Ok zones ->
  zName <$> zones = names /\ NoDup names /\ laidOut (prefix4 a p) (Workers <$> zones).
Proof.
  intros Hparse H. destruct (generateZones_bounds _ _ _ names Hparse) as [Hp Hlen]; [by rewrite H|].
  rewrite (generateZones_row _ a p) in H by done.
  apply row_Ok in H as (Hnd & _ & qs & hi & Hc & Hl & -> & Hq); [|lia|lia|by eexists].
  split_and!; [|done|].
  - rewrite fmap_zip_with_l; [done|done|by rewrite length_fmap, Hl].
  - rewrite fmap_zip_with_r; [by eapply chain_laidOut|done|by rewrite length_fmap, Hl].
Qed.

Lemma generateZones_stable workerCidr names more zones zones' :
  generateZones workerCidr names = Ok zones ->
  generateZones workerCidr (names ++ more) = Ok zones' -> zones `prefix_of` zones'.
Proof.
  unfold generateZones. destruct (_ <? _); [done|]. destruct (_ <? _); [done|].
  destruct (mapErr _ (ParsePrefix _)) as [cidr|]; [|done]. cbn [mbind result_bind].
  destruct (24 <? _); [done|]. destruct (_ <? 16); [done|].
  destruct (AddrPrefix _ _); [|done]. cbn [mbind result_bind]. rewrite !alicloudZoneLoop_row.
  intros H (zones0 & H0 & Hpre)%row_app.
  assert (Ok zones = Ok zones0) as [= ->]; [|done]. by etransitivity; [symmetry|].
Qed.

(** generateZones of Alicloud, on an IPv4 CIDR: the zones have the given
    names, which are distinct, and disjoint subnets inside the CIDR; adding zones
    leaves the subnets of the present ones; and a properly masked CIDR is accepted
    exactly when its length is between 16 and 24 and there are at most eight
    distinct names. *)
Theorem alicloud_zones_correct workerCidr a p names :
  ParsePrefix workerCidr = Ok (prefix4 a p) ->
  (forall zones, generateZones workerCidr names = Ok zones ->
     zName <$> zones = names /\ NoDup names /\ laidOut (prefix4 a p) (Workers <$> zones)) /\
  (forall more zones zones', generateZones workerCidr names = Ok zones ->
     generateZones workerCidr (names ++ more) = Ok zones' -> zones `prefix_of` zones') /\
  (Masked (prefix4 a p) = prefix4 a p -> 2 ^ 24 <= a ->
     isOk (generateZones workerCidr names) = true <->
     16 <= p <= 24 /\ (length names <= 8)%nat /\ NoDup names).
Proof.
  intros Hparse. split_and!; [intros zones; by apply generateZones_sound|apply generateZones_stable|].
  intros Hm Ha. pose proof (ParsePrefix_range _ _ _ Hparse) as [[_ ?] _]. split.
  - intros H'. destruct (generateZones_bounds _ _ _ _ Hparse H') as [Hp Hlen].
    apply isOk_true in H' as [zones H']. by apply (generateZones_sound _ a p) in H' as (_ & ? & _).
  - intros (Hp & Hlen & Hnd). rewrite (generateZones_row _ a p) by done.
    destruct (Masked_aligned a p) as (M & HM & Hhi); [lia|done|lia|].
    apply (row_eight _ _ a p M); try done; lia.
Qed.

Lemma alicloud_zones_correct_witness :
  isOk (generateZones "10.250.0.0/24" ["a"; "b"; "c"; "d"; "e"; "f"; "g"; "h"]) = true.
Proof.
  apply (alicloud_zones_correct "10.250.0.0/24" 184156160 24); [vm_compute; reflexivity..|lia|].
  split_and!; [lia..|cbn; lia|]. apply (bool_decide_unpack _). vm_compute. done.
Defined.
