(* ===== verification/ZonesAzure.v ===== *)
(** * The zones of Azure (azure/zones.go, azure/model.go)

    One subnet per zone, an eighth of the CIDR each; zones are numbers. *)

From S2P Require Import Prelude Sscanf Netip Zones.

Local Open Scope string_scope.
Local Open Scope Z_scope.

(*@ src/pkg/gardener/shoot/hyperscaler/azure/model.go:67-74 PublicIPReference *)
Record PublicIPReference := mkPublicIP { ipName : string; ipResourceGroup : string; ipZone : Z }.

(*@ src/pkg/gardener/shoot/hyperscaler/azure/model.go:55-64 NatGateway *)
Record NatGateway := mkNatGateway {
  Enabled : bool;
  IdleConnectionTimeoutMinutes : Z;
  natZone : Z;
  IPAddresses : list PublicIPReference
}.

(*@ src/pkg/gardener/shoot/hyperscaler/azure/model.go:76-87 Zone *)
Record azure_Zone := mkZone {
  zName : Z;
  CIDR : string;
  ServiceEndpoints : list string;
  zNatGateway : option NatGateway
}.

(*@consts src/pkg/gardener/shoot/hyperscaler/azure/zones.go:11-17 *)
Definition defaultConnectionTimeOutMinutes : Z := 4.
Definition azure_subNetworkBitsSize : Z := 3.
Definition azure_cidrLength : Z := 32.
Definition azure_maxNumberOfZones : Z := 8.
Definition azure_minNumberOfZones : Z := 1.

(*@ src/pkg/gardener/shoot/hyperscaler/azure/zones.go:94-109 convertZoneNames *)
Fixpoint convertZoneNames (zoneNames : list string) : result (list Z) :=
  match zoneNames with
  | [] => Ok []
  | inputZone :: rest =>
      zone ← mapErr (wrapError ("failed to convert zone name " +:+ inputZone +:+ " to int")) (Atoi inputZone);
      if (zone <? azure_minNumberOfZones) || (azure_maxNumberOfZones <? zone)
      then Err (newError ("zone name " +:+ inputZone +:+ " is not valid, must be between 1 and 8"))
      else zones ← convertZoneNames rest; Ok (zone :: zones)
  end.

(** A new zone always has a NAT gateway. *)
(*@ src/pkg/gardener/shoot/hyperscaler/azure/zones.go:79-89 generateAzureZones *)
Definition newZone (name : Z) (cidr : string) : azure_Zone :=
  mkZone name cidr [] (Some (mkNatGateway true defaultConnectionTimeOutMinutes 0 [])).

(*@ src/pkg/gardener/shoot/hyperscaler/azure/zones.go:65-92 generateAzureZones *)
Fixpoint azureZoneLoop (cidr : Prefix) (workerNetworkPrefixLength delta zoneIPValue : Z)
    (processed : gmap Z bool) (convertedZones : list Z) : result (list azure_Zone) :=
  match convertedZones with
  | [] => Ok []
  | name :: rest =>
      if bool_decide (is_Some (processed !! name))
      then Err (newError ("zone name " +:+ pretty name +:+ " is duplicated"))
      else
        let zoneWorkerIP := addrOfBig zoneIPValue in
        let zoneWorkerCidr := PrefixFrom zoneWorkerIP workerNetworkPrefixLength in
        if negb (Contains cidr (pAddr zoneWorkerCidr)) then
          Err (newError ("calculated subnet CIDR " +:+ PrefixString zoneWorkerCidr +:+
                         " is not contained in main worker CIDR " +:+ PrefixString cidr))
        else
          zones ← azureZoneLoop cidr workerNetworkPrefixLength delta (zoneIPValue + delta)
            (<[name := true]> processed) rest;
          Ok (newZone name (PrefixString zoneWorkerCidr) :: zones)
  end.

(*@ src/pkg/gardener/shoot/hyperscaler/azure/zones.go:19-64 generateAzureZones *)
Definition generateAzureZones (workerCidr : string) (zoneNames : list string) : result (list azure_Zone) :=
  if azure_maxNumberOfZones <? Z.of_nat (length zoneNames)
  then Err (newError "Number of networking zones must be between 0 and 8")
  else
    cidr ← mapErr (wrapError "failed to parse worker network CIDR") (ParsePrefix workerCidr);
    let prefixLength := Bits cidr in
    if 24 <? prefixLength then Err (newError "CIDR prefix length must be less than or equal to 24")
    else if prefixLength <? 16 then Err (newError "CIDR prefix length must be bigger than or equal to 16")
    else
      let workerNetworkPrefixLength := prefixLength + azure_subNetworkBitsSize in
      workerPrefix ← AddrPrefix (pAddr cidr) workerNetworkPrefixLength;
      let delta := Z.shiftl 1 (azure_cidrLength - workerNetworkPrefixLength) in
      let zoneIPValue := bigOfAddr (pAddr workerPrefix) in
      convertedZones ← mapErr (wrapError "failed to convert zone names") (convertZoneNames zoneNames);
      azureZoneLoop cidr workerNetworkPrefixLength delta zoneIPValue ∅ convertedZones.

Lemma azureZoneLoop_row cidr bits delta value processed names :
  azureZoneLoop cidr bits delta value processed names =
  row (fun name => newError ("zone name " +:+ pretty name +:+ " is duplicated")) newZone
    cidr bits delta value processed names.
Proof.
  revert value processed. induction names as [|name names IH]; intros; [done|].
  cbn [azureZoneLoop row]. by rewrite IH.
Qed.

Lemma azureZoneLoop_names cidr bits delta value processed names zones :
  azureZoneLoop cidr bits delta value processed names = Ok zones ->
  zName <$> zones = names /\ NoDup names /\ forall n, n ∈ names -> processed !! n = None.
Proof.
  revert value processed zones. induction names as [|name names IH]; intros value processed zones; cbn [azureZoneLoop].
  { intros [= <-]. split_and!; [done|constructor|by intros n Hn%not_elem_of_nil]. }
  destruct (processed !! name) eqn:Hs; [by rewrite bool_decide_eq_true_2|].
  rewrite bool_decide_eq_false_2 by (intros [? [=]]). destruct (negb _); [done|].
  intros (rest & (Hn & Hnd & Hf)%IH & [= <-])%result_bind_Ok. cbn. rewrite Hn. split_and!; [done| |].
  - constructor; [|done]. intros Hin. specialize (Hf _ Hin). by rewrite lookup_insert_eq in Hf.
  - intros n [->|Hin]%elem_of_cons; [done|]. specialize (Hf _ Hin). by apply lookup_insert_None in Hf as [? _].
Qed.

Lemma generateAzureZones_names workerCidr names zones :
  generateAzureZones workerCidr names = Ok zones -> NoDup (zName <$> zones).
Proof.
  unfold generateAzureZones. destruct (_ <? _); [done|]. intros (cidr & _ & H)%result_bind_Ok.
  destruct (24 <? _); [done|]. destruct (_ <? 16); [done|].
  apply result_bind_Ok in H as (wp & _ & H). apply result_bind_Ok in H as (ks & _ & H).
  by apply azureZoneLoop_names in H as (-> & ? & _).
Qed.

Lemma convertZoneNames_app names more ks' :
  convertZoneNames (names ++ more) = Ok ks' ->
  exists ks ks2, convertZoneNames names = Ok ks /\ ks' = (ks ++ ks2)%list.
Proof.
  revert ks'. induction names as [|n names IH]; intros ks'; cbn [app convertZoneNames].
  { intros _. by exists [], ks'. }
  intros (k & -> & H)%result_bind_Ok. cbn [mbind result_bind]. destruct (_ || _); [done|].
  apply result_bind_Ok in H as (rest & (ks & ks2 & -> & ->)%IH & [= <-]). cbn [mbind result_bind].
  by exists (k :: ks), ks2.
Qed.

Lemma convertZoneNames_length names ks : convertZoneNames names = Ok ks -> length ks = length names.
Proof.
  revert ks. induction names as [|n names IH]; intros ks; cbn [convertZoneNames]; [by intros [= <-]|].
  intros (k & _ & H)%result_bind_Ok. destruct (_ || _); [done|].
  apply result_bind_Ok in H as (rest & Hr & [= <-]). cbn. by rewrite (IH rest).
Qed.

Lemma generateAzureZones_row workerCidr a p names :
  ParsePrefix workerCidr = Ok (prefix4 a p) -> 16 <= p <= 24 -> (length names <= 8)%nat ->
  generateAzureZones workerCidr names =
  (ks ← mapErr (wrapError "failed to convert zone names") (convertZoneNames names);
   row (fun name => newError ("zone name " +:+ pretty name +:+ " is duplicated")) newZone
     (prefix4 a p) (p + 3) (hostSize (p + 3)) (a / hostSize (p + 3) * hostSize (p + 3)) ∅ ks).
Proof.
  intros Hparse Hp Hlen. unfold generateAzureZones, azure_maxNumberOfZones.
  rewrite (proj2 (Z.ltb_ge 8 _)), Hparse by lia. cbn [mapErr mbind result_bind Bits prefix4 pAddr].
  rewrite (proj2 (Z.ltb_ge 24 p)), (proj2 (Z.ltb_ge p 16)) by lia.
  unfold azure_cidrLength, azure_subNetworkBitsSize. rewrite block_size by lia. rewrite AddrPrefix_4 by lia.
  cbn [mbind result_bind pAddr prefix4 bigOfAddr addrVal].
  destruct (convertZoneNames names); [|done]. cbn [mapErr mbind result_bind]. by rewrite azureZoneLoop_row.
Qed.

Lemma generateAzureZones_bounds workerCidr a p names :
  ParsePrefix workerCidr = Ok (prefix4 a p) -> isOk (generateAzureZones workerCidr names) = true ->
  16 <= p <= 24 /\ (length names <= 8)%nat.
Proof.
  intros Hparse. unfold generateAzureZones, azure_maxNumberOfZones.
  destruct (Z.ltb_spec 8 (Z.of_nat (length names))); [done|].
  rewrite Hparse. cbn [mapErr mbind result_bind Bits prefix4].
  destruct (Z.ltb_spec 24 p); [done|]. destruct (Z.ltb_spec p 16); [done|]. lia.
Qed.

Lemma generateAzureZones_sound workerCidr a p names zones :
  ParsePrefix workerCidr = Ok (prefix4 a p) -> generateAzureZones workerCidr names = Ok zones ->
  convertZoneNames names = Ok (zName <$> zones) /\ NoDup (zName <$> zones) /\
  laidOut (prefix4 a p) (CIDR <$> zones).
Proof.
  intros Hparse H. destruct (generateAzureZones_bounds _ _ _ names Hparse) as [Hp Hlen]; [by rewrite H|].
  rewrite (generateAzureZones_row _ a p) in H by done.
  apply result_bind_Ok in H as (ks & Hks%mapErr_Ok & H).
  apply row_Ok in H as (Hnd & _ & qs & hi & Hc & Hl & -> & Hq); [|lia|lia|by eexists].
  rewrite fmap_zip_with_l, fmap_zip_with_r by (done || by rewrite length_fmap, Hl).
  split_and!; [done..|]. by eapply chain_laidOut.
Qed.

Lemma generateAzureZones_stable workerCidr names more zones zones' :
  generateAzureZones workerCidr names = Ok zones ->
  generateAzureZones workerCidr (names ++ more) = Ok zones' -> zones `prefix_of` zones'.
Proof.
  unfold generateAzureZones. destruct (_ <? _); [done|]. destruct (_ <? _); [done|].
  destruct (mapErr _ (ParsePrefix _)) as [cidr|]; [|done]. cbn [mbind result_bind].
  destruct (24 <? _); [done|]. destruct (_ <? 16); [done|].
  destruct (AddrPrefix _ _); [|done]. cbn [mbind result_bind].
  intros H (ks' & (ks & ks2 & Hks & ->)%mapErr_Ok%convertZoneNames_app & H')%result_bind_Ok.
  rewrite Hks in H. cbn [mapErr mbind result_bind] in H. rewrite !azureZoneLoop_row in H, H'.
  apply row_app in H' as (zones0 & H0 & Hpre).
  assert (Ok zones = Ok zones0) as [= ->]; [|done]. by etransitivity; [symmetry|].
Qed.

(** generateAzureZones, on an IPv4 CIDR: the zones have the numbers the names
    stand for, which are distinct, and disjoint subnets inside the CIDR; adding
    zones leaves the present ones as they are; and a properly masked CIDR is
    accepted exactly when its length is between 16 and 24 and the names are at most
    eight and stand for distinct zones. *)
Theorem azure_zones_correct workerCidr a p names :
  ParsePrefix workerCidr = Ok (prefix4 a p) ->
  (forall zones, generateAzureZones workerCidr names = Ok zones ->
     convertZoneNames names = Ok (zName <$> zones) /\ NoDup (zName <$> zones) /\
     laidOut (prefix4 a p) (CIDR <$> zones)) /\
  (forall more zones zones', generateAzureZones workerCidr names = Ok zones ->
     generateAzureZones workerCidr (names ++ more) = Ok zones' -> zones `prefix_of` zones') /\
  (Masked (prefix4 a p) = prefix4 a p -> 2 ^ 24 <= a ->
     isOk (generateAzureZones workerCidr names) = true <->
     16 <= p <= 24 /\ (length names <= 8)%nat /\ exists ks, convertZoneNames names = Ok ks /\ NoDup ks).
Proof.
  intros Hparse. split_and!; [intros zones; by apply generateAzureZones_sound|apply generateAzureZones_stable|].
  intros Hm Ha. pose proof (ParsePrefix_range _ _ _ Hparse) as [[_ ?] _]. split.
  - intros H'. destruct (generateAzureZones_bounds _ _ _ _ Hparse H') as [Hp Hlen].
    apply isOk_true in H' as [zones H']. apply (generateAzureZones_sound _ a p) in H' as (? & ? & _); eauto.
  - intros (Hp & Hlen & ks & Hks & Hnd). rewrite (generateAzureZones_row _ a p), Hks by done.
    destruct (Masked_aligned a p) as (M & HM & Hhi); [lia|done|lia|].
    apply convertZoneNames_length in Hks. apply (row_eight _ _ a p M); try done; lia.
Qed.

Lemma azure_zones_correct_witness :
  isOk (generateAzureZones "10.250.0.0/16" ["2"; "1"; "3"]) = true.
Proof.
  apply (azure_zones_correct "10.250.0.0/16" 184156160 16); [vm_compute; reflexivity..|lia|].
  split_and!; [lia..|cbn; lia|]. exists [2; 1; 3]. split; [vm_compute; reflexivity|].
  apply (bool_decide_unpack _). vm_compute. done.
Defined.
