(* ===== verification/ZonesGdch.v ===== *)
(** * The zones of GDCH (gdch/zones.go, gdch/model.go)

    One to three zones share the whole CIDR; addresses are added byte by byte. *)

From S2P Require Import Prelude Sscanf Netip Zones.

Local Open Scope string_scope.
Local Open Scope Z_scope.

(*@ src/pkg/gardener/shoot/hyperscaler/gdch/model.go:21-24 Zone *)
Record gdch_Zone := mkZone { zName : string; CIDR : string }.

(*@consts src/pkg/gardener/shoot/hyperscaler/gdch/zones.go:9-19 *)
Definition minZoneCount : nat := 1.
Definition maxZoneCount : nat := 3.
Definition errInvalidCIDR : GoError := newError "invalid nodeCIDR: must be a parseable IPv4 CIDR".
Definition errInvalidZoneCount : GoError := newError "zone count must be between 1 and 3".
Definition errDuplicateZone : GoError := newError "zone names must be unique".
Definition errCIDRTooSmall : GoError := newError "nodeCIDR prefix too small for requested zone count".

(*@ src/pkg/gardener/shoot/hyperscaler/gdch/zones.go:21-32 subnetShiftForZoneCount *)
Definition subnetShiftForZoneCount (n : nat) : Z :=
  match n with
  | 1%nat => 0
  | 2%nat => 1
  | 3%nat => 2
  | _ => 0
  end.

(** The loop over the bytes of the address, the last one first. *)
(*@ src/pkg/gardener/shoot/hyperscaler/gdch/zones.go:75-82 addAddrOffset *)
Fixpoint addCarry (bytes : list Z) (carry : Z) : list Z :=
  match bytes with
  | [] => []
  | b :: rest =>
      if 0 <? carry then
        let sum := b + Z.land carry 255 in
        sum mod 256 :: addCarry rest (Z.shiftr carry 8 + Z.shiftr sum 8)
      else bytes
  end.

(** On the value of an IPv4 address; the callers have no other. *)
(*@ src/pkg/gardener/shoot/hyperscaler/gdch/zones.go:74-83 addAddrOffset *)
Definition addAddrOffset (a offset : Z) : Z :=
  bytesVal (rev (addCarry [octet a 0; octet a 1; octet a 2; octet a 3] offset)).

(*@ src/pkg/gardener/shoot/hyperscaler/gdch/zones.go:59-72 generateGDCHZones *)
Fixpoint gdchZoneLoop (newBits step addr : Z) (processed : gmap string unit) (zoneNames : list string) :
    result (list gdch_Zone) :=
  match zoneNames with
  | [] => Ok []
  | name :: rest =>
      if bool_decide (is_Some (processed !! name))
      then Err (wrapError (quote name +:+ " repeated") errDuplicateZone)
      else
        zones ← gdchZoneLoop newBits step (addAddrOffset addr step) (<[name := tt]> processed) rest;
        Ok (mkZone name (PrefixString (PrefixFrom (Addr4 addr) newBits)) :: zones)
  end.

(*@ src/pkg/gardener/shoot/hyperscaler/gdch/zones.go:34-58 generateGDCHZones *)
Definition generateGDCHZones (nodeCIDR : string) (zoneNames : list string) : result (list gdch_Zone) :=
  let n := length zoneNames in
  if (n <? minZoneCount)%nat || (maxZoneCount <? n)%nat
  then Err (wrapError ("got " +:+ pretty (Z.of_nat n)) errInvalidZoneCount)
  else
    match ParsePrefix nodeCIDR with
    | Err _ => Err (wrapError nodeCIDR errInvalidCIDR)
    | Ok prefix =>
        if negb (Is4 (pAddr prefix)) then Err (wrapError (nodeCIDR +:+ " is not IPv4") errInvalidCIDR)
        else
          let shift := subnetShiftForZoneCount n in
          let newBits := Bits prefix + shift in
          if 32 <? newBits
          then Err (wrapError ("prefix /" +:+ pretty (Bits prefix) +:+ " too small for " +:+
                               pretty (Z.of_nat n) +:+ " zones") errCIDRTooSmall)
          else
            let step := Z.shiftl 1 (32 - newBits) mod 2 ^ 32 in
            let addr := addrVal (pAddr (Masked prefix)) in
            gdchZoneLoop newBits step addr ∅ zoneNames
    end.

Example gdch_example : generateGDCHZones "10.250.0.0/16" ["a"; "b"] =
  Ok [mkZone "a" "10.250.0.0/17"; mkZone "b" "10.250.128.0/17"].
Proof. vm_compute. reflexivity. Qed.

(** Bytes, least significant first. *)
Fixpoint leVal (l : list Z) : Z :=
  match l with [] => 0 | b :: l' => b + 256 * leVal l' end.

Lemma leVal_bytesVal l : bytesVal (rev l) = leVal l.
Proof.
  unfold bytesVal. rewrite <- fold_left_rev_right, rev_involutive.
  induction l as [|b l IH]; cbn; [done|]. rewrite IH. lia.
Qed.

Lemma leVal_bound l : Forall (fun b => 0 <= b < 256) l -> 0 <= leVal l < 256 ^ Z.of_nat (length l).
Proof.
  induction 1 as [|b l Hb Hl IH]; [cbn; lia|]. cbn [leVal length].
  rewrite Nat2Z.inj_succ, Z.pow_succ_r by lia. lia.
Qed.

(** One step of addition with carry. *)
Lemma carry_step b l c P s :
  0 < P -> s = b + c mod 256 ->
  s mod 256 + 256 * ((l + (c / 256 + s / 256)) mod P) = (b + 256 * l + c) mod (256 * P).
Proof.
  intros HP Hs. rewrite Z.rem_mul_r by lia.
  assert (b + 256 * l + c = s + (l + c / 256) * 256) as -> by (subst s; pose proof (Z.div_mod c 256); lia).
  rewrite Z.mod_add, Z.div_add by lia. do 3 f_equal. lia.
Qed.

(** The loop with its carry is addition modulo the size of the address. *)
Lemma addCarry_value l c :
  Forall (fun b => 0 <= b < 256) l -> 0 <= c ->
  leVal (addCarry l c) = (leVal l + c) mod 256 ^ Z.of_nat (length l).
Proof.
  intros Hl. revert c. induction Hl as [|b l Hb Hl IH]; intros c Hc; [by rewrite Z.mod_1_r|].
  pose proof (leVal_bound l Hl) as Hbound. cbn [addCarry].
  assert (0 < 256 ^ Z.of_nat (length l)) as Hpos by (apply Z.pow_pos_nonneg; lia).
  destruct (Z.ltb_spec 0 c) as [Hc0|Hc0].
  - rewrite Z.land_ones with (n := 8), !Z.shiftr_div_pow2 by lia. change (2 ^ 8) with 256.
    pose proof (Z.mod_pos_bound c 256 ltac:(lia)).
    cbn [leVal length]. rewrite IH by (apply Z.add_nonneg_nonneg; apply Z.div_pos; lia).
    rewrite Nat2Z.inj_succ, Z.pow_succ_r by lia. by apply carry_step.
  - assert (c = 0) as -> by lia. rewrite Z.add_0_r, Z.mod_small; [done|].
    cbn [leVal length]. rewrite Nat2Z.inj_succ, Z.pow_succ_r by lia. lia.
Qed.

Lemma addAddrOffset_add a offset :
  isAddr4 a -> 0 <= offset -> addAddrOffset a offset = (a + offset) mod 2 ^ 32.
Proof.
  intros Ha Ho. unfold addAddrOffset. rewrite leVal_bytesVal, addCarry_value; [|repeat constructor; apply octet_range|done].
  change (256 ^ _) with (2 ^ 32). do 2 f_equal.
  etransitivity; [symmetry; exact (leVal_bytesVal [octet a 0; octet a 1; octet a 2; octet a 3])|].
  by apply octets_value.
Qed.

Lemma gdchZoneLoop_ok newBits step addr processed names :
  isOk (gdchZoneLoop newBits step addr processed names) = true <->
  NoDup names /\ forall n, n ∈ names -> processed !! n = None.
Proof.
  revert addr processed. induction names as [|name names IH]; intros addr processed.
  { split; [|done]. intros _. split; [constructor|by intros n Hn%not_elem_of_nil]. }
  cbn [gdchZoneLoop]. rewrite NoDup_cons. setoid_rewrite elem_of_cons.
  destruct (processed !! name) eqn:Hs.
  { rewrite bool_decide_eq_true_2 by done. split; [done|]. intros [_ Hf].
    rewrite (Hf name) in Hs by (by left). done. }
  rewrite bool_decide_eq_false_2 by (intros [? [=]]).
  transitivity (isOk (gdchZoneLoop newBits step (addAddrOffset addr step) (<[name:=tt]> processed) names) = true).
  { by destruct (gdchZoneLoop _ _ _ _ _). }
  rewrite IH. split.
  - intros [Hnd Hf]. split; [split; [|done]|].
    + intros Hin. specialize (Hf _ Hin). by rewrite lookup_insert_eq in Hf.
    + intros n [->|Hn]; [done|]. specialize (Hf _ Hn). by apply lookup_insert_None in Hf as [? _].
  - intros [[Hn Hnd] Hf]. split; [done|]. intros n Hn'.
    rewrite lookup_insert_ne by (by intros ->). apply Hf. by right.
Qed.

Lemma gdchZoneLoop_subnets a p newBits addr processed names zones :
  0 <= p <= newBits -> newBits <= 32 -> isAddr4 a ->
  (names <> [] -> exists m, addr = m * hostSize newBits /\ a / hostSize p * hostSize p <= addr /\
     addr + Z.of_nat (length names) * hostSize newBits <= a / hostSize p * hostSize p + hostSize p) ->
  a / hostSize p * hostSize p + hostSize p <= 2 ^ 32 -> 
  gdchZoneLoop newBits (hostSize newBits mod 2 ^ 32) addr processed names = Ok zones ->
  zName <$> zones = names /\
  exists qs hi, chain addr qs hi /\ CIDR <$> zones = PrefixString <$> qs /\
    Forall (fun q => within (prefix4 a p) q /\ isAddr4 (addrVal (pAddr q))) qs.
Proof.
  intros Hp Hb Ha. pose proof (hostSize_pos newBits Hb). pose proof (hostSize_pos p ltac:(lia)).
  assert (0 <= a / hostSize p) by (apply Z.div_pos; unfold isAddr4 in Ha; lia).
  revert addr processed zones. induction names as [|name names IH]; intros addr processed zones Hfit Htop.
  { intros [= <-]. split; [done|]. exists [], addr. split_and!; [cbn; lia|done|constructor]. }
  cbn [gdchZoneLoop]. destruct (bool_decide _); [done|].
  destruct Hfit as (m & Hm & Hlo & Hhi); [done|]. cbn [length] in Hhi.
  assert (names <> [] -> 1 <= Z.of_nat (length names)) as Hlen by (destruct names; cbn; [done|lia]).
  assert (names <> [] -> addAddrOffset addr (hostSize newBits mod 2 ^ 32) = addr + hostSize newBits) as Hnext.
  { intros Hne%Hlen. rewrite (Z.mod_small (hostSize newBits)), addAddrOffset_add, Z.mod_small;
      unfold isAddr4; nia. }
  intros (rest & Hrest & [= <-])%result_bind_Ok.
  apply IH in Hrest as (Hn & qs & hi & Hc & Ht & Hq); [|clear IH|done].
  2: { intros Hne. rewrite Hnext by done. apply Hlen in Hne. exists (m + 1). split_and!; nia. }
  clear IH.
  split; [cbn; by rewrite Hn|]. rewrite PrefixFrom_4 by lia.
  assert (exists hi', chain (addr + hostSize newBits) qs hi') as [hi' Hc'].
  { destruct names as [|n names]; [|exists hi; by rewrite <- Hnext].
    destruct rest; [|done]. destruct qs; [|done]. exists (addr + hostSize newBits). cbn. lia. }
  exists (prefix4 addr newBits :: qs), hi'. split_and!.
  - exists m, newBits. rewrite <- Hm. split_and!; [done|lia..|done].
  - cbn. by rewrite Ht.
  - constructor; [|done]. split; [|cbn; unfold isAddr4; nia].
    eapply within4; [done|lia|lia|]. apply Contains4; [lia|]. symmetry.
    apply (Z.div_unique _ _ _ (addr - a / hostSize p * hostSize p)); [left; nia|lia].
Qed.

Lemma Masked_start a p :
  0 <= p <= 32 -> addrVal (pAddr (Masked (prefix4 a p))) = a / hostSize p * hostSize p.
Proof. intros Hp. unfold Masked, prefix4 at 1. cbn [pAddr Bits]. by rewrite AddrPrefix_4. Qed.

Lemma blocks_fit p n :
  0 <= p -> (1 <= n <= 3)%nat -> p + subnetShiftForZoneCount n <= 32 ->
  p <= p + subnetShiftForZoneCount n /\
  exists k, hostSize p = k * hostSize (p + subnetShiftForZoneCount n) /\ Z.of_nat n <= k.
Proof.
  intros Hp Hn. assert (n = 1 \/ n = 2 \/ n = 3)%nat as [-> | [-> | ->]] by lia; cbn; intros Hb; (split; [lia|]).
  - exists 1. rewrite Z.add_0_r. lia.
  - exists 2. rewrite (hostSize_split p 1) by lia. lia.
  - exists 4. rewrite (hostSize_split p 2) by lia. lia.
Qed.

(** generateGDCHZones, on an IPv4 CIDR: it succeeds exactly when there are one
    to three distinct names and the CIDR can be split that often; the zones then
    have these names and disjoint subnets inside the CIDR. *)
Theorem gdch_zones_correct nodeCIDR a p names :
  ParsePrefix nodeCIDR = Ok (prefix4 a p) ->
  (isOk (generateGDCHZones nodeCIDR names) = true <->
     (1 <= length names <= 3)%nat /\ p + subnetShiftForZoneCount (length names) <= 32 /\ NoDup names) /\
  (forall zones, generateGDCHZones nodeCIDR names = Ok zones ->
     zName <$> zones = names /\ laidOut (prefix4 a p) (CIDR <$> zones)).
Proof.
  intros Hparse. destruct (ParsePrefix_range _ _ _ Hparse) as [Ha Hp].
  unfold generateGDCHZones, minZoneCount, maxZoneCount. rewrite Hparse.
  rewrite Masked_start by done. cbn [prefix4 pAddr Is4 negb Bits].
  destruct (Nat.ltb_spec (length names) 1); [split; [split; [done|lia]|done]|].
  destruct (Nat.ltb_spec 3 (length names)); [split; [split; [done|lia]|done]|]. cbn [orb].
  destruct (Z.ltb_spec 32 (p + subnetShiftForZoneCount (length names))) as [|Hbits];
    [split; [split; [done|lia]|done]|].
  destruct (blocks_fit p (length names)) as [Hge (k & Hk & Hn)]; [lia..|].
  replace (Z.shiftl 1 _) with (hostSize (p + subnetShiftForZoneCount (length names)))
    by (unfold hostSize; rewrite Z.shiftl_mul_pow2; lia).
  split.
  - rewrite gdchZoneLoop_ok. setoid_rewrite lookup_empty. split; [intros [? _]; done|].
    intros (_ & _ & ?). done.
  - intros zones Hz. pose proof (hostSize_pos _ Hbits). pose proof (hostSize_pos p ltac:(lia)).
    destruct (Masked_block a p) as [Hlo Htop]; [done..|].
    apply (gdchZoneLoop_subnets a p) in Hz as (? & qs & hi & Hc & -> & Hq); [|lia|done|done| |done].
    + split; [done|]. by eapply chain_laidOut.
    + intros _. exists (a / hostSize p * k). rewrite <- Z.mul_assoc, <- Hk. split_and!; [done|lia|].
      apply Z.add_le_mono_l. rewrite Hk. by apply Z.mul_le_mono_nonneg_r; [lia|].
Qed.

Lemma gdch_zones_correct_witness :
  isOk (generateGDCHZones "10.250.0.0/30" ["a"; "b"; "c"]) = true.
Proof.
  apply (gdch_zones_correct "10.250.0.0/30" 184156160 30); [vm_compute; reflexivity|].
  split_and!; [cbn; lia..|]. apply (bool_decide_unpack _). vm_compute. done.
Defined.

(** Unlike on the other hyperscalers, a further zone moves the present ones. *)
Example gdch_zones_move :
  generateGDCHZones "10.250.0.0/16" ["a"] = Ok [mkZone "a" "10.250.0.0/16"] /\
  generateGDCHZones "10.250.0.0/16" ["a"; "b"] =
    Ok [mkZone "a" "10.250.0.0/17"; mkZone "b" "10.250.128.0/17"].
Proof. split; vm_compute; reflexivity. Qed.
