(* ===== verification/MaxPods.v ===== *)
(** * Pod limits of workers (extender/workers/maxpods/maxpods.go)

    The number of pod addresses of a CIDR, the limit per node, and the clamping of
    the workers' maxPods to the size of the pod network.  The workers are changed
    in place also when the clamping fails. *)

From S2P Require Import Prelude Gardener Sscanf Netip.

Local Open Scope string_scope.
Local Open Scope Z_scope.

Definition MaxInt32 : Z := 2 ^ 31 - 1.

(*@ src/pkg/gardener/shoot/extender/workers/maxpods/maxpods.go:34-62 MaxPodsFromCIDR *)
Definition MaxPodsFromCIDR (podsCIDR : string) : result Z :=
  prefix ← mapErr (wrapError "failed to parse pods CIDR") (ParsePrefix podsCIDR);
  let bits := Bits prefix in
  if Is4 (pAddr prefix) then
    if (bits <? 2) || (32 <? bits)
    then Err (newError ("pods CIDR mask must be between 2 and 32 for IPv4, got " +:+ pretty bits))
    else if bits =? 32 then Ok 1
    else if bits =? 31 then Ok 2
    else
      let count := (Z.shiftl 1 (32 - bits) - 2) mod 2 ^ 64 in
      if MaxInt32 <? count then Ok MaxInt32 else Ok count
  else Err (newError "maxPods calculation supports IPv4 only, got IPv6 CIDR").

(*@consts src/pkg/gardener/shoot/extender/workers/maxpods/maxpods.go:63-65 *)
Definition CanonicalPodsCIDRSlash24 : string := "0.0.0.0/24".

(** [w.Kubernetes.Kubelet.MaxPods = ptr.To(v)], where neither pointer is nil. *)
Definition setMaxPods (w : Worker) (v : Z) : Worker :=
  match wKubernetes w with
  | Some k =>
      match wkKubelet k with
      | Some l =>
          worker_with_kubernetes w
            (Some (mkWorkerKubernetes (Some (mkKubelet (Some v) (kubeletFeatureGates l) (kubeletRest l)))
                     (wkRest k)))
      | None => w
      end
  | None => w
  end.

(*@ src/pkg/gardener/shoot/extender/workers/maxpods/maxpods.go:70-80 ApplyPerNodeMaxPodsCap *)
Fixpoint ApplyPerNodeMaxPodsCap (workers : list Worker) (perNodeLimit : Z) : list Worker :=
  match workers with
  | [] => []
  | w :: rest =>
      match wMaxPods w with
      | None => w
      | Some m => if perNodeLimit <? m then setMaxPods w perNodeLimit else w
      end :: ApplyPerNodeMaxPodsCap rest perNodeLimit
  end.

(** The loop from index [i] on. *)
(*@ src/pkg/gardener/shoot/extender/workers/maxpods/maxpods.go:112-121 collectMaxPodsIndices *)
Fixpoint collectMaxPodsFrom (i : nat) (sum : Z) (workers : list Worker) : Z * list nat :=
  match workers with
  | [] => (sum, [])
  | w :: rest =>
      match wMaxPods w with
      | Some m =>
          let '(total, indices) := collectMaxPodsFrom (S i) (int64 (sum + m)) rest in
          (total, i :: indices)
      | None => collectMaxPodsFrom (S i) sum rest
      end
  end.

(*@ src/pkg/gardener/shoot/extender/workers/maxpods/maxpods.go:111-122 collectMaxPodsIndices *)
Definition collectMaxPodsIndices (workers : list Worker) : Z * list nat := collectMaxPodsFrom 0 0 workers.

(** The worker, whose maxPods is [current], and the reduction. *)
(*@ src/pkg/gardener/shoot/extender/workers/maxpods/maxpods.go:126-134 reduceWorkerMaxPods *)
Definition reduceWorkerMaxPods (w : Worker) (current excess : Z) : Worker * Z :=
  if current <=? 1 then (w, 0)
  else
    let reduction := Z.min excess (int32 (current - 1)) in
    (setMaxPods w (int32 (current - int32 reduction)), reduction).

(** The loop over the indices, the last one first.  [None] is the panic of an index
    that is out of range or of a worker without maxPods. *)
(*@ src/pkg/gardener/shoot/extender/workers/maxpods/maxpods.go:98-102 ApplyMaxPodsWithTotalCap *)
Fixpoint reduceLoop (workers : list Worker) (excess : Z) (indices : list nat) : option (list Worker * Z) :=
  match indices with
  | [] => Some (workers, excess)
  | i :: rest =>
      if 0 <? excess then
        worker ← workers !! i;
        current ← wMaxPods worker;
        let '(worker', reduction) := reduceWorkerMaxPods worker current excess in
        reduceLoop (<[i := worker']> workers) (excess - reduction) rest
      else Some (workers, excess)
  end.

(*@ src/pkg/gardener/shoot/extender/workers/maxpods/maxpods.go:89-107 ApplyMaxPodsWithTotalCap *)
Definition ApplyMaxPodsWithTotalCap (workers : list Worker) (totalIPs : Z) :
    option (list Worker * option GoError) :=
  if totalIPs <? 1
  then Some (workers, Some (newError ("totalIPs must be at least 1, got " +:+ pretty totalIPs)))
  else
    let '(currentSum, indicesWithMaxPods) := collectMaxPodsIndices workers in
    if currentSum <=? totalIPs then Some (workers, None)
    else
      '(workers, excess) ← reduceLoop workers (int64 (currentSum - totalIPs)) (rev indicesWithMaxPods);
      if 0 <? excess
      then Some (workers, Some (newError ("cannot satisfy maxPods constraint: " +:+
              pretty (Z.of_nat (length indicesWithMaxPods)) +:+
              " workers with maxPods set (minimum 1 each) exceed totalIPs " +:+ pretty totalIPs)))
      else Some (workers, None).

(** ** The size of a pod network *)

(** C29. MaxPodsFromCIDR: an IPv4 CIDR shorter than two bits is refused; of any
    other the result is the number of its addresses, less the network and the
    broadcast address unless it is one of the two longest.  The result is at most
    2^30 - 2: the cap at the largest int32 never applies. *)
Theorem MaxPodsFromCIDR_correct podsCIDR a p :
  ParsePrefix podsCIDR = Ok (prefix4 a p) ->
  (isOk (MaxPodsFromCIDR podsCIDR) = true <-> 2 <= p) /\
  forall n, MaxPodsFromCIDR podsCIDR = Ok n ->
    n = (if p <=? 30 then hostSize p - 2 else hostSize p) /\ 1 <= n <= 2 ^ 30 - 2.
Proof.
  intros Hparse. destruct (ParsePrefix_range _ _ _ Hparse) as [_ Hp].
  unfold MaxPodsFromCIDR. rewrite Hparse. cbn [mapErr mbind result_bind prefix4 pAddr Is4 Bits].
  rewrite (proj2 (Z.ltb_ge 32 p)), orb_false_r by lia.
  destruct (Z.ltb_spec p 2); [split; [split; [done|lia]|done]|].
  destruct (Z.eqb_spec p 32) as [->|]; [split; [split; [lia|done]|]; intros r [= <-]; by vm_compute|].
  destruct (Z.eqb_spec p 31) as [->|]; [split; [split; [lia|done]|]; intros r [= <-]; by vm_compute|].
  rewrite Z.shiftl_mul_pow2, Z.mul_1_l by lia. fold (hostSize p).
  assert (4 <= hostSize p <= 2 ^ 30).
  { unfold hostSize. split; [change 4 with (2 ^ 2)|]; apply Z.pow_le_mono_r; lia. }
  rewrite Z.mod_small by lia. unfold MaxInt32.
  rewrite (proj2 (Z.ltb_ge _ _)) by lia. rewrite (proj2 (Z.leb_le p 30)) by lia.
  split; [split; [lia|done]|]. intros r [= <-]. lia.
Qed.

Lemma MaxPodsFromCIDR_correct_witness : 1 <= 254 <= 2 ^ 30 - 2.
Proof.
  apply (MaxPodsFromCIDR_correct CanonicalPodsCIDRSlash24 0 24); vm_compute; reflexivity.
Defined.

(** ** The limit per node *)

(** Two workers that differ at most in maxPods. *)
Definition sameButMaxPods (w w' : Worker) : Prop := w' = w \/ exists v, w' = setMaxPods w v.

Lemma wMaxPods_set w m v : wMaxPods w = Some m -> wMaxPods (setMaxPods w v) = Some v.
Proof.
  unfold wMaxPods, setMaxPods. destruct (wKubernetes w) as [k|]; [|done]. cbn.
  destruct (wkKubelet k); done.
Qed.

Lemma setMaxPods_set w m u v : wMaxPods w = Some m -> setMaxPods (setMaxPods w u) v = setMaxPods w v.
Proof.
  unfold wMaxPods, setMaxPods. destruct (wKubernetes w) as [k|]; [|done]. cbn.
  destruct (wkKubelet k); done.
Qed.

(** ApplyPerNodeMaxPodsCap: every worker that has maxPods gets the smaller of
    it and the limit, and nothing else of any worker changes. *)
Theorem ApplyPerNodeMaxPodsCap_correct workers limit :
  Forall2 sameButMaxPods workers (ApplyPerNodeMaxPodsCap workers limit) /\
  (wMaxPods <$> ApplyPerNodeMaxPodsCap workers limit) = (fmap (Z.min limit) ∘ wMaxPods) <$> workers.
Proof.
  induction workers as [|w workers [IH1 IH2]]; [split; [constructor|done]|].
  cbn [ApplyPerNodeMaxPodsCap]. rewrite !fmap_cons, IH2. unfold compose at 2.
  destruct (wMaxPods w) as [m|] eqn:E; [destruct (Z.ltb_spec limit m)|].
  - split; [constructor; [right; eauto|done]|]. f_equal. rewrite (wMaxPods_set w m) by done.
    cbn. f_equal. lia.
  - split; [constructor; [by left|done]|]. f_equal. rewrite E. cbn. f_equal. lia.
  - split; [constructor; [by left|done]|]. by rewrite E.
Qed.

(** ** The total *)

(** The pods of all workers that have a limit, and the least they can be reduced
    to: one each, except for limits that are below one already. *)
Definition sumPods (workers : list Worker) : Z := foldr Z.add 0 (omap wMaxPods workers).
Definition floorPods (workers : list Worker) : Z := foldr Z.add 0 (Z.min 1 <$> omap wMaxPods workers).

(** maxPods is an int32 in the code. *)
Definition podsInt32 (workers : list Worker) : Prop :=
  Forall (fun m => - 2 ^ 31 <= m < 2 ^ 31) (omap wMaxPods workers).

Lemma sumPods_cons w ws : sumPods (w :: ws) = default 0 (wMaxPods w) + sumPods ws.
Proof. unfold sumPods. cbn. by destruct (wMaxPods w). Qed.

Lemma floorPods_cons w ws : floorPods (w :: ws) = default 0 (Z.min 1 <$> wMaxPods w) + floorPods ws.
Proof. unfold floorPods. cbn. by destruct (wMaxPods w). Qed.

Lemma podsInt32_cons w ws :
  podsInt32 (w :: ws) <-> (forall m, wMaxPods w = Some m -> - 2 ^ 31 <= m < 2 ^ 31) /\ podsInt32 ws.
Proof.
  unfold podsInt32. cbn. destruct (wMaxPods w) as [m|]; [rewrite Forall_cons|]; naive_solver.
Qed.

(** The workers that have maxPods, from index [i] on. *)
Fixpoint podIndices (i : nat) (ws : list Worker) : list nat :=
  match ws with
  | [] => []
  | w :: rest =>
      match wMaxPods w with
      | Some _ => i :: podIndices (S i) rest
      | None => podIndices (S i) rest
      end
  end.

(** The sum does not overflow. *)
Lemma collectMaxPodsFrom_spec i sum ws :
  podsInt32 ws -> - 2 ^ 62 <= sum - 2 ^ 31 * Z.of_nat (length ws) ->
  sum + 2 ^ 31 * Z.of_nat (length ws) <= 2 ^ 62 ->
  collectMaxPodsFrom i sum ws = (sum + sumPods ws, podIndices i ws).
Proof.
  revert i sum. induction ws as [|w ws IH]; intros i sum H Hlo Hhi.
  { cbn. by rewrite Z.add_0_r. }
  apply podsInt32_cons in H as [Hm H]. rewrite sumPods_cons.
  cbn [collectMaxPodsFrom podIndices length] in *. destruct (wMaxPods w) as [m|]; cbn [default from_option id].
  - specialize (Hm m eq_refl). rewrite int64_small by lia. rewrite IH by (done || lia).
    f_equal. lia.
  - rewrite IH by (done || lia). done.
Qed.

(** The same from the structure of the list: first the workers after the head. *)
Fixpoint clampBack (e : Z) (ws : list Worker) : list Worker * Z :=
  match ws with
  | [] => ([], e)
  | w :: rest =>
      let '(rest', e') := clampBack e rest in
      match wMaxPods w with
      | Some m =>
          if 0 <? e' then let '(w', r) := reduceWorkerMaxPods w m e' in (w' :: rest', e' - r)
          else (w :: rest', e')
      | None => (w :: rest', e')
      end
  end.

Lemma podIndices_S i ws : podIndices (S i) ws = S <$> podIndices i ws.
Proof.
  revert i. induction ws as [|w ws IH]; intros i; cbn; [done|].
  destruct (wMaxPods w); cbn; by rewrite IH.
Qed.

Lemma reduceLoop_shift w ws e idx :
  reduceLoop (w :: ws) e (S <$> idx) = prod_map (cons w) id <$> reduceLoop ws e idx.
Proof.
  revert ws e. induction idx as [|i idx IH]; intros ws e; [done|].
  rewrite fmap_cons. cbn [reduceLoop]. destruct (0 <? e); [|done].
  change ((w :: ws) !! S i) with (ws !! i).
  destruct (ws !! i) as [v|]; [|done]. cbn [mbind option_bind]. destruct (wMaxPods v) as [m|]; [|done].
  cbn [mbind option_bind]. destruct (reduceWorkerMaxPods v m e) as [v' r].
  change (<[S i := v']> (w :: ws)) with (w :: <[i := v']> ws). by rewrite IH.
Qed.

Lemma reduceLoop_app ws e a b :
  reduceLoop ws e (a ++ b) = '(ws', e') ← reduceLoop ws e a; reduceLoop ws' e' b.
Proof.
  revert ws e. induction a as [|i a IH]; intros ws e; [done|]. cbn [app reduceLoop].
  destruct (0 <? e) eqn:E.
  - destruct (ws !! i) as [v|]; [|done]. cbn [mbind option_bind].
    destruct (wMaxPods v) as [m|]; [|done]. cbn [mbind option_bind].
    destruct (reduceWorkerMaxPods v m e) as [v' r]. apply IH.
  - cbn [mbind option_bind]. destruct b as [|j b]; cbn [reduceLoop]; [done|]. by rewrite E.
Qed.

(** The loop never panics and is the structural recursion. *)
Lemma reduceLoop_clamp ws e : reduceLoop ws e (rev (podIndices 0 ws)) = Some (clampBack e ws).
Proof.
  revert e. induction ws as [|w ws IH]; intros e; [done|]. cbn [clampBack podIndices].
  rewrite podIndices_S. specialize (IH e). destruct (clampBack e ws) as [ws' e'].
  assert (reduceLoop (w :: ws) e (rev (S <$> podIndices 0 ws)) = Some (w :: ws', e')) as Hrest.
  { change (rev (S <$> podIndices 0 ws)) with (rev (map S (podIndices 0 ws))). rewrite <- map_rev.
    change (map S ?l) with (S <$> l). by rewrite reduceLoop_shift, IH. }
  destruct (wMaxPods w) as [m|] eqn:E; [|done]. cbn [rev]. rewrite reduceLoop_app, Hrest.
  cbn [mbind option_bind reduceLoop]. destruct (0 <? e'); [|done].
  change ((w :: ws') !! 0%nat) with (Some w). cbn [mbind option_bind]. rewrite E.
  cbn [mbind option_bind]. by destruct (reduceWorkerMaxPods w m e').
Qed.

(** ** What the clamping achieves *)

Lemma reduceWorkerMaxPods_spec w m e w' r :
  - 2 ^ 31 <= m < 2 ^ 31 -> 0 < e -> wMaxPods w = Some m -> reduceWorkerMaxPods w m e = (w', r) ->
  r = Z.min e (Z.max 0 (m - 1)) /\ wMaxPods w' = Some (m - r) /\ sameButMaxPods w w'.
Proof.
  intros Hm He Hw. unfold reduceWorkerMaxPods. destruct (Z.leb_spec m 1); intros [= <- <-].
  - split_and!; [lia| |by left]. rewrite Hw. f_equal. lia.
  - rewrite (int32_small (m - 1)), (int32_small (Z.min _ _)), int32_small by lia.
    split_and!; [lia| |right; eauto]. by apply (wMaxPods_set _ m).
Qed.

(** The relation between the workers before and after: pods are only taken away,
    not below one, and from a worker only when those after it have none to spare. *)
Inductive clamped : list Worker -> list Worker -> Prop :=
| clamped_nil : clamped [] []
| clamped_cons w w' ws ws' :
    sameButMaxPods w w' ->
    (forall m, wMaxPods w = Some m ->
       exists m', wMaxPods w' = Some m' /\ Z.min 1 m <= m' <= m /\
         (m' < m -> Forall (fun m => m <= 1) (omap wMaxPods ws'))) ->
    (wMaxPods w = None -> w' = w) ->
    clamped ws ws' -> clamped (w :: ws) (w' :: ws').

Lemma floor_le_sum ws : floorPods ws <= sumPods ws.
Proof.
  induction ws as [|w ws IH]; [done|]. rewrite floorPods_cons, sumPods_cons.
  destruct (wMaxPods w); cbn; unfold id; lia.
Qed.

Lemma sumPods_bound ws : podsInt32 ws -> sumPods ws <= 2 ^ 31 * Z.of_nat (length ws).
Proof.
  induction ws as [|w ws IH]; [done|]. intros [Hm H]%podsInt32_cons. rewrite sumPods_cons.
  apply IH in H. cbn [length]. destruct (wMaxPods w) as [m|]; cbn [default from_option id]; [|lia].
  specialize (Hm m eq_refl). lia.
Qed.

Lemma clampBack_spec ws e ws' e' :
  podsInt32 ws -> 0 <= e -> clampBack e ws = (ws', e') ->
  clamped ws ws' /\ sumPods ws' = sumPods ws - (e - e') /\
  e' = Z.max 0 (e - (sumPods ws - floorPods ws)) /\
  (0 < e' -> Forall (fun m => m <= 1) (omap wMaxPods ws')).
Proof.
  revert ws' e'. induction ws as [|w ws IH]; intros ws' e' Hi He.
  { intros [= <- <-]. split_and!; [constructor|lia|cbn; lia|constructor]. }
  apply podsInt32_cons in Hi as [Hm Hi]. cbn [clampBack].
  destruct (clampBack e ws) as [rest e1]. destruct (IH rest e1 Hi He eq_refl) as (Hc & Hs & He1 & Hfl).
  clear IH. pose proof (floor_le_sum ws) as Hle. rewrite floorPods_cons, sumPods_cons.
  destruct (wMaxPods w) as [m|] eqn:E; cbn [default from_option fmap option_fmap option_map id].
  - specialize (Hm m eq_refl). destruct (Z.ltb_spec 0 e1).
    + destruct (reduceWorkerMaxPods w m e1) as [w' r] eqn:Er. intros [= <- <-].
      apply reduceWorkerMaxPods_spec in Er as (-> & Hw' & Hsame); [|done..].
      rewrite sumPods_cons, Hw'. cbn [default from_option id]. split_and!; [|lia|lia|].
      * constructor; [done| |by rewrite E|done]. intros m0 [= <-]%(eq_trans (eq_sym E)).
        eexists. split_and!; [exact Hw'|lia|lia|auto].
      * intros He'. cbn. rewrite Hw'. constructor; [lia|auto].
    + intros [= <- <-]. rewrite sumPods_cons, E. cbn [default from_option id].
      split_and!; [|lia|lia|lia].
      constructor; [by left| |by rewrite E|done]. intros m0 [= <-]%(eq_trans (eq_sym E)).
      exists m. split_and!; [done|lia|lia|lia].
  - intros [= <- <-]. rewrite sumPods_cons, E. cbn [default from_option]. split_and!; [|lia|lia|].
    + constructor; [by left| |done|done]. by rewrite E.
    + intros He'. cbn. rewrite E. auto.
Qed.

(** C28. ApplyMaxPodsWithTotalCap never panics.  A total below one is refused.  When
    the limits fit they are left alone.  Otherwise pods are taken from the last
    workers first, never below one, and it succeeds exactly when one pod for each
    worker fits; the limits then add up to the total. *)
Theorem ApplyMaxPodsWithTotalCap_correct workers totalIPs :
  podsInt32 workers -> Z.of_nat (length workers) < 2 ^ 31 -> totalIPs < 2 ^ 63 ->
  exists workers' err, ApplyMaxPodsWithTotalCap workers totalIPs = Some (workers', err) /\
    (totalIPs < 1 -> workers' = workers /\ err <> None) /\
    (1 <= totalIPs -> sumPods workers <= totalIPs -> workers' = workers /\ err = None) /\
    (1 <= totalIPs -> totalIPs < sumPods workers ->
       clamped workers workers' /\ (err = None <-> floorPods workers <= totalIPs) /\
       (err = None -> sumPods workers' = totalIPs)).
Proof.
  intros Hi Hlen Htot. unfold ApplyMaxPodsWithTotalCap, collectMaxPodsIndices.
  destruct (Z.ltb_spec totalIPs 1); [do 2 eexists; split_and!; [done|done|lia|lia]|].
  rewrite collectMaxPodsFrom_spec, Z.add_0_l by (done || lia).
  destruct (Z.leb_spec (sumPods workers) totalIPs); [do 2 eexists; split_and!; [done|lia|done|lia]|].
  pose proof (sumPods_bound workers Hi). rewrite int64_small by lia. rewrite reduceLoop_clamp.
  cbn [mbind option_bind]. destruct (clampBack _ _) as [ws' e'] eqn:E.
  apply clampBack_spec in E as (Hc & Hs & He & _); [|done|lia].
  destruct (Z.ltb_spec 0 e'); do 2 eexists; (split_and!; [done|lia|lia|]); intros _ _; (split; [done|]).
  - split; [split; [done|lia]|done].
  - split; [split; [lia|done]|]. intros _. lia.
Qed.

(** ** Without bounds: no panic, and nothing but maxPods changes *)

Lemma collectMaxPodsFrom_indices i sum ws : (collectMaxPodsFrom i sum ws).2 = podIndices i ws.
Proof.
  revert i sum. induction ws as [|w ws IH]; intros i sum; cbn; [done|].
  destruct (wMaxPods w) as [m|]; [|apply IH]. specialize (IH (S i) (int64 (sum + m))).
  destruct (collectMaxPodsFrom _ _ _). cbn in *. by rewrite IH.
Qed.

Lemma clampBack_same e ws : Forall2 sameButMaxPods ws (clampBack e ws).1.
Proof.
  induction ws as [|w ws IH]; cbn; [constructor|]. destruct (clampBack e ws) as [ws' e']. cbn in IH.
  destruct (wMaxPods w) as [m|]; [destruct (0 <? e')|]; cbn; try (constructor; [by left|done]).
  unfold reduceWorkerMaxPods. destruct (m <=? 1); constructor; try done; [by left|right; eauto].
Qed.

Lemma ApplyMaxPodsWithTotalCap_same workers totalIPs :
  exists workers' err, ApplyMaxPodsWithTotalCap workers totalIPs = Some (workers', err) /\
    Forall2 sameButMaxPods workers workers'.
Proof.
  assert (forall ws, Forall2 sameButMaxPods ws ws) as Hrefl by (induction ws; constructor; [by left|done]).
  unfold ApplyMaxPodsWithTotalCap, collectMaxPodsIndices.
  destruct (totalIPs <? 1); [by do 2 eexists|].
  pose proof (collectMaxPodsFrom_indices 0 0 workers) as Hi.
  destruct (collectMaxPodsFrom 0 0 workers) as [sum indices]. cbn in Hi. subst indices.
  destruct (sum <=? totalIPs); [by do 2 eexists|]. rewrite reduceLoop_clamp. cbn [mbind option_bind].
  pose proof (clampBack_same (int64 (sum - totalIPs)) workers) as Hs.
  destruct (clampBack _ workers) as [ws' e']. cbn in Hs. destruct (0 <? e'); by do 2 eexists.
Qed.

Definition podsAtMost (limit : Z) (workers : list Worker) : Prop :=
  Forall (fun m => m <= limit) (omap wMaxPods workers).

Lemma clamped_podsAtMost limit ws ws' : clamped ws ws' -> podsAtMost limit ws -> podsAtMost limit ws'.
Proof.
  unfold podsAtMost. induction 1 as [|w w' ws ws' _ Hm Hn _ IH]; cbn; [done|].
  destruct (wMaxPods w) as [m|] eqn:E.
  - destruct (Hm m eq_refl) as (m' & -> & Hle & _). intros [H1 H2]%Forall_cons. constructor; [lia|auto].
  - rewrite Hn, E by done. auto.
Qed.

(** On success the limits fit the total, and none has grown. *)
Lemma ApplyMaxPodsWithTotalCap_fits limit workers totalIPs workers' :
  podsInt32 workers -> Z.of_nat (length workers) < 2 ^ 31 -> totalIPs < 2 ^ 63 -> podsAtMost limit workers ->
  ApplyMaxPodsWithTotalCap workers totalIPs = Some (workers', None) ->
  sumPods workers' <= totalIPs /\ podsAtMost limit workers'.
Proof.
  intros Hi Hlen Htot Hlim. unfold ApplyMaxPodsWithTotalCap, collectMaxPodsIndices.
  destruct (Z.ltb_spec totalIPs 1); [done|].
  rewrite collectMaxPodsFrom_spec, Z.add_0_l by (done || lia).
  destruct (Z.leb_spec (sumPods workers) totalIPs); [by intros [= <-]|].
  pose proof (sumPods_bound workers Hi). rewrite int64_small by lia. rewrite reduceLoop_clamp.
  cbn [mbind option_bind]. destruct (clampBack _ _) as [ws' e'] eqn:E.
  apply clampBack_spec in E as (Hc & Hs & _ & _); [|done|lia].
  destruct (Z.ltb_spec 0 e'); intros [= <-]. split; [lia|by eapply clamped_podsAtMost].
Qed.

Lemma ApplyPerNodeMaxPodsCap_bounds limit workers :
  0 <= limit < 2 ^ 31 -> podsInt32 workers ->
  podsInt32 (ApplyPerNodeMaxPodsCap workers limit) /\ podsAtMost limit (ApplyPerNodeMaxPodsCap workers limit) /\
  length (ApplyPerNodeMaxPodsCap workers limit) = length workers.
Proof.
  intros Hl. unfold podsInt32, podsAtMost. induction workers as [|w ws IH]; intros Hi; cbn; [by split_and!|].
  cbn in Hi. destruct (wMaxPods w) as [m|] eqn:E.
  - apply Forall_cons in Hi as [Hm Hi]. destruct (IH Hi) as (IH1 & IH2 & IH3).
    destruct (Z.ltb_spec limit m); [rewrite (wMaxPods_set w m) by done|rewrite E];
      (split_and!; [constructor; [lia|done]..|by rewrite IH3]).
  - rewrite E. destruct (IH Hi) as (? & ? & ->). done.
Qed.

Lemma MaxPodsFromCIDR_max cidr n : MaxPodsFromCIDR cidr = Ok n -> n < 2 ^ 63.
Proof.
  unfold MaxPodsFromCIDR. intros (p & _ & H)%result_bind_Ok. destruct (Is4 (pAddr p)); [|done].
  destruct (_ || _); [done|]. destruct (_ =? _); [injection H as <-; lia|].
  destruct (_ =? _); [injection H as <-; lia|].
  destruct (Z.ltb_spec MaxInt32 ((Z.shiftl 1 (32 - Bits p) - 2) mod 2 ^ 64)); injection H as <-;
    unfold MaxInt32 in *; lia.
Qed.

Definition podWorker (name : string) (m : Z) : Worker :=
  mkWorker name "m5.large" None 1 3 [] (Some (mkWorkerKubernetes (Some (mkKubelet (Some m) [] "")) ""))
    None None None None "".

Lemma ApplyMaxPodsWithTotalCap_correct_witness :
  exists workers', ApplyMaxPodsWithTotalCap [podWorker "a" 200; podWorker "b" 100] 254 = Some (workers', None) /\
    sumPods workers' = 254 /\ (wMaxPods <$> workers') = [Some 200; Some 54].
Proof.
  edestruct (ApplyMaxPodsWithTotalCap_correct [podWorker "a" 200; podWorker "b" 100] 254)
    as (ws & err & E & _ & _ & H); [repeat constructor; lia|cbn; lia|lia|].
  vm_compute in E. injection E as <- <-. eexists. split; [vm_compute; reflexivity|].
  split; [apply H; [lia|cbn; lia|done]|vm_compute; done].
Defined.
