(* ===== verification/AwsConfig.v ===== *)
(** * The configuration of AWS (hyperscaler/aws/config.go)

    The provider's configuration objects and what a patch keeps of the existing
    one.  The types are those of the AWS extension of Gardener, with the fields the
    code reads or sets. *)

From S2P Require Import Prelude Gardener Netip Zones ZonesAws.

Local Open Scope string_scope.

Record VPC := mkVPC { vpcID : option string; vpcCIDR : option string; GatewayEndpoints : list string }.

Record aws_InfrastructureConfig := mkInfrastructureConfig {
  icKind : string;
  icAPIVersion : string;
  EnableECRAccess : option bool;
  DualStack : option bool;                         (* .DualStack.Enabled *)
  icVPC : VPC;                                     (* .Networks.VPC *)
  icZones : list aws_Zone;                             (* .Networks.Zones *)
  IgnoreTags : option Opaque
}.

Record aws_ControlPlaneConfig := mkControlPlaneConfig {
  cpKind : string;
  cpAPIVersion : string;
  LoadBalancerController : option bool             (* .LoadBalancerController.Enabled *)
}.

Record aws_WorkerConfig := aws_mkWorkerConfig {
  wcKind : string;
  wcAPIVersion : string;
  HTTPTokens : option string;                      (* .InstanceMetadataOptions.HTTPTokens *)
  HTTPPutResponseHopLimit : option Z               (* .InstanceMetadataOptions.HTTPPutResponseHopLimit *)
}.

#[export] Instance Zone_eq_dec : EqDecision aws_Zone.
Proof. solve_decision. Defined.
#[export] Instance VPC_eq_dec : EqDecision VPC.
Proof. solve_decision. Defined.
#[export] Instance InfrastructureConfig_eq_dec : EqDecision aws_InfrastructureConfig.
Proof. solve_decision. Defined.

(*@consts src/pkg/gardener/shoot/hyperscaler/aws/config.go:10-15 *)
Definition aws_apiVersion : string := "aws.provider.extensions.gardener.cloud/v1alpha1".
Definition aws_infrastructureConfigKind : string := "InfrastructureConfig".
Definition aws_controlPlaneConfigKind : string := "ControlPlaneConfig".
Definition workerConfigKind : string := "WorkerConfig".
Definition awsIMDSv2HTTPPutResponseHopLimit : Z := 2.

(*@ src/pkg/gardener/shoot/hyperscaler/aws/config.go:73-91 NewInfrastructureConfig *)
Definition aws_NewInfrastructureConfig (workersCidr : string) (zones : list string) : result aws_InfrastructureConfig :=
  awsZones ← generateAWSZones workersCidr zones;
  Ok (mkInfrastructureConfig aws_infrastructureConfigKind aws_apiVersion None None
        (mkVPC None (Some workersCidr) []) awsZones None).

(** The inner loop: every new zone of the name gets the elastic IP. *)
(*@ src/pkg/gardener/shoot/hyperscaler/aws/config.go:111-116 NewInfrastructureConfigForPatch *)
Fixpoint setElasticIP (zone : aws_Zone) (newZones : list aws_Zone) : list aws_Zone :=
  match newZones with
  | [] => []
  | newZone :: rest =>
      (if String.eqb (zName newZone) (zName zone)
       then mkZone (zName newZone) (Workers newZone) (Public newZone) (Internal newZone)
              (ElasticIPAllocationID zone)
       else newZone) :: setElasticIP zone rest
  end.

Section Config.
Context `{Codec aws_InfrastructureConfig} `{Codec aws_ControlPlaneConfig} `{Codec aws_WorkerConfig}.

(*@ src/pkg/gardener/shoot/hyperscaler/aws/config.go:64-71 DecodeInfrastructureConfig *)
Definition aws_DecodeInfrastructureConfig (data : Raw) : result aws_InfrastructureConfig := unmarshal data.

(*@ src/pkg/gardener/shoot/hyperscaler/aws/config.go:93-121 NewInfrastructureConfigForPatch *)
Definition aws_NewInfrastructureConfigForPatch (workersCidr : string) (zones : list string)
    (existingInfrastructureConfigBytes : Raw) : result aws_InfrastructureConfig :=
  newConfig ← aws_NewInfrastructureConfig workersCidr zones;
  existing ← aws_DecodeInfrastructureConfig existingInfrastructureConfigBytes;
  Ok (mkInfrastructureConfig (icKind newConfig) (icAPIVersion newConfig) (EnableECRAccess existing)
        (DualStack existing)
        (mkVPC (vpcID (icVPC existing)) (vpcCIDR (icVPC newConfig)) (GatewayEndpoints (icVPC existing)))
        (foldl (fun newZones zone => setElasticIP zone newZones) (icZones newConfig) (icZones existing))
        (IgnoreTags existing)).

(*@ src/pkg/gardener/shoot/hyperscaler/aws/config.go:17-24 GetInfrastructureConfig *)
Definition aws_GetInfrastructureConfig (workersCidr : string) (zones : list string) : result Raw :=
  config ← aws_NewInfrastructureConfig workersCidr zones; marshal config.

(*@ src/pkg/gardener/shoot/hyperscaler/aws/config.go:26-37 GetInfrastructureConfigForDualStack *)
Definition GetInfrastructureConfigForDualStack (workersCidr : string) (zones : list string) : result Raw :=
  config ← aws_NewInfrastructureConfig workersCidr zones;
  marshal (mkInfrastructureConfig (icKind config) (icAPIVersion config) (EnableECRAccess config) (Some true)
             (icVPC config) (icZones config) (IgnoreTags config)).

(*@ src/pkg/gardener/shoot/hyperscaler/aws/config.go:39-46 GetInfrastructureConfigForPatch *)
Definition aws_GetInfrastructureConfigForPatch (workersCidr : string) (zones : list string)
    (existingInfrastructureConfigBytes : Raw) : result Raw :=
  newConfig ← aws_NewInfrastructureConfigForPatch workersCidr zones existingInfrastructureConfigBytes;
  marshal newConfig.

(*@ src/pkg/gardener/shoot/hyperscaler/aws/config.go:123-130 NewControlPlaneConfig *)
Definition aws_NewControlPlaneConfig : aws_ControlPlaneConfig :=
  mkControlPlaneConfig aws_controlPlaneConfigKind aws_apiVersion None.

(*@ src/pkg/gardener/shoot/hyperscaler/aws/config.go:48-50 GetControlPlaneConfig *)
Definition aws_GetControlPlaneConfig (_ : list string) : result Raw := marshal aws_NewControlPlaneConfig.

(*@ src/pkg/gardener/shoot/hyperscaler/aws/config.go:52-58 GetControlPlaneConfigForDualStack *)
Definition GetControlPlaneConfigForDualStack (_ : list string) : result Raw :=
  marshal (mkControlPlaneConfig (cpKind aws_NewControlPlaneConfig) (cpAPIVersion aws_NewControlPlaneConfig) (Some true)).

(*@ src/pkg/gardener/shoot/hyperscaler/aws/config.go:132-146 NewWorkerConfig *)
Definition NewWorkerConfig : aws_WorkerConfig :=
  aws_mkWorkerConfig workerConfigKind aws_apiVersion (Some "required") (Some awsIMDSv2HTTPPutResponseHopLimit).

(*@ src/pkg/gardener/shoot/hyperscaler/aws/config.go:60-62 GetWorkerConfig *)
Definition GetWorkerConfig : result Raw := marshal NewWorkerConfig.

(** ** What a patch keeps *)

Definition withoutIP (z : aws_Zone) : aws_Zone := mkZone (zName z) (Workers z) (Public z) (Internal z) None.

Definition keepIP (z newZone : aws_Zone) : aws_Zone :=
  mkZone (zName newZone) (Workers newZone) (Public newZone) (Internal newZone) (ElasticIPAllocationID z).

Lemma setElasticIP_overlay zone zs : setElasticIP zone zs = overlay zName keepIP zone zs.
Proof.
  induction zs as [|z zs IH]; cbn; [done|]. rewrite IH. f_equal.
  destruct (String.eqb_spec (zName z) (zName zone)); [by rewrite decide_True|by rewrite decide_False].
Qed.

Lemma restoreIPs existing more :
  NoDup (zName <$> (existing ++ more)%list) ->
  foldl (fun newZones zone => setElasticIP zone newZones) ((withoutIP <$> existing) ++ more)%list existing =
  (existing ++ more)%list.
Proof.
  intros Hnd. etransitivity;
    [|apply (overlay_restores zName keepIP withoutIP) with (pre := []); [by intros []|done|exact Hnd]].
  cbn [app]. clear Hnd. generalize ((withoutIP <$> existing) ++ more)%list as zs.
  induction existing as [|z existing IH]; intros zs; [done|]. cbn [foldl]. by rewrite IH, setElasticIP_overlay.
Qed.

(** Adding zones to an AWS cluster: when the zones of the existing
    configuration are those generated for it, with any elastic IPs, the patched
    configuration starts with exactly these zones, elastic IPs included, and the
    VPC's id and gateway endpoints, dual stack, ECR access and ignored tags are
    kept. *)
Lemma patch_keeps_existing_zones workersCidr names more bytes existing generated config :
  unmarshal bytes = Ok existing -> generateAWSZones workersCidr names = Ok generated ->
  withoutIP <$> icZones existing = generated ->
  aws_NewInfrastructureConfigForPatch workersCidr (names ++ more) bytes = Ok config ->
  icZones existing `prefix_of` icZones config /\ zName <$> icZones config = (names ++ more)%list /\
  vpcID (icVPC config) = vpcID (icVPC existing) /\
  GatewayEndpoints (icVPC config) = GatewayEndpoints (icVPC existing) /\
  DualStack config = DualStack existing /\ EnableECRAccess config = EnableECRAccess existing /\
  IgnoreTags config = IgnoreTags existing.
Proof.
  intros Hbytes Hgen Hzones.
  unfold aws_NewInfrastructureConfigForPatch, aws_NewInfrastructureConfig, aws_DecodeInfrastructureConfig.
  rewrite Hbytes. intros (c & (zones & Hz & [= <-])%result_bind_Ok & [= <-])%result_bind_Ok.
  destruct (generateAWSZones_names _ _ _ Hz) as (Hn & Hnd & _).
  destruct (generateAWSZones_prefix _ _ _ _ _ Hgen Hz) as [added ->].
  assert (NoDup (zName <$> (icZones existing ++ added)%list)) as Hnd'.
  { rewrite fmap_app, <- Hzones, <- list_fmap_compose, <- fmap_app in Hn.
    change (zName ∘ withoutIP) with zName in Hn. by rewrite Hn. }
  cbn [icZones icVPC vpcID GatewayEndpoints DualStack EnableECRAccess IgnoreTags].
  rewrite <- Hzones, restoreIPs by done.
  split_and!; [by eexists| |done..]. cbn [app]. rewrite <- Hn, <- Hzones, !fmap_app.
  f_equal. by rewrite <- list_fmap_compose.
Qed.

End Config.
