(* ===== verification/AzureConfig.v ===== *)
(** * The configuration of Azure (hyperscaler/azure/config.go, azure/model.go)

    The configuration objects and what a patch keeps of the existing one. *)

From S2P Require Import Prelude Gardener Sscanf Netip Zones ZonesAzure.

Local Open Scope string_scope.

(*@ src/pkg/gardener/shoot/hyperscaler/azure/model.go:38-45 VNet *)
Record VNet := mkVNet { vnetName : option string; vnetResourceGroup : option string; vnetCIDR : option string }.

(*@ src/pkg/gardener/shoot/hyperscaler/azure/model.go:25-35 NetworkConfig *)
Record azure_NetworkConfig := mkNetworkConfig {
  ncVNet : VNet;
  ncWorkers : option string;
  ncServiceEndpoints : list string;
  ncNatGateway : option NatGateway;
  ncZones : list azure_Zone
}.

(*@ src/pkg/gardener/shoot/hyperscaler/azure/model.go:8-16 InfrastructureConfig *)
Record azure_InfrastructureConfig := mkInfrastructureConfig {
  icKind : string;
  icAPIVersion : string;
  ResourceGroup : option string;                   (* .ResourceGroup.Name *)
  Networks : azure_NetworkConfig;
  Zoned : bool
}.

(*@ src/pkg/gardener/shoot/hyperscaler/azure/model.go:92-98 ControlPlaneConfig *)
Record azure_ControlPlaneConfig := mkControlPlaneConfig {
  cpKind : string;
  cpAPIVersion : string;
  CloudControllerManager : option (gmap string bool)   (* .FeatureGates *)
}.

#[export] Instance PublicIPReference_eq_dec : EqDecision PublicIPReference.
Proof. solve_decision. Defined.
#[export] Instance NatGateway_eq_dec : EqDecision NatGateway.
Proof. solve_decision. Defined.
#[export] Instance Zone_eq_dec : EqDecision azure_Zone.
Proof. solve_decision. Defined.
#[export] Instance VNet_eq_dec : EqDecision VNet.
Proof. solve_decision. Defined.
#[export] Instance NetworkConfig_eq_dec : EqDecision azure_NetworkConfig.
Proof. solve_decision. Defined.
#[export] Instance InfrastructureConfig_eq_dec : EqDecision azure_InfrastructureConfig.
Proof. solve_decision. Defined.

(*@consts src/pkg/gardener/shoot/hyperscaler/azure/config.go:8-10 *)
Definition azure_infrastructureConfigKind : string := "InfrastructureConfig".
Definition azure_controlPlaneConfigKind : string := "ControlPlaneConfig".
Definition azure_apiVersion : string := "azure.provider.extensions.gardener.cloud/v1alpha1".

(*@ src/pkg/gardener/shoot/hyperscaler/azure/config.go:53-79 NewInfrastructureConfig *)
Definition azure_NewInfrastructureConfig (workerCIDR : string) (zones : list string) : result azure_InfrastructureConfig :=
  azureZones ← generateAzureZones workerCIDR zones;
  let isZoned := Nat.ltb 0 (length zones) in
  Ok (mkInfrastructureConfig azure_infrastructureConfigKind azure_apiVersion None
        (mkNetworkConfig (mkVNet None None (Some workerCIDR)) None [] None azureZones) isZoned).

(** The inner loop: every new zone of the name gets the settings. *)
(*@ src/pkg/gardener/shoot/hyperscaler/azure/config.go:93-99 NewInfrastructureConfigForPatch *)
Fixpoint setZoneSettings (zone : azure_Zone) (newZones : list azure_Zone) : list azure_Zone :=
  match newZones with
  | [] => []
  | newZone :: rest =>
      (if Z.eqb (zName newZone) (zName zone)
       then mkZone (zName newZone) (CIDR newZone) (ServiceEndpoints zone) (zNatGateway zone)
       else newZone) :: setZoneSettings zone rest
  end.

Section Config.
Context `{Codec azure_InfrastructureConfig} `{Codec azure_ControlPlaneConfig}.

(*@ src/pkg/gardener/shoot/hyperscaler/azure/config.go:44-51 DecodeInfrastructureConfig *)
Definition azure_DecodeInfrastructureConfig (data : Raw) : result azure_InfrastructureConfig := unmarshal data.

(*@ src/pkg/gardener/shoot/hyperscaler/azure/config.go:81-109 NewInfrastructureConfigForPatch *)
Definition azure_NewInfrastructureConfigForPatch (workersCidr : string) (zones : list string)
    (existingInfrastructureConfigBytes : Raw) : result azure_InfrastructureConfig :=
  newConfig ← azure_NewInfrastructureConfig workersCidr zones;
  existing ← azure_DecodeInfrastructureConfig existingInfrastructureConfigBytes;
  Ok (mkInfrastructureConfig (icKind newConfig) (icAPIVersion newConfig) (ResourceGroup existing)
        (mkNetworkConfig (ncVNet (Networks existing)) (ncWorkers (Networks existing))
           (ncServiceEndpoints (Networks existing)) (ncNatGateway (Networks existing))
           (foldl (fun newZones zone => setZoneSettings zone newZones) (ncZones (Networks newConfig))
              (ncZones (Networks existing))))
        (Zoned newConfig)).

(*@ src/pkg/gardener/shoot/hyperscaler/azure/config.go:12-20 GetInfrastructureConfig *)
Definition azure_GetInfrastructureConfig (workerCIDR : string) (zones : list string) : result Raw :=
  config ← azure_NewInfrastructureConfig workerCIDR zones; marshal config.

(*@ src/pkg/gardener/shoot/hyperscaler/azure/config.go:22-29 GetInfrastructureConfigForPatch *)
Definition azure_GetInfrastructureConfigForPatch (workersCidr : string) (zones : list string)
    (existingInfrastructureConfigBytes : Raw) : result Raw :=
  newConfig ← azure_NewInfrastructureConfigForPatch workersCidr zones existingInfrastructureConfigBytes;
  marshal newConfig.

(*@ src/pkg/gardener/shoot/hyperscaler/azure/config.go:35-42 NewControlPlaneConfig *)
Definition azure_NewControlPlaneConfig : azure_ControlPlaneConfig :=
  mkControlPlaneConfig azure_controlPlaneConfigKind azure_apiVersion None.

(*@ src/pkg/gardener/shoot/hyperscaler/azure/config.go:31-33 GetControlPlaneConfig *)
Definition azure_GetControlPlaneConfig (_ : list string) : result Raw := marshal azure_NewControlPlaneConfig.

(** ** What a patch keeps *)

(** A zone as it is generated: with a NAT gateway of its own and no endpoints. *)
Definition asGenerated (z : azure_Zone) : azure_Zone := newZone (zName z) (CIDR z).
Definition keepSettings (z newZone : azure_Zone) : azure_Zone :=
  mkZone (zName newZone) (CIDR newZone) (ServiceEndpoints z) (zNatGateway z).

Lemma setZoneSettings_overlay zone zs : setZoneSettings zone zs = overlay zName keepSettings zone zs.
Proof.
  induction zs as [|z zs IH]; cbn; [done|]. rewrite IH. f_equal.
  destruct (Z.eqb_spec (zName z) (zName zone)); [by rewrite decide_True|by rewrite decide_False].
Qed.

Lemma restoreSettings existing more :
  NoDup (zName <$> (existing ++ more)%list) ->
  foldl (fun newZones zone => setZoneSettings zone newZones) ((asGenerated <$> existing) ++ more)%list existing =
  (existing ++ more)%list.
Proof.
  intros Hnd. etransitivity;
    [|apply (overlay_restores zName keepSettings asGenerated) with (pre := []);
      [by intros []|done|exact Hnd]].
  cbn [app]. clear Hnd. generalize ((asGenerated <$> existing) ++ more)%list as zs.
  induction existing as [|z existing IH]; intros zs; [done|]. cbn [foldl]. by rewrite IH, setZoneSettings_overlay.
Qed.

(** Adding zones to an Azure cluster: when the zones of the existing
    configuration have the subnets generated for it, with any NAT gateways and
    service endpoints, the patched configuration starts with exactly these zones
    and keeps the virtual network, the resource group, the subnet of the workers
    and the settings of the network. *)
Lemma patch_keeps_azure_zones workersCidr names more bytes existing generated config :
  unmarshal bytes = Ok existing -> generateAzureZones workersCidr names = Ok generated ->
  asGenerated <$> ncZones (Networks existing) = generated ->
  azure_NewInfrastructureConfigForPatch workersCidr (names ++ more) bytes = Ok config ->
  ncZones (Networks existing) `prefix_of` ncZones (Networks config) /\
  NoDup (zName <$> ncZones (Networks config)) /\
  ncVNet (Networks config) = ncVNet (Networks existing) /\
  ncWorkers (Networks config) = ncWorkers (Networks existing) /\
  ncServiceEndpoints (Networks config) = ncServiceEndpoints (Networks existing) /\
  ncNatGateway (Networks config) = ncNatGateway (Networks existing) /\
  ResourceGroup config = ResourceGroup existing.
Proof.
  intros Hbytes Hgen Hzones.
  unfold azure_NewInfrastructureConfigForPatch, azure_NewInfrastructureConfig, azure_DecodeInfrastructureConfig.
  rewrite Hbytes. intros (c & (zones & Hz & [= <-])%result_bind_Ok & [= <-])%result_bind_Ok.
  pose proof (generateAzureZones_names _ _ _ Hz) as Hnd.
  destruct (generateAzureZones_stable _ _ _ _ _ Hgen Hz) as [added ->].
  cbn [Networks ncZones ncVNet ncWorkers ncServiceEndpoints ncNatGateway ResourceGroup].
  assert (NoDup (zName <$> (ncZones (Networks existing) ++ added)%list)) as Hnd'.
  { rewrite fmap_app, <- Hzones, <- list_fmap_compose, <- fmap_app in Hnd. exact Hnd. }
  rewrite <- Hzones, restoreSettings by done.
  split_and!; [by eexists|done..].
Qed.

End Config.
