(* ===== verification/GcpConfig.v ===== *)
(** * The configuration of GCP (hyperscaler/gcp/config.go) *)

From S2P Require Import Prelude Gardener.

Local Open Scope string_scope.

(** The extension's v1alpha1 types, with the fields the code sets. *)
Record gcp_InfrastructureConfig := mkInfrastructureConfig {
  icKind : string;
  icAPIVersion : string;
  icWorkers : string;                              (* .Networks.Workers *)
  icWorker : string                                (* .Networks.Worker *)
}.
Record gcp_ControlPlaneConfig := mkControlPlaneConfig { cpKind : string; cpAPIVersion : string; cpZone : string }.

(*@consts src/pkg/gardener/shoot/hyperscaler/gcp/config.go:11-15 *)
Definition gcp_infrastructureConfigKind : string := "InfrastructureConfig".
Definition gcp_controlPlaneConfigKind : string := "ControlPlaneConfig".
Definition gcp_apiVersion : string := "gcp.provider.extensions.gardener.cloud/v1alpha1".

(*@ src/pkg/gardener/shoot/hyperscaler/gcp/config.go:29-42 NewInfrastructureConfig *)
Definition gcp_NewInfrastructureConfig (workerCIDR : string) : gcp_InfrastructureConfig :=
  mkInfrastructureConfig gcp_infrastructureConfigKind gcp_apiVersion workerCIDR workerCIDR.

(** For a list that is not empty; its first zone. *)
(*@ src/pkg/gardener/shoot/hyperscaler/gcp/config.go:44-52 NewControlPlaneConfig *)
Definition gcp_NewControlPlaneConfig (zone : string) : gcp_ControlPlaneConfig :=
  mkControlPlaneConfig gcp_controlPlaneConfigKind gcp_apiVersion zone.

Section Config.
Context `{Codec gcp_InfrastructureConfig} `{Codec gcp_ControlPlaneConfig}.

(*@ src/pkg/gardener/shoot/hyperscaler/gcp/config.go:17-19 GetInfrastructureConfig *)
Definition gcp_GetInfrastructureConfig (workerCIDR : string) (_ : list string) : result Raw :=
  marshal (gcp_NewInfrastructureConfig workerCIDR).

(*@ src/pkg/gardener/shoot/hyperscaler/gcp/config.go:21-27 GetControlPlaneConfig *)
Definition gcp_GetControlPlaneConfig (zones : list string) : result Raw :=
  match zones with
  | [] => Err (newError "zones list is empty")
  | zone :: _ => marshal (gcp_NewControlPlaneConfig zone)
  end.

End Config.
