(* ===== verification/OpenStackConfig.v ===== *)
(** * The configuration of OpenStack (hyperscaler/openstack/config.go) *)

From S2P Require Import Prelude Gardener.

Local Open Scope string_scope.

(** The extension's v1alpha1 types, with the fields the code sets. *)
Record openstack_InfrastructureConfig := mkInfrastructureConfig {
  icKind : string;
  icAPIVersion : string;
  FloatingPoolName : string;
  icWorkers : string                               (* .Networks.Workers *)
}.
Record openstack_ControlPlaneConfig := mkControlPlaneConfig {
  cpKind : string;
  cpAPIVersion : string;
  LoadBalancerProvider : string
}.

(*@consts src/pkg/gardener/shoot/hyperscaler/openstack/config.go:10-16 *)
Definition openstack_infrastructureConfigKind : string := "InfrastructureConfig".
Definition openstack_controlPlaneConfigKind : string := "ControlPlaneConfig".
Definition openstack_apiVersion : string := "openstack.provider.extensions.gardener.cloud/v1alpha1".
Definition defaultFloatingPoolName : string := "FloatingIP-external-kyma-01".
Definition defaultLoadBalancerProvider : string := "f5".

(*@ src/pkg/gardener/shoot/hyperscaler/openstack/config.go:26-37 NewInfrastructureConfig *)
Definition openstack_NewInfrastructureConfig (workerCIDR : string) : openstack_InfrastructureConfig :=
  mkInfrastructureConfig openstack_infrastructureConfigKind openstack_apiVersion defaultFloatingPoolName workerCIDR.

(*@ src/pkg/gardener/shoot/hyperscaler/openstack/config.go:39-47 NewControlPlaneConfig *)
Definition openstack_NewControlPlaneConfig : openstack_ControlPlaneConfig :=
  mkControlPlaneConfig openstack_controlPlaneConfigKind openstack_apiVersion defaultLoadBalancerProvider.

Section Config.
Context `{Codec openstack_InfrastructureConfig} `{Codec openstack_ControlPlaneConfig}.

(*@ src/pkg/gardener/shoot/hyperscaler/openstack/config.go:18-20 GetInfrastructureConfig *)
Definition openstack_GetInfrastructureConfig (workerCIDR : string) (_ : list string) : result Raw :=
  marshal (openstack_NewInfrastructureConfig workerCIDR).

(*@ src/pkg/gardener/shoot/hyperscaler/openstack/config.go:22-24 GetControlPlaneConfig *)
Definition openstack_GetControlPlaneConfig (_ : list string) : result Raw := marshal openstack_NewControlPlaneConfig.

End Config.
