(* ===== verification/AlicloudConfig.v ===== *)
(** * The configuration of Alicloud (hyperscaler/alicloud/config.go) *)

From S2P Require Import Prelude Gardener ZonesAlicloud.

Local Open Scope string_scope.

(** The extension's v1alpha1 types, with the fields the code sets. *)
Record alicloud_InfrastructureConfig := mkInfrastructureConfig {
  icKind : string;
  icAPIVersion : string;
  vpcCIDR : option string;                         (* .Networks.VPC.CIDR *)
  icZones : list alicloud_Zone                              (* .Networks.Zones *)
}.
Record alicloud_ControlPlaneConfig := mkControlPlaneConfig { cpKind : string; cpAPIVersion : string }.

(*@consts src/pkg/gardener/shoot/hyperscaler/alicloud/config.go:10-14 *)
Definition alicloud_infrastructureConfigKind : string := "InfrastructureConfig".
Definition alicloud_controlPlaneConfigKind : string := "ControlPlaneConfig".
Definition alicloud_apiVersion : string := "alicloud.provider.extensions.gardener.cloud/v1alpha1".

(*@ src/pkg/gardener/shoot/hyperscaler/alicloud/config.go:28-46 NewInfrastructureConfig *)
Definition alicloud_NewInfrastructureConfig (workerCIDR : string) (zones : list string) : result alicloud_InfrastructureConfig :=
  generatedZones ← generateZones workerCIDR zones;
  Ok (mkInfrastructureConfig alicloud_infrastructureConfigKind alicloud_apiVersion (Some workerCIDR) generatedZones).

(*@ src/pkg/gardener/shoot/hyperscaler/alicloud/config.go:48-55 NewControlPlaneConfig *)
Definition alicloud_NewControlPlaneConfig : alicloud_ControlPlaneConfig := mkControlPlaneConfig alicloud_controlPlaneConfigKind alicloud_apiVersion.

Section Config.
Context `{Codec alicloud_InfrastructureConfig} `{Codec alicloud_ControlPlaneConfig}.

(*@ src/pkg/gardener/shoot/hyperscaler/alicloud/config.go:16-22 GetInfrastructureConfig *)
Definition alicloud_GetInfrastructureConfig (workerCIDR : string) (zones : list string) : result Raw :=
  config ← alicloud_NewInfrastructureConfig workerCIDR zones; marshal config.

(*@ src/pkg/gardener/shoot/hyperscaler/alicloud/config.go:24-26 GetControlPlaneConfig *)
Definition alicloud_GetControlPlaneConfig (_ : list string) : result Raw := marshal alicloud_NewControlPlaneConfig.

End Config.
