(* ===== verification/GdchConfig.v ===== *)
(** * The configuration of GDCH (hyperscaler/gdch/config.go, gdch/model.go) *)

From S2P Require Import Prelude Gardener Config ZonesGdch.

Local Open Scope string_scope.

(*@ src/pkg/gardener/shoot/hyperscaler/gdch/model.go:26-30 ParentReference *)
Record ParentReference := mkParentReference { prName : string; prNamespace : string; prType : string }.

(*@ src/pkg/gardener/shoot/hyperscaler/gdch/model.go:15-19 NetworkConfig *)
Record gdch_NetworkConfig := mkNetworkConfig {
  NodeCIDR : string;
  ncZones : list gdch_Zone;
  ncParentReference : ParentReference
}.

(*@ src/pkg/gardener/shoot/hyperscaler/gdch/model.go:5-9 InfrastructureConfig *)
Record gdch_InfrastructureConfig := mkInfrastructureConfig {
  icKind : string;
  icAPIVersion : string;
  EnableEgress : bool;
  Networks : gdch_NetworkConfig
}.

(*@ src/pkg/gardener/shoot/hyperscaler/gdch/model.go:11-13 ControlPlaneConfig *)
Record gdch_ControlPlaneConfig := mkControlPlaneConfig { cpKind : string; cpAPIVersion : string }.

(*@consts src/pkg/gardener/shoot/hyperscaler/gdch/config.go:10-14 *)
Definition gdch_infrastructureConfigKind : string := "InfrastructureConfig".
Definition gdch_controlPlaneConfigKind : string := "ControlPlaneConfig".
Definition gdch_apiVersion : string := "gdch.provider.extensions.gardener.gdc.goog/v1alpha1".

(*@ src/pkg/gardener/shoot/hyperscaler/gdch/config.go:25-49 NewInfrastructureConfig *)
Definition gdch_NewInfrastructureConfig (workerCIDR : string) (zonesName : list string) (gdhcConfig : GDCHConfig) :
    result gdch_InfrastructureConfig :=
  gdchZones ← generateGDCHZones workerCIDR zonesName;
  Ok (mkInfrastructureConfig gdch_infrastructureConfigKind gdch_apiVersion true
        (mkNetworkConfig workerCIDR gdchZones
           (mkParentReference (ParentReferenceName gdhcConfig) (ParentReferenceNamespace gdhcConfig)
              (ParentReferenceType gdhcConfig)))).

(*@ src/pkg/gardener/shoot/hyperscaler/gdch/config.go:55-62 NewControlPlaneConfig *)
Definition gdch_NewControlPlaneConfig : gdch_ControlPlaneConfig := mkControlPlaneConfig gdch_controlPlaneConfigKind gdch_apiVersion.

Section Config.
Context `{Codec gdch_InfrastructureConfig} `{Codec gdch_ControlPlaneConfig}.

(*@ src/pkg/gardener/shoot/hyperscaler/gdch/config.go:16-23 GetInfrastructureConfig *)
Definition gdch_GetInfrastructureConfig (workerCIDR : string) (zonesName : list string) (gdhcConfig : GDCHConfig) :
    result Raw :=
  config ← gdch_NewInfrastructureConfig workerCIDR zonesName gdhcConfig; marshal config.

(*@ src/pkg/gardener/shoot/hyperscaler/gdch/config.go:51-53 GetControlPlaneConfig *)
Definition gdch_GetControlPlaneConfig (_ : list string) : result Raw := marshal gdch_NewControlPlaneConfig.

End Config.
