(* ===== verification/ConverterApi.v ===== *)
(** * The interface of the Shoot converter (pkg/gardener/shoot)

    What the state machine asks of the converter and what it relies on.  The
    options are the structs of converter.go. *)

From S2P Require Import Prelude Kube Gardener RuntimeApi Objects Effects Config AuditLog.

Local Open Scope string_scope.

(*@ src/pkg/gardener/shoot/extender/auditlogs/auditlogs_configuration.go:13-17 AuditLogData *)
Record ShootAuditLogData := mkShootAuditLogData {
  salTenantID : string;
  salServiceURL : string;
  salSecretName : string
}.

#[export] Instance ShootAuditLogData_eq_dec : EqDecision ShootAuditLogData.
Proof. solve_decision. Defined.

Definition emptyShootAuditLogData : ShootAuditLogData := mkShootAuditLogData "" "" "".

(*@ src/pkg/gardener/shoot/converter.go:52-59 CreateOpts *)
Record CreateOpts := mkCreateOpts {
  coConverterConfig : ConverterConfig;
  coAuditLogData : ShootAuditLogData;
  coMaintenanceTimeWindow : option MaintenanceTimeWindow;
  coApiServerAclEnabled : bool;
  coNetworkRestrictionGlobalEnabled : bool
}.

(*@ src/pkg/gardener/shoot/converter.go:61-76 PatchOpts *)
Record PatchOpts := mkPatchOpts {
  poConverterConfig : ConverterConfig;
  poAuditLogData : ShootAuditLogData;
  poMaintenanceTimeWindow : option MaintenanceTimeWindow;
  poShootK8SVersion : string;
  poWorkers : list Worker;
  poExtensions : list Extension;
  poResources : list NamedResourceReference;
  poInfrastructureConfig : option Raw;
  poControlPlaneConfig : option Raw;
  poApiServerAclEnabled : bool;
  poNetworkRestrictionGlobalEnabled : bool;
  poExistingDNS : option ShootDNS;
  poRegistryCacheGardenSecretNames : gmap string string
}.

(** A conversion returns a Shoot or an error.  The Runtime it is given shares
    pointers with the caller's, and the resources of a patch are a slice of the
    caller's Shoot: the conversion also returns both as the caller sees them
    afterwards. *)
Record conversion := mkConversion {
  cvRuntime : Runtime;
  cvResources : list NamedResourceReference;
  cvShoot : result Shoot
}.

Class ShootConverter := {
  toShootCreate : CreateOpts -> Runtime -> prog conversion;
  toShootPatch : PatchOpts -> Runtime -> prog conversion
}.

(** The converter reads config maps of the operator's namespace and nothing else. *)
Definition converterCall (c : call) : Prop :=
  match c with CGet Kcp KConfigMap key => nn_Namespace key = "kcp-system" | _ => False end.

(** The Runtime keeps its identity, metadata and status. *)
Definition sameIdentity (rt rt' : Runtime) : Prop :=
  rtMeta rt' = rtMeta rt /\ rtStatus rt' = rtStatus rt /\
  rsName (rShoot (rtSpec rt')) = rsName (rShoot (rtSpec rt)).

(** A worker of the Runtime after a conversion: what lies behind its pointers may
    have changed (machine image, kubelet configuration, container runtimes, machine
    controller settings); nil pointers stay nil. *)
Definition stillNil {A} (x y : option A) : Prop := x = None -> y = None.
Definition sameWorker (w w' : Worker) : Prop :=
  wName w' = wName w /\ wMachineType w' = wMachineType w /\ wMinimum w' = wMinimum w /\ wMaximum w' = wMaximum w /\
  wZones w' = wZones w /\ wProviderConfig w' = wProviderConfig w /\ wUpdateStrategy w' = wUpdateStrategy w /\
  wRest w' = wRest w /\
  stillNil (wMachineImage w) (wMachineImage w') /\ stillNil (wKubernetes w) (wKubernetes w') /\
  stillNil (wCRI w) (wCRI w') /\ stillNil (wMCMSettings w) (wMCMSettings w').

(** The rest of the specification is the user's. *)
Definition sameProvider (p p' : RuntimeProvider) : Prop :=
  rpType p' = rpType p /\ rpControlPlaneConfig p' = rpControlPlaneConfig p /\
  rpInfrastructureConfig p' = rpInfrastructureConfig p /\
  Forall2 sameWorker (rpWorkers p) (rpWorkers p') /\
  option_Forall2 (Forall2 sameWorker) (rpAdditionalWorkers p) (rpAdditionalWorkers p').
Definition sameUserSpec (sp sp' : RuntimeSpec) : Prop :=
  let rs := rShoot sp in
  rSecurity sp' = rSecurity sp /\ rCaching sp' = rCaching sp /\ rAuditLogAccessEnabled sp' = rAuditLogAccessEnabled sp /\
  exists p', sameProvider (rsProvider rs) p' /\
    rShoot sp' =
      mkRuntimeShoot (rsName rs) (rsPurpose rs) (rsPlatformRegion rs) (rsRegion rs) (rsLicenceType rs)
        (rsSecretBindingName rs) (rsEnforceSeedLocation rs) (rsEnableNvidiaOpenshell rs) (rsKubernetes rs)
        p' (rsNetworking rs) (rsControlPlane rs).

#[export] Instance sameWorker_preorder : PreOrder sameWorker.
Proof.
  split.
  - intros w. unfold sameWorker, stillNil. tauto.
  - unfold sameWorker, stillNil. intros a b c (?&?&?&?&?&?&?&?&?&?&?&?) (?&?&?&?&?&?&?&?&?&?&?&?).
    split_and!; first [congruence | auto].
Qed.

#[export] Instance sameUserSpec_preorder : PreOrder sameUserSpec.
Proof.
  split.
  - intros sp. split_and!; try done. exists (rsProvider (rShoot sp)). split; [|by destruct (rShoot sp)].
    by split_and!.
  - intros a b c (E1 & E2 & E3 & p & (?&?&?&Hw&Ha) & Ep) (F1 & F2 & F3 & q & (?&?&?&Hw'&Ha') & Eq).
    rewrite Ep in *. cbn in *. split_and!; try congruence. exists q. split; [|exact Eq].
    split_and!; try congruence; [by etrans|].
    destruct Ha as [x y Hxy|]; inversion Ha'; subst; constructor. by etrans.
Qed.

(** The Shoot is the one the Runtime names, in the namespace of the project. *)
Definition namesShoot (cfg : ConverterConfig) (rt : Runtime) (r : result Shoot) : Prop :=
  match r with
  | Err _ => True
  | Ok sh =>
      Name (shootMeta sh) = rsName (rShoot (rtSpec rt)) /\
      Namespace (shootMeta sh) = "garden-" +:+ ProjectName (ccGardener cfg)
  end.

(** What the state machine relies on: only those calls, whatever the answers; a
    Shoot named after the Runtime; a Runtime that keeps its identity and, when a
    patch succeeds, the specification its user wrote; and panics only on the inputs
    the converter declares. *)
Class ConverterOk `{ShootConverter} := {
  createPanics : CreateOpts -> Runtime -> Prop;
  patchPanics : PatchOpts -> Runtime -> Prop;
  create_ok R G opts rt h (Q : outcome conversion -> history -> Prop) :
    (forall h' c, converterCall c -> G h' c) ->
    (forall cv h', extends converterCall h h' -> sameIdentity rt (cvRuntime cv) ->
       namesShoot (coConverterConfig opts) rt (cvShoot cv) -> Q (Done cv) h') ->
    (createPanics opts rt -> forall h', extends converterCall h h' -> Q Panicked h') ->
    wp R G (toShootCreate opts rt) h Q;
  patch_ok R G opts rt h (Q : outcome conversion -> history -> Prop) :
    (forall h' c, converterCall c -> G h' c) ->
    (forall cv h', extends converterCall h h' -> sameIdentity rt (cvRuntime cv) ->
       namesShoot (poConverterConfig opts) rt (cvShoot cv) ->
       (forall shoot, cvShoot cv = Ok shoot -> sameUserSpec (rtSpec rt) (rtSpec (cvRuntime cv))) -> Q (Done cv) h') ->
    (patchPanics opts rt -> forall h', extends converterCall h h' -> Q Panicked h') ->
    wp R G (toShootPatch opts rt) h Q
}.
