(* ===== verification/Extenders.v ===== *)
(** * The small extenders of a Shoot (pkg/gardener/shoot/extender)

    Each extender sets one part of the Shoot from the Runtime and the
    configuration.  None of them changes the Runtime; the extender of resources
    writes to a slice that its caller also holds, which is a second result. *)

From S2P Require Import Prelude Sscanf Kube Gardener RuntimeApi Objects Config Duration ConverterApi.

Local Open Scope string_scope.

(** ** Assignments to fields *)

Definition set_cloud_profile (sp : ShootSpec) (v : option (string * string)) : ShootSpec :=
  mkShootSpec (ssPurpose sp) (ssRegion sp) (ssControlPlane sp) v (ssDNS sp) (ssExtensions sp)
    (ssKubernetes sp) (ssNetworking sp) (ssProvider sp) (ssSecretBindingName sp)
    (ssCredentialsBindingName sp) (ssSeedName sp) (ssSeedSelector sp) (ssResources sp)
    (ssTolerations sp) (ssExposureClassName sp) (ssAccessRestrictions sp) (ssMaintenance sp).
Definition set_dns (sp : ShootSpec) (v : option ShootDNS) : ShootSpec :=
  mkShootSpec (ssPurpose sp) (ssRegion sp) (ssControlPlane sp) (ssCloudProfile sp) v
    (ssExtensions sp) (ssKubernetes sp) (ssNetworking sp) (ssProvider sp)
    (ssSecretBindingName sp) (ssCredentialsBindingName sp) (ssSeedName sp) (ssSeedSelector sp)
    (ssResources sp) (ssTolerations sp) (ssExposureClassName sp) (ssAccessRestrictions sp)
    (ssMaintenance sp).
Definition set_extensions (sp : ShootSpec) (v : list Extension) : ShootSpec :=
  mkShootSpec (ssPurpose sp) (ssRegion sp) (ssControlPlane sp) (ssCloudProfile sp) (ssDNS sp) v
    (ssKubernetes sp) (ssNetworking sp) (ssProvider sp) (ssSecretBindingName sp)
    (ssCredentialsBindingName sp) (ssSeedName sp) (ssSeedSelector sp) (ssResources sp)
    (ssTolerations sp) (ssExposureClassName sp) (ssAccessRestrictions sp) (ssMaintenance sp).
Definition set_kubernetes (sp : ShootSpec) (v : ShootKubernetes) : ShootSpec :=
  mkShootSpec (ssPurpose sp) (ssRegion sp) (ssControlPlane sp) (ssCloudProfile sp) (ssDNS sp)
    (ssExtensions sp) v (ssNetworking sp) (ssProvider sp) (ssSecretBindingName sp)
    (ssCredentialsBindingName sp) (ssSeedName sp) (ssSeedSelector sp) (ssResources sp)
    (ssTolerations sp) (ssExposureClassName sp) (ssAccessRestrictions sp) (ssMaintenance sp).
Definition set_networking (sp : ShootSpec) (v : option ShootNetworking) : ShootSpec :=
  mkShootSpec (ssPurpose sp) (ssRegion sp) (ssControlPlane sp) (ssCloudProfile sp) (ssDNS sp)
    (ssExtensions sp) (ssKubernetes sp) v (ssProvider sp) (ssSecretBindingName sp)
    (ssCredentialsBindingName sp) (ssSeedName sp) (ssSeedSelector sp) (ssResources sp)
    (ssTolerations sp) (ssExposureClassName sp) (ssAccessRestrictions sp) (ssMaintenance sp).
Definition set_provider (sp : ShootSpec) (v : ShootProvider) : ShootSpec :=
  mkShootSpec (ssPurpose sp) (ssRegion sp) (ssControlPlane sp) (ssCloudProfile sp) (ssDNS sp)
    (ssExtensions sp) (ssKubernetes sp) (ssNetworking sp) v (ssSecretBindingName sp)
    (ssCredentialsBindingName sp) (ssSeedName sp) (ssSeedSelector sp) (ssResources sp)
    (ssTolerations sp) (ssExposureClassName sp) (ssAccessRestrictions sp) (ssMaintenance sp).
Definition set_seed_selector (sp : ShootSpec) (v : option (gmap string string)) : ShootSpec :=
  mkShootSpec (ssPurpose sp) (ssRegion sp) (ssControlPlane sp) (ssCloudProfile sp) (ssDNS sp)
    (ssExtensions sp) (ssKubernetes sp) (ssNetworking sp) (ssProvider sp)
    (ssSecretBindingName sp) (ssCredentialsBindingName sp) (ssSeedName sp) v (ssResources sp)
    (ssTolerations sp) (ssExposureClassName sp) (ssAccessRestrictions sp) (ssMaintenance sp).
Definition set_resources (sp : ShootSpec) (v : list NamedResourceReference) : ShootSpec :=
  mkShootSpec (ssPurpose sp) (ssRegion sp) (ssControlPlane sp) (ssCloudProfile sp) (ssDNS sp)
    (ssExtensions sp) (ssKubernetes sp) (ssNetworking sp) (ssProvider sp)
    (ssSecretBindingName sp) (ssCredentialsBindingName sp) (ssSeedName sp) (ssSeedSelector sp) v
    (ssTolerations sp) (ssExposureClassName sp) (ssAccessRestrictions sp) (ssMaintenance sp).
Definition set_tolerations (sp : ShootSpec) (v : list Toleration) : ShootSpec :=
  mkShootSpec (ssPurpose sp) (ssRegion sp) (ssControlPlane sp) (ssCloudProfile sp) (ssDNS sp)
    (ssExtensions sp) (ssKubernetes sp) (ssNetworking sp) (ssProvider sp)
    (ssSecretBindingName sp) (ssCredentialsBindingName sp) (ssSeedName sp) (ssSeedSelector sp)
    (ssResources sp) v (ssExposureClassName sp) (ssAccessRestrictions sp) (ssMaintenance sp).
Definition set_exposure_class (sp : ShootSpec) (v : option string) : ShootSpec :=
  mkShootSpec (ssPurpose sp) (ssRegion sp) (ssControlPlane sp) (ssCloudProfile sp) (ssDNS sp)
    (ssExtensions sp) (ssKubernetes sp) (ssNetworking sp) (ssProvider sp)
    (ssSecretBindingName sp) (ssCredentialsBindingName sp) (ssSeedName sp) (ssSeedSelector sp)
    (ssResources sp) (ssTolerations sp) v (ssAccessRestrictions sp) (ssMaintenance sp).
Definition set_restrictions (sp : ShootSpec) (v : list AccessRestriction) : ShootSpec :=
  mkShootSpec (ssPurpose sp) (ssRegion sp) (ssControlPlane sp) (ssCloudProfile sp) (ssDNS sp)
    (ssExtensions sp) (ssKubernetes sp) (ssNetworking sp) (ssProvider sp)
    (ssSecretBindingName sp) (ssCredentialsBindingName sp) (ssSeedName sp) (ssSeedSelector sp)
    (ssResources sp) (ssTolerations sp) (ssExposureClassName sp) v (ssMaintenance sp).
Definition set_maintenance (sp : ShootSpec) (v : option Maintenance) : ShootSpec :=
  mkShootSpec (ssPurpose sp) (ssRegion sp) (ssControlPlane sp) (ssCloudProfile sp) (ssDNS sp)
    (ssExtensions sp) (ssKubernetes sp) (ssNetworking sp) (ssProvider sp)
    (ssSecretBindingName sp) (ssCredentialsBindingName sp) (ssSeedName sp) (ssSeedSelector sp)
    (ssResources sp) (ssTolerations sp) (ssExposureClassName sp) (ssAccessRestrictions sp) v.
Definition onSpec (shoot : Shoot) (f : ShootSpec -> ShootSpec) : Shoot :=
  shoot_with_spec shoot (f (shootSpec shoot)).

Definition emptyKubeAPIServer : KubeAPIServerConfig := mkKubeAPIServer ∅ ∅ None None None None.

(** [shoot.Spec.Kubernetes.KubeAPIServer], created when it is nil. *)
Definition onKubeAPIServer (shoot : Shoot) (f : KubeAPIServerConfig -> KubeAPIServerConfig) : Shoot :=
  onSpec shoot (fun sp =>
    let k := ssKubernetes sp in
    set_kubernetes sp
      (mkShootKubernetes (skVersion k) (Some (f (default emptyKubeAPIServer (skKubeAPIServer k))))
         (skKubelet k))).

(*@ src/pkg/gardener/shoot/converter.go:23-23 Extend *)
Definition Extend : Type := Runtime -> Shoot -> result Shoot.

(** ** Metadata *)

(*@consts src/pkg/gardener/shoot/extender/annotations.go:15-26 *)
Definition ShootRuntimeGenerationAnnotation : string := "infrastructuremanager.kyma-project.io/runtime-generation".
Definition ShootRuntimeIDAnnotation : string := "infrastructuremanager.kyma-project.io/runtime-id".
Definition ShootLicenceTypeAnnotation : string := "infrastructuremanager.kyma-project.io/licence-type".
Definition RuntimeIDLabel : string := "kyma-project.io/runtime-id".
Definition ShootCleanupExtendedApisGracePeriodAnnotation : string :=
  "shoot.gardener.cloud/cleanup-extended-apis-finalize-grace-period-seconds".
Definition DefaultShootCleanupExtendedApisGracePeriodValue : string := "120".
Definition ShootCleanupKubernetesResourcesGracePeriodAnnotation : string :=
  "shoot.gardener.cloud/cleanup-kubernetes-resources-finalize-grace-period-seconds".
Definition DefaultCleanupKubernetesResourcesGracePeriodValue : string := "120".
Definition ShootCleanupWebhooksGracePeriodAnnotation : string :=
  "shoot.gardener.cloud/cleanup-webhooks-finalize-grace-period-seconds".
Definition DefaultCleanupWebhooksGracePeriodValue : string := "60".

(*@ src/pkg/gardener/shoot/extender/annotations.go:34-48 getAnnotations *)
Definition getAnnotations (runtime : Runtime) : gmap string string :=
  let annotations :=
    <[ShootRuntimeIDAnnotation := mapGet (Labels (rtMeta runtime)) RuntimeIDLabel]>
    (<[ShootRuntimeGenerationAnnotation := pretty (Generation (rtMeta runtime))]>
    (<[ShootCleanupExtendedApisGracePeriodAnnotation := DefaultShootCleanupExtendedApisGracePeriodValue]>
    (<[ShootCleanupKubernetesResourcesGracePeriodAnnotation :=
         DefaultCleanupKubernetesResourcesGracePeriodValue]>
    {[ShootCleanupWebhooksGracePeriodAnnotation := DefaultCleanupWebhooksGracePeriodValue]}))) in
  match rsLicenceType (rShoot (rtSpec runtime)) with
  | Some licence =>
      if negb (String.eqb licence "") then <[ShootLicenceTypeAnnotation := licence]> annotations
      else annotations
  | None => annotations
  end.

(*@ src/pkg/gardener/shoot/extender/annotations.go:28-32 ExtendWithAnnotations *)
Definition ExtendWithAnnotations : Extend := fun runtime shoot =>
  Ok (shoot_with_meta shoot (meta_with_annotations (shootMeta shoot) (getAnnotations runtime))).

(*@consts src/pkg/gardener/shoot/extender/labels.go:12-17 *)
Definition RuntimeGlobalAccountLabel : string := "kyma-project.io/global-account-id".
Definition RuntimeSubaccountLabel : string := "kyma-project.io/subaccount-id".
Definition ShootGlobalAccountLabel : string := "account".
Definition ShootSubAccountLabel : string := "subaccount".

(*@ src/pkg/gardener/shoot/extender/labels.go:19-28 ExtendWithLabels *)
Definition ExtendWithLabels : Extend := fun runtime shoot =>
  let labels : gmap string string :=
    <[ShootGlobalAccountLabel := mapGet (Labels (rtMeta runtime)) RuntimeGlobalAccountLabel]>
    {[ShootSubAccountLabel := mapGet (Labels (rtMeta runtime)) RuntimeSubaccountLabel]} in
  Ok (shoot_with_meta shoot (meta_with_labels (shootMeta shoot) labels)).

(** ** Placement *)

(*@consts src/pkg/gardener/shoot/extender/seed_selector.go:9-11 *)
Definition seedRegionSelectorLabel : string := "seed.gardener.cloud/region".

(*@ src/pkg/gardener/shoot/extender/seed_selector.go:15-26 ExtendWithSeedSelector *)
Definition ExtendWithSeedSelector : Extend := fun runtime shoot =>
  let rs := rShoot (rtSpec runtime) in
  if isTrue (rsEnforceSeedLocation rs) && negb (String.eqb (rsRegion rs) "")
  then Ok (onSpec shoot (fun sp => set_seed_selector sp (Some {[seedRegionSelectorLabel := rsRegion rs]})))
  else Ok shoot.

(*@consts src/pkg/gardener/shoot/extender/cloud_profile.go:10-18 *)
Definition DefaultAWSCloudProfileName : string := "aws".
Definition DefaultAzureCloudProfileName : string := "az".
Definition DefaultGCPCloudProfileName : string := "gcp".
Definition DefaultGDCHCloudProfileName : string := "cat".
Definition DefaultOpenStackCloudProfileName : string := "converged-cloud-kyma".
Definition DefaultAlicloudCloudProfileName : string := "alicloud".
Definition CloudProfileKind : string := "CloudProfile".

(*@ src/pkg/gardener/shoot/extender/cloud_profile.go:40-60 getCloudProfileName *)
Definition getCloudProfileName (runtime : Runtime) (gdchCloudProfileOverride : string) : result string :=
  let type := rpType (rsProvider (rShoot (rtSpec runtime))) in
  if String.eqb type TypeAWS then Ok DefaultAWSCloudProfileName
  else if String.eqb type TypeGCP then Ok DefaultGCPCloudProfileName
  else if String.eqb type TypeAzure then Ok DefaultAzureCloudProfileName
  else if String.eqb type TypeGDCH then
    if negb (String.eqb gdchCloudProfileOverride "") then Ok gdchCloudProfileOverride
    else Ok DefaultGDCHCloudProfileName
  else if String.eqb type TypeOpenStack then Ok DefaultOpenStackCloudProfileName
  else if String.eqb type TypeAlicloud then Ok DefaultAlicloudCloudProfileName
  else Err (newError "provider not supported").

(*@ src/pkg/gardener/shoot/extender/cloud_profile.go:20-38 ExtendWithCloudProfile *)
Definition ExtendWithCloudProfile (gdchCloudProfileOverride : string) : Extend := fun runtime shoot =>
  cloudProfileName ← getCloudProfileName runtime gdchCloudProfileOverride;
  Ok (onSpec shoot (fun sp => set_cloud_profile sp (Some (CloudProfileKind, cloudProfileName)))).

(*@ src/pkg/gardener/shoot/extender/exposure_classname_extender.go:11-17 ExtendWithExposureClassName *)
Definition ExtendWithExposureClassName : Extend := fun runtime shoot =>
  if String.eqb (rpType (rsProvider (rShoot (rtSpec runtime)))) TypeOpenStack
  then Ok (onSpec shoot (fun sp => set_exposure_class sp (Some "converged-cloud-internet")))
  else Ok shoot.

(** The loop over the map of tolerations. *)
(*@ src/pkg/gardener/shoot/extender/tolerations.go:9-19 NewTolerationsExtender *)
Fixpoint NewTolerationsExtender (config : list (string * list Toleration)) : Extend := fun runtime shoot =>
  match config with
  | [] => Ok shoot
  | (region, tolerations) :: rest =>
      NewTolerationsExtender rest runtime
        (if String.eqb (rsRegion (rShoot (rtSpec runtime))) region
         then onSpec shoot (fun sp => set_tolerations sp tolerations) else shoot)
  end.

(*@consts src/pkg/gardener/shoot/extender/restrictions/restrictions.go:8-18 *)
Definition euAccessAddons : string := "support.gardener.cloud/eu-access-for-cluster-addons".
Definition euAccessNodes : string := "support.gardener.cloud/eu-access-for-cluster-nodes".
Definition regions : list string := ["cf-eu11"; "cf-ch20"; "cf-eu01"; "cf-eu02"; "cf-eu31"].

(*@ src/pkg/gardener/shoot/extender/restrictions/restrictions.go:41-43 isEuAccess *)
Definition isEuAccess (platformRegion : string) : bool := slicesContains regions platformRegion.

(*@ src/pkg/gardener/shoot/extender/restrictions/restrictions.go:29-39 extendWithEuAccess *)
Definition extendWithEuAccess (shoot : Shoot) : Shoot :=
  onSpec shoot (fun sp =>
    set_restrictions sp
      (ssAccessRestrictions sp ++
       [mkAccessRestriction "eu-access-only"
          (<[euAccessAddons := "true"]> {[euAccessNodes := "true"]})])%list).

(*@ src/pkg/gardener/shoot/extender/restrictions/restrictions.go:20-27 ExtendWithAccessRestriction *)
Definition ExtendWithAccessRestriction : Extend := fun runtime shoot =>
  if isEuAccess (rsPlatformRegion (rShoot (rtSpec runtime))) then Ok (extendWithEuAccess shoot) else Ok shoot.

(** ** The API server *)

(*@consts src/pkg/gardener/shoot/extender/oidc.go:9-11 *)
Definition StructuredAuthConfigFmt (name : string) : string := "structured-auth-config-" +:+ name.

(*@ src/pkg/gardener/shoot/extender/oidc.go:13-27 NewOidcExtender *)
Definition NewOidcExtender : Extend := fun runtime shoot =>
  let cmName := StructuredAuthConfigFmt (rsName (rShoot (rtSpec runtime))) in
  Ok (onSpec shoot (fun sp =>
    set_kubernetes sp
      (mkShootKubernetes (skVersion (ssKubernetes sp))
         (Some (mkKubeAPIServer ∅ ∅ None (Some cmName) None None)) (skKubelet (ssKubernetes sp))))).

(*@ src/pkg/gardener/shoot/extender/featuregates.go:8-22 NewFeatureGatesExtender *)
Definition NewFeatureGatesExtender (apiServerFeatureGates kubeletFeatureGates : gmap string bool) : Extend :=
  fun runtime shoot =>
    let shoot := onKubeAPIServer shoot (fun k =>
      mkKubeAPIServer apiServerFeatureGates (kasRuntimeConfig k) (kasOIDCConfig k)
        (kasStructuredAuthentication k) (kasAuditPolicyConfigMap k) (kasServiceAccountConfig k)) in
    Ok (onSpec shoot (fun sp =>
      set_kubernetes sp (mkShootKubernetes (skVersion (ssKubernetes sp)) (skKubeAPIServer (ssKubernetes sp))
                           (Some kubeletFeatureGates)))).

(*@ src/pkg/gardener/shoot/extender/kubernetesruntimeconfig.go:8-18 NewKubernetesRuntimeConfigExtender *)
Definition NewKubernetesRuntimeConfigExtender (runtimeConfig : gmap string bool) : Extend :=
  fun runtime shoot =>
    Ok (onKubeAPIServer shoot (fun k =>
      mkKubeAPIServer (kasFeatureGates k) runtimeConfig (kasOIDCConfig k)
        (kasStructuredAuthentication k) (kasAuditPolicyConfigMap k) (kasServiceAccountConfig k))).

Definition setServiceAccount (shoot : Shoot) (f : ServiceAccountConfig -> ServiceAccountConfig) : Shoot :=
  onKubeAPIServer shoot (fun k =>
    mkKubeAPIServer (kasFeatureGates k) (kasRuntimeConfig k) (kasOIDCConfig k)
      (kasStructuredAuthentication k) (kasAuditPolicyConfigMap k)
      (Some (f (default (mkServiceAccountConfig None None) (kasServiceAccountConfig k))))).

(*@consts src/pkg/gardener/shoot/extender/token/tokenExpiration.go:12-13 *)
Definition upperBound : Z := 90 * 24 * Hour.
Definition lowerBound : Z := 30 * 24 * Hour.

(*@ src/pkg/gardener/shoot/extender/token/tokenExpiration.go:14-18 TimeBoundaries *)
Record TimeBoundaries := mkTimeBoundaries { TooShort : bool; TooLong : bool; NotDefined : bool }.

(*@ src/pkg/gardener/shoot/extender/token/tokenExpiration.go:43-58 ValidateTokenExpirationTime *)
Definition ValidateTokenExpirationTime (maxTokenExpiration : string) : result TimeBoundaries :=
  if String.eqb maxTokenExpiration "" then Ok (mkTimeBoundaries false false true)
  else
    parsed ← ParseDuration maxTokenExpiration;
    Ok (mkTimeBoundaries (parsed <? lowerBound)%Z (upperBound <? parsed)%Z false).

(** The value that ParseDuration returns with an error is 0. *)
(*@ src/pkg/gardener/shoot/extender/token/tokenExpiration.go:60-70 determineTokenExpiration *)
Definition determineTokenExpiration (result : TimeBoundaries) (maxTokenExpiration : string) : Z :=
  if TooShort result || NotDefined result then lowerBound
  else if TooLong result then upperBound
  else match ParseDuration maxTokenExpiration with Ok parsedDuration => parsedDuration | Err _ => 0 end.

(*@ src/pkg/gardener/shoot/extender/token/tokenExpiration.go:20-41 NewExpirationTimeExtender *)
Definition NewExpirationTimeExtender (maxTokenExpiration : string) : Extend := fun runtime shoot =>
  let shoot := setServiceAccount shoot (fun sa => mkServiceAccountConfig (Some false) (saMaxTokenExpiration sa)) in
  result ← ValidateTokenExpirationTime maxTokenExpiration;
  Ok (setServiceAccount shoot (fun sa =>
        mkServiceAccountConfig (saExtendTokenExpiration sa)
          (Some (determineTokenExpiration result maxTokenExpiration)))).

(** ** Versions, DNS, maintenance, bindings *)

Section Versions.
Context `{GardenerLib}.

(*@ src/pkg/gardener/shoot/extender/kubernetes.go:34-46 CompareVersions *)
Definition CompareVersions (prevVersion currVersion : string) : result Z :=
  semverCompare prevVersion currVersion.

(*@ src/pkg/gardener/shoot/extender/kubernetes.go:13-32 NewKubernetesExtender *)
Definition NewKubernetesExtender (defaultKubernetesVersion currentKubernetesVersion : string) : Extend :=
  fun runtime shoot =>
    let kubernetesVersion :=
      match rkVersion (rsKubernetes (rShoot (rtSpec runtime))) with
      | Some v => if String.eqb v "" then defaultKubernetesVersion else v
      | None => defaultKubernetesVersion
      end in
    let version :=
      if negb (String.eqb currentKubernetesVersion "") &&
         negb (String.eqb currentKubernetesVersion kubernetesVersion) then
        match CompareVersions kubernetesVersion currentKubernetesVersion with
        | Ok result => if (result <? 0)%Z then currentKubernetesVersion else kubernetesVersion
        | Err _ => kubernetesVersion
        end
      else kubernetesVersion in
    Ok (onSpec shoot (fun sp =>
      set_kubernetes sp (mkShootKubernetes version (skKubeAPIServer (ssKubernetes sp))
                           (skKubelet (ssKubernetes sp))))).

End Versions.

(*@ src/pkg/gardener/shoot/extender/dns.go:58-86 NewDNSExtenderForCreate *)
Definition NewDNSExtenderForCreate (secretName domainPrefix dnsProviderType : string) : Extend :=
  fun runtime shoot =>
    let domain := rsName (rShoot (rtSpec runtime)) +:+ "." +:+ domainPrefix in
    let provider := mkShootDNSProvider [domain] (Some true) (Some dnsProviderType)
                      (Some (mkObjRef "Secret" secretName "v1")) in
    Ok (onSpec shoot (fun sp => set_dns sp (Some (mkShootDNS (Some domain) [provider])))).

(*@ src/pkg/gardener/shoot/extender/dns.go:88-99 NewDNSExtenderForPatch *)
Definition NewDNSExtenderForPatch (secretName domainPrefix dnsProviderType : string)
    (existingDNS : option ShootDNS) : Extend := fun runtime shoot =>
  match existingDNS with
  | Some dns =>
      match dnsProviders dns with
      | [] => Ok (onSpec shoot (fun sp => set_dns sp (Some dns)))
      | _ => NewDNSExtenderForCreate secretName domainPrefix dnsProviderType runtime shoot
      end
  | None => NewDNSExtenderForCreate secretName domainPrefix dnsProviderType runtime shoot
  end.

(*@ src/pkg/gardener/shoot/extender/maintenance/maintenance.go:9-24 NewMaintenanceExtender *)
Definition NewMaintenanceExtender (enableKubernetesVersionAutoUpdate enableMachineImageVersionAutoUpdate : bool)
    (maintenanceTimeWindow : option MaintenanceTimeWindow) : Extend := fun runtime shoot =>
  Ok (onSpec shoot (fun sp =>
    set_maintenance sp (Some (mkMaintenance enableKubernetesVersionAutoUpdate
                                (Some enableMachineImageVersionAutoUpdate) maintenanceTimeWindow)))).

Definition set_bindings (sp : ShootSpec) (secretBinding credentialsBinding : option string) : ShootSpec :=
  mkShootSpec (ssPurpose sp) (ssRegion sp) (ssControlPlane sp) (ssCloudProfile sp) (ssDNS sp)
    (ssExtensions sp) (ssKubernetes sp) (ssNetworking sp) (ssProvider sp)
    secretBinding credentialsBinding (ssSeedName sp) (ssSeedSelector sp)
    (ssResources sp) (ssTolerations sp) (ssExposureClassName sp) (ssAccessRestrictions sp)
    (ssMaintenance sp).

(*@ src/pkg/gardener/shoot/extender/credentialsbinding.go:13-24 ExtendWithCredentialsBinding *)
Definition ExtendWithCredentialsBinding (credentialBindingEnabled : bool) : Extend := fun runtime shoot =>
  let name := Some (rsSecretBindingName (rShoot (rtSpec runtime))) in
  Ok (onSpec shoot (fun sp =>
    if credentialBindingEnabled then set_bindings sp None name
    else set_bindings sp name (ssCredentialsBindingName sp))).

(** ** Networking *)

(*@ src/pkg/gardener/shoot/extender/networking/networking.go:12-25 VXLanConfig *)
Record VXLanConfig := mkVXLanConfig {
  vxApiVersion : string;
  vxKind : string;
  VXlanEnabled : bool;
  OverlayEnabled : bool
}.

Section Networking.
Context `{Codec VXLanConfig}.

(*@ src/pkg/gardener/shoot/extender/networking/networking.go:67-84 networkingConfig *)
Definition networkingConfig : option Raw :=
  match marshal (mkVXLanConfig "calico.networking.extensions.gardener.cloud/v1alpha1" "NetworkConfig" true true)
  with
  | Ok providerJson => Some providerJson
  | Err _ => None
  end.

(*@ src/pkg/gardener/shoot/extender/networking/networking.go:40-45 canEnableDualStackIPs *)
Definition canEnableDualStackIPs (providerType : string) (dualStackForRuntime : option bool) : bool :=
  if negb (isTrue dualStackForRuntime) then false
  else String.eqb providerType TypeGCP || String.eqb providerType TypeAWS.

Definition onNetworking (shoot : Shoot) (f : ShootNetworking -> ShootNetworking) : Shoot :=
  onSpec shoot (fun sp =>
    set_networking sp (Some (f (default (mkShootNetworking None None None None [] None) (ssNetworking sp))))).

(*@ src/pkg/gardener/shoot/extender/networking/networking.go:47-55 extendWithDualIPs *)
Definition extendWithDualIPs (shoot : Shoot) : Shoot :=
  onNetworking shoot (fun n =>
    mkShootNetworking (snType n) (snPods n) (snNodes n) (snServices n) [IPFamilyIPv4; IPFamilyIPv6]
      (snProviderConfig n)).

(*@ src/pkg/gardener/shoot/extender/networking/networking.go:57-65 extendWithVXLan *)
Definition extendWithVXLan (shoot : Shoot) : Shoot :=
  onNetworking shoot (fun n =>
    mkShootNetworking (snType n) (snPods n) (snNodes n) (snServices n) (snIPFamilies n) networkingConfig).

(*@ src/pkg/gardener/shoot/extender/networking/networking.go:27-38 ExtendWithNetworking *)
Definition ExtendWithNetworking (infraSupportsDualStack : bool) : Extend := fun runtime shoot =>
  let rs := rShoot (rtSpec runtime) in
  let shoot :=
    if canEnableDualStackIPs (rpType (rsProvider rs)) (rnDualStack (rsNetworking rs)) && infraSupportsDualStack
    then extendWithDualIPs shoot else shoot in
  Ok (if String.eqb (rpType (rsProvider rs)) TypeGDCH then extendWithVXLan shoot else shoot).

End Networking.

(** ** Resources and audit logs *)

(*@consts src/pkg/gardener/shoot/extender/extensions/registry_config.go:15-15 *)
Definition RegistryCacheSecretPrefix : string := "reg-cache-".

Definition isRegistryCacheResource (r : NamedResourceReference) : bool :=
  strContains (resName r) RegistryCacheSecretPrefix.

(** The references of the caches that have a secret. *)
(*@ src/pkg/gardener/shoot/extender/resources.go:23-34 NewResourcesExtenderForPatch *)
Fixpoint cacheResources (caching : list ImageRegistryCache) (names : gmap string string) :
    list NamedResourceReference :=
  match caching with
  | [] => []
  | cache :: rest =>
      match rcSecretReferenceName (cacheConfig cache) with
      | Some secret =>
          if negb (String.eqb secret "") then
            [mkResource (mapGet names (cacheUID cache)) (mkObjRef "Secret" (mapGet names (cacheUID cache)) "v1")]
          else []
      | None => []
      end ++ cacheResources rest names
  end%list.

(** [nil] and empty lists of resources are the same here: a new Shoot has none. *)
(*@ src/pkg/gardener/shoot/extender/resources.go:12-38 NewResourcesExtenderForPatch *)
Definition NewResourcesExtenderForPatch (resources : list NamedResourceReference)
    (registryCacheGardenSecretNames : gmap string string) : Extend := fun r shoot =>
  let resources := List.filter (fun r => negb (isRegistryCacheResource r)) resources in
  Ok (onSpec shoot (fun sp =>
        set_resources sp
          ((match resources with [] => ssResources sp | _ => resources end) ++
           cacheResources (rCaching (rtSpec r)) registryCacheGardenSecretNames)%list)).

(** slices.DeleteFunc and the appends write to the array of the slice they are
    given: what its owner sees afterwards. *)
(*@ src/pkg/gardener/shoot/extender/resources.go:15-34 NewResourcesExtenderForPatch *)
Definition resourcesSeenByOwner (resources : list NamedResourceReference)
    (registryCacheGardenSecretNames : gmap string string) (r : Runtime) : list NamedResourceReference :=
  let kept := List.filter (fun r => negb (isRegistryCacheResource r)) resources in
  let zero := mkResource "" (mkObjRef "" "" "") in
  take (length resources)
    (kept ++ cacheResources (rCaching (rtSpec r)) registryCacheGardenSecretNames ++
     replicate (length resources) zero).

(*@consts src/pkg/gardener/shoot/extender/auditlogs/set_secret.go:10-10 *)
Definition auditlogSecretReference : string := "auditlog-credentials".

(*@ src/pkg/gardener/shoot/extender/auditlogs/set_secret.go:12-34 oSetSecret *)
Definition oSetSecret (secretName : string) (s : Shoot) : Shoot :=
  let resource := mkResource auditlogSecretReference (mkObjRef "Secret" secretName "v1") in
  onSpec s (fun sp =>
    set_resources sp
      (match slicesIndexFunc (ssResources sp) (fun r => String.eqb (resName r) auditlogSecretReference) with
       | None => (ssResources sp ++ [resource])%list
       | Some index => <[index := resource]> (ssResources sp)
       end)).

(*@ src/pkg/gardener/shoot/extender/auditlogs/set_policy_configmap.go:8-22 oSetPolicyConfigmap *)
Definition oSetPolicyConfigmap (policyConfigMapName : string) (s : Shoot) : Shoot :=
  onKubeAPIServer s (fun k =>
    mkKubeAPIServer (kasFeatureGates k) (kasRuntimeConfig k) (kasOIDCConfig k)
      (kasStructuredAuthentication k) (Some policyConfigMapName) (kasServiceAccountConfig k)).

(*@consts src/pkg/gardener/shoot/extender/auditlogs/extender.go:11-13 *)
Definition experimentalAuditPolicy : string := "experimental-audit-policy".
Definition experimentalAuditPolicyAnnotationName : string := "operator.kyma-project.io/" +:+ experimentalAuditPolicy.

(*@ src/pkg/gardener/shoot/extender/auditlogs/extender.go:19-25 fixPolicyConfigMapName *)
Definition fixPolicyConfigMapName (annotations : gmap string string) (defaultPolicyMapName : string) : string :=
  match annotations !! experimentalAuditPolicyAnnotationName with
  | Some annotationVal =>
      if String.eqb (toLower annotationVal) "true" then experimentalAuditPolicy else defaultPolicyMapName
  | None => defaultPolicyMapName
  end.

(*@ src/pkg/gardener/shoot/extender/auditlogs/extender.go:27-40 NewAuditlogExtender *)
Definition NewAuditlogExtender (policyConfigMapName : string) (data : ShootAuditLogData) : Extend := fun rt shoot =>
  let policyConfigMapName := fixPolicyConfigMapName (Annotations (rtMeta rt)) policyConfigMapName in
  Ok (oSetPolicyConfigmap policyConfigMapName (oSetSecret (salSecretName data) shoot)).

(** ** Properties *)

Lemma determineTokenExpiration_bounds t tb :
  ValidateTokenExpirationTime t = Ok tb ->
  let d := determineTokenExpiration tb t in
  (lowerBound <= d <= upperBound)%Z /\ forall p, ParseDuration t = Ok p -> (lowerBound <= p <= upperBound)%Z -> d = p.
Proof.
  assert (lowerBound < upperBound)%Z by (unfold lowerBound, upperBound, Hour, Minute, Second; lia).
  unfold ValidateTokenExpirationTime. destruct (String.eqb_spec t "") as [->|Hne].
  { intros [= <-]. cbn. split; [lia|]. intros p Hp. vm_compute in Hp. discriminate Hp. }
  intros (p & Hp & [= <-])%result_bind_Ok. unfold determineTokenExpiration.
  cbn [TooShort TooLong NotDefined]. rewrite Hp, orb_false_r.
  destruct (Z.ltb_spec p lowerBound); [split; [lia|]; intros ? [= <-]; lia|].
  destruct (Z.ltb_spec upperBound p); split; [lia| |lia|]; intros ? [= <-]; lia.
Qed.

(** NewExpirationTimeExtender: whatever the configured duration, tokens of the
    Shoot's service accounts live at least 30 and at most 90 days and are not
    extended; a duration between the bounds is kept; a text that is not a duration
    is an error. *)
Theorem token_expiration_bounded maxTokenExpiration runtime shoot :
  match NewExpirationTimeExtender maxTokenExpiration runtime shoot with
  | Ok shoot' =>
      exists k d, skKubeAPIServer (ssKubernetes (shootSpec shoot')) = Some k /\
        kasServiceAccountConfig k = Some (mkServiceAccountConfig (Some false) (Some d)) /\
        (lowerBound <= d <= upperBound)%Z /\
        forall p, ParseDuration maxTokenExpiration = Ok p -> (lowerBound <= p <= upperBound)%Z -> d = p
  | Err _ => maxTokenExpiration <> "" /\ isOk (ParseDuration maxTokenExpiration) = false
  end.
Proof.
  unfold NewExpirationTimeExtender.
  destruct (ValidateTokenExpirationTime maxTokenExpiration) as [tb|e] eqn:Hv; cbn [mbind result_bind].
  - do 2 eexists. split; [reflexivity|]. split; [reflexivity|]. by apply determineTokenExpiration_bounds.
  - unfold ValidateTokenExpirationTime in Hv. destruct (String.eqb_spec maxTokenExpiration ""); [done|].
    split; [done|]. by destruct (ParseDuration maxTokenExpiration).
Qed.

(** [v] is not an older version than [w], where the two can be compared. *)
Definition notOlder `{GardenerLib} (v w : string) : Prop :=
  forall r, semverCompare v w = Ok r -> (0 <= r)%Z.

(** NewKubernetesExtender never downgrades: when the version asked for (by the
    Runtime, else by the configuration) and the current version of the Shoot can be
    compared, the new version is one of the two and not older than either. *)
Theorem kubernetes_version_not_downgraded `{GardenerLaws} def current runtime shoot shoot' :
  let wanted :=
    match rkVersion (rsKubernetes (rShoot (rtSpec runtime))) with
    | Some v => if String.eqb v "" then def else v
    | None => def
    end in
  current <> "" -> isOk (semverCompare wanted current) = true ->
  NewKubernetesExtender def current runtime shoot = Ok shoot' ->
  let v := skVersion (ssKubernetes (shootSpec shoot')) in
  (v = wanted \/ v = current) /\ notOlder v current /\ notOlder v wanted.
Proof.
  intros wanted Hc [r Hr]%isOk_true [= <-] v. subst v. cbn. fold wanted.
  assert (forall x, notOlder x x) as Hrefl by (intros x r' ->%semver_refl; lia).
  unfold CompareVersions. rewrite Hr. destruct (String.eqb_spec current ""); [done|]. cbn.
  destruct (String.eqb_spec current wanted) as [->|Hne]; cbn; [auto|].
  destruct (Z.ltb_spec r 0); split_and!; auto.
  - intros r' Hr'. apply semver_antisym in Hr. rewrite Hr in Hr'. injection Hr' as <-. lia.
  - intros r' Hr'. rewrite Hr in Hr'. injection Hr' as <-. lia.
Qed.

(** A library whose versions are plain numbers. *)
#[local] Instance numberVersions : GardenerLib := {|
  errorCodeText _ := "";
  HasNonRetryableErrorCode _ := false;
  GetCondition cs t := List.find (fun c => bool_decide (scType c = t)) cs;
  semverCompare v w := a ← Atoi v; b ← Atoi w; Ok (Z.sgn (a - b))
|}.

#[local] Instance numberVersions_laws : GardenerLaws.
Proof.
  split; cbn.
  - intros cs t c [Hin Ht]%find_some. apply bool_decide_eq_true in Ht. split; [done|]. by apply list_elem_of_In.
  - intros cs t Hn c Hc Ht. apply list_elem_of_In in Hc.
    eapply find_none in Hn; [|exact Hc]. by apply bool_decide_eq_false in Hn.
  - intros v r. destruct (Atoi v); [|done]. cbn. intros [= <-]. by rewrite Z.sub_diag.
  - intros v w r. destruct (Atoi v) as [a|], (Atoi w) as [b|]; try done. cbn.
    intros [= <-]. f_equal. rewrite <- Z.sgn_opp. f_equal. lia.
Defined.

(** A Runtime for examples. *)
Definition exampleRuntime (providerType : string) (version : option string) (workers : list Worker)
    (additional : option (list Worker)) : Runtime :=
  mkRuntime (metaNamed "rt" "kcp-system")
    (mkRuntimeSpec
       (mkRuntimeShoot "shoot" "" "eu" "eu" None "" None None
          (mkRuntimeKubernetes version
             (mkRuntimeAPIServer (mkOIDC None None None None ∅ [] None None) None None))
          (mkRuntimeProvider providerType workers additional None None)
          (mkRuntimeNetworking None "100.64.0.0/12" "10.250.0.0/16" "100.104.0.0/13" None None) None)
       (mkSecurity [] (mkFilter None false)) [] None)
    (mkStatus "" [] false None [] "").

Lemma kubernetes_version_not_downgraded_witness :
  exists shoot', NewKubernetesExtender "30" "33" (exampleRuntime "aws" (Some "32") [] None) emptyShoot = Ok shoot' /\
    skVersion (ssKubernetes (shootSpec shoot')) = "33" /\
    notOlder (skVersion (ssKubernetes (shootSpec shoot'))) "32".
Proof.
  eexists. split; [reflexivity|]. split; [reflexivity|].
  apply (kubernetes_version_not_downgraded "30" "33" (exampleRuntime "aws" (Some "32") [] None) emptyShoot);
    [done|vm_compute; reflexivity|reflexivity].
Defined.
