(* ===== verification/Workers.v ===== *)
(** * Workers of a Shoot (extender/provider/provider.go, extender/workers)

    What the provider extender does to the list of workers: their order, zones,
    machine images, machine controller settings and container runtimes, and their
    alignment with the workers Gardener already has. *)

From S2P Require Import Prelude Sscanf Kube Gardener RuntimeApi Objects Effects Config Duration.
From S2P Require Import MaxPods AuditLog ConverterApi Extenders.

Local Open Scope string_scope.

(** ** Machine controller settings *)

(*@consts src/pkg/gardener/shoot/extender/workers/machinecontroller/machinecontroller.go:13-16 *)
Definition defaultDrainTimeout : string := "15m".
Definition defaultEvictRetries : string := "2".

(*@ src/pkg/gardener/shoot/extender/workers/machinecontroller/machinecontroller.go:50-55 parseDrainTimeoutOrDefault *)
Definition parseDrainTimeoutOrDefault (drainTimeout : string) : result Z :=
  ParseDuration (if String.eqb drainTimeout "" then defaultDrainTimeout else drainTimeout).

(*@ src/pkg/gardener/shoot/extender/workers/machinecontroller/machinecontroller.go:57-62 parseEvictRetriesOrDefault *)
Definition parseEvictRetriesOrDefault (evictRetries : string) : result Z :=
  ParseInt32 (if String.eqb evictRetries "" then defaultEvictRetries else evictRetries).

(*@ src/pkg/gardener/shoot/extender/workers/machinecontroller/machinecontroller.go:34-48 setMachineControllerManagerConfig *)
Fixpoint setMachineControllerManagerConfig (workers : list Worker) (drainTimeout evictRetries : Z) : list Worker :=
  match workers with
  | [] => []
  | w :: rest =>
      let settings := default (mkMCM None None "") (wMCMSettings w) in
      worker_with_mcm w
        (Some (mkMCM (Some (default drainTimeout (mcmMachineDrainTimeout settings)))
                 (Some (default (int32 evictRetries) (mcmMaxEvictRetries settings))) (mcmRest settings)))
        :: setMachineControllerManagerConfig rest drainTimeout evictRetries
  end.

(*@ src/pkg/gardener/shoot/extender/workers/machinecontroller/machinecontroller.go:18-32 ApplyMachineControllerManagerConfig *)
Definition ApplyMachineControllerManagerConfig (workers : list Worker) (drainTimeout evictRetries : string) :
    result (list Worker) :=
  timeout ← mapErr (wrapError "cannot parse drain timeout") (parseDrainTimeoutOrDefault drainTimeout);
  retries ← mapErr (wrapError "cannot parse the value for evict retries") (parseEvictRetriesOrDefault evictRetries);
  Ok (setMachineControllerManagerConfig workers timeout retries).

(** ** Zones *)

(** [append] of what is not there yet. *)
Fixpoint addMissing (zones more : list string) : list string :=
  match more with
  | [] => zones
  | zone :: rest =>
      addMissing (if slicesContains zones zone then zones else (zones ++ [zone])%list) rest
  end.

(*@ src/pkg/gardener/shoot/extender/provider/provider.go:269-281 getNetworkingZonesFromWorkers *)
Definition getNetworkingZonesFromWorkers (workers : list Worker) : list string :=
  foldl (fun zones worker => addMissing zones (wZones worker)) [] workers.

(*@ src/pkg/gardener/shoot/extender/provider/provider.go:158-167 newZonesAdded *)
Definition newZonesAdded (existingZones newZones : list string) : list string :=
  List.filter (fun zone => negb (slicesContains existingZones zone)) newZones.

(** ** Order

    sort.Slice calls [less] with positions.  Up to twelve elements it is an
    insertion sort; for more it chooses a quicksort, of which only is used that it
    reorders the positions. *)
Class SortLib := { pdqOrder : (nat -> nat -> bool) -> nat -> list nat }.
Class SortLaws `{SortLib} : Prop := { pdq_perm less n : pdqOrder less n ≡ₚ seq 0 n }.

Section Sort.
Context `{SortLib} {A : Type} (less : nat -> nat -> bool).

Definition swap (l : list A) (i j : nat) : list A :=
  match l !! i, l !! j with
  | Some x, Some y => <[i := y]> (<[j := x]> l)
  | _, _ => l
  end.

(** The inner loop: the element at [j] moves down as long as it is less. *)
Fixpoint sink (j : nat) (l : list A) : list A :=
  match j with
  | O => l
  | S j' => if less j j' then sink j' (swap l j j') else l
  end.

Definition insertionSort (l : list A) : list A :=
  foldl (fun l i => sink i l) l (seq 1 (length l - 1)).

Definition sortSlice (l : list A) : list A :=
  if Nat.leb (length l) 12 then insertionSort l else omap (fun i => l !! i) (pdqOrder less (length l)).

End Sort.

(** The comparison of sortWorkersToShootOrder: it looks at the names of the
    unsorted list, whatever has been moved already, and when the second worker is
    not in the Shoot it replaces the index of the first one. *)
(*@ src/pkg/gardener/shoot/extender/provider/provider.go:173-191 sortWorkersToShootOrder *)
Definition workerLess (runtimeWorkers shootWorkers : list Worker) (i j : nat) : bool :=
  let find k := w ← runtimeWorkers !! k; slicesIndexFunc shootWorkers (fun s => String.eqb (wName s) (wName w)) in
  let beyond := (Z.of_nat (length runtimeWorkers) + 1)%Z in
  let index1 := match find i with Some k => Z.of_nat k | None => beyond end in
  match find j with
  | Some k => index1 <? Z.of_nat k
  | None => beyond <? -1
  end%Z.

(*@ src/pkg/gardener/shoot/extender/provider/provider.go:169-194 sortWorkersToShootOrder *)
Definition sortWorkersToShootOrder `{SortLib} (runtimeWorkers shootWorkers : list Worker) : list Worker :=
  sortSlice (workerLess runtimeWorkers shootWorkers) runtimeWorkers.

(** ** Machine images *)

(*@ src/pkg/gardener/shoot/extender/provider/provider.go:331-349 setMachineImage *)
Fixpoint setMachineImage (workers : list Worker) (defMachineImgName defMachineImgVer : string) : list Worker :=
  match workers with
  | [] => []
  | worker :: rest =>
      let image := default (mkImage defMachineImgName (Some defMachineImgVer)) (wMachineImage worker) in
      let version :=
        match imgVersion image with
        | Some v => if String.eqb v "" then defMachineImgVer else v
        | None => defMachineImgVer
        end in
      let name := if String.eqb (imgName image) "" then defMachineImgName else imgName image in
      worker_with_image worker (Some (mkImage name (Some version))) ::
      setMachineImage rest defMachineImgName defMachineImgVer
  end.

Section Align.
Context `{GardenerLib}.

(** A worker's image without a version is a nil dereference. *)
(*@ src/pkg/gardener/shoot/extender/provider/provider.go:393-405 alignWorkerMachineImageVersion *)
Definition alignWorkerMachineImageVersion (workerImage shootWorkerImage : option ShootMachineImage) :
    prog (option ShootMachineImage) :=
  match workerImage, shootWorkerImage with
  | Some image, Some shootImage =>
      if negb (String.eqb (imgName image) (imgName shootImage)) then mret workerImage
      else
        match imgVersion shootImage with
        | None => mret workerImage
        | Some shootVersion =>
            version ← deref (imgVersion image);
            if String.eqb shootVersion version then mret workerImage
            else
              match CompareVersions version shootVersion with
              | Ok result =>
                  if (result <? 0)%Z then mret (Some (mkImage (imgName image) (Some shootVersion)))
                  else mret workerImage
              | Err _ => mret workerImage
              end
        end
  | _, _ => mret workerImage
  end.

(*@ src/pkg/gardener/shoot/extender/provider/provider.go:373-390 alignWorkerZonesForExtension *)
Definition alignWorkerZonesForExtension (zones existing : list string) : list string :=
  if bool_decide (zones = existing) then zones else addMissing existing zones.

(** The map from names to existing workers: a later worker of the same name wins. *)
(*@ src/pkg/gardener/shoot/extender/provider/provider.go:354-357 alignWorkersWithGardener *)
Definition existingWorkersMap (existingWorkers : list Worker) : gmap string Worker :=
  foldl (fun m existing => <[wName existing := existing]> m) ∅ existingWorkers.

(*@ src/pkg/gardener/shoot/extender/provider/provider.go:359-370 alignWorkersWithGardener *)
Definition alignWorker (existing : Worker) (alignedWorker : Worker) : prog Worker :=
  let w :=
    match wUpdateStrategy alignedWorker with
    | None => worker_with_update_strategy alignedWorker (wUpdateStrategy existing)
    | Some _ => alignedWorker
    end in
  let w := worker_with_zones w (alignWorkerZonesForExtension (wZones w) (wZones existing)) in
  image ← alignWorkerMachineImageVersion (wMachineImage w) (wMachineImage existing);
  mret (worker_with_image w image).

(*@ src/pkg/gardener/shoot/extender/provider/provider.go:353-371 alignWorkersWithGardener *)
Fixpoint alignWorkersWithGardener (workers : list Worker) (existing : gmap string Worker) : prog (list Worker) :=
  match workers with
  | [] => mret []
  | w :: rest =>
      w' ← match existing !! wName w with
           | Some e => alignWorker e w
           | None => mret w
           end;
      rest' ← alignWorkersWithGardener rest existing;
      mret (w' :: rest')
  end.

End Align.

(** ** Lemmas: zones *)

Lemma addMissing_prefix zones more : zones `prefix_of` addMissing zones more.
Proof.
  revert zones. induction more as [|z more IH]; intros zones; cbn; [done|].
  destruct (slicesContains zones z); [apply IH|]. etrans; [|apply IH]. by apply prefix_app_r.
Qed.

Lemma addMissing_elem zones more x : x ∈ addMissing zones more <-> x ∈ zones \/ x ∈ more.
Proof.
  revert zones. induction more as [|z more IH]; intros zones; cbn; [set_solver|].
  rewrite IH. destruct (slicesContains zones z) eqn:E.
  - apply slicesContains_spec in E. set_solver.
  - set_solver.
Qed.

Lemma addMissing_NoDup zones more : NoDup zones -> NoDup (addMissing zones more).
Proof.
  revert zones. induction more as [|z more IH]; intros zones Hnd; cbn; [done|].
  apply IH. destruct (slicesContains zones z) eqn:E; [done|]. apply slicesContains_false in E.
  apply NoDup_app. split_and!; [done|set_solver|apply NoDup_singleton].
Qed.

Lemma zonesFrom_spec workers zones :
  NoDup zones ->
  let zs := foldl (fun zones worker => addMissing zones (wZones worker)) zones workers in
  NoDup zs /\ zones `prefix_of` zs /\ forall x, x ∈ zs <-> x ∈ zones \/ exists w, w ∈ workers /\ x ∈ wZones w.
Proof.
  revert zones. induction workers as [|w workers IH]; intros zones Hnd; cbn.
  { split_and!; [done..|]. set_solver. }
  destruct (IH (addMissing zones (wZones w))) as (H1 & H2 & H3); [by apply addMissing_NoDup|].
  split_and!; [done|etrans; [apply addMissing_prefix|done]|].
  intros x. rewrite H3, addMissing_elem. set_solver.
Qed.

(** ** Lemmas: order *)

Lemma sink_perm {A} less j (l : list A) : sink less j l ≡ₚ l.
Proof.
  revert l. induction j as [|j IH]; intros l; cbn; [done|]. destruct (less (S j) j); [|done].
  rewrite IH. unfold swap. destruct (l !! S j) as [x|] eqn:Hx; [|done]. destruct (l !! j) as [y|] eqn:Hy; [|done].
  rewrite <- (take_drop_middle l j y) at 2 by done.
  assert (drop (S j) l = x :: drop (S (S j)) l) as Hd by (by apply drop_S).
  rewrite <- (take_drop_middle l j y) at 1 by done. rewrite Hd.
  assert (length (take j l) = j) as Hlen by (apply length_take_le; apply lookup_lt_Some in Hy; lia).
  rewrite insert_app_r_alt by lia. rewrite Hlen, Nat.sub_diag. cbn [insert list_insert].
  rewrite insert_app_r_alt by lia. rewrite Hlen. replace (S j - j) with 1 by lia. cbn [insert list_insert].
  apply Permutation_app_head, Permutation_swap.
Qed.

Lemma insertionSort_perm {A} less (l : list A) : insertionSort less l ≡ₚ l.
Proof.
  unfold insertionSort. generalize (seq 1 (length l - 1)) as ks. intros ks. revert l.
  induction ks as [|i ks IH]; intros l; cbn; [done|]. by rewrite IH, sink_perm.
Qed.

Lemma omap_lookup_seq {A} (l : list A) : omap (fun i => l !! i) (seq 0 (length l)) = l.
Proof.
  induction l as [|x l IH]; [done|]. cbn. f_equal.
  rewrite <- seq_shift. rewrite <- IH at 2. clear.
  generalize (seq 0 (length l)) as ks. induction ks as [|i ks IH]; [done|]. cbn.
  destruct (l !! i); cbn; by rewrite IH.
Qed.

Lemma sortSlice_perm `{SortLaws} {A} less (l : list A) : sortSlice less l ≡ₚ l.
Proof.
  unfold sortSlice. destruct (Nat.leb _ _); [apply insertionSort_perm|].
  rewrite (pdq_perm less (length l)). by rewrite omap_lookup_seq.
Qed.

(** The worker at each position keeps its identity under renaming of the elements:
    sorting commutes with a map. *)
Lemma swap_fmap {A B} (f : A -> B) l i j : swap (f <$> l) i j = f <$> swap l i j.
Proof.
  unfold swap. rewrite !list_lookup_fmap. destruct (l !! i), (l !! j); cbn; try done.
  by rewrite !list_fmap_insert.
Qed.

Lemma sink_fmap {A B} less (f : A -> B) j l : sink less j (f <$> l) = f <$> sink less j l.
Proof.
  revert l. induction j as [|j IH]; intros l; cbn; [done|]. destruct (less _ _); [|done].
  by rewrite swap_fmap, IH.
Qed.

Lemma sortSlice_fmap `{SortLib} {A B} less (f : A -> B) (l : list A) :
  sortSlice less (f <$> l) = f <$> sortSlice less l.
Proof.
  unfold sortSlice. rewrite length_fmap. destruct (Nat.leb _ _).
  - unfold insertionSort. rewrite length_fmap. generalize (seq 1 (length l - 1)) as ks. intros ks.
    revert l. induction ks as [|i ks IH]; intros l; cbn; [done|]. by rewrite sink_fmap, IH.
  - generalize (pdqOrder less (length l)) as ks. induction ks as [|i ks IH]; cbn; [done|].
    rewrite list_lookup_fmap. destruct (l !! i); cbn; by rewrite IH.
Qed.

(** ** Lemmas: images and alignment *)

(** The image of a worker once setMachineImage has filled what the Runtime leaves
    open. *)
Definition imageCompleted (name version : string) (w w' : Worker) : Prop :=
  exists i v, wMachineImage w' = Some i /\ imgVersion i = Some v /\
    w' = worker_with_image w (Some i) /\
    imgName i = (match wMachineImage w with
                 | Some i0 => if String.eqb (imgName i0) "" then name else imgName i0
                 | None => name
                 end) /\
    v = (match wMachineImage w with
         | Some (mkImage _ (Some v0)) => if String.eqb v0 "" then version else v0
         | _ => version
         end).

Lemma setMachineImage_spec workers name version :
  Forall2 (imageCompleted name version) workers (setMachineImage workers name version).
Proof.
  induction workers as [|w workers IH]; cbn; [constructor|]. constructor; [|exact IH].
  do 2 eexists. split; [reflexivity|]. split; [reflexivity|]. split; [reflexivity|].
  destruct (wMachineImage w) as [[n [v|]]|]; cbn; [done..|].
  split; [destruct (String.eqb_spec name ""); congruence|destruct (String.eqb_spec version ""); congruence].
Qed.

(** The versions of two images of one name, where they can be compared: that of the
    first is not older. *)
Definition imageNotOlder `{GardenerLib} (i j : ShootMachineImage) : Prop :=
  forall v w, imgVersion i = Some v -> imgVersion j = Some w -> notOlder v w.

(** What alignment makes of a worker that Gardener has as [e]. *)
Definition alignedWith `{GardenerLib} (e w w' : Worker) : Prop :=
  (exists i i', wMachineImage w = Some i /\ wMachineImage w' = Some i' /\ imgName i' = imgName i /\
     is_Some (imgVersion i') /\ imageNotOlder i' i /\
     (forall ie, wMachineImage e = Some ie -> imgName ie = imgName i -> imageNotOlder i' ie)) /\
  wZones e `prefix_of` wZones w' /\
  (forall z, z ∈ wZones w' <-> z ∈ wZones e \/ z ∈ wZones w) /\
  wUpdateStrategy w' = (match wUpdateStrategy w with Some s => Some s | None => wUpdateStrategy e end) /\
  w' = worker_with_update_strategy (worker_with_zones (worker_with_image w (wMachineImage w')) (wZones w'))
         (wUpdateStrategy w').

Section AlignLemmas.
Context `{GardenerLaws}.

Lemma notOlder_refl v : notOlder v v.
Proof. intros r ->%semver_refl. lia. Qed.

Lemma notOlder_lt v w r : semverCompare v w = Ok r -> (r < 0)%Z -> notOlder w v.
Proof. intros Hr Hlt r' Hr'. apply semver_antisym in Hr. rewrite Hr in Hr'. injection Hr' as <-. lia. Qed.

Lemma alignWorkerMachineImageVersion_spec i v ie :
  imgVersion i = Some v ->
  exists i', alignWorkerMachineImageVersion (Some i) ie = Ret (Some i') /\ imgName i' = imgName i /\
    is_Some (imgVersion i') /\ imageNotOlder i' i /\
    (forall je, ie = Some je -> imgName je = imgName i -> imageNotOlder i' je).
Proof.
  intros Hv. assert (forall j, imageNotOlder j j) as Hrefl.
  { intros j a b Ha Hb. rewrite Ha in Hb. injection Hb as <-. apply notOlder_refl. }
  assert (is_Some (imgVersion i)) as Hsome by (rewrite Hv; by eexists).
  destruct ie as [je|]; cbn; [|by exists i].
  destruct (String.eqb_spec (imgName i) (imgName je)) as [Hn|Hn]; cbn.
  2:{ exists i. split_and!; [done..|]. intros ? [= <-]. congruence. }
  destruct (imgVersion je) as [ve|] eqn:Hve.
  2:{ exists i. split_and!; [done..|]. intros ? [= <-] _ a b _ Hb. congruence. }
  rewrite Hv. cbn. destruct (String.eqb_spec ve v) as [->|Hne].
  { exists i. split_and!; [done..|]. intros ? [= <-] _ a b Ha Hb.
    rewrite Hv in Ha. rewrite Hve in Hb. simplify_eq. apply notOlder_refl. }
  unfold CompareVersions. destruct (semverCompare v ve) as [r|] eqn:Hr; cbn.
  - destruct (Z.ltb_spec r 0).
    + eexists. split; [reflexivity|]. cbn. split_and!; [done|by eexists| |].
      * intros a b [= <-] Hb. rewrite Hv in Hb. injection Hb as <-. by eapply notOlder_lt.
      * intros ? [= <-] _ a b [= <-] Hb. rewrite Hve in Hb. injection Hb as <-. apply notOlder_refl.
    + exists i. split_and!; [done..|]. intros ? [= <-] _ a b Ha Hb r' Hr'.
      rewrite Hv in Ha. rewrite Hve in Hb. injection Ha as <-. injection Hb as <-.
      rewrite Hr in Hr'. injection Hr' as <-. lia.
  - exists i. split_and!; [done..|]. intros ? [= <-] _ a b Ha Hb r' Hr'.
    rewrite Hv in Ha. rewrite Hve in Hb. injection Ha as <-. injection Hb as <-. congruence.
Qed.

Lemma alignZones_spec zones existing :
  existing `prefix_of` alignWorkerZonesForExtension zones existing /\
  forall z, z ∈ alignWorkerZonesForExtension zones existing <-> z ∈ existing \/ z ∈ zones.
Proof.
  unfold alignWorkerZonesForExtension. case_bool_decide as Heq.
  - subst. split; [done|set_solver].
  - split; [apply addMissing_prefix|]. intros z. rewrite addMissing_elem. set_solver.
Qed.

Lemma alignWorker_spec e w i v :
  wMachineImage w = Some i -> imgVersion i = Some v ->
  exists w', alignWorker e w = Ret w' /\ alignedWith e w w'.
Proof.
  intros Hi Hv. unfold alignWorker.
  destruct (alignWorkerMachineImageVersion_spec i v (wMachineImage e) Hv) as (i' & Heq & Hrest).
  assert (wMachineImage (match wUpdateStrategy w with
          | Some _ => w | None => worker_with_update_strategy w (wUpdateStrategy e) end) = Some i) as Hi'
    by by destruct (wUpdateStrategy w).
  cbn [wMachineImage worker_with_zones]. rewrite Hi', Heq. cbn. eexists. split; [reflexivity|].
  assert (forall z, wZones (match wUpdateStrategy w with
          | Some _ => w | None => worker_with_update_strategy w z end) = wZones w) as Hz
    by by destruct (wUpdateStrategy w).
  rewrite Hz. destruct (alignZones_spec (wZones w) (wZones e)) as [Hp Hm].
  split; [exists i, i'; cbn; tauto|]. split; [exact Hp|]. split; [exact Hm|].
  destruct w as [? ? ? ? ? ? ? ? ? [u|] ? ?]; cbn in *; done.
Qed.

Lemma existingWorkersMap_lookup existing n :
  NoDup (wName <$> existing) ->
  existingWorkersMap existing !! n = List.find (fun e => String.eqb (wName e) n) existing.
Proof.
  unfold existingWorkersMap. intros Hnd.
  assert (forall (m : gmap string Worker), foldl (fun m e => <[wName e := e]> m) m existing !! n =
          match List.find (fun e => String.eqb (wName e) n) existing with
          | Some e => Some e | None => m !! n end) as Hgen; [|rewrite Hgen; by destruct (List.find _ _)].
  induction existing as [|e existing IH]; intros m; cbn; [done|].
  cbn in Hnd. apply NoDup_cons in Hnd as [Hni Hnd]. rewrite IH by done.
  destruct (String.eqb_spec (wName e) n) as [<-|Hne].
  - destruct (List.find _ existing) as [e'|] eqn:Hf; [|by rewrite lookup_insert_eq].
    apply find_some in Hf as [Hin Heq]. apply String.eqb_eq in Heq. destruct Hni. rewrite <- Heq.
    apply list_elem_of_fmap_2. by apply list_elem_of_In.
  - destruct (List.find _ existing); [done|]. by rewrite lookup_insert_ne.
Qed.

(** What alignment makes of a worker, whether Gardener has one of its name or not. *)
Definition alignedTo (existing : option Worker) (w w' : Worker) : Prop :=
  match existing with
  | Some e => alignedWith e w w'
  | None => w' = w
  end.

Definition alignedIn (existing : list Worker) (w w' : Worker) : Prop :=
  alignedTo (List.find (fun e => String.eqb (wName e) (wName w)) existing) w w'.

Definition hasImageVersion (w : Worker) : Prop := exists i v, wMachineImage w = Some i /\ imgVersion i = Some v.

Lemma setMachineImage_versions workers name version :
  Forall hasImageVersion (setMachineImage workers name version).
Proof.
  pose proof (setMachineImage_spec workers name version) as Hf.
  induction Hf as [|w w' ws ws' (i & v & Hi & Hv & _) _ IH]; constructor; [by exists i, v|exact IH].
Qed.

Lemma alignWorkers_spec workers existing :
  Forall hasImageVersion workers ->
  exists ws', alignWorkersWithGardener workers existing = Ret ws' /\
    Forall2 (fun w w' => alignedTo (existing !! wName w) w w') workers ws'.
Proof.
  intros Hv. induction Hv as [|w workers (i & v & Hi & Hiv) _ (ws' & Heq & Hall)]; cbn; [by eexists|].
  destruct (existing !! wName w) as [e|] eqn:Hf.
  - destruct (alignWorker_spec e w i v Hi Hiv) as (w' & -> & Hw'). cbn. rewrite Heq. cbn.
    eexists. split; [reflexivity|]. constructor; [by rewrite Hf|exact Hall].
  - cbn. rewrite Heq. cbn. eexists. split; [reflexivity|]. constructor; [by rewrite Hf|exact Hall].
Qed.

Lemma alignWorkers_existing workers existing :
  Forall hasImageVersion workers -> NoDup (wName <$> existing) ->
  exists ws', alignWorkersWithGardener workers (existingWorkersMap existing) = Ret ws' /\
    Forall2 (alignedIn existing) workers ws'.
Proof.
  intros Hv Hnd. destruct (alignWorkers_spec workers (existingWorkersMap existing) Hv) as (ws' & -> & Hall).
  eexists. split; [reflexivity|]. eapply Forall2_impl; [exact Hall|]. intros w w' Hw.
  cbn beta in Hw. by rewrite existingWorkersMap_lookup in Hw.
Qed.

(** C16. alignWorkersWithGardener, on workers whose images setMachineImage has
    completed, never panics and never takes from Gardener what it has: a worker that
    Gardener knows keeps that worker's zones in their order, followed by its own; its
    image is that of the Runtime in a version older than neither the Runtime's nor
    Gardener's; its update strategy is the Runtime's, else Gardener's; nothing else
    changes, and unknown workers stay as they are. *)
Theorem workers_aligned workers existing name version :
  NoDup (wName <$> existing) ->
  exists ws', alignWorkersWithGardener (setMachineImage workers name version) (existingWorkersMap existing) =
                Ret ws' /\
    Forall2 (alignedIn existing) (setMachineImage workers name version) ws'.
Proof. intros Hnd. apply alignWorkers_existing; [apply setMachineImage_versions|done]. Qed.

End AlignLemmas.

Definition exampleWorker (name : string) (zones : list string) (image : option ShootMachineImage) : Worker :=
  mkWorker name "m5.large" image 1 3 zones None None None None None "".

#[local] Existing Instances numberVersions numberVersions_laws.

Lemma workers_aligned_witness :
  let existing := [exampleWorker "a" ["z2"; "z1"] (Some (mkImage "linux" (Some "12")))] in
  exists w, alignWorkersWithGardener
              (setMachineImage [exampleWorker "a" ["z1"; "z3"] (Some (mkImage "linux" (Some "9")))] "linux" "8")
              (existingWorkersMap existing) = Ret [w] /\
    wZones w = ["z2"; "z1"; "z3"] /\ wMachineImage w = Some (mkImage "linux" (Some "12")) /\
    alignedIn existing (exampleWorker "a" ["z1"; "z3"] (Some (mkImage "linux" (Some "9")))) w.
Proof.
  intros existing.
  destruct (workers_aligned [exampleWorker "a" ["z1"; "z3"] (Some (mkImage "linux" (Some "9")))] existing "linux" "8")
    as (ws' & Heq & Hall); [cbn; apply NoDup_singleton|].
  assert (alignWorkersWithGardener
              (setMachineImage [exampleWorker "a" ["z1"; "z3"] (Some (mkImage "linux" (Some "9")))] "linux" "8")
              (existingWorkersMap existing) =
          Ret [exampleWorker "a" ["z2"; "z1"; "z3"] (Some (mkImage "linux" (Some "12")))]) as Hc
    by (vm_compute; reflexivity).
  rewrite Hc in Heq. injection Heq as <-. eexists. split; [exact Hc|]. split; [reflexivity|].
  split; [reflexivity|]. by inversion Hall.
Defined.

(** ** Order *)

(** The order need not be that of the Shoot: the comparison looks up the positions in
    the list before sorting, while the elements move.  Here the Shoot has c, a, b. *)
Example sorted_against_the_shoot :
  let w n := exampleWorker n [] None in
  forall pdq : SortLib,
    wName <$> sortWorkersToShootOrder [w "a"; w "b"; w "c"] [w "c"; w "a"; w "b"] = ["a"; "c"; "b"].
Proof. reflexivity. Qed.
