(* ===== verification/GVisor.v ===== *)
(** * The default of gVisor's net-raw flag (extender/gvisor_net_raw.go)

    The extender writes to the container runtimes in place, also when a later one
    fails. *)

From S2P Require Import Prelude Gardener RuntimeApi.

Local Open Scope string_scope.

(** The configuration of the gVisor extension, with the fields the code uses. *)
Record GVisorConfiguration := mkGVisor {
  gvKind : string;
  gvAPIVersion : string;
  ConfigFlags : option (gmap string string);
  gvRest : Opaque
}.

#[export] Instance GVisorConfiguration_eq_dec : EqDecision GVisorConfiguration.
Proof. solve_decision. Defined.

(** The codec of the type and gvisorv1alpha1.SchemeGroupVersion.String(). *)
Class GVisorLib := {
  gvisorCodec :: Codec GVisorConfiguration;
  gvisorGroupVersion : string
}.

(*@consts src/pkg/gardener/shoot/extender/gvisor_net_raw.go:13-18 *)
Definition gvisorContainerRuntimeType : string := "gvisor".
Definition gvisorNetRawConfigKey : string := "net-raw".
Definition gvisorNetRawDefaultValue : string := "true".
Definition gvisorProviderConfigKind : string := "GVisorConfiguration".

Section GVisor.
Context `{GVisorLib}.

(*@ src/pkg/gardener/shoot/extender/gvisor_net_raw.go:77-92 newGVisorProviderConfigWithNetRawDefault *)
Definition newGVisorProviderConfigWithNetRawDefault : result Raw :=
  marshal (mkGVisor gvisorProviderConfigKind gvisorGroupVersion
             (Some {[gvisorNetRawConfigKey := gvisorNetRawDefaultValue]}) "").

(** The change of the decoded configuration. *)
(*@ src/pkg/gardener/shoot/extender/gvisor_net_raw.go:56-69 ensureGVisorNetRawDefault *)
Definition withNetRawDefault (config : GVisorConfiguration) : GVisorConfiguration :=
  match ConfigFlags config with
  | None =>
      mkGVisor gvisorProviderConfigKind gvisorGroupVersion
        (Some {[gvisorNetRawConfigKey := gvisorNetRawDefaultValue]}) (gvRest config)
  | Some flags =>
      mkGVisor (gvKind config) (gvAPIVersion config)
        (Some (match flags !! gvisorNetRawConfigKey with
               | None => <[gvisorNetRawConfigKey := gvisorNetRawDefaultValue]> flags
               | Some _ => flags
               end)) (gvRest config)
  end.

(*@ src/pkg/gardener/shoot/extender/gvisor_net_raw.go:46-75 ensureGVisorNetRawDefault *)
Definition ensureGVisorNetRawDefault (pc : option Raw) : result Raw :=
  match pc with
  | None | Some "" => newGVisorProviderConfigWithNetRawDefault
  | Some raw =>
      config ← mapErr (wrapError "unmarshal gVisor providerConfig failed") (unmarshal raw);
      mapErr (wrapError "marshal gVisor providerConfig failed") (marshal (withNetRawDefault config))
  end.

(** The loop over the container runtimes of one worker. *)
(*@ src/pkg/gardener/shoot/extender/gvisor_net_raw.go:32-41 applyDefaultGVisorNetRaw *)
Fixpoint applyToContainerRuntimes (runtimes : list ContainerRuntime) :
    list ContainerRuntime * option GoError :=
  match runtimes with
  | [] => ([], None)
  | r :: rest =>
      if negb (String.eqb (crType r) gvisorContainerRuntimeType) then
        let '(rest, err) := applyToContainerRuntimes rest in (r :: rest, err)
      else
        match ensureGVisorNetRawDefault (crProviderConfig r) with
        | Err e => (r :: rest, Some e)
        | Ok pc =>
            let '(rest, err) := applyToContainerRuntimes rest in
            (mkContainerRuntime (crType r) (Some pc) :: rest, err)
        end
  end.

(*@ src/pkg/gardener/shoot/extender/gvisor_net_raw.go:27-44 applyDefaultGVisorNetRaw *)
Fixpoint applyDefaultGVisorNetRaw (workers : list Worker) : list Worker * option GoError :=
  match workers with
  | [] => ([], None)
  | w :: rest =>
      match wCRI w with
      | None => let '(rest, err) := applyDefaultGVisorNetRaw rest in (w :: rest, err)
      | Some cri =>
          let '(runtimes, err) := applyToContainerRuntimes (criContainerRuntimes cri) in
          let w := worker_with_cri w (Some (mkCRI (criName cri) runtimes)) in
          match err with
          | Some e => (w :: rest, Some e)
          | None => let '(rest, err) := applyDefaultGVisorNetRaw rest in (w :: rest, err)
          end
      end
  end.

(** What the extender makes of a container runtime: nothing unless it is gVisor; of
    gVisor a configuration that has the flag, as the Runtime gives it if it does,
    and every other flag as it was. *)
Definition netRawSet (r r' : ContainerRuntime) : Prop :=
  if String.eqb (crType r) gvisorContainerRuntimeType then
    crType r' = crType r /\
    exists raw config flags, crProviderConfig r' = Some raw /\ unmarshal raw = Ok config /\
      ConfigFlags config = Some flags /\
      forall given, (match crProviderConfig r with
                     | None | Some "" => given = ∅
                     | Some raw0 => exists c, unmarshal raw0 = Ok c /\ default ∅ (ConfigFlags c) = given
                     end) ->
        flags !! gvisorNetRawConfigKey =
          Some (default gvisorNetRawDefaultValue (given !! gvisorNetRawConfigKey)) /\
        forall k, k <> gvisorNetRawConfigKey -> flags !! k = given !! k
  else r' = r.

Definition workerNetRawSet (w w' : Worker) : Prop :=
  match wCRI w with
  | None => w' = w
  | Some cri =>
      exists runtimes, w' = worker_with_cri w (Some (mkCRI (criName cri) runtimes)) /\
        Forall2 netRawSet (criContainerRuntimes cri) runtimes
  end.

Lemma withNetRawDefault_flags config :
  exists flags, ConfigFlags (withNetRawDefault config) = Some flags /\
    flags !! gvisorNetRawConfigKey =
      Some (default gvisorNetRawDefaultValue (default ∅ (ConfigFlags config) !! gvisorNetRawConfigKey)) /\
    forall k, k <> gvisorNetRawConfigKey -> flags !! k = default ∅ (ConfigFlags config) !! k.
Proof.
  unfold withNetRawDefault. destruct (ConfigFlags config) as [flags|]; cbn [ConfigFlags default from_option id].
  - destruct (flags !! gvisorNetRawConfigKey) as [v|] eqn:E; eexists; (split; [reflexivity|]).
    + rewrite E. split; [done|auto].
    + rewrite lookup_insert_eq. split; [done|]. intros k Hk. by rewrite lookup_insert_ne.
  - eexists. split; [reflexivity|]. rewrite lookup_singleton_eq, lookup_empty. split; [done|].
    intros k Hk. by rewrite lookup_singleton_ne, lookup_empty.
Qed.

Lemma ensureGVisorNetRawDefault_spec `{!CodecLaws GVisorConfiguration} r raw :
  crType r = gvisorContainerRuntimeType -> ensureGVisorNetRawDefault (crProviderConfig r) = Ok raw ->
  netRawSet r (mkContainerRuntime (crType r) (Some raw)).
Proof.
  intros Ht. unfold netRawSet. rewrite (proj2 (String.eqb_eq _ _) Ht). intros Hens. split; [done|].
  destruct (crProviderConfig r) as [[|c s]|].
  2:{ cbn [ensureGVisorNetRawDefault] in Hens.
    apply result_bind_Ok in Hens as (config & Hc & Hm). apply mapErr_Ok in Hc. apply mapErr_Ok in Hm.
    destruct (withNetRawDefault_flags config) as (flags & Hf & Hk & Ho).
    exists raw, (withNetRawDefault config), flags. split_and!; [done|by apply unmarshal_marshal|done|].
    intros given (c' & Hc' & <-). rewrite Hc in Hc'. injection Hc' as <-. split; [exact Hk|exact Ho]. }
  all: cbn [ensureGVisorNetRawDefault] in Hens; apply unmarshal_marshal in Hens;
    do 3 eexists; (split_and!; [reflexivity|exact Hens|reflexivity|]); intros given ->;
    rewrite lookup_singleton_eq, lookup_empty; (split; [done|]); intros k Hk;
    by rewrite lookup_singleton_ne, lookup_empty.
Qed.

Lemma applyToContainerRuntimes_spec `{!CodecLaws GVisorConfiguration} runtimes runtimes' :
  applyToContainerRuntimes runtimes = (runtimes', None) -> Forall2 netRawSet runtimes runtimes'.
Proof.
  revert runtimes'. induction runtimes as [|r rest IH]; intros runtimes'; cbn; [by intros [= <-]|].
  destruct (String.eqb_spec (crType r) gvisorContainerRuntimeType) as [Ht|Ht]; cbn.
  - destruct (ensureGVisorNetRawDefault (crProviderConfig r)) as [raw|e] eqn:He; [|done].
    destruct (applyToContainerRuntimes rest) as [rest' err]. intros [= <- ->].
    constructor; [by apply ensureGVisorNetRawDefault_spec|by apply IH].
  - destruct (applyToContainerRuntimes rest) as [rest' err]. intros [= <- ->].
    constructor; [|by apply IH]. unfold netRawSet. by rewrite (proj2 (String.eqb_neq _ _) Ht).
Qed.

(** ExtendWithGVisorNetRawDefault: when it succeeds, every gVisor container
    runtime of every worker carries a configuration with the net-raw flag: the value
    of the Runtime if it has one, else the default; its other flags, the other
    container runtimes and the rest of the workers are unchanged. *)
Theorem gvisor_net_raw `{!CodecLaws GVisorConfiguration} workers workers' :
  applyDefaultGVisorNetRaw workers = (workers', None) -> Forall2 workerNetRawSet workers workers'.
Proof.
  revert workers'. induction workers as [|w rest IH]; intros workers'; cbn; [by intros [= <-]|].
  destruct (wCRI w) as [cri|] eqn:Hcri.
  - destruct (applyToContainerRuntimes (criContainerRuntimes cri)) as [runtimes [e|]] eqn:Ha; [done|].
    destruct (applyDefaultGVisorNetRaw rest) as [rest' err]. intros [= <- ->].
    constructor; [|by apply IH]. unfold workerNetRawSet. rewrite Hcri.
    eexists. split; [reflexivity|]. by apply applyToContainerRuntimes_spec.
  - destruct (applyDefaultGVisorNetRaw rest) as [rest' err]. intros [= <- ->].
    constructor; [|by apply IH]. unfold workerNetRawSet. by rewrite Hcri.
Qed.

(** The extender only touches container runtimes. *)
Definition sameButCRI (w w' : Worker) : Prop := w' = w \/ exists cri, w' = worker_with_cri w cri.

Lemma applyDefaultGVisorNetRaw_same workers :
  Forall2 sameButCRI workers (applyDefaultGVisorNetRaw workers).1.
Proof.
  assert (forall ws : list Worker, Forall2 sameButCRI ws ws) as Hrefl.
  { induction ws; constructor; [by left|done]. }
  induction workers as [|w rest IH]; cbn; [constructor|]. destruct (wCRI w) as [cri|].
  - destruct (applyToContainerRuntimes (criContainerRuntimes cri)) as [runtimes [e|]]; cbn.
    + constructor; [right; by eexists|apply Hrefl].
    + destruct (applyDefaultGVisorNetRaw rest). constructor; [right; by eexists|exact IH].
  - destruct (applyDefaultGVisorNetRaw rest). constructor; [by left|exact IH].
Qed.

End GVisor.

(** A library that knows two configurations. *)
Definition gvisorExample : GVisorConfiguration := mkGVisor "GVisorConfiguration" "v1" (Some {["debug" := "1"]}) "".

#[local] Instance exampleGVisor : GVisorLib := {|
  gvisorGroupVersion := "v1";
  gvisorCodec := {|
    marshal c := if decide (c = gvisorExample) then Ok "given"
                 else if decide (c = mkGVisor "GVisorConfiguration" "v1"
                                       (Some {["net-raw" := "true"; "debug" := "1"]}) "") then Ok "new"
                 else Err (newError "unsupported value");
    unmarshal r := if String.eqb r "given" then Ok gvisorExample
                   else if String.eqb r "new" then
                     Ok (mkGVisor "GVisorConfiguration" "v1" (Some {["net-raw" := "true"; "debug" := "1"]}) "")
                   else Err (newError "malformed")
  |}
|}.

#[local] Instance exampleGVisor_laws : CodecLaws GVisorConfiguration.
Proof.
  constructor. intros a r. cbn. destruct (decide (a = gvisorExample)) as [->|]; [by intros [= <-]|].
  case_decide as Hd; [|done]. rewrite Hd. by intros [= <-].
Defined.

Lemma gvisor_net_raw_witness :
  let cri c := Some (mkCRI "containerd" [mkContainerRuntime "gvisor" (Some c); mkContainerRuntime "kata" None]) in
  let w c := mkWorker "a" "m5" None 1 3 [] None (cri c) None None None "" in
  exists ws', applyDefaultGVisorNetRaw [w "given"] = (ws', None) /\ Forall2 workerNetRawSet [w "given"] ws'.
Proof.
  intros cri w. eexists. split; [vm_compute; reflexivity|].
  apply gvisor_net_raw. vm_compute; reflexivity.
Defined.
