(* ===== verification/Provider.v ===== *)
(** * The provider of a Shoot (extender/provider/provider.go)

    The configuration objects of the hyperscaler and the workers, for a new Shoot
    and for the patch of an existing one.

    The workers of the Shoot share memory with the workers of the Runtime: the
    structs behind the pointers of a worker (image, kubelet configuration, container
    runtimes, machine controller settings) always, and the first worker itself when
    [append] has not moved it.  An operation therefore also says which workers the
    Shoot's are, [Aliases], from which [seenByOwner] gives the workers that the
    owner of the Runtime sees afterwards. *)

From S2P Require Import Prelude Sscanf Kube Gardener RuntimeApi Objects Effects Config Duration.
From S2P Require Import MaxPods AuditLog ConverterApi Extenders Workers.
From S2P Require Import ZonesAws ZonesAzure AwsConfig AzureConfig GcpConfig OpenStackConfig AlicloudConfig GdchConfig.

Local Open Scope string_scope.

(** The codecs of the hyperscalers' types. *)
Class HyperscalerCodecs := {
  awsInfra :: Codec aws_InfrastructureConfig;
  awsControlPlane :: Codec aws_ControlPlaneConfig;
  awsWorker :: Codec aws_WorkerConfig;
  azureInfra :: Codec azure_InfrastructureConfig;
  azureControlPlane :: Codec azure_ControlPlaneConfig;
  gcpInfra :: Codec gcp_InfrastructureConfig;
  gcpControlPlane :: Codec gcp_ControlPlaneConfig;
  openStackInfra :: Codec openstack_InfrastructureConfig;
  openStackControlPlane :: Codec openstack_ControlPlaneConfig;
  alicloudInfra :: Codec alicloud_InfrastructureConfig;
  alicloudControlPlane :: Codec alicloud_ControlPlaneConfig;
  gdchInfra :: Codec gdch_InfrastructureConfig;
  gdchControlPlane :: Codec gdch_ControlPlaneConfig
}.

(** ** Operations that change their argument and may fail *)

Abbreviation update S := (prog (S * option GoError)).

Definition changed {S} (s : S) : update S := Ret (s, None).
Definition failed {S} (s : S) (e : GoError) : update S := Ret (s, Some e).

(** [if err := m(...); err != nil { return err }] *)
Definition andThen {S} (m : update S) (f : S -> update S) : update S :=
  '(s, err) ← m;
  match err with
  | Some e => failed s e
  | None => f s
  end.
Notation "s <~ m ; k" := (andThen m (fun s => k))
  (at level 20, m at level 100, k at level 200, right associativity) : kim_scope.
Local Open Scope kim_scope.

Section Provider.
Context `{GardenerLib} `{SortLib} `{HyperscalerCodecs}.

(** ** The configuration objects *)

(*@ src/pkg/gardener/shoot/extender/provider/provider.go:196-197 InfrastructureProviderFunc *)
Definition InfrastructureProviderFunc : Type := string -> list string -> result Raw.
Definition ControlPlaneProviderFunc : Type := list string -> result Raw.

(*@ src/pkg/gardener/shoot/extender/provider/provider.go:200-212 getConfig *)
Definition getConfigForProvider (runtimeShoot : RuntimeShoot) (zones : list string)
    (infrastructureConfigFunc : InfrastructureProviderFunc) (controlPlaneConfigFunc : ControlPlaneProviderFunc) :
    result (Raw * Raw) :=
  infrastructureConfigBytes ← infrastructureConfigFunc (rnNodes (rsNetworking runtimeShoot)) zones;
  controlPlaneConfigBytes ← controlPlaneConfigFunc zones;
  Ok (infrastructureConfigBytes, controlPlaneConfigBytes).

(** The infrastructure and the control plane configuration.  Bytes that are nil are
    the empty string: a raw extension of the API server has none of length 0. *)
(*@ src/pkg/gardener/shoot/extender/provider/provider.go:199-258 getConfig *)
Definition getConfig (runtimeShoot : RuntimeShoot) (zones : list string) (enableDualStack : bool)
    (existingInfrastructureConfig : Raw) (gdhcConfig : GDCHConfig) : result (Raw * Raw) :=
  let type := rpType (rsProvider runtimeShoot) in
  let patch := negb (String.eqb existingInfrastructureConfig "") in
  if String.eqb type TypeAWS then
    if patch then
      getConfigForProvider runtimeShoot zones
        (fun workersCidr zones => aws_GetInfrastructureConfigForPatch workersCidr zones existingInfrastructureConfig)
        aws_GetControlPlaneConfig
    else if enableDualStack then
      getConfigForProvider runtimeShoot zones AwsConfig.GetInfrastructureConfigForDualStack
        AwsConfig.GetControlPlaneConfigForDualStack
    else getConfigForProvider runtimeShoot zones aws_GetInfrastructureConfig aws_GetControlPlaneConfig
  else if String.eqb type TypeAzure then
    if patch then
      getConfigForProvider runtimeShoot zones
        (fun workersCidr zones => azure_GetInfrastructureConfigForPatch workersCidr zones existingInfrastructureConfig)
        azure_GetControlPlaneConfig
    else getConfigForProvider runtimeShoot zones azure_GetInfrastructureConfig azure_GetControlPlaneConfig
  else if String.eqb type TypeGCP then
    getConfigForProvider runtimeShoot zones gcp_GetInfrastructureConfig gcp_GetControlPlaneConfig
  else if String.eqb type TypeOpenStack then
    getConfigForProvider runtimeShoot zones openstack_GetInfrastructureConfig openstack_GetControlPlaneConfig
  else if String.eqb type TypeAlicloud then
    getConfigForProvider runtimeShoot zones alicloud_GetInfrastructureConfig alicloud_GetControlPlaneConfig
  else if String.eqb type TypeGDCH then
    getConfigForProvider runtimeShoot zones
      (fun workersCidr zones => gdch_GetInfrastructureConfig workersCidr zones gdhcConfig)
      gdch_GetControlPlaneConfig
  else Err (newError "provider not supported").

(*@ src/pkg/gardener/shoot/extender/provider/provider.go:144-156 isAzureLiteSetup *)
Definition isAzureLiteSetup (providerType : string) (infraConfigBytes : Raw) : result bool :=
  if negb (String.eqb providerType TypeAzure) then Ok false
  else
    infraConfig ← azure_DecodeInfrastructureConfig infraConfigBytes;
    Ok (match AzureConfig.ncZones (AzureConfig.Networks infraConfig) with [] => true | _ => false end).

(** ** Changes of the provider section *)

Definition provider_with_workers (p : ShootProvider) (ws : list Worker) : ShootProvider :=
  mkShootProvider (spType p) (spControlPlaneConfig p) (spInfrastructureConfig p) ws (spWorkersSettingsSSH p).
Definition provider_with_configs (p : ShootProvider) (infra controlPlane : option Raw) : ShootProvider :=
  mkShootProvider (spType p) controlPlane infra (spWorkers p) (spWorkersSettingsSSH p).

(*@ src/pkg/gardener/shoot/extender/provider/provider.go:260-267 getAWSWorkerConfig *)
Definition getAWSWorkerConfig : result Raw := AwsConfig.GetWorkerConfig.

(** An error leaves the worker it happened at without configuration. *)
(*@ src/pkg/gardener/shoot/extender/provider/provider.go:288-295 setWorkerConfig *)
Fixpoint setWorkerConfigs (workers : list Worker) : list Worker * option GoError :=
  match workers with
  | [] => ([], None)
  | w :: rest =>
      match getAWSWorkerConfig with
      | Err e => (worker_with_provider_config w None :: rest, Some e)
      | Ok config =>
          let '(rest, err) := setWorkerConfigs rest in
          (worker_with_provider_config w (Some config) :: rest, err)
      end
  end.

(*@ src/pkg/gardener/shoot/extender/provider/provider.go:283-298 setWorkerConfig *)
Definition setWorkerConfig (provider : ShootProvider) (providerType : string) (enableIMDSv2 : bool) :
    update ShootProvider :=
  if negb (String.eqb providerType TypeAWS) || negb enableIMDSv2 then changed provider
  else
    let '(workers, err) := setWorkerConfigs (spWorkers provider) in
    Ret (provider_with_workers provider workers, err).

(*@ src/pkg/gardener/shoot/extender/provider/provider.go:300-327 setWorkerSettings *)
Definition setWorkerSettings (provider : ShootProvider) (podsCIDR : string) : update ShootProvider :=
  let provider := mkShootProvider (spType provider) (spControlPlaneConfig provider)
                    (spInfrastructureConfig provider) (spWorkers provider) (Some false) in
  match MaxPodsFromCIDR CanonicalPodsCIDRSlash24 with
  | Err e => failed provider (wrapError "per-node maxPods limit from /24 pods CIDR" e)
  | Ok perNodeLimit =>
      let provider :=
        provider_with_workers provider (ApplyPerNodeMaxPodsCap (spWorkers provider) (int32 perNodeLimit)) in
      if String.eqb podsCIDR "" then changed provider
      else
        match MaxPodsFromCIDR podsCIDR with
        | Err e => failed provider (wrapError "invalid pods CIDR for maxPods calculation" e)
        | Ok totalIPs =>
            '(workers, err) ← deref (ApplyMaxPodsWithTotalCap (spWorkers provider) totalIPs);
            Ret (provider_with_workers provider workers, option_map (wrapError "maxPods clamping") err)
        end
  end.

(*@ src/pkg/gardener/shoot/extender/provider/provider.go:140-142 setWorkerMachineControllerManager *)
Definition setWorkerMachineControllerManager (provider : ShootProvider) (cfg : Config.WorkerConfig) :
    update ShootProvider :=
  match ApplyMachineControllerManagerConfig (spWorkers provider) (DefaultMachineDrainTimeout cfg)
          (DefaultMaxEvictRetries cfg) with
  | Err e => failed provider e
  | Ok workers => changed (provider_with_workers provider workers)
  end.

(** ** What the Shoot's workers share with the Runtime's *)

(** For every worker of the Shoot its position among the Runtime's main and
    additional workers, and whether the first of those is the same struct. *)
Record Aliases := mkAliases { alOrigins : list nat; alFirstInPlace : bool }.

Definition allWorkers (p : RuntimeProvider) : list Worker :=
  (rpWorkers p ++ default [] (rpAdditionalWorkers p))%list.

(** A worker as its owner sees it when its copy has become [w']: of the copy only
    what lies behind pointers is shared, if they were not nil. *)
Definition seenWorker (inPlace : bool) (w w' : Worker) : Worker :=
  if inPlace then w'
  else
    let orNil {A} (old new : option A) := match old with None => None | Some _ => new end in
    worker_with_mcm
      (worker_with_cri
         (worker_with_kubernetes
            (worker_with_image w (orNil (wMachineImage w) (wMachineImage w')))
            (orNil (wKubernetes w) (wKubernetes w')))
         (orNil (wCRI w) (wCRI w')))
      (orNil (wMCMSettings w) (wMCMSettings w')).

Definition seenAt (al : Aliases) (after : list Worker) (i : nat) (w : Worker) : Worker :=
  match slicesIndexFunc (alOrigins al) (Nat.eqb i) with
  | Some k =>
      match after !! k with
      | Some w' => seenWorker (alFirstInPlace al && Nat.eqb i 0) w w'
      | None => w
      end
  | None => w
  end.

(** The Runtime as its owner sees it when the Shoot's workers are [after]. *)
Definition provider_seen (al : Aliases) (after : list Worker) (p : RuntimeProvider) : RuntimeProvider :=
  let n := length (rpWorkers p) in
  mkRuntimeProvider (rpType p) (imap (seenAt al after) (rpWorkers p))
    (imap (fun i => seenAt al after (n + i)) <$> rpAdditionalWorkers p)
    (rpControlPlaneConfig p) (rpInfrastructureConfig p).

Definition seenByOwner (al : Aliases) (after : list Worker) (rt : Runtime) : Runtime :=
  let sp := rtSpec rt in
  let rs := rShoot sp in
  runtime_with_spec rt
    (mkRuntimeSpec
       (mkRuntimeShoot (rsName rs) (rsPurpose rs) (rsPlatformRegion rs) (rsRegion rs) (rsLicenceType rs)
          (rsSecretBindingName rs) (rsEnforceSeedLocation rs) (rsEnableNvidiaOpenshell rs) (rsKubernetes rs)
          (provider_seen al after (rsProvider rs)) (rsNetworking rs) (rsControlPlane rs))
       (rSecurity sp) (rCaching sp) (rAuditLogAccessEnabled sp)).

(** [append(provider.Workers, additional...)] keeps the array of the Runtime when
    there is nothing to append or when it has room: [spare] elements. *)
Definition appendAdditional (spare : nat) (p : RuntimeProvider) : Aliases :=
  mkAliases (seq 0 (length (allWorkers p)))
    (Nat.leb (length (default [] (rpAdditionalWorkers p))) spare).

(** The aliases, the provider section, and the error. *)
Definition onProvider (al : Aliases) (m : update ShootProvider) : prog (Aliases * ShootProvider * option GoError) :=
  '(p, err) ← m; Ret (al, p, err).

(** ** The two operations *)

(** [spare] is the room left in the array of the Runtime's workers. *)
Context (spare : nat).

(*@ src/pkg/gardener/shoot/extender/provider/provider.go:26-67 NewProviderExtenderForCreateOperation *)
Definition NewProviderExtenderForCreateOperation (infraSupportsDualStack enableIMDSv2 : bool)
    (machineImageCfg : MachineImageConfig) (workerMachineCfg : Config.WorkerConfig) (gdhcConfig : GDCHConfig)
    (rt : Runtime) (provider : ShootProvider) : prog (Aliases * ShootProvider * option GoError) :=
  let rs := rShoot (rtSpec rt) in
  let p := rsProvider rs in
  let provider := mkShootProvider (rpType p) (spControlPlaneConfig provider) (spInfrastructureConfig provider)
                    (rpWorkers p) (spWorkersSettingsSSH provider) in
  if negb (Nat.eqb (length (rpWorkers p)) 1) then
    onProvider (mkAliases (seq 0 (length (rpWorkers p))) true)
      (failed provider (newError "single main worker is required"))
  else
    let provider := provider_with_workers provider (allWorkers p) in
    onProvider (appendAdditional spare p)
      (let workerZones := getNetworkingZonesFromWorkers (spWorkers provider) in
       let canEnableDualStack := isTrue (rnDualStack (rsNetworking rs)) && infraSupportsDualStack in
       match getConfig rs workerZones canEnableDualStack "" gdhcConfig with
       | Err e => failed provider e
       | Ok (infraConfig, controlPlaneConf) =>
           let provider := provider_with_configs provider (Some infraConfig) (Some controlPlaneConf) in
           let provider := provider_with_workers provider
                 (setMachineImage (spWorkers provider) (DefaultImageName machineImageCfg)
                    (DefaultImageVersion machineImageCfg)) in
           provider <~ setWorkerConfig provider (spType provider) enableIMDSv2;
           provider <~ setWorkerSettings provider (rnPods (rsNetworking rs));
           setWorkerMachineControllerManager provider workerMachineCfg
       end).

(** From the workers of the Shoot the zones it has, those the Runtime adds, and the
    configuration objects of the patched Shoot. *)
(*@ src/pkg/gardener/shoot/extender/provider/provider.go:94-116 NewProviderExtenderPatchOperation *)
Definition patchedConfigs (rs : RuntimeShoot) (workers shootWorkers : list Worker) (existingInfraConfig : Raw)
    (existingControlPlaneConfig : option Raw) (gdhcOptions : GDCHConfig) : result (option Raw * option Raw) :=
  let workerZonesFromRuntime := getNetworkingZonesFromWorkers workers in
  let workerZonesFromShoot := getNetworkingZonesFromWorkers shootWorkers in
  let zonesAdded := newZonesAdded workerZonesFromShoot workerZonesFromRuntime in
  azureLiteCluster ← isAzureLiteSetup (rpType (rsProvider rs)) existingInfraConfig;
  if (match zonesAdded with [] => true | _ => false end) || azureLiteCluster
  then Ok (Some existingInfraConfig, existingControlPlaneConfig)
  else
    '(infraConfig, controlPlaneConfig) ←
      getConfig rs (workerZonesFromShoot ++ zonesAdded) false existingInfraConfig gdhcOptions;
    Ok (Some infraConfig, Some controlPlaneConfig).

(*@ src/pkg/gardener/shoot/extender/provider/provider.go:70-138 NewProviderExtenderPatchOperation *)
Definition NewProviderExtenderPatchOperation (enableIMDSv2 : bool) (shootWorkers : list Worker)
    (machineImageCfg : MachineImageConfig) (workerMachineCfg : Config.WorkerConfig)
    (existingInfraConfig existingControlPlaneConfig : option Raw) (gdhcOptions : GDCHConfig)
    (rt : Runtime) (provider : ShootProvider) : prog (Aliases * ShootProvider * option GoError) :=
  let rs := rShoot (rtSpec rt) in
  let p := rsProvider rs in
  let provider := mkShootProvider (rpType p) (spControlPlaneConfig provider) (spInfrastructureConfig provider)
                    (rpWorkers p) (spWorkersSettingsSSH provider) in
  let unsorted := mkAliases (seq 0 (length (rpWorkers p))) true in
  match existingInfraConfig with
  | None => onProvider unsorted (failed provider (newError "existing infrastructure config is required"))
  | Some existingInfra =>
      if negb (Nat.eqb (length (rpWorkers p)) 1) then
        onProvider unsorted (failed provider (newError "single main worker is required on the Runtime CR"))
      else if Nat.eqb (length shootWorkers) 0 then
        onProvider unsorted (failed provider (newError "shoot workers are required"))
      else
        let workers := allWorkers p in
        let provider := provider_with_workers provider (sortWorkersToShootOrder workers shootWorkers) in
        onProvider (mkAliases (sortSlice (workerLess workers shootWorkers) (seq 0 (length workers))) false)
          (match patchedConfigs rs (spWorkers provider) shootWorkers existingInfra existingControlPlaneConfig
                   gdhcOptions with
           | Err e => failed provider e
           | Ok (infraConfig, controlPlaneConfig) =>
               let provider := provider_with_configs provider infraConfig controlPlaneConfig in
               let provider := provider_with_workers provider
                     (setMachineImage (spWorkers provider) (DefaultImageName machineImageCfg)
                        (DefaultImageVersion machineImageCfg)) in
               provider <~ setWorkerConfig provider (spType provider) enableIMDSv2;
               provider <~ setWorkerSettings provider (rnPods (rsNetworking rs));
               provider <~ setWorkerMachineControllerManager provider workerMachineCfg;
               workers ← alignWorkersWithGardener (spWorkers provider) (existingWorkersMap shootWorkers);
               changed (provider_with_workers provider workers)
           end)
  end.

End Provider.

(** ** Operations that return *)

(** [m] returns, without a panic or a call, and the result satisfies [Q]. *)
Definition yields {S} (m : update S) (Q : S -> option GoError -> Prop) : Prop :=
  exists s err, m = Ret (s, err) /\ Q s err.

Lemma yields_changed {S} (s : S) (Q : S -> option GoError -> Prop) : Q s None -> yields (changed s) Q.
Proof. intros HQ. by exists s, None. Qed.

Lemma yields_failed {S} (s : S) e (Q : S -> option GoError -> Prop) : Q s (Some e) -> yields (failed s e) Q.
Proof. intros HQ. by exists s, (Some e). Qed.

Lemma yields_andThen {S} (m : update S) f (P Q : S -> option GoError -> Prop) :
  yields m P -> (forall s, P s None -> yields (f s) Q) -> (forall s e, P s (Some e) -> Q s (Some e)) ->
  yields (andThen m f) Q.
Proof.
  intros (s & [e|] & -> & HP) Hf He; cbn; [by exists s, (Some e); auto|]. by apply Hf.
Qed.

Lemma yields_impl {S} (m : update S) (P Q : S -> option GoError -> Prop) :
  yields m P -> (forall s err, P s err -> Q s err) -> yields m Q.
Proof. intros (s & err & -> & HP) HQ. exists s, err. auto. Qed.

(** ** What the settings of workers change *)

(** The provider configuration, the limit of pods and the machine controller
    settings; nothing else of a worker. *)
Definition sameButSettings (w w' : Worker) : Prop :=
  wName w' = wName w /\ wMachineType w' = wMachineType w /\ wMachineImage w' = wMachineImage w /\
  wMinimum w' = wMinimum w /\ wMaximum w' = wMaximum w /\ wZones w' = wZones w /\ wCRI w' = wCRI w /\
  wUpdateStrategy w' = wUpdateStrategy w /\ wRest w' = wRest w.

#[export] Instance sameButSettings_preorder : PreOrder sameButSettings.
Proof.
  split.
  - intros w. unfold sameButSettings. tauto.
  - intros u v w (?&?&?&?&?&?&?&?&?) (?&?&?&?&?&?&?&?&?). unfold sameButSettings. split_and!; congruence.
Qed.

Lemma sameButMaxPods_settings w w' : sameButMaxPods w w' -> sameButSettings w w'.
Proof.
  intros [->|[v ->]]; [done|]. unfold setMaxPods.
  destruct (wKubernetes w) as [k|]; [|done]. destruct (wkKubelet k); [|done]. unfold sameButSettings. tauto.
Qed.

(** Only the workers and their settings change. *)
Definition settingsChanged (p p' : ShootProvider) : Prop :=
  spType p' = spType p /\ spControlPlaneConfig p' = spControlPlaneConfig p /\
  spInfrastructureConfig p' = spInfrastructureConfig p /\
  Forall2 sameButSettings (spWorkers p) (spWorkers p').

Lemma settingsChanged_trans p q r : settingsChanged p q -> settingsChanged q r -> settingsChanged p r.
Proof.
  intros (?&?&?&Ha) (?&?&?&Hb). split_and!; [congruence..|]. by etrans.
Qed.

Section ProviderLemmas.
Context `{GardenerLaws} `{SortLaws} `{HyperscalerCodecs}.

Lemma setWorkerConfig_settings p type imds :
  yields (setWorkerConfig p type imds) (fun p' _ => settingsChanged p p' /\
    wKubernetes <$> spWorkers p' = wKubernetes <$> spWorkers p).
Proof.
  unfold setWorkerConfig. destruct (_ || _).
  { apply yields_changed. by split_and!. }
  destruct (setWorkerConfigs (spWorkers p)) as [ws err] eqn:E. exists (provider_with_workers p ws), err.
  split; [done|]. cbn.
  assert (Forall2 sameButSettings (spWorkers p) ws /\ wKubernetes <$> ws = wKubernetes <$> spWorkers p) as [? ?];
    [|by split_and!].
  revert ws err E. induction (spWorkers p) as [|w rest IH]; intros ws err; cbn; [by intros [= <- _]|].
  destruct getAWSWorkerConfig.
  - destruct (setWorkerConfigs rest) as [ws' err']. intros [= <- _]. destruct (IH _ _ eq_refl) as [Hs Hk].
    split; [by constructor|]. cbn. by rewrite Hk.
  - intros [= <- _]. split; [by constructor|done].
Qed.

Lemma setWorkerSettings_settings p cidr :
  yields (setWorkerSettings p cidr) (fun p' err => settingsChanged p p' /\
    (err = None -> cidr <> "" -> exists totalIPs, MaxPodsFromCIDR cidr = Ok totalIPs /\
       ApplyMaxPodsWithTotalCap (ApplyPerNodeMaxPodsCap (spWorkers p) 254) totalIPs = Some (spWorkers p', None))).
Proof.
  unfold setWorkerSettings. replace (MaxPodsFromCIDR CanonicalPodsCIDRSlash24) with (Ok 254%Z) by (by vm_compute).
  change (int32 254) with 254%Z.
  assert (Forall2 sameButSettings (spWorkers p) (ApplyPerNodeMaxPodsCap (spWorkers p) 254)) as Hcap.
  { induction (spWorkers p) as [|w ws IH]; [constructor|]. cbn [ApplyPerNodeMaxPodsCap]. constructor; [|done].
    destruct (wMaxPods w); [|done]. destruct (Z.ltb _ _); [|done]. apply sameButMaxPods_settings. by right; eexists. }
  cbn [spWorkers provider_with_workers]. destruct (String.eqb_spec cidr "").
  { apply yields_changed. by split; [split_and!|]. }
  destruct (MaxPodsFromCIDR cidr) as [total|e]; [|apply yields_failed; by split; [split_and!|]].
  destruct (ApplyMaxPodsWithTotalCap_same (ApplyPerNodeMaxPodsCap (spWorkers p) 254) total) as (ws & err & Heq & Hs).
  rewrite Heq. cbn. eexists _, _. split; [reflexivity|]. split.
  - split_and!; [done..|]. cbn. etrans; [exact Hcap|]. eapply Forall2_impl; [exact Hs|]. apply sameButMaxPods_settings.
  - intros Herr _. exists total. split; [done|]. rewrite Heq. cbn. by destruct err.
Qed.

Lemma setWorkerMachineControllerManager_settings p cfg :
  yields (setWorkerMachineControllerManager p cfg) (fun p' err => settingsChanged p p' /\
    (err = None -> wKubernetes <$> spWorkers p' = wKubernetes <$> spWorkers p)).
Proof.
  unfold setWorkerMachineControllerManager.
  destruct (ApplyMachineControllerManagerConfig _ _ _) as [ws|e] eqn:E; [|by apply yields_failed; split_and!].
  apply yields_changed. unfold ApplyMachineControllerManagerConfig in E. inv_result.
  cbn [spWorkers provider_with_workers]. split; [split_and!; [done..|]|intros _]; cbn; clear.
  - induction (spWorkers p); cbn; constructor; done.
  - induction (spWorkers p) as [|w ws IH]; cbn; [done|]. by rewrite IH.
Qed.

(** The steps that create and patch have in common. *)
Definition podsWithin (cidr : string) (workers workers' : list Worker) : Prop :=
  podsInt32 workers -> (Z.of_nat (length workers) < 2 ^ 31)%Z -> cidr <> "" ->
  exists totalIPs, MaxPodsFromCIDR cidr = Ok totalIPs /\ (sumPods workers' <= totalIPs)%Z /\
    podsAtMost 254 workers'.

Lemma pods_by_kubernetes (ws ws' : list Worker) :
  wKubernetes <$> ws = wKubernetes <$> ws' -> omap wMaxPods ws = omap wMaxPods ws' /\ length ws = length ws'.
Proof.
  revert ws'. induction ws as [|w ws IH]; intros [|w' ws']; try done. cbn. intros [= Hw Hws].
  destruct (IH _ Hws) as [-> ->]. unfold wMaxPods at 1 3. by rewrite Hw.
Qed.

Lemma podsWithin_proper cidr ws1 ws2 ws1' ws2' :
  wKubernetes <$> ws1 = wKubernetes <$> ws2 -> wKubernetes <$> ws1' = wKubernetes <$> ws2' ->
  podsWithin cidr ws1 ws1' -> podsWithin cidr ws2 ws2'.
Proof.
  intros [E1 L1]%pods_by_kubernetes [E2 L2]%pods_by_kubernetes.
  unfold podsWithin, podsInt32, sumPods, podsAtMost. by rewrite E1, L1, E2.
Qed.

(** Three steps, whatever follows. *)
Lemma settings_spec p cidr type imds cfg (f : ShootProvider -> update ShootProvider) P Q :
  (forall p', yields (setWorkerMachineControllerManager p' cfg) P -> yields (f p') Q) ->
  (forall p' e, Q p' (Some e)) ->
  (forall p' err, (err = None -> settingsChanged p p' /\ podsWithin cidr (spWorkers p) (spWorkers p')) -> P p' err) ->
  yields (p <~ setWorkerConfig p type imds; p <~ setWorkerSettings p cidr; f p) Q.
Proof.
  intros Hf HQ HP.
  eapply yields_andThen; [apply setWorkerConfig_settings| |auto]. cbn. intros p1 [Hs1 Hk1].
  eapply yields_andThen; [apply setWorkerSettings_settings| |auto]. cbn. intros p2 [Hs2 Hpods].
  apply Hf. eapply yields_impl; [apply setWorkerMachineControllerManager_settings|]. cbn.
  intros p3 err [Hs3 Hk3]. apply HP. intros ->.
  split; [by repeat (eapply settingsChanged_trans; [eassumption|])|].
  apply (podsWithin_proper _ (spWorkers p1) _ (spWorkers p2)); [done|by rewrite Hk3|].
  intros Hi Hlen Hc. destruct (Hpods eq_refl Hc) as (total & Ht & Happ). exists total. split; [done|].
  destruct (ApplyPerNodeMaxPodsCap_bounds 254 (spWorkers p1)) as (Hi' & Hm & Hl); [lia|done|].
  eapply ApplyMaxPodsWithTotalCap_fits; [exact Hi'|by rewrite Hl| |exact Hm|exact Happ].
  by eapply MaxPodsFromCIDR_max.
Qed.

(** ** The two operations *)

(** A worker of a new Shoot: that of the Runtime with its image completed and its
    settings made. *)
Definition workerMade (cfg : MachineImageConfig) (w w' : Worker) : Prop :=
  exists w1, imageCompleted (DefaultImageName cfg) (DefaultImageVersion cfg) w w1 /\ sameButSettings w1 w'.

Lemma workersMade cfg ws ws' :
  Forall2 sameButSettings (setMachineImage ws (DefaultImageName cfg) (DefaultImageVersion cfg)) ws' ->
  Forall2 (workerMade cfg) ws ws'.
Proof.
  intros Hs. pose proof (setMachineImage_spec ws (DefaultImageName cfg) (DefaultImageVersion cfg)) as Hi.
  revert ws' Hs. induction Hi as [|w w1 ws ws1 Hw _ IH]; intros ws' Hs; inversion Hs; subst; constructor.
  - by exists w1.
  - by apply IH.
Qed.

Lemma setMachineImage_kubernetes ws name version :
  wKubernetes <$> setMachineImage ws name version = wKubernetes <$> ws.
Proof. induction ws as [|w ws IH]; cbn; [done|]. by rewrite IH. Qed.

Lemma onProvider_yields al m Q :
  yields m Q -> exists p err, onProvider al m = Ret (al, p, err) /\ Q p err.
Proof. intros (p & err & -> & HQ). by exists p, err. Qed.

(** What a successful creation has made of the provider section. *)
Definition providerCreated (infraSupportsDualStack : bool) (machineImageCfg : MachineImageConfig)
    (gdhcConfig : GDCHConfig) (rt : Runtime) (p' : ShootProvider) : Prop :=
  let rs := rShoot (rtSpec rt) in
  let workers := allWorkers (rsProvider rs) in
  length (rpWorkers (rsProvider rs)) = 1 /\ spType p' = rpType (rsProvider rs) /\
  (exists infra controlPlane,
     getConfig rs (getNetworkingZonesFromWorkers workers)
       (isTrue (rnDualStack (rsNetworking rs)) && infraSupportsDualStack) "" gdhcConfig = Ok (infra, controlPlane) /\
     spInfrastructureConfig p' = Some infra /\ spControlPlaneConfig p' = Some controlPlane) /\
  Forall2 (workerMade machineImageCfg) workers (spWorkers p') /\
  podsWithin (rnPods (rsNetworking rs)) workers (spWorkers p').

Lemma create_spec spare dual imds imageCfg workerCfg gdch rt provider :
  exists al p' err,
    NewProviderExtenderForCreateOperation spare dual imds imageCfg workerCfg gdch rt provider = Ret (al, p', err) /\
    (err = None -> al = appendAdditional spare (rsProvider (rShoot (rtSpec rt))) /\
       providerCreated dual imageCfg gdch rt p').
Proof.
  unfold NewProviderExtenderForCreateOperation, providerCreated. cbv zeta.
  set (rs := rShoot (rtSpec rt)). set (p := rsProvider rs).
  destruct (Nat.eqb_spec (length (rpWorkers p)) 1) as [Hlen|]; cbn [negb]; [|by eexists _, _, _].
  edestruct (onProvider_yields (appendAdditional spare p)) as (p' & err & Heq & HQ);
    [|eexists _, p', err; split; [exact Heq|exact HQ]].
  cbn [spWorkers provider_with_workers].
  destruct (getConfig rs _ _ _ _) as [[infra cp]|e] eqn:Hcfg; [|by apply yields_failed].
  eapply (settings_spec _ _ _ _ workerCfg); [by auto|done|].
  cbn [spWorkers provider_with_workers provider_with_configs].
  intros p' err Hs Herr. destruct (Hs Herr) as [(Ht & Hc & Hi & Hw) Hp]. cbn in *.
  split; [done|]. split; [done|]. split; [done|]. split; [by exists infra, cp|].
  split; [by apply workersMade|].
  eapply podsWithin_proper; [|done|exact Hp]. apply setMachineImage_kubernetes.
Qed.

(** What a successful patch has made of it. *)
Definition providerPatched (shootWorkers : list Worker) (machineImageCfg : MachineImageConfig)
    (existingInfraConfig : Raw) (existingControlPlaneConfig : option Raw) (gdhcOptions : GDCHConfig)
    (rt : Runtime) (p' : ShootProvider) : Prop :=
  let rs := rShoot (rtSpec rt) in
  length (rpWorkers (rsProvider rs)) = 1 /\ shootWorkers <> [] /\ spType p' = rpType (rsProvider rs) /\
  exists sorted made, sorted ≡ₚ allWorkers (rsProvider rs) /\
    patchedConfigs rs sorted shootWorkers existingInfraConfig existingControlPlaneConfig gdhcOptions =
      Ok (spInfrastructureConfig p', spControlPlaneConfig p') /\
    Forall2 (workerMade machineImageCfg) sorted made /\
    Forall2 (fun w w' => alignedTo (existingWorkersMap shootWorkers !! wName w) w w') made (spWorkers p') /\
    podsWithin (rnPods (rsNetworking rs)) sorted (spWorkers p').

Lemma made_versions cfg ws ws' : Forall2 (workerMade cfg) ws ws' -> Forall hasImageVersion ws'.
Proof.
  induction 1 as [|w w' ws ws' (w1 & (i & v & Hi & Hv & _) & Hsame) _ IH]; constructor; [|done].
  exists i, v. split; [|done]. destruct Hsame as (_ & _ & -> & _). done.
Qed.

Lemma aligned_kubernetes (m : gmap string Worker) ws ws' :
  Forall2 (fun w w' => alignedTo (m !! wName w) w w') ws ws' -> wKubernetes <$> ws' = wKubernetes <$> ws.
Proof.
  induction 1 as [|w w' ws ws' Hw _ IH]; cbn; [done|]. rewrite IH. f_equal. unfold alignedTo in Hw.
  destruct (m !! wName w); [|by subst]. destruct Hw as (_ & _ & _ & _ & ->). done.
Qed.

Lemma patch_spec imds shootWorkers imageCfg workerCfg existingInfra existingCP gdch rt provider :
  exists al p' err,
    NewProviderExtenderPatchOperation imds shootWorkers imageCfg workerCfg existingInfra existingCP gdch rt provider =
      Ret (al, p', err) /\
    (err = None -> exists existing, existingInfra = Some existing /\
       providerPatched shootWorkers imageCfg existing existingCP gdch rt p').
Proof.
  unfold NewProviderExtenderPatchOperation, providerPatched. cbv zeta.
  set (rs := rShoot (rtSpec rt)). set (p := rsProvider rs).
  destruct existingInfra as [existing|]; [|by eexists _, _, _].
  destruct (Nat.eqb_spec (length (rpWorkers p)) 1) as [Hlen|]; cbn [negb]; [|by eexists _, _, _].
  destruct (Nat.eqb_spec (length shootWorkers) 0) as [|Hsw]; [by eexists _, _, _|].
  match goal with |- exists _ _ _, onProvider ?al _ = _ /\ _ =>
    edestruct (onProvider_yields al) as (p' & err & Heq & HQ); [|eexists _, p', err; split; [exact Heq|exact HQ]]
  end.
  cbn [spWorkers provider_with_workers].
  set (sorted := sortWorkersToShootOrder (allWorkers p) shootWorkers).
  destruct (patchedConfigs _ _ _ _ _ _) as [[infra cp]|e] eqn:Hcfg; [|by apply yields_failed].
  eapply (settings_spec _ (rnPods (rsNetworking rs)) _ _ workerCfg);
    [intros p1 Hp1; eapply yields_andThen; [exact Hp1| |done]|done|].
  2:{ intros p' err Hp. exact Hp. }
  cbn [spWorkers provider_with_workers provider_with_configs].
  intros p2 Hs. destruct (Hs eq_refl) as [(Ht & Hc & Hi & Hw) Hp]. cbn in Ht, Hc, Hi, Hw.
  apply workersMade in Hw.
  destruct (alignWorkers_spec (spWorkers p2) (existingWorkersMap shootWorkers)) as (ws & -> & Hal);
    [by eapply made_versions|].
  apply yields_changed. intros _. exists existing. split; [done|]. split; [done|].
  split; [by intros ->|]. split; [done|].
  exists sorted, (spWorkers p2). split; [apply sortSlice_perm|]. split; [cbn; congruence|].
  split; [done|]. split; [done|].
  eapply podsWithin_proper; [apply setMachineImage_kubernetes| |exact Hp].
  symmetry. by eapply aligned_kubernetes.
Qed.

(** ** Properties *)

(** C17. NewProviderExtenderPatchOperation never panics.  When it succeeds there were
    workers and an infrastructure configuration of the Shoot to start from and exactly
    one main worker; the workers are the Runtime's, reordered, completed like those of
    a new Shoot and then aligned with those of the Shoot; the pods fit like those of
    a new Shoot. *)
Theorem patch_provider_correct imds shootWorkers imageCfg workerCfg existingInfra existingCP gdch rt provider :
  exists al p' err,
    NewProviderExtenderPatchOperation imds shootWorkers imageCfg workerCfg existingInfra existingCP gdch rt provider =
      Ret (al, p', err) /\
    (err = None -> exists existing, existingInfra = Some existing /\
       providerPatched shootWorkers imageCfg existing existingCP gdch rt p').
Proof. apply patch_spec. Qed.

Lemma newZonesAdded_spec existing new z :
  z ∈ newZonesAdded existing new <-> z ∈ new /\ z ∉ existing.
Proof.
  unfold newZonesAdded. rewrite list_elem_of_In, filter_In, <- list_elem_of_In, negb_true_iff, slicesContains_false.
  done.
Qed.

Lemma networkingZones_elem workers z :
  z ∈ getNetworkingZonesFromWorkers workers <-> exists w, w ∈ workers /\ z ∈ wZones w.
Proof.
  destruct (zonesFrom_spec workers []) as (_ & _ & Hz); [constructor|]. unfold getNetworkingZonesFromWorkers.
  rewrite Hz. set_solver.
Qed.

(** Every zone of [workers] is a zone of a worker of the Shoot. *)
Definition zonesKnown (workers shootWorkers : list Worker) : Prop :=
  forall w z, w ∈ workers -> z ∈ wZones w -> exists s, s ∈ shootWorkers /\ z ∈ wZones s.

Lemma zonesKnown_none workers shootWorkers :
  zonesKnown workers shootWorkers <->
  newZonesAdded (getNetworkingZonesFromWorkers shootWorkers) (getNetworkingZonesFromWorkers workers) = [].
Proof.
  split.
  - intros Hk. destruct (newZonesAdded _ _) as [|z zs] eqn:E; [done|].
    assert (z ∈ z :: zs) as Hz by constructor. rewrite <- E in Hz. apply newZonesAdded_spec in Hz as [Hin Hni].
    apply networkingZones_elem in Hin as (w & Hw & Hz). destruct Hni. apply networkingZones_elem. eauto.
  - intros E w z Hw Hz. apply networkingZones_elem.
    destruct (decide (z ∈ getNetworkingZonesFromWorkers shootWorkers)) as [|Hni]; [done|].
    assert (z ∈ @nil string) as []%elem_of_nil. rewrite <- E. apply newZonesAdded_spec. split; [|done].
    apply networkingZones_elem. eauto.
Qed.

Lemma patchedConfigs_cases rs workers shootWorkers bytes cp gdch infra cp' :
  patchedConfigs rs workers shootWorkers bytes cp gdch = Ok (infra, cp') ->
  let zones := getNetworkingZonesFromWorkers shootWorkers in
  let added := newZonesAdded zones (getNetworkingZonesFromWorkers workers) in
  (infra = Some bytes /\ cp' = cp /\
     (added = [] \/ isAzureLiteSetup (rpType (rsProvider rs)) bytes = Ok true)) \/
  (added <> [] /\ isAzureLiteSetup (rpType (rsProvider rs)) bytes = Ok false /\
     exists raw raw', getConfig rs (zones ++ added) false bytes gdch = Ok (raw, raw') /\
       infra = Some raw /\ cp' = Some raw').
Proof.
  unfold patchedConfigs. cbv zeta. intros (lite & Hl & H')%result_bind_Ok.
  destruct (newZonesAdded _ _) as [|z zs] eqn:E; cbn in H'; [left; naive_solver|].
  destruct lite; [left; naive_solver|]. apply result_bind_Ok in H' as ([raw raw'] & Hg & [= <- <-]).
  right. split; [done|]. split; [done|]. by exists raw, raw'.
Qed.

Lemma getConfigForProvider_infra rs zones f g raw raw' :
  getConfigForProvider rs zones f g = Ok (raw, raw') -> f (rnNodes (rsNetworking rs)) zones = Ok raw.
Proof.
  unfold getConfigForProvider. intros (infra & Hi & Hg)%result_bind_Ok.
  by apply result_bind_Ok in Hg as (? & _ & [= -> _]).
Qed.

Lemma getConfig_aws_patch rs zones dual bytes gdch raw raw' :
  rpType (rsProvider rs) = TypeAWS -> bytes <> "" ->
  getConfig rs zones dual bytes gdch = Ok (raw, raw') ->
  exists config, aws_NewInfrastructureConfigForPatch (rnNodes (rsNetworking rs)) zones bytes = Ok config /\
    marshal config = Ok raw.
Proof.
  intros Ht Hb. unfold getConfig. rewrite Ht, (proj2 (String.eqb_neq _ _) Hb). cbn [negb String.eqb TypeAWS TypeAzure Ascii.eqb Bool.eqb].
  intros Hg%getConfigForProvider_infra. by apply result_bind_Ok in Hg.
Qed.

Lemma getConfig_azure_patch rs zones dual bytes gdch raw raw' :
  rpType (rsProvider rs) = TypeAzure -> bytes <> "" ->
  getConfig rs zones dual bytes gdch = Ok (raw, raw') ->
  exists config, azure_NewInfrastructureConfigForPatch (rnNodes (rsNetworking rs)) zones bytes = Ok config /\
    marshal config = Ok raw.
Proof.
  intros Ht Hb. unfold getConfig. rewrite Ht, (proj2 (String.eqb_neq _ _) Hb). cbn [negb String.eqb TypeAWS TypeAzure Ascii.eqb Bool.eqb].
  intros Hg%getConfigForProvider_infra. by apply result_bind_Ok in Hg.
Qed.

(** C14. What a patch of the Shoot does to its infrastructure.  When the Runtime's
    workers need no zone that the Shoot's workers do not have, the infrastructure and
    the control plane configuration stay byte for byte.  On AWS and on Azure (with
    zones or without), when the zones of the infrastructure are those generated for
    the zones of the Shoot's workers, the new infrastructure starts with exactly the
    present zones, with their subnets and with what was added to them; on AWS every
    zone of a worker then has its subnets. *)
Theorem patch_keeps_infrastructure `{!CodecLaws aws_InfrastructureConfig}
    `{!CodecLaws azure_InfrastructureConfig}
    imds shootWorkers imageCfg workerCfg bytes cp gdch rt provider al p' :
  NewProviderExtenderPatchOperation imds shootWorkers imageCfg workerCfg (Some bytes) cp gdch rt provider =
    Ret (al, p', None) ->
  let rs := rShoot (rtSpec rt) in
  let workers := allWorkers (rsProvider rs) in
  let shootZones := getNetworkingZonesFromWorkers shootWorkers in
  (zonesKnown workers shootWorkers ->
     spInfrastructureConfig p' = Some bytes /\ spControlPlaneConfig p' = cp) /\
  (rpType (rsProvider rs) = TypeAWS -> bytes <> "" ->
   forall existing generated, unmarshal bytes = Ok existing ->
     generateAWSZones (rnNodes (rsNetworking rs)) shootZones = Ok generated ->
     AwsConfig.withoutIP <$> AwsConfig.icZones existing = generated ->
     exists raw config, spInfrastructureConfig p' = Some raw /\ unmarshal raw = Ok config /\
       AwsConfig.icZones existing `prefix_of` AwsConfig.icZones config /\
       forall w z, w ∈ workers -> z ∈ wZones w -> z ∈ ZonesAws.zName <$> AwsConfig.icZones config) /\
  (rpType (rsProvider rs) = TypeAzure -> bytes <> "" ->
   forall existing generated, unmarshal bytes = Ok existing ->
     generateAzureZones (rnNodes (rsNetworking rs)) shootZones = Ok generated ->
     AzureConfig.asGenerated <$> AzureConfig.ncZones (AzureConfig.Networks existing) = generated ->
     exists raw config, spInfrastructureConfig p' = Some raw /\ unmarshal raw = Ok config /\
       AzureConfig.ncZones (AzureConfig.Networks existing) `prefix_of`
         AzureConfig.ncZones (AzureConfig.Networks config)).
Proof.
  intros Hret rs workers shootZones.
  destruct (patch_spec imds shootWorkers imageCfg workerCfg (Some bytes) cp gdch rt provider)
    as (al0 & p0 & err & Heq & Hok).
  rewrite Hret in Heq. injection Heq as <- <- <-.
  destruct (Hok eq_refl) as (? & [= <-] & _ & _ & _ & sorted & made & Hperm & Hcfg & _).
  apply patchedConfigs_cases in Hcfg. cbv zeta in Hcfg. fold rs shootZones in Hcfg.
  assert (zonesKnown workers shootWorkers <->
          newZonesAdded shootZones (getNetworkingZonesFromWorkers sorted) = []) as Hknown.
  { unfold shootZones. rewrite <- zonesKnown_none. unfold zonesKnown. by setoid_rewrite Hperm. }
  assert (forall w z, w ∈ workers -> z ∈ wZones w ->
            z ∈ (shootZones ++ newZonesAdded shootZones (getNetworkingZonesFromWorkers sorted))%list) as Hall.
  { intros w z Hw Hz. apply elem_of_app. destruct (decide (z ∈ shootZones)); [by left|right].
    apply newZonesAdded_spec. split; [|done]. apply networkingZones_elem. exists w. by rewrite Hperm. }
  split; [|split].
  - rewrite Hknown. intros Hnone. destruct Hcfg as [(-> & -> & _)|(Hne & _)]; done.
  - intros Htype Hb existing generated Hbytes Hgen Hzones.
    destruct (generateAWSZones_names _ _ _ Hgen) as (Hnames & _).
    assert (ZonesAws.zName <$> AwsConfig.icZones existing = shootZones) as Hexist.
    { rewrite <- Hnames, <- Hzones, <- list_fmap_compose. done. }
    destruct Hcfg as [(-> & _ & Hwhy)|(_ & _ & raw & raw' & Hg & -> & _)].
    + exists bytes, existing. split_and!; [done..|]. intros w z Hw Hz. rewrite Hexist.
      destruct Hwhy as [Hnone|Hlite].
      * specialize (Hall w z Hw Hz). by rewrite Hnone, app_nil_r in Hall.
      * unfold isAzureLiteSetup in Hlite. rewrite Htype in Hlite. done.
    + apply getConfig_aws_patch in Hg as (config & Hconfig & Hm); [|done..].
      destruct (AwsConfig.patch_keeps_existing_zones _ _ _ _ _ _ _ Hbytes Hgen Hzones Hconfig) as (Hpre & Hn & _).
      exists raw, config. split_and!; [done|by apply unmarshal_marshal|done|].
      intros w z Hw Hz. rewrite Hn. by eapply Hall.
  - intros Htype Hb existing generated Hbytes Hgen Hzones.
    destruct Hcfg as [(-> & _ & _)|(_ & _ & raw & raw' & Hg & -> & _)].
    + by exists bytes, existing.
    + apply getConfig_azure_patch in Hg as (config & Hconfig & Hm); [|done..].
      destruct (AzureConfig.patch_keeps_azure_zones _ _ _ _ _ _ _ Hbytes Hgen Hzones Hconfig) as (Hpre & _).
      exists raw, config. split_and!; [done|by apply unmarshal_marshal|done].
Qed.

End ProviderLemmas.

(** ** An example *)

(** A codec that refuses everything. *)
Definition noCodec {A} : Codec A := {|
  marshal _ := Err (newError "unsupported value");
  unmarshal _ := Err (newError "unsupported bytes")
|}.

Definition exampleZoneA : aws_Zone :=
  ZonesAws.mkZone "a" "10.250.0.0/19" "10.250.32.0/20" "10.250.48.0/20" (Some "eip-1").
Definition exampleZoneB : aws_Zone :=
  ZonesAws.mkZone "b" "10.250.64.0/19" "10.250.96.0/20" "10.250.112.0/20" None.
Definition exampleInfra (zones : list aws_Zone) : aws_InfrastructureConfig :=
  AwsConfig.mkInfrastructureConfig "InfrastructureConfig" "aws.provider.extensions.gardener.cloud/v1alpha1" None None
    (AwsConfig.mkVPC None (Some "10.250.0.0/16") []) zones None.

(** The bytes of two infrastructures of AWS, and of its other objects. *)
Definition exampleCodecs : HyperscalerCodecs := {|
  awsInfra := tableCodec [(exampleInfra [exampleZoneA], "one zone");
                          (exampleInfra [exampleZoneA; exampleZoneB], "two zones")];
  awsControlPlane := {| marshal _ := Ok "control plane"; unmarshal _ := Err (newError "unsupported") |};
  awsWorker := {| marshal _ := Ok "worker"; unmarshal _ := Err (newError "unsupported") |};
  azureInfra := noCodec; azureControlPlane := noCodec; gcpInfra := noCodec; gcpControlPlane := noCodec;
  openStackInfra := noCodec; openStackControlPlane := noCodec; alicloudInfra := noCodec;
  alicloudControlPlane := noCodec; gdchInfra := noCodec; gdchControlPlane := noCodec
|}.

Definition exampleSort : SortLib := {| pdqOrder _ n := seq 0 n |}.
Lemma exampleSort_laws : @SortLaws exampleSort.
Proof. by constructor. Qed.

#[local] Existing Instances numberVersions numberVersions_laws exampleCodecs exampleSort exampleSort_laws.

Definition exampleImages : MachineImageConfig := mkMachineImageConfig "linux" "8".

Lemma patch_provider_correct_witness :
  let rt := exampleRuntime "aws" None [exampleWorker "w" ["a"; "b"] None] None in
  let shootWorkers := [exampleWorker "w" ["a"] (Some (mkImage "linux" (Some "9")))] in
  exists al p', NewProviderExtenderPatchOperation false shootWorkers exampleImages (mkWorkerConfig "" "")
      (Some "one zone") None (mkGDCHConfig "" "" "" "") rt (mkShootProvider "" None None [] None) =
      Ret (al, p', None) /\
    providerPatched shootWorkers exampleImages "one zone" None (mkGDCHConfig "" "" "" "") rt p'.
Proof.
  intros rt shootWorkers.
  destruct (patch_provider_correct false shootWorkers exampleImages (mkWorkerConfig "" "")
      (Some "one zone") None (mkGDCHConfig "" "" "" "") rt (mkShootProvider "" None None [] None))
    as (al & p' & err & Heq & Hok).
  assert (err = None) as -> by (vm_compute in Heq; by injection Heq).
  destruct (Hok eq_refl) as (? & [= <-] & Hp). by exists al, p'.
Defined.

(** What a conversion does to the Runtime it was given: the user asked for image
    version 8, the Shoot has 9; afterwards the worker of the Runtime in memory says
    9 too, and the state machine writes this Runtime back when it removes the
    annotation that forced the patch. *)
Example conversion_changes_the_runtime :
  let rt := exampleRuntime "aws" None [exampleWorker "w" ["a"] (Some (mkImage "linux" (Some "8")))] None in
  let shootWorkers := [exampleWorker "w" ["a"] (Some (mkImage "linux" (Some "9")))] in
  match NewProviderExtenderPatchOperation false shootWorkers exampleImages (mkWorkerConfig "" "")
          (Some "one zone") None (mkGDCHConfig "" "" "" "") rt (mkShootProvider "" None None [] None) with
  | Ret (al, p', None) =>
      wMachineImage <$> rpWorkers (rsProvider (rShoot (rtSpec (seenByOwner al (spWorkers p') rt)))) =
        [Some (mkImage "linux" (Some "9"))]
  | _ => False
  end.
Proof. by vm_compute. Qed.

Lemma patch_keeps_infrastructure_witness :
  let rt := exampleRuntime "aws" None [exampleWorker "w" ["a"; "b"] None] None in
  exists al p', NewProviderExtenderPatchOperation false [exampleWorker "w" ["a"] (Some (mkImage "linux" (Some "9")))]
      exampleImages (mkWorkerConfig "" "") (Some "one zone") None (mkGDCHConfig "" "" "" "") rt
      (mkShootProvider "" None None [] None) = Ret (al, p', None) /\
    spInfrastructureConfig p' = Some "two zones" /\
    exists config, unmarshal "two zones" = Ok config /\
      [exampleZoneA] `prefix_of` AwsConfig.icZones config.
Proof.
  intros rt. do 2 eexists. split; [vm_compute; reflexivity|]. split; [reflexivity|].
  assert (@CodecLaws aws_InfrastructureConfig awsInfra) as Haws.
  { apply tableCodec_laws. cbn. repeat constructor; set_solver. }
  assert (@CodecLaws azure_InfrastructureConfig azureInfra) as Hazure by (split; done).
  edestruct (patch_keeps_infrastructure false [exampleWorker "w" ["a"] (Some (mkImage "linux" (Some "9")))]
      exampleImages (mkWorkerConfig "" "") "one zone" None (mkGDCHConfig "" "" "" "") rt
      (mkShootProvider "" None None [] None)) as (_ & Hp & _); [vm_compute; reflexivity|].
  destruct (Hp eq_refl) with (existing := exampleInfra [exampleZoneA])
    (generated := [AwsConfig.withoutIP exampleZoneA]) as (raw & config & Hraw & Hc & Hpre & _);
    [done|vm_compute; reflexivity..|].
  injection Hraw as <-. by exists config.
Defined.
