(* ===== verification/Extensions.v ===== *)
(** * The extensions of a Shoot (extender/extensions)

    Which Gardener extensions a Shoot gets, for a new Shoot and for the patch of an
    existing one.  The list of addresses that may reach the API server is read from
    a config map of the control plane. *)

From S2P Require Import Prelude Sscanf Kube Gardener RuntimeApi Objects Effects Config RegistryCache.
From S2P Require Import AuditLog ConverterApi Extenders.

Local Open Scope string_scope.

(** ** Their configurations *)

(*@ src/pkg/gardener/shoot/extender/extensions/auditlog.go:18-28 AuditlogExtensionConfig *)
Record AuditlogExtensionConfig := mkAuditlogExtensionConfig {
  aecKind : string;
  aecAPIVersion : string;
  aecType : string;
  aecTenantID : string;
  aecServiceURL : string;
  aecSecretReferenceName : string
}.

(** The configuration of the certificate extension. *)
(*@ src/pkg/gardener/shoot/extender/extensions/cert.go:12-26 ExtensionProviderConfig *)
Record ExtensionProviderConfig := mkExtensionProviderConfig {
  epcAPIVersion : string;
  epcDNSProviderReplication : option bool;         (* .Enabled *)
  epcShootIssuers : option bool;                   (* .Enabled *)
  epcKind : string
}.

(** Slices that may be nil or empty are told apart: reflect.DeepEqual does. *)
(*@ src/pkg/gardener/shoot/extender/extensions/dns.go:44-50 DNSIncludeExclude *)
Record DNSIncludeExclude := mkIncludeExclude { ieInclude : option (list string); ieExclude : option (list string) }.

(*@ src/pkg/gardener/shoot/extender/extensions/dns.go:32-42 DNSProvider *)
Record DNSProvider := mkDNSProvider {
  dpDomains : option DNSIncludeExclude;
  dpCredentials : option string;
  dpType : option string;
  dpZones : option DNSIncludeExclude
}.

(*@ src/pkg/gardener/shoot/extender/extensions/dns.go:15-30 DNSExtensionProviderConfig *)
Record DNSExtensionProviderConfig := mkDNSExtensionProviderConfig {
  decAPIVersion : string;
  decKind : string;
  decDNSProviderReplication : option bool;         (* .Enabled *)
  decProviders : option (list DNSProvider);
  decSyncProvidersFromShootSpecDNS : option bool
}.

(*@ src/pkg/gardener/shoot/extender/extensions/network_filter.go:53-68 Configuration *)
Record FilterConfiguration := mkFilterConfiguration { EgressFilterBlackholingEnabled : option bool }.

(*@ src/pkg/gardener/shoot/extender/extensions/apiServerACL.go:22-30 aclProviderConfig *)
Record aclProviderConfig := mkAclProviderConfig { aclAction : string; aclCidrs : list string; aclType : string }.

#[export] Instance AuditlogExtensionConfig_eq_dec : EqDecision AuditlogExtensionConfig.
Proof. solve_decision. Defined.
#[export] Instance ExtensionProviderConfig_eq_dec : EqDecision ExtensionProviderConfig.
Proof. solve_decision. Defined.
#[export] Instance DNSIncludeExclude_eq_dec : EqDecision DNSIncludeExclude.
Proof. solve_decision. Defined.
#[export] Instance DNSProvider_eq_dec : EqDecision DNSProvider.
Proof. solve_decision. Defined.
#[export] Instance DNSExtensionProviderConfig_eq_dec : EqDecision DNSExtensionProviderConfig.
Proof. solve_decision. Defined.
#[export] Instance FilterConfiguration_eq_dec : EqDecision FilterConfiguration.
Proof. solve_decision. Defined.
#[export] Instance aclProviderConfig_eq_dec : EqDecision aclProviderConfig.
Proof. solve_decision. Defined.

Class ExtensionCodecs := {
  auditlogConfigCodec :: Codec AuditlogExtensionConfig;
  certConfigCodec :: Codec ExtensionProviderConfig;
  dnsConfigCodec :: Codec DNSExtensionProviderConfig;
  filterConfigCodec :: Codec FilterConfiguration;
  aclConfigCodec :: Codec aclProviderConfig;
  registryConfigCodec :: Codec RegistryConfig;
  stringListCodec :: Codec (list string);
  stringCodec :: Codec string
}.

(*@consts src/pkg/gardener/shoot/extender/extensions/auditlog.go:13-16 *)
Definition AuditlogExtensionType : string := "shoot-auditlog-service".
Definition auditlogReferenceName : string := "auditlog-credentials".

(*@consts src/pkg/gardener/shoot/extender/extensions/apiServerACL.go:18-20 *)
Definition ApiServerACLExtensionType : string := "acl".
Definition OperatorIpsKey : string := "acl-list.json".
Definition KcpExternalNatIpKey : string := "kcp-external-nat-ip.json".

(*@consts src/pkg/gardener/shoot/extender/extensions/cert.go:10-10 *)
Definition CertExtensionType : string := "shoot-cert-service".

(*@consts src/pkg/gardener/shoot/extender/extensions/dns.go:12-12 *)
Definition DNSExtensionType : string := "shoot-dns-service".

(*@consts src/pkg/gardener/shoot/extender/extensions/network_filter.go:12-12 *)
Definition NetworkFilterType : string := "shoot-networking-filter".

(*@consts src/pkg/gardener/shoot/extender/extensions/nvidia_openshell.go:8-10 *)
Definition NvidiaOpenshellExtensionType : string := "shoot-nvidia-openshell".

(*@consts src/pkg/gardener/shoot/extender/extensions/oidc.go:8-10 *)
Definition OidcExtensionType : string := "shoot-oidc-service".

Section Extensions.
Context `{ExtensionCodecs}.

(** ** One function per extension *)

(*@ src/pkg/gardener/shoot/extender/extensions/cert.go:28-34 NewCertConfig *)
Definition NewCertConfig : ExtensionProviderConfig :=
  mkExtensionProviderConfig "service.cert.extensions.gardener.cloud/v1alpha1" None (Some true) "CertConfig".

(*@ src/pkg/gardener/shoot/extender/extensions/cert.go:36-49 NewCertExtension *)
Definition NewCertExtension : result Extension :=
  jsonCertConfig ← marshal NewCertConfig;
  Ok (mkExtension CertExtensionType (Some jsonCertConfig) None).

(*@ src/pkg/gardener/shoot/extender/cert_config.go:11-27 ExtendWithCertConfig *)
Definition ExtendWithCertConfig : Extend := fun _ shoot =>
  jsonCertConfig ← marshal NewCertConfig;
  Ok (onSpec shoot (fun sp =>
        set_extensions sp
          (ssExtensions sp ++ [mkExtension "shoot-cert-service" (Some jsonCertConfig) None])%list)).

(*@ src/pkg/gardener/shoot/extender/extensions/dns.go:57-73 newDNSExtensionConfig *)
Definition newDNSExtensionConfig (domain secretName dnsProviderType : string) : DNSExtensionProviderConfig :=
  mkDNSExtensionProviderConfig "service.dns.extensions.gardener.cloud/v1alpha1" "DNSConfig" (Some true)
    (Some [mkDNSProvider (Some (mkIncludeExclude (Some [domain]) None))
             (Some (DNSExtensionType +:+ "-" +:+ secretName)) (Some dnsProviderType) None])
    (Some true).

(*@ src/pkg/gardener/shoot/extender/extensions/dns.go:93-105 serializedDNSExtension *)
Definition serializedDNSExtension (providerConfig : DNSExtensionProviderConfig) : result Extension :=
  extensionJSON ← marshal providerConfig;
  Ok (mkExtension DNSExtensionType (Some extensionJSON) None).

(*@ src/pkg/gardener/shoot/extender/extensions/dns.go:75-80 NewDNSExtensionExternal *)
Definition NewDNSExtensionExternal (shootName secretName domainSuffix dnsProviderType : string) : result Extension :=
  serializedDNSExtension (newDNSExtensionConfig (shootName +:+ "." +:+ domainSuffix) secretName dnsProviderType).

(*@ src/pkg/gardener/shoot/extender/extensions/dns.go:83-88 NewDNSExtensionInternal *)
Definition internalDNSConfig : DNSExtensionProviderConfig :=
  mkDNSExtensionProviderConfig "service.dns.extensions.gardener.cloud/v1alpha1" "DNSConfig" (Some true) None (Some true).

(*@ src/pkg/gardener/shoot/extender/extensions/dns.go:82-91 NewDNSExtensionInternal *)
Definition NewDNSExtensionInternal : result Extension := serializedDNSExtension internalDNSConfig.

(*@ src/pkg/gardener/shoot/extender/extensions/network_filter.go:45-47 isNetworkingFilterDisabled *)
Definition isNetworkingFilterDisabled (filter : Filter) : bool := negb (filterEgress filter).

(*@ src/pkg/gardener/shoot/extender/extensions/network_filter.go:49-51 isIngressBlackholingEnabled *)
Definition isIngressBlackholingEnabled (filter : Filter) : bool := isTrue (filterIngress filter).

(*@ src/pkg/gardener/shoot/extender/extensions/network_filter.go:14-43 NewNetworkFilterExtension *)
Definition NewNetworkFilterExtension (filter : Filter) : result Extension :=
  let disabled := isNetworkingFilterDisabled filter in
  if disabled then Ok (mkExtension NetworkFilterType None (Some disabled))
  else if isIngressBlackholingEnabled filter then
    providerJson ← marshal (mkFilterConfiguration (Some true));
    Ok (mkExtension NetworkFilterType (Some providerJson) (Some disabled))
  else Ok (mkExtension NetworkFilterType None (Some disabled)).

(*@ src/pkg/gardener/shoot/extender/extensions/nvidia_openshell.go:12-17 EnableNvidiaOpenshellExtension *)
Definition EnableNvidiaOpenshellExtension : Extension := mkExtension NvidiaOpenshellExtensionType None (Some false).

(*@ src/pkg/gardener/shoot/extender/extensions/nvidia_openshell.go:19-24 DisableNvidiaOpenshellExtension *)
Definition DisableNvidiaOpenshellExtension : Extension := mkExtension NvidiaOpenshellExtensionType None (Some true).

(*@ src/pkg/gardener/shoot/extender/extensions/oidc.go:12-17 NewOIDCExtension *)
Definition NewOIDCExtension : Extension := mkExtension OidcExtensionType None (Some false).

(** The encoder of a stream ends the object with a newline. *)
(*@ src/pkg/gardener/shoot/extender/extensions/auditlog.go:30-52 NewAuditLogExtension *)
Definition NewAuditLogExtension (d : ShootAuditLogData) : result Extension :=
  let cfg := mkAuditlogExtensionConfig "AuditlogConfig" "service.auditlog.extensions.gardener.cloud/v1alpha1"
               "standard" (salTenantID d) (salServiceURL d) auditlogReferenceName in
  buffer ← marshal cfg;
  Ok (mkExtension AuditlogExtensionType (Some (buffer +:+ String (Ascii.ascii_of_nat 10) "")) None).

(*@ src/pkg/gardener/shoot/extender/extensions/apiServerACL.go:43-55 applyAccessControlList *)
Definition applyAccessControlList (aclList : list string) : result Extension :=
  rawExtension ← marshal (mkAclProviderConfig "ALLOW" aclList "remote_ip");
  Ok (mkExtension ApiServerACLExtensionType (Some rawExtension) (Some false)).

(*@ src/pkg/gardener/shoot/extender/extensions/apiServerACL.go:32-41 NewApiServerACLExtension *)
Definition NewApiServerACLExtension (userIPs operatorIPs : list string) (kcpIP : string) : result Extension :=
  match userIPs with
  | [] => Ok (mkExtension ApiServerACLExtensionType None (Some true))
  | _ => applyAccessControlList (userIPs ++ operatorIPs ++ [kcpIP])%list
  end.

(*@ src/pkg/gardener/shoot/extender/extensions/apiServerACL.go:57-76 loadIPsFromConfigMap *)
Definition loadIPsFromConfigMap (aclMapName : string) : prog (result (list string * string)) :=
  r ← callP (CGet Kcp KConfigMap (mkNN "kcp-system" aclMapName));
  mret
    (aclConfigMap ← r;
     operatorIPs ← unmarshal (mapGet (cmData aclConfigMap) OperatorIpsKey);
     kcpIp ← unmarshal (mapGet (cmData aclConfigMap) KcpExternalNatIpKey);
     Ok (operatorIPs, kcpIp)).

(*@ src/pkg/gardener/shoot/extender/extensions/apiServerACL.go:78-85 AclNeedsToBeEnabled *)
Definition AclNeedsToBeEnabled (apiServerAclEnabled : bool) (runtime : Runtime) : bool :=
  let runtimeType := rpType (rsProvider (rShoot (rtSpec runtime))) in
  apiServerAclEnabled && (String.eqb runtimeType TypeAWS || String.eqb runtimeType TypeAzure) &&
  match raACL (rkKubeAPIServer (rsKubernetes (rShoot (rtSpec runtime)))) with
  | Some AllowedCIDRs => Nat.ltb 0 (length AllowedCIDRs)
  | None => false
  end.

(** [runtime.Spec.Shoot.Kubernetes.KubeAPIServer.ACL.AllowedCIDRs], where ACL is not nil. *)
Definition allowedCIDRs (runtime : Runtime) : list string :=
  default [] (raACL (rkKubeAPIServer (rsKubernetes (rShoot (rtSpec runtime))))).

(*@ src/pkg/gardener/shoot/extender/extensions/registry_config.go:49-106 ToRegistryCacheExtension *)
Definition ToRegistryCacheExtension (caches : list ImageRegistryCache)
    (registryCacheGardenSecretNames : gmap string string) : list ExtRegistryCache :=
  let secretReferenceName cache :=
    match rcSecretReferenceName (cacheConfig cache) with
    | None | Some "" => None
    | Some _ => Some (mapGet registryCacheGardenSecretNames (cacheUID cache))
    end in
  map (fun c =>
    mkExtRegistryCache (rcUpstream (cacheConfig c)) (rcRemoteURL (cacheConfig c))
      ((fun v => mkExtVolume (cvolSize v) (cvolStorageClassName v)) <$> rcVolume (cacheConfig c))
      (rcGarbageCollection (cacheConfig c)) (secretReferenceName c)
      ((fun p => mkExtProxy (cproxyHTTP p) (cproxyHTTPS p)) <$> rcProxy (cacheConfig c))) caches.

(*@ src/pkg/gardener/shoot/extender/extensions/registry_config.go:25-47 extension *)
Definition extension (caches : list ImageRegistryCache) (registryCacheGardenSecretNames : gmap string string) :
    result Extension :=
  providerConfigBytes ← marshal (mkRegistryConfig "registry.extensions.gardener.cloud/v1alpha3" "RegistryConfig"
                                  (ToRegistryCacheExtension caches registryCacheGardenSecretNames));
  Ok (mkExtension RegistryCacheExtensionType (Some providerConfigBytes) (Some false)).

(*@ src/pkg/gardener/shoot/extender/extensions/registry_config.go:17-23 NewRegistryCacheExtension *)
Definition NewRegistryCacheExtension (caches : list ImageRegistryCache)
    (registryCacheGardenSecretNames : gmap string string) : result (option Extension) :=
  match caches with
  | [] => Ok None
  | _ => Some <$> extension caches registryCacheGardenSecretNames
  end.

(** ** Which extensions a Shoot gets *)

(*@ src/pkg/gardener/shoot/extender/extensions/extender.go:18-23 Strategy *)
Inductive Strategy := StrategyKeep | StrategyRemove.

#[export] Instance Strategy_eq_dec : EqDecision Strategy.
Proof. solve_decision. Defined.

(*@ src/pkg/gardener/shoot/extender/extensions/extender.go:25-29 Extension *)
Record ExtensionRule := mkRule {
  ruleType : string;
  ruleCreate : Runtime -> Shoot -> prog (result (option Extension));
  ruleStrategy : Strategy
}.

Definition hasType (type : string) (e : Extension) : bool := String.eqb (extType e) type.

(*@ src/pkg/gardener/shoot/extender/extensions/extender.go:228-235 existingExtension *)
Definition existingExtension (extensionType : string) (shoot : Shoot) : option Extension :=
  List.find (hasType extensionType) (ssExtensions (shootSpec shoot)).

(*@ src/pkg/gardener/shoot/extender/extensions/extender.go:237-239 isNvidiaOpenshellEnabled *)
Definition isNvidiaOpenshellEnabled (runtime : Runtime) : bool :=
  isTrue (rsEnableNvidiaOpenshell (rShoot (rtSpec runtime))).

(*@ src/pkg/gardener/shoot/extender/extensions/extender.go:241-246 buildDNSExtension *)
Definition buildDNSExtension (dnsConfig : DNSConfig) (shootName : string) : result Extension :=
  if IsGardenerInternal dnsConfig then NewDNSExtensionInternal
  else NewDNSExtensionExternal shootName (dcSecretName dnsConfig) (dcDomainPrefix dnsConfig) (dcProviderType dnsConfig).

(*@ src/pkg/gardener/shoot/extender/extensions/extender.go:248-278 dnsExtensionForPatch *)
Definition dnsExtensionForPatch (dnsConfig : DNSConfig) (shoot : Shoot) : result (option Extension) :=
  desired ← buildDNSExtension dnsConfig (Name (shootMeta shoot));
  match existingExtension DNSExtensionType shoot with
  | None => Ok (Some desired)
  | Some existing =>
      match extProviderConfig existing with
      | None => Ok (Some desired)
      | Some existingRaw =>
          existingCfg ← unmarshal (A := DNSExtensionProviderConfig) existingRaw;
          desiredCfg ← unmarshal (A := DNSExtensionProviderConfig) (default "" (extProviderConfig desired));
          match decProviders existingCfg with
          | None | Some [] => Ok (Some existing)
          | _ => if decide (existingCfg = desiredCfg) then Ok None else Ok (Some desired)
          end
      end
  end.

(** What happens to the extensions once the rule has decided. *)
(*@ src/pkg/gardener/shoot/extender/extensions/extender.go:207-221 newExtensionsExtender *)
Definition applyExtension (ext : ExtensionRule) (updated : option Extension) (extensions : list Extension) :
    list Extension :=
  match slicesIndexFunc extensions (hasType (ruleType ext)), updated with
  | None, Some e => (extensions ++ [e])%list
  | None, None => extensions
  | Some index, Some e => <[index := e]> extensions
  | Some index, None =>
      match ruleStrategy ext with
      | StrategyRemove => slicesDelete1 extensions index
      | StrategyKeep => extensions
      end
  end.

Definition shoot_with_extensions (shoot : Shoot) (extensions : list Extension) : Shoot :=
  onSpec shoot (fun sp => set_extensions sp extensions).

(*@ src/pkg/gardener/shoot/extender/extensions/extender.go:201-222 newExtensionsExtender *)
Fixpoint applyRules (extensionsToApply : list ExtensionRule) (runtime : Runtime) (shoot : Shoot) :
    prog (result Shoot) :=
  match extensionsToApply with
  | [] => mret (Ok shoot)
  | ext :: rest =>
      r ← ruleCreate ext runtime shoot;
      match r with
      | Err e => mret (Err e)
      | Ok updatedGardenerExtension =>
          applyRules rest runtime
            (shoot_with_extensions shoot
               (applyExtension ext updatedGardenerExtension (ssExtensions (shootSpec shoot))))
      end
  end.

(*@ src/pkg/gardener/shoot/extender/extensions/extender.go:194-226 newExtensionsExtender *)
Definition newExtensionsExtender (extensionsToApply : list ExtensionRule)
    (currentGardenerExtensions : list Extension) (runtime : Runtime) (shoot : Shoot) : prog (result Shoot) :=
  applyRules extensionsToApply runtime
    (shoot_with_extensions shoot (ssExtensions (shootSpec shoot) ++ currentGardenerExtensions)%list).

(** *** The rules *)

Definition ruleOf (type : string) (create : Runtime -> Shoot -> result (option Extension)) (s : Strategy) :
    ExtensionRule := mkRule type (fun runtime shoot => mret (create runtime shoot)) s.

(*@ src/pkg/gardener/shoot/extender/extensions/extender.go:33-41 NewExtensionsExtenderForCreate *)
Definition networkFilterRule (networkingRestrictionsGlobalEnabled : bool) : ExtensionRule :=
  ruleOf NetworkFilterType
    (fun runtime _ =>
       if negb networkingRestrictionsGlobalEnabled then Ok None
       else Some <$> NewNetworkFilterExtension (secFilter (rSecurity (rtSpec runtime)))) StrategyKeep.

(*@ src/pkg/gardener/shoot/extender/extensions/extender.go:60-69 NewExtensionsExtenderForCreate *)
Definition auditLogRule (auditLogData : ShootAuditLogData) : ExtensionRule :=
  ruleOf AuditlogExtensionType
    (fun _ _ =>
       if decide (auditLogData = emptyShootAuditLogData) then Ok None else Some <$> NewAuditLogExtension auditLogData)
    StrategyKeep.

(** The access control list of the Runtime, the operators and the control plane. *)
(*@ src/pkg/gardener/shoot/extender/extensions/extender.go:77-81 NewExtensionsExtenderForCreate *)
Definition createAcl (config : ConverterConfig) (runtime : Runtime) : prog (result (option Extension)) :=
  ips ← loadIPsFromConfigMap (ACLConfigMapName (kcKubeApiServer (ccKubernetes config)));
  mret
    ('(operatorIPs, kcpIPs) ← ips;
     Some <$> NewApiServerACLExtension (allowedCIDRs runtime) operatorIPs kcpIPs).

(*@ src/pkg/gardener/shoot/extender/extensions/extender.go:70-83 NewExtensionsExtenderForCreate *)
Definition aclRule (config : ConverterConfig) (apiServerAclEnabled : bool) : ExtensionRule :=
  mkRule ApiServerACLExtensionType
    (fun runtime _ =>
       if negb (AclNeedsToBeEnabled apiServerAclEnabled runtime) then mret (Ok None) else createAcl config runtime)
    StrategyKeep.

(*@ src/pkg/gardener/shoot/extender/extensions/extender.go:84-93 NewExtensionsExtenderForCreate *)
Definition nvidiaRule : ExtensionRule :=
  ruleOf NvidiaOpenshellExtensionType
    (fun runtime _ =>
       if negb (isNvidiaOpenshellEnabled runtime) then Ok None else Ok (Some EnableNvidiaOpenshellExtension))
    StrategyKeep.

(*@ src/pkg/gardener/shoot/extender/extensions/extender.go:31-95 NewExtensionsExtenderForCreate *)
Definition NewExtensionsExtenderForCreate (config : ConverterConfig) (auditLogData : ShootAuditLogData)
    (apiServerAclEnabled networkingRestrictionsGlobalEnabled : bool) : Runtime -> Shoot -> prog (result Shoot) :=
  newExtensionsExtender
    [ networkFilterRule networkingRestrictionsGlobalEnabled;
      ruleOf CertExtensionType (fun _ _ => Some <$> NewCertExtension) StrategyKeep;
      ruleOf DNSExtensionType (fun _ shoot => Some <$> buildDNSExtension (ccDNS config) (Name (shootMeta shoot)))
        StrategyKeep;
      ruleOf OidcExtensionType (fun _ _ => Ok (Some NewOIDCExtension)) StrategyKeep;
      auditLogRule auditLogData;
      aclRule config apiServerAclEnabled;
      nvidiaRule ] [].

(** An audit log extension without configuration is a nil dereference. *)
(*@ src/pkg/gardener/shoot/extender/extensions/extender.go:99-135 NewExtensionsExtenderForPatch *)
Definition auditLogPatchRule (auditLogData : ShootAuditLogData) : ExtensionRule :=
  mkRule AuditlogExtensionType
    (fun _ shoot =>
       if decide (auditLogData = emptyShootAuditLogData) then mret (Ok None)
       else
         match NewAuditLogExtension auditLogData with
         | Err e => mret (Err e)
         | Ok newAuditLogExtension =>
             match existingExtension AuditlogExtensionType shoot with
             | None => mret (Ok (Some newAuditLogExtension))
             | Some existing =>
                 existingRaw ← deref (extProviderConfig existing);
                 mret
                   (existingAuditLogConfig ← unmarshal (A := AuditlogExtensionConfig) existingRaw;
                    newAuditLogConfig ← unmarshal (default "" (extProviderConfig newAuditLogExtension));
                    if decide (newAuditLogConfig = existingAuditLogConfig) then Ok None
                    else Ok (Some newAuditLogExtension))
             end
         end) StrategyKeep.

(*@ src/pkg/gardener/shoot/extender/extensions/extender.go:151-157 NewExtensionsExtenderForPatch *)
Definition registryCacheRule (registryCacheGardenSecretNames : gmap string string) : ExtensionRule :=
  ruleOf RegistryCacheExtensionType
    (fun runtime _ => NewRegistryCacheExtension (rCaching (rtSpec runtime)) registryCacheGardenSecretNames)
    StrategyRemove.

(*@ src/pkg/gardener/shoot/extender/extensions/extender.go:158-176 NewExtensionsExtenderForPatch *)
Definition aclPatchRule (config : ConverterConfig) (apiServerAclEnabled : bool) : ExtensionRule :=
  mkRule ApiServerACLExtensionType
    (fun runtime shoot =>
       if negb (AclNeedsToBeEnabled apiServerAclEnabled runtime) then
         match existingExtension ApiServerACLExtensionType shoot with
         | None => mret (Ok None)
         | Some _ => mret (Some <$> NewApiServerACLExtension [] [] "")
         end
       else createAcl config runtime) StrategyKeep.

(*@ src/pkg/gardener/shoot/extender/extensions/extender.go:177-190 NewExtensionsExtenderForPatch *)
Definition nvidiaPatchRule : ExtensionRule :=
  ruleOf NvidiaOpenshellExtensionType
    (fun runtime shoot =>
       if isNvidiaOpenshellEnabled runtime then Ok (Some EnableNvidiaOpenshellExtension)
       else
         match existingExtension NvidiaOpenshellExtensionType shoot with
         | None => Ok None
         | Some _ => Ok (Some DisableNvidiaOpenshellExtension)
         end) StrategyKeep.

(*@ src/pkg/gardener/shoot/extender/extensions/extender.go:97-192 NewExtensionsExtenderForPatch *)
Definition patchRules (config : ConverterConfig) (auditLogData : ShootAuditLogData)
    (apiServerAclEnabled networkingRestrictionsGlobalEnabled : bool)
    (registryCacheGardenSecretNames : gmap string string) : list ExtensionRule :=
  [ auditLogPatchRule auditLogData;
    networkFilterRule networkingRestrictionsGlobalEnabled;
    ruleOf DNSExtensionType (fun _ shoot => dnsExtensionForPatch (ccDNS config) shoot) StrategyKeep;
    registryCacheRule registryCacheGardenSecretNames;
    aclPatchRule config apiServerAclEnabled;
    nvidiaPatchRule ].

(*@ src/pkg/gardener/shoot/extender/extensions/extender.go:97-192 NewExtensionsExtenderForPatch *)
Definition NewExtensionsExtenderForPatch (config : ConverterConfig) (auditLogData : ShootAuditLogData)
    (extensionsOnTheShoot : list Extension) (apiServerAclEnabled networkingRestrictionsGlobalEnabled : bool)
    (registryCacheGardenSecretNames : gmap string string) : Runtime -> Shoot -> prog (result Shoot) :=
  newExtensionsExtender
    (patchRules config auditLogData apiServerAclEnabled networkingRestrictionsGlobalEnabled
       registryCacheGardenSecretNames) extensionsOnTheShoot.

End Extensions.

(** ** Lemmas: one rule *)

Lemma applyExtension_cons ext u e exts :
  applyExtension ext u (e :: exts) =
  if hasType (ruleType ext) e then
    match u with
    | Some e' => e' :: exts
    | None => match ruleStrategy ext with StrategyRemove => exts | StrategyKeep => e :: exts end
    end
  else e :: applyExtension ext u exts.
Proof.
  unfold applyExtension. cbn [slicesIndexFunc]. destruct (hasType (ruleType ext) e).
  - destruct u; [done|]. destruct (ruleStrategy ext); done.
  - destruct (slicesIndexFunc exts (hasType (ruleType ext))) as [i|]; cbn; [|by destruct u].
    destruct u; [done|]. by destruct (ruleStrategy ext).
Qed.

(** What the extension of the rule's type becomes. *)
Definition decided (ext : ExtensionRule) (u was : option Extension) : option Extension :=
  match u with
  | Some e => Some e
  | None => match ruleStrategy ext with StrategyRemove => None | StrategyKeep => was end
  end.

Definition wellTyped (ext : ExtensionRule) (u : option Extension) : Prop :=
  forall e, u = Some e -> extType e = ruleType ext.

Lemma hasType_iff t e : hasType t e = true <-> extType e = t.
Proof. apply String.eqb_eq. Qed.

Lemma find_type_none t exts : t ∉ extType <$> exts -> List.find (hasType t) exts = None.
Proof.
  induction exts as [|e exts IH]; cbn; [done|]. intros Hni.
  destruct (hasType t e) eqn:He; [apply hasType_iff in He; subst; set_solver|]. apply IH. set_solver.
Qed.

Lemma applyExtension_find ext u exts :
  wellTyped ext u -> NoDup (extType <$> exts) ->
  List.find (hasType (ruleType ext)) (applyExtension ext u exts) =
    decided ext u (List.find (hasType (ruleType ext)) exts).
Proof.
  intros Hu. induction exts as [|e exts IH]; intros Hnd.
  - destruct u as [e|]; cbn; [|by destruct (ruleStrategy ext)].
    by rewrite (proj2 (hasType_iff _ e) (Hu e eq_refl)).
  - cbn in Hnd. apply NoDup_cons in Hnd as [Hni Hnd]. rewrite applyExtension_cons. cbn [List.find].
    destruct (hasType (ruleType ext) e) eqn:He.
    + destruct u as [e'|]; cbn.
      * by rewrite (proj2 (hasType_iff _ e') (Hu e' eq_refl)).
      * apply hasType_iff in He as Het. destruct (ruleStrategy ext); cbn; [by rewrite He|].
        apply find_type_none. congruence.
    + cbn. rewrite He. by apply IH.
Qed.

Lemma applyExtension_find_ne ext u exts t :
  wellTyped ext u -> t <> ruleType ext ->
  List.find (hasType t) (applyExtension ext u exts) = List.find (hasType t) exts.
Proof.
  intros Hu Hne. assert (forall e, extType e = ruleType ext -> hasType t e = false) as Hf.
  { intros e He. apply String.eqb_neq. congruence. }
  induction exts as [|e exts IH].
  - destruct u as [e|]; cbn; [|done]. by rewrite (Hf e (Hu e eq_refl)).
  - rewrite applyExtension_cons. destruct (hasType (ruleType ext) e) eqn:He.
    + apply hasType_iff in He. cbn. rewrite (Hf e He).
      destruct u as [e'|]; cbn; [by rewrite (Hf e' (Hu e' eq_refl))|].
      destruct (ruleStrategy ext); cbn; [by rewrite (Hf e He)|done].
    + cbn. by rewrite IH.
Qed.

Lemma applyExtension_others ext u exts (f : Extension -> bool) :
  wellTyped ext u -> (forall e, extType e = ruleType ext -> f e = false) ->
  List.filter f (applyExtension ext u exts) = List.filter f exts.
Proof.
  intros Hu Hf. induction exts as [|e exts IH].
  - destruct u as [e|]; cbn; [|done]. by rewrite (Hf e (Hu e eq_refl)).
  - rewrite applyExtension_cons. destruct (hasType (ruleType ext) e) eqn:He.
    + apply hasType_iff in He. cbn. rewrite (Hf e He).
      destruct u as [e'|]; cbn; [by rewrite (Hf e' (Hu e' eq_refl))|].
      destruct (ruleStrategy ext); cbn; [by rewrite (Hf e He)|done].
    + cbn. by rewrite IH.
Qed.

Lemma applyExtension_types ext u exts t :
  wellTyped ext u -> t ∈ extType <$> applyExtension ext u exts -> t ∈ extType <$> exts \/ t = ruleType ext.
Proof.
  intros Hu. induction exts as [|e exts IH].
  - destruct u as [e|]; cbn; [|set_solver]. intros Ht%list_elem_of_singleton. right. by rewrite Ht, (Hu e).
  - rewrite applyExtension_cons. destruct (hasType (ruleType ext) e) eqn:He.
    + destruct u as [e'|]; cbn; [rewrite (Hu e' eq_refl)|destruct (ruleStrategy ext)]; set_solver.
    + cbn. set_solver.
Qed.

Lemma applyExtension_NoDup ext u exts :
  wellTyped ext u -> NoDup (extType <$> exts) -> NoDup (extType <$> applyExtension ext u exts).
Proof.
  intros Hu. induction exts as [|e exts IH]; intros Hnd.
  - destruct u; cbn; [apply NoDup_singleton|constructor].
  - cbn in Hnd. apply NoDup_cons in Hnd as [Hni Hnd]. rewrite applyExtension_cons.
    destruct (hasType (ruleType ext) e) eqn:He.
    + apply hasType_iff in He. destruct u as [e'|]; cbn.
      * apply NoDup_cons. split; [|done]. by rewrite (Hu e' eq_refl), <- He.
      * destruct (ruleStrategy ext); [|done]. by apply NoDup_cons.
    + cbn. apply NoDup_cons. split; [|by apply IH].
      intros [Hin|Heq]%applyExtension_types; [done| |done]. apply hasType_iff in Heq. congruence.
Qed.

(** ** Lemmas: all rules *)

Definition extsOf (shoot : Shoot) : list Extension := ssExtensions (shootSpec shoot).

(** The result of the rules: each of them has decided about its type as [Spec]
    says, and nothing else has changed. *)
Definition rulesApplied (Spec : ExtensionRule -> option Extension -> history -> Prop)
    (rules : list ExtensionRule) (shoot shoot' : Shoot) (h : history) : Prop :=
  shoot' = shoot_with_extensions shoot (extsOf shoot') /\
  NoDup (extType <$> extsOf shoot') /\
  (forall rule, rule ∈ rules -> exists u, Spec rule u h /\
     existingExtension (ruleType rule) shoot' = decided rule u (existingExtension (ruleType rule) shoot)) /\
  (forall t, t ∉ ruleType <$> rules -> existingExtension t shoot' = existingExtension t shoot) /\
  (forall f, (forall e, extType e ∈ ruleType <$> rules -> f e = false) ->
     List.filter f (extsOf shoot') = List.filter f (extsOf shoot)).

Lemma wp_applyRules R G (Spec : ExtensionRule -> option Extension -> history -> Prop) (Pan : Prop)
    rules rt shoot h :
  (forall rule u h h', suffix h h' -> Spec rule u h -> Spec rule u h') ->
  NoDup (ruleType <$> rules) -> NoDup (extType <$> extsOf shoot) ->
  (forall rule shoot' h', rule ∈ rules -> shootMeta shoot' = shootMeta shoot ->
     existingExtension (ruleType rule) shoot' = existingExtension (ruleType rule) shoot ->
     wp R G (ruleCreate rule rt shoot') h' (fun o h'' =>
       match o with
       | Done (Ok u) => wellTyped rule u /\ Spec rule u h''
       | Done (Err _) => True
       | Panicked => Pan
       end)) ->
  wp R G (applyRules rules rt shoot) h (fun o h' =>
    match o with
    | Done (Ok shoot') => rulesApplied Spec rules shoot shoot' h'
    | Done (Err _) => True
    | Panicked => Pan
    end).
Proof.
  intros Hmono. revert shoot h. induction rules as [|rule rules IH]; intros shoot h Hrules Hexts Hcreate.
  - cbn. split_and!; try done; [|set_solver..]. destruct shoot as [? ? ? [] ?]; reflexivity.
  - cbn in Hrules. apply NoDup_cons in Hrules as [Hni Hrules]. cbn [applyRules]. apply wp_seq.
    eapply wp_mono; [|apply (Hcreate rule shoot h); [by left|done|done]].
    intros [[u|e]|] h1; [|done..]. intros [Htyped HSpec].
    set (shoot1 := shoot_with_extensions shoot (applyExtension rule u (ssExtensions (shootSpec shoot)))).
    assert (forall t, t <> ruleType rule -> existingExtension t shoot1 = existingExtension t shoot) as Hne.
    { intros t Ht. by apply applyExtension_find_ne. }
    eapply wp_mono; [|apply wp_history, (IH shoot1 h1); [done|by apply applyExtension_NoDup|]].
    2:{ intros r shoot' h' Hr Hmeta Hex. apply Hcreate; [by right|done|]. rewrite Hex. apply Hne.
        intros Heq. apply Hni. rewrite <- Heq. by apply list_elem_of_fmap_2. }
    intros [[shoot'|e]|] h2 [HQ Hsuf]; [|done..]. destruct HQ as (Hsh & Hnd & Hall & Hkeep & Hothers).
    split_and!; [done|done| | |].
    + intros r [->|Hr]%elem_of_cons; [|].
      * exists u. split; [by eapply Hmono|]. rewrite (Hkeep (ruleType rule) Hni). by apply applyExtension_find.
      * destruct (Hall r Hr) as (v & Hv & Heq). exists v. split; [done|]. rewrite Heq, Hne; [done|].
        intros Heq'. apply Hni. rewrite <- Heq'. by apply list_elem_of_fmap_2.
    + intros t Ht. rewrite Hkeep by set_solver. apply Hne. set_solver.
    + intros f Hf. rewrite Hothers by set_solver. apply applyExtension_others; [done|]. set_solver.
Qed.

(** ** The patch *)

Definition newline : string := String (Ascii.ascii_of_nat 10) "".

Section PatchSpec.
Context `{ExtensionCodecs} (config : ConverterConfig) (data : ShootAuditLogData) (aclEnabled global : bool).
Context (names : gmap string string) (rt : Runtime) (shootName : string).

(** A configuration that decodes to the same value as the given bytes. *)
Definition decodesLike (A : Type) `{Codec A} (raw : option Raw) (bytes : Raw) : Prop :=
  exists r (c : A), raw = Some r /\ unmarshal r = Ok c /\ unmarshal bytes = Ok c.

Definition auditLogConfig : AuditlogExtensionConfig :=
  mkAuditlogExtensionConfig "AuditlogConfig" "service.auditlog.extensions.gardener.cloud/v1alpha1" "standard"
    (salTenantID data) (salServiceURL data) auditlogReferenceName.

(** The provider of the configuration, unless Gardener's own DNS is used. *)
Definition desiredDNSConfig : DNSExtensionProviderConfig :=
  let dns := ccDNS config in
  mkDNSExtensionProviderConfig "service.dns.extensions.gardener.cloud/v1alpha1" "DNSConfig" (Some true)
    (if IsGardenerInternal dns then None
     else Some [mkDNSProvider (Some (mkIncludeExclude (Some [shootName +:+ "." +:+ dcDomainPrefix dns]) None))
                  (Some ("shoot-dns-service-" +:+ dcSecretName dns)) (Some (dcProviderType dns)) None])
    (Some true).

(** A DNS extension from before there were providers in its configuration. *)
Definition withoutProviders (e : Extension) : Prop :=
  exists raw (c : DNSExtensionProviderConfig), extProviderConfig e = Some raw /\ unmarshal raw = Ok c /\
    (decProviders c = None \/ decProviders c = Some []).

(** The cache of the extension is the one the Runtime asks for, with the secret of the
    Garden cluster in place of that of the runtime cluster. *)
Definition cacheAsked (c : ImageRegistryCache) (x : ExtRegistryCache) : Prop :=
  let asked := cacheConfig c in
  ercUpstream x = rcUpstream asked /\ ercRemoteURL x = rcRemoteURL asked /\
  ercVolume x = (v ← rcVolume asked; Some (mkExtVolume (cvolSize v) (cvolStorageClassName v))) /\
  ercGarbageCollection x = rcGarbageCollection asked /\
  ercProxy x = (p ← rcProxy asked; Some (mkExtProxy (cproxyHTTP p) (cproxyHTTPS p))) /\
  (ercSecretReferenceName x = None <-> rcSecretReferenceName asked = None \/ rcSecretReferenceName asked = Some "") /\
  (forall n, ercSecretReferenceName x = Some n -> n = mapGet names (cacheUID c)).

(** The Runtime needs an access control list for the addresses. *)
Definition aclWanted (cidrs : list string) : Prop :=
  aclEnabled = true /\ rpType (rsProvider (rShoot (rtSpec rt))) ∈ ["aws"; "azure"] /\
  raACL (rkKubeAPIServer (rsKubernetes (rShoot (rtSpec rt)))) = Some cidrs /\ cidrs <> [].

(** The operators' addresses and that of the control plane, as a config map that was
    read has them. *)
Definition addressesRead (h : history) (operatorIPs : list string) (kcpIP : string) : Prop :=
  exists cm, Ev (CGet Kcp KConfigMap (mkNN "kcp-system" (ACLConfigMapName (kcKubeApiServer (ccKubernetes config)))))
               (Ok cm) ∈ h /\
    unmarshal (mapGet (cmData cm) OperatorIpsKey) = Ok operatorIPs /\
    unmarshal (mapGet (cmData cm) KcpExternalNatIpKey) = Ok kcpIP.

(** What each extension is after a patch, from what it was. *)
Definition auditLogPatched (was now : option Extension) : Prop :=
  if decide (data = emptyShootAuditLogData) then now = was
  else exists bytes, marshal auditLogConfig = Ok bytes /\
    (now = Some (mkExtension "shoot-auditlog-service" (Some (bytes +:+ newline)) None) \/
     exists e, now = Some e /\ was = Some e /\ decodesLike AuditlogExtensionConfig (extProviderConfig e) (bytes +:+ newline)).

Definition networkFilterPatched (was now : option Extension) : Prop :=
  let filter := secFilter (rSecurity (rtSpec rt)) in
  if global then
    exists raw, now = Some (mkExtension "shoot-networking-filter" raw (Some (negb (filterEgress filter)))) /\
      if decide (filterEgress filter = true /\ filterIngress filter = Some true)
      then exists bytes, raw = Some bytes /\ marshal (mkFilterConfiguration (Some true)) = Ok bytes
      else raw = None
  else now = was.

Definition dnsPatched (was now : option Extension) : Prop :=
  (forall e, was = Some e -> withoutProviders e -> now = Some e) /\
  ((forall e, was = Some e -> ~ withoutProviders e) ->
   exists bytes, marshal desiredDNSConfig = Ok bytes /\
     (now = Some (mkExtension "shoot-dns-service" (Some bytes) None) \/
      exists e, now = Some e /\ was = Some e /\ decodesLike DNSExtensionProviderConfig (extProviderConfig e) bytes)).

Definition registryCachePatched (now : option Extension) : Prop :=
  match rCaching (rtSpec rt) with
  | [] => now = None
  | caches =>
      exists xs bytes, Forall2 cacheAsked caches xs /\
        marshal (mkRegistryConfig "registry.extensions.gardener.cloud/v1alpha3" "RegistryConfig" xs) = Ok bytes /\
        now = Some (mkExtension "registry-cache" (Some bytes) (Some false))
  end.

Definition aclPatched (was now : option Extension) (h : history) : Prop :=
  (forall cidrs, aclWanted cidrs ->
     exists operatorIPs kcpIP bytes, addressesRead h operatorIPs kcpIP /\
       marshal (mkAclProviderConfig "ALLOW" (cidrs ++ operatorIPs ++ [kcpIP])%list "remote_ip") = Ok bytes /\
       now = Some (mkExtension ApiServerACLExtensionType (Some bytes) (Some false))) /\
  ((forall cidrs, ~ aclWanted cidrs) ->
     now = match was with None => None | Some _ => Some (mkExtension ApiServerACLExtensionType None (Some true)) end).

Definition nvidiaPatched (was now : option Extension) : Prop :=
  now = (if decide (rsEnableNvidiaOpenshell (rShoot (rtSpec rt)) = Some true)
         then Some (mkExtension "shoot-nvidia-openshell" None (Some false))
         else match was with None => None | Some _ => Some (mkExtension "shoot-nvidia-openshell" None (Some true)) end).

Definition extensionsPatched (was now : string -> option Extension) (h : history) : Prop :=
  auditLogPatched (was AuditlogExtensionType) (now AuditlogExtensionType) /\
  networkFilterPatched (was NetworkFilterType) (now NetworkFilterType) /\
  dnsPatched (was DNSExtensionType) (now DNSExtensionType) /\
  registryCachePatched (now RegistryCacheExtensionType) /\
  aclPatched (was ApiServerACLExtensionType) (now ApiServerACLExtensionType) h /\
  nvidiaPatched (was NvidiaOpenshellExtensionType) (now NvidiaOpenshellExtensionType).

(** The same of what the rules decide. *)
Definition patchSpec (was : string -> option Extension) (rule : ExtensionRule) (u : option Extension)
    (h : history) : Prop :=
  let d := decided rule u (was (ruleType rule)) in
  (ruleType rule = AuditlogExtensionType -> auditLogPatched (was AuditlogExtensionType) d) /\
  (ruleType rule = NetworkFilterType -> networkFilterPatched (was NetworkFilterType) d) /\
  (ruleType rule = DNSExtensionType -> dnsPatched (was DNSExtensionType) d) /\
  (ruleType rule = RegistryCacheExtensionType -> registryCachePatched d) /\
  (ruleType rule = ApiServerACLExtensionType -> aclPatched (was ApiServerACLExtensionType) d h) /\
  (ruleType rule = NvidiaOpenshellExtensionType -> nvidiaPatched (was NvidiaOpenshellExtensionType) d).

Lemma patchSpec_mono was rule u h h' : suffix h h' -> patchSpec was rule u h -> patchSpec was rule u h'.
Proof.
  intros Hs (?&?&?&?&Hacl&?). split_and!; try done. intros Ht. specialize (Hacl Ht).
  destruct Hacl as [Hacl Hno]. split; [|done]. intros cidrs Hw.
  destruct (Hacl cidrs Hw) as (ops & ip & bytes & (cm & Hcm & Hrest) & Hnow). exists ops, ip, bytes. split; [|done].
  exists cm. split; [by eapply suffix_elem|done].
Qed.

(** The only panic: an audit log extension without configuration. *)
Definition patchRulesPanic (was : string -> option Extension) : Prop :=
  data <> emptyShootAuditLogData /\
  exists e, was AuditlogExtensionType = Some e /\ extProviderConfig e = None.

Definition ruleOk R G (was : string -> option Extension) (rule : ExtensionRule) : Prop :=
  forall shoot h, Name (shootMeta shoot) = shootName ->
    existingExtension (ruleType rule) shoot = was (ruleType rule) ->
    wp R G (ruleCreate rule rt shoot) h (fun o h' =>
      match o with
      | Done (Ok u) => wellTyped rule u /\ patchSpec was rule u h'
      | Done (Err _) => True
      | Panicked => patchRulesPanic was
      end).

Lemma existing_type t shoot e : existingExtension t shoot = Some e -> extType e = t.
Proof. intros [_ He]%find_some. by apply hasType_iff. Qed.

Ltac spec_one := split_and!; intros Hty; try discriminate Hty.

Lemma auditLogPatchRule_ok R G was : ruleOk R G was (auditLogPatchRule data).
Proof.
  intros shoot h _ Hex. cbn [auditLogPatchRule ruleType ruleCreate] in *.
  destruct (decide (data = emptyShootAuditLogData)) as [Hd|Hd].
  { cbn. split; [done|]. spec_one. unfold auditLogPatched. by rewrite decide_True. }
  unfold NewAuditLogExtension. fold auditLogConfig.
  destruct (marshal auditLogConfig) as [buffer|err] eqn:Hm; [|done]. cbn.
  assert (wellTyped (auditLogPatchRule data) (Some (mkExtension AuditlogExtensionType (Some (buffer +:+ newline)) None)) /\
          patchSpec was (auditLogPatchRule data) (Some (mkExtension AuditlogExtensionType (Some (buffer +:+ newline)) None)) h)
    as Hnew.
  { split; [by intros ? [= <-]|]. spec_one. unfold auditLogPatched. rewrite decide_False by done. exists buffer.
    split; [done|]. by left. }
  destruct (existingExtension AuditlogExtensionType shoot) as [e|] eqn:He; [|exact Hnew].
  destruct (extProviderConfig e) as [raw|] eqn:Hraw; cbn; [|by split; [|exists e]].
  destruct (unmarshal raw) as [existing|] eqn:Hun; cbn; [|done].
  change (String (Ascii.ascii_of_nat 10) "") with newline.
  destruct (unmarshal (buffer +:+ newline)) as [new|] eqn:Hnewcfg; cbn; [|done].
  destruct (decide (new = existing)) as [->|Hne]; [|exact Hnew].
  split; [done|]. spec_one. unfold auditLogPatched. rewrite decide_False by done. exists buffer. split; [done|]. right.
  exists e. cbn. rewrite <- Hex. split_and!; [done..|]. by exists raw, existing.
Qed.

Lemma networkFilterRule_ok R G was : ruleOk R G was (networkFilterRule global).
Proof.
  intros shoot h _ Hex. cbn [networkFilterRule ruleOf ruleType ruleCreate] in *. destruct global eqn:Hg; cbn.
  2:{ split; [done|]. spec_one. unfold networkFilterPatched. by rewrite Hg. }
  assert (forall raw, (if decide (filterEgress (secFilter (rSecurity (rtSpec rt))) = true /\
                                  filterIngress (secFilter (rSecurity (rtSpec rt))) = Some true)
                       then exists bytes, raw = Some bytes /\ marshal (mkFilterConfiguration (Some true)) = Ok bytes
                       else raw = None) ->
            let e := mkExtension NetworkFilterType raw (Some (negb (filterEgress (secFilter (rSecurity (rtSpec rt)))))) in
            wellTyped (networkFilterRule true) (Some e) /\ patchSpec was (networkFilterRule true) (Some e) h) as Hnew.
  { intros raw Hraw e. split; [by intros ? [= <-]|]. spec_one. unfold networkFilterPatched. rewrite Hg. by exists raw. }
  unfold NewNetworkFilterExtension, isNetworkingFilterDisabled, isIngressBlackholingEnabled, isTrue.
  destruct (filterEgress (secFilter (rSecurity (rtSpec rt)))) eqn:Hf; cbn; [|by apply (Hnew None); case_decide; [naive_solver|]].
  destruct (filterIngress (secFilter (rSecurity (rtSpec rt)))) as [[]|] eqn:Hi;
    [|apply (Hnew None); case_decide; [naive_solver|done]..].
  destruct (marshal _) as [bytes|] eqn:Hm; cbn; [|done]. apply (Hnew (Some bytes)). rewrite decide_True by done. by exists bytes.
Qed.

Lemma desiredDNS_spec e :
  buildDNSExtension (ccDNS config) shootName = Ok e ->
  exists bytes, marshal desiredDNSConfig = Ok bytes /\ e = mkExtension DNSExtensionType (Some bytes) None.
Proof.
  unfold buildDNSExtension, desiredDNSConfig, NewDNSExtensionInternal, NewDNSExtensionExternal, serializedDNSExtension.
  destruct (IsGardenerInternal _); intros (raw & Hm & [= <-])%result_bind_Ok; by exists raw.
Qed.

Lemma dnsRule_ok R G was :
  ruleOk R G was (ruleOf DNSExtensionType (fun _ shoot => dnsExtensionForPatch (ccDNS config) shoot) StrategyKeep).
Proof.
  set (rule := ruleOf _ _ _). intros shoot h Hname Hex. unfold rule at 1. cbn [ruleOf ruleCreate]. cbn.
  unfold dnsExtensionForPatch.
  rewrite Hname. destruct (buildDNSExtension (ccDNS config) shootName) as [desired|] eqn:Hd; cbn; [|done].
  apply desiredDNS_spec in Hd as (bytes & Hm & ->). change (ruleType rule) with DNSExtensionType in Hex.
  assert ((forall e, was DNSExtensionType = Some e -> ~ withoutProviders e) ->
          wellTyped rule (Some (mkExtension DNSExtensionType (Some bytes) None)) /\
          patchSpec was rule (Some (mkExtension DNSExtensionType (Some bytes) None)) h) as Hdesired.
  { intros Hno. split; [by intros ? [= <-]|]. spec_one. split; [intros e He Hw; by destruct (Hno e)|].
    intros _. exists bytes. split; [done|]. by left. }
  destruct (existingExtension DNSExtensionType shoot) as [e|] eqn:He; [|apply Hdesired; rewrite <- Hex; done].
  assert (forall P, (forall raw c, extProviderConfig e = Some raw -> unmarshal raw = Ok c ->
            ~ (decProviders c = None \/ decProviders c = Some [])) -> P = DNSExtensionType ->
          forall e, was P = Some e -> ~ withoutProviders e) as Hnone.
  { intros P Hp -> e'. rewrite <- Hex. intros [= <-] (raw & c & Hr & Hc & Hnil). by apply (Hp raw c). }
  destruct (extProviderConfig e) as [raw|] eqn:Hraw; [|apply Hdesired; eapply Hnone; [|done]; done].
  destruct (unmarshal raw) as [existing|] eqn:Hun; cbn; [|done].
  destruct (unmarshal bytes) as [wanted|] eqn:Hwanted; cbn; [|done].
  assert (decProviders existing = None \/ decProviders existing = Some [] ->
          wellTyped rule (Some e) /\ patchSpec was rule (Some e) h) as Hkeep.
  { intros Hp. assert (withoutProviders e) as Hw by (by exists raw, existing).
    split; [intros ? [= <-]; by eapply existing_type|]. spec_one. cbn. split; [intros e'; by rewrite <- Hex|].
    intros Hno. by destruct (Hno e). }
  destruct (decProviders existing) as [[|p ps]|] eqn:Hp; [by apply Hkeep; right| |by apply Hkeep; left].
  assert (forall e, was DNSExtensionType = Some e -> ~ withoutProviders e) as Hno.
  { eapply Hnone; [|done]. intros r c [= <-]. rewrite Hun. intros [= <-]. rewrite Hp. naive_solver. }
  destruct (decide (existing = wanted)) as [->|]; [|by apply Hdesired].
  split; [done|]. spec_one. cbn. split; [intros e' He' Hw; by destruct (Hno e')|]. intros _. exists bytes.
  split; [done|]. right. exists e. split_and!; [by rewrite <- Hex|by rewrite <- Hex|]. rewrite Hraw. by exists raw, wanted.
Qed.

Lemma caches_asked caches : Forall2 cacheAsked caches (ToRegistryCacheExtension caches names).
Proof.
  induction caches as [|c caches IH]; [constructor|]. apply Forall2_cons. split; [|exact IH].
  unfold cacheAsked. cbn. destruct (rcSecretReferenceName (cacheConfig c)) as [[|a n]|]; naive_solver.
Qed.

Lemma registryCacheRule_ok R G was : ruleOk R G was (registryCacheRule names).
Proof.
  intros shoot h _ Hex. cbn [registryCacheRule ruleOf ruleType ruleCreate] in *. cbn.
  unfold NewRegistryCacheExtension. destruct (rCaching (rtSpec rt)) as [|c cs] eqn:Hc.
  { split; [done|]. spec_one. unfold registryCachePatched. by rewrite Hc. }
  unfold extension. destruct (marshal _) as [raw|] eqn:Hm; cbn; [|done].
  split; [by intros ? [= <-]|]. spec_one. unfold registryCachePatched. rewrite Hc.
  eexists _, raw. split; [apply caches_asked|]. by split.
Qed.

Lemma aclNeeded_iff :
  if AclNeedsToBeEnabled aclEnabled rt then aclWanted (allowedCIDRs rt) else forall cidrs, ~ aclWanted cidrs.
Proof.
  assert (forall t, t ∈ ["aws"; "azure"] <-> String.eqb t TypeAWS || String.eqb t TypeAzure = true) as Ht.
  { intros t. rewrite elem_of_cons, list_elem_of_singleton, orb_true_iff, !String.eqb_eq. done. }
  specialize (Ht (rpType (rsProvider (rShoot (rtSpec rt))))). unfold AclNeedsToBeEnabled, aclWanted, allowedCIDRs.
  destruct aclEnabled; [|naive_solver]. destruct (String.eqb _ TypeAWS || String.eqb _ TypeAzure); cbn [andb];
    [|naive_solver]. destruct (raACL _) as [[|a l]|]; cbn; naive_solver.
Qed.

Lemma aclPatchRule_ok R (G : guar) was :
  (forall h, G h (CGet Kcp KConfigMap (mkNN "kcp-system" (ACLConfigMapName (kcKubeApiServer (ccKubernetes config)))))) ->
  ruleOk R G was (aclPatchRule config aclEnabled).
Proof.
  intros HG shoot h _ Hex. cbn [aclPatchRule ruleType ruleCreate] in *. pose proof aclNeeded_iff as Hiff.
  destruct (AclNeedsToBeEnabled aclEnabled rt) eqn:Hacl; cbn [negb].
  2:{ destruct (existingExtension ApiServerACLExtensionType shoot) eqn:He; cbn;
      (split; [by intros ? [= <-]|]); spec_one; (split; [intros cidrs Hw; by destruct (Hiff cidrs)|]);
      intros _; cbn; by rewrite <- Hex. }
  unfold createAcl, loadIPsFromConfigMap. wp_norm. split; [apply HG|]. intros r _. cbn.
  destruct r as [cm|]; cbn; [|done].
  destruct (unmarshal (mapGet (cmData cm) OperatorIpsKey)) as [ops|] eqn:Hops; cbn; [|done].
  destruct (unmarshal (mapGet (cmData cm) KcpExternalNatIpKey)) as [ip|] eqn:Hip; cbn; [|done].
  unfold NewApiServerACLExtension, applyAccessControlList. pose proof Hiff as (_ & _ & Hraw & Hne).
  destruct (allowedCIDRs rt) as [|c cs] eqn:Hal; [done|].
  destruct (marshal _) as [raw|] eqn:Hm; cbn; [|done].
  split; [by intros ? [= <-]|]. spec_one. split; [|intros Hno; by destruct (Hno (c :: cs))].
  intros cidrs (_ & _ & Hc & _). assert (cidrs = c :: cs) as -> by congruence.
  exists ops, ip, raw. split_and!; [|done..]. exists cm. split; [by left|done].
Qed.

Lemma nvidiaPatchRule_ok R G was : ruleOk R G was nvidiaPatchRule.
Proof.
  intros shoot h _ Hex. cbn [nvidiaPatchRule ruleOf ruleType ruleCreate] in *. cbn.
  unfold isNvidiaOpenshellEnabled, isTrue. unfold patchSpec, nvidiaPatched. rewrite <- Hex.
  destruct (rsEnableNvidiaOpenshell (rShoot (rtSpec rt))) as [[]|];
    [rewrite decide_True by done|rewrite decide_False by done; destruct (existingExtension _ shoot) eqn:He..];
    (split; [by intros ? [= <-]|]); spec_one; done.
Qed.

Definition managedTypes : list string :=
  [AuditlogExtensionType; NetworkFilterType; DNSExtensionType; RegistryCacheExtensionType;
   ApiServerACLExtensionType; NvidiaOpenshellExtensionType].

Definition foreign (e : Extension) : bool := negb (bool_decide (extType e ∈ managedTypes)).

(** The one call the extender may make. *)
Definition aclCall (c : call) : Prop :=
  c = CGet Kcp KConfigMap (mkNN "kcp-system" (ACLConfigMapName (kcKubeApiServer (ccKubernetes config)))).

(** C15. NewExtensionsExtenderForPatch, for a Shoot with at most one extension of each
    type, whatever the control plane answers: it reads the config map of the access
    control list and nothing else, and panics only on an audit log extension without
    configuration. When it succeeds there is still at most one of each type; foreign
    extensions are unchanged and keep their order. Given audit log data the audit log
    extension has it, else it stays. With the global restriction the network filter is
    on exactly if the Runtime filters egress, else it stays. A DNS extension without
    providers stays, any other is the configured one. There is a registry cache
    extension exactly if the Runtime has caches, with those caches. The access control
    list admits exactly the addresses of the Runtime, the operators and the control
    plane if it is enabled for an AWS or Azure Runtime that lists some, else it is
    switched off where there is one, as is the NVIDIA extension unless the Runtime asks
    for it. *)
Theorem extensions_of_patch current shoot h :
  Name (shootMeta shoot) = shootName -> NoDup (extType <$> (extsOf shoot ++ current)%list) ->
  let was t := List.find (hasType t) (extsOf shoot ++ current)%list in
  wp anyEnv (fun _ => aclCall)
    (NewExtensionsExtenderForPatch config data current aclEnabled global names rt shoot) h
    (fun o h' =>
       match o with
       | Done (Ok shoot') =>
           shoot' = shoot_with_extensions shoot (extsOf shoot') /\
           NoDup (extType <$> extsOf shoot') /\
           List.filter foreign (extsOf shoot') = List.filter foreign (extsOf shoot ++ current)%list /\
           extensionsPatched was (fun t => existingExtension t shoot') h'
       | Done (Err _) => True
       | Panicked => patchRulesPanic was
       end).
Proof.
  intros Hname Hnd was. unfold NewExtensionsExtenderForPatch, newExtensionsExtender.
  set (rules := patchRules config data aclEnabled global names).
  eapply wp_mono; [|apply (wp_applyRules _ _ (patchSpec was) (patchRulesPanic was) rules); [| |exact Hnd|]].
  - intros [[shoot'|]|] h'; [|done..]. intros (Hsh & Hnd' & Hall & _ & Hothers).
    split; [by rewrite Hsh at 1|]. split; [done|].
    split; [apply Hothers; intros e He; by unfold foreign; rewrite bool_decide_true|].
    clear Hothers. unfold rules, patchRules in Hall. rewrite <- Forall_forall, !Forall_cons in Hall.
    destruct Hall as ((u1 & (Hs1 & _) & E1) & (u2 & (_ & Hs2 & _) & E2) & (u3 & (_ & _ & Hs3 & _) & E3) &
      (u4 & (_ & _ & _ & Hs4 & _) & E4) & (u5 & (_ & _ & _ & _ & Hs5 & _) & E5) &
      (u6 & (_ & _ & _ & _ & _ & Hs6) & E6) & _).
    cbn [ruleType ruleOf auditLogPatchRule networkFilterRule registryCacheRule aclPatchRule nvidiaPatchRule] in *.
    unfold extensionsPatched. rewrite E1, E2, E3, E4, E5, E6. auto 10.
  - apply patchSpec_mono.
  - refine (bool_decide_unpack _ _). vm_compute. exact I.
  - intros rule shoot' h' Hin Hmeta Hex.
    assert (Forall (ruleOk anyEnv (fun _ => aclCall) was) rules) as Hok.
    { unfold rules, patchRules. repeat constructor; [apply auditLogPatchRule_ok|apply networkFilterRule_ok|
        apply dnsRule_ok|apply registryCacheRule_ok|by apply aclPatchRule_ok|apply nvidiaPatchRule_ok]. }
    rewrite Forall_forall in Hok. apply (Hok rule Hin); [|exact Hex]. cbn in Hmeta. congruence.
Qed.

End PatchSpec.

(** ** An example *)

Definition exampleConverterConfig : ConverterConfig :=
  mkConverterConfig
    (mkKubernetesConfig (mkKubeApiServer "acl-map" "" ∅ ∅) ∅ "1.33" false false
       (mkOidcProvider "client" "groups" "https://issuer" [] "sub" "-"))
    (mkDNSConfig "" "" "")
    (mkProviderConfig (mkAWSConfig false) (mkGDCHConfig "" "" "" "") (mkWorkerConfig "" ""))
    (mkMachineImageConfig "linux" "8") (mkGardenerConfig "kyma" true) "" "" [] false "".

Definition exampleAuditLogConfig : AuditlogExtensionConfig :=
  auditLogConfig (mkShootAuditLogData "tenant" "https://audit" "secret").

(** Codecs that know these objects only; the audit log's ignores what follows. *)
Definition exampleExtensionCodecs : ExtensionCodecs := {|
  auditlogConfigCodec := {|
    marshal c := if decide (c = exampleAuditLogConfig) then Ok "audit" else Err (newError "unsupported");
    unmarshal r := if hasPrefix "audit" r then Ok exampleAuditLogConfig else Err (newError "unsupported")
  |};
  certConfigCodec := singleCodec NewCertConfig "cert";
  dnsConfigCodec := singleCodec internalDNSConfig "dns";
  filterConfigCodec := singleCodec (mkFilterConfiguration (Some true)) "filter";
  aclConfigCodec := singleCodec (mkAclProviderConfig "ALLOW" ["1.2.3.4/32"; "10.0.0.0/8"; "5.6.7.8/32"] "remote_ip") "acl";
  registryConfigCodec := singleCodec (mkRegistryConfig "" "" []) "registry";
  stringListCodec := singleCodec ["10.0.0.0/8"] "operators";
  stringCodec := singleCodec "5.6.7.8/32" "nat"
|}.

#[local] Existing Instance exampleExtensionCodecs.

Lemma hasPrefix_app p r s : hasPrefix p r = true -> hasPrefix p (r +:+ s) = true.
Proof.
  revert r. induction p as [|c p IH]; intros r; [by destruct (r +:+ s)|].
  destruct r as [|d r]; [done|]. change (String d r +:+ s) with (String d (r +:+ s)). cbn.
  rewrite !andb_true_iff. intros [Hc Hp]. split; [done|by apply IH].
Qed.

(** A Shoot with an extension that is not ours and an old registry cache, a Runtime
    that filters egress, and an audit log. *)
Lemma extensions_of_patch_witness :
  let rt := exampleRuntime "aws" None [] None in
  let current := [mkExtension "foreign" None None; mkExtension RegistryCacheExtensionType (Some "registry") (Some false)] in
  wp anyEnv (fun _ => aclCall exampleConverterConfig)
    (NewExtensionsExtenderForPatch exampleConverterConfig (mkShootAuditLogData "tenant" "https://audit" "secret")
       current false true ∅ rt emptyShoot) []
    (fun o _ =>
       match o with
       | Done (Ok shoot') => foreign <$> extsOf shoot' = [true; false; false; false] /\
                             existingExtension RegistryCacheExtensionType shoot' = None
       | _ => False
       end).
Proof.
  intros rt current. eapply wp_mono; [|apply wp_conj; [|apply
    (extensions_of_patch exampleConverterConfig (mkShootAuditLogData "tenant" "https://audit" "secret") false true ∅ rt
       "" current emptyShoot []); [reflexivity|refine (bool_decide_unpack _ _); vm_compute; exact I]]].
  2:{ instantiate (1 := fun o _ => match o with
        | Done (Ok shoot') => foreign <$> extsOf shoot' = [true; false; false; false] | _ => False end).
      vm_compute. reflexivity. }
  intros [[shoot'|]|] h'; [|tauto..]. intros [Hf (_ & _ & _ & Hp)]. split; [exact Hf|]. apply Hp.
Defined.

(** An audit log extension without configuration is dereferenced. *)
Example audit_log_extension_without_config :
  NewExtensionsExtenderForPatch exampleConverterConfig (mkShootAuditLogData "tenant" "https://audit" "secret")
    [mkExtension AuditlogExtensionType None None] false true ∅ (exampleRuntime "aws" None [] None) emptyShoot = Panic.
Proof. reflexivity. Qed.
