(* ===== verification/Converter.v ===== *)
(** * The conversion of a Runtime to a Shoot (pkg/gardener/shoot/converter.go)

    A converter runs a list of extenders over a Shoot that has the fields taken
    directly from the Runtime, and stops at the first error.  [conv] is the state
    they thread: the Shoot, and what the conversion has changed of its caller's
    memory, the workers of the Runtime (Provider) and, in a patch, the array of the
    Shoot's resources. *)

From S2P Require Import Prelude Sscanf Kube Gardener RuntimeApi Objects Effects Config Duration RegistryCache.
From S2P Require Import MaxPods AuditLog ConverterApi Extenders Workers GVisor Provider Extensions.

Local Open Scope string_scope.

(** How much room the decoder of API objects has left in the arrays of slices that
    the converter appends to. *)
Class SliceCapacities := {
  workersSpare : Runtime -> nat;
  resourcesSpare : list NamedResourceReference -> nat
}.

Record conv := mkConv {
  cRuntime : Runtime;                              (* as its owner sees it *)
  cResources : list NamedResourceReference;        (* likewise the resources of the old Shoot *)
  cShoot : Shoot;
  cAliases : Aliases                               (* which workers of the Runtime the Shoot's are *)
}.

Definition with_cShoot (c : conv) (shoot : Shoot) : conv :=
  mkConv (cRuntime c) (cResources c) shoot (cAliases c).

Definition cWorkers (c : conv) : list Worker := spWorkers (ssProvider (shootSpec (cShoot c))).

(** An extender with its effects; the error stops the conversion. *)
Definition Extender : Type := conv -> prog (conv * option GoError).

Definition pure (e : Extend) : Extender := fun c =>
  match e (cRuntime c) (cShoot c) with
  | Ok shoot => Ret (with_cShoot c shoot, None)
  | Err err => Ret (c, Some err)
  end.

(** The extender of extensions, which reads from the control plane. *)
Definition reading (e : Runtime -> Shoot -> prog (result Shoot)) : Extender := fun c =>
  r ← e (cRuntime c) (cShoot c);
  Ret (match r with
       | Ok shoot => (with_cShoot c shoot, None)
       | Err err => (c, Some err)
       end).

(** The provider extenders, and what the owner of the Runtime sees of them. *)
Definition providing (e : Runtime -> ShootProvider -> prog (Aliases * ShootProvider * option GoError)) : Extender :=
  fun c =>
    '(al, p, err) ← e (cRuntime c) (ssProvider (shootSpec (cShoot c)));
    Ret (mkConv (seenByOwner al (spWorkers p) (cRuntime c)) (cResources c)
           (onSpec (cShoot c) (fun sp => set_provider sp p)) al, err).

Section Converter.
Context `{GardenerLib} `{SortLib} `{HyperscalerCodecs} `{GVisorLib} `{ExtensionCodecs} `{Codec VXLanConfig}.
Context `{SliceCapacities}.

(** The extender works on the workers of the Shoot in place. *)
(*@ src/pkg/gardener/shoot/extender/gvisor_net_raw.go:23-25 ExtendWithGVisorNetRawDefault *)
Definition ExtendWithGVisorNetRawDefault : Extender := fun c =>
  let '(workers, err) := applyDefaultGVisorNetRaw (cWorkers c) in
  Ret (mkConv (seenByOwner (cAliases c) workers (cRuntime c)) (cResources c)
         (onSpec (cShoot c) (fun sp => set_provider sp (provider_with_workers (ssProvider sp) workers)))
         (cAliases c), err).

(** The resources of a patch: the owner of the old Shoot sees the deletions and, as
    long as they fit, the additions. *)
Definition resourcesForPatch (resources : list NamedResourceReference) (names : gmap string string) : Extender :=
  fun c =>
    match NewResourcesExtenderForPatch resources names (cRuntime c) (cShoot c) with
    | Ok shoot =>
        Ret (mkConv (cRuntime c) (resourcesSeenByOwner resources names (cRuntime c)) shoot (cAliases c), None)
    | Err err => Ret (c, Some err)
    end.

(** The owner's view after the list has become [new]; the array is still shared when
    [new] fits into it. *)
Definition resourcesView (capacity : nat) (view new : list NamedResourceReference) : list NamedResourceReference :=
  if Nat.leb (length new) capacity then take (length view) (new ++ drop (length new) view)%list else view.

Definition auditLogExtender (capacity : nat) (policyConfigMapName : string) (data : ShootAuditLogData) : Extender :=
  fun c =>
    match NewAuditlogExtender policyConfigMapName data (cRuntime c) (cShoot c) with
    | Ok shoot =>
        Ret (mkConv (cRuntime c) (resourcesView capacity (cResources c) (ssResources (shootSpec shoot))) shoot
               (cAliases c), None)
    | Err err => Ret (c, Some err)
    end.

(*@ src/pkg/gardener/shoot/converter.go:25-38 baseExtenders *)
Definition baseExtenders (converterConfig : ConverterConfig) : list Extender :=
  let kas := kcKubeApiServer (ccKubernetes converterConfig) in
  pure <$>
    [ ExtendWithAnnotations;
      ExtendWithLabels;
      ExtendWithSeedSelector;
      NewOidcExtender;
      ExtendWithCloudProfile (CloudProfileName (pcGDCH (ccProvider converterConfig)));
      ExtendWithExposureClassName;
      ExtendWithAccessRestriction;
      NewFeatureGatesExtender (FeatureGates kas) (KubeletFeatureGates (ccKubernetes converterConfig));
      NewKubernetesRuntimeConfigExtender (RuntimeConfig kas) ].

Definition when (b : bool) (l : list Extender) : list Extender := if b then l else [].

(*@ src/pkg/gardener/shoot/converter.go:78-113 NewConverterCreate *)
Definition NewConverterCreate (opts : CreateOpts) (runtime : Runtime) : list Extender :=
  let cfg := coConverterConfig opts in
  let k8s := ccKubernetes cfg in
  let dns := ccDNS cfg in
  (baseExtenders cfg ++
   [ providing (NewProviderExtenderForCreateOperation (workersSpare runtime) (ccEnableDualStackIP cfg)
                  (EnableIMDSv2 (pcAWS (ccProvider cfg))) (ccMachineImage cfg) (pcWorker (ccProvider cfg))
                  (pcGDCH (ccProvider cfg)));
     ExtendWithGVisorNetRawDefault;
     pure (NewTolerationsExtender (ccTolerations cfg)) ] ++
   when (negb (IsGardenerInternal dns))
     [ pure (NewDNSExtenderForCreate (dcSecretName dns) (dcDomainPrefix dns) (dcProviderType dns)) ] ++
   [ reading (NewExtensionsExtenderForCreate cfg (coAuditLogData opts) (coApiServerAclEnabled opts)
                (coNetworkRestrictionGlobalEnabled opts));
     pure (NewKubernetesExtender (DefaultVersion k8s) "");
     pure (NewMaintenanceExtender (EnableKubernetesVersionAutoUpdate k8s) (EnableMachineImageVersionAutoUpdate k8s)
             (coMaintenanceTimeWindow opts)) ] ++
   when (negb (bool_decide (coAuditLogData opts = emptyShootAuditLogData)))
     [ auditLogExtender 0 (ccAuditLogPolicyConfigMapName cfg) (coAuditLogData opts) ] ++
   [ pure (NewExpirationTimeExtender (MaxTokenExpiration (kcKubeApiServer k8s)));
     pure (ExtendWithNetworking (ccEnableDualStackIP cfg));
     pure (ExtendWithCredentialsBinding (EnableCredentialBinding (ccGardener cfg))) ])%list.

(*@ src/pkg/gardener/shoot/converter.go:115-149 NewConverterPatch *)
Definition NewConverterPatch (opts : PatchOpts) : list Extender :=
  let cfg := poConverterConfig opts in
  let k8s := ccKubernetes cfg in
  let dns := ccDNS cfg in
  let resources := poResources opts in
  (baseExtenders cfg ++
   [ providing (NewProviderExtenderPatchOperation (EnableIMDSv2 (pcAWS (ccProvider cfg))) (poWorkers opts)
                  (ccMachineImage cfg) (pcWorker (ccProvider cfg)) (poInfrastructureConfig opts)
                  (poControlPlaneConfig opts) (pcGDCH (ccProvider cfg)));
     ExtendWithGVisorNetRawDefault;
     resourcesForPatch resources (poRegistryCacheGardenSecretNames opts);
     reading (NewExtensionsExtenderForPatch cfg (poAuditLogData opts) (poExtensions opts)
                (poApiServerAclEnabled opts) (poNetworkRestrictionGlobalEnabled opts)
                (poRegistryCacheGardenSecretNames opts)) ] ++
   when (negb (IsGardenerInternal dns))
     [ pure (NewDNSExtenderForPatch (dcSecretName dns) (dcDomainPrefix dns) (dcProviderType dns) (poExistingDNS opts)) ] ++
   [ pure (NewKubernetesExtender (DefaultVersion k8s) (poShootK8SVersion opts));
     pure (NewMaintenanceExtender (EnableKubernetesVersionAutoUpdate k8s) (EnableMachineImageVersionAutoUpdate k8s)
             (poMaintenanceTimeWindow opts));
     pure (ExtendWithCredentialsBinding (EnableCredentialBinding (ccGardener cfg))) ] ++
   when (negb (bool_decide (poAuditLogData opts = emptyShootAuditLogData)))
     [ auditLogExtender (length resources + resourcesSpare resources) (ccAuditLogPolicyConfigMapName cfg)
         (poAuditLogData opts) ])%list.

(** The Shoot with the fields taken directly from the Runtime. *)
(*@ src/pkg/gardener/shoot/converter.go:158-178 ToShoot *)
Definition newShoot (cfg : ConverterConfig) (runtime : Runtime) : Shoot :=
  let rs := rShoot (rtSpec runtime) in
  let n := rsNetworking rs in
  mkShoot "Shoot" "core.gardener.cloud/v1beta1"
    (metaNamed (rsName rs) ("garden-" +:+ ProjectName (ccGardener cfg)))
    (mkShootSpec (Some (rsPurpose rs)) (rsRegion rs) (rsControlPlane rs) None None []
       (ssKubernetes emptyShootSpec)
       (Some (mkShootNetworking (rnType n) (Some (rnPods n)) (Some (rnNodes n)) (Some (rnServices n)) [] None))
       (ssProvider emptyShootSpec) None None None None [] [] None [] None)
    (shootStatus emptyShoot).

(*@ src/pkg/gardener/shoot/converter.go:180-184 ToShoot *)
Fixpoint runExtenders (extenders : list Extender) (c : conv) : prog (conv * option GoError) :=
  match extenders with
  | [] => Ret (c, None)
  | extend :: rest =>
      '(c, err) ← extend c;
      match err with
      | Some e => Ret (c, Some e)
      | None => runExtenders rest c
      end
  end.

(*@ src/pkg/gardener/shoot/converter.go:151-187 ToShoot *)
Definition ToShoot (cfg : ConverterConfig) (extenders : list Extender) (resources : list NamedResourceReference)
    (runtime : Runtime) : prog conversion :=
  '(c, err) ← runExtenders extenders (mkConv runtime resources (newShoot cfg runtime) (mkAliases [] false));
  Ret (mkConversion (cRuntime c) (cResources c)
         (match err with None => Ok (cShoot c) | Some e => Err e end)).

#[export] Instance converter : ShootConverter := {|
  toShootCreate opts runtime := ToShoot (coConverterConfig opts) (NewConverterCreate opts runtime) [] runtime;
  toShootPatch opts runtime :=
    ToShoot (poConverterConfig opts) (NewConverterPatch opts) (poResources opts) runtime
|}.

End Converter.

(** ** Lemmas: what every extender keeps *)

(** The Shoot's name and namespace and the identity of the Runtime. *)
Definition identified (cfg : ConverterConfig) (rt : Runtime) (c : conv) : Prop :=
  sameIdentity rt (cRuntime c) /\
  Name (shootMeta (cShoot c)) = rsName (rShoot (rtSpec rt)) /\
  Namespace (shootMeta (cShoot c)) = "garden-" +:+ ProjectName (ccGardener cfg).

(** An extender of Shoots that leaves their names and, if [b], their extensions. *)
Definition keepsNames (b : bool) (e : Extend) : Prop :=
  forall rt shoot shoot', e rt shoot = Ok shoot' ->
    Name (shootMeta shoot') = Name (shootMeta shoot) /\
    Namespace (shootMeta shoot') = Namespace (shootMeta shoot) /\
    (b = true -> ssExtensions (shootSpec shoot') = ssExtensions (shootSpec shoot)).

Ltac keeps_names := intros ? ? ?; cbv delta [onSpec onKubeAPIServer setServiceAccount]; cbn;
  repeat match goal with
  | |- (if ?b then _ else _) = Ok _ -> _ => destruct b
  | |- (match ?x with _ => _ end) = Ok _ -> _ => destruct x
  end; try (by intros [= <-]); try done.

Lemma base_keeps_names cfg : Forall (fun e => exists e', e = pure e' /\ keepsNames true e') (baseExtenders cfg).
Proof.
  unfold baseExtenders. repeat (constructor; [eexists; split; [reflexivity|]|]); [..|constructor].
  - keeps_names.
  - keeps_names.
  - unfold ExtendWithSeedSelector. keeps_names.
  - keeps_names.
  - intros rt shoot shoot' (name & _ & [= <-])%result_bind_Ok. done.
  - unfold ExtendWithExposureClassName. keeps_names.
  - unfold ExtendWithAccessRestriction. keeps_names.
  - keeps_names.
  - keeps_names.
Qed.

Lemma tolerations_keeps_names l : keepsNames true (NewTolerationsExtender l).
Proof.
  induction l as [|[region ts] l IH]; intros rt shoot shoot'; cbn; [by intros [= <-]|].
  intros Hl. apply IH in Hl. by destruct (String.eqb _ _).
Qed.

(** ** Lemmas: the extenders with effects *)

Lemma seenByOwner_identity al workers rt rt0 : sameIdentity rt0 rt -> sameIdentity rt0 (seenByOwner al workers rt).
Proof. done. Qed.

Section ConverterLemmas.
Context `{GardenerLaws} `{SortLaws} `{HyperscalerCodecs} `{GVisorLib} `{ExtensionCodecs} `{Codec VXLanConfig}.
Context `{SliceCapacities}.
Context (cfg : ConverterConfig) (rt : Runtime).

(** Extenders that keep the names, call as the converter may and panic only when
    [Pan] holds; [b] says that the Shoot's extensions are still those of [shoot]. *)
Definition keeps (Pan : Prop) (b b' : bool) (e : Extender) : Prop :=
  forall c, identified cfg rt c -> (b = true -> ssExtensions (shootSpec (cShoot c)) = []) ->
    confined converterCall Pan
      (fun '(c', _) => identified cfg rt c' /\ (b' = true -> ssExtensions (shootSpec (cShoot c')) = [])) (e c).

Lemma keeps_pure Pan b e : keepsNames b e -> keeps Pan b b (pure e).
Proof.
  intros He c (Hid & Hn & Hns) Hb. unfold pure.
  destruct (e (cRuntime c) (cShoot c)) as [shoot|err] eqn:Hok; cbn; [|by split_and!].
  destruct (He _ _ _ Hok) as (E1 & E2 & E3). split; [split; [done|cbn; by rewrite E1, E2]|cbn].
  intros ->. by rewrite E3, Hb.
Qed.

Lemma keepsNames_weaken e : keepsNames true e -> keepsNames false e.
Proof. intros He ? ? ? Hok. destruct (He _ _ _ Hok) as (? & ? & _). by split_and!. Qed.

Lemma keeps_gvisor Pan b : keeps Pan b b ExtendWithGVisorNetRawDefault.
Proof.
  intros c (Hid & Hn & Hns) Hb. unfold ExtendWithGVisorNetRawDefault.
  destruct (applyDefaultGVisorNetRaw (cWorkers c)) as [ws err]. cbn. by split_and!.
Qed.

Lemma keeps_providing Pan b e :
  (forall rt p, exists al p' err, e rt p = Ret (al, p', err)) -> keeps Pan b b (providing e).
Proof.
  intros He c (Hid & Hn & Hns) Hb. unfold providing.
  destruct (He (cRuntime c) (ssProvider (shootSpec (cShoot c)))) as (al & p & err & ->). cbn. by split_and!.
Qed.

Lemma keeps_auditLog Pan capacity name data : keeps Pan false false (auditLogExtender capacity name data).
Proof. intros c (Hid & Hn & Hns) Hb. cbn. by split_and!. Qed.

Lemma keeps_resources Pan b l names : keeps Pan b b (resourcesForPatch l names).
Proof. intros c (Hid & Hn & Hns) Hb. cbn. by split_and!. Qed.

Lemma applyRules_confined Pan rules r shoot :
  Forall (fun rule => forall s, confined converterCall Pan (fun _ => True) (ruleCreate rule r s)) rules ->
  confined converterCall Pan
    (fun res => match res with Ok shoot' => shootMeta shoot' = shootMeta shoot | Err _ => True end)
    (applyRules rules r shoot).
Proof.
  intros Hall. revert shoot. induction Hall as [|rule rules Hr _ IH]; intros shoot; cbn [applyRules]; [done|].
  eapply confined_bind; [apply Hr|]. intros [u|e] _; [|done]. eapply confined_impl; [apply IH|].
  by intros [shoot'|e].
Qed.

Lemma createAcl_confined Pan r : confined converterCall Pan (fun _ => True) (createAcl cfg r).
Proof. unfold createAcl, loadIPsFromConfigMap. cbn. split; [done|]. by intros x. Qed.

Lemma keeps_reading Pan b e :
  (forall r shoot, (b = true -> ssExtensions (shootSpec shoot) = []) ->
     confined converterCall Pan
       (fun res => match res with Ok shoot' => shootMeta shoot' = shootMeta shoot | Err _ => True end) (e r shoot)) ->
  keeps Pan b false (reading e).
Proof.
  intros He c (Hid & Hn & Hns) Hb. unfold reading. eapply confined_bind; [by apply He|].
  intros [shoot|err] Hm; cbn; [|by split_and!]. split; [split; [done|cbn; by rewrite Hm]|done].
Qed.

Lemma aclRule_confined Pan acl r s : confined converterCall Pan (fun _ => True) (ruleCreate (aclRule cfg acl) r s).
Proof. cbn [aclRule ruleCreate]. destruct (AclNeedsToBeEnabled acl r); [apply createAcl_confined|done]. Qed.

Lemma extensionsForCreate_confined Pan data acl global r shoot :
  confined converterCall Pan
    (fun res => match res with Ok shoot' => shootMeta shoot' = shootMeta shoot | Err _ => True end)
    (NewExtensionsExtenderForCreate cfg data acl global r shoot).
Proof.
  unfold NewExtensionsExtenderForCreate, newExtensionsExtender. eapply confined_impl;
    [apply applyRules_confined|by intros [|]].
  repeat constructor; try done. apply aclRule_confined.
Qed.

Lemma extensionsForPatch_confined data acl global names current r shoot :
  ssExtensions (shootSpec shoot) = [] ->
  confined converterCall (patchRulesPanic data (fun t => List.find (hasType t) current))
    (fun res => match res with Ok shoot' => shootMeta shoot' = shootMeta shoot | Err _ => True end)
    (NewExtensionsExtenderForPatch cfg data current acl global names r shoot).
Proof.
  intros Hexts. unfold NewExtensionsExtenderForPatch, newExtensionsExtender, patchRules. rewrite Hexts. cbn [app].
  cbn [applyRules]. eapply (confined_bind _ _ (fun _ => True)).
  - cbn [auditLogPatchRule ruleCreate]. destruct (decide (data = emptyShootAuditLogData)) as [|Hd]; [done|].
    destruct (NewAuditLogExtension data); [|done].
    unfold existingExtension. cbn [shoot_with_extensions onSpec shoot_with_spec shootSpec set_extensions ssExtensions].
    destruct (List.find (hasType AuditlogExtensionType) current) as [e|] eqn:He; [|done].
    destruct (extProviderConfig e) eqn:Hraw; cbn; [done|]. split; [done|]. by exists e.
  - intros [u|e] _; [|done].
    match goal with |- confined _ _ _ ?p => change p with (applyRules
      [networkFilterRule global;
       ruleOf DNSExtensionType (fun _ shoot => dnsExtensionForPatch (ccDNS cfg) shoot) StrategyKeep;
       registryCacheRule names; aclPatchRule cfg acl; nvidiaPatchRule] r
       (shoot_with_extensions (shoot_with_extensions shoot current)
          (applyExtension (auditLogPatchRule data) u current))) end.
    eapply confined_impl; [apply applyRules_confined|by intros [|]].
    repeat constructor; try done. intros s. cbn [aclPatchRule ruleCreate].
    destruct (AclNeedsToBeEnabled acl r); cbn [negb]; [apply createAcl_confined|].
    by destruct (existingExtension ApiServerACLExtensionType s).
Qed.

(** Lists of extenders; the extensions are set by one of them. *)
Lemma runExtenders_keeps Pan l c :
  Forall (keeps Pan false false) l -> identified cfg rt c ->
  confined converterCall Pan (fun '(c', _) => identified cfg rt c') (runExtenders l c).
Proof.
  intros Hall. revert c. induction Hall as [|e l He _ IH]; intros c Hid; cbn [runExtenders]; [done|].
  eapply confined_bind; [by apply He|]. intros [c' [err|]] [Hid' _]; [done|by apply IH].
Qed.

Lemma runExtenders_keeps_app Pan l1 e l2 c :
  Forall (keeps Pan true true) l1 -> keeps Pan true false e -> Forall (keeps Pan false false) l2 ->
  identified cfg rt c -> ssExtensions (shootSpec (cShoot c)) = [] ->
  confined converterCall Pan (fun '(c', _) => identified cfg rt c') (runExtenders (l1 ++ e :: l2)%list c).
Proof.
  intros Hall He Hl2. revert c. induction Hall as [|e1 l1 He1 _ IH]; intros c Hid Hexts; cbn [runExtenders app].
  - eapply confined_bind; [by apply He|]. intros [c' [err|]] [Hid' _]; [done|by apply runExtenders_keeps].
  - eapply confined_bind; [by apply He1|]. intros [c' [err|]] [Hid' Hx]; [done|by apply IH; [|apply Hx]].
Qed.

End ConverterLemmas.

(** ** Lemmas: what the conversion leaves of the user's specification *)

Lemma seenWorker_same w w' : sameWorker w (seenWorker false w w').
Proof.
  unfold seenWorker, sameWorker, stillNil. cbn. split_and!; try done; by intros ->.
Qed.

Lemma seenAt_same al after i w : alFirstInPlace al = false -> sameWorker w (seenAt al after i w).
Proof.
  intros Hal. unfold seenAt. destruct (slicesIndexFunc _ _); [|done]. destruct (_ !! _); [|done].
  rewrite Hal. apply seenWorker_same.
Qed.

Lemma imap_same (f : nat -> Worker -> Worker) l :
  (forall i w, sameWorker w (f i w)) -> Forall2 sameWorker l (imap f l).
Proof.
  intros Hf. revert f Hf. induction l as [|w l IH]; intros f Hf; cbn; constructor; [done|]. apply IH. intros i x. apply (Hf (S i)).
Qed.

(** The owner of the Runtime sees nothing but what is behind the pointers of the
    workers, unless the Shoot's workers are the array of the Runtime's. *)
Lemma seenByOwner_same al after rt :
  alFirstInPlace al = false -> sameUserSpec (rtSpec rt) (rtSpec (seenByOwner al after rt)).
Proof.
  intros Hal. unfold seenByOwner. cbn. split_and!; try done. eexists. split; [|reflexivity].
  split_and!; try done; cbn.
  - apply imap_same. intros i w. by apply seenAt_same.
  - destruct (rpAdditionalWorkers _) as [ws|]; cbn; constructor. apply imap_same. intros i w. by apply seenAt_same.
Qed.

Ltac each := repeat first [apply Forall_nil_2 | apply Forall_cons_2].

Section Sharing.
Context `{GardenerLib} `{SortLib} `{HyperscalerCodecs} `{GVisorLib} `{ExtensionCodecs} `{Codec VXLanConfig}.
Context `{SliceCapacities}.
Context (rt : Runtime).

Definition shares (c : conv) : Prop :=
  sameUserSpec (rtSpec rt) (rtSpec (cRuntime c)) /\ alFirstInPlace (cAliases c) = false.

(** No claim about calls and panics; the state of a conversion that goes on. *)
Definition leavesSpec (p : prog (conv * option GoError)) : Prop :=
  confined (fun _ => True) True (fun '(c, err) => err = None -> shares c) p.
Definition sharing (e : Extender) : Prop := forall c, shares c -> leavesSpec (e c).

Lemma sharing_pure e : sharing (pure e).
Proof. intros c Hc. unfold leavesSpec, pure. destruct (e _ _); [intros _; exact Hc|done]. Qed.

Lemma sharing_reading e : sharing (reading e).
Proof.
  intros c Hc. unfold leavesSpec, reading. eapply confined_bind; [apply confined_any|].
  intros [shoot|err] _; [intros _; exact Hc|done].
Qed.

Lemma sharing_gvisor : sharing ExtendWithGVisorNetRawDefault.
Proof.
  intros c [Hs Ha]. unfold leavesSpec, ExtendWithGVisorNetRawDefault. destruct (applyDefaultGVisorNetRaw _).
  cbn. intros _. split; [|done]. etrans; [exact Hs|by apply seenByOwner_same].
Qed.

Lemma sharing_resources l names : sharing (resourcesForPatch l names).
Proof. intros c Hc. unfold leavesSpec, resourcesForPatch. destruct (NewResourcesExtenderForPatch _ _ _ _); [intros _; exact Hc|done]. Qed.

Lemma sharing_auditLog capacity name data : sharing (auditLogExtender capacity name data).
Proof. intros c Hc. unfold leavesSpec, auditLogExtender. destruct (NewAuditlogExtender _ _ _ _); [intros _; exact Hc|done]. Qed.

Lemma onProvider_aliases al (u : update ShootProvider) :
  confined (fun _ => True) True (fun '(al', _, _) => al' = al) (onProvider al u).
Proof. unfold onProvider. eapply confined_bind; [apply confined_any|]. by intros [p err] _. Qed.

Lemma sharing_patchProvider imds ws img cfg infra cp gdch :
  sharing (providing (NewProviderExtenderPatchOperation imds ws img cfg infra cp gdch)).
Proof.
  intros c [Hs Ha]. unfold leavesSpec, providing.
  eapply (confined_bind _ _ (fun '(al, _, err) => err = None -> alFirstInPlace al = false)).
  - unfold NewProviderExtenderPatchOperation. cbv zeta. destruct infra; [|done].
    destruct (negb _); [done|]. destruct (Nat.eqb _ _); [done|].
    eapply confined_impl; [apply onProvider_aliases|]. by intros [[al p] err] -> _.
  - intros [[al p] err] Hal Herr. split; [|by apply Hal]. cbn. etrans; [exact Hs|]. by apply seenByOwner_same, Hal.
Qed.

Lemma runExtenders_sharing l c : Forall sharing l -> shares c -> leavesSpec (runExtenders l c).
Proof.
  intros Hall. revert c. induction Hall as [|e l He _ IH]; intros c Hc; unfold leavesSpec; cbn [runExtenders];
    [intros _; exact Hc|].
  eapply confined_bind; [by apply He|]. intros [c' [err|]] Hs; [done|]. by apply IH, Hs.
Qed.

Lemma when_sharing b l : Forall sharing l -> Forall sharing (when b l).
Proof. by destruct b. Qed.

Lemma base_sharing cfg : Forall sharing (baseExtenders cfg).
Proof. unfold baseExtenders. cbn [fmap list_fmap]. each; apply sharing_pure. Qed.

Lemma patch_sharing opts : Forall sharing (NewConverterPatch opts).
Proof.
  unfold NewConverterPatch. rewrite !Forall_app. split_and!; try apply when_sharing; [apply base_sharing|..];
    each; first [apply sharing_pure | apply sharing_reading | apply sharing_gvisor
      | apply sharing_resources | apply sharing_auditLog | apply sharing_patchProvider].
Qed.

End Sharing.

(** ** The converter implements its interface *)

Section Refinement.
Context `{GardenerLaws} `{SortLaws} `{HyperscalerCodecs} `{GVisorLib} `{ExtensionCodecs} `{Codec VXLanConfig}.
Context `{SliceCapacities}.

(** The only input on which the converter panics: a patch with audit log data of a
    Shoot whose audit log extension has no configuration. *)
Definition patchDereferencesNil (opts : PatchOpts) : Prop :=
  patchRulesPanic (poAuditLogData opts) (fun t => List.find (hasType t) (poExtensions opts)).

Lemma when_Forall (P : Extender -> Prop) b l : (b = true -> Forall P l) -> Forall P (when b l).
Proof. destruct b; [auto|]. intros _. constructor. Qed.

Lemma base_keeps cfg rt Pan b : Forall (keeps cfg rt Pan b b) (baseExtenders cfg).
Proof.
  eapply Forall_impl; [apply base_keeps_names|]. intros e (e' & -> & He'). apply keeps_pure.
  destruct b; [done|by apply keepsNames_weaken].
Qed.

Lemma create_extenders_keep opts rt :
  Forall (keeps (coConverterConfig opts) rt False false false) (NewConverterCreate opts rt).
Proof.
  unfold NewConverterCreate. rewrite !Forall_app. split; [apply base_keeps|].
  split.
  { constructor; [|constructor; [apply keeps_gvisor|constructor; [|constructor]]].
    - apply keeps_providing. intros r p.
      destruct (create_spec (workersSpare rt) (ccEnableDualStackIP (coConverterConfig opts))
        (EnableIMDSv2 (pcAWS (ccProvider (coConverterConfig opts)))) (ccMachineImage (coConverterConfig opts))
        (pcWorker (ccProvider (coConverterConfig opts))) (pcGDCH (ccProvider (coConverterConfig opts))) r p)
        as (al & p' & err & Heq & _). by exists al, p', err.
    - apply keeps_pure, keepsNames_weaken, tolerations_keeps_names. }
  split; [apply when_Forall; intros _; each; apply keeps_pure; keeps_names|].
  split.
  { constructor; [|each; apply keeps_pure; keeps_names].
    apply keeps_reading. intros r shoot _. apply extensionsForCreate_confined. }
  split; [apply when_Forall; intros _; each; apply keeps_auditLog|].
  each; apply keeps_pure; [| |].
  - intros r shoot shoot' (tb & _ & [= <-])%result_bind_Ok. done.
  - intros r shoot shoot' [= <-]. by destruct (String.eqb _ _), (_ && _).
  - intros r shoot shoot' [= <-]. by destruct (EnableCredentialBinding _).
Qed.

Lemma patch_confined opts rt c :
  identified (poConverterConfig opts) rt c -> ssExtensions (shootSpec (cShoot c)) = [] ->
  confined converterCall (patchDereferencesNil opts)
    (fun '(c', _) => identified (poConverterConfig opts) rt c') (runExtenders (NewConverterPatch opts) c).
Proof.
  intros Hid Hexts. unfold NewConverterPatch.
  match goal with |- confined _ _ _ (runExtenders (?base ++ [?p; ?g; ?r; ?e] ++ ?rest)%list _) =>
    replace (base ++ [p; g; r; e] ++ rest)%list with ((base ++ [p; g; r]) ++ e :: rest)%list
      by (rewrite <- app_assoc; reflexivity) end.
  apply runExtenders_keeps_app; [| | |done|done].
  - rewrite Forall_app. split; [apply base_keeps|].
    constructor; [|constructor; [apply keeps_gvisor|constructor; [apply keeps_resources|constructor]]].
    apply keeps_providing. intros r p.
    destruct (patch_spec (EnableIMDSv2 (pcAWS (ccProvider (poConverterConfig opts)))) (poWorkers opts)
      (ccMachineImage (poConverterConfig opts)) (pcWorker (ccProvider (poConverterConfig opts)))
      (poInfrastructureConfig opts) (poControlPlaneConfig opts) (pcGDCH (ccProvider (poConverterConfig opts))) r p)
      as (al & p' & err & Heq & _). by exists al, p', err.
  - apply keeps_reading. intros r shoot Hx. apply extensionsForPatch_confined. by apply Hx.
  - rewrite !Forall_app. split; [apply when_Forall; intros _|split; [|apply when_Forall; intros _]];
      each; try apply keeps_auditLog; apply keeps_pure.
    + unfold NewDNSExtenderForPatch. keeps_names.
    + keeps_names.
    + keeps_names.
    + intros r shoot shoot' [= <-]. by destruct (EnableCredentialBinding _).
Qed.

Lemma newShoot_identified cfg rt resources al :
  identified cfg rt (mkConv rt resources (newShoot cfg rt) al).
Proof. done. Qed.

Lemma wp_ToShoot R G Pan (Keep : conv -> Prop) cfg extenders resources rt h Q :
  confined converterCall Pan (fun '(c', err) => identified cfg rt c' /\ (err = None -> Keep c'))
    (runExtenders extenders (mkConv rt resources (newShoot cfg rt) (mkAliases [] false))) ->
  (forall h' c, converterCall c -> G h' c) ->
  (forall cv h', extends converterCall h h' -> sameIdentity rt (cvRuntime cv) ->
     namesShoot cfg rt (cvShoot cv) ->
     (forall shoot, cvShoot cv = Ok shoot -> exists c, cvRuntime cv = cRuntime c /\ Keep c) -> Q (Done cv) h') ->
  (Pan -> forall h', extends converterCall h h' -> Q Panicked h') ->
  wp R G (ToShoot cfg extenders resources rt) h Q.
Proof.
  intros Hc HG HQ HPan. unfold ToShoot. apply wp_seq.
  eapply wp_confined; [exact Hc|exact HG| |exact HPan].
  intros [c err] h' [(Hid & Hn & Hns) Hk] Hh. cbn. apply HQ; [done|done| |].
  - destruct err; cbn; [done|]. by split.
  - intros shoot Hok. exists c. split; [done|]. destruct err; [done|]. by apply Hk.
Qed.

Definition converterOk : ConverterOk.
Proof.
  refine {| createPanics _ _ := False; patchPanics opts _ := patchDereferencesNil opts |}.
  - intros R G opts rt h Q HG HQ HPan. eapply (wp_ToShoot _ _ _ (fun _ => True)); [|exact HG|auto|exact HPan].
    eapply confined_impl; [apply runExtenders_keeps; [apply create_extenders_keep|done]|]. by intros [c err].
  - intros R G opts rt h Q HG HQ HPan. eapply (wp_ToShoot _ _ _ (shares rt)); [|exact HG| |exact HPan].
    + eapply confined_impl; [eapply confined_conj; [by apply patch_confined|]|].
      * by apply runExtenders_sharing; [apply patch_sharing|].
      * by intros [c err].
    + intros cv h' Hx Hid Hn Hk. apply HQ; [done..|]. intros shoot Hok.
      destruct (Hk shoot Hok) as (c & -> & Hs & _). exact Hs.
Defined.

(** C12. The converter implements the interface against which the state machine is
    verified, for every library, codec and configuration: whatever the control plane
    answers, it only reads config maps of the operator's namespace, names the Shoot after the Runtime in the
    namespace of the project, leaves metadata, status and name of the Runtime alone,
    and when a patch succeeds the specification its user wrote (up to what the workers'
    pointers lead to), never panics for a new Shoot, and for a patch only when there is audit log data
    and the Shoot's audit log extension has no configuration. *)
Theorem converter_refines_interface :
  exists ok : ConverterOk,
    (forall opts rt, ~ createPanics opts rt) /\
    (forall opts rt, patchPanics opts rt <->
       poAuditLogData opts <> emptyShootAuditLogData /\
       exists e, List.find (hasType AuditlogExtensionType) (poExtensions opts) = Some e /\
         extProviderConfig e = None).
Proof. exists converterOk. split; [intros opts rt Hp; exact Hp|]. intros opts rt. reflexivity. Qed.

End Refinement.

(** ** The Shoot that a successful conversion makes *)

Section Created.
Context `{GardenerLib} `{SortLib} `{HyperscalerCodecs} `{GVisorLib} `{ExtensionCodecs} `{Codec VXLanConfig}.
Context `{SliceCapacities}.

(** The tolerations of the region: the last entry of the configuration for it. *)
Fixpoint tolerationsFor (region : string) (config : list (string * list Toleration)) : list Toleration :=
  match config with
  | [] => []
  | (r, ts) :: rest =>
      if existsb (fun e => String.eqb region e.1) rest then tolerationsFor region rest
      else if String.eqb region r then ts else []
  end.

Definition shootMetaFor (cfg : ConverterConfig) (rt : Runtime) : ObjectMeta :=
  let label := mapGet (Labels (rtMeta rt)) in
  meta_with_labels
    (meta_with_annotations
       (metaNamed (rsName (rShoot (rtSpec rt))) ("garden-" +:+ ProjectName (ccGardener cfg))) (getAnnotations rt))
    (<[ShootGlobalAccountLabel := label RuntimeGlobalAccountLabel]>
       {[ShootSubAccountLabel := label RuntimeSubaccountLabel]}).

Definition wantedVersion (cfg : ConverterConfig) (rt : Runtime) : string :=
  match rkVersion (rsKubernetes (rShoot (rtSpec rt))) with
  | Some v => if String.eqb v "" then DefaultVersion (ccKubernetes cfg) else v
  | None => DefaultVersion (ccKubernetes cfg)
  end.

(** The Shoot of a Runtime, field by field, from its cloud profile, provider section
    with workers, extensions and token lifetime. *)
Definition specifiedShoot (opts : CreateOpts) (rt : Runtime) (profile : string) (provider : ShootProvider)
    (extensions : list Extension) (tokens : Z) : Shoot :=
  let cfg := coConverterConfig opts in
  let k8s := ccKubernetes cfg in
  let kas := kcKubeApiServer k8s in
  let dns := ccDNS cfg in
  let rs := rShoot (rtSpec rt) in
  let n := rsNetworking rs in
  let type := rpType (rsProvider rs) in
  let auditLog := negb (bool_decide (coAuditLogData opts = emptyShootAuditLogData)) in
  let domain := rsName rs +:+ "." +:+ dcDomainPrefix dns in
  let binding := Some (rsSecretBindingName rs) in
  let credentials := EnableCredentialBinding (ccGardener cfg) in
  mkShoot "Shoot" "core.gardener.cloud/v1beta1" (shootMetaFor cfg rt)
    (mkShootSpec (Some (rsPurpose rs)) (rsRegion rs) (rsControlPlane rs) (Some (CloudProfileKind, profile))
       (if IsGardenerInternal dns then None
        else Some (mkShootDNS (Some domain)
               [mkShootDNSProvider [domain] (Some true) (Some (dcProviderType dns))
                  (Some (mkObjRef "Secret" (dcSecretName dns) "v1"))]))
       extensions
       (mkShootKubernetes (wantedVersion cfg rt)
          (Some (mkKubeAPIServer (FeatureGates kas) (RuntimeConfig kas) None
                   (Some (StructuredAuthConfigFmt (rsName rs)))
                   (if auditLog
                    then Some (fixPolicyConfigMapName (Annotations (rtMeta rt)) (ccAuditLogPolicyConfigMapName cfg))
                    else None)
                   (Some (mkServiceAccountConfig (Some false) (Some tokens)))))
          (Some (KubeletFeatureGates k8s)))
       (Some (mkShootNetworking (rnType n) (Some (rnPods n)) (Some (rnNodes n)) (Some (rnServices n))
                (if canEnableDualStackIPs type (rnDualStack n) && ccEnableDualStackIP cfg
                 then [IPFamilyIPv4; IPFamilyIPv6] else [])
                (if String.eqb type TypeGDCH then networkingConfig else None)))
       provider
       (if credentials then None else binding) (if credentials then binding else None) None
       (if isTrue (rsEnforceSeedLocation rs) && negb (String.eqb (rsRegion rs) "")
        then Some {[seedRegionSelectorLabel := rsRegion rs]} else None)
       (if auditLog
        then [mkResource auditlogSecretReference (mkObjRef "Secret" (salSecretName (coAuditLogData opts)) "v1")]
        else [])
       (tolerationsFor (rsRegion rs) (ccTolerations cfg))
       (if String.eqb type TypeOpenStack then Some "converged-cloud-internet" else None)
       (if isEuAccess (rsPlatformRegion rs)
        then [mkAccessRestriction "eu-access-only" (<[euAccessAddons := "true"]> {[euAccessNodes := "true"]})]
        else [])
       (Some (mkMaintenance (EnableKubernetesVersionAutoUpdate k8s) (Some (EnableMachineImageVersionAutoUpdate k8s))
                (coMaintenanceTimeWindow opts))))
    emptyShootStatus.

Lemma tolerations_spec l rt shoot :
  exists ts, NewTolerationsExtender l rt shoot =
    Ok (onSpec shoot (fun sp => set_tolerations sp ts)) /\
    ts = if existsb (fun e => String.eqb (rsRegion (rShoot (rtSpec rt))) e.1) l
         then tolerationsFor (rsRegion (rShoot (rtSpec rt))) l else ssTolerations (shootSpec shoot).
Proof.
  revert shoot. induction l as [|[r ts] l IH]; intros shoot; cbn.
  { eexists. split; [|reflexivity]. by destruct shoot as [? ? ? [] ?]. }
  destruct (String.eqb (rsRegion (rShoot (rtSpec rt))) r); cbn [orb].
  - destruct (IH (onSpec shoot (fun sp => set_tolerations sp ts))) as (ts' & -> & ->). cbn.
    eexists. split; [reflexivity|]. by destruct (existsb _ l).
  - destruct (IH shoot) as (ts' & -> & ->). eexists. split; [reflexivity|]. by destruct (existsb _ l).
Qed.

(** *** Extensions of a new Shoot *)

Lemma applyExtension_new ext u exts :
  ruleType ext ∉ extType <$> exts -> applyExtension ext u exts = (exts ++ option_list u)%list.
Proof.
  intros Hni. unfold applyExtension.
  assert (slicesIndexFunc exts (hasType (ruleType ext)) = None) as ->.
  { apply slicesIndexFunc_None. intros e He. apply String.eqb_neq. intros Ht. apply Hni. rewrite <- Ht.
    by apply list_elem_of_fmap_2. }
  destruct u; cbn; [done|by rewrite app_nil_r].
Qed.

(** Rules of types that the Shoot does not have yet, with whether they apply. *)
Lemma applyRules_new P Pan (rules : list (ExtensionRule * bool)) rt shoot :
  Forall (fun rb => forall s, confined P Pan
            (fun r => match r with
                      | Ok u => wellTyped rb.1 u /\ (u <> None <-> rb.2 = true)
                      | Err _ => True end) (ruleCreate rb.1 rt s)) rules ->
  NoDup ((extType <$> extsOf shoot) ++ (ruleType ∘ fst <$> rules))%list ->
  confined P Pan
    (fun res => match res with
                | Ok shoot' => exists exts, shoot' = shoot_with_extensions shoot exts /\
                    extType <$> exts = ((extType <$> extsOf shoot) ++
                                        (ruleType ∘ fst <$> List.filter snd rules))%list
                | Err _ => True end) (applyRules (fst <$> rules) rt shoot).
Proof.
  intros Hall. revert shoot. induction Hall as [|[rule b] rules Hr _ IH]; intros shoot Hnd; cbn [fmap list_fmap applyRules].
  { cbn. exists (extsOf shoot). split; [by destruct shoot as [? ? ? [] ?]|by rewrite app_nil_r]. }
  eapply confined_bind; [apply Hr|]. intros [u|e] Hu; [|done]. destruct Hu as [Htyped Hb]. cbn in Htyped, Hb.
  cbn in Hnd. apply NoDup_app in Hnd as (Hnd1 & Hnd2 & Hnd3). apply NoDup_cons in Hnd3 as [Hni Hnd3].
  cbn [fst]. rewrite (applyExtension_new rule u (ssExtensions (shootSpec shoot))).
  2:{ intros Hin. apply (Hnd2 _ Hin). by left. }
  eapply confined_impl; [apply IH|].
  - cbn. unfold extsOf. cbn. rewrite fmap_app, <- app_assoc. apply NoDup_app. split; [done|].
    assert (forall x, x ∈ extType <$> option_list u -> x = ruleType rule) as Hx.
    { destruct u as [e|]; cbn; [|set_solver]. intros x ->%list_elem_of_singleton. by apply Htyped. }
    split.
    + intros x Hx1 [Hx2|Hx2]%elem_of_app; apply (Hnd2 x Hx1); [apply Hx in Hx2 as ->; by left|by right].
    + apply NoDup_app. split; [destruct u; cbn; [apply NoDup_singleton|constructor]|].
      split; [|done]. intros x Hx1%Hx. by subst.
  - intros [shoot'|e]; [|done]. intros (exts & -> & Hexts). exists exts. split; [by destruct shoot as [? ? ? [] ?]|].
    rewrite Hexts. unfold extsOf. cbn. rewrite fmap_app, <- app_assoc. f_equal.
    destruct u as [e|]; cbn.
    + rewrite (proj1 Hb) by done. cbn. by rewrite (Htyped e eq_refl).
    + destruct b; [|done]. by destruct (proj2 Hb eq_refl).
Qed.

Definition createdExtensionTypes (data : ShootAuditLogData) (acl global : bool)
    (rt : Runtime) : list string :=
  ((if global then [NetworkFilterType] else []) ++ [CertExtensionType; DNSExtensionType; OidcExtensionType] ++
   (if decide (data = emptyShootAuditLogData) then [] else [AuditlogExtensionType]) ++
   (if AclNeedsToBeEnabled acl rt then [ApiServerACLExtensionType] else []) ++
   (if isNvidiaOpenshellEnabled rt then [NvidiaOpenshellExtensionType] else []))%list.

Lemma result_typed (rule : ExtensionRule) (r : result Extension) :
  (forall e, r = Ok e -> extType e = ruleType rule) ->
  match Some <$> r with Ok u => wellTyped rule u /\ (u <> None <-> true = true) | Err _ => True end.
Proof. destruct r as [e|]; cbn; [|done]. intros He. split; [intros ? [= <-]; by apply He|by split]. Qed.

Lemma createAcl_typed Pan cfg rule rt :
  ruleType rule = ApiServerACLExtensionType ->
  confined converterCall Pan
    (fun r => match r with Ok u => wellTyped rule u /\ (u <> None <-> true = true) | Err _ => True end)
    (createAcl cfg rt).
Proof.
  intros Ht. unfold createAcl, loadIPsFromConfigMap. cbn. split; [done|]. intros [cm|e]; cbn; [|done].
  destruct (unmarshal (mapGet (cmData cm) OperatorIpsKey)) as [ops|]; cbn; [|done].
  destruct (unmarshal (mapGet (cmData cm) KcpExternalNatIpKey)) as [ip|]; cbn; [|done].
  apply result_typed. rewrite Ht. unfold NewApiServerACLExtension, applyAccessControlList.
  destruct (allowedCIDRs rt); [by intros e [= <-]|]. by intros e (raw & _ & [= <-])%result_bind_Ok.
Qed.

Lemma extensionsForCreate_types Pan cfg data acl global rt shoot :
  ssExtensions (shootSpec shoot) = [] ->
  confined converterCall Pan
    (fun res => match res with
                | Ok shoot' => exists exts, shoot' = shoot_with_extensions shoot exts /\
                    extType <$> exts = createdExtensionTypes data acl global rt
                | Err _ => True end)
    (NewExtensionsExtenderForCreate cfg data acl global rt shoot).
Proof.
  intros Hexts. unfold NewExtensionsExtenderForCreate, newExtensionsExtender. rewrite Hexts. cbn [app].
  set (shoot0 := shoot_with_extensions shoot []).
  set (rules := [ (networkFilterRule global, global);
    (ruleOf CertExtensionType (fun _ _ => Some <$> NewCertExtension) StrategyKeep, true);
    (ruleOf DNSExtensionType (fun _ s => Some <$> buildDNSExtension (ccDNS cfg) (Name (shootMeta s))) StrategyKeep, true);
    (ruleOf OidcExtensionType (fun _ _ => Ok (Some NewOIDCExtension)) StrategyKeep, true);
    (auditLogRule data, negb (bool_decide (data = emptyShootAuditLogData)));
    (aclRule cfg acl, AclNeedsToBeEnabled acl rt); (nvidiaRule, isNvidiaOpenshellEnabled rt) ]).
  eapply confined_impl; [apply (applyRules_new converterCall Pan rules rt shoot0)|].
  - unfold rules. each; intros s.
    + cbn. destruct global; [|done]. apply result_typed. unfold NewNetworkFilterExtension.
      destruct (isNetworkingFilterDisabled _); [by intros e [= <-]|].
      destruct (isIngressBlackholingEnabled _); [|by intros e [= <-]].
      by intros e (raw & _ & [= <-])%result_bind_Ok.
    + cbn. apply result_typed. by intros e (raw & _ & [= <-])%result_bind_Ok.
    + cbn. apply result_typed. unfold buildDNSExtension, NewDNSExtensionInternal, NewDNSExtensionExternal.
      destruct (IsGardenerInternal _); by intros e (raw & _ & [= <-])%result_bind_Ok.
    + cbn. split; [by intros ? [= <-]|by split].
    + cbn. case_decide; [rewrite bool_decide_true by done|rewrite bool_decide_false by done]; [by split|].
      apply result_typed. by intros e (raw & _ & [= <-])%result_bind_Ok.
    + cbn. destruct (AclNeedsToBeEnabled acl rt); cbn; [apply (createAcl_typed Pan cfg (aclRule cfg acl)); reflexivity|by split].
    + cbn. destruct (isNvidiaOpenshellEnabled rt); cbn; [|by split]. split; [by intros ? [= <-]|by split].
  - refine (bool_decide_unpack _ _). vm_compute. exact I.
  - intros [shoot'|e]; [|done]. intros (exts & -> & Ht). exists exts. split; [by destruct shoot as [? ? ? [] ?]|].
    rewrite Ht. unfold createdExtensionTypes, rules.
    destruct (decide (data = emptyShootAuditLogData)) as [Hd|Hd];
      [rewrite (bool_decide_true _ Hd)|rewrite (bool_decide_false _ Hd)];
      by destruct global, (AclNeedsToBeEnabled acl rt), (isNvidiaOpenshellEnabled rt).
Qed.

(** *** Running the extenders *)

(** The Shoot after the base extenders. *)
Definition baseShoot (cfg : ConverterConfig) (rt : Runtime) (profile : string) : Shoot :=
  let kas := kcKubeApiServer (ccKubernetes cfg) in
  let rs := rShoot (rtSpec rt) in
  let n := rsNetworking rs in
  mkShoot "Shoot" "core.gardener.cloud/v1beta1" (shootMetaFor cfg rt)
    (mkShootSpec (Some (rsPurpose rs)) (rsRegion rs) (rsControlPlane rs) (Some (CloudProfileKind, profile)) None []
       (mkShootKubernetes ""
          (Some (mkKubeAPIServer (FeatureGates kas) (RuntimeConfig kas) None
                   (Some (StructuredAuthConfigFmt (rsName rs))) None None))
          (Some (KubeletFeatureGates (ccKubernetes cfg))))
       (Some (mkShootNetworking (rnType n) (Some (rnPods n)) (Some (rnNodes n)) (Some (rnServices n)) [] None))
       (ssProvider emptyShootSpec) None None None
       (if isTrue (rsEnforceSeedLocation rs) && negb (String.eqb (rsRegion rs) "")
        then Some {[seedRegionSelectorLabel := rsRegion rs]} else None) [] []
       (if String.eqb (rpType (rsProvider rs)) TypeOpenStack then Some "converged-cloud-internet" else None)
       (if isEuAccess (rsPlatformRegion rs)
        then [mkAccessRestriction "eu-access-only" (<[euAccessAddons := "true"]> {[euAccessNodes := "true"]})]
        else []) None) emptyShootStatus.

(** Pure extenders one after the other. *)
Fixpoint extendAll (es : list Extend) (rt : Runtime) (shoot : Shoot) : result Shoot :=
  match es with
  | [] => Ok shoot
  | e :: es => shoot ← e rt shoot; extendAll es rt shoot
  end.

(** [x] does to the Shoot what [e] does, and nothing to the Runtime. *)
Definition acts (x : Extender) (e : Extend) : Prop :=
  forall c, exists c', cRuntime c' = cRuntime c /\
    match e (cRuntime c) (cShoot c) with
    | Ok shoot => x c = Ret (c', None) /\ cShoot c' = shoot
    | Err err => x c = Ret (c', Some err)
    end.

Lemma acts_pure e : acts (pure e) e.
Proof.
  intros c. unfold pure. destruct (e (cRuntime c) (cShoot c)) as [shoot|err]; [|by exists c].
  by exists (with_cShoot c shoot).
Qed.

Lemma acts_auditLog capacity name data : acts (auditLogExtender capacity name data) (NewAuditlogExtender name data).
Proof. intros c. by eexists (mkConv _ _ _ _). Qed.

Lemma run_acts xs es l c :
  Forall2 acts xs es ->
  exists c', cRuntime c' = cRuntime c /\
    ((extendAll es (cRuntime c) (cShoot c) = Ok (cShoot c') /\ runExtenders (xs ++ l)%list c = runExtenders l c') \/
     exists e, runExtenders (xs ++ l)%list c = Ret (c', Some e)).
Proof.
  intros Hacts. revert c. induction Hacts as [|x e xs es He _ IH]; intros c; cbn [extendAll app runExtenders].
  { exists c. auto. }
  destruct (He c) as (c1 & Hrt & Hres). destruct (e (cRuntime c) (cShoot c)) as [shoot|err]; cbn [mbind result_bind].
  - destruct Hres as [-> Hsh]. cbn. destruct (IH c1) as (c' & Hrt' & Hc'). rewrite Hrt, Hsh in Hc'.
    exists c'. split; [congruence|exact Hc'].
  - rewrite Hres. cbn. exists c1. split; [done|]. right. by exists err.
Qed.

Definition baseExtends (cfg : ConverterConfig) : list Extend :=
  let kas := kcKubeApiServer (ccKubernetes cfg) in
  [ ExtendWithAnnotations; ExtendWithLabels; ExtendWithSeedSelector; NewOidcExtender;
    ExtendWithCloudProfile (CloudProfileName (pcGDCH (ccProvider cfg))); ExtendWithExposureClassName;
    ExtendWithAccessRestriction;
    NewFeatureGatesExtender (FeatureGates kas) (KubeletFeatureGates (ccKubernetes cfg));
    NewKubernetesRuntimeConfigExtender (RuntimeConfig kas) ].

Lemma base_shoot cfg rt :
  extendAll (baseExtends cfg) rt (newShoot cfg rt) =
  profile ← getCloudProfileName rt (CloudProfileName (pcGDCH (ccProvider cfg)));
  Ok (baseShoot cfg rt profile).
Proof.
  unfold baseExtends, extendAll, ExtendWithSeedSelector, ExtendWithCloudProfile, ExtendWithExposureClassName,
    ExtendWithAccessRestriction, baseShoot.
  cbn [mbind result_bind ExtendWithAnnotations ExtendWithLabels].
  destruct (isTrue _ && _); cbn [mbind result_bind NewOidcExtender];
    (destruct (getCloudProfileName rt _) as [profile|e]; cbn [mbind result_bind]; [|done]);
    destruct (String.eqb (rpType _) TypeOpenStack); cbn [mbind result_bind];
    destruct (isEuAccess _); reflexivity.
Qed.

(** The parts of the specified Shoot that the Runtime, the libraries and the control
    plane determine. *)
Definition createdFrom (opts : CreateOpts) (rt : Runtime) (shoot : Shoot) : Prop :=
  let cfg := coConverterConfig opts in
  exists profile provider workers extensions tokens,
    shoot = specifiedShoot opts rt profile (provider_with_workers provider workers) extensions tokens /\
    getCloudProfileName rt (CloudProfileName (pcGDCH (ccProvider cfg))) = Ok profile /\
    providerCreated (ccEnableDualStackIP cfg) (ccMachineImage cfg) (pcGDCH (ccProvider cfg)) rt provider /\
    applyDefaultGVisorNetRaw (spWorkers provider) = (workers, None) /\
    extType <$> extensions =
      createdExtensionTypes (coAuditLogData opts) (coApiServerAclEnabled opts)
        (coNetworkRestrictionGlobalEnabled opts) rt /\
    (lowerBound <= tokens <= upperBound)%Z.

(** The Shoot when its extensions have been set. *)
Definition withExtensions (opts : CreateOpts) (rt : Runtime) (profile : string) (provider : ShootProvider)
    (extensions : list Extension) : Shoot :=
  let cfg := coConverterConfig opts in
  let dns := ccDNS cfg in
  let sp := shootSpec (baseShoot cfg rt profile) in
  let domain := rsName (rShoot (rtSpec rt)) +:+ "." +:+ dcDomainPrefix dns in
  mkShoot "Shoot" "core.gardener.cloud/v1beta1" (shootMetaFor cfg rt)
    (mkShootSpec (ssPurpose sp) (ssRegion sp) (ssControlPlane sp) (ssCloudProfile sp)
       (if IsGardenerInternal dns then None
        else Some (mkShootDNS (Some domain)
               [mkShootDNSProvider [domain] (Some true) (Some (dcProviderType dns))
                  (Some (mkObjRef "Secret" (dcSecretName dns) "v1"))]))
       extensions (ssKubernetes sp) (ssNetworking sp) provider None None None (ssSeedSelector sp) []
       (tolerationsFor (rsRegion (rShoot (rtSpec rt))) (ccTolerations cfg)) (ssExposureClassName sp)
       (ssAccessRestrictions sp) None) emptyShootStatus.

Lemma tolerationsFor_none region l :
  existsb (fun e => String.eqb region e.1) l = false -> tolerationsFor region l = [].
Proof.
  induction l as [|[r ts] l IH]; cbn; [done|]. intros [Hr Hl]%orb_false_iff. by rewrite Hl, Hr.
Qed.

Lemma before_extensions opts rt rt' profile provider :
  rsRegion (rShoot (rtSpec rt')) = rsRegion (rShoot (rtSpec rt)) -> rsName (rShoot (rtSpec rt')) = rsName (rShoot (rtSpec rt)) ->
  let dns := ccDNS (coConverterConfig opts) in
  extendAll (NewTolerationsExtender (ccTolerations (coConverterConfig opts)) ::
             if negb (IsGardenerInternal dns)
             then [NewDNSExtenderForCreate (dcSecretName dns) (dcDomainPrefix dns) (dcProviderType dns)] else [])
    rt' (onSpec (baseShoot (coConverterConfig opts) rt profile) (fun sp => set_provider sp provider)) =
  Ok (withExtensions opts rt profile provider []).
Proof.
  intros Hregion Hname dns. cbn [extendAll].
  destruct (tolerations_spec (ccTolerations (coConverterConfig opts)) rt'
    (onSpec (baseShoot (coConverterConfig opts) rt profile) (fun sp => set_provider sp provider))) as (ts & -> & Hts).
  rewrite Hregion in Hts.
  assert (ts = tolerationsFor (rsRegion (rShoot (rtSpec rt))) (ccTolerations (coConverterConfig opts))) as ->.
  { rewrite Hts. destruct (existsb _ _) eqn:He; [done|]. by rewrite tolerationsFor_none. }
  cbn [mbind result_bind]. unfold withExtensions. fold dns.
  destruct (IsGardenerInternal dns); cbn [negb extendAll]; [reflexivity|].
  unfold NewDNSExtenderForCreate. rewrite Hname. reflexivity.
Qed.

Lemma extendAll_ok e es rt shoot shoot' :
  e rt shoot = Ok shoot' -> extendAll (e :: es) rt shoot = extendAll es rt shoot'.
Proof. intros He. cbn [extendAll]. by rewrite He. Qed.

Lemma kubernetes_eq def rt k a m p r c cp dns exts kub net prov sb cb sn ss res tol ex ar mt st :
  NewKubernetesExtender def "" rt
    (mkShoot k a m (mkShootSpec p r c cp dns exts kub net prov sb cb sn ss res tol ex ar mt) st) =
  Ok (mkShoot k a m (mkShootSpec p r c cp dns exts
        (mkShootKubernetes
           (match rkVersion (rsKubernetes (rShoot (rtSpec rt))) with
            | Some v => if String.eqb v "" then def else v
            | None => def
            end) (skKubeAPIServer kub) (skKubelet kub)) net prov sb cb sn ss res tol ex ar mt) st).
Proof. reflexivity. Qed.

Lemma maintenance_eq b1 b2 w rt k a m p r c cp dns exts kub net prov sb cb sn ss res tol ex ar mt st :
  NewMaintenanceExtender b1 b2 w rt
    (mkShoot k a m (mkShootSpec p r c cp dns exts kub net prov sb cb sn ss res tol ex ar mt) st) =
  Ok (mkShoot k a m (mkShootSpec p r c cp dns exts kub net prov sb cb sn ss res tol ex ar
        (Some (mkMaintenance b1 (Some b2) w))) st).
Proof. reflexivity. Qed.

Lemma networking_eq dual rt k a m p r c cp dns exts kub n prov sb cb sn ss res tol ex ar mt st :
  let rs := rShoot (rtSpec rt) in
  ExtendWithNetworking dual rt
    (mkShoot k a m (mkShootSpec p r c cp dns exts kub (Some n) prov sb cb sn ss res tol ex ar mt) st) =
  Ok (mkShoot k a m (mkShootSpec p r c cp dns exts kub
        (Some (mkShootNetworking (snType n) (snPods n) (snNodes n) (snServices n)
                 (if canEnableDualStackIPs (rpType (rsProvider rs)) (rnDualStack (rsNetworking rs)) && dual
                  then [IPFamilyIPv4; IPFamilyIPv6] else snIPFamilies n)
                 (if String.eqb (rpType (rsProvider rs)) TypeGDCH then networkingConfig else snProviderConfig n)))
        prov sb cb sn ss res tol ex ar mt) st).
Proof.
  intros rs. unfold ExtendWithNetworking. fold rs.
  destruct (_ && dual), (String.eqb _ _); destruct n; reflexivity.
Qed.

Lemma credentials_eq b rt k a m p r c cp dns exts kub net prov sn ss res tol ex ar mt st :
  let name := Some (rsSecretBindingName (rShoot (rtSpec rt))) in
  ExtendWithCredentialsBinding b rt
    (mkShoot k a m (mkShootSpec p r c cp dns exts kub net prov None None sn ss res tol ex ar mt) st) =
  Ok (mkShoot k a m (mkShootSpec p r c cp dns exts kub net prov (if b then None else name) (if b then name else None)
        sn ss res tol ex ar mt) st).
Proof. by destruct b. Qed.

Lemma auditlog_eq (b : bool) name data es rt k a m p r c cp dns exts v kas kl net prov sb cb sn ss tol ex ar mt st :
  extendAll ((if b then [NewAuditlogExtender name data] else []) ++ es)%list rt
    (mkShoot k a m (mkShootSpec p r c cp dns exts (mkShootKubernetes v (Some kas) kl) net prov sb cb sn ss [] tol ex ar mt)
       st) =
  extendAll es rt
    (mkShoot k a m (mkShootSpec p r c cp dns exts
       (mkShootKubernetes v
          (Some (mkKubeAPIServer (kasFeatureGates kas) (kasRuntimeConfig kas) (kasOIDCConfig kas)
                   (kasStructuredAuthentication kas)
                   (if b then Some (fixPolicyConfigMapName (Annotations (rtMeta rt)) name)
                    else kasAuditPolicyConfigMap kas) (kasServiceAccountConfig kas))) kl) net prov sb cb sn ss
       (if b then [mkResource auditlogSecretReference (mkObjRef "Secret" (salSecretName data) "v1")] else [])
       tol ex ar mt) st).
Proof. destruct b, kas; reflexivity. Qed.

Lemma expiration_eq t rt k a m p r c cp dns exts v kas kl net prov sb cb sn ss res tol ex ar mt st :
  NewExpirationTimeExtender t rt
    (mkShoot k a m (mkShootSpec p r c cp dns exts (mkShootKubernetes v (Some kas) kl) net prov sb cb sn ss res tol ex ar mt)
       st) =
  tb ← ValidateTokenExpirationTime t;
  Ok (mkShoot k a m (mkShootSpec p r c cp dns exts
       (mkShootKubernetes v
          (Some (mkKubeAPIServer (kasFeatureGates kas) (kasRuntimeConfig kas) (kasOIDCConfig kas)
                   (kasStructuredAuthentication kas) (kasAuditPolicyConfigMap kas)
                   (Some (mkServiceAccountConfig (Some false) (Some (determineTokenExpiration tb t)))))) kl)
       net prov sb cb sn ss res tol ex ar mt) st).
Proof. unfold NewExpirationTimeExtender. destruct (ValidateTokenExpirationTime t); [|done]. reflexivity. Qed.

Lemma after_extensions opts rt rt' profile provider extensions :
  rsNetworking (rShoot (rtSpec rt')) = rsNetworking (rShoot (rtSpec rt)) ->
  rsKubernetes (rShoot (rtSpec rt')) = rsKubernetes (rShoot (rtSpec rt)) ->
  rsSecretBindingName (rShoot (rtSpec rt')) = rsSecretBindingName (rShoot (rtSpec rt)) ->
  rpType (rsProvider (rShoot (rtSpec rt'))) = rpType (rsProvider (rShoot (rtSpec rt))) ->
  Annotations (rtMeta rt') = Annotations (rtMeta rt) ->
  let cfg := coConverterConfig opts in
  let k8s := ccKubernetes cfg in
  extendAll
    ([NewKubernetesExtender (DefaultVersion k8s) "";
      NewMaintenanceExtender (EnableKubernetesVersionAutoUpdate k8s) (EnableMachineImageVersionAutoUpdate k8s)
             (coMaintenanceTimeWindow opts)] ++
     (if negb (bool_decide (coAuditLogData opts = emptyShootAuditLogData))
      then [NewAuditlogExtender (ccAuditLogPolicyConfigMapName cfg) (coAuditLogData opts)] else []) ++
     [NewExpirationTimeExtender (MaxTokenExpiration (kcKubeApiServer k8s));
      ExtendWithNetworking (ccEnableDualStackIP cfg);
      ExtendWithCredentialsBinding (EnableCredentialBinding (ccGardener cfg))])%list
    rt' (withExtensions opts rt profile provider extensions) =
  tb ← ValidateTokenExpirationTime (MaxTokenExpiration (kcKubeApiServer k8s));
  Ok (specifiedShoot opts rt profile provider extensions
        (determineTokenExpiration tb (MaxTokenExpiration (kcKubeApiServer k8s)))).
Proof.
  intros Hn Hk Hs Ht Ha cfg k8s. unfold withExtensions, specifiedShoot, baseShoot, wantedVersion. fold cfg k8s.
  cbn [app shootSpec ssPurpose ssRegion ssControlPlane ssCloudProfile ssKubernetes ssNetworking ssSeedSelector
       ssExposureClassName ssAccessRestrictions].
  erewrite extendAll_ok by apply kubernetes_eq. erewrite extendAll_ok by apply maintenance_eq. rewrite Hk.
  cbn [skKubeAPIServer skKubelet]. rewrite auditlog_eq, Ha. cbn [extendAll]. rewrite expiration_eq.
  destruct (ValidateTokenExpirationTime _) as [tb|e]; cbn [mbind result_bind]; [|reflexivity].
  rewrite networking_eq, Hn, Ht. cbn [mbind result_bind]. rewrite credentials_eq, Hs. reflexivity.
Qed.

(** The extenders after those of the provider. *)
Definition createTail (opts : CreateOpts) : list Extender :=
  let cfg := coConverterConfig opts in
  let k8s := ccKubernetes cfg in
  let dns := ccDNS cfg in
  ((pure (NewTolerationsExtender (ccTolerations cfg)) ::
    when (negb (IsGardenerInternal dns))
     [ pure (NewDNSExtenderForCreate (dcSecretName dns) (dcDomainPrefix dns) (dcProviderType dns)) ]) ++
   reading (NewExtensionsExtenderForCreate cfg (coAuditLogData opts) (coApiServerAclEnabled opts)
                (coNetworkRestrictionGlobalEnabled opts)) ::
   ([ pure (NewKubernetesExtender (DefaultVersion k8s) "");
      pure (NewMaintenanceExtender (EnableKubernetesVersionAutoUpdate k8s) (EnableMachineImageVersionAutoUpdate k8s)
             (coMaintenanceTimeWindow opts)) ] ++
    when (negb (bool_decide (coAuditLogData opts = emptyShootAuditLogData)))
      [ auditLogExtender 0 (ccAuditLogPolicyConfigMapName cfg) (coAuditLogData opts) ] ++
    [ pure (NewExpirationTimeExtender (MaxTokenExpiration (kcKubeApiServer k8s)));
      pure (ExtendWithNetworking (ccEnableDualStackIP cfg));
      pure (ExtendWithCredentialsBinding (EnableCredentialBinding (ccGardener cfg))) ]))%list.

Lemma create_split opts rt :
  let cfg := coConverterConfig opts in
  NewConverterCreate opts rt =
  (baseExtenders cfg ++
   providing (NewProviderExtenderForCreateOperation (workersSpare rt) (ccEnableDualStackIP cfg)
                (EnableIMDSv2 (pcAWS (ccProvider cfg))) (ccMachineImage cfg) (pcWorker (ccProvider cfg))
                (pcGDCH (ccProvider cfg))) ::
   ExtendWithGVisorNetRawDefault :: createTail opts)%list.
Proof.
  intros cfg. unfold NewConverterCreate, createTail. fold cfg. by destruct (IsGardenerInternal (ccDNS cfg)).
Qed.

Lemma run_tail opts rt profile provider c :
  (exists al ws al' ws', cRuntime c = seenByOwner al ws (seenByOwner al' ws' rt)) ->
  cShoot c = onSpec (baseShoot (coConverterConfig opts) rt profile) (fun sp => set_provider sp provider) ->
  confined converterCall False
    (fun '(c', err) => err = None -> exists extensions tokens,
       cShoot c' = specifiedShoot opts rt profile provider extensions tokens /\
       extType <$> extensions =
         createdExtensionTypes (coAuditLogData opts) (coApiServerAclEnabled opts)
           (coNetworkRestrictionGlobalEnabled opts) rt /\
       (lowerBound <= tokens <= upperBound)%Z)
    (runExtenders (createTail opts) c).
Proof.
  intros (al & ws & al' & ws' & Hrt) Hshoot. set (cfg := coConverterConfig opts).
  unfold createTail. fold cfg.
  edestruct (run_acts (pure (NewTolerationsExtender (ccTolerations cfg)) :: when (negb (IsGardenerInternal (ccDNS cfg)))
     [ pure (NewDNSExtenderForCreate (dcSecretName (ccDNS cfg)) (dcDomainPrefix (ccDNS cfg)) (dcProviderType (ccDNS cfg))) ])
    (NewTolerationsExtender (ccTolerations cfg) :: if negb (IsGardenerInternal (ccDNS cfg))
       then [NewDNSExtenderForCreate (dcSecretName (ccDNS cfg)) (dcDomainPrefix (ccDNS cfg)) (dcProviderType (ccDNS cfg))]
       else [])) as (c1 & Hr1 & [[Hs1 ->]|[e ->]]); [| |done].
  { apply Forall2_cons_2; [apply acts_pure|]. destruct (negb _); [|apply Forall2_nil_2].
    apply Forall2_cons_2; [apply acts_pure|apply Forall2_nil_2]. }
  rewrite Hshoot, Hrt in Hs1. unfold cfg in Hs1. rewrite before_extensions in Hs1 by done.
  injection Hs1 as Hs1. cbn [runExtenders]. unfold reading at 1.
  eapply (confined_bind _ _ (fun '(c2, err) => err = None -> cRuntime c2 = cRuntime c1 /\ exists extensions,
      cShoot c2 = withExtensions opts rt profile provider extensions /\
      extType <$> extensions = createdExtensionTypes (coAuditLogData opts) (coApiServerAclEnabled opts)
        (coNetworkRestrictionGlobalEnabled opts) rt)).
  { eapply confined_bind; [apply extensionsForCreate_types; by rewrite <- Hs1|].
    intros [shoot|e]; cbn; [|done]. intros (exts & -> & Hty) _. split; [done|]. exists exts.
    split; [by rewrite <- Hs1|]. by rewrite Hr1, Hrt in Hty. }
  intros [c2 [e|]] Hc2; [done|]. destruct (Hc2 eq_refl) as (Hr2 & exts & Hs2 & Hty). clear Hc2.
  set (k8s := ccKubernetes cfg). set (audit := negb (bool_decide _)).
  edestruct (run_acts ([ pure (NewKubernetesExtender (DefaultVersion k8s) "");
      pure (NewMaintenanceExtender (EnableKubernetesVersionAutoUpdate k8s) (EnableMachineImageVersionAutoUpdate k8s)
             (coMaintenanceTimeWindow opts)) ] ++
    when audit [ auditLogExtender 0 (ccAuditLogPolicyConfigMapName cfg) (coAuditLogData opts) ] ++
    [ pure (NewExpirationTimeExtender (MaxTokenExpiration (kcKubeApiServer k8s)));
      pure (ExtendWithNetworking (ccEnableDualStackIP cfg));
      pure (ExtendWithCredentialsBinding (EnableCredentialBinding (ccGardener cfg))) ])%list) with (l := @nil Extender)
    (c := c2) as (c3 & Hr3 & Hrun).
  { apply Forall2_app; [repeat (apply Forall2_cons_2; [apply acts_pure|]); apply Forall2_nil_2|].
    apply Forall2_app; [|repeat (apply Forall2_cons_2; [apply acts_pure|]); apply Forall2_nil_2].
    instantiate (1 := if audit then [NewAuditlogExtender (ccAuditLogPolicyConfigMapName cfg) (coAuditLogData opts)]
                      else []).
    destruct audit; [|apply Forall2_nil_2]. apply Forall2_cons_2; [apply acts_auditLog|apply Forall2_nil_2]. }
  rewrite app_nil_r in Hrun. destruct Hrun as [[Hs3 Hrun]|[e Hrun]]; rewrite Hrun; [|done].
  cbn. intros _. rewrite Hs2, Hr2, Hr1, Hrt in Hs3. unfold audit, k8s, cfg in Hs3.
  rewrite after_extensions with (rt := rt) in Hs3 by done.
  apply result_bind_Ok in Hs3 as (tb & Htb & [= Hs3]). exists exts. eexists. split; [symmetry; exact Hs3|].
  split; [exact Hty|]. by apply determineTokenExpiration_bounds.
Qed.

Lemma created_confined opts rt :
  confined converterCall False (fun cv => forall shoot, cvShoot cv = Ok shoot -> createdFrom opts rt shoot)
    (toShootCreate opts rt).
Proof.
  set (cfg := coConverterConfig opts). unfold toShootCreate, converter, ToShoot. fold cfg.
  eapply (confined_bind _ _ (fun '(c, err) => err = None -> createdFrom opts rt (cShoot c)));
    [|intros [c [e|]] Hc; cbn; [done|]; intros shoot [= <-]; by apply Hc].
  rewrite create_split. fold cfg.
  edestruct (run_acts (baseExtenders cfg) (baseExtends cfg)) as (c1 & Hr1 & [[Hs1 ->]|[e ->]]); [|cbn|cbn; done].
  { unfold baseExtenders, baseExtends. repeat (apply Forall2_cons_2; [apply acts_pure|]). apply Forall2_nil_2. }
  cbn [cRuntime cShoot] in Hr1, Hs1. rewrite base_shoot in Hs1.
  apply result_bind_Ok in Hs1 as (profile & Hprofile & [= Hs1]).
  cbn [app runExtenders]. unfold providing at 1.
  destruct (create_spec (workersSpare rt) (ccEnableDualStackIP cfg) (EnableIMDSv2 (pcAWS (ccProvider cfg)))
    (ccMachineImage cfg) (pcWorker (ccProvider cfg)) (pcGDCH (ccProvider cfg)) (cRuntime c1)
    (ssProvider (shootSpec (cShoot c1)))) as (al & provider & err & -> & Hprov).
  cbn [mbind prog_bind prog_bind_def]. destruct err as [e|]; [cbn; done|]. destruct (Hprov eq_refl) as [_ Hcreated].
  rewrite Hr1 in Hcreated. cbn [runExtenders]. unfold ExtendWithGVisorNetRawDefault at 1, cWorkers.
  cbn [cShoot shootSpec onSpec shoot_with_spec set_provider ssProvider].
  destruct (applyDefaultGVisorNetRaw (spWorkers provider)) as [workers err] eqn:Hgv.
  cbn [mbind prog_bind prog_bind_def]. destruct err as [e|]; [cbn; done|].
  eapply confined_impl; [apply (run_tail opts rt profile (provider_with_workers provider workers))|].
  - cbn. rewrite Hr1. by do 4 eexists.
  - cbn. by rewrite <- Hs1.
  - intros [c [e|]] Hc; [done|]. intros _. destruct (Hc eq_refl) as (extensions & tokens & Hsh & Hty & Hb).
    by exists profile, provider, workers, extensions, tokens.
Qed.

(** C13. A new Shoot, against its specification field by field: whatever the control
    plane answers, the conversion makes no call but reads of config maps of the operator's namespace and does not
    panic, and when it succeeds the Shoot is the specified one, for the cloud profile
    of the provider, the provider section of the provider extender with the net-raw
    default of gVisor, the extensions of exactly the types that the configuration and
    the Runtime ask for, and a token lifetime between the bounds. *)
Theorem created_shoot_as_specified opts rt h :
  wp anyEnv (fun _ => converterCall) (toShootCreate opts rt) h (fun o _ =>
    match o with
    | Done cv => forall shoot, cvShoot cv = Ok shoot -> createdFrom opts rt shoot
    | Panicked => False
    end).
Proof.
  eapply wp_confined; [apply created_confined|done|by intros cv h'|done].
Qed.

End Created.

(** ** An example *)

#[local] Existing Instances numberVersions numberVersions_laws exampleSort exampleSort_laws exampleCodecs exampleGVisor
  exampleExtensionCodecs.
#[local] Instance exampleNetworking : Codec VXLanConfig := noCodec.
#[local] Instance exampleCapacities : SliceCapacities := {| workersSpare _ := 3; resourcesSpare _ := 0 |}.

Lemma converter_refines_interface_witness :
  exists ok : ConverterOk, forall opts rt, ~ createPanics opts rt.
Proof. destruct converter_refines_interface as (ok & Hc & _). by exists ok. Defined.
