(* ===== verification/FsmState.v ===== *)
(** * The state machine of the Runtime controller: state and combinators
      (internal/controller/runtime/fsm)

    A state function receives the configuration and the system state, makes
    calls, changes the state, and returns the next state function, a result for
    controller-runtime and an error.  Closures ([sFnUpdateStatus(result, err)]
    and the like) are constructors with the captured values. *)

From S2P Require Import Prelude Kube Gardener RuntimeApi Objects Effects Config AuditLog.

Local Open Scope string_scope.

(** ctrl.Result *)
Record Result := mkResult { Requeue : bool; RequeueAfter : Z }.

#[export] Instance Result_eq_dec : EqDecision Result.
Proof. solve_decision. Defined.

(*@ src/internal/controller/runtime/fsm/runtime_fsm.go:24-24 stateFn *)
Inductive stateFn :=
| SfnTakeSnapshot
| SfnInitialize
| SfnCreateShoot
| SfnSelectShootProcessing
| SfnSyncRegistryCacheGardenSecrets
| SfnPatchExistingShoot
| SfnWaitForShootCreation
| SfnWaitForShootReconcile
| SfnHandleKubeconfig
| SfnCreateKymaNamespace
| SfnInitializeRuntimeBootstrapper
| SfnCleanupRegistryCacheGardenSecrets
| SfnConfigureSKR
| SfnApplyClusterRoleBindings
| SfnMigrateToDedicatedAuditLog
| SfnCopyAuditLogReadCredentials
| SfnDeleteKubeconfig
| SfnDeleteShoot
| SfnStopWithMetrics
| SfnUpdateStatus (result : option Result) (err : option GoError)
| SfnEmitEvent (next : option stateFn) (result : option Result) (err : option GoError).

(** What a state function returns. *)
Definition transition : Type := option stateFn * option Result * option GoError.

(** ** The interfaces of the configuration *)

(*@ src/internal/rtbootstrapper/install.go:20-28 InstallationStatus *)
Inductive InstallationStatus :=
| StatusNotStarted
| StatusInProgress
| StatusReady
| StatusFailed
| StatusUpgradeNeeded.

(*@ src/internal/controller/runtime/fsm/rtbootstrapper.go:10-15 RuntimeBootstrapperInstaller *)
Record RuntimeBootstrapperInstaller := mkInstaller {
  Configure : Runtime -> prog (option GoError);
  Install : Runtime -> string -> prog (option GoError);
  InstallationInfo : Runtime -> prog (result (InstallationStatus * string));
  Cleanup : Runtime -> prog (option GoError)
}.

(** The installer works on the runtime cluster and reads the control plane. *)
Definition bootstrapperCall (c : call) : Prop :=
  match c with
  | CGet _ _ _ | CList _ _ _ _ | CBuildClient _ | CDiscover _ | CNow | CNewUUID => True
  | CCreate Skr _ _ | CUpdate Skr _ _ | CPatch Skr _ _ _ | CDelete Skr _ _ => True
  | _ => False
  end.

(** Of its operations only the query of the state may panic, and only after an
    answer that [cause] names. *)
Class InstallerOk (i : RuntimeBootstrapperInstaller) (cause : event -> Prop) : Prop := {
  configure_only rt : only bootstrapperCall (Configure i rt);
  install_only rt manifests : only bootstrapperCall (Install i rt manifests);
  cleanup_only rt : only bootstrapperCall (Cleanup i rt);
  info_ok R G rt h (Q : outcome (result (InstallationStatus * string)) -> history -> Prop) :
    (forall h' c, bootstrapperCall c -> G h' c) ->
    (forall r h', extends bootstrapperCall h h' -> Q (Done r) h') ->
    (forall h' e, extends bootstrapperCall h h' -> e ∈ h' -> cause e -> Q Panicked h') ->
    wp R G (InstallationInfo i rt) h Q
}.

(*@ src/internal/controller/runtime/fsm/runtime_fsm.go:27-46 RCCfg *)
Record RCCfg := mkRCCfg {
  GardenerRequeueDuration : Z;
  RequeueDurationShootCreate : Z;
  RequeueDurationShootDelete : Z;
  RequeueDurationShootReconcile : Z;
  ControlPlaneRequeueDuration : Z;
  StatusRequeueDelay : Z;
  CfgFinalizer : string;
  ShootNamesapace : string;
  AuditLogMandatory : bool;
  ApiServerAclEnabled : bool;
  NetworkRestrictionGlobalEnabled : bool;
  DedicatedAuditLoggingEnabled : bool;
  AuditLogDataProvider : DataProvider;
  RegistryCacheConfigControllerEnabled : bool;
  RuntimeBootstrapperEnabled : bool;
  BootstrapperInstaller : option RuntimeBootstrapperInstaller;
  RCConfig : Config
}.

Definition ConverterCfg (m : RCCfg) : ConverterConfig := cfgConverterConfig (RCConfig m).

(** [fmt.Sprintf("garden-%s", m.ConverterConfig.Gardener.ProjectName)] *)
Definition gardenNamespace (m : RCCfg) : string :=
  "garden-" +:+ ProjectName (ccGardener (ConverterCfg m)).

(** ** The state *)

(*@ src/internal/controller/runtime/fsm/runtime_state.go:9-13 systemState *)
Record systemState := mkState {
  instance : Runtime;
  snapshot : RuntimeStatus;
  sshoot : option Shoot
}.

Definition emptyStatus : RuntimeStatus := mkStatus "" [] false None [] "".

Definition with_instance (s : systemState) (i : Runtime) : systemState :=
  mkState i (snapshot s) (sshoot s).
Definition with_shoot (s : systemState) (sh : option Shoot) : systemState :=
  mkState (instance s) (snapshot s) sh.

(*@ src/internal/controller/runtime/fsm/runtime_state.go:15-21 saveRuntimeStatus *)
Definition saveRuntimeStatus (s : systemState) : systemState :=
  mkState (instance s) (rtStatus (instance s)) (sshoot s).

(*@ src/internal/controller/runtime/fsm/runtime_state.go:23-28 exposeShootStatusInfo *)
Definition exposeShootStatusInfo (s : systemState) : systemState :=
  match sshoot s with
  | Some shoot =>
      let st := rtStatus (instance s) in
      with_instance s
        (runtime_with_status (instance s)
           (mkStatus (State st) (Conditions st) (ProvisioningCompleted st)
              (stLastOperation (shootStatus shoot)) (stLastErrors (shootStatus shoot))
              (AuditLogCR st)))
  | None => s
  end.

(** ** The monad of the state functions *)

Definition SM (A : Type) : Type := systemState -> prog (A * systemState).

#[export] Instance SM_ret : MRet SM := fun A a s => Ret (a, s).
#[export] Instance SM_bind : MBind SM := fun A B f m s => m s ≫= fun '(a, s') => f a s'.

Definition lift {A} (p : prog A) : SM A := fun s => a ← p; Ret (a, s).
Definition getInstance : SM Runtime := fun s => Ret (instance s, s).
Definition getState : SM systemState := fun s => Ret (s, s).
Definition modifyS (f : systemState -> systemState) : SM unit := fun s => Ret (tt, f s).
Definition onInstance (f : Runtime -> Runtime) : SM unit :=
  modifyS (fun s => with_instance s (f (instance s))).
(** [s.shoot], dereferenced. *)
Definition getShoot : SM Shoot := fun s => sh ← deref (sshoot s); Ret (sh, s).
Definition callS (c : call) : SM (resp c) := lift (callP c).
Definition metricS (m : metricOp) : SM unit := callS (CMetric m).

Section Combinators.
Context `{MetaLib}.

(** The methods of the instance that record a condition. *)
Definition statePending (c r : string) (status : ConditionStatus) (msg : string) : SM unit :=
  now ← lift Now; onInstance (UpdateStatePending now c r status msg).
Definition stateReady (c r msg : string) : SM unit :=
  now ← lift Now; onInstance (UpdateStateReady now c r msg).
Definition stateFailed (c r msg : string) : SM unit :=
  now ← lift Now; onInstance (UpdateStateFailed now c r msg).
Definition stateDeletion (c r : string) (status : ConditionStatus) (msg : string) : SM unit :=
  now ← lift Now; onInstance (UpdateStateDeletion now c r status msg).

(*@ src/internal/controller/runtime/fsm/runtime_fsm_common.go:10-13 updateStatusAndRequeueAfter *)
Definition updateStatusAndRequeueAfter (duration : Z) : SM transition :=
  mret (Some (SfnUpdateStatus (Some (mkResult false duration)) None), None, None).

(*@ src/internal/controller/runtime/fsm/runtime_fsm_common.go:15-17 updateStatusAndStop *)
Definition updateStatusAndStop : SM transition :=
  mret (Some (SfnUpdateStatus None None), None, None).

(*@ src/internal/controller/runtime/fsm/runtime_fsm_common.go:19-21 updateStatusAndStopWithError *)
Definition updateStatusAndStopWithError (err : GoError) : SM transition :=
  mret (Some (SfnUpdateStatus None (Some err)), None, None).

(*@ src/internal/controller/runtime/fsm/runtime_fsm_common.go:23-25 requeue *)
Definition requeue : SM transition := mret (None, Some (mkResult true 0), None).

(*@ src/internal/controller/runtime/fsm/runtime_fsm_common.go:27-29 requeueAfter *)
Definition requeueAfter (d : Z) : SM transition := mret (None, Some (mkResult false d), None).

(*@ src/internal/controller/runtime/fsm/runtime_fsm_common.go:31-33 stop *)
Definition stop : SM transition := mret (None, None, None).

(*@ src/internal/controller/runtime/fsm/runtime_fsm_common.go:35-37 switchState *)
Definition switchState (fn : stateFn) : SM transition := mret (Some fn, None, None).

(*@ src/internal/controller/runtime/fsm/runtime_fsm_common.go:39-44 stopWithMetrics *)
Definition stopWithMetrics : SM transition := mret (Some SfnStopWithMetrics, None, None).

(** The closure [stopWithMetrics] returns. *)
Definition sFnStopWithMetrics : SM transition :=
  _ ← metricS IncRuntimeFSMStopCounter; stop.

(*@ src/internal/controller/runtime/fsm/runtime_fsm_patch_shoot.go:271-276 updateStateFailedWithErrorAndStop *)
Definition updateStateFailedWithErrorAndStop (c r msg : string) : SM transition :=
  _ ← stateFailed c r msg; updateStatusAndStop.

(*@ src/internal/controller/runtime/fsm/runtime_fsm_waiting_shoot_creation.go:16-22 ensureStatusConditionIsSetAndContinue *)
Definition ensureStatusConditionIsSetAndContinue (delay : Z) (condType condReason message : string)
    (next : stateFn) : SM transition :=
  i ← getInstance;
  if negb (IsStateWithConditionAndStatusSet i RuntimeStatePending condType condReason ConditionTrue)
  then _ ← statePending condType condReason ConditionTrue message; updateStatusAndRequeueAfter delay
  else switchState next.

(*@ src/internal/controller/runtime/fsm/runtime_fsm_waiting_shoot_creation.go:24-30 ensureTerminatingStatusConditionAndContinue *)
Definition ensureTerminatingStatusConditionAndContinue (delay : Z)
    (condType condReason message : string) (next : stateFn) : SM transition :=
  i ← getInstance;
  if negb (IsStateWithConditionAndStatusSet i RuntimeStateTerminating condType condReason ConditionTrue)
  then _ ← stateDeletion condType condReason ConditionTrue message; updateStatusAndRequeueAfter delay
  else switchState next.

(** ** Clients of the runtime cluster *)

(*@ src/pkg/gardener/client.go:42-58 GetRuntimeClientWithScheme *)
Definition GetRuntimeClientWithScheme (secret : Secret) : prog (result unit) :=
  match secretData secret with
  | None =>
      mret (Err (newError ("kubeconfig secret `" +:+ Name (secretMeta secret) +:+
                           "` does not contain kubeconfig data")))
  | Some _ => callP (CBuildClient secret)
  end.

(*@ src/internal/controller/runtime/fsm/runtime_client.go:70-86 getKubeconfigSecret *)
Definition getKubeconfigSecret (runtimeID namespace : string) : prog (result Secret) :=
  r ← callP (CGet Kcp KSecret (mkNN namespace ("kubeconfig-" +:+ runtimeID)));
  mret
    (match r with
     | Err e => Err e
     | Ok kubeconfigSecret =>
         match secretData kubeconfigSecret with
         | None =>
             Err (newError ("kubeconfig secret `" +:+ Name (secretMeta kubeconfigSecret) +:+
                            "` does not contain kubeconfig data"))
         | Some _ => Ok kubeconfigSecret
         end
     end).

(*@ src/internal/controller/runtime/fsm/runtime_client.go:52-59 Get *)
Definition runtimeClientGet (runtime : Runtime) : prog (result unit) :=
  secret ← getKubeconfigSecret (mapGet (Labels (rtMeta runtime)) LabelKymaRuntimeID)
             (Namespace (rtMeta runtime));
  match secret with
  | Err e => mret (Err e)
  | Ok secret => GetRuntimeClientWithScheme secret
  end.

Definition RuntimeClientGetter : SM (result unit) :=
  i ← getInstance; lift (runtimeClientGet i).

End Combinators.

(** ** Reasoning about state functions *)

(** [swp R G m s h Q]: [wp] of [m] run in state [s], with the final state split
    off the outcome; [P] says what a panic needs. *)
Definition swp {A} (R : rely) (G : guar) (m : SM A) (s : systemState) (h : history)
    (Q : A -> systemState -> history -> Prop) (P : history -> Prop) : Prop :=
  wp R G (m s) h (fun o h' =>
    match o with Done (a, s') => Q a s' h' | Panicked => P h' end).

Section SLogic.
Context (R : rely) (G : guar).

Lemma swp_ret {A} (a : A) s h (Q : A -> systemState -> history -> Prop) P :
  Q a s h -> swp R G (mret a) s h Q P.
Proof. done. Qed.

Lemma swp_bind {A B} (m : SM A) (f : A -> SM B) s h (Q : B -> systemState -> history -> Prop) P :
  swp R G m s h (fun a s' h' => swp R G (f a) s' h' Q P) P ->
  swp R G (m ≫= f) s h Q P.
Proof. intros Hm. apply wp_seq. eapply wp_mono; [|exact Hm]. by intros [[a s']|] h'. Qed.

Lemma swp_mono {A} (m : SM A) s h (Q Q' : A -> systemState -> history -> Prop) (P P' : history -> Prop) :
  (forall a s' h', Q a s' h' -> Q' a s' h') -> (forall h', P h' -> P' h') ->
  swp R G m s h Q P -> swp R G m s h Q' P'.
Proof. intros HQ HP. apply wp_mono. intros [[a s']|] h'; [apply HQ|apply HP]. Qed.

Lemma swp_lift {A} (p : prog A) s h (Q : A -> systemState -> history -> Prop) P :
  wp R G p h (fun o h' => match o with Done a => Q a s h' | Panicked => P h' end) ->
  swp R G (lift p) s h Q P.
Proof. intros Hp. apply wp_seq. eapply wp_mono; [|exact Hp]. by intros [a|] h'. Qed.

Lemma swp_call c s h (Q : resp c -> systemState -> history -> Prop) P :
  G h c -> (forall r, R h (Ev c r) -> Q r s (Ev c r :: h)) -> swp R G (callS c) s h Q P.
Proof. intros HG HQ. apply swp_lift. split; [done|]. exact HQ. Qed.

Lemma swp_only {A} C (p : prog A) s h (Q : A -> systemState -> history -> Prop) P :
  only C p -> (forall h' c, C c -> G h' c) ->
  (forall a h', extends C h h' -> Q a s h') -> swp R G (lift p) s h Q P.
Proof. intros Hp HG HQ. apply swp_lift. by eapply wp_only. Qed.

Lemma swp_getInstance s h (Q : Runtime -> systemState -> history -> Prop) P :
  Q (instance s) s h -> swp R G getInstance s h Q P.
Proof. done. Qed.

Lemma swp_getState s h (Q : systemState -> systemState -> history -> Prop) P :
  Q s s h -> swp R G getState s h Q P.
Proof. done. Qed.

Lemma swp_modify f s h (Q : unit -> systemState -> history -> Prop) P :
  Q tt (f s) h -> swp R G (modifyS f) s h Q P.
Proof. done. Qed.

Lemma swp_getShoot s h sh (Q : Shoot -> systemState -> history -> Prop) P :
  sshoot s = Some sh -> Q sh s h -> swp R G getShoot s h Q P.
Proof. intros Hs HQ. unfold swp, getShoot. by rewrite Hs. Qed.

End SLogic.
