(* ===== verification/Bootstrapper.v ===== *)
(** * Runtime bootstrapper (internal/rtbootstrapper)

    The installer that the state machine drives through [InstallerOk]: it copies
    the configuration of the bootstrapper from the control plane to the runtime
    cluster, applies the manifests, and reports the state of the deployment. *)

From S2P Require Import Prelude Sscanf GoStrings Kube Gardener RuntimeApi Objects Effects.
From S2P Require Import Config AuditLog FsmState.

Local Open Scope string_scope.

(** What the YAML decoder makes of one document; [DecodedEOF] is io.EOF. *)
Inductive decoded := Decoded (u : Unstructured) | DecodedEOF | DecodeError (e : GoError).

(** k8s.io/apimachinery/pkg/util/yaml. *)
Class YamlLib := {
  decodeYAML : string -> decoded;
  unmarshalYAML : string -> option GoError        (* the error of yaml.Unmarshal *)
}.

(** ** Configuration *)

(*@ src/internal/rtbootstrapper/install.go:35-40 KCPConfig *)
Record KCPConfig := mkKCPConfig {
  kcpPullSecretName : string;
  kcpClusterTrustBundleName : string;
  kcpConfigName : string;
  kcpManifestsConfigMapName : string
}.

(*@ src/internal/rtbootstrapper/install.go:42-48 SKRConfig *)
Record SKRConfig := mkSKRConfig {
  skrNamespace : string;
  skrPullSecretName : string;
  skrClusterTrustBundleName : string;
  skrConfigName : string;
  skrDeploymentName : string
}.

(*@ src/internal/rtbootstrapper/install.go:30-33 Config *)
Record BootstrapperConfig := mkBootstrapperConfig { KCPCfg : KCPConfig; SKRCfg : SKRConfig }.

(** ** Clients *)

(*@ src/pkg/gardener/client.go:99-116 GetDynamicRuntimeClient *)
Definition GetDynamicRuntimeClient (secret : Secret) : prog (result unit) := callP (CBuildClient secret).

(*@ src/internal/controller/runtime/fsm/runtime_client.go:61-68 Get *)
Definition runtimeDynamicClientGet (runtime : Runtime) : prog (result unit) :=
  secret ← getKubeconfigSecret (mapGet (Labels (rtMeta runtime)) LabelKymaRuntimeID)
             (Namespace (rtMeta runtime));
  match secret with
  | Err e => mret (Err e)
  | Ok secret => GetDynamicRuntimeClient secret
  end.

(** ** The configurator *)

Section Configurator.
Context (c : BootstrapperConfig).

(*@ src/internal/rtbootstrapper/config.go:63-68 getResource *)
Definition getResource (k : kind) (name : string) : prog (result (objT k)) :=
  r ← callP (CGet Kcp k (mkNN "kcp-system" name));
  mret (mapErr (wrapError ("failed to get resource " +:+ name)) r).

(*@ src/internal/rtbootstrapper/config.go:70-76 getConfigMap *)
Definition getConfigMap : prog (result ConfigMap) := getResource KConfigMap (kcpConfigName (KCPCfg c)).

(*@ src/internal/rtbootstrapper/config.go:78-84 getPullSecret *)
Definition getPullSecret : prog (result Secret) := getResource KSecret (kcpPullSecretName (KCPCfg c)).

(*@ src/internal/rtbootstrapper/config.go:86-92 getClusterTrustBundle *)
Definition getClusterTrustBundle : prog (result ClusterTrustBundle) :=
  let name := kcpClusterTrustBundleName (KCPCfg c) in
  r ← callP (CGet Kcp KClusterTrustBundle (mkNN "" name));
  mret (mapErr (wrapError ("failed to get ClusterTrustBundle " +:+ name)) r).

(** reflect.DeepEqual of the data: a nil map is not an empty one.  A ConfigMap as
    an API server returns it has no empty map. *)
(*@ src/internal/rtbootstrapper/config.go:223-225 equalConfigMap *)
Definition equalConfigMap (a b : ConfigMap) : bool := bool_decide (cmData a = cmData b).
(*@ src/internal/rtbootstrapper/config.go:227-229 equalSecret *)
Definition equalSecret (a b : Secret) : bool := bool_decide (secretData a = secretData b).
(*@ src/internal/rtbootstrapper/config.go:231-233 equalClusterTrustBundle *)
Definition equalClusterTrustBundle (a b : ClusterTrustBundle) : bool :=
  String.eqb (ctbTrustBundle (ctbSpec a)) (ctbTrustBundle (ctbSpec b)).

(** The steps the three resources share: read what the runtime cluster has, and
    unless it is equal apply what it should have. *)
Definition applyUnlessEqual (k : kind) (key : NamespacedName) (equal : objT k -> bool) (desired : objT k)
    (checking applying : string) : prog (option GoError) :=
  existing ← callP (CGet Skr k key);
  match failsUnlessNotFound existing with
  | Some e => mret (Some (wrapError checking e))
  | None =>
      if (match existing with Ok o => equal o | Err _ => false end) then mret None
      else
        r ← callP (CPatch Skr k desired Apply);
        mret (wrapError applying <$> errOf r)
  end.

Definition desiredConfigMap (configMap : ConfigMap) : ConfigMap :=
  mkConfigMap (metaNamed (skrConfigName (SKRCfg c)) (skrNamespace (SKRCfg c))) (cmData configMap).

(*@ src/internal/rtbootstrapper/config.go:114-148 applyConfigMap *)
Definition applyConfigMap (configMap : ConfigMap) : prog (option GoError) :=
  applyUnlessEqual KConfigMap (mkNN (skrNamespace (SKRCfg c)) (skrConfigName (SKRCfg c)))
    (fun existing => equalConfigMap existing configMap) (desiredConfigMap configMap)
    "failed to check runtime ConfigMap" "failed to apply bootstrapper ConfigMap to runtime cluster".

Definition desiredSecret (secret : Secret) : Secret :=
  mkSecret (metaNamed (skrPullSecretName (SKRCfg c)) (skrNamespace (SKRCfg c))) (secretType secret) None
    (secretData secret) ∅.

(*@ src/internal/rtbootstrapper/config.go:150-185 applySecret *)
Definition applySecret (secret : Secret) : prog (option GoError) :=
  applyUnlessEqual KSecret (mkNN (skrNamespace (SKRCfg c)) (skrPullSecretName (SKRCfg c)))
    (fun existing => equalSecret existing secret) (desiredSecret secret)
    "failed to check runtime Secret" "failed to apply bootstrapper PullSecret to runtime cluster".

Definition desiredTrustBundle (b : ClusterTrustBundle) : ClusterTrustBundle :=
  mkTrustBundle (metaNamed (skrClusterTrustBundleName (SKRCfg c)) "") (ctbSpec b).

(*@ src/internal/rtbootstrapper/config.go:187-220 applyClusterTrustBundle *)
Definition applyClusterTrustBundle (b : ClusterTrustBundle) : prog (option GoError) :=
  applyUnlessEqual KClusterTrustBundle (mkNN "" (skrClusterTrustBundleName (SKRCfg c)))
    (fun existing => equalClusterTrustBundle existing b) (desiredTrustBundle b)
    "failed to check runtime ClusterTrustBundle" "failed to apply ClusterTrustBundle to runtime cluster".

(** [if x != nil { if err := f(x); err != nil { return err } }] *)
Definition unlessNil {A} (x : option A) (f : A -> prog (option GoError)) : prog (option GoError) :=
  match x with Some a => f a | None => Ret None end.

Definition thenUnlessErr (p q : prog (option GoError)) : prog (option GoError) :=
  e ← p; match e with Some err => Ret (Some err) | None => q end.

(*@ src/internal/rtbootstrapper/config.go:94-112 applyResourcesToRuntimeCluster *)
Definition applyResourcesToRuntimeCluster (secret : option Secret) (configMap : ConfigMap)
    (clusterTrustBundle : option ClusterTrustBundle) : prog (option GoError) :=
  thenUnlessErr (applyConfigMap configMap)
    (thenUnlessErr (unlessNil secret applySecret)
       (unlessNil clusterTrustBundle applyClusterTrustBundle)).

(** [if name != "" { x, err = get(ctx); ... }] *)
Definition optionally {A} (name : string) (get : prog (result A)) : prog (result (option A)) :=
  if negb (String.eqb name "") then get ≫= (fun r : result A => Ret (Some <$> r)) else Ret (Ok None).

(*@ src/internal/rtbootstrapper/config.go:33-61 Configure *)
Definition ConfiguratorConfigure (runtime : Runtime) : prog (option GoError) :=
  configMap ← getConfigMap;
  match configMap with
  | Err e => mret (Some (wrapError "failed to prepare bootstrapper ConfigMap" e))
  | Ok configMap =>
      pullSecret ← optionally (kcpPullSecretName (KCPCfg c)) getPullSecret;
      match pullSecret with
      | Err e => mret (Some (wrapError "failed to prepare bootstrapper PullSecret" e))
      | Ok pullSecret =>
          clusterTrustBundle ← optionally (kcpClusterTrustBundleName (KCPCfg c)) getClusterTrustBundle;
          match clusterTrustBundle with
          | Err e => mret (Some (wrapError "failed to prepare ClusterTrustBundle" e))
          | Ok clusterTrustBundle =>
              runtimeClient ← runtimeClientGet runtime;
              match runtimeClient with
              | Err e => mret (Some (wrapError "failed to get runtimeClient" e))
              | Ok _ => applyResourcesToRuntimeCluster pullSecret configMap clusterTrustBundle
              end
          end
      end
  end.

End Configurator.

(** ** The manifests *)

(** The documents of a manifest file that are not blank. *)
Definition manifestDocs (manifests : string) : list string :=
  List.filter (fun doc => negb (String.eqb doc "")) (TrimSpace <$> Split manifests "---").

Section Manifests.
Context `{YamlLib} `{Codec Unstructured}.

Definition gvkString (g : GroupVersionKind) : string :=
  gvkGroup g +:+ "/" +:+ gvkVersion g +:+ ", Kind=" +:+ gvkKind g.

Definition u_with_namespace (u : Unstructured) (ns : string) : Unstructured :=
  let m := uMeta u in
  mkUnstructured (uGVK u)
    (mkMeta (Name m) (GenerateName m) ns (UID m) (ResourceVersion m) (Generation m)
       (DeletionTimestamp m) (Labels m) (Annotations m) (Finalizers m) (ManagedFields m)) (uContent u).
Definition u_with_resourceVersion (u : Unstructured) (v : string) : Unstructured :=
  let m := uMeta u in
  mkUnstructured (uGVK u)
    (mkMeta (Name m) (GenerateName m) (Namespace m) (UID m) v (Generation m)
       (DeletionTimestamp m) (Labels m) (Annotations m) (Finalizers m) (ManagedFields m)) (uContent u).

(** The namespace the object is sent to, which is also written into it. *)
Definition targetNamespace (mapping : RESTMapping) (obj : Unstructured) (defaultNamespace : string) : string :=
  let ns := Namespace (uMeta obj) in
  if rmNamespaced mapping then (if String.eqb ns "" then defaultNamespace else ns) else "".

(*@ src/internal/rtbootstrapper/manifestapplier.go:77-141 applyObject *)
Definition applyObject (mapper : RESTMapper) (obj : Unstructured) (defaultNamespace : string) :
    prog (option GoError) :=
  let gvk := uGVK obj in
  match mapper gvk with
  | Err e => mret (Some (wrapError ("finding REST mapping for " +:+ gvkString gvk) e))
  | Ok mapping =>
      let ns := targetNamespace mapping obj defaultNamespace in
      let obj := u_with_namespace obj ns in
      let name := Name (uMeta obj) in
      if String.eqb name ""
      then mret (Some (newError ("object " +:+ gvkString gvk +:+ " is missing metadata.name")))
      else
        let k := KDynamic (rmResource mapping) in
        current ← callP (CGet Skr k (mkNN ns name));
        match current with
        | Err e =>
            if IsNotFound e then r ← callP (CCreate Skr k obj); mret (errOf r)
            else mret (Some (wrapError ("getting existing " +:+ gvkKind gvk +:+ " " +:+ ns +:+ "/" +:+ name) e))
        | Ok current =>
            let obj := u_with_resourceVersion obj (ResourceVersion (uMeta current)) in
            match marshal obj with
            | Err e => mret (Some (wrapError "marshaling object to JSON" e))
            | Ok _ => r ← callP (CPatch Skr k obj Apply); mret (errOf r)
            end
        end
  end.

(** One document of the loop. *)
(*@ src/internal/rtbootstrapper/manifestapplier.go:62-72 ApplyManifests *)
Definition applyDoc (mapper : RESTMapper) (doc : string) : prog (option GoError) :=
  match decodeYAML doc with
  | DecodeError e => mret (Some (wrapError "decoding YAML" e))
  | DecodedEOF => mret None
  | Decoded u => if String.eqb (gvkKind (uGVK u)) "" then mret None else applyObject mapper u "default"
  end.

(*@ src/internal/rtbootstrapper/manifestapplier.go:42-75 ApplyManifests *)
Definition ApplyManifests (runtime : Runtime) (manifests : string) : prog (option GoError) :=
  client ← runtimeDynamicClientGet runtime;
  match client with
  | Err e => mret (Some (wrapError "getting dynamic client" e))
  | Ok _ =>
      gr ← callP (CDiscover Skr);
      match gr with
      | Err e => mret (Some (wrapError "getting API group resources" e))
      | Ok mapper => forEach (manifestDocs manifests) (applyDoc mapper)
      end
  end.

(** ** The state of the installation *)

(*@ src/internal/rtbootstrapper/manifestapplier.go:197-214 isDeploymentReady *)
Definition isDeploymentReady (dep : Deployment) : prog bool :=
  replicas ← deref (depReplicas dep);
  mret
    (if (depReadyReplicas dep <? replicas)%Z then false
     else existsb (fun cond => String.eqb (dcType cond) "Available" && String.eqb (dcStatus cond) "True")
            (depConditions dep)).

(*@ src/internal/rtbootstrapper/manifestapplier.go:254-267 isDeploymentProgressing *)
Definition isDeploymentProgressing (dep : Deployment) : bool :=
  existsb (fun cond => String.eqb (dcType cond) "Progressing" && String.eqb (dcStatus cond) "True")
    (depConditions dep).

(** The loop over the documents: the first Deployment, or nil. *)
Fixpoint firstDeployment (docs : list string) : result (option Unstructured) :=
  match docs with
  | [] => Ok None
  | doc :: docs =>
      match decodeYAML doc with
      | DecodeError e => Err (wrapError "decoding YAML" e)
      | DecodedEOF => firstDeployment docs
      | Decoded u => if String.eqb (gvkKind (uGVK u)) "Deployment" then Ok (Some u) else firstDeployment docs
      end
  end.

(*@ src/internal/rtbootstrapper/manifestapplier.go:229-252 getDeploymentToBeApplied *)
Definition getDeploymentToBeApplied (manifests : string) : result (option Unstructured) :=
  firstDeployment (manifestDocs manifests).

Definition versionLabel : string := "app.kubernetes.io/version".

(*@ src/internal/rtbootstrapper/manifestapplier.go:216-227 isDeploymentToBeUpdated *)
Definition isDeploymentToBeUpdated (dep : Deployment) (manifests : string) : prog (result bool) :=
  match getDeploymentToBeApplied manifests with
  | Err e => mret (Err (wrapError "getting deployment to be applied" e))
  | Ok deploymentToBeApplied =>
      u ← deref deploymentToBeApplied;
      mret (Ok (negb (String.eqb (mapGet (Labels (uMeta u)) versionLabel)
                                 (mapGet (Labels (depMeta dep)) versionLabel))))
  end.

(*@ src/internal/rtbootstrapper/manifestapplier.go:185-195 getManifests *)
Definition getManifests (manifestsConfigMapName : string) : prog (result string) :=
  r ← callP (CGet Kcp KConfigMap (mkNN "kcp-system" manifestsConfigMapName));
  mret
    (match r with
     | Err e => Err (wrapError "getting ConfigMap with manifests" e)
     | Ok cm => Ok (mapGet (cmData cm) "manifests.yaml")
     end).

(*@ src/internal/rtbootstrapper/manifestapplier.go:143-183 InstallationInfo *)
Definition InstallationInfo (manifestsConfigMapName : string) (deploymentName : NamespacedName)
    (runtime : Runtime) : prog (result (InstallationStatus * string)) :=
  manifestsToInstall ← getManifests manifestsConfigMapName;
  match manifestsToInstall with
  | Err e => mret (Err (wrapError "getting manifests" e))
  | Ok manifestsToInstall =>
      runtimeClient ← runtimeClientGet runtime;
      match runtimeClient with
      | Err e => mret (Err (wrapError "getting runtime client" e))
      | Ok _ =>
          deployment ← callP (CGet Skr KDeployment deploymentName);
          match deployment with
          | Err e =>
              if IsNotFound e then mret (Ok (StatusNotStarted, manifestsToInstall))
              else mret (Err (wrapError "getting deployment" e))
          | Ok deployment =>
              ready ← isDeploymentReady deployment;
              if (ready : bool) then
                upgradeNeeded ← isDeploymentToBeUpdated deployment manifestsToInstall;
                mret
                  (match upgradeNeeded with
                   | Err e => Err (wrapError "checking if deployment needs update" e)
                   | Ok true => Ok (StatusUpgradeNeeded, manifestsToInstall)
                   | Ok false => Ok (StatusReady, manifestsToInstall)
                   end)
              else if isDeploymentProgressing deployment
              then mret (Ok (StatusInProgress, manifestsToInstall))
              else mret (Ok (StatusFailed, ""))
          end
      end
  end.

(** ** The installer *)

(*@ src/internal/rtbootstrapper/install.go:62-95 NewInstaller *)
Definition NewInstaller (config : BootstrapperConfig) : RuntimeBootstrapperInstaller :=
  let deploymentName := mkNN (skrNamespace (SKRCfg config)) (skrDeploymentName (SKRCfg config)) in
  mkInstaller (ConfiguratorConfigure config) ApplyManifests
    (InstallationInfo (kcpManifestsConfigMapName (KCPCfg config)) deploymentName)
    (fun _ => mret None).

(** ** The validation at start-up *)

(*@ src/internal/rtbootstrapper/validate.go:47-53 verifyDeploymentName *)
Definition verifyDeploymentName (deploymentName : string) : option GoError :=
  if String.eqb deploymentName "" then Some (newError "deployment name cannot be empty") else None.

(*@ src/internal/rtbootstrapper/validate.go:55-66 verifyConfigMap *)
Definition verifyConfigMap (configMapName : string) : prog (option GoError) :=
  if String.eqb configMapName "" then mret (Some (newError "config name is required"))
  else
    r ← getResource KConfigMap configMapName;
    mret
      (match r with
       | Err _ => Some (newError "unable to find Runtime Bootstrapper ConfigMap in KCP cluster")
       | Ok _ => None
       end).

(*@ src/internal/rtbootstrapper/validate.go:68-78 verifyClusterTrustBundle *)
Definition verifyClusterTrustBundle (clusterTrustBundleName : string) : prog (option GoError) :=
  if negb (String.eqb clusterTrustBundleName "") then
    r ← callP (CGet Kcp KClusterTrustBundle (mkNN "" clusterTrustBundleName));
    mret (match r with Err _ => Some (newError "unable to find Cluster Trust Bundle") | Ok _ => None end)
  else mret None.

(*@ src/internal/rtbootstrapper/validate.go:80-93 verifyPullSecret *)
Definition verifyPullSecret (pullSecretName : string) : prog (option GoError) :=
  if negb (String.eqb pullSecretName "") then
    r ← getResource KSecret pullSecretName;
    mret
      (match r with
       | Err _ => Some (newError "unable to find Runtime Bootstrapper pull secret in KCP cluster")
       | Ok secret =>
           if negb (String.eqb (secretType secret) "kubernetes.io/dockerconfigjson")
           then Some (newError "pull secret has invalid type, expected kubernetes.io/dockerconfigjson")
           else None
       end)
  else mret None.

Fixpoint firstYamlError (docs : list string) : option GoError :=
  match docs with
  | [] => None
  | doc :: docs =>
      match unmarshalYAML doc with
      | Some e => Some (wrapError "invalid YAML manifests file" e)
      | None => firstYamlError docs
      end
  end.

(*@ src/internal/rtbootstrapper/validate.go:108-123 verifyManifests *)
Definition verifyManifests (manifests : string) : option GoError := firstYamlError (manifestDocs manifests).

(*@ src/internal/rtbootstrapper/validate.go:95-106 verifyManifestsConfigMap *)
Definition verifyManifestsConfigMap (configMapName : string) : prog (option GoError) :=
  if String.eqb configMapName "" then mret (Some (newError "manifests config map name is required"))
  else
    r ← getResource KConfigMap configMapName;
    mret
      (match r with
       | Err _ => Some (newError "unable to find Manifests ConfigMap in KCP cluster")
       | Ok configMap => verifyManifests (mapGet (cmData configMap) "manifests.yaml")
       end).

(*@ src/internal/rtbootstrapper/validate.go:27-45 Validate *)
Definition Validate (config : BootstrapperConfig) : prog (option GoError) :=
  let kcp := KCPCfg config in
  thenUnlessErr (verifyManifestsConfigMap (kcpManifestsConfigMapName kcp))
    (thenUnlessErr (mret (verifyDeploymentName (skrDeploymentName (SKRCfg config))))
      (thenUnlessErr (verifyConfigMap (kcpConfigName kcp))
        (thenUnlessErr (verifyPullSecret (kcpPullSecretName kcp))
          (verifyClusterTrustBundle (kcpClusterTrustBundleName kcp))))).

End Manifests.

(** ** Lemmas *)

Ltac prog_norm := cbn [mbind prog_bind prog_bind_def mret prog_ret callP deref wp].

(** Sequencing of steps that end in an error or go on. *)
Lemma wp_thenUnlessErr R G p q h (Q : outcome (option GoError) -> history -> Prop) :
  wp R G p h (fun o h' =>
    match o with
    | Done None => wp R G q h' Q
    | Done (Some e) => Q (Done (Some e)) h'
    | Panicked => Q Panicked h'
    end) -> wp R G (thenUnlessErr p q) h Q.
Proof. intros Hp. apply wp_seq. eapply wp_mono; [|exact Hp]. by intros [[e|]|] h' Hq. Qed.

(** The runtime cluster was found to have [same], or [sent] was applied to it. *)
Definition inSync (k : kind) (key : NamespacedName) (same sent : objT k -> Prop) (h : history) : Prop :=
  (exists o, Ev (CGet Skr k key) (Ok o) ∈ h /\ same o) \/
  (exists o stored, sent o /\ Ev (CPatch Skr k o Apply) (Ok stored) ∈ h).

(** It was found to have none, or another one. *)
Definition outOfSync (k : kind) (key : NamespacedName) (same : objT k -> Prop) (h : history) : Prop :=
  exists r, Ev (CGet Skr k key) r ∈ h /\ match r with Ok o => ~ same o | Err e => IsNotFound e = true end.

Lemma inSync_suffix k key same sent h h' : suffix h h' -> inSync k key same sent h -> inSync k key same sent h'.
Proof.
  intros Hs [(o & Ho & He)|(o & st & Hsent & Hst)]; [left; exists o|right; exists o, st]; split; try done; by eapply suffix_elem.
Qed.

Section Bootstrapper.
Context `{YamlLib} `{Codec Unstructured}.
Context (config : BootstrapperConfig).

Lemma wp_applyUnlessEqual (G : guar) k key equal desired checking applying (same sent : objT k -> Prop) h
    (Q : outcome (option GoError) -> history -> Prop) :
  (forall o, equal o = true <-> same o) -> sent desired -> G h (CGet Skr k key) ->
  (forall h', suffix h h' -> outOfSync k key same h' -> G h' (CPatch Skr k desired Apply)) ->
  (forall r h', suffix h h' -> (r = None -> inSync k key same sent h') -> Q (Done r) h') ->
  wp anyEnv G (applyUnlessEqual k key equal desired checking applying) h Q.
Proof.
  intros Heq Hsent HG1 HG2 HQ. unfold applyUnlessEqual. prog_norm. split; [done|]. intros r _.
  set (h1 := Ev (CGet Skr k key) r :: h). assert (suffix h h1) as Hs1 by apply suffix_cons_r, (reflexivity (R:=suffix) h).
  assert (outOfSync k key same h1 -> wp anyEnv G
    (r ← callP (CPatch Skr k desired Apply); mret (wrapError applying <$> errOf r)) h1 Q) as Hpatch.
  { intros Hout. prog_norm. split; [by apply HG2|]. intros [st|e] _; prog_norm; (apply HQ; [by apply suffix_cons_r|]); [|done].
    intros _. right. exists desired, st. split; [done|by left]. }
  destruct r as [o|e]; cbn [failsUnlessNotFound].
  - destruct (equal o) eqn:He.
    + apply HQ; [done|]. intros _. left. exists o. split; [by left|by apply Heq].
    + apply Hpatch. exists (Ok o). split; [by left|]. rewrite <- Heq. congruence.
  - destruct (IsNotFound e) eqn:He; [|by apply HQ].
    apply Hpatch. exists (Err e). split; [by left|done].
Qed.

(** ** Configuration *)

Abbreviation kcp := (KCPCfg config).
Abbreviation skr := (SKRCfg config).

(** What the control plane was read to hold. *)
Definition readConfigMap (h : history) (cm : ConfigMap) : Prop :=
  Ev (CGet Kcp KConfigMap (mkNN "kcp-system" (kcpConfigName kcp))) (Ok cm) ∈ h.
Definition readPullSecret (h : history) (s : Secret) : Prop :=
  Ev (CGet Kcp KSecret (mkNN "kcp-system" (kcpPullSecretName kcp))) (Ok s) ∈ h.
Definition readTrustBundle (h : history) (b : ClusterTrustBundle) : Prop :=
  Ev (CGet Kcp KClusterTrustBundle (mkNN "" (kcpClusterTrustBundleName kcp))) (Ok b) ∈ h.

(** What the runtime cluster must have: the data of the config map, the data of the
    secret, the text of the trust bundle.  The type of the secret and the signer of
    the bundle are not compared. *)
Definition sameConfigMap (cm o : ConfigMap) : Prop := cmData o = cmData cm.
Definition samePullSecret (s o : Secret) : Prop := secretData o = secretData s.
Definition sameTrustBundle (b o : ClusterTrustBundle) : Prop := ctbTrustBundle (ctbSpec o) = ctbTrustBundle (ctbSpec b).

(** What is sent to it, under the configured names. *)
Definition sentConfigMap (cm o : ConfigMap) : Prop :=
  o = mkConfigMap (metaNamed (skrConfigName skr) (skrNamespace skr)) (cmData cm).
Definition sentPullSecret (s o : Secret) : Prop :=
  o = mkSecret (metaNamed (skrPullSecretName skr) (skrNamespace skr)) (secretType s) None (secretData s) ∅.
Definition sentTrustBundle (b o : ClusterTrustBundle) : Prop :=
  o = mkTrustBundle (metaNamed (skrClusterTrustBundleName skr) "")
        (mkTrustBundleSpec (ctbSignerName (ctbSpec b)) (ctbTrustBundle (ctbSpec b))).

Definition configMapKey : NamespacedName := mkNN (skrNamespace skr) (skrConfigName skr).
Definition pullSecretKey : NamespacedName := mkNN (skrNamespace skr) (skrPullSecretName skr).
Definition trustBundleKey : NamespacedName := mkNN "" (skrClusterTrustBundleName skr).

(** A client of the runtime cluster has been built. *)
Definition connected (h : history) : Prop := exists secret, Ev (CBuildClient secret) (Ok tt) ∈ h.

(** The calls of the configurator for the Runtime [rt]: the client is built from the
    kubeconfig secret of [rt]; what was read is sent if the cluster lacks it. *)
Definition configuratorCall (rt : Runtime) : guar := fun h c =>
  match c with
  | CGet Kcp _ _ => True
  | CBuildClient secret =>
      Ev (CGet Kcp KSecret (mkNN (Namespace (rtMeta rt)) ("kubeconfig-" +:+ mapGet (Labels (rtMeta rt)) LabelKymaRuntimeID)))
        (Ok secret) ∈ h
  | CGet Skr _ _ => connected h
  | CPatch Skr KConfigMap o Apply =>
      exists cm, readConfigMap h cm /\ outOfSync KConfigMap configMapKey (sameConfigMap cm) h /\ sentConfigMap cm o
  | CPatch Skr KSecret o Apply =>
      exists s, readPullSecret h s /\ outOfSync KSecret pullSecretKey (samePullSecret s) h /\ sentPullSecret s o
  | CPatch Skr KClusterTrustBundle o Apply =>
      exists b, readTrustBundle h b /\ outOfSync KClusterTrustBundle trustBundleKey (sameTrustBundle b) h /\ sentTrustBundle b o
  | _ => False
  end.

Definition configMapInSync (h : history) : Prop := exists cm, readConfigMap h cm /\
  inSync KConfigMap configMapKey (sameConfigMap cm) (sentConfigMap cm) h.
Definition pullSecretInSync (h : history) : Prop := exists s, readPullSecret h s /\
  inSync KSecret pullSecretKey (samePullSecret s) (sentPullSecret s) h.
Definition trustBundleInSync (h : history) : Prop := exists b, readTrustBundle h b /\
  inSync KClusterTrustBundle trustBundleKey (sameTrustBundle b) (sentTrustBundle b) h.

Lemma wp_optionally {A} (G : guar) name (get : prog (result A)) h (Q : outcome (result (option A)) -> history -> Prop) :
  (name = "" -> Q (Done (Ok None)) h) ->
  (name <> "" -> wp anyEnv G get h (fun o h' =>
     match o with Done r => Q (Done (Some <$> r)) h' | Panicked => Q Panicked h' end)) ->
  wp anyEnv G (optionally name get) h Q.
Proof.
  intros Hempty Hget. unfold optionally. destruct (String.eqb_spec name "") as [E|E]; cbn [negb]; [by apply Hempty|].
  apply (wp_seq anyEnv G get). eapply wp_mono; [|by apply Hget]. by intros [r|] h' Hq.
Qed.

Section Configure.
Context (rt : Runtime).

(** A read of the control plane. *)
Lemma wp_read {B} (k : kind) key (f : result (objT k) -> B) h (Q : outcome B -> history -> Prop) :
  (forall r, Q (Done (f r)) (Ev (CGet Kcp k key) r :: h)) ->
  wp anyEnv (configuratorCall rt) (r ← callP (CGet Kcp k key); Ret (f r)) h Q.
Proof. intros HQ. prog_norm. split; [exact I|]. intros r _. apply HQ. Qed.

Lemma wp_client h (Q : outcome (result unit) -> history -> Prop) :
  (forall r h', suffix h h' -> (r = Ok tt -> connected h') -> Q (Done r) h') ->
  wp anyEnv (configuratorCall rt) (runtimeClientGet rt) h Q.
Proof.
  intros HQ. unfold runtimeClientGet, getKubeconfigSecret, GetRuntimeClientWithScheme. prog_norm.
  split; [exact I|]. intros r _. destruct r as [s|e]; prog_norm; [|by apply HQ; [apply suffix_cons_r|]].
  destruct (secretData s) eqn:E; prog_norm; [|by apply HQ; [apply suffix_cons_r|]]. rewrite E.
  prog_norm. split; [by left|]. intros r _. apply HQ; [by do 2 apply suffix_cons_r|]. intros ->. exists s. by left.
Qed.

Lemma connected_suffix h h' : suffix h h' -> connected h -> connected h'.
Proof. intros Hs [s Hc]. exists s. by eapply suffix_elem. Qed.

(** Of a step: the outcome, and the history it leaves. *)
Definition stepOf (h : history) (Q : option GoError -> history -> Prop) :
    outcome (option GoError) -> history -> Prop :=
  fun o h' => exists r, o = Done r /\ suffix h h' /\ Q r h'.

Lemma applyConfigMap_ok cm h : connected h -> readConfigMap h cm ->
  wp anyEnv (configuratorCall rt) (applyConfigMap config cm) h (stepOf h (fun r h' => r = None -> configMapInSync h')).
Proof.
  intros Hc Hr. apply (wp_applyUnlessEqual _ KConfigMap _ _ _ _ _ (sameConfigMap cm) (sentConfigMap cm)).
  - intros o. apply bool_decide_eq_true.
  - done.
  - done.
  - intros h' Hs Hout. exists cm. split_and!; [by eapply suffix_elem|done..].
  - intros r h' Hs Hi. exists r. split_and!; [done..|]. intros E. exists cm. split; [by eapply suffix_elem|auto].
Qed.

Lemma applySecret_ok sec h : connected h -> readPullSecret h sec ->
  wp anyEnv (configuratorCall rt) (applySecret config sec) h (stepOf h (fun r h' => r = None -> pullSecretInSync h')).
Proof.
  intros Hc Hr. apply (wp_applyUnlessEqual _ KSecret _ _ _ _ _ (samePullSecret sec) (sentPullSecret sec)).
  - intros o. apply bool_decide_eq_true.
  - done.
  - done.
  - intros h' Hs Hout. exists sec. split_and!; [by eapply suffix_elem|done..].
  - intros r h' Hs Hi. exists r. split_and!; [done..|]. intros E. exists sec. split; [by eapply suffix_elem|auto].
Qed.

Lemma applyBundle_ok b h : connected h -> readTrustBundle h b ->
  wp anyEnv (configuratorCall rt) (applyClusterTrustBundle config b) h
    (stepOf h (fun r h' => r = None -> trustBundleInSync h')).
Proof.
  intros Hc Hr. apply (wp_applyUnlessEqual _ KClusterTrustBundle _ _ _ _ _ (sameTrustBundle b) (sentTrustBundle b)).
  - intros o. apply String.eqb_eq.
  - by destruct b as [? []].
  - done.
  - intros h' Hs Hout. exists b. split_and!; [by eapply suffix_elem|done|]. by destruct b as [? []].
  - intros r h' Hs Hi. exists r. split_and!; [done..|]. intros E. exists b. split; [by eapply suffix_elem|auto].
Qed.

Lemma configMapInSync_suffix h h' : suffix h h' -> configMapInSync h -> configMapInSync h'.
Proof. intros Hs (cm & ? & ?). exists cm. split; [by eapply suffix_elem|by eapply inSync_suffix]. Qed.

Lemma pullSecretInSync_suffix h h' : suffix h h' -> pullSecretInSync h -> pullSecretInSync h'.
Proof. intros Hs (cm & ? & ?). exists cm. split; [by eapply suffix_elem|by eapply inSync_suffix]. Qed.

(** A step that is skipped when there is nothing to apply. *)
Lemma wp_unlessNil {A} (x : option A) f (In : history -> Prop) h :
  (forall a, x = Some a -> wp anyEnv (configuratorCall rt) (f a) h (stepOf h (fun r h' => r = None -> In h'))) ->
  wp anyEnv (configuratorCall rt) (unlessNil x f) h (stepOf h (fun r h' => r = None -> is_Some x -> In h')).
Proof.
  intros Hf. destruct x as [a|]; cbn [unlessNil]; [|by exists None; split_and!; [..|intros _ []]].
  eapply wp_mono; [|by apply Hf]. intros o h' (r & -> & ? & Hi). exists r. split_and!; [done..|].
  intros E _. by apply Hi.
Qed.

Lemma apply_resources_ok secret cm bundle h :
  connected h -> readConfigMap h cm ->
  (forall s, secret = Some s -> readPullSecret h s) -> (forall b, bundle = Some b -> readTrustBundle h b) ->
  wp anyEnv (configuratorCall rt) (applyResourcesToRuntimeCluster config secret cm bundle) h
    (returns (fun r h' => r = None ->
       configMapInSync h' /\ (is_Some secret -> pullSecretInSync h') /\ (is_Some bundle -> trustBundleInSync h'))).
Proof.
  intros Hc Hcm Hsec Hb. unfold applyResourcesToRuntimeCluster.
  apply wp_thenUnlessErr. eapply wp_mono; [|by apply applyConfigMap_ok].
  intros o h1 ([e|] & -> & Hs1 & H1); [done|].
  apply wp_thenUnlessErr. eapply wp_mono; [|apply (wp_unlessNil _ _ pullSecretInSync)].
  2: { intros s E. apply applySecret_ok; [by eapply connected_suffix|]. eapply suffix_elem; [done|by apply Hsec]. }
  intros o h2 ([e|] & -> & Hs2 & H2); [done|].
  eapply wp_mono; [|apply (wp_unlessNil _ _ trustBundleInSync)].
  2: { intros b E. assert (suffix h h2) by (by etransitivity). apply applyBundle_ok; [by eapply connected_suffix|].
    eapply suffix_elem; [done|by apply Hb]. }
  intros o h3 (r & -> & Hs3 & H3) ->. split_and!; [|intros Hi|by apply H3].
  - eapply configMapInSync_suffix, H1; [|done]. by etransitivity.
  - by eapply pullSecretInSync_suffix, H2.
Qed.

(** What a successful configuration leaves. *)
Definition configured (r : option GoError) (h : history) : Prop :=
  r = None ->
  configMapInSync h /\ (kcpPullSecretName kcp <> "" -> pullSecretInSync h) /\
  (kcpClusterTrustBundleName kcp <> "" -> trustBundleInSync h).

Definition applyWithClient (cm : ConfigMap) (sec : option Secret) (b : option ClusterTrustBundle) :
    prog (option GoError) :=
  client ← runtimeClientGet rt;
  match client with
  | Err e => mret (Some (wrapError "failed to get runtimeClient" e))
  | Ok _ => applyResourcesToRuntimeCluster config sec cm b
  end.

Lemma applyWithClient_ok cm sec b h :
  readConfigMap h cm ->
  (forall s, sec = Some s -> readPullSecret h s) -> (forall x, b = Some x -> readTrustBundle h x) ->
  (kcpPullSecretName kcp <> "" -> is_Some sec) -> (kcpClusterTrustBundleName kcp <> "" -> is_Some b) ->
  wp anyEnv (configuratorCall rt) (applyWithClient cm sec b) h (returns configured).
Proof.
  intros Hcm Hsec Hb Hws Hwb. apply wp_seq, wp_client. intros [[]|e] h' Hs Hc; [|done].
  eapply wp_mono; [|apply apply_resources_ok].
  - intros [r|] h'' Hr; [|done]. intros E. destruct (Hr E) as (? & Hp & Ht). split_and!; auto.
  - by apply Hc.
  - by eapply suffix_elem.
  - intros s E. eapply suffix_elem; [done|by apply Hsec].
  - intros x E. eapply suffix_elem; [done|by apply Hb].
Qed.

Lemma bundleThenApply_ok cm sec h :
  readConfigMap h cm -> (forall s, sec = Some s -> readPullSecret h s) ->
  (kcpPullSecretName kcp <> "" -> is_Some sec) ->
  wp anyEnv (configuratorCall rt)
    (clusterTrustBundle ← optionally (kcpClusterTrustBundleName kcp) (getClusterTrustBundle config);
     match clusterTrustBundle with
     | Err e => mret (Some (wrapError "failed to prepare ClusterTrustBundle" e))
     | Ok b => applyWithClient cm sec b
     end) h (returns configured).
Proof.
  intros Hcm Hsec Hws. apply wp_seq, wp_optionally; [by intros E; apply applyWithClient_ok|].
  intros E. unfold getClusterTrustBundle. apply wp_read.
  intros [b|e]; cbn [mapErr fmap result_fmap]; [|done]. apply applyWithClient_ok; [|..|done|by eauto].
  - by right.
  - intros s Es. right. by apply Hsec.
  - intros x [= <-]. by left.
Qed.

Lemma configure_correct :
  wp anyEnv (configuratorCall rt) (Configure (NewInstaller config) rt) [] (returns configured).
Proof.
  cbn [Configure NewInstaller]. unfold ConfiguratorConfigure.
  apply wp_seq. unfold getConfigMap, getResource. apply wp_read. intros [cm|e]; cbn [mapErr]; [|done].
  apply wp_seq, wp_optionally; [by intros E; apply bundleThenApply_ok; [left|..]|].
  intros E. unfold getPullSecret, getResource. apply wp_read.
  intros [s|e]; cbn [mapErr fmap result_fmap]; [|done]. apply bundleThenApply_ok; [|..|by eauto].
  - right. by left.
  - intros x [= <-]. by left.
Qed.

End Configure.

(** ** Manifests *)

(** The object as it is sent to the runtime cluster. *)
Definition sentObject (mapping : RESTMapping) (u : Unstructured) : Unstructured :=
  u_with_namespace u (targetNamespace mapping u "default").
Definition objKey (o : Unstructured) : NamespacedName := mkNN (Namespace (uMeta o)) (Name (uMeta o)).

Definition inCluster (mapper : RESTMapper) (u : Unstructured) (h : history) : Prop :=
  exists mapping, mapper (uGVK u) = Ok mapping /\
    let k := KDynamic (rmResource mapping) in let obj := sentObject mapping u in
    (exists stored, Ev (CCreate Skr k obj) (Ok stored) ∈ h) \/
    (exists current stored, Ev (CGet Skr k (objKey obj)) (Ok current) ∈ h /\
       Ev (CPatch Skr k (u_with_resourceVersion obj (ResourceVersion (uMeta current))) Apply) (Ok stored) ∈ h).

Definition docApplied (mapper : RESTMapper) (doc : string) (h : history) : Prop :=
  forall u, decodeYAML doc = Decoded u -> gvkKind (uGVK u) <> "" -> inCluster mapper u h.

Lemma docApplied_suffix mapper doc h h' : suffix h h' -> docApplied mapper doc h -> docApplied mapper doc h'.
Proof.
  intros Hs Hd u Hu Hk. destruct (Hd u Hu Hk) as (mp & Hm & [(st & ?)|(cur & st & ? & ?)]);
    exists mp; (split; [done|]); [left; exists st|right; exists cur, st; split]; by eapply suffix_elem.
Qed.

(** The writes an installation may make: objects of the manifests, created only
    when they were not found, patched with the resource version read. *)
Definition manifestCall (manifests : string) : guar := fun h c =>
  match c with
  | CGet _ _ _ | CBuildClient _ | CDiscover _ => True
  | CCreate Skr (KDynamic gvr) o =>
      exists e, IsNotFound e = true /\ Ev (CGet Skr (KDynamic gvr) (objKey o)) (Err e) ∈ h
  | CPatch Skr (KDynamic gvr) o Apply =>
      exists current, Ev (CGet Skr (KDynamic gvr) (objKey o)) (Ok current) ∈ h /\
        ResourceVersion (uMeta o) = ResourceVersion (uMeta current)
  | _ => False
  end /\
  match c with
  | CCreate Skr (KDynamic gvr) o | CPatch Skr (KDynamic gvr) o _ =>
      exists doc u, doc ∈ manifestDocs manifests /\ decodeYAML doc = Decoded u /\
        uGVK o = uGVK u /\ uContent o = uContent u /\ Name (uMeta o) = Name (uMeta u)
  | _ => True
  end.

Lemma applyDoc_ok manifests mapper doc h :
  doc ∈ manifestDocs manifests ->
  wp anyEnv (manifestCall manifests) (applyDoc mapper doc) h
    (stepOf h (fun r h' => r = None -> docApplied mapper doc h')).
Proof.
  intros Hdoc. unfold applyDoc.
  destruct (decodeYAML doc) as [u| |e] eqn:Hu;
    [|by exists None; split_and!; [..|intros _ u; rewrite Hu]|by exists (Some (wrapError "decoding YAML" e))].
  destruct (String.eqb_spec (gvkKind (uGVK u)) "") as [Ek|Ek];
    [by exists None; split_and!; [..|intros _ u'; rewrite Hu; intros [= <-]]|].
  assert (forall h', inCluster mapper u h' -> docApplied mapper doc h') as Hin
    by (intros h' Hi u'; rewrite Hu; by intros [= <-]).
  unfold applyObject. destruct (mapper (uGVK u)) as [mapping|e] eqn:Hm; [|by eexists].
  cbv zeta. destruct (String.eqb _ ""); [by eexists|]. prog_norm. split; [by split|]. intros [current|e] _; cycle 1.
  - destruct (IsNotFound e) eqn:He; prog_norm; [|eexists; split_and!; [done|by apply suffix_cons_r|done]].
    split.
    + split; [exists e; split; [done|by left]|]. by exists doc, u.
    + intros [st|e'] _; eexists; (split_and!; [done|by do 2 apply suffix_cons_r|try done]). intros _.
      apply Hin. exists mapping. split; [done|]. left. exists st. by left.
  - destruct (marshal _) as [raw|e]; prog_norm; [|eexists; split_and!; [done|by apply suffix_cons_r|done]].
    split.
    + split; [exists current; split; [by left|done]|]. by exists doc, u.
    + intros [st|e'] _; eexists; (split_and!; [done|by do 2 apply suffix_cons_r|try done]). intros _.
      apply Hin. exists mapping. split; [done|]. right. exists current, st. split; [right; by left|by left].
Qed.

Lemma install_correct rt manifests :
  wp anyEnv (manifestCall manifests) (Install (NewInstaller config) rt manifests) []
    (returns (fun r h => r = None ->
       exists mapper, Ev (CDiscover Skr) (Ok mapper) ∈ h /\
         forall doc, doc ∈ manifestDocs manifests -> docApplied mapper doc h)).
Proof.
  cbn [Install NewInstaller]. unfold ApplyManifests, runtimeDynamicClientGet, getKubeconfigSecret.
  apply wp_seq. prog_norm. split; [by split|]. intros [s|e] _; prog_norm; [|done].
  destruct (secretData s) eqn:Hd; prog_norm; [|done]. unfold GetDynamicRuntimeClient.
  prog_norm. split; [by split|]. intros [[]|e] _; prog_norm; [|done].
  split; [by split|]. intros [mapper|e] _; [|done]. set (h0 := Ev (CDiscover Skr) _ :: _).
  apply (wp_forEach _ _ _ _ (fun n h => suffix h0 h /\
    forall i doc, i < n -> manifestDocs manifests !! i = Some doc -> docApplied mapper doc h)).
  - split; [done|]. intros; lia.
  - intros n doc h Hn [Hs Hall]. eapply wp_mono; [|eapply applyDoc_ok, list_elem_of_lookup_2, Hn].
    intros o h' ([e|] & -> & Hs' & Hdoc); [done|]. split; [by etransitivity|]. intros i d Hi Hd'.
    destruct (decide (i = n)) as [->|]; [simplify_eq; by apply Hdoc|].
    eapply docApplied_suffix; [done|]. eapply Hall; [|done]. lia.
  - intros h [Hs Hall] _. exists mapper. split; [eapply suffix_elem; [done|by left]|].
    intros doc (i & Hi)%list_elem_of_lookup. eapply Hall; [|done]. by eapply lookup_lt_Some.
Qed.

(** ** The state of the installation *)

Definition manifestsKey : NamespacedName := mkNN "kcp-system" (kcpManifestsConfigMapName kcp).
Definition deploymentKey : NamespacedName := mkNN (skrNamespace skr) (skrDeploymentName skr).
Definition manifestsOf (cm : ConfigMap) : string := mapGet (cmData cm) "manifests.yaml".

(** The answers after which the query of the state panics: a Deployment without a
    number of replicas, manifests without a Deployment. *)
Definition bootstrapCause (e : event) : Prop :=
  match e with
  | Ev (CGet Skr KDeployment _) (Ok dep) => depReplicas dep = None
  | Ev (CGet Kcp KConfigMap key) (Ok cm) =>
      key = manifestsKey /\ getDeploymentToBeApplied (manifestsOf cm) = Ok None
  | _ => False
  end.

(** The reference definition of the reported state. *)
Definition hasCondition (ty : string) (dep : Deployment) : Prop :=
  mkDeploymentCondition ty "True" ∈ depConditions dep.
Definition deploymentUp (dep : Deployment) : Prop :=
  exists replicas, depReplicas dep = Some replicas /\ (replicas <= depReadyReplicas dep)%Z /\
    hasCondition "Available" dep.
Definition versionOf (m : ObjectMeta) : string := mapGet (Labels m) versionLabel.

Definition reported (h : history) (status : InstallationStatus) (manifests : string) : Prop :=
  exists cm, Ev (CGet Kcp KConfigMap manifestsKey) (Ok cm) ∈ h /\
  match status with
  | StatusNotStarted =>
      manifests = manifestsOf cm /\
      exists e, IsNotFound e = true /\ Ev (CGet Skr KDeployment deploymentKey) (Err e) ∈ h
  | _ =>
      exists dep, Ev (CGet Skr KDeployment deploymentKey) (Ok dep) ∈ h /\
      match status with
      | StatusReady | StatusUpgradeNeeded =>
          manifests = manifestsOf cm /\ deploymentUp dep /\
          exists u, getDeploymentToBeApplied manifests = Ok (Some u) /\
            (versionOf (uMeta u) = versionOf (depMeta dep) <-> status = StatusReady)
      | StatusInProgress => manifests = manifestsOf cm /\ ~ deploymentUp dep /\ hasCondition "Progressing" dep
      | _ => manifests = "" /\ ~ deploymentUp dep /\ ~ hasCondition "Progressing" dep
      end
  end.

Lemma existsb_condition ty dep :
  existsb (fun cond => String.eqb (dcType cond) ty && String.eqb (dcStatus cond) "True") (depConditions dep) = true <->
  hasCondition ty dep.
Proof.
  rewrite existsb_exists. setoid_rewrite <- list_elem_of_In. setoid_rewrite andb_true_iff.
  setoid_rewrite String.eqb_eq. split; [|by intros Hc; eexists].
  intros ([t st] & Hc & <- & E). cbn in *. by subst.
Qed.

Lemma isDeploymentReady_spec dep replicas : depReplicas dep = Some replicas ->
  exists b, isDeploymentReady dep = Ret b /\ (b = true <-> deploymentUp dep).
Proof.
  intros Hr. unfold isDeploymentReady, deploymentUp. rewrite Hr. eexists. split; [done|].
  destruct (depReadyReplicas dep <? replicas)%Z eqn:E.
  - split; [done|]. intros (r & [= <-] & ? & _). lia.
  - rewrite existsb_condition. split; [intros ?; exists replicas; split_and!; [done|lia|done]|].
    by intros (? & _ & _ & ?).
Qed.

Lemma progressing_spec dep : isDeploymentProgressing dep = true <-> hasCondition "Progressing" dep.
Proof. apply existsb_condition. Qed.

(** What the query reports, and that it panics only for a cause. *)
Definition infoPost : outcome (result (InstallationStatus * string)) -> history -> Prop := fun o h =>
  match o with
  | Done (Ok (status, manifests)) => reported h status manifests
  | Done (Err _) => True
  | Panicked => exists e, e ∈ h /\ bootstrapCause e
  end.

Lemma info_correct rt :
  wp anyEnv (fun _ => bootstrapperCall)
    (InstallationInfo (kcpManifestsConfigMapName kcp) deploymentKey rt) [] infoPost.
Proof.
  unfold InstallationInfo, getManifests. prog_norm. split; [exact I|]. intros [cm|e] _; prog_norm; [|exact I].
  unfold runtimeClientGet, getKubeconfigSecret, GetRuntimeClientWithScheme. prog_norm.
  split; [exact I|]. intros [s|e] _; prog_norm; [|exact I].
  destruct (secretData s) eqn:Hd; prog_norm; [|exact I]. rewrite Hd. prog_norm.
  split; [exact I|]. intros [[]|e] _; prog_norm; [|exact I]. split; [exact I|].
  set (h0 := Ev (CBuildClient s) _ :: _).
  assert (Ev (CGet Kcp KConfigMap manifestsKey) (Ok cm) ∈ h0) as Hcm by (right; right; by left).
  intros [dep|e] _; cycle 1.
  { destruct (IsNotFound e) eqn:He; [|exact I]. exists cm. split; [by right|].
    split; [done|]. exists e. split; [done|by left]. }
  set (h1 := Ev _ _ :: h0).
  assert (Ev (CGet Kcp KConfigMap manifestsKey) (Ok cm) ∈ h1) as Hcm' by by right.
  assert (Ev (CGet Skr KDeployment deploymentKey) (Ok dep) ∈ h1) as Hdep by by left.
  destruct (depReplicas dep) as [replicas|] eqn:Hr; cycle 1.
  { unfold isDeploymentReady. rewrite Hr. exists (Ev (CGet Skr KDeployment deploymentKey) (Ok dep)). by split. }
  destruct (isDeploymentReady_spec dep replicas Hr) as (b & -> & Hb). prog_norm. destruct b.
  - unfold isDeploymentToBeUpdated. fold (manifestsOf cm).
    destruct (getDeploymentToBeApplied (manifestsOf cm)) as [[u|]|e] eqn:Hu; prog_norm; [| |exact I]; cycle 1.
    { exists (Ev (CGet Kcp KConfigMap manifestsKey) (Ok cm)). by split_and!. }
    fold (versionOf (uMeta u)) (versionOf (depMeta dep)).
    destruct (String.eqb_spec (versionOf (uMeta u)) (versionOf (depMeta dep))) as [E|E]; cbn [negb];
      exists cm; (split; [done|]); exists dep; (split; [done|]); (split_and!; [done|by apply Hb|]);
      exists u; (split; [done|]); by split.
  - assert (~ deploymentUp dep) as Hdown by (intros Hup; by apply Hb in Hup).
    destruct (isDeploymentProgressing dep) eqn:Hp.
    + apply progressing_spec in Hp. exists cm. split; [done|]. by exists dep.
    + exists cm. split; [done|]. exists dep. split_and!; [done..|]. rewrite <- progressing_spec. by rewrite Hp.
Qed.

Lemma configurator_calls rt h c : configuratorCall rt h c -> bootstrapperCall c.
Proof. by case_call c. Qed.

Lemma manifest_calls manifests h c : manifestCall manifests h c -> bootstrapperCall c.
Proof. intros [Hc _]. revert Hc. by case_call c. Qed.

#[export] Instance NewInstaller_ok : InstallerOk (NewInstaller config) bootstrapCause.
Proof.
  split; [intros rt|intros rt manifests|done|].
  - eapply only_wp, wp_weaken; [done|apply configurator_calls|apply configure_correct].
  - eapply only_wp, wp_weaken; [done|apply manifest_calls|apply install_correct].
  - intros R G rt h Q HG HQ HP. apply (wp_frame _ _ bootstrapperCall _ [] h infoPost); [apply info_correct|intros ?; apply HG|].
    assert (forall k, extends bootstrapperCall [] k -> extends bootstrapperCall h (k ++ h)%list) as Hx.
    { intros k (k' & -> & Hk). exists k'. by rewrite app_nil_r. }
    intros [r|] k Hk Hi; [by apply HQ, Hx|]. destruct Hi as (e & He & Hc).
    apply (HP _ e); [by apply Hx| |done]. apply elem_of_app. by left.
Qed.

(** ** The theorems *)

(** C30. The installer implements the interface against which the state machine
    is verified, for every configuration: it writes to the runtime cluster only,
    and it panics only in the query of the state, after the runtime cluster
    answered with a Deployment without a number of replicas or the control plane
    with manifests that hold no Deployment. *)
Theorem bootstrapper_refines_interface : InstallerOk (NewInstaller config) bootstrapCause.
Proof. apply NewInstaller_ok. Qed.

(** C31. Configuring the cluster of a Runtime copies the bootstrapper's configuration
    to it. The cluster is reached with the kubeconfig secret of that Runtime. The only
    writes apply a config map, a pull secret and a trust bundle that were read from the
    control plane: under the configured names, with the data, for the secret its type,
    for the bundle the signer name and the text, and nothing else; each only after the
    cluster was found to have none, or one with other data (for the bundle: another
    text). When it succeeds, each of them (the last two if they are configured) was
    applied so or was found with that data; another type or signer name of one that is
    there is not noticed. It never panics. *)
Theorem configuration_copied rt :
  wp anyEnv (configuratorCall rt) (Configure (NewInstaller config) rt) [] (returns configured).
Proof. apply configure_correct. Qed.

(** C32. Installing the manifests: the only writes create or apply objects decoded
    from the documents of the manifests, creating an object only when it was not
    found and applying it only with the resource version read; and when the
    installation succeeds, every document that decodes to an object with a kind
    was mapped to a resource, and created or applied in the runtime cluster.  It
    never panics. *)
Theorem manifests_applied rt manifests :
  wp anyEnv (manifestCall manifests) (Install (NewInstaller config) rt manifests) []
    (returns (fun r h => r = None ->
       exists mapper, Ev (CDiscover Skr) (Ok mapper) ∈ h /\
         forall doc, doc ∈ manifestDocs manifests -> docApplied mapper doc h)).
Proof. apply install_correct. Qed.

(** C33. The state the installer reports is the one the clusters show: not
    started when the Deployment is not found; ready or in need of an upgrade when
    it has its replicas and is available, told apart by whether its version label
    is that of the first Deployment of the manifests; in progress when it is not
    up but progressing, failed otherwise.  It panics only for the causes above. *)
Theorem installation_state rt :
  wp anyEnv (fun _ => bootstrapperCall) (FsmState.InstallationInfo (NewInstaller config) rt) [] infoPost.
Proof. apply info_correct. Qed.

End Bootstrapper.
