(* ===== verification/ConfigReload.v ===== *)
(** * Configuration reload (internal/controller/configreload)

    When a watched config map, secret or trust bundle of the control plane
    changes, every Runtime the change concerns is annotated for a forced
    reconciliation, which the state machine then makes. *)

From S2P Require Import Prelude Sscanf Kube Gardener RuntimeApi Objects Effects.
From S2P Require Import Config AuditLog FsmState.

Local Open Scope string_scope.

Definition ErrRuntimeNotificationFailed : GoError := newError "runtime notification failed".

(** ** The predicate of the watches *)

(** Events of controller-runtime, by the name of the (new) object. *)
Inductive watchEvent :=
| CreateEvent (object : NamespacedName)
| UpdateEvent (objectNew : NamespacedName)
| DeleteEvent (object : NamespacedName)
| GenericEvent (object : NamespacedName).

(*@ src/internal/controller/configreload/object_updated_predicate.go:14-16 ObjectUpdatedPredicate *)
Definition ObjectUpdatedPredicate : Type := NamespacedName.

(*@ src/internal/controller/configreload/object_updated_predicate.go:25-27 match *)
Definition matchUpdate (p : ObjectUpdatedPredicate) (objectNew : NamespacedName) : bool :=
  String.eqb (nn_Name p) (nn_Name objectNew) && String.eqb (nn_Namespace p) (nn_Namespace objectNew).

(*@ src/internal/controller/configreload/object_updated_predicate.go:29-55 Update *)
Definition predicateAccepts (p : ObjectUpdatedPredicate) (e : watchEvent) : bool :=
  match e with
  | UpdateEvent o => matchUpdate p o
  | _ => false
  end.

(** ** The reconciler *)

(*@ src/internal/controller/configreload/config_reload_controller.go:41-52 ConfigReloadWatcher *)
Record ConfigReloadWatcher := mkConfigReloadWatcher {
  crNamespace : string;
  crConfigMapPredicates : list ObjectUpdatedPredicate;
  crSecretPredicates : list ObjectUpdatedPredicate;
  crClusterTrustBundlePredicate : option ObjectUpdatedPredicate;
  crRuntimePredicate : option (NamespacedName -> Runtime -> bool)
}.

Definition alreadyForced (item : Runtime) : bool :=
  match Annotations (rtMeta item) !! ForceReconcileAnnotation with
  | Some value => String.eqb value "true"
  | None => false
  end.

(** The Runtime with the annotation that forces a reconciliation. *)
(*@ src/internal/controller/configreload/config_reload_controller.go:83-88 Reconcile *)
Definition withForceAnnotation (item : Runtime) : Runtime :=
  runtime_with_meta item
    (meta_without_managed_fields
       (meta_with_annotations (rtMeta item)
          (<[ForceReconcileAnnotation := "true"]> (Annotations (rtMeta item))))).

Definition isSelected (r : ConfigReloadWatcher) (req : NamespacedName) (item : Runtime) : bool :=
  match crRuntimePredicate r with Some predicate => predicate req item | None => true end.

(** The loop over the Runtimes; an error does not end it. *)
(*@ src/internal/controller/configreload/config_reload_controller.go:72-102 Reconcile *)
Fixpoint notifyRuntimes (r : ConfigReloadWatcher) (req : NamespacedName) (items : list Runtime) (success : bool) :
    prog bool :=
  match items with
  | [] => mret success
  | item :: rest =>
      if negb (isSelected r req item) then notifyRuntimes r req rest success
      else if alreadyForced item then notifyRuntimes r req rest success
      else
        patched ← callP (CPatch Kcp KRuntime (withForceAnnotation item) Apply);
        notifyRuntimes r req rest (success && isOk patched)
  end.

(*@ src/internal/controller/configreload/config_reload_controller.go:59-109 Reconcile *)
Definition ReloadReconcile (r : ConfigReloadWatcher) (req : NamespacedName) : prog (Result * option GoError) :=
  runtimes ← callP (CList Kcp KRuntime (crNamespace r) ∅);
  match runtimes with
  | Err e => mret (mkResult false 0, Some e)
  | Ok items =>
      success ← notifyRuntimes r req items true;
      mret (mkResult false 0, if (success : bool) then None else Some ErrRuntimeNotificationFailed)
  end.

(** The updates of a Runtime its controller is called for: predicate.Or of the
    changes of the generation, the labels and the annotations. *)
(*@ src/internal/controller/runtime/runtime_controller.go:103-113 SetupWithManager *)
Definition runtimeEventFilter (old new : Runtime) : bool := metaChanged (rtMeta old) (rtMeta new).

(** The watches: an event a predicate accepts enqueues its object. *)
(*@ src/internal/controller/configreload/config_reload_controller.go:112-136 SetupWithManager *)
Definition watchAccepts (r : ConfigReloadWatcher) (k : kind) (e : watchEvent) : bool :=
  match k with
  | KConfigMap => existsb (fun p => predicateAccepts p e) (crConfigMapPredicates r)
  | KSecret => existsb (fun p => predicateAccepts p e) (crSecretPredicates r)
  | KClusterTrustBundle =>
      match crClusterTrustBundlePredicate r with Some p => predicateAccepts p e | None => false end
  | _ => false
  end.

(** ** Lemmas *)

(** The controller does not call itself by writing the status. *)
Lemma status_not_noticed rt st : runtimeEventFilter rt (runtime_with_status rt st) = false.
Proof. apply metaChanged_refl. Qed.

(** ** What is written *)

(** [rt] is [item] with the annotation that forces a reconciliation; it is sent
    without managed fields, and all else is as it was. *)
Definition forcedFrom (item rt : Runtime) : Prop :=
  let a := rtMeta item in let b := rtMeta rt in
  rtSpec rt = rtSpec item /\ rtStatus rt = rtStatus item /\
  Name b = Name a /\ GenerateName b = GenerateName a /\ Namespace b = Namespace a /\ UID b = UID a /\
  ResourceVersion b = ResourceVersion a /\ Generation b = Generation a /\ DeletionTimestamp b = DeletionTimestamp a /\
  Labels b = Labels a /\ Finalizers b = Finalizers a /\ ManagedFields b = [] /\
  Annotations b !! "operator.kyma-project.io/force-patch-reconciliation" = Some "true" /\
  forall k, k <> "operator.kyma-project.io/force-patch-reconciliation" -> Annotations b !! k = Annotations a !! k.

Lemma withForceAnnotation_from item : forcedFrom item (withForceAnnotation item).
Proof. split_and!; try done; [apply lookup_insert_eq|]. intros k Hk. by apply lookup_insert_ne. Qed.

(** The annotation is noticed where it is new, and the reconciliation is forced. *)
Lemma forced_noticed (item new : Runtime) :
  Annotations (rtMeta item) !! "operator.kyma-project.io/force-patch-reconciliation" <> Some "true" ->
  Annotations (rtMeta new) !! "operator.kyma-project.io/force-patch-reconciliation" = Some "true" ->
  runtimeEventFilter item new = true /\ ShouldForceReconciliation (Annotations (rtMeta new)) = true.
Proof.
  intros Hi Hn. split; [apply metaChanged_annotations; congruence|].
  unfold ShouldForceReconciliation, ForceReconcileAnnotation. by rewrite Hn.
Qed.

Lemma alreadyForced_spec item :
  alreadyForced item = false <->
  Annotations (rtMeta item) !! "operator.kyma-project.io/force-patch-reconciliation" <> Some "true".
Proof.
  unfold alreadyForced, ForceReconcileAnnotation. destruct (_ !! _) as [x|]; [|done].
  rewrite String.eqb_neq. naive_solver.
Qed.

Section Reload.
Context (r : ConfigReloadWatcher) (req : NamespacedName).

(** The change concerns the Runtime, which does not force a reconciliation yet. *)
Definition concerned (item : Runtime) : Prop :=
  (forall p, crRuntimePredicate r = Some p -> p req item = true) /\
  Annotations (rtMeta item) !! "operator.kyma-project.io/force-patch-reconciliation" <> Some "true".

(** The only write annotates a listed Runtime the change concerns. *)
Definition reloadCall : guar := fun h c =>
  match c with
  | CList Kcp KRuntime ns _ => ns = crNamespace r
  | CPatch Kcp KRuntime rt Apply =>
      exists items item, Ev (CList Kcp KRuntime (crNamespace r) ∅) (Ok items) ∈ h /\
        item ∈ items /\ concerned item /\ forcedFrom item rt
  | _ => False
  end.

(** The Runtime has been sent with the annotation. *)
Definition attempted (h : history) (item : Runtime) : Prop :=
  exists rt answer, forcedFrom item rt /\ Ev (CPatch Kcp KRuntime rt Apply) answer ∈ h.

(** Every patch of a Runtime has succeeded. *)
Definition patchesOk : history -> Prop := Forall (fun e =>
  match e with Ev (CPatch Kcp KRuntime _ Apply) answer => isOk answer = true | _ => True end).

Lemma attempted_suffix h h' item : suffix h h' -> attempted h item -> attempted h' item.
Proof. intros Hs (rt & a & ? & ?). exists rt, a. split; [done|by eapply suffix_elem]. Qed.

Lemma skipped item : isSelected r req item = false \/ alreadyForced item = true -> ~ concerned item.
Proof.
  intros [Hs|Hf] [Hp Ha]; [|by rewrite (proj2 (alreadyForced_spec item) Ha) in Hf].
  unfold isSelected in Hs. destruct (crRuntimePredicate r) as [p|]; [|done]. by rewrite (Hp p eq_refl) in Hs.
Qed.

Lemma notify_ok all items success h :
  Ev (CList Kcp KRuntime (crNamespace r) ∅) (Ok all) ∈ h -> (forall item, item ∈ items -> item ∈ all) ->
  (success = true <-> patchesOk h) ->
  wp anyEnv reloadCall (notifyRuntimes r req items success) h
    (returns (fun success' h' => suffix h h' /\ (success' = true <-> patchesOk h') /\
       forall item, item ∈ items -> concerned item -> attempted h' item)).
Proof.
  revert h success. induction items as [|item items IH]; intros h success Hall Hin Hok; cbn [notifyRuntimes].
  { split_and!; [done..|]. intros item Hitem. inversion Hitem. }
  assert (forall it, it ∈ items -> it ∈ all) as Hin' by (intros; apply Hin; by right).
  assert (isSelected r req item = false \/ alreadyForced item = true ->
    wp anyEnv reloadCall (notifyRuntimes r req items success) h (returns (fun success' h' => suffix h h' /\
      (success' = true <-> patchesOk h') /\ forall it, it ∈ item :: items -> concerned it -> attempted h' it))) as Hskip.
  { intros Hs. eapply wp_mono; [|by apply IH]. intros [s'|] h' Hq; [|done]. destruct Hq as (Hsuf & Hs' & Hatt).
    split_and!; [done..|]. intros it [->|Hit]%elem_of_cons Hc; [by destruct (skipped item)|by apply Hatt]. }
  destruct (isSelected r req item) eqn:Hs; cbn [negb]; [|by apply Hskip; left].
  destruct (alreadyForced item) eqn:Hf; [by apply Hskip; right|]. wp_norm. split.
  { exists all, item. split_and!; [done|apply Hin; by left|split; [|by apply alreadyForced_spec]|apply withForceAnnotation_from].
    unfold isSelected in Hs. by intros p Hp; rewrite Hp in Hs. }
  intros a _. eapply wp_mono; [|apply IH; [by right|done|]].
  - intros [s'|] h' Hq; [|done]. destruct Hq as (Hsuf & Hs' & Hatt).
    split_and!; [etransitivity; [|exact Hsuf]; by apply suffix_cons_r|done|].
    intros it [->|Hit]%elem_of_cons Hc; [|by apply Hatt]. eapply attempted_suffix; [exact Hsuf|].
    exists (withForceAnnotation item), a. split; [apply withForceAnnotation_from|by left].
  - unfold patchesOk in *. rewrite Forall_cons, andb_true_iff, Hok. split; intros []; by split.
Qed.

(** How a reconciliation ends. *)
Definition reloadEnd (err : option GoError) (h : history) : Prop :=
  exists answer, Ev (CList Kcp KRuntime (crNamespace r) ∅) answer ∈ h /\
    match answer with
    | Err e => err = Some e
    | Ok items =>
        (forall item, item ∈ items -> concerned item -> attempted h item) /\ (err = None <-> patchesOk h)
    end.

Lemma ReloadReconcile_ok :
  wp anyEnv reloadCall (ReloadReconcile r req) [] (returns (fun '(_, err) => reloadEnd err)).
Proof.
  unfold ReloadReconcile. wp_norm. split; [done|]. intros [items|e] _; cycle 1.
  { exists (Err e). split; [by left|done]. }
  apply wp_seq. eapply wp_mono; [|apply (notify_ok items); [by left|done|]].
  - intros [success|] h Hq; [|done]. destruct Hq as (Hsuf & Hok & Hatt). exists (Ok items).
    split_and!; [eapply suffix_elem; [exact Hsuf|by left]|done|]. rewrite <- Hok. by destruct success.
  - split; [|done]. intros _. by repeat constructor.
Qed.

(** C36. A change of the configuration reaches every Runtime it concerns: the only
    writes send listed Runtimes that the predicate selects and that do not force a
    reconciliation yet, as they were listed but for the annotation that forces one
    and without managed fields: every other annotation, the rest of the metadata,
    the specification and the status are those of the listing ([forcedFrom]). Every
    such Runtime is sent, whichever of the others fail, and the reconciliation
    succeeds exactly when the listing and all patches did. A version of the Runtime
    with the annotation is an event for the Runtime controller, which reconciles it
    by force. *)
Theorem reload_reaches_runtimes :
  wp anyEnv reloadCall (ReloadReconcile r req) []
    (returns (fun '(_, err) h => exists answer, Ev (CList Kcp KRuntime (crNamespace r) ∅) answer ∈ h /\
       match answer with
       | Err e => err = Some e
       | Ok items =>
           (forall item, item ∈ items -> concerned item -> attempted h item) /\ (err = None <-> patchesOk h)
       end)) /\
  forall item new, concerned item ->
    Annotations (rtMeta new) !! "operator.kyma-project.io/force-patch-reconciliation" = Some "true" ->
    runtimeEventFilter item new = true /\ ShouldForceReconciliation (Annotations (rtMeta new)) = true.
Proof.
  split; [|intros item new [_ Hi]; by apply forced_noticed].
  eapply wp_mono; [|exact ReloadReconcile_ok]. by intros [[res err]|] h.
Qed.

End Reload.
