(* ===== verification/RegistryCacheController.v ===== *)
(** * Registry cache controller (internal/controller/registrycache,
      internal/registrycache/runtimewatcher)

    Copies the RegistryCacheConfig resources of a runtime cluster to the Runtime,
    from which the state machine configures the Shoot.  It is triggered by the
    kubeconfig secret of the runtime, by time, and by events of the watcher in
    the runtime cluster. *)

From S2P Require Import Prelude Kube Gardener RuntimeApi Objects Effects.
From S2P Require Import Config AuditLog FsmState.

Local Open Scope string_scope.

(** k8s.io/apimachinery/pkg/api/equality: deep equality up to the
    representation of quantities, nil and empty slices. *)
Class SemanticLib := {
  semanticDeepEqual : list ImageRegistryCache -> list ImageRegistryCache -> bool
}.

(*@consts src/internal/controller/registrycache/registry_cache_config_controller.go:45-49 *)
Definition RegistryCacheModuleName : string := "registry-cache".
Definition registrycache_RuntimeIDLabel : string := "kyma-project.io/runtime-id".

Definition kymaCrdKey : NamespacedName := mkNN "" "kymas.operator.kyma-project.io".
Definition defaultKymaKey : NamespacedName := mkNN "kyma-system" "default".

(*@ src/internal/controller/registrycache/registry_cache_config_controller.go:198-206 secretControlledByKIM *)
Definition secretControlledByKIM (secret : Secret) : bool :=
  bool_decide (is_Some (Labels (secretMeta secret) !! registrycache_RuntimeIDLabel)) &&
  String.eqb (mapGet (Labels (secretMeta secret)) "operator.kyma-project.io/managed-by") "infrastructure-manager".

(*@ src/internal/controller/registrycache/registry_cache_config_controller.go:182-184 stop *)
Definition registrycache_stop : Result * option GoError := (mkResult false 0, None).

(*@ src/internal/controller/registrycache/registry_cache_config_controller.go:186-196 stopIfNotFound *)
Definition stopIfNotFound (err : GoError) : Result * option GoError :=
  if IsNotFound err then (mkResult false 0, None) else (mkResult false 0, Some err).

(*@ src/internal/controller/registrycache/registry_cache_config_controller.go:154-180 moduleEnabled *)
Definition moduleEnabled : prog (result bool) :=
  crd ← callP (CGet Skr KCustomResourceDefinition kymaCrdKey);
  match crd with
  | Err crdErr => if IsNotFound crdErr then mret (Ok false) else mret (Err crdErr)
  | Ok _ =>
      defaultKyma ← callP (CGet Skr KKyma defaultKymaKey);
      mret
        (match defaultKyma with
         | Err err => Err err
         | Ok defaultKyma => Ok (existsb (fun m => String.eqb m RegistryCacheModuleName) (kymaModules defaultKyma))
         end)
  end.

Definition cacheOf (config : RegistryCacheConfig) : ImageRegistryCache :=
  mkCache (Name (rccMeta config)) (Namespace (rccMeta config)) (UID (rccMeta config)) (rccSpec config).

(*@ src/internal/controller/registrycache/registry_cache_config_controller.go:122-152 fetchConfigs *)
Definition fetchConfigs : prog (result (list ImageRegistryCache)) :=
  enabled ← moduleEnabled;
  match enabled with
  | Err err => mret (Err err)
  | Ok enabled =>
      if negb enabled then mret (Ok [])
      else
        configs ← callP (CList Skr KRegistryCacheConfig "" ∅);
        mret
          (match configs with
           | Err err => Err err
           | Ok items => Ok (cacheOf <$> items)
           end)
  end.

(*@ src/internal/controller/registrycache/registry_cache_config_controller.go:114-115 updateRuntime *)
Definition runtime_with_caching (rt : Runtime) (caching : list ImageRegistryCache) : Runtime :=
  let sp := rtSpec rt in
  mkRuntime (rtMeta rt) (mkRuntimeSpec (rShoot sp) (rSecurity sp) caching (rAuditLogAccessEnabled sp)) (rtStatus rt).

Section Reconciler.
Context `{SemanticLib}.
Context (KcpNamespace : string) (ReconcilePeriod : Z).

(*@ src/internal/controller/registrycache/registry_cache_config_controller.go:108-120 updateRuntime *)
Definition updateRuntime (runtimeToUpdate : Runtime) (newRegistryCacheConfig : list ImageRegistryCache) :
    prog (option GoError) :=
  if semanticDeepEqual newRegistryCacheConfig (rCaching (rtSpec runtimeToUpdate)) then mret None
  else
    r ← callP (CUpdate Kcp KRuntime (runtime_with_caching runtimeToUpdate newRegistryCacheConfig));
    mret (errOf r).

(*@ src/internal/controller/registrycache/registry_cache_config_controller.go:86-106 applyRegistryCacheConfig *)
Definition applyRegistryCacheConfig (runtimeID : string) : prog (Result * option GoError) :=
  newRegistryCacheConfig ← fetchConfigs;
  match newRegistryCacheConfig with
  | Err err => mret (mkResult false 0, Some err)
  | Ok newRegistryCacheConfig =>
      runtimeToUpdate ← callP (CGet Kcp KRuntime (mkNN KcpNamespace runtimeID));
      match runtimeToUpdate with
      | Err err => mret (stopIfNotFound err)
      | Ok runtimeToUpdate =>
          err ← updateRuntime runtimeToUpdate newRegistryCacheConfig;
          mret
            (match err with
             | Some err => stopIfNotFound err
             | None => (mkResult false ReconcilePeriod, None)
             end)
      end
  end.

(*@ src/internal/controller/registrycache/registry_cache_config_controller.go:51-84 Reconcile *)
Definition RegistryCacheReconcile (request : NamespacedName) : prog (Result * option GoError) :=
  secret ← callP (CGet Kcp KSecret request);
  match secret with
  | Err err => mret (stopIfNotFound err)
  | Ok secret =>
      if negb (secretControlledByKIM secret) then mret registrycache_stop
      else
        let runtimeID := mapGet (Labels (secretMeta secret)) registrycache_RuntimeIDLabel in
        runtime ← callP (CGet Kcp KRuntime (mkNN KcpNamespace runtimeID));
        match runtime with
        | Err err => mret (stopIfNotFound err)
        | Ok runtime =>
            if negb (timeIsZero (DeletionTimestamp (rtMeta runtime))) ||
               String.eqb (State (rtStatus runtime)) RuntimeStateTerminating
            then mret registrycache_stop
            else
              runtimeClient ← GetRuntimeClientWithScheme secret;
              match runtimeClient with
              | Err err => mret (mkResult false 0, Some err)
              | Ok _ => applyRegistryCacheConfig runtimeID
              end
        end
  end.

End Reconciler.

(** The updates of a secret the controller is called for. *)
(*@ src/internal/controller/registrycache/registry_cache_config_controller.go:224-246 SetupWithManager *)
Definition secretEventFilter (old new : Secret) : bool := metaChanged (secretMeta old) (secretMeta new).

(** ** Events of the watcher (runtimewatcher/watcherevent.go) *)

(** The object of an event: an unstructured object, or one of another type. *)
Inductive jsonValue := JString (s : string) | JOther.
Inductive eventObject := UnstructuredObject (content : gmap string jsonValue) | TypedObject.

Definition ErrConvertingWatcherEvent : GoError := newError "failed to convert event object".
Definition ErrExtractingRuntimeID : GoError := newError "failed to extract runtime ID from event data".

(*@ src/internal/registrycache/runtimewatcher/watcherevent.go:91-101 extractRuntimeIDFromMap *)
Definition extractRuntimeIDFromMap (content : gmap string jsonValue) : option string :=
  match content !! "runtime-id" with
  | Some (JString s) => Some s
  | _ => None
  end.

(*@ src/internal/registrycache/runtimewatcher/watcherevent.go:79-89 getRuntimeIDFromEvent *)
Definition getRuntimeIDFromEvent (object : eventObject) : result string :=
  match object with
  | UnstructuredObject content =>
      match extractRuntimeIDFromMap content with
      | Some runtimeID => Ok runtimeID
      | None => Err ErrExtractingRuntimeID
      end
  | TypedObject => Err ErrConvertingWatcherEvent
  end.

(** What the handler adds to the queue. *)
(*@ src/internal/registrycache/runtimewatcher/watcherevent.go:56-77 CreateSkrEventHandler *)
Definition skrEventRequest (namespace : string) (object : eventObject) : option NamespacedName :=
  match getRuntimeIDFromEvent object with
  | Err _ => None
  | Ok runtimeID => Some (mkNN namespace ("kubeconfig-" +:+ runtimeID))
  end.

(** The goroutine of AdaptEvents: it receives an event, then sends its object;
    both waits end when the context is cancelled. *)
Inductive pump := Receiving | Sending (object : eventObject) | Exited.

Record adapter := mkAdapter {
  arrived : list eventObject;                      (* everything written to the source, in order *)
  pending : list eventObject;                      (* what is not yet received of it *)
  srcClosed : bool;
  cancelled : bool;
  delivered : list eventObject;                    (* what the destination's reader has received *)
  goroutine : pump                                 (* the destination is closed once it has exited *)
}.

Definition startAdapter : adapter := mkAdapter [] [] false false [] Receiving.

(** The environment writes to the source, closes it, cancels the context; the
    goroutine takes its steps when the channels allow them. *)
(*@ src/internal/registrycache/runtimewatcher/watcherevent.go:29-54 AdaptEvents *)
Inductive adaptStep : adapter -> adapter -> Prop :=
| step_write a p c d g o :
    adaptStep (mkAdapter a p false c d g) (mkAdapter (a ++ [o]) (p ++ [o]) false c d g)
| step_close a p c d g : adaptStep (mkAdapter a p false c d g) (mkAdapter a p true c d g)
| step_cancel a p s d g : adaptStep (mkAdapter a p s false d g) (mkAdapter a p s true d g)
| step_receive a o p s c d : adaptStep (mkAdapter a (o :: p) s c d Receiving) (mkAdapter a p s c d (Sending o))
| step_drained a c d : adaptStep (mkAdapter a [] true c d Receiving) (mkAdapter a [] true c d Exited)
| step_stop_receiving a p s d : adaptStep (mkAdapter a p s true d Receiving) (mkAdapter a p s true d Exited)
| step_send a p s c d o : adaptStep (mkAdapter a p s c d (Sending o)) (mkAdapter a p s c (d ++ [o]) Receiving)
| step_stop_sending a p s d o : adaptStep (mkAdapter a p s true d (Sending o)) (mkAdapter a p s true d Exited).

(** ** Lemmas *)

(** The invariant of the goroutine: what was delivered, what it holds and what is
    pending make up what arrived; only a cancellation loses events. *)
Definition adapterOk (x : adapter) : Prop :=
  match goroutine x with
  | Receiving => arrived x = (delivered x ++ pending x)%list
  | Sending o => arrived x = (delivered x ++ o :: pending x)%list
  | Exited =>
      (exists lost, arrived x = (delivered x ++ lost)%list) /\
      (cancelled x = false -> srcClosed x = true /\ arrived x = delivered x)
  end.

Lemma adaptStep_ok x y : adaptStep x y -> adapterOk x -> adapterOk y.
Proof.
  intros [a p c d [|o'|] o|a p c d g|a p s d g|a o p s c d|a c d|a p s d|a p s c d o|a p s d o]; unfold adapterOk; cbn.
  - intros ->. by rewrite app_assoc.
  - intros ->. by rewrite <- app_assoc.
  - intros [[lost ->] Hc]. split; [exists (lost ++ [o])%list; by rewrite app_assoc|]. intros E. by destruct (Hc E).
  - destruct g; [done..|]. intros [Hl Hc]. split; [done|]. intros E. by destruct (Hc E).
  - destruct g; [done..|]. intros [Hl Hc]. by split.
  - done.
  - intros ->. split; [by exists []; rewrite app_nil_r|]. by rewrite app_nil_r.
  - intros ->. split; [by exists p|done].
  - intros ->. by rewrite <- app_assoc.
  - intros ->. split; [by exists (o :: p)|done].
Qed.

(** C35. AdaptEvents forwards the events of the watcher in order, each once: in
    every state its goroutine can reach, what it has delivered is a prefix of what
    arrived, and it has exited without a cancellation only when the source was
    closed and everything was delivered. *)
Theorem events_forwarded x :
  rtc adaptStep startAdapter x ->
  prefix (delivered x) (arrived x) /\
  (goroutine x = Exited -> cancelled x = false -> srcClosed x = true /\ delivered x = arrived x).
Proof.
  intros Hreach.
  assert (adapterOk x) as Hok.
  { assert (adapterOk startAdapter) as Hs by done. revert Hs. induction Hreach; [done|]. intros Hs.
    by apply IHHreach, (adaptStep_ok x). }
  unfold adapterOk in Hok. destruct (goroutine x) as [|o|]; (split; [|try done]).
  - by exists (pending x).
  - by exists (o :: pending x).
  - by destruct Hok as [[lost ->] _]; exists lost.
  - intros _ Hc. by destruct (proj2 Hok Hc).
Qed.

Section Caching.
Context `{SemanticLib}.
Context (KcpNamespace : string) (ReconcilePeriod : Z) (request : NamespacedName).

(** The entry of a Runtime for a RegistryCacheConfig. *)
Definition cacheFrom (config : RegistryCacheConfig) (cache : ImageRegistryCache) : Prop :=
  cacheName cache = Name (rccMeta config) /\ cacheNamespace cache = Namespace (rccMeta config) /\
  cacheUID cache = UID (rccMeta config) /\ cacheConfig cache = rccSpec config.

(** The caches the runtime cluster was seen to ask for. *)
Inductive wantedCaching (h : history) : list ImageRegistryCache -> Prop :=
| wanted_no_kyma e :
    IsNotFound e = true -> Ev (CGet Skr KCustomResourceDefinition kymaCrdKey) (Err e) ∈ h -> wantedCaching h []
| wanted_disabled kyma :
    Ev (CGet Skr KKyma defaultKymaKey) (Ok kyma) ∈ h -> RegistryCacheModuleName ∉ kymaModules kyma ->
    wantedCaching h []
| wanted_configs kyma items caches :
    Ev (CGet Skr KKyma defaultKymaKey) (Ok kyma) ∈ h -> RegistryCacheModuleName ∈ kymaModules kyma ->
    Ev (CList Skr KRegistryCacheConfig "" ∅) (Ok items) ∈ h -> Forall2 cacheFrom items caches ->
    wantedCaching h caches.

(** The secret of the request was read; it is a kubeconfig of this operator. *)
Definition secretRead (h : history) (secret : Secret) : Prop :=
  Ev (CGet Kcp KSecret request) (Ok secret) ∈ h /\
  is_Some (Labels (secretMeta secret) !! "kyma-project.io/runtime-id") /\
  Labels (secretMeta secret) !! "operator.kyma-project.io/managed-by" = Some "infrastructure-manager".

(** The Runtime it belongs to. *)
Definition ownerKey (secret : Secret) : NamespacedName :=
  mkNN KcpNamespace (mapGet (Labels (secretMeta secret)) "kyma-project.io/runtime-id").
Definition liveRead (h : history) (secret : Secret) : Prop :=
  exists rt, Ev (CGet Kcp KRuntime (ownerKey secret)) (Ok rt) ∈ h /\
    timeIsZero (DeletionTimestamp (rtMeta rt)) = true /\ State (rtStatus rt) <> RuntimeStateTerminating.

(** The last answer was the Runtime [rt]. *)
Definition justRead (h : history) (secret : Secret) (rt : Runtime) : Prop :=
  exists h0, h = Ev (CGet Kcp KRuntime (ownerKey secret)) (Ok rt) :: h0.

(** [rt'] is [rt] with other caches. *)
Definition withCaches (rt : Runtime) (caches : list ImageRegistryCache) (rt' : Runtime) : Prop :=
  rtMeta rt' = rtMeta rt /\ rtStatus rt' = rtStatus rt /\
  rShoot (rtSpec rt') = rShoot (rtSpec rt) /\ rSecurity (rtSpec rt') = rSecurity (rtSpec rt) /\
  rAuditLogAccessEnabled (rtSpec rt') = rAuditLogAccessEnabled (rtSpec rt) /\ rCaching (rtSpec rt') = caches.

(** A client is built from the secret of the request only, once its Runtime was read
    alive; the runtime cluster is read through it; and the only write gives the
    Runtime, as it was read just before, the caches its cluster asks for, when they
    differ. *)
Definition cachingCall : guar := fun h c =>
  match c with
  | CGet Kcp KSecret key => key = request
  | CGet Kcp KRuntime key => exists secret, secretRead h secret /\ key = ownerKey secret
  | CBuildClient secret => secretRead h secret /\ liveRead h secret
  | CGet Skr _ _ | CList Skr _ _ _ => exists secret, Ev (CBuildClient secret) (Ok tt) ∈ h
  | CUpdate Kcp KRuntime rt =>
      exists secret rt0 caches, secretRead h secret /\ liveRead h secret /\ justRead h secret rt0 /\
        wantedCaching h caches /\ semanticDeepEqual caches (rCaching (rtSpec rt0)) = false /\ withCaches rt0 caches rt
  | _ => False
  end.

(** The Runtime had the caches when it was read last, or has got them since. *)
Definition cachingInSync (h : history) : Prop :=
  exists secret rt caches, secretRead h secret /\ wantedCaching h caches /\
    (justRead h secret rt /\ semanticDeepEqual caches (rCaching (rtSpec rt)) = true \/
     exists h0 sent stored, h = Ev (CUpdate Kcp KRuntime sent) (Ok stored) :: h0 /\ justRead h0 secret rt /\
       withCaches rt caches sent).

Lemma justRead_suffix h h' secret : suffix h h' -> secretRead h secret -> secretRead h' secret.
Proof. intros Hs (? & ? & ?). split_and!; [by eapply suffix_elem|done..]. Qed.

Lemma liveRead_suffix h h' secret : suffix h h' -> liveRead h secret -> liveRead h' secret.
Proof. intros Hs (rt & ? & ?). exists rt. split; [by eapply suffix_elem|done]. Qed.

Lemma wantedCaching_suffix h h' l : suffix h h' -> wantedCaching h l -> wantedCaching h' l.
Proof.
  intros Hs [e ? ?|kyma ? ?|kyma items caches ? ? ? ?].
  - eapply wanted_no_kyma; [done|by eapply suffix_elem].
  - eapply wanted_disabled; [by eapply suffix_elem|done].
  - eapply wanted_configs; [by eapply suffix_elem|done|by eapply suffix_elem|done].
Qed.

Lemma controlled_read h secret :
  Ev (CGet Kcp KSecret request) (Ok secret) ∈ h -> secretControlledByKIM secret = true -> secretRead h secret.
Proof.
  intros Hin [Hid%bool_decide_eq_true Hmanaged%String.eqb_eq]%andb_true_iff. split_and!; [done..|].
  unfold mapGet in Hmanaged. destruct (_ !! "operator.kyma-project.io/managed-by") as [x|]; cbn in Hmanaged; by subst.
Qed.

Lemma module_listed kyma :
  existsb (fun m => String.eqb m RegistryCacheModuleName) (kymaModules kyma) = true <->
  RegistryCacheModuleName ∈ kymaModules kyma.
Proof.
  rewrite existsb_exists. setoid_rewrite <- list_elem_of_In. setoid_rewrite String.eqb_eq. naive_solver.
Qed.

Lemma caches_from items : Forall2 cacheFrom items (cacheOf <$> items).
Proof. induction items; constructor; [by split_and!|done]. Qed.

Lemma fetchConfigs_ok secret h :
  Ev (CBuildClient secret) (Ok tt) ∈ h ->
  wp anyEnv cachingCall fetchConfigs h
    (returns (fun r h' => suffix h h' /\ match r with Ok caches => wantedCaching h' caches | Err _ => True end)).
Proof.
  intros Hcl. unfold fetchConfigs, moduleEnabled. wp_norm. split; [by exists secret|]. intros [crd|e] _; wp_norm; cycle 1.
  { destruct (IsNotFound e) eqn:He; wp_norm; cbn; split; try by apply suffix_cons_r.
    - eapply wanted_no_kyma; [exact He|by left].
    - done. }
  split; [exists secret; by right|]. intros [kyma|e] _; wp_norm; cbn; [|split; [by do 2 apply suffix_cons_r|done]].
  destruct (existsb _ _) eqn:Hm; wp_norm; cbn.
  - apply module_listed in Hm. split; [exists secret; by do 2 right|]. intros [items|e] _; cbn.
    + split; [by do 3 apply suffix_cons_r|]. eapply wanted_configs; [right; by left|done|by left|apply caches_from].
    + split; [by do 3 apply suffix_cons_r|done].
  - split; [by do 2 apply suffix_cons_r|]. eapply wanted_disabled; [by left|].
    intros Hin%module_listed. congruence.
Qed.

(** How a reconciliation ends. *)
Definition cachingEnd (x : Result * option GoError) (h : history) : Prop :=
  let '(res, err) := x in
  (err = None /\ res = mkResult false ReconcilePeriod /\ cachingInSync h) \/ res = mkResult false 0.

Lemma stopIfNotFound_end e h : cachingEnd (stopIfNotFound e) h.
Proof. unfold stopIfNotFound. by destruct (IsNotFound e); right. Qed.

Lemma update_ok secret rt caches h :
  secretRead h secret -> liveRead h secret -> justRead h secret rt -> wantedCaching h caches ->
  wp anyEnv cachingCall (updateRuntime rt caches) h
    (returns (fun err h' => err = None -> cachingInSync h')).
Proof.
  intros Hsec Hlive Hread Hw. unfold updateRuntime. destruct (semanticDeepEqual _ _) eqn:Heq.
  - intros _. exists secret, rt, caches. split_and!; [done..|by left].
  - wp_norm. split; [exists secret, rt, caches; by split_and!|]. intros [stored|e] _; cbn; [|done]. intros _.
    exists secret, rt, caches.
    split_and!; [eapply justRead_suffix; [|done]|eapply wantedCaching_suffix; [|done]|]; try by apply suffix_cons_r.
    right. exists h, (runtime_with_caching rt caches), stored. by split_and!.
Qed.

Lemma RegistryCacheReconcile_ok :
  wp anyEnv cachingCall (RegistryCacheReconcile KcpNamespace ReconcilePeriod request) [] (returns cachingEnd).
Proof.
  unfold RegistryCacheReconcile, registrycache_stop. wp_norm. split; [done|].
  intros [secret|e] _; wp_norm; [|apply stopIfNotFound_end].
  destruct (secretControlledByKIM secret) eqn:Hk; cbn [negb]; wp_norm; [|by right].
  apply (controlled_read [Ev (CGet Kcp KSecret request) (Ok secret)]) in Hk as Hsec; [|by left].
  split; [by exists secret|]. intros [rt0|e] _; wp_norm; [|apply stopIfNotFound_end].
  destruct (negb _ || _) eqn:Hd; wp_norm; [by right|].
  set (h0 := [_; _]). assert (liveRead h0 secret) as Hlive.
  { apply orb_false_iff in Hd as [Hz%negb_false_iff Ht%String.eqb_neq]. exists rt0. split; [by left|done]. }
  apply (justRead_suffix _ h0) in Hsec; [|by apply suffix_cons_r].
  apply wp_seq. unfold GetRuntimeClientWithScheme. destruct (secretData secret); wp_norm; [|by right].
  split; [done|]. intros [[]|e] _; wp_norm; [|by right].
  unfold applyRegistryCacheConfig. apply wp_seq. eapply wp_mono; [|apply (fetchConfigs_ok secret); by left].
  intros [[caches|e]|] h2 Hq; [|by right|done]. destruct Hq as [Hs Hw].
  assert (suffix h0 h2) as Hs0 by (etransitivity; [|exact Hs]; by apply suffix_cons_r).
  apply (justRead_suffix _ h2) in Hsec; [|done]. apply (liveRead_suffix _ h2) in Hlive; [|done].
  wp_norm. split; [by exists secret|]. intros [rt1|e] _; wp_norm; [|apply stopIfNotFound_end].
  apply wp_seq. eapply wp_mono; [|apply (update_ok secret)].
  - intros [[e|]|] h3 Hq; [apply stopIfNotFound_end| |done]. left. split_and!; [done..|by apply Hq].
  - eapply justRead_suffix; [|done]. by apply suffix_cons_r.
  - eapply liveRead_suffix; [|done]. by apply suffix_cons_r.
  - by exists h2.
  - eapply wantedCaching_suffix; [|done]. by apply suffix_cons_r.
Qed.

(** C34. The registry cache controller keeps a Runtime's caches those its cluster
    asks for: none when the cluster has no Kyma or the module is not enabled, else
    one for every RegistryCacheConfig, with its name, namespace, UID and
    configuration. The cluster is reached with the secret of the request, a
    kubeconfig of this operator whose Runtime was read and was not being deleted.
    The only write is an update of that Runtime right after it was read again, when
    the caches differ: it sends what that last read returned, metadata, status and
    all of the specification but the caches. A reconciliation that asks to be
    repeated after the period has left them in sync, and it never panics. *)
Theorem caching_follows_configs :
  wp anyEnv cachingCall (RegistryCacheReconcile KcpNamespace ReconcilePeriod request) []
    (returns (fun '(res, err) h =>
       (err = None /\ res = mkResult false ReconcilePeriod /\ cachingInSync h) \/ res = mkResult false 0)).
Proof. eapply wp_mono; [|exact RegistryCacheReconcile_ok]. by intros [[res err]|] h. Qed.

End Caching.

Definition exampleEvent : eventObject := UnstructuredObject {["runtime-id" := JString "rt"]}.

Lemma events_forwarded_witness :
  prefix [exampleEvent] [exampleEvent] /\
  (Exited = Exited -> false = false -> true = true /\ [exampleEvent] = [exampleEvent]).
Proof.
  apply (events_forwarded (mkAdapter [exampleEvent] [] true false [exampleEvent] Exited)).
  eapply rtc_l; [apply (step_write [] [] false [] Receiving exampleEvent)|].
  eapply rtc_l; [apply (step_receive [exampleEvent] exampleEvent [] false false [])|].
  eapply rtc_l; [apply step_send|].
  eapply rtc_l; [apply step_close|].
  eapply rtc_l; [apply step_drained|].
  apply rtc_refl.
Defined.
