(* ===== verification/KubeconfigController.v ===== *)
(** * Kubeconfig controller (internal/controller/kubeconfig, pkg/gardener/kubeconfig)

    Keeps, for every GardenerCluster, a secret with a kubeconfig of the runtime
    cluster: creates it, renews the kubeconfig when most of its life has passed or
    when an annotation asks for it, and deletes the secret with the resource.  Its
    time arithmetic is that of package time, with float64. *)

From Stdlib Require Import SpecFloat.
From S2P Require Import Prelude Kube Gardener RuntimeApi Objects Effects Duration Rfc3339 Floats.
From S2P Require Import Config AuditLog FsmState.
From S2P Require RegistryCacheController.

Local Open Scope string_scope.

(*@consts src/internal/controller/kubeconfig/gardener_cluster_controller.go:42-48 *)
Definition lastKubeconfigSyncAnnotation : string := "operator.kyma-project.io/last-sync".
Definition forceKubeconfigRotationAnnotation : string := "operator.kyma-project.io/force-kubeconfig-rotation".
Definition clusterCRNameLabel : string := "operator.kyma-project.io/cluster-name".
Definition rotationPeriodRatio : spec_float := f64div (f64 95) (f64 100).

(*@ src/internal/controller/kubeconfig/find_last_sync_time.go:7-19 findLastSyncTime *)
Definition findLastSyncTime (annotations : gmap string string) : option Z :=
  match annotations !! lastKubeconfigSyncAnnotation with
  | Some lastSyncTimeString => Parse lastSyncTimeString
  | None => None
  end.

(*@ src/internal/controller/kubeconfig/next_requeue.go:8-16 nextRequeue *)
Definition nextRequeue (now lastSyncTime rotationPeriod : Z) (modifier : spec_float) : Z :=
  let rotationPeriodWithModifier := f64mul modifier (Minutes rotationPeriod) in
  let minutesToRequeue := f64sub rotationPeriodWithModifier (Minutes (Sub now lastSyncTime)) in
  if SFleb minutesToRequeue (f64 0) then toDuration (f64mul rotationPeriodWithModifier (f64 Minute))
  else toDuration (f64mul minutesToRequeue (f64 Minute)).

(** The cases of the test next_requeue_test.go, which allows a nanosecond either way. *)
Definition testNow : Z := 1700000000123456789.
Example requeue_zero : nextRequeue testNow zeroTime 0 (f64 0) = 0%Z.
Proof. by vm_compute. Qed.
Example requeue_never_synced : nextRequeue testNow zeroTime Minute rotationPeriodRatio = (57 * Second)%Z.
Proof. by vm_compute. Qed.
Example requeue_half : nextRequeue testNow (testNow - 30 * Second) Minute rotationPeriodRatio = 26999999999%Z.
Proof. by vm_compute. Qed.
Example requeue_overdue : nextRequeue testNow (testNow - 900 * Second) Minute rotationPeriodRatio = (57 * Second)%Z.
Proof. by vm_compute. Qed.
Example requeue_hour : nextRequeue testNow (testNow - 45 * Minute) Hour rotationPeriodRatio = 720000000000%Z.
Proof. by vm_compute. Qed.

(** ** The provider of kubeconfigs *)

(*@ src/pkg/gardener/kubeconfig/Provider.go:13-18 Provider *)
Record Provider := mkProvider { kpShootNamespace : string; kpExpirationInSeconds : Z }.

(*@ src/pkg/gardener/kubeconfig/Provider.go:41-59 Fetch *)
Definition Fetch (kp : Provider) (shootName : string) : prog (result string) :=
  shoot ← callP (CGet Garden KShoot (mkNN (kpShootNamespace kp) shootName));
  match shoot with
  | Err err => mret (Err (wrapError "failed to get shoot" err))
  | Ok shoot =>
      kubeconfig ← callP (CAdminKubeconfig shoot (kpExpirationInSeconds kp));
      mret (mapErr (wrapError "failed to create AdminKubeconfigRequest") kubeconfig)
  end.

(** ** The controller *)

(*@ src/internal/controller/kubeconfig/gardener_cluster_controller.go:50-60 GardenerClusterController *)
Record GardenerClusterController := mkController {
  KubeconfigProvider : Provider;
  rotationPeriod : Z;
  minimalRotationTimeRatio : spec_float
}.

(*@ src/internal/controller/kubeconfig/gardener_cluster_controller.go:249-256 kubeconfigStatus *)
Inductive kubeconfigStatus := ksZero | ksCreated | ksModified | ksRotated.

Definition secret_with (s : Secret) (annotations : gmap string string) (data : option (gmap string string)) : Secret :=
  mkSecret (meta_with_annotations (secretMeta s) annotations) (secretType s) (secretImmutable s) data
    (secretStringData s).

Definition gc_with_meta (c : GardenerCluster) (m : ObjectMeta) : GardenerCluster :=
  mkGardenerCluster m (gcShootName c) (gcSecretName c) (gcSecretNamespace c) (gcSecretKey c) (gcState c)
    (gcConditions c).

(** The zero value of the variable the resource is read into. *)
Definition emptyCluster : GardenerCluster := mkGardenerCluster (metaNamed "" "") "" "" "" "" "" [].

(*@ src/internal/controller/kubeconfig/gardener_cluster_controller.go:316-324 secretRotationForced *)
Definition secretRotationForced (cluster : GardenerCluster) : bool :=
  bool_decide (is_Some (Annotations (gcMeta cluster) !! forceKubeconfigRotationAnnotation)).

(*@ src/internal/controller/kubeconfig/gardener_cluster_controller.go:299-314 secretRotationTimePassed *)
Definition secretRotationTimePassed (secret : option Secret) (rotationPeriod now : Z) : bool :=
  match secret with
  | None => true
  | Some secret =>
      match findLastSyncTime (Annotations (secretMeta secret)) with
      | None => true
      | Some lastSyncTime =>
          let minutesToRotate := Minutes (Sub now lastSyncTime) in
          let minutesInRotationPeriod := f64mul rotationPeriodRatio (Minutes rotationPeriod) in
          SFleb minutesInRotationPeriod minutesToRotate
      end
  end.

(*@ src/internal/controller/kubeconfig/gardener_cluster_controller.go:295-297 secretNeedsToBeRotated *)
Definition secretNeedsToBeRotated (cluster : GardenerCluster) (secret : option Secret) (rotationPeriod now : Z) : bool :=
  secretRotationTimePassed secret rotationPeriod now || secretRotationForced cluster.

(*@ src/internal/controller/kubeconfig/gardener_cluster_controller.go:410-428 newSecret *)
Definition newSecret (cluster : GardenerCluster) (kubeconfig : string) (now : Z) : Secret :=
  mkSecret
    (mkMeta (gcSecretName cluster) "" (gcSecretNamespace cluster) "" "" 0 None
       (<[clusterCRNameLabel := Name (gcMeta cluster)]>
         (<["operator.kyma-project.io/managed-by" := "infrastructure-manager"]> (Labels (gcMeta cluster))))
       {[lastKubeconfigSyncAnnotation := Format now]} [] [])
    "" None None {[gcSecretKey cluster := kubeconfig]}.

(** What removeKubeconfig and updateExistingSecret send. *)
Definition withoutKubeconfig (cluster : GardenerCluster) (s : Secret) : Secret :=
  secret_with s (delete lastKubeconfigSyncAnnotation (Annotations (secretMeta s)))
    (delete (gcSecretKey cluster) <$> secretData s).
Definition withKubeconfig (cluster : GardenerCluster) (s : Secret) (kubeconfig : string) (now : Z) : Secret :=
  secret_with s (<[lastKubeconfigSyncAnnotation := Format now]> (Annotations (secretMeta s)))
    (Some (<[gcSecretKey cluster := kubeconfig]> (default ∅ (secretData s)))).

Section Controller.
Context `{MetaLib}.
Context (controller : GardenerClusterController).

Definition errorState (reason : ClusterConditionReason) (err : GoError) (cluster : GardenerCluster) :
    prog GardenerCluster :=
  now ← Now; Ret (UpdateConditionForErrorState now ConditionTypeKubeconfigManagement reason err cluster).
Definition readyState (reason : ClusterConditionReason) (cluster : GardenerCluster) : prog GardenerCluster :=
  now ← Now; Ret (UpdateConditionForReadyState now ConditionTypeKubeconfigManagement reason ConditionTrue cluster).

Definition expirationOf (secret : Secret) : metricOp :=
  SetKubeconfigExpiration secret (rotationPeriod controller) (minimalRotationTimeRatio controller).

(** The functions that are given the cluster return it as they leave it. *)
(*@ src/internal/controller/kubeconfig/gardener_cluster_controller.go:326-340 createNewSecret *)
Definition createNewSecret (kubeconfig : string) (cluster : GardenerCluster) (now : Z) :
    prog (GardenerCluster * option GoError) :=
  r ← callP (CCreate Kcp KSecret (newSecret cluster kubeconfig now));
  match r with
  | Err err => cluster ← errorState ConditionReasonFailedToCreateSecret err cluster; Ret (cluster, Some err)
  | Ok secret =>
      cluster ← readyState ConditionReasonKubeconfigSecretCreated cluster;
      _ ← metric (expirationOf secret);
      Ret (cluster, None)
  end.

(*@ src/internal/controller/kubeconfig/gardener_cluster_controller.go:342-354 removeKubeconfig *)
Definition removeKubeconfig (cluster : GardenerCluster) (existingSecret : option Secret) : prog (option GoError) :=
  match existingSecret with
  | None => Ret None
  | Some existingSecret =>
      callP (CUpdate Kcp KSecret (withoutKubeconfig cluster existingSecret)) ≫= fun r => Ret (errOf r)
  end.

(*@ src/internal/controller/kubeconfig/gardener_cluster_controller.go:356-383 updateExistingSecret *)
Definition updateExistingSecret (kubeconfig : string) (cluster : GardenerCluster) (existingSecret : Secret)
    (lastSyncTime : Z) : prog (GardenerCluster * option GoError) :=
  r ← callP (CUpdate Kcp KSecret (withKubeconfig cluster existingSecret kubeconfig lastSyncTime));
  match r with
  | Err err => cluster ← errorState ConditionReasonFailedToUpdateSecret err cluster; Ret (cluster, Some err)
  | Ok existingSecret =>
      cluster ← readyState ConditionReasonKubeconfigSecretRotated cluster;
      _ ← metric (expirationOf existingSecret);
      Ret (cluster, None)
  end.

(*@ src/internal/controller/kubeconfig/gardener_cluster_controller.go:258-293 handleKubeconfig *)
Definition handleKubeconfig (secret : option Secret) (cluster : GardenerCluster) (now : Z) :
    prog (GardenerCluster * (kubeconfigStatus * option GoError)) :=
  kubeconfig ← Fetch (KubeconfigProvider controller) (gcShootName cluster);
  match kubeconfig with
  | Err err =>
      cluster ← errorState ConditionReasonFailedToGetKubeconfig err cluster; Ret (cluster, (ksZero, Some err))
  | Ok kubeconfig =>
      if secretRotationForced cluster then
        err ← removeKubeconfig cluster secret;
        match err with
        | Some err =>
            cluster ← errorState ConditionReasonFailedToDeleteSecret err cluster;
            Ret (cluster, (ksZero, Some err))
        | None =>
            _ ← metric (CleanUpKubeconfigExpiration (Name (gcMeta cluster)));
            Ret (cluster, (ksRotated, None))
        end
      else if negb (secretNeedsToBeRotated cluster secret (rotationPeriod controller) now) then
        cluster ← readyState ConditionReasonKubeconfigSecretCreated cluster;
        secret ← deref secret;
        _ ← metric (expirationOf secret);
        Ret (cluster, (ksZero, None))
      else
        match secret with
        | Some secret =>
            '(cluster, err) ← updateExistingSecret kubeconfig cluster secret now; Ret (cluster, (ksModified, err))
        | None => '(cluster, err) ← createNewSecret kubeconfig cluster now; Ret (cluster, (ksCreated, err))
        end
  end.

(** The cluster as the server stored it, if it did. *)
(*@ src/internal/controller/kubeconfig/gardener_cluster_controller.go:192-198 persistStatusChange *)
Definition persistStatusChange (cluster : GardenerCluster) : prog (GardenerCluster * option GoError) :=
  r ← callP (CUpdateStatus Kcp KGardenerCluster cluster);
  Ret (match r with Ok stored => (stored, None) | Err err => (cluster, Some err) end).

(*@ src/internal/controller/kubeconfig/gardener_cluster_controller.go:187-190 resultWithoutRequeue *)
Definition resultWithoutRequeue (cluster : GardenerCluster) (err : option GoError) : prog (Result * option GoError) :=
  _ ← metric (SetGardenerClusterStates cluster); Ret (mkResult false 0, err).

(*@ src/internal/controller/kubeconfig/gardener_cluster_controller.go:178-185 resultWithRequeue *)
Definition resultWithRequeue (cluster : GardenerCluster) (requeueAfter : Z) : prog (Result * option GoError) :=
  _ ← metric (SetGardenerClusterStates cluster); Ret (mkResult true requeueAfter, None).

(*@ src/internal/controller/kubeconfig/gardener_cluster_controller.go:200-222 deleteKubeconfigSecret *)
Definition deleteKubeconfigSecret (clusterCRName : string) : prog (option GoError) :=
  secrets ← callP (CList Kcp KSecret "" {[clusterCRNameLabel := clusterCRName]});
  match failsUnlessNotFound secrets with
  | Some err => mret (Some err)
  | None =>
      match (match secrets with Ok items => items | Err _ => [] end) with
      | [] => mret None
      | [secret] => r ← callP (CDelete Kcp KSecret secret); mret (errOf r)
      | _ => mret (Some (newError ("unexpected numer of secrets found for cluster CR `" +:+ clusterCRName +:+ "`")))
      end
  end.

(*@ src/internal/controller/kubeconfig/gardener_cluster_controller.go:224-247 getSecret *)
Definition getSecret (shootName : string) : prog (result Secret) :=
  secrets ← callP (CList Kcp KSecret "" {["kyma-project.io/shoot-name" := shootName]});
  mret
    (match secrets with
     | Err err => Err err
     | Ok [] => Err (mkError ReasonNotFound "")
     | Ok [secret] => Ok secret
     | Ok _ => Err (newError ("unexpected numer of secrets found for shoot `" +:+ shootName +:+ "`"))
     end).

(*@ src/internal/controller/kubeconfig/gardener_cluster_controller.go:385-408 removeForceRotationAnnotation *)
Definition removeForceRotationAnnotation (cluster : GardenerCluster) : prog (option GoError) :=
  if secretRotationForced cluster then
    clusterToUpdate ← callP (CGet Kcp KGardenerCluster (mkNN (Namespace (gcMeta cluster)) (Name (gcMeta cluster))));
    match clusterToUpdate with
    | Err err => mret (Some err)
    | Ok clusterToUpdate =>
        let m := gcMeta clusterToUpdate in
        r ← callP (CUpdate Kcp KGardenerCluster
                (gc_with_meta clusterToUpdate
                   (meta_with_annotations m (delete forceKubeconfigRotationAnnotation (Annotations m)))));
        mret (errOf r)
    end
  else mret None.

(** From the status change on. *)
Definition persistAndRequeue (cluster : GardenerCluster) (requeueAfter : Z) : prog (Result * option GoError) :=
  '(cluster, err) ← persistStatusChange cluster;
  match err with
  | Some err => resultWithoutRequeue cluster (Some err)
  | None => resultWithRequeue cluster requeueAfter
  end.

(** The reconciliation of a cluster that exists. *)
Definition reconcileCluster (cluster : GardenerCluster) : prog (Result * option GoError) :=
  secret ← getSecret (gcShootName cluster);
  match failsUnlessNotFound secret with
  | Some err =>
      cluster ← errorState ConditionReasonFailedToGetSecret err cluster;
      '(cluster, _) ← persistStatusChange cluster;
      resultWithoutRequeue cluster (Some err)
  | None =>
      let secret := match secret with Ok s => Some s | Err _ => None end in
      let annotations := match secret with Some s => Annotations (secretMeta s) | None => ∅ end in
      let lastSyncTime := default zeroTime (findLastSyncTime annotations) in
      now ← Now;
      let requeueAfter := nextRequeue now lastSyncTime (rotationPeriod controller) rotationPeriodRatio in
      '(cluster, (status, err)) ← handleKubeconfig secret cluster now;
      match err with
      | Some err =>
          '(cluster, _) ← persistStatusChange cluster;
          resultWithoutRequeue cluster (if IsNotFound err then None else Some err)
      | None =>
          match status with
          | ksRotated =>
              err ← removeForceRotationAnnotation cluster;
              match err with
              | Some err => resultWithoutRequeue cluster (Some err)
              | None => persistAndRequeue cluster requeueAfter
              end
          | _ => persistAndRequeue cluster requeueAfter
          end
      end
  end.

(*@ src/internal/controller/kubeconfig/gardener_cluster_controller.go:95-163 Reconcile *)
Definition ClusterReconcile (req : NamespacedName) : prog (Result * option GoError) :=
  cluster ← callP (CGet Kcp KGardenerCluster req);
  match cluster with
  | Err err =>
      if IsNotFound err then
        _ ← metric (CleanUpGardenerClusterGauge (nn_Name req));
        _ ← metric (CleanUpKubeconfigExpiration (nn_Name req));
        err ← deleteKubeconfigSecret (nn_Name req);
        resultWithoutRequeue emptyCluster err
      else resultWithoutRequeue emptyCluster (Some err)
  | Ok cluster => reconcileCluster cluster
  end.

End Controller.

(** The updates of a GardenerCluster the controller is called for. *)
(*@ src/internal/controller/kubeconfig/gardener_cluster_controller.go:430-440 SetupWithManager *)
Definition clusterEventFilter (old new : GardenerCluster) : bool := metaChanged (gcMeta old) (gcMeta new).

(** ** Lemmas *)

(** Only the status differs. *)
Definition sameButStatus (c c' : GardenerCluster) : Prop :=
  gcMeta c = gcMeta c' /\ gcShootName c = gcShootName c' /\ gcSecretName c = gcSecretName c' /\
  gcSecretNamespace c = gcSecretNamespace c' /\ gcSecretKey c = gcSecretKey c'.

Definition withoutForce (c : GardenerCluster) : GardenerCluster :=
  gc_with_meta c
    (meta_with_annotations (gcMeta c) (delete forceKubeconfigRotationAnnotation (Annotations (gcMeta c)))).

(** A write of the status stored: the server gives the object another resource
    version and notes the write in the managed fields; the rest of the metadata is
    as it was, and so is the specification. *)
Definition statusStored (c c' : GardenerCluster) : Prop :=
  (exists version fields, gcMeta c' =
     let m := gcMeta c in
     mkMeta (Name m) (GenerateName m) (Namespace m) (UID m) version (Generation m) (DeletionTimestamp m)
       (Labels m) (Annotations m) (Finalizers m) fields) /\
  gcShootName c' = gcShootName c /\ gcSecretName c' = gcSecretName c /\
  gcSecretNamespace c' = gcSecretNamespace c /\ gcSecretKey c' = gcSecretKey c.

(** The time of the last synchronisation survives the annotation. *)
Lemma findLastSyncTime_recorded (annotations : gmap string string) now :
  (zeroTime <= now < (3652059 - epochDay) * 86400 * Second)%Z ->
  findLastSyncTime (<[lastKubeconfigSyncAnnotation := Format now]> annotations) = Some (now / Second * Second)%Z.
Proof. intros Hnow. unfold findLastSyncTime. rewrite lookup_insert_eq. by apply Parse_Format. Qed.

(** C39. What a secret records is what the next reconciliation reads: of the secret
    the controller creates, and of one it updates, the time of the synchronisation
    is read back to the second and the kubeconfig is the one given, under the key
    the cluster asks for; a secret stripped of its kubeconfig for a forced rotation
    has neither, so that the next reconciliation renews it.  That reconciliation
    follows at once: removing the annotation that forced the rotation is an event
    the controller is called for, while a stored write of the status, which gives the
    cluster another resource version, is none; and the registry cache
    controller is called for a secret whose recorded time changes. *)
Theorem sync_time_recorded cluster s kubeconfig period now
    (Hnow : (zeroTime <= now < (3652059 - epochDay) * 86400 * Second)%Z) :
  let created := newSecret cluster kubeconfig now in
  let updated := withKubeconfig cluster s kubeconfig now in
  let stripped := withoutKubeconfig cluster s in
  findLastSyncTime (Annotations (secretMeta created)) = Some (now / Second * Second)%Z /\
  secretStringData created !! gcSecretKey cluster = Some kubeconfig /\
  findLastSyncTime (Annotations (secretMeta updated)) = Some (now / Second * Second)%Z /\
  (d ← secretData updated; d !! gcSecretKey cluster) = Some kubeconfig /\
  (d ← secretData stripped; d !! gcSecretKey cluster) = None /\
  secretNeedsToBeRotated cluster (Some stripped) period now = true /\
  (forall cluster', secretRotationForced cluster = true ->
     Annotations (gcMeta cluster') = delete forceKubeconfigRotationAnnotation (Annotations (gcMeta cluster)) ->
     clusterEventFilter cluster cluster' = true) /\
  (forall cluster', statusStored cluster cluster' -> clusterEventFilter cluster cluster' = false) /\
  (findLastSyncTime (Annotations (secretMeta s)) <> Some (now / Second * Second)%Z ->
     RegistryCacheController.secretEventFilter s updated = true).
Proof.
  split_and!.
  - by apply findLastSyncTime_recorded.
  - apply lookup_singleton_eq.
  - by apply findLastSyncTime_recorded.
  - cbn. apply lookup_insert_eq.
  - cbn. destruct (secretData s); cbn; [apply lookup_delete_eq|done].
  - unfold secretNeedsToBeRotated, secretRotationTimePassed, findLastSyncTime. cbn. by rewrite lookup_delete_eq.
  - unfold secretRotationForced. intros cluster' [a Ha]%bool_decide_eq_true Hd. apply metaChanged_annotations.
    rewrite Hd. intros Heq. rewrite Heq, lookup_delete_eq in Ha. done.
  - intros cluster' [(version & fields & Hm) _]. unfold clusterEventFilter. by apply metaChanged_same; rewrite Hm.
  - intros Hne. apply metaChanged_annotations. cbn. intros Heq. apply Hne. rewrite Heq. by apply findLastSyncTime_recorded.
Qed.

Definition exampleCluster : GardenerCluster :=
  mkGardenerCluster (metaNamed "runtime-1" "kcp-system") "shoot-1" "kubeconfig-runtime-1" "kcp-system" "config" "" [].

Lemma sync_time_recorded_witness :
  findLastSyncTime (Annotations (secretMeta (newSecret exampleCluster "kubeconfig" testNow))) =
  Some (testNow / Second * Second)%Z.
Proof.
  apply (sync_time_recorded exampleCluster (newSecret exampleCluster "" 0) "kubeconfig" Hour testNow).
  vm_compute. split; [discriminate|reflexivity].
Defined.

Section Reconciliation.
Context `{MetaLib}.
Context (controller : GardenerClusterController) (req : NamespacedName).
Abbreviation period := (rotationPeriod controller).

(** What the controller was told. *)
Definition clusterRead (h : history) (cluster : GardenerCluster) : Prop :=
  Ev (CGet Kcp KGardenerCluster req) (Ok cluster) ∈ h.
Definition secretsListed (h : history) (cluster : GardenerCluster) (answer : result (list Secret)) : Prop :=
  Ev (CList Kcp KSecret "" {["kyma-project.io/shoot-name" := gcShootName cluster]}) answer ∈ h.
(** The secret of the cluster, or that there is none. *)
Definition secretRead (h : history) (cluster : GardenerCluster) (secret : option Secret) : Prop :=
  match secret with
  | Some s => secretsListed h cluster (Ok [s])
  | None => exists answer, secretsListed h cluster answer /\
      match answer with Ok l => l = [] | Err e => IsNotFound e = true end
  end.
Definition fetched (h : history) (cluster : GardenerCluster) (kubeconfig : string) : Prop :=
  let kp := KubeconfigProvider controller in
  exists shoot, Ev (CGet Garden KShoot (mkNN (kpShootNamespace kp) (gcShootName cluster))) (Ok shoot) ∈ h /\
    Ev (CAdminKubeconfig shoot (kpExpirationInSeconds kp)) (Ok kubeconfig) ∈ h.

(** The calls the controller may make, and what has to be known by then. *)
Definition kubeconfigCall : guar := fun h c =>
  match c with
  | CGet _ _ _ | CList _ _ _ _ | CNow | CMetric _ => True
  | CAdminKubeconfig shoot _ => exists key, Ev (CGet Garden KShoot key) (Ok shoot) ∈ h
  | CDelete Kcp KSecret s =>
      exists e, IsNotFound e = true /\ Ev (CGet Kcp KGardenerCluster req) (Err e) ∈ h /\
        Ev (CList Kcp KSecret "" {[clusterCRNameLabel := nn_Name req]}) (Ok [s]) ∈ h
  | CCreate Kcp KSecret s =>
      exists cluster kubeconfig now, clusterRead h cluster /\ secretRead h cluster None /\
        fetched h cluster kubeconfig /\ Ev CNow now ∈ h /\ secretRotationForced cluster = false /\
        s = newSecret cluster kubeconfig now
  | CUpdate Kcp KSecret s =>
      exists cluster s0 kubeconfig now, clusterRead h cluster /\ secretRead h cluster (Some s0) /\
        fetched h cluster kubeconfig /\ Ev CNow now ∈ h /\
        if secretRotationForced cluster then s = withoutKubeconfig cluster s0
        else secretRotationTimePassed (Some s0) period now = true /\ s = withKubeconfig cluster s0 kubeconfig now
  | CUpdate Kcp KGardenerCluster c =>
      exists cluster c0, clusterRead h cluster /\ secretRotationForced cluster = true /\
        Ev (CGet Kcp KGardenerCluster (mkNN (Namespace (gcMeta cluster)) (Name (gcMeta cluster)))) (Ok c0) ∈ h /\
        c = withoutForce c0
  | CUpdateStatus Kcp KGardenerCluster c => exists cluster, clusterRead h cluster /\ sameButStatus cluster c
  | _ => False
  end.

(** The kubeconfig was made as it should be by [now]. *)
Definition settled (h : history) (cluster : GardenerCluster) (secret : option Secret) (now : Z) : Prop :=
  if secretRotationForced cluster then
    (forall s, secret = Some s ->
       exists stored, Ev (CUpdate Kcp KSecret (withoutKubeconfig cluster s)) (Ok stored) ∈ h) /\
    exists c0 stored, Ev (CUpdate Kcp KGardenerCluster (withoutForce c0)) (Ok stored) ∈ h
  else if secretRotationTimePassed secret period now then
    exists kubeconfig, fetched h cluster kubeconfig /\
      match secret with
      | Some s => exists stored, Ev (CUpdate Kcp KSecret (withKubeconfig cluster s kubeconfig now)) (Ok stored) ∈ h
      | None => exists stored, Ev (CCreate Kcp KSecret (newSecret cluster kubeconfig now)) (Ok stored) ∈ h
      end
  else True.

(** Facts stay known. *)
Lemma clusterRead_suffix h h' c : suffix h h' -> clusterRead h c -> clusterRead h' c.
Proof. intros Hs. by apply suffix_elem. Qed.
Lemma secretRead_suffix h h' c s : suffix h h' -> secretRead h c s -> secretRead h' c s.
Proof.
  intros Hs. destruct s as [s|]; cbn; [by apply suffix_elem|]. intros (a & Ha & ?). exists a.
  split; [by eapply suffix_elem|done].
Qed.
Lemma fetched_suffix h h' c k : suffix h h' -> fetched h c k -> fetched h' c k.
Proof. intros Hs (shoot & ? & ?). exists shoot. split; by eapply suffix_elem. Qed.

Lemma sameButStatus_set st cond c : sameButStatus c (setClusterCondition st cond c).
Proof. done. Qed.

(** A write justified by what was read, then its answer. *)
Ltac seen := first [by left | right; seen].

(** The secret was stripped, if there is one. *)
Definition strippedSecret (h : history) (cluster : GardenerCluster) (secret : option Secret) : Prop :=
  forall s, secret = Some s ->
    exists stored, Ev (CUpdate Kcp KSecret (withoutKubeconfig cluster s)) (Ok stored) ∈ h.

(** What handleKubeconfig promises of its end. *)
Definition handled (cluster : GardenerCluster) (secret : option Secret) (now : Z) (h : history)
    (x : GardenerCluster * (kubeconfigStatus * option GoError)) (h' : history) : Prop :=
  let '(c', (status, err)) := x in
  suffix h h' /\ sameButStatus cluster c' /\
  (err = None ->
   match status with
   | ksRotated => secretRotationForced cluster = true /\ strippedSecret h' cluster secret
   | _ => secretRotationForced cluster = false /\ settled h' cluster secret now
   end).

Ltac grown := repeat apply suffix_cons_r; assumption || reflexivity.

Lemma handleForced_ok cluster secret kubeconfig now h0 h :
  suffix h0 h -> clusterRead h cluster -> secretRead h cluster secret -> fetched h cluster kubeconfig ->
  Ev CNow now ∈ h -> secretRotationForced cluster = true ->
  wp anyEnv kubeconfigCall (removeKubeconfig cluster secret ≫= fun err =>
    match err with
    | Some err =>
        errorState ConditionReasonFailedToDeleteSecret err cluster ≫= fun cluster =>
        Ret (cluster, (ksZero, Some err))
    | None =>
        metric (CleanUpKubeconfigExpiration (Name (gcMeta cluster))) ≫= fun _ => Ret (cluster, (ksRotated, None))
    end) h (returns (handled cluster secret now h0)).
Proof.
  intros Hs Hc Hr Hf Hnow Hforced. unfold removeKubeconfig. destruct secret as [s|]; wp_norm; cycle 1.
  { split; [exact I|]. intros [] _. cbn. split_and!; [grown|done|]. intros _. split; [done|]. by intros s ?. }
  split. { exists cluster, s, kubeconfig, now. rewrite Hforced. by split_and!. }
  intros [stored|e] _; cbn.
  - split; [exact I|]. intros [] _. split_and!; [grown|done|]. intros _. split; [done|].
    intros s' [= <-]. exists stored. seen.
  - split; [exact I|]. intros t _. by split_and!; [grown|..].
Qed.

Lemma createNewSecret_ok cluster kubeconfig now h0 h :
  suffix h0 h -> clusterRead h cluster -> secretRead h cluster None -> fetched h cluster kubeconfig ->
  Ev CNow now ∈ h -> secretRotationForced cluster = false ->
  wp anyEnv kubeconfigCall ('(cluster, err) ← createNewSecret controller kubeconfig cluster now;
    Ret (cluster, (ksCreated, err))) h (returns (handled cluster None now h0)).
Proof.
  intros Hs Hc Hr Hf Hnow Hforced. unfold createNewSecret. apply wp_seq. wp_norm.
  split. { by exists cluster, kubeconfig, now. }
  intros [stored|e] _; cbn; (split; [exact I|]); intros t _; cbn; [|by split_and!; [grown|..]].
  split; [exact I|]. intros [] _. cbn. split_and!; [grown|done|]. intros _. split; [done|].
  unfold settled. rewrite Hforced. cbn. exists kubeconfig. split; [eapply fetched_suffix; [|done]; grown|].
  exists stored. seen.
Qed.

Lemma updateExistingSecret_ok cluster s kubeconfig now h0 h :
  suffix h0 h -> clusterRead h cluster -> secretRead h cluster (Some s) -> fetched h cluster kubeconfig ->
  Ev CNow now ∈ h -> secretRotationForced cluster = false -> secretRotationTimePassed (Some s) period now = true ->
  wp anyEnv kubeconfigCall ('(cluster, err) ← updateExistingSecret controller kubeconfig cluster s now;
    Ret (cluster, (ksModified, err))) h (returns (handled cluster (Some s) now h0)).
Proof.
  intros Hs Hc Hr Hf Hnow Hforced Hdue. unfold updateExistingSecret. apply wp_seq. wp_norm.
  split. { exists cluster, s, kubeconfig, now. rewrite Hforced. by split_and!. }
  intros [stored|e] _; cbn; (split; [exact I|]); intros t _; cbn; [|by split_and!; [grown|..]].
  split; [exact I|]. intros [] _. cbn. split_and!; [grown|done|]. intros _. split; [done|].
  unfold settled. rewrite Hforced, Hdue. exists kubeconfig. split; [eapply fetched_suffix; [|done]; grown|].
  exists stored. seen.
Qed.

Lemma handleKubeconfig_ok cluster secret now h :
  clusterRead h cluster -> secretRead h cluster secret -> Ev CNow now ∈ h ->
  wp anyEnv kubeconfigCall (handleKubeconfig controller secret cluster now) h
    (returns (handled cluster secret now h)).
Proof.
  intros Hc Hr Hnow. unfold handleKubeconfig, Fetch. wp_norm. split; [exact I|].
  intros [shoot|e] _; wp_norm; cycle 1. { split; [exact I|]. intros t _. cbn. by split_and!; [grown|..]. }
  split. { eexists. seen. }
  intros [kubeconfig|e] _; wp_norm; cycle 1. { split; [exact I|]. intros t _. cbn. by split_and!; [grown|..]. }
  set (h1 := _ :: _ :: h). assert (suffix h h1) as Hs1 by grown.
  assert (fetched h1 cluster kubeconfig) as Hf by (exists shoot; split; [right; by left|by left]).
  apply (clusterRead_suffix _ h1) in Hc; [|done]. apply (secretRead_suffix _ h1) in Hr; [|done].
  apply (suffix_elem _ h1) in Hnow; [|done]. clearbody h1.
  destruct (secretRotationForced cluster) eqn:Hforced; [by eapply handleForced_ok|].
  unfold secretNeedsToBeRotated. rewrite Hforced, orb_false_r.
  destruct (secretRotationTimePassed secret period now) eqn:Hdue; cbn [negb].
  - destruct secret as [s|]; [by eapply updateExistingSecret_ok|by eapply createNewSecret_ok].
  - destruct secret as [s|]; [|done]. wp_norm. cbn. split; [exact I|]. intros t _. cbn. split; [exact I|].
    intros [] _. cbn. split_and!; [grown|done|]. intros _. split; [done|]. unfold settled. by rewrite Hforced, Hdue.
Qed.

(** The cluster is gone, and its secret too unless an error is returned. *)
Definition cleanedUp (h : history) (err : option GoError) : Prop :=
  exists e, IsNotFound e = true /\ Ev (CGet Kcp KGardenerCluster req) (Err e) ∈ h /\
  (err = None ->
     exists answer, Ev (CList Kcp KSecret "" {[clusterCRNameLabel := nn_Name req]}) answer ∈ h /\
     match answer with
     | Err e => IsNotFound e = true
     | Ok l => l = [] \/ exists s, l = [s] /\ Ev (CDelete Kcp KSecret s) (Ok tt) ∈ h
     end).

(** The cluster was dealt with and will be again when the kubeconfig is due. *)
Definition requeued (h : history) (res : Result) (err : option GoError) : Prop :=
  err = None /\
  exists cluster secret now, clusterRead h cluster /\ secretRead h cluster secret /\ Ev CNow now ∈ h /\
    settled h cluster secret now /\
    (exists c stored, Ev (CUpdateStatus Kcp KGardenerCluster c) (Ok stored) ∈ h /\ sameButStatus cluster c) /\
    res = mkResult true
      (nextRequeue now
         (default zeroTime (findLastSyncTime (match secret with Some s => Annotations (secretMeta s) | None => ∅ end)))
         period rotationPeriodRatio).

(** What Reconcile promises of its end. *)
Definition reconciled (x : Result * option GoError) (h : history) : Prop :=
  let '(res, err) := x in requeued h res err \/ res = mkResult false 0.

Lemma settled_suffix h h' cluster secret now :
  suffix h h' -> settled h cluster secret now -> settled h' cluster secret now.
Proof.
  intros Hs. unfold settled. destruct (secretRotationForced cluster).
  - intros [Hstr (c0 & stored & Hc0)]. split.
    + intros s Hsec. destruct (Hstr s Hsec) as [st ?]. exists st. by eapply suffix_elem.
    + exists c0, stored. by eapply suffix_elem.
  - destruct (secretRotationTimePassed _ _ _); [|done]. intros (kubeconfig & Hf & Hw). exists kubeconfig.
    split; [by eapply fetched_suffix|]. destruct secret; destruct Hw as [stored ?]; exists stored; by eapply suffix_elem.
Qed.

(** Any status change of the cluster, whose failure is reported otherwise. *)
Lemma persist_and_stop_ok cluster c' err h :
  clusterRead h cluster -> sameButStatus cluster c' ->
  wp anyEnv kubeconfigCall (persistStatusChange c' ≫= fun '(c'', _) => resultWithoutRequeue c'' err) h
    (returns reconciled).
Proof.
  intros Hc Hsame. unfold persistStatusChange, resultWithoutRequeue. wp_norm. split; [by exists cluster|].
  intros [stored|e] _; cbn; (split; [exact I|]); intros [] _; by right.
Qed.

Lemma persistAndRequeue_ok cluster secret now c' h :
  clusterRead h cluster -> secretRead h cluster secret -> Ev CNow now ∈ h -> sameButStatus cluster c' ->
  settled h cluster secret now ->
  wp anyEnv kubeconfigCall (persistAndRequeue c'
    (nextRequeue now
       (default zeroTime (findLastSyncTime (match secret with Some s => Annotations (secretMeta s) | None => ∅ end)))
       period rotationPeriodRatio)) h (returns reconciled).
Proof.
  intros Hc Hr Hnow Hsame Hset. unfold persistAndRequeue, persistStatusChange, resultWithoutRequeue, resultWithRequeue.
  wp_norm. split; [by exists cluster|]. intros [stored|e] _; cbn; (split; [exact I|]); intros [] _; [|by right].
  left. split; [done|]. exists cluster, secret, now.
  set (h' := _ :: _ :: h). assert (suffix h h') as Hs by grown.
  split_and!; [by eapply clusterRead_suffix|by eapply secretRead_suffix|by eapply suffix_elem| | |done].
  - by eapply settled_suffix.
  - exists c', stored. split; [right; by left|done].
Qed.

(** The rest of a reconciliation after a forced rotation. *)
Lemma afterRotation_ok cluster secret now c' h after :
  clusterRead h cluster -> secretRead h cluster secret -> Ev CNow now ∈ h -> sameButStatus cluster c' ->
  secretRotationForced cluster = true -> strippedSecret h cluster secret ->
  after = nextRequeue now
    (default zeroTime (findLastSyncTime (match secret with Some s => Annotations (secretMeta s) | None => ∅ end)))
    period rotationPeriodRatio ->
  wp anyEnv kubeconfigCall (removeForceRotationAnnotation c' ≫= fun err =>
    match err with
    | Some err => resultWithoutRequeue c' (Some err)
    | None => persistAndRequeue c' after
    end) h (returns reconciled).
Proof.
  intros Hc Hr Hnow Hsame Hforced Hstr ->. unfold removeForceRotationAnnotation, resultWithoutRequeue.
  destruct Hsame as [Hm Hrest]. unfold secretRotationForced in *. rewrite <- Hm, Hforced. wp_norm.
  split; [exact I|]. intros [c0|e] _; cbn; cycle 1. { split; [exact I|]. intros [] _. by right. }
  split. { exists cluster, c0. split_and!; [by right|done|by left|done]. }
  intros [stored|e] _; cbn; cycle 1. { split; [exact I|]. intros [] _. by right. }
  set (h' := _ :: _ :: h). assert (suffix h h') as Hs by grown.
  apply (persistAndRequeue_ok cluster); [by eapply clusterRead_suffix|by eapply secretRead_suffix|
    by eapply suffix_elem|by split|].
  unfold settled. unfold secretRotationForced. rewrite Hforced. split.
  - intros s Hsec. destruct (Hstr s Hsec) as [st ?]. exists st. by eapply suffix_elem.
  - exists c0, stored. by left.
Qed.

Lemma deleteKubeconfigSecret_ok e h :
  IsNotFound e = true -> Ev (CGet Kcp KGardenerCluster req) (Err e) ∈ h ->
  wp anyEnv kubeconfigCall (deleteKubeconfigSecret (nn_Name req)) h (returns (fun err h' => cleanedUp h' err)).
Proof.
  intros Hn He. unfold deleteKubeconfigSecret. wp_norm. split; [exact I|].
  assert (forall h' err, suffix h h' ->
    (err = None -> exists answer, Ev (CList Kcp KSecret "" {[clusterCRNameLabel := nn_Name req]}) answer ∈ h' /\
     match answer with
     | Err e => IsNotFound e = true
     | Ok l => l = [] \/ exists s, l = [s] /\ Ev (CDelete Kcp KSecret s) (Ok tt) ∈ h'
     end) -> cleanedUp h' err) as Hup.
  { intros h' err Hs Hg. exists e. split_and!; [done|by eapply suffix_elem|done]. }
  intros [[|s [|s' l]]|e'] _; wp_norm; cbn.
  - apply Hup; [grown|]. intros _. eexists. split; [seen|by left].
  - split. { exists e. split_and!; [done|by right|by left]. }
    intros [[]|e'] _; cbn; (apply Hup; [grown|]); [|done]. intros _. exists (Ok [s]). split; [seen|].
    right. exists s. split; [done|seen].
  - apply Hup; [grown|done].
  - destruct (IsNotFound e') eqn:He'; cbn; (apply Hup; [grown|]); [|done]. intros _. eexists. by split; [seen|].
Qed.

Lemma getSecret_ok cluster h :
  wp anyEnv kubeconfigCall (getSecret (gcShootName cluster)) h (returns (fun r h' => suffix h h' /\
    (failsUnlessNotFound r = None -> secretRead h' cluster (match r with Ok s => Some s | Err _ => None end)))).
Proof.
  unfold getSecret. wp_norm. split; [exact I|].
  intros [[|s [|s' l]]|e] _; cbn; (split; [grown|]); try done.
  - intros _. eexists. by split; [by left|].
  - intros _. by left.
  - destruct (IsNotFound e) eqn:He; [|done]. intros _. eexists. split; [by left|done].
Qed.

Lemma reconcileCluster_ok cluster h :
  clusterRead h cluster -> wp anyEnv kubeconfigCall (reconcileCluster controller cluster) h (returns reconciled).
Proof.
  intros Hc. unfold reconcileCluster. apply wp_seq. eapply wp_mono; [|apply (getSecret_ok cluster h)].
  intros [r|] h1 Hq; [|done]. destruct Hq as [Hs1 Hr]. apply (clusterRead_suffix _ h1) in Hc; [|done].
  destruct (failsUnlessNotFound r) as [err|] eqn:Hf.
  { wp_norm. split; [exact I|]. intros t _. wp_norm. apply (persist_and_stop_ok cluster); [by right|done]. }
  specialize (Hr eq_refl). set (secret := match r with Ok s => Some s | Err _ => None end) in *. clearbody secret.
  wp_norm. split; [exact I|]. intros now _. set (h2 := _ :: h1). assert (suffix h1 h2) as Hs2 by grown.
  apply wp_seq. eapply wp_mono; [|apply (handleKubeconfig_ok cluster secret now h2);
    [by eapply clusterRead_suffix|by eapply secretRead_suffix|by left]].
  intros [[c' [status err]]|] h3 Hq; [|done]. destruct Hq as (Hs3 & Hsame & Hok).
  apply (clusterRead_suffix _ h2) in Hc; [|done]. apply (secretRead_suffix _ h2) in Hr; [|done].
  assert (Ev CNow now ∈ h3) as Hnow by (eapply suffix_elem; [exact Hs3|by left]).
  apply (clusterRead_suffix _ h3) in Hc; [|done]. apply (secretRead_suffix _ h3) in Hr; [|done].
  destruct err as [err|]; [by apply (persist_and_stop_ok cluster)|]. specialize (Hok eq_refl).
  destruct status; destruct Hok as [Hforced Hok];
    [by apply (persistAndRequeue_ok cluster)..|by eapply afterRotation_ok].
Qed.

Definition kubeconfigEnd (x : Result * option GoError) (h : history) : Prop :=
  let '(res, err) := x in
  requeued h res err \/
  res = mkResult false 0 /\ (cleanedUp h err \/ err <> None \/ exists cluster, clusterRead h cluster).

Lemma ClusterReconcile_ok :
  wp anyEnv kubeconfigCall (ClusterReconcile controller req) [] (returns kubeconfigEnd).
Proof.
  unfold ClusterReconcile. wp_norm. split; [exact I|]. intros [cluster|e] _.
  - eapply wp_mono; [|apply wp_history, (reconcileCluster_ok cluster); by left].
    intros [[res err]|] h [Hq Hs]; [|done]. destruct Hq as [Hq|Hq]; [by left|].
    right. split; [done|]. right. right. exists cluster. eapply suffix_elem; [exact Hs|by left].
  - unfold resultWithoutRequeue, metric. destruct (IsNotFound e) eqn:He; wp_norm; cycle 1.
    { split; [exact I|]. intros [] _. right. split; [done|]. right. by left. }
    split; [exact I|]. intros [] _. wp_norm. split; [exact I|]. intros [] _. apply wp_seq.
    eapply wp_mono; [|apply (deleteKubeconfigSecret_ok e); [done|seen]]. intros [err|] h Hup; [|done].
    wp_norm. split; [exact I|]. intros [] _. right. split; [done|]. left.
    destruct Hup as (e' & ? & ? & Hg). exists e'. split_and!; [done|by right|]. intros Herr.
    destruct (Hg Herr) as (answer & ? & Ha). exists answer. split; [by right|]. destruct answer as [l|]; [|done].
    destruct Ha as [?|(s & ? & ?)]; [by left|right]. exists s. split; [done|by right].
Qed.

(** C11. The kubeconfig controller writes only what it has reason to: it deletes a
    secret only when the cluster was found to be gone and the secret is the only
    one labelled with its name; it creates one only when the cluster has none, and
    with the kubeconfig the Garden cluster issued for its Shoot; it renews the
    kubeconfig of the only secret of the cluster when it is due, and takes it away
    when a rotation is forced; of the cluster it changes the status, and the
    annotation that forced the rotation.  It asks to be called again only when
    these writes and that of the status succeeded, after the time computed from the
    last synchronisation; a cluster that is gone without an error has no secret
    left; and it never panics. *)
Theorem kubeconfig_writes_justified :
  wp anyEnv kubeconfigCall (ClusterReconcile controller req) []
    (returns (fun '(res, err) h =>
       requeued h res err \/
       res = mkResult false 0 /\ (cleanedUp h err \/ err <> None \/ exists cluster, clusterRead h cluster))).
Proof. eapply wp_mono; [|exact ClusterReconcile_ok]. by intros [[res err]|] h. Qed.

End Reconciliation.
