(* ===== verification/Metrics.v ===== *)
(** * Metrics (internal/controller/metrics/metrics.go)

    The gauges the controllers set, as the collection of their series: what the
    calls [CMetric] of the other components do.  A series has the values of the
    gauge's labels, in order, and its number.  A label that the code makes of a
    float with strconv.FormatFloat, whose shortest text determines it, is the
    float. *)

From Stdlib Require Import SpecFloat.
From S2P Require Import Prelude Kube Gardener RuntimeApi Objects Effects Duration Rfc3339 Floats.

Local Open Scope string_scope.

(** ** Vectors of gauges (Prometheus) *)

#[export] Instance spec_float_eq_dec : EqDecision spec_float.
Proof. solve_decision. Defined.

Inductive labelValue := LText (s : string) | LFloat (x : spec_float).
#[export] Instance labelValue_eq_dec : EqDecision labelValue.
Proof. solve_decision. Defined.

Definition series : Type := list labelValue * Z.
Definition gaugeVec : Type := list series.

(** [vec.WithLabelValues(labels...).Set(x)] *)
Fixpoint setSeries (labels : list labelValue) (x : Z) (g : gaugeVec) : gaugeVec :=
  match g with
  | [] => [(labels, x)]
  | s :: g => if decide (s.1 = labels) then (labels, x) :: g else s :: setSeries labels x g
  end.

(** The series has the values at the first labels. *)
Definition matches (values : list string) (s : series) : bool :=
  bool_decide (take (length values) s.1 = LText <$> values).

(** [vec.DeletePartialMatch], for the first labels of the gauge. *)
Definition DeletePartialMatch (values : list string) (g : gaugeVec) : gaugeVec :=
  List.filter (fun s => negb (matches values s)) g.

(** ** The metrics *)

(*@ src/internal/controller/metrics/metrics.go:46-51 metricsImpl *)
Record metricsImpl := mkMetrics {
  gardenerClustersStateGaugeVec : gaugeVec;        (* runtimeId, shoot, state, reason *)
  kubeconfigExpirationGauge : gaugeVec;            (* runtimeId, shoot, expires, rotationDuration, expirationDuration *)
  runtimeStateGauge : gaugeVec;                    (* runtimeId, runtimeName, shoot, provider, state, message *)
  runtimeFSMUnexpectedStopsCnt : Z
}.

(*@ src/internal/controller/metrics/metrics.go:53-81 NewMetrics *)
Definition NewMetrics : metricsImpl := mkMetrics [] [] [] 0.

(*@consts src/internal/controller/metrics/metrics.go:20-31 *)
Definition metrics_RuntimeIDLabel : string := "kyma-project.io/runtime-id".
Definition ShootNameLabel : string := "kyma-project.io/shoot-name".
Definition lastSyncAnnotation : string := "operator.kyma-project.io/last-sync".

Definition with_runtimeStates (m : metricsImpl) (g : gaugeVec) : metricsImpl :=
  mkMetrics (gardenerClustersStateGaugeVec m) (kubeconfigExpirationGauge m) g (runtimeFSMUnexpectedStopsCnt m).
Definition with_clusterStates (m : metricsImpl) (g : gaugeVec) : metricsImpl :=
  mkMetrics g (kubeconfigExpirationGauge m) (runtimeStateGauge m) (runtimeFSMUnexpectedStopsCnt m).
Definition with_expirations (m : metricsImpl) (g : gaugeVec) : metricsImpl :=
  mkMetrics (gardenerClustersStateGaugeVec m) g (runtimeStateGauge m) (runtimeFSMUnexpectedStopsCnt m).

(*@ src/internal/controller/metrics/metrics.go:99-104 CleanUpRuntimeGauge *)
Definition doCleanUpRuntimeGauge (runtimeID runtimeName : string) (m : metricsImpl) : metricsImpl :=
  with_runtimeStates m (DeletePartialMatch [runtimeID; runtimeName] (runtimeStateGauge m)).

(** The labels of a Runtime's series. *)
Definition runtimeLabels (runtime : Runtime) : list labelValue :=
  let sp := rShoot (rtSpec runtime) in
  LText <$> [mapGet (Labels (rtMeta runtime)) metrics_RuntimeIDLabel; Name (rtMeta runtime); rsName sp;
             rpType (rsProvider sp); State (rtStatus runtime);
             match last (Conditions (rtStatus runtime)) with Some c => condMessage c | None => "No value" end].

(*@ src/internal/controller/metrics/metrics.go:83-97 SetRuntimeStates *)
Definition doSetRuntimeStates (runtime : Runtime) (m : metricsImpl) : metricsImpl :=
  let runtimeID := mapGet (Labels (rtMeta runtime)) metrics_RuntimeIDLabel in
  if negb (String.eqb runtimeID "") then
    let m := doCleanUpRuntimeGauge runtimeID (Name (rtMeta runtime)) m in
    with_runtimeStates m (setSeries (runtimeLabels runtime) 1 (runtimeStateGauge m))
  else m.

(*@ src/internal/controller/metrics/metrics.go:106-108 ResetRuntimeMetrics *)
Definition ResetRuntimeMetrics (m : metricsImpl) : metricsImpl := with_runtimeStates m [].

(*@ src/internal/controller/metrics/metrics.go:110-112 IncRuntimeFSMStopCounter *)
Definition doIncRuntimeFSMStopCounter (m : metricsImpl) : metricsImpl :=
  mkMetrics (gardenerClustersStateGaugeVec m) (kubeconfigExpirationGauge m) (runtimeStateGauge m)
    (runtimeFSMUnexpectedStopsCnt m + 1).

(*@ src/internal/controller/metrics/metrics.go:129-133 CleanUpGardenerClusterGauge *)
Definition doCleanUpGardenerClusterGauge (runtimeID : string) (m : metricsImpl) : metricsImpl :=
  with_clusterStates m (DeletePartialMatch [runtimeID] (gardenerClustersStateGaugeVec m)).

(*@ src/internal/controller/metrics/metrics.go:114-127 SetGardenerClusterStates *)
Definition doSetGardenerClusterStates (cluster : GardenerCluster) (m : metricsImpl) : metricsImpl :=
  let runtimeID := mapGet (Labels (gcMeta cluster)) metrics_RuntimeIDLabel in
  let shootName := mapGet (Labels (gcMeta cluster)) ShootNameLabel in
  if negb (String.eqb runtimeID "") then
    match gcConditions cluster with
    | [] => m
    | c :: _ =>
        let m := doCleanUpGardenerClusterGauge runtimeID m in
        with_clusterStates m
          (setSeries (LText <$> [runtimeID; shootName; gcState cluster; condReason c]) 1
             (gardenerClustersStateGaugeVec m))
    end
  else m.

(*@ src/internal/controller/metrics/metrics.go:135-139 CleanUpKubeconfigExpiration *)
Definition doCleanUpKubeconfigExpiration (runtimeID : string) (m : metricsImpl) : metricsImpl :=
  with_expirations m (DeletePartialMatch [runtimeID] (kubeconfigExpirationGauge m)).

(*@ src/internal/controller/metrics/metrics.go:141-143 computeExpirationInSeconds *)
Definition computeExpirationInSeconds (rotationPeriod : Z) (minimalRotationTimeRatio : spec_float) : spec_float :=
  f64div (Seconds rotationPeriod) minimalRotationTimeRatio.

(*@ src/internal/controller/metrics/metrics.go:145-175 SetKubeconfigExpiration *)
Definition doSetKubeconfigExpiration (secret : Secret) (rotationPeriod : Z) (minimalRotationTimeRatio : spec_float)
    (m : metricsImpl) : metricsImpl :=
  let runtimeID := mapGet (Labels (secretMeta secret)) metrics_RuntimeIDLabel in
  let shootName := mapGet (Labels (secretMeta secret)) ShootNameLabel in
  let m := doCleanUpKubeconfigExpiration runtimeID m in
  if negb (String.eqb runtimeID "") then
    match Parse (mapGet (Annotations (secretMeta secret)) lastSyncAnnotation) with
    | Some parsedSyncTime =>
        let expirationTimeInSeconds := computeExpirationInSeconds rotationPeriod minimalRotationTimeRatio in
        let expirationTime := (parsedSyncTime + toDuration (f64mul expirationTimeInSeconds (f64 Second)))%Z in
        let expirationTimeEpoch := (expirationTime / Second)%Z in
        with_expirations m
          (setSeries
             [LText runtimeID; LText shootName; LText (pretty expirationTimeEpoch);
              LFloat (Seconds rotationPeriod); LFloat expirationTimeInSeconds]
             expirationTimeEpoch (kubeconfigExpirationGauge m))
    | None => m
    end
  else m.

(** At the start the gauge is filled with the Runtimes there are. *)
(*@ src/cmd/main.go:531-542 refreshRuntimeMetrics *)
Definition refreshRuntimeMetrics (rl : list Runtime) (m : metricsImpl) : metricsImpl :=
  foldl (fun m rt => doSetRuntimeStates rt m) (ResetRuntimeMetrics m) rl.

(** The calls of the other components. *)
(*@ src/internal/controller/metrics/metrics.go:34-44 Metrics *)
Definition applyMetric (m : metricsImpl) (op : metricOp) : metricsImpl :=
  match op with
  | IncRuntimeFSMStopCounter => doIncRuntimeFSMStopCounter m
  | SetRuntimeStates r => doSetRuntimeStates r m
  | CleanUpRuntimeGauge runtimeID runtimeName => doCleanUpRuntimeGauge runtimeID runtimeName m
  | SetGardenerClusterStates cluster => doSetGardenerClusterStates cluster m
  | CleanUpGardenerClusterGauge runtimeID => doCleanUpGardenerClusterGauge runtimeID m
  | CleanUpKubeconfigExpiration runtimeID => doCleanUpKubeconfigExpiration runtimeID m
  | SetKubeconfigExpiration secret rotationPeriod ratio => doSetKubeconfigExpiration secret rotationPeriod ratio m
  end.

(** The metrics after the calls of a history, of which the latest comes first. *)
Fixpoint metricsAfter (h : history) : metricsImpl :=
  match h with
  | [] => NewMetrics
  | Ev (CMetric op) _ :: h => applyMetric (metricsAfter h) op
  | _ :: h => metricsAfter h
  end.

(** ** Lemmas *)

(** The series of a gauge with the values at the first labels. *)
Definition seriesOf (values : list string) (g : gaugeVec) : gaugeVec := List.filter (matches values) g.

(** Every series has the declared number of labels. *)
Definition wide (n : nat) (g : gaugeVec) : Prop := Forall (fun s => length s.1 = n) g.
(** At most one series for the same first labels. *)
Definition unambiguous (n : nat) (g : gaugeVec) : Prop :=
  forall values, length values = n -> length (seriesOf values g) <= 1.

Definition wellFormed (m : metricsImpl) : Prop :=
  (wide 4 (gardenerClustersStateGaugeVec m) /\ unambiguous 1 (gardenerClustersStateGaugeVec m)) /\
  (wide 5 (kubeconfigExpirationGauge m) /\ unambiguous 1 (kubeconfigExpirationGauge m)) /\
  (wide 6 (runtimeStateGauge m) /\ unambiguous 2 (runtimeStateGauge m)).

Lemma LText_inj : Inj eq eq LText.
Proof. by intros x y [= ->]. Qed.
#[local] Existing Instance LText_inj.

Lemma matches_eq values s : matches values s = true <-> take (length values) s.1 = LText <$> values.
Proof. unfold matches. by rewrite bool_decide_eq_true. Qed.

(** A series belongs to the values of one length only. *)
Lemma matches_unique values values' s :
  length values = length values' -> matches values s = true -> matches values' s = true -> values = values'.
Proof.
  rewrite !matches_eq. intros Hl H1 H2. rewrite Hl in H1. rewrite H1 in H2. by apply (inj (fmap LText)) in H2.
Qed.

Lemma seriesOf_deleted values g : seriesOf values (DeletePartialMatch values g) = [].
Proof.
  unfold seriesOf, DeletePartialMatch. induction g as [|s g IH]; [done|]. cbn.
  destruct (matches values s) eqn:E; cbn; [done|]. by rewrite E.
Qed.

Lemma seriesOf_kept values values' g :
  length values = length values' -> values' <> values ->
  seriesOf values' (DeletePartialMatch values g) = seriesOf values' g.
Proof.
  intros Hl Hne. unfold seriesOf, DeletePartialMatch. induction g as [|s g IH]; [done|]. cbn.
  destruct (matches values s) eqn:E; cbn; rewrite IH; [|done].
  destruct (matches values' s) eqn:E'; [|done]. by destruct Hne; eapply matches_unique.
Qed.

Lemma setSeries_fresh labels x g : Forall (fun s => s.1 <> labels) g -> setSeries labels x g = (g ++ [(labels, x)])%list.
Proof.
  induction 1 as [|s g Hs _ IH]; [done|]. cbn. destruct (decide (s.1 = labels)); [done|]. by rewrite IH.
Qed.

(** Cleaning up and then setting replaces the series of the values. *)
Lemma replaced values labels x g :
  take (length values) labels = LText <$> values ->
  setSeries labels x (DeletePartialMatch values g) = (DeletePartialMatch values g ++ [(labels, x)])%list.
Proof.
  intros Hl. apply setSeries_fresh, Forall_forall. intros s Hs%list_elem_of_In Heq.
  apply filter_In in Hs as [_ Hs]. apply negb_true_iff, not_true_iff_false in Hs as [].
  apply matches_eq. by rewrite Heq.
Qed.

(** How an update changes one gauge: the series of the values become [new], all
    others stay. *)
Definition updated (values : list string) (new g g' : gaugeVec) : Prop :=
  seriesOf values g' = new /\
  forall values', length values = length values' -> values' <> values -> seriesOf values' g' = seriesOf values' g.

Lemma deleted_updated values g : updated values [] g (DeletePartialMatch values g).
Proof. split; [apply seriesOf_deleted|]. intros values' ? ?. by apply seriesOf_kept. Qed.

Lemma replaced_updated values labels x g :
  take (length values) labels = LText <$> values ->
  updated values [(labels, x)] g (setSeries labels x (DeletePartialMatch values g)).
Proof.
  intros Hl. rewrite replaced by done. split.
  - unfold seriesOf. rewrite List.filter_app. fold (seriesOf values (DeletePartialMatch values g)).
    rewrite seriesOf_deleted. cbn. by rewrite (proj2 (matches_eq values (labels, x))).
  - intros values' ? Hne. rewrite <- (seriesOf_kept values values' g) by done.
    unfold seriesOf at 1. rewrite List.filter_app. cbn. destruct (matches values' (labels, x)) eqn:E; [|apply app_nil_r].
    destruct Hne. symmetry. apply (matches_unique values values' (labels, x)); [done|by apply matches_eq|done].
Qed.

Lemma updated_unambiguous n values new g g' :
  length values = n -> length new <= 1 -> updated values new g g' -> unambiguous n g -> unambiguous n g'.
Proof.
  intros Hn Hnew [H1 H2] Hg values' Hl. destruct (decide (values' = values)) as [->|Hne]; [by rewrite H1|].
  rewrite H2 by congruence. by apply Hg.
Qed.

Lemma wide_deleted n values g : wide n g -> wide n (DeletePartialMatch values g).
Proof.
  unfold wide, DeletePartialMatch. rewrite !Forall_forall. intros Hw s Hs%list_elem_of_In.
  apply filter_In in Hs as [Hs _]. by apply Hw, list_elem_of_In.
Qed.

Lemma wide_set n labels x g : length labels = n -> wide n g -> wide n (setSeries labels x g).
Proof.
  intros Hl. induction 1 as [|s g Hs Hg IH]; cbn; [by constructor|].
  destruct (decide _); by constructor.
Qed.

(** ** What the calls are to record *)

Definition runtimeIdOf (m : ObjectMeta) : string := mapGet (Labels m) "kyma-project.io/runtime-id".
Definition shootNameOf (m : ObjectMeta) : string := mapGet (Labels m) "kyma-project.io/shoot-name".

(** The series of a Runtime: its labels, the message of its last condition and the
    number one. *)
Definition runtimeSeries (r : Runtime) (s : series) : Prop := exists message,
  s = ([LText (runtimeIdOf (rtMeta r)); LText (Name (rtMeta r)); LText (rsName (rShoot (rtSpec r)));
        LText (rpType (rsProvider (rShoot (rtSpec r)))); LText (State (rtStatus r)); LText message], 1%Z) /\
  match reverse (Conditions (rtStatus r)) with
  | [] => message = "No value"
  | c :: _ => message = condMessage c
  end.

(** The series of a GardenerCluster, with the reason of its first condition. *)
Definition clusterSeries (c : GardenerCluster) (reason : string) : series :=
  ([LText (runtimeIdOf (gcMeta c)); LText (shootNameOf (gcMeta c)); LText (gcState c); LText reason], 1%Z).

(** The series of a kubeconfig, synchronised at the time [synced] in ns: it expires
    after the period (in seconds) divided by the ratio, and the number is the
    second of that, of which a label is the text. *)
Definition kubeconfigSeries (s : Secret) (synced period : Z) (ratio : spec_float) : series :=
  let lifetime := f64div (Seconds period) ratio in
  let expires := ((synced + toDuration (f64mul lifetime (f64 1000000000))) / 1000000000)%Z in
  ([LText (runtimeIdOf (secretMeta s)); LText (shootNameOf (secretMeta s)); LText (pretty expires);
    LFloat (Seconds period); LFloat lifetime], expires).

(** The gauges and the counter of the metrics, one of which a call changes. *)
Definition clustersKept (m m' : metricsImpl) : Prop := gardenerClustersStateGaugeVec m' = gardenerClustersStateGaugeVec m.
Definition kubeconfigsKept (m m' : metricsImpl) : Prop := kubeconfigExpirationGauge m' = kubeconfigExpirationGauge m.
Definition runtimesKept (m m' : metricsImpl) : Prop := runtimeStateGauge m' = runtimeStateGauge m.
Definition stopsKept (m m' : metricsImpl) : Prop := runtimeFSMUnexpectedStopsCnt m' = runtimeFSMUnexpectedStopsCnt m.

Definition clustersUpdated values new (m m' : metricsImpl) : Prop :=
  updated values new (gardenerClustersStateGaugeVec m) (gardenerClustersStateGaugeVec m') /\
  kubeconfigsKept m m' /\ runtimesKept m m' /\ stopsKept m m'.
Definition kubeconfigsUpdated values new (m m' : metricsImpl) : Prop :=
  updated values new (kubeconfigExpirationGauge m) (kubeconfigExpirationGauge m') /\
  clustersKept m m' /\ runtimesKept m m' /\ stopsKept m m'.
Definition runtimesUpdated values new (m m' : metricsImpl) : Prop :=
  updated values new (runtimeStateGauge m) (runtimeStateGauge m') /\
  clustersKept m m' /\ kubeconfigsKept m m' /\ stopsKept m m'.

(** What a call is to do: the gauge it concerns has the series that describes the
    object and no other of it, all else stays; objects without a runtime id are
    ignored, and so is a GardenerCluster without a condition. *)
Definition recorded (op : metricOp) (m m' : metricsImpl) : Prop :=
  match op with
  | IncRuntimeFSMStopCounter =>
      runtimeFSMUnexpectedStopsCnt m' = (runtimeFSMUnexpectedStopsCnt m + 1)%Z /\
      clustersKept m m' /\ kubeconfigsKept m m' /\ runtimesKept m m'
  | SetRuntimeStates r =>
      let id := runtimeIdOf (rtMeta r) in
      if String.eqb id "" then m' = m
      else exists s, runtimeSeries r s /\ runtimesUpdated [id; Name (rtMeta r)] [s] m m'
  | CleanUpRuntimeGauge id name => runtimesUpdated [id; name] [] m m'
  | SetGardenerClusterStates c =>
      let id := runtimeIdOf (gcMeta c) in
      match gcConditions c with
      | cond :: _ =>
          if String.eqb id "" then m' = m else clustersUpdated [id] [clusterSeries c (condReason cond)] m m'
      | [] => m' = m
      end
  | CleanUpGardenerClusterGauge id => clustersUpdated [id] [] m m'
  | CleanUpKubeconfigExpiration id => kubeconfigsUpdated [id] [] m m'
  | SetKubeconfigExpiration secret period ratio =>
      let id := runtimeIdOf (secretMeta secret) in
      kubeconfigsUpdated [id]
        (match Parse (mapGet (Annotations (secretMeta secret)) "operator.kyma-project.io/last-sync") with
         | Some synced => if String.eqb id "" then [] else [kubeconfigSeries secret synced period ratio]
         | None => []
         end) m m'
  end.

Lemma runtimeLabels_series r : runtimeSeries r (runtimeLabels r, 1%Z).
Proof.
  eexists. split; [done|]. destruct (Conditions (rtStatus r)) as [|c l _] using rev_ind; [done|].
  by rewrite reverse_snoc, last_snoc.
Qed.

Lemma applyMetric_recorded op m : recorded op m (applyMetric m op).
Proof.
  destruct op as [|r|id name|c|id|id|secret period ratio]; cbn [recorded applyMetric].
  - done.
  - unfold doSetRuntimeStates. fold (runtimeIdOf (rtMeta r)). destruct (String.eqb _ _); [done|].
    exists (runtimeLabels r, 1%Z). split; [apply runtimeLabels_series|]. split; [|done]. by apply replaced_updated.
  - split; [apply deleted_updated|done].
  - unfold doSetGardenerClusterStates. destruct (gcConditions c) as [|cond l]; [by destruct (negb _)|].
    fold (runtimeIdOf (gcMeta c)). destruct (String.eqb _ _); [done|]. split; [|done]. by apply replaced_updated.
  - split; [apply deleted_updated|done].
  - split; [apply deleted_updated|done].
  - unfold doSetKubeconfigExpiration. fold (runtimeIdOf (secretMeta secret)).
    destruct (Parse _) as [synced|], (String.eqb _ _); cbn [negb]; (split; [|done]);
      [apply deleted_updated|by apply replaced_updated|apply deleted_updated..].
Qed.

Lemma applyMetric_wellFormed op m : wellFormed m -> wellFormed (applyMetric m op).
Proof.
  intros ((Hw1 & Hu1) & (Hw2 & Hu2) & (Hw3 & Hu3)). destruct op as [|r|id name|c|id|id|secret period ratio]; cbn [applyMetric].
  - done.
  - unfold doSetRuntimeStates. destruct (negb _); [|done]. split_and!; try done.
    + by apply wide_set, wide_deleted.
    + eapply updated_unambiguous; [| |apply (replaced_updated [_; _])|exact Hu3]; [done|cbn; lia|done].
  - split_and!; try done; [by apply wide_deleted|].
    eapply updated_unambiguous; [| |apply deleted_updated|exact Hu3]; [done|cbn; lia].
  - unfold doSetGardenerClusterStates. destruct (negb _); [|done]. destruct (gcConditions c); [done|]. split_and!; try done.
    + by apply wide_set, wide_deleted.
    + eapply updated_unambiguous; [| |apply (replaced_updated [_])|exact Hu1]; [done|cbn; lia|done].
  - split_and!; try done; [by apply wide_deleted|].
    eapply updated_unambiguous; [| |apply deleted_updated|exact Hu1]; [done|cbn; lia].
  - split_and!; try done; [by apply wide_deleted|].
    eapply updated_unambiguous; [| |apply deleted_updated|exact Hu2]; [done|cbn; lia].
  - assert (wellFormed (doCleanUpKubeconfigExpiration (mapGet (Labels (secretMeta secret)) metrics_RuntimeIDLabel) m)) as Hc.
    { split_and!; try done; [by apply wide_deleted|].
      eapply updated_unambiguous; [| |apply deleted_updated|exact Hu2]; [done|cbn; lia]. }
    unfold doSetKubeconfigExpiration. cbv zeta. destruct (negb _); [|done]. destruct (Parse _); [|done].
    split_and!; try done.
    + by apply wide_set, wide_deleted.
    + eapply updated_unambiguous; [| |apply (replaced_updated [_])|exact Hu2]; [done|cbn; lia|done].
Qed.

Lemma metricsAfter_wellFormed h : wellFormed (metricsAfter h).
Proof.
  induction h as [|[c r] h IH].
  - by split_and!; first [apply Forall_nil | intros values _; apply Nat.le_0_l].
  - destruct c; cbn [metricsAfter]; try done. by apply applyMetric_wellFormed.
Qed.

Lemma refresh_wellFormed rl m : wellFormed m -> wellFormed (refreshRuntimeMetrics rl m).
Proof.
  intros (? & ? & _). unfold refreshRuntimeMetrics.
  assert (wellFormed (ResetRuntimeMetrics m)) as Hm.
  { split; [done|]. split; [done|]. split; [by apply Forall_nil|]. intros values _. apply Nat.le_0_l. }
  revert Hm. generalize (ResetRuntimeMetrics m) as m'. clear. induction rl as [|rt rl IH]; intros m Hm; [done|].
  apply IH. by apply (applyMetric_wellFormed (SetRuntimeStates rt)).
Qed.

(** The series of the object of an id and a name, after the gauge was filled anew. *)
Definition named (id name : string) (r : Runtime) : Prop :=
  runtimeIdOf (rtMeta r) = id /\ id <> "" /\ Name (rtMeta r) = name.

(** The gauge was filled from the Runtimes [rl]: there is a series for a Runtime of
    the list with a runtime id, the last one of that id and name, and no other. *)
Definition refreshed (rl : list Runtime) (m m' : metricsImpl) : Prop :=
  clustersKept m m' /\ kubeconfigsKept m m' /\ stopsKept m m' /\
  forall id name,
    (forall r before after, rl = (before ++ r :: after)%list -> named id name r -> Forall (fun r' => ~ named id name r') after ->
       exists s, runtimeSeries r s /\ seriesOf [id; name] (runtimeStateGauge m') = [s]) /\
    (Forall (fun r => ~ named id name r) rl -> seriesOf [id; name] (runtimeStateGauge m') = []).

Lemma refreshed_snoc rl r m m1 m2 :
  refreshed rl m m1 -> recorded (SetRuntimeStates r) m1 m2 -> refreshed (rl ++ [r]) m m2.
Proof.
  intros (Hc & Hk & Hs & Hl). cbn [recorded]. unfold refreshed, clustersKept, kubeconfigsKept, stopsKept in *.
  destruct (String.eqb_spec (runtimeIdOf (rtMeta r)) "") as [E|E].
  - intros ->. split_and!; [done..|]. intros id name. assert (~ named id name r) as Hr by (unfold named; naive_solver).
    split; [|by intros [Hno _]%Forall_app; apply Hl].
    intros r0 before after Heq Hn Ha. destruct after as [|x after _] using rev_ind.
    + apply app_inj_tail in Heq as [_ ->]. done.
    + rewrite app_comm_cons, app_assoc in Heq. apply app_inj_tail in Heq as [Heq _].
      apply Forall_app in Ha as [Ha _]. by eapply Hl.
  - intros (s & Hser & [Hnew Hold] & -> & -> & ->). split_and!; [done..|]. intros id name.
    destruct (decide ([id; name] = [runtimeIdOf (rtMeta r); Name (rtMeta r)])) as [[= -> ->]|Hne].
    + split; [|intros [_ Hno%Forall_inv]%Forall_app; by destruct Hno].
      intros r0 before after Heq Hn Ha. exists s. split; [|done]. destruct after as [|x after _] using rev_ind.
      * by apply app_inj_tail in Heq as [_ <-].
      * rewrite app_comm_cons, app_assoc in Heq. apply app_inj_tail in Heq as [_ ->].
        apply Forall_app in Ha as [_ Ha%Forall_inv]. by destruct Ha.
    + rewrite Hold by done. split; [|intros [Hno _]%Forall_app; by apply Hl].
      intros r0 before after Heq Hn Ha. destruct after as [|x after _] using rev_ind.
      * apply app_inj_tail in Heq as [_ <-]. destruct Hn as (<- & _ & <-). done.
      * rewrite app_comm_cons, app_assoc in Heq. apply app_inj_tail in Heq as [Heq _].
        apply Forall_app in Ha as [Ha _]. by eapply Hl.
Qed.

Lemma refresh_refreshed rl m : refreshed rl m (refreshRuntimeMetrics rl m).
Proof.
  unfold refreshRuntimeMetrics. induction rl as [|r rl IH] using rev_ind.
  - split_and!; [done..|]. intros id name. split; [|done]. by intros r [|] after.
  - rewrite foldl_app. eapply refreshed_snoc; [exact IH|]. apply (applyMetric_recorded (SetRuntimeStates r)).
Qed.

(** C40. The metrics stay well formed and truthful. Whatever the program has done,
    every series has as many labels as its gauge declares, and no GardenerCluster, no
    kubeconfig and no Runtime is reported by two series. Each report or clean-up
    leaves exactly the series that describes the object, or none, and touches no
    series of another object, no other gauge and not the counter. A Runtime is
    described by its runtime id, name, shoot, provider, state and the message of its
    last condition; a GardenerCluster by its runtime id, shoot, state and the reason
    of its first condition; a kubeconfig by its runtime id, its shoot, the second it
    expires at, which is also the number, the rotation period and the lifetime in
    seconds. Filling the gauge at the start leaves the series of the Runtimes
    listed only. *)
Theorem metrics_well_formed h :
  wellFormed (metricsAfter h) /\
  (forall op, recorded op (metricsAfter h) (applyMetric (metricsAfter h) op)) /\
  forall rl, let m := refreshRuntimeMetrics rl (metricsAfter h) in wellFormed m /\ refreshed rl (metricsAfter h) m.
Proof.
  split_and!; [apply metricsAfter_wellFormed|intros op; apply applyMetric_recorded|].
  intros rl. split; [apply refresh_wellFormed, metricsAfter_wellFormed|apply refresh_refreshed].
Qed.
