(* ===== verification/FsmProvision.v ===== *)
(** * State functions: snapshot, initialisation, creation and selection
      (internal/controller/runtime/fsm) *)

From Stdlib Require Import Ascii.
From S2P Require Import Prelude Kube Gardener RuntimeApi Objects Effects ErrorHandler Config.
From S2P Require Import RegistryCache StructuredAuth Seeds AuditLog ConverterApi FsmState.
From S2P Require Import Sscanf.
From S2P Require Extenders.

Local Open Scope string_scope.

(** The maintenance windows file: region to begin and end. *)
Definition WindowMap : Type := gmap string (gmap string string).

(** [%v] of a slice of strings. *)
Definition showStrings (l : list string) : string := "[" +:+ join " " l +:+ "]".

Definition StructuredAuthConfigName (shootName : string) : string :=
  "structured-auth-config-" +:+ shootName.

Definition msgFailedToConfigureAuditlogs : string := "Failed to configure audit logs".
Definition msgFailedStructuredConfigMap : string :=
  "Failed to create structured authentication config map".

Section Provision.
Context `{MetaLib} `{GardenerLib} `{ShootConverter} `{RegistryCacheLib}.
Context `{Codec AuthenticationConfiguration} `{Codec WindowMap}.
Context (m : RCCfg).

(** ** Snapshot *)

(*@ src/internal/controller/runtime/fsm/runtime_fsm_take_snapshot.go:13-32 sFnTakeSnapshot *)
Definition sFnTakeSnapshot : SM transition :=
  _ ← modifyS saveRuntimeStatus;
  i ← getInstance;
  r ← callS (CGet Garden KShoot (mkNN (ShootNamesapace m) (rsName (rShoot (rtSpec i)))));
  match failsUnlessNotFound r with
  | Some _ => updateStatusAndRequeueAfter (GardenerRequeueDuration m)
  | None =>
      _ ← match r with
          | Ok shoot => modifyS (fun s => with_shoot s (Some shoot))
          | Err _ => mret tt
          end;
      switchState SfnInitialize
  end.

(** ** Initialisation *)

(** [m.KcpClient.Update(ctx, &s.instance)]: on success the instance is what the
    server returned. *)
Definition updateInstance : SM (option GoError) :=
  i ← getInstance;
  r ← callS (CUpdate Kcp KRuntime i);
  match r with
  | Ok stored => _ ← onInstance (fun _ => stored); mret None
  | Err e => mret (Some e)
  end.

(*@ src/internal/controller/runtime/fsm/runtime_fsm_initialise.go:79-87 addFinalizerAndRequeue *)
Definition addFinalizerAndRequeue : SM transition :=
  _ ← onInstance (fun i => runtime_with_meta i (AddFinalizer (rtMeta i) (CfgFinalizer m)));
  err ← updateInstance;
  match err with
  | Some err => updateStatusAndStopWithError err
  | None => requeue
  end.

(*@ src/internal/controller/runtime/fsm/runtime_fsm_initialise.go:89-102 removeFinalizerAndStop *)
Definition removeFinalizerAndStop : SM transition :=
  i ← getInstance;
  let runtimeID := mapGet (Labels (rtMeta i)) "kyma-project.io/runtime-id" in
  _ ← onInstance (fun i => runtime_with_meta i (RemoveFinalizer (rtMeta i) (CfgFinalizer m)));
  err ← updateInstance;
  match err with
  | Some err => updateStatusAndStopWithError err
  | None =>
      i ← getInstance;
      _ ← metricS (CleanUpRuntimeGauge runtimeID (Name (rtMeta i)));
      stop
  end.

Definition secretManagerFor (i : Runtime) : GardenSecretManager :=
  NewGardenSecretManager (gardenNamespace m) (Name (rtMeta i)).

(*@ src/internal/controller/runtime/fsm/runtime_fsm_initialise.go:21-77 sFnInitialize *)
Definition sFnInitialize : SM transition :=
  i ← getInstance;
  let instanceIsBeingDeleted := negb (timeIsZero (DeletionTimestamp (rtMeta i))) in
  let instanceHasFinalizer := ContainsFinalizer (rtMeta i) (CfgFinalizer m) in
  let provisioningCondition :=
    FindStatusCondition (Conditions (rtStatus i)) ConditionTypeRuntimeProvisioned in
  _ ← modifyS exposeShootStatusInfo;
  if negb instanceIsBeingDeleted && negb instanceHasFinalizer then addFinalizerAndRequeue
  else if String.eqb (mapGet (Labels (rtMeta i)) LabelKymaRuntimeID) "" then
    updateStatusAndStopWithError (newError "runtime ID label is missing on the instance")
  else
    s ← getState;
    if instanceIsBeingDeleted then
      match sshoot s with
      | Some _ => switchState SfnDeleteKubeconfig
      | None =>
          err ← lift (DeleteAll (secretManagerFor i));
          match err with
          | Some _ => updateStatusAndRequeueAfter (StatusRequeueDelay m)
          | None =>
              if instanceHasFinalizer then removeFinalizerAndStop else stopWithMetrics
          end
      end
    else
      match sshoot s, provisioningCondition with
      | None, None =>
          _ ← statePending ConditionTypeRuntimeProvisioned ConditionReasonInitialized
                ConditionUnknown "Runtime initialized";
          updateStatusAndRequeueAfter (StatusRequeueDelay m)
      | None, Some _ => switchState SfnCreateShoot
      | Some _, _ => switchState SfnSelectShootProcessing
      end.

(** ** Maintenance window *)

(*@ src/pkg/gardener/shoot/extender/maintenance/get_maintenance_window.go:43-54 getDataFromFile *)
Definition getDataFromFile (filepath region : string) :
    prog (result (option (gmap string string))) :=
  fileData ← callP (CReadFile filepath);
  mret
    (match fileData with
     | Err e => Err (newError ("failed to read file: " +:+ errText e))
     | Ok fileData =>
         match unmarshal (A := WindowMap) fileData with
         | Err e => Err (newError ("failed to decode json: " +:+ errText e))
         | Ok maintenanceWindow => Ok (maintenanceWindow !! region)
         end
     end).

(*@ src/pkg/gardener/shoot/extender/maintenance/get_maintenance_window.go:15-41 GetMaintenanceWindow *)
Definition GetMaintenanceWindow (path region : string) : prog (result MaintenanceTimeWindow) :=
  windowData ← getDataFromFile path region;
  mret
    (match windowData with
     | Err e => Err (newError ("error during getting maintanence window data: " +:+ errText e))
     | Ok None => Err (newError ("maintenance window is not defined for region: " +:+ region))
     | Ok (Some windowData) => Ok (mkWindow (mapGet windowData "begin") (mapGet windowData "end"))
     end).

(*@ src/internal/controller/runtime/fsm/maintenanceWindow.go:8-18 getMaintenanceTimeWindow *)
Definition getMaintenanceTimeWindow : SM (option MaintenanceTimeWindow) :=
  i ← getInstance;
  if String.eqb (rsPurpose (rShoot (rtSpec i))) "production" &&
     negb (String.eqb (ccWindowMapPath (ConverterCfg m)) "")
  then
    r ← lift (GetMaintenanceWindow (ccWindowMapPath (ConverterCfg m)) (rsRegion (rShoot (rtSpec i))));
    mret (match r with Ok w => Some w | Err _ => None end)
  else mret None.

(** ** Creation *)

(*@ src/internal/controller/runtime/fsm/runtime_fsm_create_shoot.go:176-188 convertCreate *)
Definition convertCreate (opts : CreateOpts) : SM (result Shoot) :=
  i ← getInstance;
  match ValidateRequiredLabels i with
  | Some err => mret (Err err)
  | None =>
      cv ← lift (toShootCreate opts i);
      _ ← onInstance (fun _ => cvRuntime cv);
      mret (cvShoot cv)
  end.

(*@ src/internal/controller/runtime/fsm/runtime_fsm_patch_shoot.go:415-421 toExtenderAuditLogData *)
Definition toExtenderAuditLogData (data : AuditLogData) : ShootAuditLogData :=
  mkShootAuditLogData (TenantID data) (ServiceURL data) (SecretName data).

(** The part of [sFnCreateShoot] from the structured authentication config map
    on, once seed and dedicated audit log are settled. *)
Definition createShootRest : SM transition :=
  i ← getInstance;
  let cmKey := mkNN (ShootNamesapace m) (StructuredAuthConfigName (rsName (rShoot (rtSpec i)))) in
  let oidcConfig :=
    GetOIDCConfigOrDefault i
      (ToOIDCConfig (DefaultOperatorOidc (ccKubernetes (ConverterCfg m)))) in
  err ← lift (CreateOrUpdateStructuredAuthConfigMap cmKey oidcConfig);
  match err with
  | Some _ =>
      _ ← metricS IncRuntimeFSMStopCounter;
      updateStateFailedWithErrorAndStop ConditionTypeRuntimeProvisioned ConditionReasonOidcError
        msgFailedStructuredConfigMap
  | None =>
      data ← lift (GetSharedAuditLogData (AuditLogDataProvider m)
                     (rpType (rsProvider (rShoot (rtSpec i)))) (rsRegion (rShoot (rtSpec i))));
      if negb (isOk data) && AuditLogMandatory m then
        _ ← metricS IncRuntimeFSMStopCounter;
        updateStateFailedWithErrorAndStop ConditionTypeRuntimeProvisioned
          ConditionReasonAuditLogError msgFailedToConfigureAuditlogs
      else
        let data := match data with Ok d => d | Err _ => emptyAuditLogData end in
        window ← getMaintenanceTimeWindow;
        shoot ← convertCreate
                  (mkCreateOpts (ConverterCfg m) (toExtenderAuditLogData data) window
                     (ApiServerAclEnabled m) (NetworkRestrictionGlobalEnabled m));
        match shoot with
        | Err err =>
            _ ← metricS IncRuntimeFSMStopCounter;
            updateStateFailedWithErrorAndStop ConditionTypeRuntimeProvisioned
              ConditionReasonConversionError ("Runtime conversion error " +:+ errText err)
        | Ok shoot =>
            r ← callS (CCreate Garden KShoot shoot);
            match r with
            | Err err =>
                _ ← statePending ConditionTypeRuntimeProvisioned ConditionReasonGardenerError
                      ConditionFalse ("Gardener API create error: " +:+ errText err);
                updateStatusAndRequeueAfter (GardenerRequeueDuration m)
            | Ok _ =>
                _ ← statePending ConditionTypeRuntimeProvisioned
                      ConditionReasonShootCreationPending ConditionUnknown "Shoot is pending";
                updateStatusAndRequeueAfter (GardenerRequeueDuration m)
            end
        end
  end.

(** The dedicated audit log is reserved before the shoot is created. *)
Definition createShootReserve : SM transition :=
  i ← getInstance;
  if DedicatedAuditLoggingEnabled m && IsDedicatedAuditLogEnabled i then
    err ← lift (ReserveAuditLog (AuditLogDataProvider m) (rsRegion (rShoot (rtSpec i)))
                  (mapGet (Labels (rtMeta i)) LabelKymaRuntimeID));
    match err with
    | Some err =>
        _ ← metricS IncRuntimeFSMStopCounter;
        updateStateFailedWithErrorAndStop ConditionTypeRuntimeProvisioned
          ConditionReasonCustomAuditLogError
          ("Dedicated audit logging requested but no available configuration found: " +:+ errText err)
    | None => createShootRest
    end
  else createShootRest.

(*@ src/internal/controller/runtime/fsm/runtime_fsm_create_shoot.go:27-174 sFnCreateShoot *)
Definition sFnCreateShoot : SM transition :=
  i ← getInstance;
  let region := rsRegion (rShoot (rtSpec i)) in
  if isTrue (rsEnforceSeedLocation (rShoot (rtSpec i))) then
    r ← lift (seedForRegionAvailable (rpType (rsProvider (rShoot (rtSpec i)))) region);
    match r with
    | Err _ =>
        _ ← statePending ConditionTypeRuntimeProvisioned ConditionReasonGardenerError ConditionFalse
              ("Failed to verify whether seed is available for the region " +:+ region +:+ ".");
        updateStatusAndRequeueAfter (GardenerRequeueDuration m)
    | Ok (seedAvailable, regionsWithSeeds) =>
        if negb seedAvailable then
          _ ← metricS IncRuntimeFSMStopCounter;
          updateStateFailedWithErrorAndStop ConditionTypeRuntimeProvisioned
            ConditionReasonSeedNotFound
            ("Cannot find available seed for the region " +:+ region +:+
             ". The followig regions have seeds ready: " +:+ showStrings regionsWithSeeds +:+ ".")
        else createShootReserve
    end
  else createShootReserve.

(** ** Selection *)

(*@ src/internal/controller/runtime/fsm/runtime_fsm_select_shoot_processing.go:88-108 LogLastErrors *)
Definition LogLastErrors : SM unit :=
  s ← getState;
  match sshoot s with
  | None => mret tt
  | Some shoot =>
      _ ← lift (deref (stLastOperation (shootStatus shoot)));
      mret tt
  end.

Definition generationAnnotation : string := Extenders.ShootRuntimeGenerationAnnotation.

(*@ src/internal/controller/runtime/fsm/runtime_fsm_select_shoot_processing.go:110-134 shouldPatchShoot *)
Definition shouldPatchShoot (runtime : Runtime) (shoot : Shoot) : result bool :=
  if ShouldSuspendReconciliation (Annotations (rtMeta runtime)) then Ok false
  else if ShouldForceReconciliation (Annotations (rtMeta runtime)) then Ok true
  else
    match Annotations (shootMeta shoot) !! generationAnnotation with
    | None => Ok true
    | Some appliedGenerationString =>
        match ParseInt64 appliedGenerationString with
        | Err e => Err e
        | Ok appliedGeneration => Ok (appliedGeneration <? Generation (rtMeta runtime))%Z
        end
    end.

Definition setRuntimeStates : SM unit := i ← getInstance; metricS (SetRuntimeStates i).

(** From line 44 on: no patch is due. *)
Definition selectWaitState (i : Runtime) (shoot : Shoot) (lastOperation : LastOperation) :
    SM transition :=
  let st := State (rtStatus i) in
  let pending := String.eqb st RuntimeStatePending || String.eqb st "" in
  if pending && bool_decide (loType lastOperation = LastOperationTypeCreate)
  then switchState SfnWaitForShootCreation
  else if pending && bool_decide (loType lastOperation = LastOperationTypeReconcile)
  then switchState SfnWaitForShootReconcile
  else if String.eqb st RuntimeStateReady || String.eqb st RuntimeStateFailed then
    let shootMidReconcile :=
      (stObservedGeneration (shootStatus shoot) <? Generation (shootMeta shoot))%Z ||
      bool_decide (loState lastOperation = LastOperationStatePending) ||
      bool_decide (loState lastOperation = LastOperationStateProcessing) in
    if shootMidReconcile then
      if bool_decide (loType lastOperation = LastOperationTypeCreate)
      then switchState SfnWaitForShootCreation
      else switchState SfnWaitForShootReconcile
    else stop
  else stop.

(*@ src/internal/controller/runtime/fsm/runtime_fsm_select_shoot_processing.go:17-86 sFnSelectShootProcessing *)
Definition sFnSelectShootProcessing : SM transition :=
  shoot ← getShoot;
  match (dns ← ssDNS (shootSpec shoot); dnsDomain dns) with
  | None => _ ← setRuntimeStates; requeueAfter (GardenerRequeueDuration m)
  | Some _ =>
      match stLastOperation (shootStatus shoot) with
      | None => _ ← setRuntimeStates; requeueAfter (GardenerRequeueDuration m)
      | Some lastOperation =>
          _ ← LogLastErrors;
          i ← getInstance;
          match shouldPatchShoot i shoot with
          | Err _ => _ ← setRuntimeStates; requeueAfter (GardenerRequeueDuration m)
          | Ok true => switchState SfnSyncRegistryCacheGardenSecrets
          | Ok false => selectWaitState i shoot lastOperation
          end
      end
  end.

(** ** Waiting for Gardener *)

(*@ src/internal/controller/runtime/fsm/runtime_fsm_waiting_shoot_creation.go:97-106 stateNoMatchingSeeds *)
Definition stateNoMatchingSeeds (shoot : option Shoot) : prog bool :=
  match shoot with
  | None => mret false
  | Some shoot =>
      lastOperation ← deref (stLastOperation (shootStatus shoot));
      mret (scansNoMatchingSeeds (loDescription lastOperation))
  end.

(*@ src/internal/controller/runtime/fsm/runtime_fsm_waiting_shoot_creation.go:32-95 sFnWaitForShootCreation *)
Definition sFnWaitForShootCreation : SM transition :=
  shoot ← getShoot;
  lastOperation ← lift (deref (stLastOperation (shootStatus shoot)));
  match loState lastOperation with
  | LastOperationStateProcessing | LastOperationStatePending | LastOperationStateAborted
  | LastOperationStateError =>
      noSeeds ← lift (stateNoMatchingSeeds (Some shoot));
      if noSeeds : bool then
        _ ← stateFailed ConditionTypeRuntimeProvisioned ConditionReasonCreationError
              "Shoot creation failed, no matching seeds";
        updateStatusAndStop
      else
        _ ← statePending ConditionTypeRuntimeProvisioned ConditionReasonShootCreationPending
              ConditionUnknown "Shoot creation in progress";
        updateStatusAndRequeueAfter (RequeueDurationShootCreate m)
  | LastOperationStateFailed =>
      if IsRetryable (stLastErrors (shootStatus shoot)) then
        _ ← statePending ConditionTypeRuntimeProvisioned ConditionReasonShootCreationPending
              ConditionUnknown "Retryable gardener errors during cluster provisioning";
        updateStatusAndRequeueAfter (RequeueDurationShootCreate m)
      else
        _ ← stateFailed ConditionTypeRuntimeProvisioned ConditionReasonCreationError
              "Shoot creation failed";
        _ ← metricS IncRuntimeFSMStopCounter;
        updateStatusAndStop
  | LastOperationStateSucceeded =>
      ensureStatusConditionIsSetAndContinue (StatusRequeueDelay m) ConditionTypeRuntimeProvisioned
        ConditionReasonShootCreationCompleted "Shoot creation completed" SfnHandleKubeconfig
  | LastOperationStateOther _ => stopWithMetrics
  end.

(*@ src/internal/controller/runtime/fsm/runtime_fsm_waiting_for_shoot_reconcile.go:15-66 sFnWaitForShootReconcile *)
Definition sFnWaitForShootReconcile : SM transition :=
  shoot ← getShoot;
  lastOperation ← lift (deref (stLastOperation (shootStatus shoot)));
  match loState lastOperation with
  | LastOperationStateProcessing | LastOperationStatePending | LastOperationStateAborted
  | LastOperationStateError =>
      _ ← statePending ConditionTypeRuntimeProvisioned ConditionReasonProcessing
            ConditionUnknown "Shoot update is in progress";
      updateStatusAndRequeueAfter (RequeueDurationShootReconcile m)
  | LastOperationStateFailed =>
      let lastErrors := stLastErrors (shootStatus shoot) in
      let reason := ToErrReason lastErrors in
      if IsRetryable lastErrors then
        _ ← statePending ConditionTypeRuntimeProvisioned ConditionReasonShootCreationPending
              ConditionUnknown "Retryable gardener errors during cluster reconcile";
        updateStatusAndRequeueAfter (RequeueDurationShootReconcile m)
      else
        _ ← stateFailed ConditionTypeRuntimeProvisioned ConditionReasonProcessingErr reason;
        _ ← metricS IncRuntimeFSMStopCounter;
        updateStatusAndStop
  | LastOperationStateSucceeded =>
      ensureStatusConditionIsSetAndContinue (StatusRequeueDelay m) ConditionTypeRuntimeProvisioned
        ConditionReasonConfigurationCompleted "Runtime processing completed successfully"
        SfnHandleKubeconfig
  | LastOperationStateOther _ => stopWithMetrics
  end.

End Provision.
