(* ===== verification/FsmPatch.v ===== *)
(** * State functions: registry cache secrets and the patch of the Shoot
      (internal/controller/runtime/fsm) *)

From S2P Require Import Prelude Kube Gardener RuntimeApi Objects Effects Config RegistryCache.
From S2P Require Import StructuredAuth AuditLog ConverterApi FsmState FsmProvision.

Local Open Scope string_scope.

(** ** Assignments to fields of a Shoot's spec *)

Definition spec_with_workers (sp : ShootSpec) (workers : list Worker) (cp infra : option Raw) :
    ShootSpec :=
  mkShootSpec (ssPurpose sp) (ssRegion sp) (ssControlPlane sp) (ssCloudProfile sp) (ssDNS sp)
    (ssExtensions sp) (ssKubernetes sp) (ssNetworking sp)
    (mkShootProvider (spType (ssProvider sp)) cp infra workers (spWorkersSettingsSSH (ssProvider sp)))
    (ssSecretBindingName sp) (ssCredentialsBindingName sp) (ssSeedName sp) (ssSeedSelector sp)
    (ssResources sp) (ssTolerations sp) (ssExposureClassName sp) (ssAccessRestrictions sp)
    (ssMaintenance sp).

Definition spec_with_extensions (sp : ShootSpec) (exts : list Extension)
    (resources : list NamedResourceReference) : ShootSpec :=
  mkShootSpec (ssPurpose sp) (ssRegion sp) (ssControlPlane sp) (ssCloudProfile sp) (ssDNS sp)
    exts (ssKubernetes sp) (ssNetworking sp) (ssProvider sp)
    (ssSecretBindingName sp) (ssCredentialsBindingName sp) (ssSeedName sp) (ssSeedSelector sp)
    resources (ssTolerations sp) (ssExposureClassName sp) (ssAccessRestrictions sp)
    (ssMaintenance sp).

Definition spec_with_bindings (sp : ShootSpec) (secretBinding credentialsBinding : option string) :
    ShootSpec :=
  mkShootSpec (ssPurpose sp) (ssRegion sp) (ssControlPlane sp) (ssCloudProfile sp) (ssDNS sp)
    (ssExtensions sp) (ssKubernetes sp) (ssNetworking sp) (ssProvider sp)
    secretBinding credentialsBinding (ssSeedName sp) (ssSeedSelector sp)
    (ssResources sp) (ssTolerations sp) (ssExposureClassName sp) (ssAccessRestrictions sp)
    (ssMaintenance sp).

(*@ src/internal/controller/runtime/fsm/runtime_fsm_patch_shoot.go:228-239 workersAreEqual *)
Fixpoint workersAreEqual (workers workers2 : list Worker) : bool :=
  match workers, workers2 with
  | [], [] => true
  | w :: ws, w2 :: ws2 => bool_decide (w = w2) && workersAreEqual ws ws2
  | _, _ => false
  end.

Section Patch.
Context `{MetaLib} `{GardenerLib} `{ShootConverter} `{RegistryCacheLib}.
Context `{Codec AuthenticationConfiguration} `{Codec WindowMap} `{Codec RegistryConfig}.
Context (m : RCCfg).

(** ** Registry cache secrets *)

(*@ src/internal/controller/runtime/fsm/runtime_fsm_sync_registry_cache_garden_secrets.go:14-74 sFnSyncRegistryCacheGardenSecrets *)
Definition sFnSyncRegistryCacheGardenSecrets : SM transition :=
  if negb (RegistryCacheConfigControllerEnabled m) then switchState SfnPatchExistingShoot
  else
    i ← getInstance;
    let caching := rCaching (rtSpec i) in
    if Nat.ltb 0 (length caching) then
      runtimeClient ← RuntimeClientGetter;
      match runtimeClient with
      | Err err =>
          _ ← statePending ConditionTypeRegistryCacheConfigured
                ConditionReasonRegistryCacheGardenClusterConfigurationFailed ConditionFalse (errText err);
          updateStatusAndRequeueAfter (StatusRequeueDelay m)
      | Ok _ =>
          err ← lift (SetStatusPending i CacheReasonRegistryCacheConfigured);
          match err with
          | Some _ => requeue
          | None =>
              let secretSyncer :=
                NewGardenSecretSyncer DefaultGardenSecretNameGenerator (gardenNamespace m)
                  (Name (rtMeta i)) in
              if HasCachesWithSecrets caching then
                err ← lift (Do secretSyncer caching);
                match err with
                | Some err =>
                    _ ← statePending ConditionTypeRegistryCacheConfigured
                          ConditionReasonRegistryCacheGardenClusterConfigurationFailed ConditionFalse
                          (errText err);
                    i ← getInstance;
                    _ ← lift (SetStatusFailed i CacheReasonGardenClusterConfigurationFailed (errText err));
                    updateStatusAndRequeueAfter (StatusRequeueDelay m)
                | None => switchState SfnPatchExistingShoot
                end
              else switchState SfnPatchExistingShoot
          end
      end
    else switchState SfnPatchExistingShoot.

(** ** Audit log data for the patch *)

Definition noTransition : transition := (None, None, None).

(*@ src/internal/controller/runtime/fsm/runtime_fsm_patch_shoot.go:340-362 getSharedAuditLogDataWithErrorHandling *)
Definition getSharedAuditLogDataWithErrorHandling : SM (ShootAuditLogData * transition) :=
  i ← getInstance;
  data ← lift (GetSharedAuditLogData (AuditLogDataProvider m)
                 (rpType (rsProvider (rShoot (rtSpec i)))) (rsRegion (rShoot (rtSpec i))));
  match data with
  | Ok data => mret (toExtenderAuditLogData data, noTransition)
  | Err err =>
      if AuditLogMandatory m then
        _ ← metricS IncRuntimeFSMStopCounter;
        t ← updateStateFailedWithErrorAndStop ConditionTypeRuntimeProvisioned
              ConditionReasonAuditLogError msgFailedToConfigureAuditlogs;
        mret (emptyShootAuditLogData, t)
      else mret (emptyShootAuditLogData, (None, None, Some err))
  end.

(*@ src/internal/controller/runtime/fsm/runtime_fsm_patch_shoot.go:365-400 claimDedicatedAuditLog *)
Definition claimDedicatedAuditLog (runtimeID : string) : SM (ShootAuditLogData * transition) :=
  i ← getInstance;
  data ← lift (ClaimAuditLog (AuditLogDataProvider m) (rsRegion (rShoot (rtSpec i))) runtimeID);
  match data with
  | Err err =>
      _ ← metricS IncRuntimeFSMStopCounter;
      t ← updateStateFailedWithErrorAndStop ConditionTypeRuntimeProvisioned
            ConditionReasonCustomAuditLogError
            ("Dedicated audit logging requested but no available configuration found: " +:+ errText err);
      mret (emptyShootAuditLogData, t)
  | Ok data =>
      _ ← statePending ConditionTypeCustomAuditLogConfigured ConditionReasonCustomAuditLogConfigured
            ConditionUnknown "Dedicated audit logging claimed, configuring shoot";
      mret (toExtenderAuditLogData data, noTransition)
  end.

(*@ src/internal/controller/runtime/fsm/runtime_fsm_patch_shoot.go:314-337 resolveAuditLogData *)
Definition resolveAuditLogData : SM (ShootAuditLogData * transition) :=
  if negb (DedicatedAuditLoggingEnabled m) then getSharedAuditLogDataWithErrorHandling
  else
    i ← getInstance;
    let runtimeID := mapGet (Labels (rtMeta i)) LabelKymaRuntimeID in
    existing ← lift (GetDedicatedAuditLogData (AuditLogDataProvider m) runtimeID false);
    match existing with
    | Ok existingData => mret (toExtenderAuditLogData existingData, noTransition)
    | Err _ =>
        if negb (IsDedicatedAuditLogEnabled i) then getSharedAuditLogDataWithErrorHandling
        else claimDedicatedAuditLog runtimeID
    end.

(** ** The patch *)

(*@ src/internal/controller/runtime/fsm/runtime_fsm_patch_shoot.go:278-307 getPatchOptions *)
Definition getPatchOptions (auditLogConfig : ShootAuditLogData) : SM (result PatchOpts) :=
  shoot ← getShoot;
  window ← getMaintenanceTimeWindow m;
  i ← getInstance;
  let sp := shootSpec shoot in
  let opts names :=
    mkPatchOpts (ConverterCfg m) auditLogConfig window (skVersion (ssKubernetes sp))
      (spWorkers (ssProvider sp)) (ssExtensions sp) (ssResources sp)
      (spInfrastructureConfig (ssProvider sp)) (spControlPlaneConfig (ssProvider sp))
      (ApiServerAclEnabled m) (NetworkRestrictionGlobalEnabled m) (ssDNS sp) names in
  if RegistryCacheConfigControllerEnabled m then
    names ← lift (GetCacheUIDToSecretNameMap
                    (NewGardenSecretManager (gardenNamespace m)
                       (mapGet (Labels (rtMeta i)) LabelKymaRuntimeID)));
    mret (match names with Err e => Err e | Ok names => Ok (opts names) end)
  else mret (Ok (opts ∅)).

(*@ src/internal/controller/runtime/fsm/runtime_fsm_patch_shoot.go:257-269 convertPatch *)
Definition convertPatch (opts : PatchOpts) : SM (result Shoot) :=
  i ← getInstance;
  match ValidateRequiredLabels i with
  | Some err => mret (Err err)
  | None =>
      cv ← lift (toShootPatch opts i);
      _ ← onInstance (fun _ => cvRuntime cv);
      _ ← modifyS (fun s => with_shoot s
             ((fun sh => shoot_with_spec sh
                 (spec_with_extensions (shootSpec sh) (ssExtensions (shootSpec sh)) (cvResources cv)))
              <$> sshoot s));
      mret (cvShoot cv)
  end.

(*@ src/internal/controller/runtime/fsm/runtime_fsm_patch_shoot.go:191-226 handleUpdateError *)
Definition handleUpdateError (err : option GoError) (statusMsg : string) : SM transition :=
  match err with
  | None => mret noTransition
  | Some err =>
      if IsConflict err then
        _ ← statePending ConditionTypeRuntimeProvisioned ConditionReasonProcessing ConditionUnknown
              "Shoot is pending for update after conflict error";
        updateStatusAndRequeueAfter (GardenerRequeueDuration m)
      else if IsForbidden err then
        _ ← statePending ConditionTypeRuntimeProvisioned ConditionReasonProcessing ConditionUnknown
              "Shoot is pending for update after forbidden error";
        updateStatusAndRequeueAfter (GardenerRequeueDuration m)
      else
        _ ← metricS IncRuntimeFSMStopCounter;
        updateStateFailedWithErrorAndStop ConditionTypeRuntimeProvisioned
          ConditionReasonProcessingErr (statusMsg +:+ ": " +:+ errText err)
  end.

(*@ src/internal/controller/runtime/fsm/runtime_fsm_patch_shoot.go:241-255 handleForceReconciliationAnnotation *)
Definition handleForceReconciliationAnnotation : SM (option GoError) :=
  i ← getInstance;
  if ShouldForceReconciliation (Annotations (rtMeta i)) then
    _ ← onInstance (fun i => runtime_with_meta i
           (meta_with_annotations (rtMeta i)
              (delete ForceReconcileAnnotation (Annotations (rtMeta i)))));
    updateInstance
  else mret None.

(*@ src/internal/controller/runtime/fsm/runtime_fsm_patch_shoot.go:402-412 setRegistryCacheStatusFailed *)
Definition setRegistryCacheStatusFailed : SM unit :=
  runtimeClient ← RuntimeClientGetter;
  match runtimeClient with
  | Err _ => mret tt
  | Ok _ =>
      i ← getInstance;
      _ ← lift (SetStatusFailed i CacheReasonExtensionConfigurationFailed
                  "failed to apply registry cache configuration");
      mret tt
  end.

(** Continue with [k] unless a state function has been chosen. *)
Definition unlessNext (t : transition) (k : SM transition) : SM transition :=
  match t with
  | (Some _, _, _) => mret t
  | (None, _, _) => k
  end.

(** The additional Update that replaces the collections a patch cannot shrink. *)
Definition replaceCollections (shoot updatedShoot : Shoot) (hasRegistryCacheCountChanged : bool) :
    SM transition :=
  let workersShouldBeUpdated :=
    negb (workersAreEqual (spWorkers (ssProvider (shootSpec shoot)))
                          (spWorkers (ssProvider (shootSpec updatedShoot)))) in
  if workersShouldBeUpdated || hasRegistryCacheCountChanged then
    let updated := shootSpec updatedShoot in
    let sp := shootSpec shoot in
    let sp := if workersShouldBeUpdated
              then spec_with_workers sp (spWorkers (ssProvider updated))
                     (spControlPlaneConfig (ssProvider updated))
                     (spInfrastructureConfig (ssProvider updated))
              else sp in
    let sp := if hasRegistryCacheCountChanged
              then spec_with_extensions sp (ssExtensions updated) (ssResources updated) else sp in
    r ← callS (CUpdate Garden KShoot (shoot_with_spec shoot sp));
    handleUpdateError (errOf r) "Gardener API shoot update error"
  else mret noTransition.

(** The additional Update that replaces the secret binding. *)
Definition replaceBinding (shoot : Shoot) : SM transition :=
  i ← getInstance;
  let bindingShouldBePatched :=
    EnableCredentialBinding (ccGardener (ConverterCfg m)) &&
    match ssSecretBindingName (shootSpec shoot) with
    | Some n => negb (String.eqb n "")
    | None => false
    end in
  if bindingShouldBePatched then
    r ← callS (CUpdate Garden KShoot
                 (shoot_with_spec shoot
                    (spec_with_bindings (shootSpec shoot) None
                       (Some (rsSecretBindingName (rShoot (rtSpec i)))))));
    handleUpdateError (errOf r) "Gardener API shoot update error"
  else mret noTransition.

(** The patch proper and what follows it. *)
Definition applyPatch (shoot updatedShoot : Shoot) : SM transition :=
  r ← callS (CPatch Garden KShoot updatedShoot Apply);
  t ← handleUpdateError (errOf r) "Gardener API shoot patch error";
  unlessNext t
    (let updatedShoot := match r with Ok stored => stored | Err _ => updatedShoot end in
     err ← handleForceReconciliationAnnotation;
     match err with
     | Some _ => requeue
     | None =>
         if Z.eqb (Generation (shootMeta updatedShoot)) (Generation (shootMeta shoot)) then
           _ ← statePending ConditionTypeRuntimeProvisioned ConditionReasonProcessing ConditionTrue
                 "Shoot patched without changes";
           switchState SfnHandleKubeconfig
         else
           _ ← statePending ConditionTypeRuntimeProvisioned ConditionReasonProcessing
                 ConditionUnknown "Shoot is pending for update after patch";
           updateStatusAndRequeueAfter (GardenerRequeueDuration m)
     end).

(** From the conversion on. *)
Definition patchConverted (patchOptions : PatchOpts) : SM transition :=
  updatedShoot ← convertPatch patchOptions;
  match updatedShoot with
  | Err err =>
      _ ← metricS IncRuntimeFSMStopCounter;
      _ ← (if RegistryCacheConfigControllerEnabled m then setRegistryCacheStatusFailed else mret tt);
      updateStateFailedWithErrorAndStop ConditionTypeRuntimeProvisioned
        ConditionReasonConversionError ("Runtime conversion error " +:+ errText err)
  | Ok updatedShoot =>
      shoot ← getShoot;
      i ← getInstance;
      changed ← lift (HasRegistryCacheCountChanged (ssExtensions (shootSpec shoot))
                        (rCaching (rtSpec i)));
      match changed with
      | Err _ =>
          _ ← statePending ConditionTypeRuntimeProvisioned ConditionReasonRegistryCacheConfigured
                ConditionFalse "Failed to check if registry cache secret should be removed";
          updateStatusAndRequeueAfter (StatusRequeueDelay m)
      | Ok hasRegistryCacheCountChanged =>
          t ← replaceCollections shoot updatedShoot hasRegistryCacheCountChanged;
          unlessNext t
            (t ← replaceBinding shoot; unlessNext t (applyPatch shoot updatedShoot))
      end
  end.

(*@ src/internal/controller/runtime/fsm/runtime_fsm_patch_shoot.go:31-189 sFnPatchExistingShoot *)
Definition sFnPatchExistingShoot : SM transition :=
  '(auditLogConfig, t) ← resolveAuditLogData;
  unlessNext t
    (i ← getInstance;
     let oidcConfig :=
       GetOIDCConfigOrDefault i
         (ToOIDCConfig (DefaultOperatorOidc (ccKubernetes (ConverterCfg m)))) in
     let cmKey :=
       mkNN (ShootNamesapace m) (StructuredAuthConfigName (rsName (rShoot (rtSpec i)))) in
     err ← lift (CreateOrUpdateStructuredAuthConfigMap cmKey oidcConfig);
     match err with
     | Some _ =>
         _ ← metricS IncRuntimeFSMStopCounter;
         updateStateFailedWithErrorAndStop ConditionTypeRuntimeProvisioned
           ConditionReasonOidcError msgFailedStructuredConfigMap
     | None =>
         patchOptions ← getPatchOptions auditLogConfig;
         match patchOptions with
         | Err _ =>
             _ ← statePending ConditionTypeRuntimeProvisioned ConditionReasonProcessing
                   ConditionFalse "Failed to get patch options";
             updateStatusAndRequeueAfter (StatusRequeueDelay m)
         | Ok patchOptions => patchConverted patchOptions
         end
     end).

End Patch.
