(* ===== verification/FsmConfigure.v ===== *)
(** * State functions: configuration of the runtime cluster
      (internal/controller/runtime/fsm) *)

From S2P Require Import Prelude Kube Gardener RuntimeApi Objects Effects Config RegistryCache.
From S2P Require Import SkrDetails Rbac AuditLog ConverterApi Extenders Extensions FsmState FsmProvision.

Local Open Scope string_scope.

(*@consts src/internal/controller/runtime/fsm/runtime_fsm_initialize_runtime_bootstrapper.go:13-22 *)
Definition msgConfigurationFailed : string := "Failed to copy configuration to the runtime cluster".
Definition msgStatusCheckFailed : string := "Runtime bootstrapper status check failed".
Definition msgInstallationFailed : string := "Runtime bootstrapper installation failed".
Definition msgUpgradeFailed : string := "Runtime bootstrapper upgrade failed".
Definition msgInstallationInProgress : string := "Runtime bootstrapper installation in progress".
Definition msgUpgradeInProgress : string := "Runtime bootstrapper upgrade in progress".
Definition msgInstallationCompleted : string := "Runtime bootstrapper installation completed".
Definition timeout : Z := 30 * Second.

Section Configure.
Context `{MetaLib} `{GardenerLib} `{RegistryCacheLib}.
Context `{Codec KymaProvisioningInfo} `{Codec AuditlogExtensionConfig}.
Context (m : RCCfg).

(** ** Kubeconfig *)

(*@ src/internal/controller/runtime/fsm/runtime_fsm_create_kubeconfig.go:73-119 makeGardenerClusterForRuntime *)
Definition makeGardenerClusterForRuntime (runtime : Runtime) (shoot : Shoot) : prog GardenerCluster :=
  let label := mapGet (Labels (rtMeta runtime)) in
  let name := Name (shootMeta shoot) in
  domain ← deref (dns ← ssDNS (shootSpec shoot); dnsDomain dns);
  mret
    (mkGardenerCluster
       (mkMeta (label LabelKymaRuntimeID) "" (Namespace (rtMeta runtime)) "" "" 0 None
          (list_to_map
             [(LabelKymaInstanceID, label LabelKymaInstanceID);
              (LabelKymaRuntimeID, label LabelKymaRuntimeID);
              (LabelKymaBrokerPlanID, label LabelKymaBrokerPlanID);
              (LabelKymaBrokerPlanName, label LabelKymaBrokerPlanName);
              (LabelKymaGlobalAccountID, label LabelKymaGlobalAccountID);
              (LabelKymaSubaccountID, label LabelKymaSubaccountID);
              (LabelKymaName, label LabelKymaName);
              (LabelKymaPlatformRegion, rsPlatformRegion (rShoot (rtSpec runtime)));
              (LabelKymaRegion, rsRegion (rShoot (rtSpec runtime)));
              (LabelKymaShootName, name);
              (LabelKymaManagedBy, "infrastructure-manager");
              (LabelKymaInternal, "true")])
          {[ "skr-domain" := domain ]} [] [])
       name ("kubeconfig-" +:+ label LabelKymaRuntimeID) (Namespace (rtMeta runtime)) "config"
       "" []).

(*@ src/internal/controller/runtime/fsm/runtime_fsm_create_kubeconfig.go:20-71 sFnHandleKubeconfig *)
Definition sFnHandleKubeconfig : SM transition :=
  i ← getInstance;
  let runtimeID := mapGet (Labels (rtMeta i)) LabelKymaRuntimeID in
  r ← callS (CGet Kcp KGardenerCluster (mkNN (Namespace (rtMeta i)) runtimeID));
  match r with
  | Err err =>
      if negb (IsNotFound err) then
        _ ← stateFailed ConditionTypeRuntimeKubeconfigReady ConditionReasonKubernetesAPIErr (errText err);
        _ ← metricS IncRuntimeFSMStopCounter;
        updateStatusAndStop
      else
        shoot ← getShoot;
        cluster ← lift (makeGardenerClusterForRuntime i shoot);
        r ← callS (CCreate Kcp KGardenerCluster cluster);
        match r with
        | Err err =>
            _ ← stateFailed ConditionTypeRuntimeKubeconfigReady ConditionReasonKubernetesAPIErr
                  (errText err);
            _ ← metricS IncRuntimeFSMStopCounter;
            updateStatusAndStop
        | Ok _ =>
            _ ← statePending ConditionTypeRuntimeKubeconfigReady ConditionReasonGardenerCRCreated
                  ConditionUnknown "Gardener Cluster CR created, waiting for readiness";
            updateStatusAndRequeueAfter (ControlPlaneRequeueDuration m)
        end
  | Ok cluster =>
      if negb (String.eqb (gcState cluster) ReadyState)
      then requeueAfter (ControlPlaneRequeueDuration m)
      else
        ensureStatusConditionIsSetAndContinue (StatusRequeueDelay m)
          ConditionTypeRuntimeKubeconfigReady ConditionReasonGardenerCRReady
          "Gardener Cluster CR is ready." SfnCreateKymaNamespace
  end.

(** ** Namespace *)

(*@ src/internal/controller/runtime/fsm/runtime_fsm_create_kyma_namespace.go:40-61 createKymaSystemNamespace *)
Definition createKymaSystemNamespace : SM (option GoError) :=
  runtimeClient ← RuntimeClientGetter;
  match runtimeClient with
  | Err e => mret (Some e)
  | Ok _ =>
      r ← callS (CCreate Skr KNamespace (metaNamed "kyma-system" ""));
      mret
        (match r with
         | Ok _ => None
         | Err e => if IsAlreadyExists e then None else Some e
         end)
  end.

(*@ src/internal/controller/runtime/fsm/runtime_fsm_create_kyma_namespace.go:14-38 sFnCreateKymaNamespace *)
Definition sFnCreateKymaNamespace : SM transition :=
  err ← createKymaSystemNamespace;
  match err with
  | Some e =>
      _ ← statePending ConditionTypeKymaSystemCreated ConditionReasonKymaSystemNSError ConditionFalse
            (errText e);
      _ ← metricS IncRuntimeFSMStopCounter;
      updateStatusAndRequeueAfter (ControlPlaneRequeueDuration m)
  | None =>
      _ ← statePending ConditionTypeKymaSystemCreated ConditionReasonKymaSystemNSReady ConditionTrue
            "Creation of kyma-system Namespace";
      switchState SfnInitializeRuntimeBootstrapper
  end.

(** ** Runtime bootstrapper *)

Definition bootstrapperPending (reason : string) (status : ConditionStatus) (msg : string) : SM unit :=
  statePending ConditionTypeRuntimeBootstrapperReady reason status msg.

(*@ src/internal/controller/runtime/fsm/runtime_fsm_initialize_runtime_bootstrapper.go:24-135 sFnInitializeRuntimeBootstrapper *)
Definition sFnInitializeRuntimeBootstrapper : SM transition :=
  match (if RuntimeBootstrapperEnabled m then BootstrapperInstaller m else None) with
  | None => switchState SfnCleanupRegistryCacheGardenSecrets
  | Some installer =>
      i ← getInstance;
      err ← lift (Configure installer i);
      match err with
      | Some _ =>
          _ ← bootstrapperPending ConditionReasonRuntimeBootstrapperConfigurationFailed ConditionFalse
                msgConfigurationFailed;
          updateStatusAndRequeueAfter timeout
      | None =>
          info ← lift (InstallationInfo installer i);
          match info with
          | Err _ =>
              _ ← bootstrapperPending ConditionReasonRuntimeBootstrapperStatusUnknown ConditionFalse
                    msgStatusCheckFailed;
              updateStatusAndRequeueAfter timeout
          | Ok (status, manifests) =>
              match status with
              | StatusNotStarted =>
                  err ← lift (Install installer i manifests);
                  _ ← match err with
                      | Some _ =>
                          bootstrapperPending ConditionReasonRuntimeBootstrapperInstallationFailed
                            ConditionFalse msgInstallationFailed
                      | None =>
                          bootstrapperPending ConditionReasonRuntimeBootstrapperInstallationInProgress
                            ConditionFalse msgInstallationInProgress
                      end;
                  updateStatusAndRequeueAfter timeout
              | StatusUpgradeNeeded =>
                  err ← lift (Install installer i manifests);
                  _ ← match err with
                      | Some _ =>
                          bootstrapperPending ConditionReasonRuntimeBootstrapperUpgradeFailed
                            ConditionFalse msgUpgradeFailed
                      | None =>
                          bootstrapperPending ConditionReasonRuntimeBootstrapperUpgradeInProgress
                            ConditionFalse msgUpgradeInProgress
                      end;
                  updateStatusAndRequeueAfter timeout
              | StatusInProgress =>
                  _ ← bootstrapperPending ConditionReasonRuntimeBootstrapperInstallationInProgress
                        ConditionFalse msgInstallationInProgress;
                  updateStatusAndRequeueAfter timeout
              | StatusFailed =>
                  updateStateFailedWithErrorAndStop ConditionTypeRuntimeBootstrapperReady
                    ConditionReasonRuntimeBootstrapperInstallationFailed msgInstallationFailed
              | StatusReady =>
                  _ ← lift (Cleanup installer i);
                  _ ← bootstrapperPending ConditionReasonRuntimeBootstrapperConfigured ConditionTrue
                        msgInstallationCompleted;
                  switchState SfnCleanupRegistryCacheGardenSecrets
              end
          end
      end
  end.

(** ** Registry cache cleanup *)

(*@ src/internal/controller/runtime/fsm/runtime_fsm_cleanup_registry_cache_garden_secrets.go:14-74 sFnCleanupRegistryCacheGardenSecrets *)
Definition sFnCleanupRegistryCacheGardenSecrets : SM transition :=
  if negb (RegistryCacheConfigControllerEnabled m) then switchState SfnConfigureSKR
  else
    runtimeClient ← RuntimeClientGetter;
    match runtimeClient with
    | Err err =>
        _ ← statePending ConditionTypeRegistryCacheConfigured
              ConditionReasonRegistryCacheGardenClusterConfigurationFailed ConditionFalse (errText err);
        updateStatusAndRequeueAfter (StatusRequeueDelay m)
    | Ok _ =>
        i ← getInstance;
        err ← lift (DeleteUnused (secretManagerFor m i) (rCaching (rtSpec i)));
        match err with
        | Some err =>
            _ ← statePending ConditionTypeRegistryCacheConfigured
                  ConditionReasonRegistryCacheGardenClusterCleanupFailed ConditionFalse (errText err);
            updateStatusAndRequeueAfter (StatusRequeueDelay m)
        | None =>
            if Nat.ltb 0 (length (rCaching (rtSpec i))) then
              err ← lift (SetStatusReady i CacheReasonRegistryCacheConfigured);
              match err with
              | Some _ => requeue
              | None =>
                  ensureStatusConditionIsSetAndContinue (StatusRequeueDelay m)
                    ConditionTypeRegistryCacheConfigured ConditionReasonRegistryCacheConfigured
                    "Registry cache configured successfully" SfnConfigureSKR
              end
            else switchState SfnConfigureSKR
        end
    end.

(** ** OIDC and the provisioning info *)

(** The loop of [isOidcExtensionEnabled]. *)
Fixpoint oidcEnabledIn (extensions : list Extension) : bool :=
  match extensions with
  | [] => false
  | ext :: rest =>
      if String.eqb (extType ext) OidcExtensionType then
        match extDisabled ext with None => true | Some disabled => negb disabled end
      else oidcEnabledIn rest
  end.

(*@ src/internal/controller/runtime/fsm/runtime_fsm_configure_skr.go:143-153 isOidcExtensionEnabled *)
Definition isOidcExtensionEnabled (shoot : Shoot) : bool := oidcEnabledIn (ssExtensions (shootSpec shoot)).

Definition runtime_with_additional_oidc (rt : Runtime) (l : option (list RuntimeOIDCConfig)) : Runtime :=
  let sh := rShoot (rtSpec rt) in
  let kas := rkKubeAPIServer (rsKubernetes sh) in
  runtime_with_spec rt
    (mkRuntimeSpec
       (mkRuntimeShoot (rsName sh) (rsPurpose sh) (rsPlatformRegion sh) (rsRegion sh)
          (rsLicenceType sh) (rsSecretBindingName sh) (rsEnforceSeedLocation sh)
          (rsEnableNvidiaOpenshell sh)
          (mkRuntimeKubernetes (rkVersion (rsKubernetes sh))
             (mkRuntimeAPIServer (raOidcConfig kas) l (raACL kas)))
          (rsProvider sh) (rsNetworking sh) (rsControlPlane sh))
       (rSecurity (rtSpec rt)) (rCaching (rtSpec rt)) (rAuditLogAccessEnabled (rtSpec rt))).

Definition additionalOidc (rt : Runtime) : option (list RuntimeOIDCConfig) :=
  raAdditionalOidcConfig (rkKubeAPIServer (rsKubernetes (rShoot (rtSpec rt)))).

(** The closure [additionalOIDCConfigUndefined]. *)
Definition additionalOIDCConfigUndefined (config : option (list RuntimeOIDCConfig)) : bool :=
  match config with
  | None => true
  | Some l =>
      existsb (fun c => match oidcClientID (roOIDC c), oidcIssuerURL (roOIDC c) with
                        | Some _, Some _ => false
                        | _, _ => true
                        end) l
  end.

(** The result is [hasEmptyArray]; an undefined configuration is replaced in the
    Runtime by the default one. *)
(*@ src/internal/controller/runtime/fsm/runtime_fsm_configure_skr.go:77-109 additionalOidcEmptyOrUndefined *)
Definition additionalOidcEmptyOrUndefined (runtime : Runtime) : Runtime * bool :=
  if additionalOIDCConfigUndefined (additionalOidc runtime) then
    (runtime_with_additional_oidc runtime
       (Some [mkRuntimeOIDC (ToOIDCConfig (DefaultSharedIASTenant (cfgClusterConfig (RCConfig m)))) ""]),
     false)
  else
    (runtime, match additionalOidc runtime with Some [] => true | _ => false end).

(*@ src/internal/controller/runtime/fsm/runtime_fsm_configure_skr.go:155-191 createOpenIDConnectResource *)
Definition createOpenIDConnectResource (config : RuntimeOIDCConfig) (oidcID : Z) : prog OpenIDConnect :=
  let c := roOIDC config in
  issuerURL ← deref (oidcIssuerURL c);
  clientID ← deref (oidcClientID c);
  mret
    (mkOpenIDConnect
       (meta_with_labels (metaNamed ("kyma-oidc-" +:+ pretty oidcID) "")
          {[ LabelKymaManagedBy := "infrastructure-manager" ]})
       issuerURL clientID (oidcUsernameClaim c) (oidcUsernamePrefix c) (oidcGroupsClaim c)
       (oidcGroupsPrefix c) (oidcRequiredClaims c) (oidcSigningAlgs c) (roJWKS config)).

(*@ src/internal/controller/runtime/fsm/runtime_fsm_configure_skr.go:135-141 deleteExistingKymaOpenIDConnectResources *)
Definition deleteExistingKymaOpenIDConnectResources : prog (option GoError) :=
  r ← callP (CDeleteAllOf Skr KOpenIDConnect {[ LabelKymaManagedBy := "infrastructure-manager" ]});
  mret (errOf r).

(** The loop of [recreateOpenIDConnectResources]: every creation overwrites the
    error of the one before. *)
Fixpoint createOidcResources (id : Z) (configs : list RuntimeOIDCConfig) (err : option GoError) :
    prog (option GoError) :=
  match configs with
  | [] => mret err
  | config :: rest =>
      resource ← createOpenIDConnectResource config id;
      r ← callP (CCreate Skr KOpenIDConnect resource);
      createOidcResources (id + 1) rest (errOf r)
  end.

(*@ src/internal/controller/runtime/fsm/runtime_fsm_configure_skr.go:111-133 recreateOpenIDConnectResources *)
Definition recreateOpenIDConnectResources (hasEmptyArray : bool) : SM (option GoError) :=
  runtimeClient ← RuntimeClientGetter;
  match runtimeClient with
  | Err e => mret (Some e)
  | Ok _ =>
      err ← lift deleteExistingKymaOpenIDConnectResources;
      match err with
      | Some e => mret (Some e)
      | None =>
          if hasEmptyArray then mret None
          else
            i ← getInstance;
            configs ← lift (deref (additionalOidc i));
            lift (createOidcResources 0 configs None)
      end
  end.

(*@ src/internal/controller/runtime/fsm/runtime_fsm_configure_skr.go:193-200 updateConditionFailed *)
Definition updateConditionFailed (reason message : string) : SM unit :=
  statePending ConditionTypeOidcAndCMsConfigured reason ConditionUnknown message.

(*@ src/internal/controller/runtime/fsm/runtime_fsm_configure_skr.go:202-231 applyKymaProvisioningInfoCM *)
Definition applyKymaProvisioningInfoCM : SM (option GoError) :=
  shoot ← getShoot;
  seedRegion ←
    (match ssSeedName (shootSpec shoot) with
     | Some seedName =>
         r ← callS (CGet Garden KSeed (mkNN "" seedName));
         mret (match r with Ok seed => Ok (seedProviderRegion seed) | Err e => Err e end)
     | None => mret (Ok "")
     end : SM (result string));
  match seedRegion with
  | Err e => mret (Some e)
  | Ok seedRegion =>
      i ← getInstance;
      configMap ← lift (ToKymaProvisioningInfoConfigMap i shoot seedRegion);
      match configMap with
      | Err e =>
          mret (Some (wrapError "failed to convert RuntimeCR and Shoot spec to ToKymaProvisioningInfo config map" e))
      | Ok configMap =>
          runtimeClient ← RuntimeClientGetter;
          match runtimeClient with
          | Err e => mret (Some e)
          | Ok _ =>
              r ← callS (CPatch Skr KConfigMap configMap Apply);
              mret (errOf r)
          end
      end
  end.

(*@ src/internal/controller/runtime/fsm/runtime_fsm_configure_skr.go:70-75 handleProvisioningInfoError *)
Definition handleProvisioningInfoError (error : GoError) (conditionReason : string) : SM transition :=
  _ ← updateConditionFailed conditionReason
        ("Failed to apply kyma-provisioning-info config map, scheduling for retry - " +:+ errText error);
  updateStatusAndRequeueAfter (ControlPlaneRequeueDuration m).

(*@ src/internal/controller/runtime/fsm/runtime_fsm_configure_skr.go:31-68 sFnConfigureSKR *)
Definition sFnConfigureSKR : SM transition :=
  skrDetailsErr ← applyKymaProvisioningInfoCM;
  match skrDetailsErr with
  | Some e => handleProvisioningInfoError e ConditionReasonCMError
  | None =>
      shoot ← getShoot;
      if negb (isOidcExtensionEnabled shoot) then
        _ ← statePending ConditionTypeOidcAndCMsConfigured ConditionReasonOidcAndCMsConfigured
              ConditionTrue "OIDC extension disabled";
        switchState SfnApplyClusterRoleBindings
      else
        i ← getInstance;
        let '(rt, hasEmptyArray) := additionalOidcEmptyOrUndefined i in
        _ ← onInstance (fun _ => rt);
        err ← recreateOpenIDConnectResources hasEmptyArray;
        match err with
        | Some _ =>
            _ ← updateConditionFailed ConditionReasonOidcError
                  "Failed to create OpenIDConnect resource. Scheduling for retry";
            updateStatusAndRequeueAfter (ControlPlaneRequeueDuration m)
        | None =>
            _ ← statePending ConditionTypeOidcAndCMsConfigured ConditionReasonOidcAndCMsConfigured
                  ConditionTrue "OIDC and kyma-provisioning-info configuration completed";
            switchState SfnApplyClusterRoleBindings
        end
  end.

(** ** Administrators *)

(*@ src/internal/controller/runtime/fsm/runtime_fsm_apply_clusterrolebindings.go:230-237 updateCRBApplyPending *)
Definition updateCRBApplyPending : SM unit :=
  statePending ConditionTypeRuntimeConfigured ConditionReasonConfigurationErr ConditionFalse
    "failed to update kubeconfig admin access".

(*@ src/internal/controller/runtime/fsm/runtime_fsm_copy_auditlog_credentials.go:133-137 completeProvisioning *)
Definition completeProvisioning : SM unit :=
  onInstance (fun i => if negb (IsProvisioningCompletedStatusSet i)
                       then UpdateStateProvisioningCompleted i else i).

(*@ src/internal/controller/runtime/fsm/runtime_fsm_apply_clusterrolebindings.go:23-88 sFnApplyClusterRoleBindings *)
Definition sFnApplyClusterRoleBindings : SM transition :=
  runtimeClient ← RuntimeClientGetter;
  match runtimeClient with
  | Err _ =>
      _ ← statePending ConditionTypeRuntimeConfigured ConditionReasonConfigurationErr ConditionFalse
            "failed to get runtime client";
      updateStatusAndRequeueAfter (ControlPlaneRequeueDuration m)
  | Ok _ =>
      r ← callS (CList Skr KClusterRoleBinding "" ∅);
      match r with
      | Err _ =>
          _ ← updateCRBApplyPending;
          updateStatusAndRequeueAfter (ControlPlaneRequeueDuration m)
      | Ok crbs =>
          i ← getInstance;
          let admins := Administrators (rSecurity (rtSpec i)) in
          err ← lift (newDelCRBs (getRemoved crbs admins));
          err ← (match err with
                 | Some e => mret (Some e)
                 | None => lift (newAddCRBs (getMissing crbs admins))
                 end : SM (option GoError));
          match err with
          | Some _ =>
              _ ← updateCRBApplyPending;
              updateStatusAndRequeueAfter (ControlPlaneRequeueDuration m)
          | None =>
              if DedicatedAuditLoggingEnabled m && IsDedicatedAuditLogEnabled i then
                _ ← statePending ConditionTypeRuntimeConfigured ConditionReasonAdministratorsConfigured
                      ConditionTrue "Cluster admin configuration completed";
                switchState SfnMigrateToDedicatedAuditLog
              else
                _ ← stateReady ConditionTypeRuntimeConfigured ConditionReasonAdministratorsConfigured
                      "Cluster admin configuration completed";
                _ ← completeProvisioning;
                updateStatusAndStop
          end
      end
  end.

(** ** Dedicated audit log *)

(*@ src/internal/controller/runtime/fsm/runtime_fsm_migrate_dedicated_auditlog_helpers.go:18-18 dedicatedAuditlogSecretReference *)
Definition dedicatedAuditlogSecretReference : string := "dedicated-auditlog-credentials".

(*@ src/internal/controller/runtime/fsm/runtime_fsm_migrate_dedicated_auditlog_helpers.go:95-123 updateAuditLogExtension *)
Definition updateAuditLogExtension (ext : Extension) (d : AuditLogData) : result Extension :=
  match extProviderConfig ext with
  | None => Err (newError "provider config is nil")
  | Some raw =>
      match unmarshal (A := AuditlogExtensionConfig) raw with
      | Err e => Err (wrapError "failed to unmarshal provider config" e)
      | Ok config =>
          match marshal (mkAuditlogExtensionConfig (aecKind config) (aecAPIVersion config) "standard"
                           (TenantID d) (ServiceURL d) dedicatedAuditlogSecretReference) with
          | Err e => Err (wrapError "failed to marshal updated config" e)
          | Ok updatedConfig => Ok (mkExtension (extType ext) (Some updatedConfig) (extDisabled ext))
          end
      end
  end.

(*@ src/internal/controller/runtime/fsm/runtime_fsm_migrate_dedicated_auditlog_helpers.go:127-150 createAuditLogExtension *)
Definition createAuditLogExtension (d : AuditLogData) : result Extension :=
  match marshal (mkAuditlogExtensionConfig "AuditlogConfig"
                   "service.auditlog.extensions.gardener.cloud/v1alpha1" "standard"
                   (TenantID d) (ServiceURL d) dedicatedAuditlogSecretReference) with
  | Err e => Err (wrapError "failed to marshal audit log config" e)
  | Ok configJSON => Ok (mkExtension AuditlogExtensionType (Some configJSON) None)
  end.

(** The first audit log extension is updated in place, else one is appended. *)
(*@ src/internal/controller/runtime/fsm/runtime_fsm_migrate_dedicated_auditlog_helpers.go:53-71 updateAuditLogExtensionConfig *)
Fixpoint updateAuditLogExtensionConfig (extensions : list Extension) (d : AuditLogData) :
    result (list Extension) :=
  match extensions with
  | [] =>
      match createAuditLogExtension d with
      | Err e => Err (wrapError "failed to create audit log extension" e)
      | Ok newExt => Ok [newExt]
      end
  | ext :: rest =>
      if negb (String.eqb (extType ext) AuditlogExtensionType)
      then rest' ← updateAuditLogExtensionConfig rest d; Ok (ext :: rest')
      else
        match updateAuditLogExtension ext d with
        | Err e => Err (wrapError "failed to update audit log extension" e)
        | Ok ext => Ok (ext :: rest)
        end
  end.

(*@ src/internal/controller/runtime/fsm/runtime_fsm_migrate_dedicated_auditlog_helpers.go:75-92 upsertAuditLogSecretReference *)
Definition upsertAuditLogSecretReference (resources : list NamedResourceReference)
    (secretName : string) : list NamedResourceReference :=
  let resource := mkResource dedicatedAuditlogSecretReference (mkObjRef "Secret" secretName "v1") in
  match slicesIndexFunc resources (fun r => String.eqb (resName r) dedicatedAuditlogSecretReference) with
  | None => (resources ++ [resource])%list
  | Some index => <[index := resource]> resources
  end.

(*@ src/internal/controller/runtime/fsm/runtime_fsm_migrate_dedicated_auditlog_helpers.go:42-48 applyDedicatedAuditLogToShoot *)
Definition applyDedicatedAuditLogToShoot (shoot : Shoot) (d : AuditLogData) : result Shoot :=
  let sp := shootSpec shoot in
  extensions ← updateAuditLogExtensionConfig (ssExtensions sp) d;
  Ok (shoot_with_spec shoot
        (mkShootSpec (ssPurpose sp) (ssRegion sp) (ssControlPlane sp) (ssCloudProfile sp) (ssDNS sp)
           extensions (ssKubernetes sp) (ssNetworking sp) (ssProvider sp)
           (ssSecretBindingName sp) (ssCredentialsBindingName sp) (ssSeedName sp) (ssSeedSelector sp)
           (upsertAuditLogSecretReference (ssResources sp) (SecretName d))
           (ssTolerations sp) (ssExposureClassName sp) (ssAccessRestrictions sp) (ssMaintenance sp))).

(*@ src/internal/controller/runtime/fsm/runtime_fsm_migrate_dedicated_auditlog_helpers.go:192-199 getSecretNameFromResources *)
Fixpoint getSecretNameFromResources (resources : list NamedResourceReference)
    (resourceReferenceName : string) : result string :=
  match resources with
  | [] => Err (newError ("resource reference '" +:+ resourceReferenceName +:+
                         "' not found in shoot.Spec.Resources"))
  | r :: rest =>
      if String.eqb (resName r) resourceReferenceName then Ok (refName (resRef r))
      else getSecretNameFromResources rest resourceReferenceName
  end.

(** The loop of [getShootAuditLogConfig]. *)
Fixpoint auditLogConfigIn (extensions : list Extension) (resources : list NamedResourceReference) :
    result AuditLogData :=
  match extensions with
  | [] => Err (newError "audit log extension not found in shoot spec")
  | ext :: rest =>
      if negb (String.eqb (extType ext) AuditlogExtensionType) then auditLogConfigIn rest resources
      else
        match extProviderConfig ext with
        | None => Err (newError "audit log extension has nil provider config")
        | Some raw =>
            match unmarshal (A := AuditlogExtensionConfig) raw with
            | Err e => Err (wrapError "failed to unmarshal audit log config" e)
            | Ok config =>
                match getSecretNameFromResources resources (aecSecretReferenceName config) with
                | Err e => Err (wrapError "failed to get secret name from resources" e)
                | Ok secretName =>
                    Ok (mkAuditLogData (aecTenantID config) (aecServiceURL config) secretName "")
                end
            end
        end
  end.

(*@ src/internal/controller/runtime/fsm/runtime_fsm_migrate_dedicated_auditlog_helpers.go:153-188 getShootAuditLogConfig *)
Definition getShootAuditLogConfig (shoot : option Shoot) : result AuditLogData :=
  match shoot with
  | None => Err (newError "shoot is nil")
  | Some shoot => auditLogConfigIn (ssExtensions (shootSpec shoot)) (ssResources (shootSpec shoot))
  end.

(*@ src/internal/controller/runtime/fsm/runtime_fsm_migrate_dedicated_auditlog_helpers.go:202-210 auditLogConfigsEqual *)
Definition auditLogConfigsEqual (current : option AuditLogData) (desired : AuditLogData) : bool :=
  match current with
  | None => false
  | Some current =>
      String.eqb (TenantID current) (TenantID desired) &&
      String.eqb (ServiceURL current) (ServiceURL desired) &&
      String.eqb (SecretName current) (SecretName desired)
  end.

(*@ src/internal/controller/runtime/fsm/runtime_fsm_migrate_dedicated_auditlog_helpers.go:23-38 patchShootAuditLog *)
Definition patchShootAuditLog (d : AuditLogData) : SM (option GoError) :=
  shoot ← getShoot;
  match applyDedicatedAuditLogToShoot shoot d with
  | Err e => mret (Some e)
  | Ok patchedShoot =>
      r ← callS (CPatch Garden KShoot patchedShoot (MergeFrom KShoot shoot));
      match r with
      | Err e => mret (Some (wrapError "failed to patch shoot" e))
      | Ok stored => _ ← modifyS (fun s => with_shoot s (Some stored)); mret None
      end
  end.

(*@ src/internal/controller/runtime/fsm/runtime_fsm_migrate_dedicated_auditlog.go:17-126 sFnMigrateToDedicatedAuditLog *)
Definition sFnMigrateToDedicatedAuditLog : SM transition :=
  if negb (DedicatedAuditLoggingEnabled m) then _ ← completeProvisioning; updateStatusAndStop
  else
    i ← getInstance;
    let runtimeID := mapGet (Labels (rtMeta i)) LabelKymaRuntimeID in
    if negb (IsDedicatedAuditLogEnabled i) then _ ← completeProvisioning; updateStatusAndStop
    else
      auditLogData ← lift (GetDedicatedAuditLogData (AuditLogDataProvider m) runtimeID true);
      match auditLogData with
      | Err err =>
          _ ← stateFailed ConditionTypeCustomAuditLogConfigured ConditionReasonCustomAuditLogError
                ("Failed to get and claim dedicated audit log configuration: " +:+ errText err);
          _ ← metricS IncRuntimeFSMStopCounter;
          updateStatusAndStop
      | Ok auditLogData =>
          s ← getState;
          let shootAuditLogData :=
            match getShootAuditLogConfig (sshoot s) with Ok d => Some d | Err _ => None end in
          if auditLogConfigsEqual shootAuditLogData auditLogData then
            _ ← stateReady ConditionTypeCustomAuditLogConfigured ConditionReasonCustomAuditLogConfigured
                  "Custom AuditLog shoot configuration completed";
            switchState SfnCopyAuditLogReadCredentials
          else
            err ← patchShootAuditLog auditLogData;
            match err with
            | Some _ =>
                _ ← statePending ConditionTypeCustomAuditLogConfigured
                      ConditionReasonCustomAuditLogConfigured ConditionFalse
                      "Custom AuditLog shoot configuration could not be patched, will retry";
                updateStatusAndRequeueAfter (GardenerRequeueDuration m)
            | None =>
                _ ← statePending ConditionTypeCustomAuditLogConfigured
                      ConditionReasonCustomAuditLogConfigured ConditionUnknown
                      "Custom AuditLog shoot configuration completed";
                updateStatusAndRequeueAfter (GardenerRequeueDuration m)
            end
      end.

(** ** Read credentials of the dedicated audit log *)

Definition auditLogReadCredentialsSecretName : string := "auditlog-read-credentials".

(*@ src/internal/controller/runtime/fsm/runtime_fsm_copy_auditlog_credentials.go:76-131 copyReadCredentialsToSKR *)
Definition copyReadCredentialsToSKR (sourceSecretName : string) : SM (option GoError) :=
  runtimeClient ← RuntimeClientGetter;
  match runtimeClient with
  | Err e => mret (Some (wrapError "failed to get runtime client" e))
  | Ok _ =>
      i ← getInstance;
      source ← callS (CGet Kcp KSecret (mkNN (Namespace (rtMeta i)) sourceSecretName));
      match source with
      | Err e =>
          mret (Some (wrapError ("failed to get source secret " +:+ Namespace (rtMeta i) +:+ "/" +:+
                                 sourceSecretName) e))
      | Ok sourceSecret =>
          existing ← callS (CGet Skr KSecret (mkNN "kyma-system" auditLogReadCredentialsSecretName));
          match existing with
          | Err e =>
              if negb (IsNotFound e)
              then mret (Some (wrapError "failed to check existing secret" e))
              else
                r ← callS (CCreate Skr KSecret
                       (mkSecret
                          (meta_with_labels (metaNamed auditLogReadCredentialsSecretName "kyma-system")
                             {[ LabelKymaManagedBy := "infrastructure-manager" ]})
                          (secretType sourceSecret) None (secretData sourceSecret) ∅));
                mret (wrapError "failed to create secret in SKR" <$> errOf r)
          | Ok existingSecret =>
              r ← callS (CUpdate Skr KSecret
                     (mkSecret
                        (meta_with_labels (secretMeta existingSecret)
                           (<[LabelKymaManagedBy := "infrastructure-manager"]>
                              (Labels (secretMeta existingSecret))))
                        (secretType sourceSecret) (secretImmutable existingSecret)
                        (secretData sourceSecret) (secretStringData existingSecret)));
              mret (wrapError "failed to update secret in SKR" <$> errOf r)
          end
      end
  end.

Definition credentialsPending (msg : string) : SM transition :=
  _ ← statePending ConditionTypeAuditLogCredentialsCopied ConditionReasonCredentialsCopyError
        ConditionFalse msg;
  updateStatusAndRequeueAfter (ControlPlaneRequeueDuration m).

(*@ src/internal/controller/runtime/fsm/runtime_fsm_copy_auditlog_credentials.go:22-74 sFnCopyAuditLogReadCredentials *)
Definition sFnCopyAuditLogReadCredentials : SM transition :=
  i ← getInstance;
  let runtimeID := mapGet (Labels (rtMeta i)) LabelKymaRuntimeID in
  auditLogData ← lift (GetDedicatedAuditLogData (AuditLogDataProvider m) runtimeID false);
  match auditLogData with
  | Err err => credentialsPending ("Failed to get audit log data: " +:+ errText err)
  | Ok auditLogData =>
      if String.eqb (ReadCredsSecretName auditLogData) ""
      then credentialsPending "Waiting for read credentials secret to be configured"
      else
        err ← copyReadCredentialsToSKR (ReadCredsSecretName auditLogData);
        match err with
        | Some err => credentialsPending ("Failed to copy read credentials: " +:+ errText err)
        | None =>
            _ ← stateReady ConditionTypeAuditLogCredentialsCopied ConditionReasonCredentialsCopied
                  "Audit log read credentials copied to runtime";
            _ ← completeProvisioning;
            updateStatusAndStop
        end
  end.

End Configure.

(** ** Lemmas: the audit log configuration of a Shoot *)

Section AuditLogShoot.
Context `{CodecLaws AuditlogExtensionConfig}.

Definition isAuditLogExt (ext : Extension) : bool := String.eqb (extType ext) AuditlogExtensionType.

(** In [l'] the first element of the kind is put in the place of that of [l], or at the
    end if there was none; everything else is as in [l]. *)
Definition firstPut {A} (sel : A -> bool) (put : option A -> A -> Prop) (l l' : list A) : Prop :=
  exists pre x' post, l' = (pre ++ x' :: post)%list /\ Forall (fun x => sel x = false) pre /\
    ((l = pre /\ post = [] /\ put None x') \/
     exists x, sel x = true /\ l = (pre ++ x :: post)%list /\ put (Some x) x').

Lemma firstPut_cons {A} (sel : A -> bool) put y l l' :
  sel y = false -> firstPut sel put l l' -> firstPut sel put (y :: l) (y :: l').
Proof.
  intros Hy (pre & x' & post & -> & Hpre & Hor). exists (y :: pre), x', post. split_and!; [done|by constructor|].
  destruct Hor as [(-> & -> & Hp)|(x & Hx & -> & Hp)]; [by left|right; by exists x].
Qed.

(** The extension points to the dedicated instance; of an existing one its other
    settings are kept. *)
Definition pointsTo (d : AuditLogData) (was : option Extension) (ext : Extension) : Prop :=
  extType ext = "shoot-auditlog-service" /\ extDisabled ext = (e ← was; extDisabled e) /\
  exists config raw, extProviderConfig ext = Some raw /\ marshal config = Ok raw /\ aecType config = "standard" /\
    aecTenantID config = TenantID d /\ aecServiceURL config = ServiceURL d /\
    aecSecretReferenceName config = "dedicated-auditlog-credentials" /\
    match was with
    | None => aecKind config = "AuditlogConfig" /\ aecAPIVersion config = "service.auditlog.extensions.gardener.cloud/v1alpha1"
    | Some e => exists old (c : AuditlogExtensionConfig), extProviderConfig e = Some old /\ unmarshal old = Ok c /\
        aecKind config = aecKind c /\ aecAPIVersion config = aecAPIVersion c
    end.

Lemma updateExtension_spec ext d ext' :
  isAuditLogExt ext = true -> updateAuditLogExtension ext d = Ok ext' -> pointsTo d (Some ext) ext'.
Proof.
  unfold updateAuditLogExtension, isAuditLogExt. intros Ht%String.eqb_eq Hu.
  destruct (extProviderConfig ext) as [raw|] eqn:Er; [|done].
  destruct (unmarshal raw) as [config|e] eqn:Ec; [|done].
  destruct (marshal (A := AuditlogExtensionConfig) _) as [raw'|e] eqn:Em; [|done].
  injection Hu as <-. split; [done|]. split; [done|]. eexists _, raw'. cbn. split_and!; [done|exact Em|done..|].
  by exists raw, config.
Qed.

Lemma createExtension_spec d ext : createAuditLogExtension d = Ok ext -> pointsTo d None ext.
Proof.
  unfold createAuditLogExtension. destruct (marshal _) as [raw|e] eqn:Em; [|done]. intros [= <-].
  split; [done|]. split; [done|]. eexists _, raw. by split_and!.
Qed.

(** The first audit log extension changes, or one is added at the end. *)
Lemma updateExtensions_spec exts d exts' :
  updateAuditLogExtensionConfig exts d = Ok exts' -> firstPut isAuditLogExt (pointsTo d) exts exts'.
Proof.
  revert exts'. induction exts as [|ext exts IH]; intros exts'; cbn.
  - destruct (createAuditLogExtension d) as [ext'|e] eqn:Ec; [|done]. intros [= <-].
    exists [], ext', []. split_and!; [done|constructor|left]. split_and!; [done..|by apply createExtension_spec].
  - fold (isAuditLogExt ext). destruct (isAuditLogExt ext) eqn:Et; cbn [negb].
    + destruct (updateAuditLogExtension ext d) as [ext'|e] eqn:Eu; [|done]. intros [= <-].
      exists [], ext', exts. split_and!; [done|constructor|right]. exists ext. split_and!; [done..|by apply updateExtension_spec].
    + destruct (updateAuditLogExtensionConfig exts d) as [rest|e] eqn:Er; [|done]. intros [= <-].
      by apply firstPut_cons, IH.
Qed.

Definition isCredentialsRef (r : NamedResourceReference) : bool := String.eqb (resName r) "dedicated-auditlog-credentials".

Lemma upsert_spec resources name :
  firstPut isCredentialsRef
    (fun _ r => r = mkResource "dedicated-auditlog-credentials" (mkObjRef "Secret" name "v1"))
    resources (upsertAuditLogSecretReference resources name).
Proof.
  unfold upsertAuditLogSecretReference. induction resources as [|r rs IH].
  { exists [], (mkResource dedicatedAuditlogSecretReference (mkObjRef "Secret" name "v1")), [].
    split_and!; [done|constructor|by left]. }
  cbn [slicesIndexFunc]. change (String.eqb (resName r) dedicatedAuditlogSecretReference) with (isCredentialsRef r).
  destruct (isCredentialsRef r) eqn:E.
  - eexists [], _, rs. split_and!; [done|constructor|right]. by exists r.
  - destruct (slicesIndexFunc rs _) as [i|]; by apply firstPut_cons.
Qed.

Lemma secretName_upserted resources name :
  getSecretNameFromResources (upsertAuditLogSecretReference resources name)
    dedicatedAuditlogSecretReference = Ok name.
Proof.
  unfold upsertAuditLogSecretReference.
  induction resources as [|r rs IH]; cbn -[dedicatedAuditlogSecretReference].
  - by rewrite String.eqb_refl.
  - destruct (String.eqb (resName r) dedicatedAuditlogSecretReference) eqn:E;
      cbn -[dedicatedAuditlogSecretReference]; [by rewrite String.eqb_refl|].
    destruct (slicesIndexFunc rs _) as [i|]; cbn -[dedicatedAuditlogSecretReference] in *;
      by rewrite E.
Qed.

Lemma auditLogConfigIn_app pre ext post resources d name :
  Forall (fun e => isAuditLogExt e = false) pre -> (exists was, pointsTo d was ext) ->
  getSecretNameFromResources resources dedicatedAuditlogSecretReference = Ok name ->
  auditLogConfigIn (pre ++ ext :: post) resources =
    Ok (mkAuditLogData (TenantID d) (ServiceURL d) name "").
Proof.
  intros Hpre (was & Ht & _ & config & raw & Hraw & Hm & _ & HT & HS & Hr & _) Hn.
  induction Hpre as [|e pre He _ IH]; cbn [app auditLogConfigIn]; unfold isAuditLogExt in *.
  - pose proof (unmarshal_marshal _ _ Hm) as Hun.
    rewrite Ht, Hraw, Hun, Hr. change "dedicated-auditlog-credentials" with dedicatedAuditlogSecretReference.
    rewrite Hn, HT, HS. done.
  - by rewrite He.
Qed.

End AuditLogShoot.

(** ** Properties *)

(** C25. Pointing a Shoot to a dedicated audit log takes effect: when
    applyDedicatedAuditLogToShoot succeeds, getShootAuditLogConfig reads back the
    tenant, the service URL and the secret it wrote, so the migration step finds
    the configurations equal and does not patch again. The first audit log extension is
    changed in its place (tenant, URL, type and secret reference; it keeps its kind, its
    API version and whether it is disabled), or one is appended if there is none; the
    first reference of the credentials' name is replaced, or one is appended; every
    other extension and reference, the rest of the specification, the metadata and the
    status stay as they were. *)
Theorem dedicated_auditlog_roundtrip `{CodecLaws AuditlogExtensionConfig}
    (shoot shoot' : Shoot) (d : AuditLogData)
    (Happly : applyDedicatedAuditLogToShoot shoot d = Ok shoot') :
  let sp := shootSpec shoot in
  let sp' := shootSpec shoot' in
  getShootAuditLogConfig (Some shoot') = Ok (mkAuditLogData (TenantID d) (ServiceURL d) (SecretName d) "") /\
  (forall d', getShootAuditLogConfig (Some shoot') = Ok d' -> auditLogConfigsEqual (Some d') d = true) /\
  firstPut (fun e => String.eqb (extType e) "shoot-auditlog-service") (pointsTo d) (ssExtensions sp) (ssExtensions sp') /\
  firstPut (fun r => String.eqb (resName r) "dedicated-auditlog-credentials")
    (fun _ r => r = mkResource "dedicated-auditlog-credentials" (mkObjRef "Secret" (SecretName d) "v1"))
    (ssResources sp) (ssResources sp') /\
  set_resources (set_extensions sp' (ssExtensions sp)) (ssResources sp) = sp /\
  shootMeta shoot' = shootMeta shoot /\ shootStatus shoot' = shootStatus shoot.
Proof.
  intros sp sp'. unfold applyDedicatedAuditLogToShoot in Happly. cbn in Happly. unfold sp, sp'. clear sp sp'.
  destruct (updateAuditLogExtensionConfig _ d) as [exts|e] eqn:Eu; [|done]. injection Happly as <-.
  pose proof (updateExtensions_spec _ _ _ Eu) as Hexts.
  cbn [getShootAuditLogConfig shoot_with_spec shootSpec ssExtensions ssResources shootMeta shootStatus].
  assert (auditLogConfigIn exts (upsertAuditLogSecretReference (ssResources (shootSpec shoot)) (SecretName d)) =
    Ok (mkAuditLogData (TenantID d) (ServiceURL d) (SecretName d) "")) as Hread.
  { destruct Hexts as (pre & ext & post & -> & Hpre & Hor). apply auditLogConfigIn_app; [done| |apply secretName_upserted].
    destruct Hor as [(_ & _ & Hp)|(x & _ & _ & Hp)]; by eexists. }
  rewrite Hread. split_and!; [done| |exact Hexts|apply upsert_spec|by destruct shoot as [? ? ? [] ?]|done..].
  intros d' [= <-]. cbn. by rewrite !String.eqb_refl.
Qed.

Lemma dedicated_auditlog_roundtrip_witness :
  let d := mkAuditLogData "tenant" "https://audit" "secret" "" in
  let config := mkAuditlogExtensionConfig "AuditlogConfig"
    "service.auditlog.extensions.gardener.cloud/v1alpha1" "standard" "tenant" "https://audit"
    dedicatedAuditlogSecretReference in
  let codec := singleCodec config "bytes" in
  match applyDedicatedAuditLogToShoot emptyShoot d with
  | Ok shoot' => getShootAuditLogConfig (Some shoot') =
      Ok (mkAuditLogData (TenantID d) (ServiceURL d) (SecretName d) "")
  | Err _ => False
  end.
Proof.
  intros d config codec.
  destruct (applyDedicatedAuditLogToShoot emptyShoot d) as [shoot'|e] eqn:E; [|vm_compute in E; discriminate E].
  exact (proj1 (@dedicated_auditlog_roundtrip codec (singleCodec_laws config "bytes") emptyShoot shoot' d E)).
Defined.
