(* ===== verification/FsmDelete.v ===== *)
(** * State functions: deletion of a runtime
      (internal/controller/runtime/fsm) *)

From S2P Require Import Prelude Kube Gardener RuntimeApi Objects Effects Config StructuredAuth.
From S2P Require Import AuditLog FsmState FsmProvision.

Local Open Scope string_scope.

(*@ src/internal/controller/runtime/fsm/runtime_fsm_delete_shoot.go:95-99 setObjectFields *)
Definition setObjectFields (shoot : Shoot) : Shoot :=
  mkShoot "Shoot" "core.gardener.cloud/v1beta1" (meta_without_managed_fields (shootMeta shoot))
    (shootSpec shoot) (shootStatus shoot).

(*@ src/internal/controller/runtime/fsm/runtime_fsm_delete_shoot.go:101-107 isGardenerCloudDelConfirmationSet *)
Definition isGardenerCloudDelConfirmationSet (a : gmap string string) : bool :=
  match a !! AnnotationGardenerCloudDelConfirmation with
  | Some val => String.eqb val "true"
  | None => false
  end.

(*@ src/internal/controller/runtime/fsm/runtime_fsm_delete_shoot.go:109-115 addGardenerCloudDelConfirmation *)
Definition addGardenerCloudDelConfirmation (a : gmap string string) : gmap string string :=
  <[AnnotationGardenerCloudDelConfirmation := "true"]> a.

(** The object [sFnDeleteShoot] applies to a Shoot without the confirmation. *)
Definition withDelConfirmation (shoot : Shoot) : Shoot :=
  let shoot := setObjectFields shoot in
  shoot_with_meta shoot
    (meta_with_annotations (shootMeta shoot)
       (addGardenerCloudDelConfirmation (Annotations (shootMeta shoot)))).

Section Delete.
Context `{MetaLib} `{GardenerLib}.
Context (m : RCCfg).

(** ** The GardenerCluster of the runtime *)

(*@ src/internal/controller/runtime/fsm/runtime_fsm_delete_kubeconfig.go:15-73 sFnDeleteKubeconfig *)
Definition sFnDeleteKubeconfig : SM transition :=
  i ← getInstance;
  let runtimeID := mapGet (Labels (rtMeta i)) LabelKymaRuntimeID in
  r ← callS (CGet Kcp KGardenerCluster (mkNN (Namespace (rtMeta i)) runtimeID));
  match r with
  | Err err =>
      if negb (IsNotFound err) then
        _ ← metricS IncRuntimeFSMStopCounter;
        updateStateFailedWithErrorAndStop RuntimeStateTerminating ConditionReasonKubernetesAPIErr
          "Failed to get GardenerCluster CR"
      else
        ensureTerminatingStatusConditionAndContinue (StatusRequeueDelay m)
          ConditionTypeRuntimeDeprovisioned ConditionReasonGardenerCRDeleted
          "Gardener Cluster CR successfully deleted" SfnDeleteShoot
  | Ok cluster =>
      _ ← getShoot;                                (* s.shoot.Name is logged *)
      if negb (timeIsZero (DeletionTimestamp (gcMeta cluster)))
      then requeueAfter (ControlPlaneRequeueDuration m)
      else
        r ← callS (CDelete Kcp KGardenerCluster cluster);
        _ ← match r with
            | Err err =>
                stateDeletion ConditionTypeRuntimeDeprovisioned ConditionReasonGardenerError
                  ConditionFalse ("Gardener API delete error: " +:+ errText err)
            | Ok _ =>
                stateDeletion ConditionTypeRuntimeDeprovisioned ConditionReasonGardenerCRDeleted
                  ConditionUnknown "Runtime shoot deletion started"
            end;
        updateStatusAndRequeueAfter (ControlPlaneRequeueDuration m)
  end.

(** ** The Shoot *)

(** The confirmation annotation; the answer says whether to go on. *)
Definition confirmDeletion : SM bool :=
  shoot ← getShoot;
  if isGardenerCloudDelConfirmationSet (Annotations (shootMeta shoot)) then mret true
  else
    let shoot := withDelConfirmation shoot in
    _ ← modifyS (fun s => with_shoot s (Some shoot));
    r ← callS (CPatch Garden KShoot shoot Apply);
    match r with
    | Err _ => mret false
    | Ok stored => _ ← modifyS (fun s => with_shoot s (Some stored)); mret true
    end.

(** [sFnDeleteShoot] from the wait section on. *)
Definition deleteShootRest : SM transition :=
  shoot ← getShoot;
  if negb (timeIsZero (DeletionTimestamp (shootMeta shoot))) then
    _ ← LogLastErrors;
    updateStatusAndRequeueAfter (RequeueDurationShootDelete m)
  else
    confirmed ← confirmDeletion;
    if negb (confirmed : bool) then requeue
    else
      shoot ← getShoot;
      err ← lift (DeleteStructuredConfigMap shoot);
      match err with
      | Some _ =>
          _ ← stateDeletion ConditionTypeRuntimeDeprovisioned ConditionReasonStructuredConfigDeleted
                ConditionFalse "Gardener API structured authentication configmap delete error";
          updateStatusAndRequeueAfter (RequeueDurationShootDelete m)
      | None =>
          r ← callS (CDelete Garden KShoot shoot);
          _ ← match r with
              | Err _ =>
                  stateDeletion ConditionTypeRuntimeDeprovisioned ConditionReasonGardenerShootDeleted
                    ConditionFalse "Gardener API shoot delete error"
              | Ok _ =>
                  stateDeletion ConditionTypeRuntimeDeprovisioned ConditionReasonGardenerShootDeleted
                    ConditionUnknown "Runtime shoot deletion started"
              end;
          updateStatusAndRequeueAfter (RequeueDurationShootDelete m)
      end.

(** An error of the release does not stop the deletion. *)
(*@ src/internal/controller/runtime/fsm/runtime_fsm_delete_shoot.go:16-92 sFnDeleteShoot *)
Definition sFnDeleteShoot : SM transition :=
  i ← getInstance;
  if DedicatedAuditLoggingEnabled m && IsDedicatedAuditLogEnabled i then
    _ ← lift (ReleaseDedicated (AuditLogDataProvider m)
                (mapGet (Labels (rtMeta i)) LabelKymaRuntimeID));
    deleteShootRest
  else deleteShootRest.

End Delete.
