(* ===== verification/Fsm.v ===== *)
(** * The state machine and the reconciler of the Runtime resource
      (internal/controller/runtime, internal/controller/runtime/fsm) *)

From S2P Require Import Prelude Kube Gardener RuntimeApi Objects Effects Config RegistryCache Extensions.
From S2P Require Import StructuredAuth SkrDetails AuditLog ConverterApi FsmState FsmProvision.
From S2P Require Import FsmPatch FsmConfigure FsmDelete.

Local Open Scope string_scope.

(** ctrl.Request of a reconciliation is the name of the Runtime. *)

(*@ src/internal/controller/runtime/fsm/runtime_fsm_emit_event.go:37-43 eventType *)
Definition eventType (condition : Condition) : string :=
  if bool_decide (condStatus condition = ConditionFalse) then "Warning" else "Normal".

Section Fsm.
Context `{MetaLib} `{GardenerLib} `{ShootConverter} `{RegistryCacheLib}.
Context `{Codec AuthenticationConfiguration} `{Codec WindowMap} `{Codec RegistryConfig}.
Context `{Codec KymaProvisioningInfo} `{Codec AuditlogExtensionConfig}.
Context (m : RCCfg).

(** ** Status and events *)

(*@ src/internal/controller/runtime/fsm/runtime_fsm_update_status.go:10-35 sFnUpdateStatus *)
Definition sFnUpdateStatus (result : option Result) (err : option GoError) : SM transition :=
  _ ← match err with Some _ => metricS IncRuntimeFSMStopCounter | None => mret tt end;
  s ← getState;
  if bool_decide (rtStatus (instance s) = snapshot s) then mret (None, result, err)
  else
    r ← callS (CUpdateStatus Kcp KRuntime (instance s));
    match r with
    | Err updateErr =>
        mret (None, None, Some match err with Some err => err | None => updateErr end)
    | Ok stored =>
        _ ← onInstance (fun _ => stored);
        _ ← setRuntimeStates;
        mret (Some (SfnEmitEvent None result err), None, None)
    end.

(** The condition is recorded in the snapshot with the same status, reason and
    message. *)
Definition unchanged (memorized : list Condition) (condition : Condition) : bool :=
  match FindStatusCondition memorized (condType condition) with
  | Some c =>
      bool_decide (condStatus c = condStatus condition) &&
      String.eqb (condReason c) (condReason condition) &&
      String.eqb (condMessage c) (condMessage condition)
  | None => false
  end.

Definition conditionEvent (i : Runtime) (condition : Condition) : call :=
  CEvent i (eventType condition) (condReason condition)
    (condMessage condition +:+ ": " +:+ Namespace (rtMeta i) +:+ "/" +:+ Name (rtMeta i)).

Fixpoint emitEvents (i : Runtime) (memorized conditions : list Condition) : prog unit :=
  match conditions with
  | [] => mret tt
  | condition :: rest =>
      if unchanged memorized condition then emitEvents i memorized rest
      else Vis (conditionEvent i condition) (fun _ => emitEvents i memorized rest)
  end.

(*@ src/internal/controller/runtime/fsm/runtime_fsm_emit_event.go:12-35 sFnEmmitEventfunc *)
Definition sFnEmmitEventfunc (next : option stateFn) (result : option Result)
    (err : option GoError) : SM transition :=
  s ← getState;
  _ ← lift (emitEvents (instance s) (Conditions (snapshot s)) (Conditions (rtStatus (instance s))));
  mret (next, result, err).

(** ** The machine *)

(** The function a [stateFn] value denotes. *)
Definition step (fn : stateFn) : SM transition :=
  match fn with
  | SfnTakeSnapshot => sFnTakeSnapshot m
  | SfnInitialize => sFnInitialize m
  | SfnCreateShoot => sFnCreateShoot m
  | SfnSelectShootProcessing => sFnSelectShootProcessing m
  | SfnSyncRegistryCacheGardenSecrets => sFnSyncRegistryCacheGardenSecrets m
  | SfnPatchExistingShoot => sFnPatchExistingShoot m
  | SfnWaitForShootCreation => sFnWaitForShootCreation m
  | SfnWaitForShootReconcile => sFnWaitForShootReconcile m
  | SfnHandleKubeconfig => sFnHandleKubeconfig m
  | SfnCreateKymaNamespace => sFnCreateKymaNamespace m
  | SfnInitializeRuntimeBootstrapper => sFnInitializeRuntimeBootstrapper m
  | SfnCleanupRegistryCacheGardenSecrets => sFnCleanupRegistryCacheGardenSecrets m
  | SfnConfigureSKR => sFnConfigureSKR m
  | SfnApplyClusterRoleBindings => sFnApplyClusterRoleBindings m
  | SfnMigrateToDedicatedAuditLog => sFnMigrateToDedicatedAuditLog m
  | SfnCopyAuditLogReadCredentials => sFnCopyAuditLogReadCredentials m
  | SfnDeleteKubeconfig => sFnDeleteKubeconfig m
  | SfnDeleteShoot => sFnDeleteShoot m
  | SfnStopWithMetrics => sFnStopWithMetrics
  | SfnUpdateStatus result err => sFnUpdateStatus result err
  | SfnEmitEvent next result err => sFnEmmitEventfunc next result err
  end.

(** What [Run] returns. *)
Definition outcomeOf (result : option Result) (err : option GoError) : Result * option GoError :=
  (default (mkResult false 0) result, err).

(** The loop of [Run]; [None] when the fuel is spent before the loop ends.
    [result] is the one the last state function returned. *)
Fixpoint runLoop (fuel : nat) (fn : stateFn) (result : option Result) (s : systemState) :
    prog (option (Result * option GoError)) :=
  match fuel with
  | O => mret None
  | S fuel =>
      done ← callP CCtxDone;
      match done with
      | Some err => mret (Some (outcomeOf result (Some err)))
      | None =>
          '(t, s) ← step fn s;
          match t with
          | (None, result, err) => mret (Some (outcomeOf result err))
          | (Some _, result, Some err) => mret (Some (outcomeOf result (Some err)))
          | (Some fn, result, None) => runLoop fuel fn result s
          end
      end
  end.

(** The longest reconciliation: [Run_fuel] shows that more fuel makes no
    difference. *)
Definition maxSteps : nat := 15.

(*@ src/internal/controller/runtime/fsm/runtime_fsm.go:78-110 Run *)
Definition Run (v : Runtime) : prog (option (Result * option GoError)) :=
  runLoop maxSteps SfnTakeSnapshot None (mkState v emptyStatus None).

(*@ src/internal/controller/runtime/runtime_controller.go:57-86 Reconcile *)
Definition Reconcile (request : NamespacedName) : prog (option (Result * option GoError)) :=
  r ← callP (CGet Kcp KRuntime request);
  match r with
  | Err err => mret (Some (mkResult false 0, if IsNotFound err then None else Some err))
  | Ok runtime => Run runtime
  end.

End Fsm.
