(* ===== verification/FsmRun.v ===== *)
(** * Termination of a reconciliation

    Every state function chooses a later one, whatever the cluster answers, so
    the loop of [Run] ends after at most fifteen steps. *)

From S2P Require Import Prelude Kube Gardener RuntimeApi Objects Effects Config RegistryCache Extensions.
From S2P Require Import StructuredAuth SkrDetails AuditLog ConverterApi FsmState FsmProvision.
From S2P Require Import FsmPatch FsmConfigure FsmDelete Fsm.

(** ** What a state function returns, whatever happens *)

(** Every value [m] can return satisfies [P], for all answers to all calls; a
    panic is tolerated. *)
Definition yields {A} (P : A -> Prop) (m : SM A) : Prop :=
  forall s h, swp anyEnv anyCall m s h (fun a _ _ => P a) (fun _ => True).

Lemma wp_any {A} (p : prog A) h (Q : outcome A -> history -> Prop) :
  (forall o h', Q o h') -> wp anyEnv anyCall p h Q.
Proof. intros HQ. revert h. induction p as [a| |c k IH]; intros h; cbn; [done..|]. split; auto; done. Qed.

Lemma yields_any {A} (m : SM A) : yields (fun _ => True) m.
Proof. intros s h. apply wp_any. by intros [[a s']|] h'. Qed.

Lemma yields_ret {A} (P : A -> Prop) a : P a -> yields P (mret a).
Proof. intros HP s h. by apply swp_ret. Qed.

Lemma yields_bind {A B} (P : A -> Prop) (Q : B -> Prop) (m : SM A) (f : A -> SM B) :
  yields P m -> (forall a, P a -> yields Q (f a)) -> yields Q (m ≫= f).
Proof.
  intros Hm Hf s h. apply swp_bind. eapply swp_mono; [| |apply Hm]; [|done].
  intros a s' h' HP. by apply Hf.
Qed.

(** The common case: nothing is known of the first value. *)
Lemma yields_seq {A B} (Q : B -> Prop) (m : SM A) (f : A -> SM B) :
  (forall a, yields Q (f a)) -> yields Q (m ≫= f).
Proof. intros Hf. eapply yields_bind; [apply yields_any|auto]. Qed.

(** ** The order of the state functions *)

Fixpoint rank (fn : stateFn) : nat :=
  match fn with
  | SfnEmitEvent None _ _ | SfnStopWithMetrics => 1
  | SfnEmitEvent (Some next) _ _ => S (rank next)
  | SfnUpdateStatus _ _ => 2
  | SfnCreateShoot | SfnDeleteShoot | SfnCopyAuditLogReadCredentials => 3
  | SfnDeleteKubeconfig | SfnMigrateToDedicatedAuditLog => 4
  | SfnApplyClusterRoleBindings => 5
  | SfnConfigureSKR => 6
  | SfnCleanupRegistryCacheGardenSecrets => 7
  | SfnInitializeRuntimeBootstrapper => 8
  | SfnCreateKymaNamespace => 9
  | SfnHandleKubeconfig => 10
  | SfnPatchExistingShoot | SfnWaitForShootCreation | SfnWaitForShootReconcile => 11
  | SfnSyncRegistryCacheGardenSecrets => 12
  | SfnSelectShootProcessing => 13
  | SfnInitialize => 14
  | SfnTakeSnapshot => 15
  end.

(** The transition ends the run or goes on below [n]. *)
Definition below (n : nat) (t : transition) : Prop :=
  match t with
  | (Some fn, _, _) => rank fn < n
  | (None, _, _) => True
  end.

Ltac below_step :=
  match goal with
  | |- yields _ (_ ≫= _) => apply yields_seq; intros ?
  | |- yields _ (mret _) => apply yields_ret; cbn; lia
  | |- yields _ (match ?x with _ => _ end) => destruct x
  | |- yields _ (let x := _ in _) => cbv zeta
  end.
Ltac below_unfold :=
  unfold updateStateFailedWithErrorAndStop, ensureStatusConditionIsSetAndContinue,
    ensureTerminatingStatusConditionAndContinue, updateStatusAndRequeueAfter, updateStatusAndStop,
    updateStatusAndStopWithError, requeueAfter, requeue, stop, switchState, stopWithMetrics,
    sFnStopWithMetrics.
Ltac below_tac := below_unfold; cbv zeta; repeat below_step.

Section Termination.
Context `{MetaLib} `{GardenerLib} `{ShootConverter} `{RegistryCacheLib}.
Context `{Codec AuthenticationConfiguration} `{Codec WindowMap} `{Codec RegistryConfig}.
Context `{Codec KymaProvisioningInfo} `{Codec AuditlogExtensionConfig}.
Context (m : RCCfg).

Lemma provision_below :
  yields (below 15) (sFnTakeSnapshot m) /\ yields (below 14) (sFnInitialize m) /\
  yields (below 3) (sFnCreateShoot m) /\ yields (below 13) (sFnSelectShootProcessing m) /\
  yields (below 11) (sFnWaitForShootCreation m) /\ yields (below 11) (sFnWaitForShootReconcile m).
Proof.
  unfold sFnTakeSnapshot, sFnInitialize, addFinalizerAndRequeue, removeFinalizerAndStop,
    sFnCreateShoot, createShootReserve, createShootRest, sFnSelectShootProcessing, selectWaitState,
    sFnWaitForShootCreation, sFnWaitForShootReconcile.
  split_and!; below_tac.
Qed.

Lemma unlessNext_below n t k :
  below n t -> yields (below n) k -> yields (below n) (unlessNext t k).
Proof. destruct t as [[[fn|] r] e]; [|done]. intros ? _. by apply yields_ret. Qed.

Lemma resolveAuditLogData_below : yields (fun x => below 11 x.2) (resolveAuditLogData m).
Proof.
  unfold resolveAuditLogData, claimDedicatedAuditLog, getSharedAuditLogDataWithErrorHandling.
  below_unfold; cbv zeta.
  repeat first
    [ eapply yields_bind with (P := below 11);
      [solve [repeat below_step]|intros ? ?; by apply yields_ret]
    | below_step ].
Qed.

Lemma handleUpdateError_below err msg : yields (below 11) (handleUpdateError m err msg).
Proof. unfold handleUpdateError. below_tac. Qed.

Lemma patchConverted_below opts : yields (below 11) (patchConverted m opts).
Proof.
  unfold patchConverted. apply yields_seq. intros [updatedShoot|e]; [|below_tac].
  do 2 (apply yields_seq; intros ?). apply yields_seq. intros [changed|e]; [|below_tac].
  eapply yields_bind with (P := below 11).
  { unfold replaceCollections. below_tac. apply handleUpdateError_below. }
  intros t Ht. apply unlessNext_below; [done|].
  eapply yields_bind with (P := below 11).
  { unfold replaceBinding. below_tac. apply handleUpdateError_below. }
  intros t1 Ht1. apply unlessNext_below; [done|]. unfold applyPatch. apply yields_seq. intros r.
  eapply yields_bind; [apply handleUpdateError_below|]. intros t2 Ht2.
  apply unlessNext_below; [done|]. below_tac.
Qed.

Lemma patch_below : yields (below 11) (sFnPatchExistingShoot m).
Proof.
  unfold sFnPatchExistingShoot.
  eapply yields_bind; [apply resolveAuditLogData_below|]. intros [auditLogConfig t] Ht.
  apply unlessNext_below; [done|]. below_tac. apply patchConverted_below.
Qed.

Lemma configure_below :
  yields (below 12) (sFnSyncRegistryCacheGardenSecrets m) /\
  yields (below 10) (sFnHandleKubeconfig m) /\ yields (below 9) (sFnCreateKymaNamespace m) /\
  yields (below 8) (sFnInitializeRuntimeBootstrapper m) /\
  yields (below 7) (sFnCleanupRegistryCacheGardenSecrets m) /\
  yields (below 6) (sFnConfigureSKR m) /\ yields (below 5) (sFnApplyClusterRoleBindings m) /\
  yields (below 4) (sFnMigrateToDedicatedAuditLog m) /\
  yields (below 3) (sFnCopyAuditLogReadCredentials m) /\
  yields (below 4) (sFnDeleteKubeconfig m) /\ yields (below 3) (sFnDeleteShoot m).
Proof.
  unfold sFnSyncRegistryCacheGardenSecrets, sFnHandleKubeconfig, sFnCreateKymaNamespace,
    sFnInitializeRuntimeBootstrapper, sFnCleanupRegistryCacheGardenSecrets, sFnConfigureSKR,
    handleProvisioningInfoError, sFnApplyClusterRoleBindings, sFnMigrateToDedicatedAuditLog,
    sFnCopyAuditLogReadCredentials, credentialsPending, sFnDeleteKubeconfig, sFnDeleteShoot,
    deleteShootRest.
  split_and!; below_tac.
Qed.

(** Every state function chooses one of lower rank. *)
Lemma step_below fn : yields (below (rank fn)) (step m fn).
Proof.
  destruct provision_below as (? & ? & ? & ? & ? & ?).
  destruct configure_below as (? & ? & ? & ? & ? & ? & ? & ? & ? & ? & ?).
  destruct fn; cbn [step rank]; try assumption.
  - apply patch_below.
  - unfold sFnStopWithMetrics. below_tac.
  - unfold sFnUpdateStatus. below_tac.
  - unfold sFnEmmitEventfunc. apply yields_seq. intros s. apply yields_seq. intros _.
    apply yields_ret. destruct next; cbn; [lia|done].
Qed.

(** ** The loop *)

(** Continuations that agree on what the first program can return are
    interchangeable. *)
Lemma bind_agree {A B} (P : A -> Prop) (p : prog A) (f g : A -> prog B) h0 :
  wp anyEnv anyCall p h0 (mayPanic (fun a _ => P a)) -> (forall a, P a -> f a ≡ g a) ->
  p ≫= f ≡ p ≫= g.
Proof.
  intros Hp Hfg R G h Q. revert h h0 Hp.
  induction p as [a| |c k IH]; intros h h0 Hp; cbn in *; [by apply Hfg|done|].
  destruct Hp as [_ Hk].
  split; intros [HG Hr]; (split; [done|]); intros r HR; eapply (IH r); eauto; by apply Hk.
Qed.

Lemma runLoop_fuel n n' fn result s :
  rank fn <= n -> rank fn <= n' -> runLoop m n fn result s ≡ runLoop m n' fn result s.
Proof.
  revert n' fn result s. induction n as [|n IH]; intros n' fn result s Hn Hn';
    [destruct fn as [ | | | | | | | | | | | | | | | | | | | |[|]]; cbn in Hn; lia|].
  destruct n' as [|n']; [destruct fn as [ | | | | | | | | | | | | | | | | | | | |[|]]; cbn in Hn'; lia|].
  cbn [runLoop]. unfold mbind, prog_bind. apply prog_bind_proper; [|done]. intros [err|]; [done|].
  apply (bind_agree (fun x => below (rank fn) x.1)) with (h0 := []).
  { eapply wp_mono; [|apply step_below]. by intros [[t s']|] h'. }
  intros [[[[fn'|] r] [e|]] s'] Hb; cbn in *; try done. apply IH; lia.
Qed.

Lemma runLoop_ends n fn result s h :
  rank fn <= n ->
  wp anyEnv anyCall (runLoop m n fn result s) h (mayPanic (fun out _ => is_Some out)).
Proof.
  revert fn result s h. induction n as [|n IH]; intros fn result s h Hn;
    [destruct fn as [ | | | | | | | | | | | | | | | | | | | |[|]]; cbn in Hn; lia|].
  cbn [runLoop]. wp_call c Hc; [done|]. destruct c as [err|]; [by eexists|].
  apply wp_seq. eapply wp_mono; [|apply step_below].
  intros [[[[[fn'|] r] [e|]] s']|] h' Hb; cbn in *; try done; try (by eexists). apply IH; lia.
Qed.

End Termination.

(** ** Properties *)

(** C18. A reconciliation terminates: whatever the clusters answer, the loop of
    Run ends (unless it panics) within fifteen state functions, and any larger
    bound gives an equivalent program, so the bound does not cut a run short. *)
Theorem Run_terminates `{MetaLib} `{GardenerLib} `{ShootConverter} `{RegistryCacheLib}
    `{Codec AuthenticationConfiguration} `{Codec WindowMap} `{Codec RegistryConfig}
    `{Codec KymaProvisioningInfo} `{Codec AuditlogExtensionConfig} (m : RCCfg) (v : Runtime) :
  wp anyEnv anyCall (Run m v) [] (mayPanic (fun out _ => is_Some out)) /\
  (forall n, maxSteps <= n ->
     runLoop m n SfnTakeSnapshot None (mkState v emptyStatus None) ≡ Run m v).
Proof.
  split; [by apply runLoop_ends|]. intros n Hn. by apply runLoop_fuel.
Qed.
