(* ===== verification/FsmCalls.v ===== *)
(** * Calls that need no justification

    The safety of a reconciliation is about what it writes outside of the runtime
    cluster: Shoots, secrets and config maps of the Garden cluster, the Runtime, the
    GardenerCluster and the events.  Reads, calls to the runtime cluster and updates
    of AuditLog resources (of which AuditLogPool speaks) are quiet; this file shows
    that the helpers the state functions use make quiet calls only. *)

From S2P Require Import Prelude Kube Gardener RuntimeApi Objects Effects Config.
From S2P Require Import RegistryCache StructuredAuth Seeds Rbac AuditLog ConverterApi.
From S2P Require Import FsmState FsmProvision FsmConfigure.

Definition quietCall (c : call) : Prop :=
  match c with
  | CGet _ _ _ | CList _ _ _ _ | CBuildClient _ | CDiscover _ | CReadFile _
  | CNow | CNewUUID | CCtxDone | CMetric _ => True
  | CCreate Skr _ _ | CUpdate Skr _ _ | CUpdateStatus Skr _ _ | CPatch Skr _ _ _
  | CDelete Skr _ _ | CDeleteAllOf Skr _ _ => True
  | CUpdate Kcp KAuditLog _ => True
  | _ => False
  end.

Lemma audit_quiet c : auditCall c -> quietCall c.
Proof. case_call c; cbn; done. Qed.

Lemma bootstrapper_quiet c : bootstrapperCall c -> quietCall c.
Proof. case_call c; cbn; done. Qed.

Lemma converter_quiet c : converterCall c -> quietCall c.
Proof. case_call c; cbn; done. Qed.

(** One step of a proof that a helper makes quiet calls only. *)
Ltac only_step :=
  match goal with
  | |- only _ (_ ≫= _) => apply only_bind; [|intros ?]
  | |- only _ (forEach _ _) => apply only_forEach; intros ?
  | |- only _ (callP _) => split; [exact I|intros ?; exact I]
  | |- only _ Now => split; [exact I|intros ?; exact I]
  | |- only _ (mret _) => exact I
  | |- only _ (Ret _) => exact I
  | |- only _ (match ?x with _ => _ end) => destruct x
  end.

Section Quiet.

Lemma quiet_listManaged m : only quietCall (listManaged m).
Proof. split; [exact I|]. intros r. exact I. Qed.

Lemma quiet_names m : only quietCall (GetCacheUIDToSecretNameMap m).
Proof. apply only_bind; [apply quiet_listManaged|]. intros r. exact I. Qed.

Lemma quiet_forEachCache `{RegistryCacheLib} i change : only quietCall (forEachCache i change).
Proof. unfold forEachCache. repeat only_step. Qed.

Lemma quiet_SetReady `{RegistryCacheLib} i c : only quietCall (SetStatusReady i c).
Proof. apply quiet_forEachCache. Qed.
Lemma quiet_SetFailed `{RegistryCacheLib} i c msg : only quietCall (SetStatusFailed i c msg).
Proof. apply quiet_forEachCache. Qed.
Lemma quiet_SetPending `{RegistryCacheLib} i c : only quietCall (SetStatusPending i c).
Proof. apply quiet_forEachCache. Qed.

Lemma quiet_window `{Codec WindowMap} path region : only quietCall (GetMaintenanceWindow path region).
Proof. unfold GetMaintenanceWindow, getDataFromFile. repeat only_step. Qed.

Lemma quiet_runtimeClient i : only quietCall (runtimeClientGet i).
Proof. unfold runtimeClientGet, getKubeconfigSecret, GetRuntimeClientWithScheme. repeat only_step. Qed.

Lemma quiet_bindings crbs :
  only quietCall (newDelCRBs crbs) /\ only quietCall (newAddCRBs crbs).
Proof. unfold newDelCRBs, newAddCRBs. split; repeat only_step. Qed.

Lemma quiet_deleteOidc : only quietCall deleteExistingKymaOpenIDConnectResources.
Proof. unfold deleteExistingKymaOpenIDConnectResources. repeat only_step. Qed.

(** The OIDC configurations have been checked before they are created. *)
Lemma quiet_createOidc id configs err :
  (forall c, c ∈ configs -> is_Some (oidcIssuerURL (roOIDC c)) /\ is_Some (oidcClientID (roOIDC c))) ->
  only quietCall (createOidcResources id configs err).
Proof.
  revert id err. induction configs as [|c configs IH]; intros id err Hc; cbn; [done|].
  unfold createOpenIDConnectResource.
  destruct (Hc c) as [[iss ->] [cid ->]]; [constructor|]. cbn.
  split; [done|]. intros r. apply IH. intros c' Hc'. apply Hc. by constructor.
Qed.

End Quiet.

#[export] Hint Resolve quiet_SetReady quiet_SetFailed quiet_SetPending quiet_names quiet_window quiet_runtimeClient
  quiet_deleteOidc : kim.

(** ** Seeds *)

#[export] Instance settingsPresent_dec providerType seed : Decision (settingsPresent providerType seed).
Proof.
  destruct (decide (seedProviderType seed = providerType)) as [Ep|Ep];
    [|left; by intros ?].
  destruct (decide (seedDeletionTimestamp seed = None)) as [Ed|Ed]; [|left; by intros ??].
  destruct (seedSettings seed) as [[v|]|] eqn:Es.
  - left. intros _ _. exists v. done.
  - right. intros Hs. destruct (Hs Ep Ed) as [? ?]. congruence.
  - right. intros Hs. destruct (Hs Ep Ed) as [? ?]. congruence.
Defined.

Lemma collectRegions_silent `{GardenerLib} R G providerType seeds acc h (Q : outcome (list string) -> history -> Prop) :
  (forall o, Q o h) -> wp R G (collectRegions providerType seeds acc) h Q.
Proof.
  intros HQ. revert acc. induction seeds as [|s seeds IH]; intros acc; cbn [collectRegions]; [apply HQ|].
  destruct (String.eqb _ _); [|apply IH]. apply wp_seq. unfold seedCanBeUsed.
  destruct (seedDeletionTimestamp s); wp_norm; [apply IH|].
  destruct (seedSettings s) as [[v|]|]; cbn; [|apply HQ..].
  destruct v; cbn; [|apply IH].
  destruct (verifySeedReadiness s); cbn [andb]; [|apply IH].
  destruct (slicesContains acc _); apply IH.
Qed.

(** A listing of seeds some of which lack the scheduling settings. *)
Definition incompleteSeeds (e : event) : Prop :=
  match e with
  | Ev (CList Garden KSeed _ _) (Ok seeds) => exists p, ~ Forall (settingsPresent p) seeds
  | _ => False
  end.

Lemma wp_seeds `{GardenerLib} G providerType region h
    (Q : outcome (result (bool * list string)) -> history -> Prop) :
  G h (CList Garden KSeed "" ∅) ->
  (forall r x, Q (Done r) (Ev (CList Garden KSeed "" ∅) x :: h)) ->
  (forall x, incompleteSeeds (Ev (CList Garden KSeed "" ∅) x) ->
     Q Panicked (Ev (CList Garden KSeed "" ∅) x :: h)) ->
  wp anyEnv G (seedForRegionAvailable providerType region) h Q.
Proof.
  intros HG HQ HP. unfold seedForRegionAvailable. wp_call r Hr; [done|].
  destruct r as [seeds|e]; [|apply HQ]. apply wp_seq.
  destruct (decide (Forall (settingsPresent providerType) seeds)) as [Hok|Hbad].
  - apply wp_collectRegions; [done|constructor|]. intros l _ _. apply HQ.
  - apply collectRegions_silent. intros [l|]; [apply HQ|]. apply HP. by exists providerType.
Qed.
