(* ===== verification/FsmSafety.v ===== *)
(** * What a reconciliation may do

    [allowed v m h c]: in a reconciliation of the Runtime [v], the call [c] is
    justified after the history [h].  [Run] makes no other call, whatever the
    clusters answer, and panics only for a reason [panicCause] names. *)

From S2P Require Import Prelude Kube Gardener RuntimeApi Objects Effects Config Extensions.
From S2P Require Import RegistryCache StructuredAuth SkrDetails Seeds Rbac AuditLog ConverterApi.
From S2P Require Import FsmState FsmProvision FsmPatch FsmConfigure FsmDelete Fsm FsmCalls.

Local Open Scope string_scope.

(** ** The specification *)

(** A Shoot on which no state function dereferences a nil pointer. *)
Definition wellFormedShoot (sh : Shoot) : Prop :=
  (timeIsZero (DeletionTimestamp (shootMeta sh)) = false ->
     is_Some (stLastOperation (shootStatus sh))) /\
  is_Some (spInfrastructureConfig (ssProvider (shootSpec sh))) /\
  Forall (fun ext => extType ext = RegistryCacheExtensionType -> is_Some (extProviderConfig ext))
    (ssExtensions (shootSpec sh)).

(** Answers of the API servers that lack what the code takes for granted. *)
Definition illFormed (e : event) : Prop :=
  match e with
  | Ev (CGet Garden KShoot _) (Ok sh) => ~ wellFormedShoot sh
  | Ev (CList Garden KSeed _ _) (Ok seeds) => exists p, ~ Forall (settingsPresent p) seeds
  | Ev (CUpdate Kcp KRuntime _) (Ok rt) => ShootLastOperation (rtStatus rt) = None
  | _ => False
  end.

Definition sawIllFormed (h : history) : Prop := exists e, e ∈ h /\ illFormed e.

(** No status of a Runtime has been written. *)
Definition statusWrite (c : call) : bool :=
  match c with CUpdateStatus Kcp KRuntime _ => true | _ => false end.
Definition statusUnwritten (h : history) : Prop :=
  Forall (fun e => statusWrite (callOf e) = false) h.

Section Spec.
Context `{MetaLib} `{GardenerLib} `{Codec AuditlogExtensionConfig}.
Context (m : RCCfg) (v : Runtime).

Definition shootKey : NamespacedName := mkNN (ShootNamesapace m) (rsName (rShoot (rtSpec v))).
Definition clusterKey : NamespacedName :=
  mkNN (Namespace (rtMeta v)) (mapGet (Labels (rtMeta v)) LabelKymaRuntimeID).

(** The Runtime as it was when the reconciliation started. *)
Definition deleting : bool := negb (timeIsZero (DeletionTimestamp (rtMeta v))).
Definition hasFinalizer : bool := ContainsFinalizer (rtMeta v) (CfgFinalizer m).

Definition shootFound (h : history) (sh : Shoot) : Prop :=
  Ev (CGet Garden KShoot shootKey) (Ok sh) ∈ h.
Definition shootMissing (h : history) : Prop :=
  exists e, IsNotFound e = true /\ Ev (CGet Garden KShoot shootKey) (Err e) ∈ h.
Definition clusterGone (h : history) : Prop :=
  exists e, IsNotFound e = true /\ Ev (CGet Kcp KGardenerCluster clusterKey) (Err e) ∈ h.

(** The Shoot has the annotation without which Gardener refuses its deletion. *)
Definition hasDelConfirmation (sh : Shoot) : Prop :=
  Annotations (shootMeta sh) !! "confirmation.gardener.cloud/deletion" = Some "true".

(** The Shoot with that annotation, as it is applied: without the managed fields. *)
Definition confirmedCopy (sh : Shoot) : Shoot :=
  let meta := shootMeta sh in
  mkShoot "Shoot" "core.gardener.cloud/v1beta1"
    (mkMeta (Name meta) (GenerateName meta) (Namespace meta) (UID meta) (ResourceVersion meta) (Generation meta)
       (DeletionTimestamp meta) (Labels meta)
       (<["confirmation.gardener.cloud/deletion" := "true"]> (Annotations meta)) (Finalizers meta) [])
    (shootSpec sh) (shootStatus sh).

Lemma delConfirmation_spec sh : isGardenerCloudDelConfirmationSet (Annotations (shootMeta sh)) = true <-> hasDelConfirmation sh.
Proof.
  unfold isGardenerCloudDelConfirmationSet, hasDelConfirmation.
  change AnnotationGardenerCloudDelConfirmation with "confirmation.gardener.cloud/deletion".
  destruct (_ !! _) as [text|]; [rewrite String.eqb_eq|]; naive_solver.
Qed.

Lemma withDelConfirmation_copy sh : withDelConfirmation sh = confirmedCopy sh.
Proof. done. Qed.

(** [sh] carries the confirmation: it was read with it, or it is what the
    server made of the Shoot read and confirmed. *)
Definition confirmedShoot (h : history) (sh : Shoot) : Prop :=
  (shootFound h sh /\ hasDelConfirmation sh) \/
  (exists sh0, shootFound h sh0 /\
     Ev (CPatch Garden KShoot (confirmedCopy sh0) Apply) (Ok sh) ∈ h).

(** The structured authentication config map the Shoot names is gone. *)
Definition authConfigGone (h : history) (sh : Shoot) : Prop :=
  forall kas name, skKubeAPIServer (ssKubernetes (shootSpec sh)) = Some kas ->
    kasStructuredAuthentication kas = Some name -> name <> "" ->
    exists r, failsUnlessNotFound r = None /\
      Ev (CDelete Garden KConfigMap
            (mkConfigMap (metaNamed name (Namespace (shootMeta sh))) ∅)) r ∈ h.

(** A patch of the Shoot is due. *)
Definition patchDue (h : history) (sh : Shoot) : Prop :=
  deleting = false /\ shootFound h sh /\ shouldPatchShoot v sh = Ok true.

(** The Shoot apart from the resources, which the converter may change. *)
Definition sameButResources (sh0 sh : Shoot) : Prop :=
  exists rs, sh = shoot_with_spec sh0
    (spec_with_extensions (shootSpec sh0) (ssExtensions (shootSpec sh0)) rs).

(** The writes of the Runtime resource: the finalizer is added, it is removed,
    the force annotation is removed; the specification stays the user's. *)
Definition runtimeUpdate (h : history) (rt : Runtime) : Prop :=
  sameUserSpec (rtSpec v) (rtSpec rt) /\
  ((deleting = false /\ hasFinalizer = false /\
     rtMeta rt = AddFinalizer (rtMeta v) (CfgFinalizer m)) \/
  (deleting = true /\ hasFinalizer = true /\ shootMissing h /\
     allDeleted (secretManagerFor m v) (fun _ => true) h /\
     rtMeta rt = RemoveFinalizer (rtMeta v) (CfgFinalizer m)) \/
  (deleting = false /\ ShouldForceReconciliation (Annotations (rtMeta v)) = true /\
     (exists sh stored, Ev (CPatch Garden KShoot sh Apply) (Ok stored) ∈ h) /\
     rtMeta rt = meta_with_annotations (rtMeta v)
       (delete ForceReconcileAnnotation (Annotations (rtMeta v))))).

(** What the reconciliation takes for the Runtime: as it was when it started, or
    what the server answered to an update of it. *)
Definition currentRuntime (h : history) (i : Runtime) : Prop :=
  i = v \/ exists rt, Ev (CUpdate Kcp KRuntime rt) (Ok i) ∈ h.

(** The copies of the registry cache secrets of the Runtime. *)
Definition secretSyncer : GardenSecretSyncer :=
  NewGardenSecretSyncer DefaultGardenSecretNameGenerator (gardenNamespace m) (Name (rtMeta v)).

(** The structured authentication config map of its Shoot. *)
Definition authConfigKey : NamespacedName :=
  mkNN (ShootNamesapace m) (StructuredAuthConfigName (rsName (rShoot (rtSpec v)))).

(** The server listed the secret with the labels of the operator and of [i]. *)
Definition listedFor (i : Runtime) (h : history) (s : Secret) : Prop := exists items, s ∈ items /\
  Ev (CList Garden KSecret (gardenNamespace m)
        {["kyma-project.io/runtime-id" := Name (rtMeta i); "app.kubernetes.io/managed-by" := "infrastructure-manager"]})
     (Ok items) ∈ h.

(** It is marked dirty, or no cache of [i] with a secret has its id. *)
Definition disused (i : Runtime) (s : Secret) : Prop :=
  let label := mapGet (Labels (secretMeta s)) in
  label "kyma-project.io/dirty" = "true" \/
  (label "kyma-project.io/registry-cache-id" <> "" /\
   forall cache, cache ∈ rCaching (rtSpec i) -> hasSecretRef cache = true ->
     cacheUID cache <> label "kyma-project.io/registry-cache-id").

(** Secrets of the Garden cluster: a copy is created or marked dirty for a cache of the
    Runtime as [syncGuar] says; a secret of the Runtime is deleted with it, once the
    Shoot is gone, and otherwise only if it is no longer used. *)
Definition gardenSecretWrite : guar := fun h c =>
  match c with
  | CDelete Garden KSecret s =>
      (deleting = true /\ shootMissing h /\ listedFor v h s) \/
      (deleting = false /\ exists i, currentRuntime h i /\ listedFor i h s /\ disused i s)
  | _ => deleting = false /\ syncGuar secretSyncer (rCaching (rtSpec v)) h c
  end.

(** The structured authentication config map: created when there is none, otherwise
    updated, and deleted when its Shoot is. *)
Definition authConfigWrite : guar := fun h c =>
  match c with
  | CCreate Garden KConfigMap o =>
      deleting = false /\ objName KConfigMap o = authConfigKey /\
      exists e, IsNotFound e = true /\ Ev (CGet Garden KConfigMap authConfigKey) (Err e) ∈ h
  | CUpdate Garden KConfigMap o =>
      deleting = false /\ exists old, Ev (CGet Garden KConfigMap authConfigKey) (Ok old) ∈ h /\ cmMeta o = cmMeta old
  | CDelete Garden KConfigMap o =>
      deleting = true /\ clusterGone h /\ exists sh kas name, confirmedShoot h sh /\
        skKubeAPIServer (ssKubernetes (shootSpec sh)) = Some kas /\ kasStructuredAuthentication kas = Some name /\
        name <> "" /\ o = mkConfigMap (metaNamed name (Namespace (shootMeta sh))) ∅
  | _ => False
  end.

(** Which calls may follow a history. Reads, metrics, the calls to the runtime cluster
    and the updates of AuditLog resources need no justification; of the others only the ones
    listed are made. *)
Definition allowed : guar := fun h c =>
  match c with
  | CCreate Garden KShoot sh =>
      deleting = false /\ hasFinalizer = true /\ shootMissing h /\
      ValidateRequiredLabels v = None /\
      is_Some (FindStatusCondition (Conditions (rtStatus v)) ConditionTypeRuntimeProvisioned) /\
      Name (shootMeta sh) = rsName (rShoot (rtSpec v)) /\
      Namespace (shootMeta sh) = gardenNamespace m
  | CUpdate Garden KShoot sh =>
      exists sh0, patchDue h sh0 /\ shootMeta sh = shootMeta sh0 /\ shootStatus sh = shootStatus sh0
  | CPatch Garden KShoot sh Apply =>
      (exists sh0, patchDue h sh0 /\ Name (shootMeta sh) = rsName (rShoot (rtSpec v)) /\
         Namespace (shootMeta sh) = gardenNamespace m) \/
      (deleting = true /\ clusterGone h /\ exists sh0, shootFound h sh0 /\
         ~ hasDelConfirmation sh0 /\ sh = confirmedCopy sh0)
  | CPatch Garden KShoot sh (MergeFrom _ base) =>
      deleting = false /\ DedicatedAuditLoggingEnabled m = true /\
      (exists d, applyDedicatedAuditLogToShoot base d = Ok sh) /\
      exists sh0, shootFound h sh0 /\ sameButResources sh0 base
  | CDelete Garden KShoot sh =>
      deleting = true /\ clusterGone h /\ confirmedShoot h sh /\ authConfigGone h sh
  | CCreate Garden KSecret _ | CPatch Garden KSecret _ _ | CDelete Garden KSecret _ => gardenSecretWrite h c
  | CCreate Garden KConfigMap _ | CUpdate Garden KConfigMap _ | CDelete Garden KConfigMap _ => authConfigWrite h c
  | CCreate Kcp KGardenerCluster cluster =>
      deleting = false /\ exists i e, currentRuntime h i /\ IsNotFound e = true /\
        let key := mkNN (Namespace (rtMeta i)) (mapGet (Labels (rtMeta i)) LabelKymaRuntimeID) in
        objName KGardenerCluster cluster = key /\ Ev (CGet Kcp KGardenerCluster key) (Err e) ∈ h
  | CDelete Kcp KGardenerCluster cluster =>
      deleting = true /\ (exists sh, shootFound h sh) /\
      Ev (CGet Kcp KGardenerCluster clusterKey) (Ok cluster) ∈ h
  | CUpdate Kcp KRuntime rt => runtimeUpdate h rt
  | CUpdateStatus Kcp KRuntime rt => statusUnwritten h /\ rtStatus rt <> rtStatus v
  | CEvent i _ _ _ =>
      (exists rt, Ev (CUpdateStatus Kcp KRuntime rt) (Ok i) ∈ h) /\
      exists condition, condition ∈ Conditions (rtStatus i) /\
        unchanged (Conditions (rtStatus v)) condition = false /\ c = conditionEvent i condition
  | _ => quietCall c
  end.

Lemma quiet_allowed h c : quietCall c -> allowed h c.
Proof. case_call c; cbn; done. Qed.

End Spec.

(** ** Symbolic execution of the state functions *)

(** [h'] extends [h] by calls other than writes of the status. *)
Definition calmCall (c : call) : Prop := statusWrite c = false.
Abbreviation calmly := (extends calmCall).

Lemma quiet_calm c : quietCall c -> calmCall c.
Proof. by case_call c. Qed.

Lemma calmly_cons h0 h c (r : resp c) : calmly h0 h -> calmCall c -> calmly h0 (Ev c r :: h).
Proof.
  intros Hh Hc. eapply extends_trans; [exact Hh|]. exists [Ev c r]. split; [done|].
  by apply Forall_singleton.
Qed.

Lemma calmly_elem h h' e : calmly h h' -> e ∈ h -> e ∈ h'.
Proof. intros Hh. by apply suffix_elem, (extends_suffix calmCall). Qed.

Lemma calmly_unwritten h h' : calmly h h' -> statusUnwritten h -> statusUnwritten h'.
Proof.
  intros (k & -> & Hk) Hh. by apply Forall_app.
Qed.

Lemma calmly_illFormed h h' : calmly h h' -> sawIllFormed h -> sawIllFormed h'.
Proof. intros Hh (e & He & Hi). exists e. split; [by eapply calmly_elem|done]. Qed.

(** What the methods that record a condition leave alone. *)
Definition frame (s0 s : systemState) : Prop :=
  snapshot s = snapshot s0 /\ sshoot s = sshoot s0 /\
  rtMeta (instance s) = rtMeta (instance s0) /\ rtSpec (instance s) = rtSpec (instance s0) /\
  ShootLastOperation (rtStatus (instance s)) = ShootLastOperation (rtStatus (instance s0)).

Lemma frame_refl s : frame s s.
Proof. done. Qed.

Lemma frame_trans s1 s2 s3 : frame s1 s2 -> frame s2 s3 -> frame s1 s3.
Proof. unfold frame. intuition congruence. Qed.

Section Rules.
Context `{MetaLib} `{GardenerLib} `{Codec AuditlogExtensionConfig}.
Context (m : RCCfg) (v : Runtime).
Abbreviation G := (allowed m v).
Context (P : history -> Prop).
Context (s0 : systemState) (h0 : history).
Abbreviation run mm s h Q := (swp anyEnv G mm s h Q P).

Lemma sx_call c s h (Q : resp c -> systemState -> history -> Prop) :
  quietCall c -> calmly h0 h ->
  (forall r, calmly h0 (Ev c r :: h) -> Q r s (Ev c r :: h)) -> run (callS c) s h Q.
Proof.
  intros Hc Hh HQ. apply swp_call; [by apply quiet_allowed|]. intros r _. apply HQ.
  apply calmly_cons; [done|by apply quiet_calm].
Qed.

(** A helper whose calls are all justified. *)
Lemma sx_justified {A} (p : prog A) s h (Q : A -> systemState -> history -> Prop) :
  wp anyEnv G p h (fun o h' => o <> Panicked /\ calmly h h') -> calmly h0 h ->
  (forall a h', calmly h h' -> calmly h0 h' -> Q a s h') -> run (lift p) s h Q.
Proof.
  intros Hp Hh HQ. apply swp_lift. eapply wp_mono; [|exact Hp]. intros [a|] h' [Hn Hx]; [|done].
  apply HQ; [done|]. by eapply extends_trans.
Qed.

(** A call with a justification. *)
Lemma sx_act c s h (Q : resp c -> systemState -> history -> Prop) :
  allowed m v h c -> calmCall c -> calmly h0 h ->
  (forall r, calmly h0 (Ev c r :: h) -> Q r s (Ev c r :: h)) -> run (callS c) s h Q.
Proof.
  intros Ha Hc Hh HQ. apply swp_call; [done|]. intros r _. apply HQ. by apply calmly_cons.
Qed.

Lemma sx_lift {A} C (p : prog A) s h (Q : A -> systemState -> history -> Prop) :
  only C p -> (forall c, C c -> quietCall c) -> calmly h0 h ->
  (forall a h', calmly h h' -> calmly h0 h' -> Q a s h') -> run (lift p) s h Q.
Proof.
  intros Hp HC Hh HQ. eapply swp_only; [exact Hp|intros; by apply quiet_allowed, HC|].
  intros a h' Hh'. apply (extends_mono _ calmCall) in Hh'; [|by intros c Hc; apply quiet_calm, HC].
  apply HQ; [done|]. by eapply extends_trans.
Qed.

Lemma sx_client s h (Q : result unit -> systemState -> history -> Prop) :
  calmly h0 h -> (forall r h', calmly h h' -> calmly h0 h' -> Q r s h') ->
  run RuntimeClientGetter s h Q.
Proof.
  intros Hh HQ. unfold RuntimeClientGetter. apply swp_bind, swp_getInstance.
  by eapply sx_lift; [apply quiet_runtimeClient|..].
Qed.

Lemma sx_setState (f : Z -> Runtime -> Runtime) s h (Q : unit -> systemState -> history -> Prop) :
  (forall now i, rtMeta (f now i) = rtMeta i /\ rtSpec (f now i) = rtSpec i /\
     ShootLastOperation (rtStatus (f now i)) = ShootLastOperation (rtStatus i)) ->
  frame s0 s -> calmly h0 h ->
  (forall s' h', frame s0 s' -> calmly h h' -> calmly h0 h' -> Q tt s' h') ->
  run (now ← lift Now; onInstance (f now)) s h Q.
Proof.
  intros Hf Hs Hh HQ. apply swp_bind, (sx_lift quietCall); [by split|done|done|].
  intros now h' Hh' Hh0. apply swp_modify. apply HQ; [|done..].
  eapply frame_trans; [exact Hs|]. split_and!; cbn; try done; apply Hf.
Qed.

Lemma sx_pending c r st msg s h (Q : unit -> systemState -> history -> Prop) :
  frame s0 s -> calmly h0 h ->
  (forall s' h', frame s0 s' -> calmly h h' -> calmly h0 h' -> Q tt s' h') ->
  run (statePending c r st msg) s h Q.
Proof. by apply sx_setState. Qed.

Lemma sx_ready c r msg s h (Q : unit -> systemState -> history -> Prop) :
  frame s0 s -> calmly h0 h ->
  (forall s' h', frame s0 s' -> calmly h h' -> calmly h0 h' -> Q tt s' h') ->
  run (stateReady c r msg) s h Q.
Proof. by apply sx_setState. Qed.

Lemma sx_failed c r msg s h (Q : unit -> systemState -> history -> Prop) :
  frame s0 s -> calmly h0 h ->
  (forall s' h', frame s0 s' -> calmly h h' -> calmly h0 h' -> Q tt s' h') ->
  run (stateFailed c r msg) s h Q.
Proof. by apply sx_setState. Qed.

Lemma sx_deletion c r st msg s h (Q : unit -> systemState -> history -> Prop) :
  frame s0 s -> calmly h0 h ->
  (forall s' h', frame s0 s' -> calmly h h' -> calmly h0 h' -> Q tt s' h') ->
  run (stateDeletion c r st msg) s h Q.
Proof. by apply sx_setState. Qed.

Lemma sx_complete s h (Q : unit -> systemState -> history -> Prop) :
  frame s0 s -> (forall s', frame s0 s' -> Q tt s' h) -> run completeProvisioning s h Q.
Proof.
  intros Hs HQ. apply swp_modify, HQ. eapply frame_trans; [exact Hs|]. unfold frame; cbn.
  by destruct (negb _).
Qed.

Lemma sx_window `{Codec WindowMap} s h (Q : option MaintenanceTimeWindow -> systemState -> history -> Prop) :
  calmly h0 h -> (forall w h', calmly h h' -> calmly h0 h' -> Q w s h') ->
  run (getMaintenanceTimeWindow m) s h Q.
Proof.
  intros Hh HQ. unfold getMaintenanceTimeWindow. apply swp_bind, swp_getInstance.
  destruct (_ && _); [|by apply swp_ret, HQ; [apply extends_refl|]].
  apply swp_bind. eapply sx_lift; [apply quiet_window|done|done|].
  intros r h' ??. by apply swp_ret, HQ.
Qed.

End Rules.

(** ** Invariants of the state functions *)

Section Invariant.
Context `{MetaLib} `{GardenerLib} `{Codec AuditlogExtensionConfig}.
Context (m : RCCfg) (v : Runtime).

(** What the reconciliation of a live runtime needs of the Shoot it read. *)
Definition operable (sh : Shoot) : Prop :=
  is_Some (ssDNS (shootSpec sh) ≫= dnsDomain) /\ is_Some (stLastOperation (shootStatus sh)).

Definition base (s : systemState) (h : history) : Prop :=
  snapshot s = rtStatus v /\ statusUnwritten h.

Definition live (s : systemState) (h : history) (sh : Shoot) : Prop :=
  base s h /\ deleting v = false /\ sshoot s = Some sh /\ shootFound m v h sh /\
  rtMeta (instance s) = rtMeta v /\ rtSpec (instance s) = rtSpec v /\
  ShootLastOperation (rtStatus (instance s)) = stLastOperation (shootStatus sh).

(** [i] has the metadata and the caches of the Runtime. *)
Definition held (h : history) (i : Runtime) : Prop := exists i0, currentRuntime v h i0 /\
  rtMeta i = rtMeta i0 /\ rCaching (rtSpec i) = rCaching (rtSpec i0).

Definition configurable (s : systemState) (h : history) : Prop :=
  base s h /\ deleting v = false /\
  ((ShootLastOperation (rtStatus (instance s)) = None -> sawIllFormed h) /\ held h (instance s)) /\
  exists sh sh0, sshoot s = Some sh /\ shootFound m v h sh0 /\ sameButResources sh0 sh /\ operable sh0.

Definition dying (s : systemState) (h : history) : Prop :=
  base s h /\ deleting v = true /\
  rtMeta (instance s) = rtMeta v /\ rtSpec (instance s) = rtSpec v /\
  exists sh, sshoot s = Some sh /\ shootFound m v h sh.

(** What holds when a state function starts. *)
Definition entry (fn : stateFn) (s : systemState) (h : history) : Prop :=
  match fn with
  | SfnTakeSnapshot => instance s = v /\ sshoot s = None /\ statusUnwritten h
  | SfnInitialize =>
      base s h /\ instance s = v /\
      match sshoot s with Some sh => shootFound m v h sh | None => shootMissing m v h end
  | SfnCreateShoot =>
      base s h /\ instance s = v /\ deleting v = false /\ hasFinalizer m v = true /\
      shootMissing m v h /\
      is_Some (FindStatusCondition (Conditions (rtStatus v)) ConditionTypeRuntimeProvisioned)
  | SfnSelectShootProcessing => exists sh, live s h sh
  | SfnSyncRegistryCacheGardenSecrets | SfnPatchExistingShoot =>
      exists sh, live s h sh /\ operable sh /\ shouldPatchShoot v sh = Ok true
  | SfnWaitForShootCreation | SfnWaitForShootReconcile => exists sh, live s h sh /\ operable sh
  | SfnHandleKubeconfig | SfnCreateKymaNamespace | SfnInitializeRuntimeBootstrapper
  | SfnCleanupRegistryCacheGardenSecrets | SfnConfigureSKR | SfnApplyClusterRoleBindings
  | SfnMigrateToDedicatedAuditLog | SfnCopyAuditLogReadCredentials => configurable s h
  | SfnDeleteKubeconfig => dying s h
  | SfnDeleteShoot => dying s h /\ clusterGone v h
  | SfnStopWithMetrics => True
  | SfnUpdateStatus _ _ => base s h
  | SfnEmitEvent next _ _ =>
      next = None /\ snapshot s = rtStatus v /\
      exists rt, Ev (CUpdateStatus Kcp KRuntime rt) (Ok (instance s)) ∈ h
  end.

Definition goes (t : transition) (s : systemState) (h : history) : Prop :=
  match t with
  | (Some fn, _, None) => entry fn s h
  | (Some _, _, Some _) => False
  | (None, _, _) => True
  end.

Lemma base_step s s' h h' : base s h -> snapshot s' = snapshot s -> calmly h h' -> base s' h'.
Proof. intros [? ?] Hs Hh. split; [congruence|by eapply calmly_unwritten]. Qed.

Lemma frame_base s s' h h' : base s h -> frame s s' -> calmly h h' -> base s' h'.
Proof. intros Hb (Hs & _). by eapply base_step. Qed.

Lemma live_step s s' h h' sh : live s h sh -> frame s s' -> calmly h h' -> live s' h' sh.
Proof.
  intros (Hb & ? & ? & Hf & ? & ? & ?) Fr Hh.
  split_and!; [by eapply frame_base| done | | by eapply calmly_elem | ..];
    destruct Fr as (? & ? & ? & ? & ?); congruence.
Qed.

Lemma missing_step h h' : shootMissing m v h -> calmly h h' -> shootMissing m v h'.
Proof. intros (e & ? & ?) ?. exists e. split; [done|by eapply calmly_elem]. Qed.

Lemma held_step h h' i i' :
  held h i -> calmly h h' -> rtMeta i' = rtMeta i -> rCaching (rtSpec i') = rCaching (rtSpec i) -> held h' i'.
Proof.
  intros (i0 & Hcur & Hm & Hc) Hh Em Ec. exists i0. split; [|split; congruence].
  destruct Hcur as [->|[rt Hrt]]; [by left|right]. exists rt. by eapply calmly_elem.
Qed.

Lemma configurable_step s s' h h' :
  configurable s h -> frame s s' -> calmly h h' -> configurable s' h'.
Proof.
  intros (Hb & ? & [Hi Hheld] & sh & sh0 & Hsh & ? & ? & ?) Fr Hh.
  split_and!; [by eapply frame_base | done | | |].
  - destruct Fr as (_ & _ & _ & _ & ->). intros ?. by eapply calmly_illFormed, Hi.
  - destruct Fr as (_ & _ & Em & Es & _). eapply held_step; [done..|by rewrite Es].
  - exists sh, sh0. split_and!; [|by eapply calmly_elem|done..].
    destruct Fr as (_ & -> & _). done.
Qed.

Lemma sameButResources_refl sh : sameButResources sh sh.
Proof. exists (ssResources (shootSpec sh)). destruct sh as [? ? ? []]. done. Qed.

Lemma live_configurable s h sh : live s h sh -> operable sh -> configurable s h.
Proof.
  intros (? & ? & ? & ? & ? & Hsp & Hl) [? Ho]. split; [done|]. split; [done|]. split; [split|].
  - rewrite Hl. intros E. rewrite E in Ho. by destruct Ho.
  - exists v. split_and!; [by left|done|by rewrite Hsp].
  - exists sh, sh. split_and!; try done. apply sameButResources_refl.
Qed.

End Invariant.

(** One step of symbolic execution; the name of every state and history is
    fresh, and the accumulated [frame] and [calmly] facts are relative to the
    state and history the state function started in. *)
Ltac sx_note := let s := fresh "s" in let h := fresh "h" in let F := fresh "F" in
  let Hq := fresh "Hq" in let Hx := fresh "Hx" in intros s h F Hq Hx; cbv beta.
Ltac sx_hist := let h := fresh "h" in let Hq := fresh "Hq" in let Hx := fresh "Hx" in
  intros h Hq Hx; cbv beta.
Ltac sx_side := first [eassumption | apply frame_refl | apply extends_refl].

Ltac sx_step s0 h0 :=
  lazymatch goal with
  | |- swp _ _ (_ ≫= _) _ _ _ _ => apply swp_bind
  | |- swp _ _ (mret _) _ _ _ _ => apply swp_ret; cbv beta
  | |- swp _ _ getInstance _ _ _ _ => apply swp_getInstance; cbv beta
  | |- swp _ _ getState _ _ _ _ => apply swp_getState; cbv beta
  | |- swp _ _ (statePending _ _ _ _) _ _ _ _ => eapply (sx_pending _ _ _ s0 h0); [sx_side..|sx_note]
  | |- swp _ _ (stateReady _ _ _) _ _ _ _ => eapply (sx_ready _ _ _ s0 h0); [sx_side..|sx_note]
  | |- swp _ _ (stateFailed _ _ _) _ _ _ _ => eapply (sx_failed _ _ _ s0 h0); [sx_side..|sx_note]
  | |- swp _ _ (stateDeletion _ _ _ _) _ _ _ _ =>
      eapply (sx_deletion _ _ _ s0 h0); [sx_side..|sx_note]
  | |- swp _ _ completeProvisioning _ _ _ _ =>
      eapply (sx_complete _ _ _ s0); [sx_side|let s := fresh "s" in let F := fresh "F" in
        intros s F; cbv beta]
  | |- swp _ _ RuntimeClientGetter _ _ _ _ =>
      eapply (sx_client _ _ _ h0); [sx_side|let r := fresh "r" in intros r; sx_hist]
  | |- swp _ _ (getMaintenanceTimeWindow _) _ _ _ _ =>
      eapply (sx_window _ _ _ h0); [sx_side|let w := fresh "w" in intros w; sx_hist]
  | |- swp _ _ (metricS _) _ _ _ _ => unfold metricS
  | |- swp _ _ setRuntimeStates _ _ _ _ => unfold setRuntimeStates
  | |- swp _ _ (callS _) _ _ _ _ =>
      eapply (sx_call _ _ _ h0); [exact I|sx_side|let r := fresh "r" in let Hx := fresh "Hx" in
        intros r Hx; cbv beta]
  | |- swp _ _ (lift _) _ _ _ _ =>
      eapply (sx_lift _ _ _ h0 quietCall);
        [solve [auto with kim]|done|sx_side|let a := fresh "a" in intros a; sx_hist]
  | |- swp _ _ (match ?x with _ => _ end) _ _ _ _ => let E := fresh "E" in destruct x eqn:E
  end.

Ltac sx_unfold :=
  unfold updateStateFailedWithErrorAndStop, ensureStatusConditionIsSetAndContinue,
    ensureTerminatingStatusConditionAndContinue, updateStatusAndRequeueAfter, updateStatusAndStop,
    updateStatusAndStopWithError, requeueAfter, requeue, stop, switchState, stopWithMetrics,
    sFnStopWithMetrics.

(** The leaves of a symbolic execution that end in [sFnUpdateStatus] or end
    the run. *)
Ltac sx_leaf :=
  cbn [goes entry];
  first [exact I | eapply frame_base; [eassumption|sx_side|sx_side]].
Ltac sx s0 h0 := repeat sx_step s0 h0; try solve [sx_leaf].
