(* ===== verification/FsmSteps.v ===== *)
(** * The state functions keep their invariants

    Every state function, started where its [entry] condition holds, makes
    [allowed] calls only and chooses a function whose [entry] condition holds. *)

From S2P Require Import Prelude Kube Gardener RuntimeApi Objects Effects Config Extensions.
From S2P Require Import RegistryCache StructuredAuth SkrDetails Seeds Rbac AuditLog ConverterApi.
From S2P Require Import FsmState FsmProvision FsmPatch FsmConfigure FsmDelete Fsm FsmCalls FsmSafety.

Local Open Scope string_scope.

Section Steps.
Context `{MetaLib} `{GardenerLib} `{ShootConverter} `{RegistryCacheLib}.
Context `{Codec AuthenticationConfiguration} `{Codec WindowMap} `{Codec RegistryConfig}.
Context `{Codec KymaProvisioningInfo} `{Codec AuditlogExtensionConfig}.
Context (m : RCCfg) (v : Runtime).
Context `{!ConverterOk} `{!DataProviderOk (AuditLogDataProvider m)}.
Context (cause : event -> Prop).
Context (HInst : forall i, BootstrapperInstaller m = Some i -> InstallerOk i cause).

(** Why a reconciliation can panic: an ill-formed answer, to it or to the
    bootstrapper, or the converter, for a patch with the extensions of a Shoot
    that was read. *)
Definition panicCause (h : history) : Prop :=
  sawIllFormed h \/ (exists e, e ∈ h /\ cause e) \/
  (exists opts rt, createPanics opts rt) \/
  (exists sh opts rt, shootFound m v h sh /\ poExtensions opts = ssExtensions (shootSpec sh) /\
     patchPanics opts rt).

Lemma calmly_cause h h' : extends calmCall h h' -> panicCause h -> panicCause h'.
Proof.
  intros Hh [Hi|[(e & He & Hc)|[Hp|(sh & opts & rt & ? & ? & ?)]]].
  - left. by eapply calmly_illFormed.
  - right; left. exists e. split; [by eapply calmly_elem|done].
  - by right; right; left.
  - right; right; right. exists sh, opts, rt. split_and!; [by eapply calmly_elem|done..].
Qed.

(** The state function keeps the invariants. *)
Definition step_ok (fn : stateFn) (f : SM transition) : Prop :=
  forall s h, entry m v fn s h -> swp anyEnv (allowed m v) f s h (goes m v) panicCause.

Lemma take_snapshot_ok : step_ok SfnTakeSnapshot (sFnTakeSnapshot m).
Proof.
  intros s h (Hi & Hs & Hu). unfold sFnTakeSnapshot. apply swp_bind, swp_modify.
  sx_unfold. apply swp_bind, swp_getInstance. cbn [instance saveRuntimeStatus]. apply swp_bind.
  rewrite Hi. eapply (sx_call _ _ _ h); [exact I|apply extends_refl|]. intros r Hx.
  assert (base v (saveRuntimeStatus s) (Ev (CGet Garden KShoot (shootKey m v)) r :: h)) as Hb.
  { split; [cbn; by rewrite Hi|by apply Forall_cons]. }
  destruct r as [sh|e]; cbn [failsUnlessNotFound].
  - apply swp_bind, swp_modify, swp_ret. cbn [goes entry with_shoot saveRuntimeStatus].
    split_and!; [exact Hb|exact Hi|constructor].
  - destruct (IsNotFound e) eqn:En.
    + apply swp_bind, swp_ret, swp_ret. split_and!; [exact Hb|exact Hi|]. cbn. rewrite Hs.
      exists e. split; [done|constructor].
    + apply swp_ret. exact Hb.
Qed.

Lemma stop_ok : step_ok SfnStopWithMetrics sFnStopWithMetrics.
Proof. intros s h _. sx_unfold. sx s h. Qed.

Lemma update_status_ok result err : step_ok (SfnUpdateStatus result err) (sFnUpdateStatus result err).
Proof.
  intros s h [Hs Hu]. unfold sFnUpdateStatus. apply swp_bind.
  assert (forall h', statusUnwritten h' -> swp anyEnv (allowed m v)
    (s ← getState;
     if bool_decide (rtStatus (instance s) = snapshot s) then mret (None, result, err)
     else r ← callS (CUpdateStatus Kcp KRuntime (instance s));
       match r with
       | Err updateErr => mret (None, None, Some match err with Some err => err | None => updateErr end)
       | Ok stored => _ ← onInstance (fun _ => stored); _ ← setRuntimeStates;
           mret (Some (SfnEmitEvent None result err), None, None)
       end) s h' (goes m v) panicCause) as Hrest.
  { intros h' Hh'. apply swp_bind, swp_getState. case_bool_decide as E; [by apply swp_ret|].
    apply swp_bind, swp_call; [split; [done|congruence]|]. intros r _.
    destruct r as [stored|e]; [|by apply swp_ret].
    apply swp_bind, swp_modify, swp_bind. unfold setRuntimeStates.
    apply swp_bind, swp_getInstance, swp_call; [exact I|]. intros [] _. apply swp_ret.
    cbn. split_and!; [done..|]. exists (instance s). right. left. }
  destruct err as [e|]; [|by apply swp_ret, Hrest].
  apply swp_call; [exact I|]. intros [] _. apply Hrest. by apply Forall_cons.
Qed.

Lemma emit_ok next result err : step_ok (SfnEmitEvent next result err) (sFnEmmitEventfunc next result err).
Proof.
  intros s h (-> & Hs & Hst). unfold sFnEmmitEventfunc. apply swp_bind, swp_getState, swp_bind, swp_lift.
  rewrite Hs. set (i := instance s) in *.
  assert (forall cs h', cs ⊆ Conditions (rtStatus i) -> suffix h h' ->
    wp anyEnv (allowed m v) (emitEvents i (Conditions (rtStatus v)) cs) h'
      (fun o h'' => match o with
         | Done a => swp anyEnv (allowed m v) (mret (None, result, err)) s h'' (goes m v) panicCause
         | Panicked => panicCause h'' end)) as Hemit.
  { induction cs as [|c cs IH]; intros h' Hcs Hh; cbn [emitEvents]; [done|].
    destruct (unchanged _ c) eqn:Eu; [apply IH; [set_solver|done]|].
    split; [|intros [] _; apply IH; [set_solver|by apply suffix_cons_r]].
    cbn. split; [|exists c; split_and!; [apply Hcs; left|done..]].
    destruct Hst as [rt Hrt]. exists rt. by eapply suffix_elem. }
  by apply Hemit.
Qed.

(** [exposeShootStatusInfo] copies the Shoot's status into the Runtime's. *)
Lemma exposed s sh :
  sshoot s = Some sh ->
  let s1 := exposeShootStatusInfo s in
  snapshot s1 = snapshot s /\ sshoot s1 = Some sh /\ rtMeta (instance s1) = rtMeta (instance s) /\
  rtSpec (instance s1) = rtSpec (instance s) /\
  ShootLastOperation (rtStatus (instance s1)) = stLastOperation (shootStatus sh).
Proof. intros Hs. unfold exposeShootStatusInfo. rewrite Hs. done. Qed.

(** Writing the Runtime: on success the instance is what the server returned. *)
Lemma update_instance_ok s h (Q : option GoError -> systemState -> history -> Prop) :
  runtimeUpdate m v h (instance s) ->
  (forall e h', extends calmCall h h' -> Q (Some e) s h') ->
  (forall stored h', extends calmCall h h' ->
     Ev (CUpdate Kcp KRuntime (instance s)) (Ok stored) ∈ h' -> Q None (with_instance s stored) h') ->
  swp anyEnv (allowed m v) updateInstance s h Q panicCause.
Proof.
  intros Hu HE HO. unfold updateInstance. apply swp_bind, swp_getInstance, swp_bind.
  apply (sx_act _ _ _ h); [exact Hu|done|apply extends_refl|]. intros [stored|e] Hx.
  - apply swp_bind, swp_modify, swp_ret. apply HO; [exact Hx|constructor].
  - by apply swp_ret, HE.
Qed.

(** ** The writes in the Garden cluster *)

(** A helper with a guarantee of its own: its calls are justified when they are made
    from a history that extends [h]. *)
Lemma guarded_ok {A} (G : guar) (p : prog A) h (Q : A -> history -> Prop) :
  wp anyEnv G p h (returns Q) -> (forall h' c, G h' c -> calmCall c) ->
  (forall h' c, extends calmCall h h' -> G h' c -> allowed m v h' c) ->
  wp anyEnv (allowed m v) p h (returns (fun a h' => Q a h' /\ extends calmCall h h')).
Proof.
  intros Hp Hcalm HG. eapply wp_mono; [|eapply wp_weaken; [done| |apply (wp_extends _ G calmCall); [exact Hcalm|exact Hp]]].
  - by intros [a|] h' [HQ Hx].
  - intros h' c [Hc Hx]. by apply HG.
Qed.

Lemma deletes_ok man sel p h (Q : option GoError -> history -> Prop) :
  wp anyEnv (deletesListed man sel) p h (returns Q) ->
  (forall h' s, extends calmCall h h' -> deletesListed man sel h' (CDelete Garden KSecret s) ->
     gardenSecretWrite m v h' (CDelete Garden KSecret s)) ->
  wp anyEnv (allowed m v) p h (returns (fun e h' => Q e h' /\ extends calmCall h h')).
Proof.
  intros Hp Hw. eapply guarded_ok; [exact Hp|intros h' c; case_call c; done|].
  intros h' c Hx. case_call c; try done. by apply Hw.
Qed.

Lemma delete_all_ok s h (Q : option GoError -> systemState -> history -> Prop) :
  deleting v = true -> shootMissing m v h ->
  (forall e h', extends calmCall h h' -> (e = None -> allDeleted (secretManagerFor m v) (fun _ => true) h') -> Q e s h') ->
  swp anyEnv (allowed m v) (lift (DeleteAll (secretManagerFor m v))) s h Q panicCause.
Proof.
  intros Hd Hmiss HQ. apply swp_lift. eapply wp_mono; [|eapply deletes_ok; [apply DeleteAll_correct|]].
  - intros [e|] h' Hr; [|done]. destruct Hr as [Hall Hx]. by apply HQ.
  - intros h' o Hx [_ Hlist]. left. split_and!; [done|by eapply missing_step|exact Hlist].
Qed.

Lemma delete_unused_ok i h :
  deleting v = false -> held v h i ->
  wp anyEnv (allowed m v) (DeleteUnused (secretManagerFor m i) (rCaching (rtSpec i))) h
    (fun o h' => o <> Panicked /\ extends calmCall h h').
Proof.
  intros Hd Hheld. eapply wp_mono; [|eapply deletes_ok; [apply wp_DeleteUnused|]].
  - intros [e|] h' Hr; [|done]. by destruct Hr as [_ Hx].
  - intros h' o Hx [Hun Hlist]. right. split; [done|].
    destruct (held_step v h h' i i Hheld Hx eq_refl eq_refl) as (i0 & Hcur & Hm & Hcache). exists i0.
    apply isUnused_spec in Hun. unfold listedFor, disused. rewrite <- Hm, <- Hcache. by split_and!.
Qed.

Lemma sync_secrets_ok h :
  deleting v = false ->
  wp anyEnv (allowed m v) (Do (secretSyncer m v) (rCaching (rtSpec v))) h
    (fun o h' => o <> Panicked /\ extends calmCall h h').
Proof.
  intros Hd. eapply wp_mono; [|eapply guarded_ok; [apply wp_Do; intros a b h' Q; by apply DefaultGenerator_ok| |]].
  - intros [e|] h' Hr; [|done]. by destruct Hr as [_ Hx].
  - intros h' c. case_call c; done.
  - intros h' c _. case_call c; done.
Qed.

Lemma auth_config_ok oidc h :
  deleting v = false ->
  wp anyEnv (allowed m v) (CreateOrUpdateStructuredAuthConfigMap (authConfigKey m v) oidc) h
    (fun o h' => o <> Panicked /\ extends calmCall h h').
Proof.
  intros Hd. unfold CreateOrUpdateStructuredAuthConfigMap. wp_call r Hr; [done|].
  assert (extends calmCall h (Ev (CGet Garden KConfigMap (authConfigKey m v)) r :: h)) as Hx
    by (by apply calmly_cons; [apply extends_refl|]).
  case_match eqn:Hf; [by split|]. unfold authConfigMap.
  destruct (marshal _) as [bytes|e]; cbn [mbind result_bind]; [|by split]. destruct r as [old|e].
  - wp_call r Hr'; [split; [done|]; exists old; split; [left|done]|]. split; [done|by apply calmly_cons].
  - cbn in Hf. destruct (IsNotFound e) eqn:He; [|done].
    wp_call r Hr'; [split_and!; [done|done|]; exists e; split; [done|left]|].
    split; [done|by apply calmly_cons].
Qed.

Lemma exposed_live s h sh :
  entry m v SfnInitialize s h -> deleting v = false -> sshoot s = Some sh ->
  live m v (exposeShootStatusInfo s) h sh.
Proof.
  intros ([Hb Hu] & Hi & Hsh) Hd Es. rewrite Es in Hsh.
  destruct (exposed s sh Es) as (? & ? & ? & ? & ?). split_and!; try done; try split; congruence.
Qed.

Lemma initialize_ok : step_ok SfnInitialize (sFnInitialize m).
Proof.
  intros s h Hen. pose proof Hen as (Hb & Hi & Hsh). unfold sFnInitialize. sx_unfold.
  apply swp_bind, swp_getInstance. rewrite Hi. apply swp_bind, swp_modify.
  fold (deleting v). fold (hasFinalizer m v). set (s1 := exposeShootStatusInfo s).
  assert (base v s1 h /\ rtMeta (instance s1) = rtMeta v /\ rtSpec (instance s1) = rtSpec v /\
          sshoot s1 = sshoot s) as (Hb1 & Hm1 & Hsp1 & Hsh1).
  { subst s1. unfold exposeShootStatusInfo. destruct Hb. destruct (sshoot s) eqn:E; cbn;
      rewrite ?Hi, ?E; split_and!; done. }
  destruct (negb (deleting v) && negb (hasFinalizer m v)) eqn:Efin.
  { (* add the finalizer *)
    apply andb_true_iff in Efin as [Ed%negb_true_iff Ef%negb_true_iff].
    unfold addFinalizerAndRequeue. sx_unfold. apply swp_bind, swp_modify, swp_bind.
    apply update_instance_ok; [split; [cbn; by rewrite Hsp1|left; cbn; by rewrite Hm1]|..].
    - intros e h' Hx. apply swp_ret. by eapply base_step.
    - intros stored h' Hx _. by apply swp_ret. }
  destruct (String.eqb _ "") eqn:El; [by apply swp_ret|].
  apply swp_bind, swp_getState. cbv beta. destruct (deleting v) eqn:Ed.
  - rewrite Hsh1. destruct (sshoot s) as [sh|] eqn:Es.
    { apply swp_ret. cbn. split_and!; try done. by exists sh. }
    apply swp_bind, delete_all_ok; [done..|]. intros [e|] h' Hx Hall; [apply swp_ret; by eapply base_step|].
    destruct (hasFinalizer m v) eqn:Ef; [|by apply swp_ret].
    unfold removeFinalizerAndStop. sx_unfold. apply swp_bind, swp_getInstance, swp_bind, swp_modify, swp_bind.
    apply update_instance_ok.
    + split; [cbn; by rewrite Hsp1|]. right. left. cbn. rewrite Hm1. split_and!; try done; [by eapply missing_step|by apply Hall].
    + intros e h2 Hx2. apply swp_ret. eapply base_step; [exact Hb1|done|by eapply extends_trans].
    + intros stored h2 Hx2 _. apply swp_bind, swp_getInstance, swp_bind, swp_call; [exact I|].
      intros [] _. by apply swp_ret.
  - cbn [negb andb] in Efin. apply negb_false_iff in Efin.
    rewrite Hsh1. destruct (sshoot s) as [sh|] eqn:Es.
    { apply swp_ret. exists sh. by apply exposed_live. }
    destruct (FindStatusCondition _ _) eqn:Ec.
    + apply swp_ret. cbn. split_and!; try done.
      unfold s1, exposeShootStatusInfo. by rewrite Es.
    + apply swp_bind. sx_step s1 h. apply swp_ret. by eapply frame_base.
Qed.

(** ** The helpers that the interfaces promise to be quiet *)

Lemma quiet_provider region rid claim ptype :
  only quietCall (ReserveAuditLog (AuditLogDataProvider m) region rid) /\
  only quietCall (GetDedicatedAuditLogData (AuditLogDataProvider m) rid claim) /\
  only quietCall (GetSharedAuditLogData (AuditLogDataProvider m) ptype region) /\
  only quietCall (ClaimAuditLog (AuditLogDataProvider m) region rid) /\
  only quietCall (ReleaseDedicated (AuditLogDataProvider m) rid).
Proof.
  split_and!; eapply only_mono; try apply audit_quiet;
    [apply reserve_only|apply dedicated_only|apply shared_only|apply claim_only|apply release_only].
Qed.

Lemma quiet_reserve region rid : only quietCall (ReserveAuditLog (AuditLogDataProvider m) region rid).
Proof. apply (quiet_provider _ _ true ""). Qed.
Lemma quiet_dedicated rid claim : only quietCall (GetDedicatedAuditLogData (AuditLogDataProvider m) rid claim).
Proof. apply (quiet_provider "" _ _ ""). Qed.
Lemma quiet_shared ptype region : only quietCall (GetSharedAuditLogData (AuditLogDataProvider m) ptype region).
Proof. apply (quiet_provider _ "" true _). Qed.
Lemma quiet_claim region rid : only quietCall (ClaimAuditLog (AuditLogDataProvider m) region rid).
Proof. apply (quiet_provider _ _ true ""). Qed.
Lemma quiet_release rid : only quietCall (ReleaseDedicated (AuditLogDataProvider m) rid).
Proof. apply (quiet_provider "" _ true ""). Qed.
#[local] Hint Resolve quiet_reserve quiet_dedicated quiet_shared quiet_claim quiet_release : kim.

(** ** Creation *)

Lemma convert_create_ok opts s h (Q : result Shoot -> systemState -> history -> Prop) :
  (forall e s' h', extends calmCall h h' -> snapshot s' = snapshot s -> Q (Err e) s' h') ->
  (forall sh rt h', extends calmCall h h' -> ValidateRequiredLabels (instance s) = None ->
     namesShoot (coConverterConfig opts) (instance s) (Ok sh) -> Q (Ok sh) (with_instance s rt) h') ->
  swp anyEnv (allowed m v) (convertCreate opts) s h Q panicCause.
Proof.
  intros HE HO. unfold convertCreate. apply swp_bind, swp_getInstance.
  destruct (ValidateRequiredLabels (instance s)) as [e|] eqn:El; [by apply swp_ret, HE; [apply extends_refl|]|].
  apply swp_bind, swp_lift, create_ok.
  - intros h' c Hc. by apply quiet_allowed, converter_quiet.
  - intros cv h' Hx _ Hn. apply (extends_mono _ calmCall) in Hx; [|intros; by apply quiet_calm, converter_quiet].
    apply swp_bind, swp_modify, swp_ret. destruct (cvShoot cv) as [sh|e]; [by apply HO|by apply HE].
  - intros Hp h' Hx. right. right. left. eauto.
Qed.

Lemma create_rest_ok s h :
  entry m v SfnCreateShoot s h -> swp anyEnv (allowed m v) (createShootRest m) s h (goes m v) panicCause.
Proof.
  intros (Hb & Hi & Hd & Hf & Hmiss & Hc). unfold createShootRest. sx_unfold.
  apply swp_bind, swp_getInstance. cbv zeta. rewrite Hi. apply swp_bind, (sx_justified _ _ _ h);
    [by apply auth_config_ok|apply extends_refl|]. intros a. sx_hist. sx s h.
  apply convert_create_ok; cbn [coConverterConfig].
  - intros e s' h' Hx' Hs'.
    assert (base v s' h') as Hb' by (eapply base_step; [exact Hb|exact Hs'|by eapply extends_trans]).
    sx s' h'.
  - intros sh rt h' Hx' Hl [Hn Hns]. apply swp_bind, (sx_act _ _ _ h'); [|done|apply extends_refl|].
    + rewrite Hi in Hl, Hn. cbn. split_and!; try done.
      eapply missing_step; [exact Hmiss|by eapply extends_trans].
    + assert (base v (with_instance s rt) h') as Hb'
        by (eapply base_step; [exact Hb|done|by eapply extends_trans]).
      intros r Hxr. sx (with_instance s rt) h'.
Qed.

Lemma create_entry_step s h h' :
  entry m v SfnCreateShoot s h -> extends calmCall h h' -> entry m v SfnCreateShoot s h'.
Proof.
  intros (Hb & ? & ? & ? & ? & ?) Hx. split_and!; try done; [by eapply base_step|by eapply missing_step].
Qed.

Lemma create_reserve_ok s h :
  entry m v SfnCreateShoot s h -> swp anyEnv (allowed m v) (createShootReserve m) s h (goes m v) panicCause.
Proof.
  intros Hen. pose proof Hen as (Hb & _). unfold createShootReserve.
  apply swp_bind, swp_getInstance. destruct (_ && _); [|by apply create_rest_ok].
  apply swp_bind. sx_step s h. destruct a as [e|].
  - sx_unfold. sx s h.
  - by eapply create_rest_ok, create_entry_step.
Qed.

Lemma create_ok' : step_ok SfnCreateShoot (sFnCreateShoot m).
Proof.
  intros s h Hen. pose proof Hen as (Hb & _). unfold sFnCreateShoot.
  apply swp_bind, swp_getInstance. cbv beta zeta. destruct (isTrue _); [|by apply create_reserve_ok].
  apply swp_bind, swp_lift, wp_seeds; [exact I| |].
  - intros r x. set (h1 := Ev _ x :: h).
    assert (extends calmCall h h1) as Hx by (by apply calmly_cons; [apply extends_refl|]).
    assert (base v s h1) as Hb1 by (by eapply base_step).
    destruct r as [[available regions]|e]; sx_unfold; [|sx s h1].
    destruct available; cbn [negb]; [by eapply create_reserve_ok, create_entry_step|sx s h1].
  - intros x Hx. left. eexists. split; [left|]. by destruct x.
Qed.

(** ** Selection and waiting *)

Lemma select_ok : step_ok SfnSelectShootProcessing (sFnSelectShootProcessing m).
Proof.
  intros s h [sh Hl]. pose proof Hl as (Hb & Hd & Hs & Hf & Hm & Hsp & Hlo).
  unfold sFnSelectShootProcessing. sx_unfold. apply swp_bind, (swp_getShoot _ _ _ _ sh); [done|].
  destruct (ssDNS (shootSpec sh) ≫= dnsDomain) as [dom|] eqn:Edom; cbv beta;
    (destruct (ssDNS (shootSpec sh)) as [dns|] eqn:Edns; cbn in Edom; try discriminate; cbn; rewrite ?Edom);
    try (sx s h; fail).
  destruct (stLastOperation (shootStatus sh)) as [lo|] eqn:Elo; [|sx s h].
  assert (operable sh) as Hop by (split; [rewrite Edns; cbn; by rewrite Edom|by rewrite Elo]).
  unfold LogLastErrors. apply swp_bind, swp_bind, swp_getState. rewrite Hs, Elo. cbn [deref].
  apply swp_bind, swp_lift. apply swp_ret, swp_bind, swp_getInstance.
  assert (shouldPatchShoot (instance s) sh = shouldPatchShoot v sh) as ->
    by (unfold shouldPatchShoot; by rewrite Hm).
  destruct (shouldPatchShoot v sh) as [[]|e] eqn:Ep.
  - apply swp_ret. exists sh. by split_and!.
  - unfold selectWaitState. sx_unfold. cbv zeta.
    repeat sx_step s h; try done; by exists sh.
  - sx s h.
Qed.

Lemma wait_condition_ok s h c r msg sh next :
  live m v s h sh -> operable sh -> (forall s' h', configurable m v s' h' -> entry m v next s' h') ->
  swp anyEnv (allowed m v) (ensureStatusConditionIsSetAndContinue (StatusRequeueDelay m) c r msg next)
    s h (goes m v) panicCause.
Proof.
  intros Hl Ho Hn. pose proof Hl as (Hb & _). sx_unfold. sx s h.
  by eapply Hn, live_configurable.
Qed.

Lemma wait_creation_ok : step_ok SfnWaitForShootCreation (sFnWaitForShootCreation m).
Proof.
  intros s h (sh & Hl & Ho). pose proof Hl as (Hb & Hd & Hs & _).
  unfold sFnWaitForShootCreation. apply swp_bind, (swp_getShoot _ _ _ _ sh); [done|].
  destruct Ho as [Hdns [lo Elo]]. rewrite Elo. cbn [deref].
  apply swp_bind, swp_lift. cbn [wp]. sx_unfold.
  destruct (loState lo) eqn:Est; try (sx s h; fail).
  all: unfold stateNoMatchingSeeds; rewrite ?Elo; cbn [deref].
  all: try (apply swp_bind, swp_lift; cbn [wp mbind prog_bind prog_bind_def mret prog_ret]; sx s h; fail).
  by eapply wait_condition_ok.
Qed.

Lemma wait_reconcile_ok : step_ok SfnWaitForShootReconcile (sFnWaitForShootReconcile m).
Proof.
  intros s h (sh & Hl & Ho). pose proof Hl as (Hb & Hd & Hs & _).
  unfold sFnWaitForShootReconcile. apply swp_bind, (swp_getShoot _ _ _ _ sh); [done|].
  destruct Ho as [Hdns [lo Elo]]. rewrite Elo. cbn [deref].
  apply swp_bind, swp_lift. cbn [wp]. sx_unfold.
  destruct (loState lo) eqn:Est; try (sx s h; fail).
  by eapply wait_condition_ok.
Qed.

(** ** The patch *)

Lemma sync_ok : step_ok SfnSyncRegistryCacheGardenSecrets (sFnSyncRegistryCacheGardenSecrets m).
Proof.
  intros s h (sh & Hl & Ho & Hp). pose proof Hl as (Hb & _).
  assert (forall s' h', frame s s' -> extends calmCall h h' -> entry m v SfnPatchExistingShoot s' h') as Hn.
  { intros s' h' F Hx. exists sh. split_and!; [by eapply live_step|done..]. }
  pose proof Hl as (_ & Hd & _ & _ & Hm & Hsp & _).
  unfold sFnSyncRegistryCacheGardenSecrets. sx_unfold. cbv zeta.
  sx s h; try (cbn [goes]; apply Hn; sx_side). rewrite Hm, Hsp. fold (secretSyncer m v).
  eapply (sx_justified _ _ _ h); [by apply sync_secrets_ok|sx_side|]. intros err. sx_hist.
  sx s h. cbn [goes]; apply Hn; sx_side.
Qed.

(** What [resolveAuditLogData] and its parts return: the data, or the choice
    of [sFnUpdateStatus]. *)
Definition resolved (s : systemState) (h : history)
    (x : ShootAuditLogData * transition) (s' : systemState) (h' : history) : Prop :=
  frame s s' /\ extends calmCall h h' /\
  match x with
  | (_, (None, _, _)) => True
  | (_, (Some (SfnUpdateStatus _ _), _, None)) => True
  | _ => False
  end.

Lemma shared_data_ok s h s1 h1 : frame s s1 -> extends calmCall h h1 ->
  swp anyEnv (allowed m v) (getSharedAuditLogDataWithErrorHandling m) s1 h1 (resolved s h) panicCause.
Proof.
  intros F Hx. unfold getSharedAuditLogDataWithErrorHandling. sx_unfold. sx s h.
  all: by split_and!.
Qed.

Lemma resolve_ok s h :
  swp anyEnv (allowed m v) (resolveAuditLogData m) s h (resolved s h) panicCause.
Proof.
  unfold resolveAuditLogData, claimDedicatedAuditLog. sx_unfold. cbv zeta.
  destruct (negb (DedicatedAuditLoggingEnabled m)); [apply shared_data_ok; [done|apply extends_refl]|].
  do 5 sx_step s h; [apply swp_ret; by split_and!|]. destruct (negb _); [by apply shared_data_ok|].
  sx s h. all: by split_and!.
Qed.

Lemma update_error_ok s h e msg :
  base v s h -> swp anyEnv (allowed m v) (handleUpdateError m (Some e) msg) s h
    (fun t s' h' => goes m v t s' h' /\ exists r x, t = (Some (SfnUpdateStatus r x), None, None)) panicCause.
Proof.
  intros Hb. unfold handleUpdateError. sx_unfold.
  sx s h; (split; [sx_leaf|by do 2 eexists]).
Qed.

(** An optional write of the Shoot before the patch: on success the
    reconciliation goes on in the same state. *)
Lemma write_then_ok (c : call) k (e : resp c -> option GoError) msg s h :
  base v s h -> allowed m v h c -> calmCall c ->
  (forall r, swp anyEnv (allowed m v) k s (Ev c r :: h) (goes m v) panicCause) ->
  swp anyEnv (allowed m v) (r ← callS c; handleUpdateError m (e r) msg) s h
    (fun t s' h' => swp anyEnv (allowed m v) (unlessNext t k) s' h' (goes m v) panicCause) panicCause.
Proof.
  intros Hb Ha Hc Hk. apply swp_bind, (sx_act _ _ _ h); [done|done|apply extends_refl|].
  intros r Hx. destruct (e r) as [err|]; [|by apply swp_ret, Hk].
  eapply swp_mono; [|done|apply update_error_ok; by eapply base_step].
  intros t s' h' (Hg & r' & x & ->). by apply swp_ret.
Qed.

(** The state while the Shoot [sh] is being patched. *)
Definition patching (sh : Shoot) (s : systemState) (h : history) : Prop :=
  base v s h /\ patchDue m v h sh /\ operable sh /\
  rtMeta (instance s) = rtMeta v /\
  ShootLastOperation (rtStatus (instance s)) = stLastOperation (shootStatus sh) /\
  exists sh', sshoot s = Some sh' /\ sameButResources sh sh'.

Lemma patching_step sh s s' h h' :
  patching sh s h -> frame s s' -> extends calmCall h h' -> patching sh s' h'.
Proof.
  intros (Hb & (? & ? & ?) & ? & Hm & Hl & sh' & Hs & ?) F Hx. pose proof F as (_ & F2 & F3 & _ & F5).
  unfold patching, patchDue. split_and!; try done;
    [by eapply frame_base|by eapply calmly_elem|congruence|congruence|].
  exists sh'. split; [congruence|done].
Qed.

Lemma patching_configurable sh s h :
  patching sh s h -> sameUserSpec (rtSpec v) (rtSpec (instance s)) -> configurable m v s h.
Proof.
  intros (Hb & (? & ? & ?) & Ho & Hm & Hl & sh' & Hs & ?) (_ & Hcache & _). split_and!; try done.
  - rewrite Hl. intros E. destruct Ho as [_ Ho]. rewrite E in Ho. by destruct Ho.
  - exists v. split_and!; [by left|done..].
  - by exists sh', sh.
Qed.

Lemma convert_patch_ok opts sh s h (Q : result Shoot -> systemState -> history -> Prop) :
  patching sh s h ->
  rtSpec (instance s) = rtSpec v ->
  poConverterConfig opts = ConverterCfg m -> poExtensions opts = ssExtensions (shootSpec sh) ->
  (forall r s' h', patching sh s' h' ->
     match r with
     | Ok new => sameUserSpec (rtSpec v) (rtSpec (instance s')) /\
                 Name (shootMeta new) = rsName (rShoot (rtSpec v)) /\
                 Namespace (shootMeta new) = gardenNamespace m
     | Err _ => True
     end -> Q r s' h') ->
  swp anyEnv (allowed m v) (convertPatch opts) s h Q panicCause.
Proof.
  intros Hp Hn Ho Hext HQ. unfold convertPatch. apply swp_bind, swp_getInstance.
  destruct (ValidateRequiredLabels (instance s)) as [e|]; [by apply swp_ret, HQ|].
  apply swp_bind, swp_lift, patch_ok.
  - intros h' c Hc. by apply quiet_allowed, converter_quiet.
  - intros cv h' Hx (Hm & Hst & Hnm) Hns Hspec.
    apply (extends_mono _ calmCall) in Hx; [|intros; by apply quiet_calm, converter_quiet].
    apply swp_bind, swp_modify, swp_bind, swp_modify, swp_ret. apply HQ.
    + destruct Hp as (Hb & (? & ? & ?) & ? & Hm' & Hl & sh' & Hs & rs & ->).
      unfold patching, patchDue. split_and!; cbn; try done;
        [by eapply base_step|by eapply calmly_elem|congruence|congruence|].
      rewrite Hs. eexists. split; [done|]. by exists (cvResources cv).
    + destruct (cvShoot cv) as [new|e]; [|done]. unfold namesShoot in Hns. rewrite Hn, Ho in Hns.
      split; [|exact Hns]. specialize (Hspec new eq_refl). by rewrite Hn in Hspec.
  - intros Hpp h' Hx. right. right. right. exists sh, opts, (instance s). split_and!; [|done..].
    apply (extends_mono _ calmCall) in Hx; [|intros; by apply quiet_calm, converter_quiet].
    destruct Hp as (_ & (_ & Hf & _) & _). by eapply calmly_elem.
Qed.

Lemma force_annotation_ok sh s h (Q : option GoError -> systemState -> history -> Prop) :
  patching sh s h -> sameUserSpec (rtSpec v) (rtSpec (instance s)) ->
  (exists new stored, Ev (CPatch Garden KShoot new Apply) (Ok stored) ∈ h) ->
  (forall e s' h', Q (Some e) s' h') ->
  (forall s' h', configurable m v s' h' -> Q None s' h') ->
  swp anyEnv (allowed m v) handleForceReconciliationAnnotation s h Q panicCause.
Proof.
  intros Hp Hspec Hpatched HE HO. unfold handleForceReconciliationAnnotation.
  apply swp_bind, swp_getInstance. pose proof Hp as (Hb & (Hd & Hf & _) & Ho & Hm & _ & sh' & Hs & Hsame).
  destruct (ShouldForceReconciliation _) eqn:Ef; [|by apply swp_ret, HO, (patching_configurable sh)].
  rewrite Hm in Ef. apply swp_bind, swp_modify, update_instance_ok.
  - split; [exact Hspec|]. right. right. cbn. by rewrite Hm.
  - intros e h' _. apply HE.
  - intros stored h' Hx He. apply HO. split_and!; [by eapply base_step|done| | |].
    + cbn. intros Hnil. eexists. by split.
    + exists stored. split; [|done]. right. by eexists.
    + exists sh', sh. split_and!; try done. by eapply calmly_elem.
Qed.

Lemma registry_count_ok sh s h (Q : result bool -> systemState -> history -> Prop) l desired :
  shootFound m v h sh -> l = ssExtensions (shootSpec sh) -> (forall r, Q r s h) ->
  swp anyEnv (allowed m v) (lift (HasRegistryCacheCountChanged l desired)) s h Q panicCause.
Proof.
  intros Hf -> HQ. unfold HasRegistryCacheCountChanged. apply swp_lift.
  destruct (findCacheExt _) as [ext|] eqn:Eext; [|by apply HQ].
  destruct (extProviderConfig ext) as [raw|] eqn:Eraw; cbn; [by apply HQ|].
  left. eexists. split; [exact Hf|]. intros (_ & _ & Hall).
  assert (ext ∈ ssExtensions (shootSpec sh) /\ extType ext = RegistryCacheExtensionType) as [Hin Hty]
    by (by apply findCacheExt_Some).
  rewrite Forall_forall in Hall. destruct (Hall ext Hin Hty) as [? ?]. congruence.
Qed.

Lemma apply_patch_ok sh shoot updated s h :
  patching sh s h -> sameUserSpec (rtSpec v) (rtSpec (instance s)) ->
  Name (shootMeta updated) = rsName (rShoot (rtSpec v)) ->
  Namespace (shootMeta updated) = gardenNamespace m ->
  swp anyEnv (allowed m v) (applyPatch m shoot updated) s h (goes m v) panicCause.
Proof.
  intros Hp Hspec Hn Hns. pose proof Hp as (Hb & Hdue & _). unfold applyPatch. sx_unfold.
  apply swp_bind, (sx_act _ _ _ h); [left; by exists sh|done|apply extends_refl|].
  intros r Hx. apply swp_bind. destruct r as [stored|e]; cbn [errOf].
  - apply swp_ret. cbn [unlessNext noTransition]. apply swp_bind, (force_annotation_ok sh).
    + by eapply patching_step.
    + exact Hspec.
    + exists updated, stored. left.
    + intros e s' h'. by apply swp_ret.
    + intros s' h' Hc. destruct (Z.eqb _ _).
      * sx s' h'. by eapply configurable_step.
      * pose proof Hc as (Hb' & _). sx s' h'.
  - eapply swp_mono; [|done|apply update_error_ok; by eapply base_step].
    intros t s' h' (Hg & r' & x & ->). by apply swp_ret.
Qed.

Lemma replace_collections_ok sh shoot updated changed k s h :
  patching sh s h -> sameButResources sh shoot ->
  (forall h', patching sh s h' -> swp anyEnv (allowed m v) k s h' (goes m v) panicCause) ->
  swp anyEnv (allowed m v) (t ← replaceCollections m shoot updated changed; unlessNext t k)
    s h (goes m v) panicCause.
Proof.
  intros Hp (rs & ->) Hk. pose proof Hp as (Hb & Hdue & _). unfold replaceCollections. cbv zeta.
  destruct (_ || _); [|apply swp_bind, swp_ret, Hk, Hp].
  apply swp_bind, (write_then_ok (CUpdate Garden KShoot _) k errOf); [done| |done|].
  - exists sh. by split_and!.
  - intros r. apply Hk. eapply patching_step; [done|apply frame_refl|].
    by apply calmly_cons; [apply extends_refl|].
Qed.

Lemma replace_binding_ok sh shoot k s h :
  patching sh s h -> sameButResources sh shoot ->
  (forall h', patching sh s h' -> swp anyEnv (allowed m v) k s h' (goes m v) panicCause) ->
  swp anyEnv (allowed m v) (t ← replaceBinding m shoot; unlessNext t k) s h (goes m v) panicCause.
Proof.
  intros Hp (rs & ->) Hk. pose proof Hp as (Hb & Hdue & _). unfold replaceBinding.
  apply swp_bind, swp_bind, swp_getInstance. cbv zeta.
  destruct (_ && _); [|apply swp_ret, Hk, Hp].
  apply (write_then_ok (CUpdate Garden KShoot _) k errOf); [done| |done|].
  - exists sh. by split_and!.
  - intros r. apply Hk. eapply patching_step; [done|apply frame_refl|].
    by apply calmly_cons; [apply extends_refl|].
Qed.

Lemma patch_converted_ok sh opts s h :
  patching sh s h -> rtSpec (instance s) = rtSpec v ->
  poConverterConfig opts = ConverterCfg m -> poExtensions opts = ssExtensions (shootSpec sh) ->
  swp anyEnv (allowed m v) (patchConverted m opts) s h (goes m v) panicCause.
Proof.
  intros Hp Hn Ho Hext. unfold patchConverted. sx_unfold.
  apply swp_bind, (convert_patch_ok opts sh); [done..|]. clear s h Hp Hn. intros [new|e] s h Hp Hnew.
  - pose proof Hp as (Hb & (Hd & Hf & Hdue) & Hop & Hm & Hl & shoot & Hs & Hsame).
    apply swp_bind, (swp_getShoot _ _ _ _ shoot); [done|]. apply swp_bind, swp_getInstance, swp_bind.
    apply (registry_count_ok sh); [done|by destruct Hsame as [rs ->]|]. intros [changed|e].
    + apply (replace_collections_ok sh); [done..|]. intros h1 Hp1.
      apply (replace_binding_ok sh); [done..|]. intros h2 Hp2.
      by apply (apply_patch_ok sh); [|apply Hnew..].
    + sx s h.
  - pose proof Hp as (Hb & _). unfold setRegistryCacheStatusFailed. sx s h.
Qed.

Lemma patch_ok' : step_ok SfnPatchExistingShoot (sFnPatchExistingShoot m).
Proof.
  intros s h (sh & Hl & Ho & Hdue). pose proof Hl as (Hb & Hd & Hs & Hf & Hm & Hsp & Hlo).
  assert (patching sh s h) as Hp.
  { split_and!; try done. exists sh. split; [done|apply sameButResources_refl]. }
  unfold sFnPatchExistingShoot. apply swp_bind. eapply swp_mono; [|done|apply resolve_ok].
  intros [cfg [[[fn|] r] e]] s1 h1 (F & Hx & Hfn).
  { destruct fn, e; try done. apply swp_ret. by eapply frame_base. }
  cbn [unlessNext]. sx_unfold. cbv zeta. apply swp_bind, swp_getInstance. cbv beta.
  assert (rtSpec (instance s1) = rtSpec v) as Hsp1 by (destruct F as (_ & _ & _ & -> & _); exact Hsp).
  rewrite Hsp1. fold (authConfigKey m v). apply swp_bind, (sx_justified _ _ _ h); [by apply auth_config_ok|done|].
  intros err. sx_hist. destruct err; [sx s h|].
  unfold getPatchOptions. apply swp_bind, swp_bind, (swp_getShoot _ _ _ _ sh).
  { destruct F as (_ & -> & _). done. }
  sx s h. all: try (destruct a; simplify_eq).
  all: apply (patch_converted_ok sh); [by eapply patching_step|destruct F as (_ & _ & _ & -> & _); exact Hsp|reflexivity..].
Qed.

(** ** Configuration of the runtime cluster *)

(** The leaves that go on with the configuration. *)
Ltac sx_configure := solve [sx_leaf | cbn [goes entry]; eapply configurable_step; [eassumption|sx_side|sx_side]].

Lemma kubeconfig_ok : step_ok SfnHandleKubeconfig (sFnHandleKubeconfig m).
Proof.
  intros s h Hc. pose proof Hc as (Hb & Hdel & [_ (i & Hcur & Hm & _)] & sh & sh0 & Hs & _ & Hsame & (dom & Hdom) & _).
  assert ((dns ← ssDNS (shootSpec sh); dnsDomain dns) = Some dom) as Hd
    by (destruct Hsame as [rs ->]; exact Hdom).
  unfold sFnHandleKubeconfig. sx_unfold. cbv zeta. sx s h; try sx_configure.
  eapply swp_getShoot; [exact Hs|]. unfold makeGardenerClusterForRuntime. rewrite Hd. sx_step s h.
  apply swp_lift. cbn [deref wp mbind prog_bind prog_bind_def mret prog_ret]. apply swp_bind.
  apply (sx_act _ _ _ h); [|done|sx_side|intros created Hr; sx s h].
  split; [done|]. exists i, e. cbv zeta. rewrite <- Hm. split_and!; [|by apply negb_false_iff|done|left].
  destruct Hcur as [->|[rt Hrt]]; [by left|right; exists rt; by constructor].
Qed.

Lemma namespace_ok : step_ok SfnCreateKymaNamespace (sFnCreateKymaNamespace m).
Proof.
  intros s h Hc. pose proof Hc as (Hb & _). unfold sFnCreateKymaNamespace, createKymaSystemNamespace.
  sx_unfold. sx s h. all: sx_configure.
Qed.

Lemma quiet_installer i rt man : BootstrapperInstaller m = Some i ->
  only quietCall (Configure i rt) /\ only quietCall (Install i rt man) /\
  only quietCall (Cleanup i rt).
Proof.
  intros Hi. destruct (HInst i Hi). split_and!; (apply (only_mono bootstrapperCall); [apply bootstrapper_quiet|auto]).
Qed.

Lemma info_step i rt h0 s h (Q : result (InstallationStatus * string) -> systemState -> history -> Prop) :
  BootstrapperInstaller m = Some i -> extends calmCall h0 h ->
  (forall r h', extends calmCall h h' -> extends calmCall h0 h' -> Q r s h') ->
  swp anyEnv (allowed m v) (lift (InstallationInfo i rt)) s h Q panicCause.
Proof.
  intros Hi Hh HQ. destruct (HInst i Hi) as [_ _ _ Hinfo].
  assert (forall h', extends bootstrapperCall h h' -> extends calmCall h h') as Hcalm.
  { intros h'. apply extends_mono. intros c Hc. by apply quiet_calm, bootstrapper_quiet. }
  apply swp_lift, Hinfo.
  - intros h' c Hc. by apply quiet_allowed, bootstrapper_quiet.
  - intros r h' Hx%Hcalm. apply HQ; [done|]. by eapply extends_trans.
  - intros h' e _ He Hc. right. left. by exists e.
Qed.

Lemma bootstrapper_ok : step_ok SfnInitializeRuntimeBootstrapper (sFnInitializeRuntimeBootstrapper m).
Proof.
  intros s h Hc. pose proof Hc as (Hb & _). unfold sFnInitializeRuntimeBootstrapper, bootstrapperPending.
  sx_unfold. destruct (if RuntimeBootstrapperEnabled m then BootstrapperInstaller m else None)
    as [i|] eqn:Ei; [|by apply swp_ret].
  assert (BootstrapperInstaller m = Some i) as Hi by (by destruct (RuntimeBootstrapperEnabled m)).
  assert (forall rt, only quietCall (Configure i rt)) as H_1 by (intros; by apply (quiet_installer i rt "")).
  assert (forall rt x, only quietCall (Install i rt x)) as H_2 by (intros; by apply quiet_installer).
  assert (forall rt, only quietCall (Cleanup i rt)) as H_4 by (intros; by apply (quiet_installer i rt "")).
  sx s h. all: try sx_configure.
  eapply (info_step _ _ h); [done|sx_side|]. intros r; sx_hist. sx s h. all: sx_configure.
Qed.

Lemma cleanup_ok : step_ok SfnCleanupRegistryCacheGardenSecrets (sFnCleanupRegistryCacheGardenSecrets m).
Proof.
  intros s h Hc. pose proof Hc as (Hb & _). unfold sFnCleanupRegistryCacheGardenSecrets.
  pose proof Hc as (_ & Hdel & [_ Hheld] & _).
  sx_unfold. sx s h; try sx_configure.
  eapply (sx_justified _ _ _ h); [apply delete_unused_ok; [done|by eapply held_step]|sx_side|]. intros err. sx_hist.
  sx s h. all: sx_configure.
Qed.

Lemma bindings_ok : step_ok SfnApplyClusterRoleBindings (sFnApplyClusterRoleBindings m).
Proof.
  intros s h Hc. pose proof Hc as (Hb & _). unfold sFnApplyClusterRoleBindings, updateCRBApplyPending.
  assert (forall crbs, only quietCall (newDelCRBs crbs)) as H_1 by apply quiet_bindings.
  assert (forall crbs, only quietCall (newAddCRBs crbs)) as H_2 by apply quiet_bindings.
  sx_unfold. cbv zeta. sx s h. all: sx_configure.
Qed.

Lemma credentials_ok : step_ok SfnCopyAuditLogReadCredentials (sFnCopyAuditLogReadCredentials m).
Proof.
  intros s h Hc. pose proof Hc as (Hb & _).
  unfold sFnCopyAuditLogReadCredentials, credentialsPending, copyReadCredentialsToSKR.
  sx_unfold. cbv zeta. sx s h. all: sx_configure.
Qed.

Lemma provisioning_info_ok s h (Q : option GoError -> systemState -> history -> Prop) :
  configurable m v s h -> (forall e h', extends calmCall h h' -> Q e s h') ->
  swp anyEnv (allowed m v) applyKymaProvisioningInfoCM s h Q panicCause.
Proof.
  intros (Hb & _ & [Hlo _] & sh & sh0 & Hs & Hf & [rs Hrs] & _) HQ. unfold applyKymaProvisioningInfoCM.
  apply swp_bind, (swp_getShoot _ _ _ _ sh); [done|]. sx s h; try by apply HQ; sx_side.
  all: unfold ToKymaProvisioningInfoConfigMap, ToKymaProvisioningInfo; apply swp_lift;
    (destruct (ShootLastOperation (rtStatus (instance s))) as [lo|] eqn:Elo;
      [|left; eapply calmly_illFormed; [sx_side|by apply Hlo]]);
    (destruct (spInfrastructureConfig (ssProvider (shootSpec sh))) as [infra|] eqn:Ei;
      [|left; eexists; split; [eapply calmly_elem; [sx_side|exact Hf]|];
        intros (_ & Hi & _); subst sh; cbn in Ei; rewrite Ei in Hi; by destruct Hi]);
    cbn [deref wp mbind prog_bind prog_bind_def mret prog_ret];
    sx s h; apply HQ; sx_side.
Qed.

(** After the defaulting the OIDC configurations have issuer and client id. *)
Lemma oidc_defined i rt flag :
  additionalOidcEmptyOrUndefined m i = (rt, flag) ->
  rtStatus rt = rtStatus i /\ rtMeta rt = rtMeta i /\ rCaching (rtSpec rt) = rCaching (rtSpec i) /\
  exists l, additionalOidc rt = Some l /\
    forall c, c ∈ l -> is_Some (oidcIssuerURL (roOIDC c)) /\ is_Some (oidcClientID (roOIDC c)).
Proof.
  unfold additionalOidcEmptyOrUndefined. destruct (additionalOIDCConfigUndefined _) eqn:Eu.
  - intros [= <- _]. do 3 (split; [done|]). eexists. split; [done|].
    intros c ->%list_elem_of_singleton. cbn. split; by eexists.
  - intros [= <- _]. do 3 (split; [done|]). unfold additionalOIDCConfigUndefined in Eu.
    destruct (additionalOidc i) as [l|]; [|done]. exists l. split; [done|]. intros c Hc.
    rewrite <- not_true_iff_false, existsb_exists in Eu.
    destruct (oidcClientID (roOIDC c)) eqn:E1, (oidcIssuerURL (roOIDC c)) eqn:E2;
      try (destruct Eu; exists c; rewrite E1, ?E2; split; [by apply list_elem_of_In|done]).
    split; by eexists.
Qed.

Lemma recreate_ok flag l s h (Q : option GoError -> systemState -> history -> Prop) :
  additionalOidc (instance s) = Some l ->
  (forall c, c ∈ l -> is_Some (oidcIssuerURL (roOIDC c)) /\ is_Some (oidcClientID (roOIDC c))) ->
  (forall e h', extends calmCall h h' -> Q e s h') ->
  swp anyEnv (allowed m v) (recreateOpenIDConnectResources flag) s h Q panicCause.
Proof.
  intros Hl Hall HQ. unfold recreateOpenIDConnectResources.
  assert (forall id err, only quietCall (createOidcResources id l err)) as Hq
    by (intros; by apply quiet_createOidc).
  sx s h; try (apply HQ; sx_side). apply swp_lift. rewrite Hl. cbn [deref wp].
  sx s h. apply HQ; sx_side.
Qed.

Lemma configure_skr_ok : step_ok SfnConfigureSKR (sFnConfigureSKR m).
Proof.
  intros s h Hc. pose proof Hc as (Hb & Hd & Hlo & sh & sh0 & Hs & Hrest).
  unfold sFnConfigureSKR, handleProvisioningInfoError, updateConditionFailed. sx_unfold.
  apply swp_bind, provisioning_info_ok; [done|]. intros [e|] h1 Hx; [sx s h|].
  apply swp_bind, (swp_getShoot _ _ _ _ sh); [done|].
  destruct (negb (isOidcExtensionEnabled sh)); [sx s h; sx_configure|].
  apply swp_bind, swp_getInstance. destruct (additionalOidcEmptyOrUndefined m (instance s)) as [rt flag] eqn:Eo.
  apply oidc_defined in Eo as (Hst & Hmeta & Hcache & l & Hl & Hall). apply swp_bind, swp_modify.
  set (s1 := with_instance s rt).
  assert (configurable m v s1 h1) as Hc1.
  { apply (configurable_step _ _ s s h h1) in Hc; [|done..]. destruct Hc as (? & ? & Hi & ?).
    destruct Hi as [Hi Hheld]. unfold s1. split_and!; try done; cbn; [by rewrite Hst|].
    by eapply held_step; [exact Hheld|apply extends_refl|..]. }
  pose proof Hc1 as (Hb1 & _). apply swp_bind, (recreate_ok _ l); [done..|].
  intros [e|] h2 Hx2; sx s1 h1. sx_configure.
Qed.

(** ** Dedicated audit log *)

Lemma migrate_ok : step_ok SfnMigrateToDedicatedAuditLog (sFnMigrateToDedicatedAuditLog m).
Proof.
  intros s h Hc. pose proof Hc as (Hb & Hd & _ & sh & sh0 & Hs & Hf & Hsame & _).
  unfold sFnMigrateToDedicatedAuditLog. sx_unfold. cbv zeta.
  destruct (DedicatedAuditLoggingEnabled m) eqn:Eded; cbn [negb]; sx s h; try sx_configure.
  unfold patchShootAuditLog. apply swp_bind, (swp_getShoot _ _ _ _ sh); [done|].
  destruct (applyDedicatedAuditLogToShoot sh a0) as [patched|e] eqn:Ep; [|sx s h].
  apply swp_bind, (sx_act _ _ _ h); [|done|sx_side|].
  - split_and!; try done; [by exists a0|]. exists sh0. split; [by eapply calmly_elem|done].
  - intros [stored|e] Hx'; [|sx s h]. apply swp_bind, swp_modify.
    set (s1 := with_shoot s (Some stored)).
    assert (base v s1 h) as Hb1 by (by eapply base_step; [|done|sx_side]). sx s1 h.
Qed.

(** ** Deletion *)

Lemma dying_step s s' h h' : dying m v s h -> frame s s' -> extends calmCall h h' -> dying m v s' h'.
Proof.
  intros (Hb & ? & ? & ? & sh & ? & ?) F Hx. pose proof F as (_ & F2 & F3 & F4 & _).
  split_and!; [by eapply frame_base|done|congruence|congruence|]. exists sh.
  split; [congruence|by eapply calmly_elem].
Qed.

Lemma delete_kubeconfig_ok : step_ok SfnDeleteKubeconfig (sFnDeleteKubeconfig m).
Proof.
  intros s h Hdy. pose proof Hdy as (Hb & Hd & Hm & Hsp & sh & Hs & Hf).
  unfold sFnDeleteKubeconfig. sx_unfold. cbv zeta. apply swp_bind, swp_getInstance. rewrite Hm.
  apply swp_bind. change (mkNN _ _) with (clusterKey v). sx_step s h.
  destruct r as [cluster|e].
  - apply swp_bind, (swp_getShoot _ _ _ _ sh); [done|]. destruct (negb _); [by apply swp_ret|].
    apply swp_bind, (sx_act _ _ _ h); [|done|sx_side|].
    + split_and!; [done|exists sh; by constructor|constructor].
    + intros r Hr. sx s h.
  - destruct (IsNotFound e) eqn:En; cbn [negb]; sx s h.
    cbn [goes entry]. split; [by eapply dying_step|]. exists e. split; [done|constructor].
Qed.

(** What [sFnDeleteShoot] knows of the Shoot it is about to delete. *)
Definition deletable (s : systemState) (h : history) : Prop :=
  base v s h /\ clusterGone v h /\ exists sh, sshoot s = Some sh /\ confirmedShoot m v h sh.

Lemma gone_step h h' : clusterGone v h -> extends calmCall h h' -> clusterGone v h'.
Proof. intros (e & ? & ?) ?. exists e. split; [done|by eapply calmly_elem]. Qed.

Lemma confirm_ok s h (Q : bool -> systemState -> history -> Prop) :
  dying m v s h -> clusterGone v h ->
  (forall s' h', Q false s' h') ->
  (forall s' h', extends calmCall h h' -> deletable s' h' -> Q true s' h') ->
  swp anyEnv (allowed m v) confirmDeletion s h Q panicCause.
Proof.
  intros (Hb & Hd & _ & _ & sh & Hs & Hf) Hg HE HO. unfold confirmDeletion.
  apply swp_bind, (swp_getShoot _ _ _ _ sh); [done|].
  destruct (isGardenerCloudDelConfirmationSet _) eqn:Ec.
  - apply delConfirmation_spec in Ec. apply swp_ret, HO; [apply extends_refl|]. split_and!; try done. exists sh.
    split; [done|by left].
  - assert (~ hasDelConfirmation sh) by (rewrite <- delConfirmation_spec; congruence).
    rewrite withDelConfirmation_copy.
    apply swp_bind, swp_modify, swp_bind, (sx_act _ _ _ h); [right; split_and!; eauto|done|sx_side|].
    intros [stored|e] Hx; [|by apply swp_ret]. apply swp_bind, swp_modify, swp_ret, HO; [done|].
    split_and!; [by eapply base_step|by eapply gone_step|]. exists stored. split; [done|].
    right. exists sh. split; [by eapply calmly_elem|constructor].
Qed.

Lemma delete_config_ok sh s h (Q : option GoError -> systemState -> history -> Prop) :
  deleting v = true -> clusterGone v h -> confirmedShoot m v h sh ->
  (forall e h', extends calmCall h h' -> (e = None -> authConfigGone h' sh) -> Q e s h') ->
  swp anyEnv (allowed m v) (lift (DeleteStructuredConfigMap sh)) s h Q panicCause.
Proof.
  intros Hd Hg Hconf HQ. apply swp_lift. unfold DeleteStructuredConfigMap.
  destruct (skKubeAPIServer _) as [kas|] eqn:Ek; cbn [mbind option_bind];
    [|apply HQ; [apply extends_refl|intros _ ??; congruence]].
  destruct (kasStructuredAuthentication kas) as [name|] eqn:En;
    [|apply HQ; [apply extends_refl|intros _ ????; congruence]].
  destruct (String.eqb_spec name "") as [->|Hne];
    [apply HQ; [apply extends_refl|intros _ ????; congruence]|].
  wp_call r Hr; [split_and!; [done..|by exists sh, kas, name]|].
  apply HQ; [by apply calmly_cons; [apply extends_refl|]|].
  intros Hnone kas' name' Ek' En' _. simplify_eq. exists r. split; [done|constructor].
Qed.

Lemma delete_rest_ok s h :
  dying m v s h -> clusterGone v h ->
  swp anyEnv (allowed m v) (deleteShootRest m) s h (goes m v) panicCause.
Proof.
  intros Hdy Hg. pose proof Hdy as (Hb & Hd & _ & _ & sh & Hs & Hf).
  unfold deleteShootRest. sx_unfold. apply swp_bind, (swp_getShoot _ _ _ _ sh); [done|].
  destruct (timeIsZero _) eqn:Et; cbn [negb].
  - apply swp_bind, confirm_ok; [done..|intros; by apply swp_ret|].
    intros s' h' _. clear s h Hdy Hg Hb sh Hs Hf Et. rename s' into s, h' into h.
    intros (Hb & Hg & sh & Hs & Hconf). cbn [negb].
    apply swp_bind, (swp_getShoot _ _ _ _ sh); [done|]. apply swp_bind, delete_config_ok; [done..|].
    intros [e|] h1 Hx Hgone; [sx s h|].
    apply swp_bind, (sx_act _ _ _ h); [|done|sx_side|intros r Hr; sx s h].
    split_and!; [done|by eapply gone_step| |by apply Hgone].
    destruct Hconf as [[? ?]|(sh0 & ? & ?)]; [left|right].
    + split; [by eapply calmly_elem|done].
    + exists sh0. split; by eapply calmly_elem.
  - apply swp_bind. unfold LogLastErrors. apply swp_bind, swp_getState. rewrite Hs. apply swp_bind, swp_lift.
    destruct (stLastOperation (shootStatus sh)) as [lo|] eqn:Elo; cbn [deref wp].
    + sx s h.
    + left. eexists. split; [exact Hf|]. intros (Hw & _). destruct (Hw Et) as [? ?]. congruence.
Qed.

Lemma delete_shoot_ok : step_ok SfnDeleteShoot (sFnDeleteShoot m).
Proof.
  intros s h [Hdy Hg]. unfold sFnDeleteShoot. apply swp_bind, swp_getInstance.
  destruct (_ && _); [|by apply delete_rest_ok]. apply swp_bind. sx_step s h.
  apply delete_rest_ok; [by eapply dying_step|by eapply gone_step].
Qed.

(** ** The machine *)

Lemma step_keeps fn : step_ok fn (step m fn).
Proof.
  destruct fn; cbn [step].
  - apply take_snapshot_ok.
  - apply initialize_ok.
  - apply create_ok'.
  - apply select_ok.
  - apply sync_ok.
  - apply patch_ok'.
  - apply wait_creation_ok.
  - apply wait_reconcile_ok.
  - apply kubeconfig_ok.
  - apply namespace_ok.
  - apply bootstrapper_ok.
  - apply cleanup_ok.
  - apply configure_skr_ok.
  - apply bindings_ok.
  - apply migrate_ok.
  - apply credentials_ok.
  - apply delete_kubeconfig_ok.
  - apply delete_shoot_ok.
  - apply stop_ok.
  - apply update_status_ok.
  - apply emit_ok.
Qed.

(** Asking whether the context is done changes nothing. *)
Lemma entry_ctx fn s h r : entry m v fn s h -> entry m v fn s (Ev CCtxDone r :: h).
Proof.
  assert (extends calmCall h (Ev CCtxDone r :: h)) as Hx by (by apply calmly_cons; [apply extends_refl|]).
  assert (forall sh, live m v s h sh -> live m v s (Ev CCtxDone r :: h) sh) as Hlive
    by (intros sh Hl; by eapply live_step).
  assert (configurable m v s h -> configurable m v s (Ev CCtxDone r :: h)) as Hconf
    by (intros Hc; by eapply configurable_step).
  assert (dying m v s h -> dying m v s (Ev CCtxDone r :: h)) as Hdying
    by (intros Hd; by eapply dying_step).
  assert (base v s h -> base v s (Ev CCtxDone r :: h)) as Hbase by (intros; by eapply base_step).
  destruct fn; cbn [entry]; try done.
  - intros (? & ? & Hu). split_and!; try done. by eapply calmly_unwritten.
  - intros (? & ? & Hs). split_and!; [auto|done|].
    destruct (sshoot s); [by eapply calmly_elem|by eapply missing_step].
  - intros Hc. exact (create_entry_step s h _ Hc Hx).
  - intros [sh ?]. exists sh. auto.
  - intros (sh & ? & ? & ?). exists sh. auto.
  - intros (sh & ? & ? & ?). exists sh. auto.
  - intros (sh & ? & ?). exists sh. auto.
  - intros (sh & ? & ?). exists sh. auto.
  - intros [? ?]. split; [auto|by eapply gone_step].
  - intros (? & ? & rt & ?). split_and!; try done. exists rt. by constructor.
Qed.

Lemma runLoop_keeps n fn result s h :
  entry m v fn s h ->
  wp anyEnv (allowed m v) (runLoop m n fn result s) h
    (fun o h' => o = Panicked -> panicCause h').
Proof.
  revert fn result s h. induction n as [|n IH]; intros fn result s h Hen; cbn [runLoop]; [done|].
  wp_norm. split; [exact I|]. intros r _. destruct r as [err|]; [done|].
  apply wp_seq. eapply wp_mono; [|apply step_keeps, entry_ctx, Hen].
  intros [[[[[fn'|] res] [e|]] s']|] h' Hg; cbn in *; try done. by apply IH.
Qed.

(** The whole reconciliation. *)
Lemma Run_keeps :
  wp anyEnv (allowed m v) (Run m v) [] (fun o h => o = Panicked -> panicCause h).
Proof. apply runLoop_keeps. by split_and!; [..|constructor]. Qed.

End Steps.
