(* ===== verification/FsmExample.v ===== *)
(** * A concrete configuration

    Instances of the interfaces and a control plane to run reconciliations
    against: what the theorems about the state machine assume can hold. *)

From S2P Require Import Prelude Kube Gardener RuntimeApi Objects Effects Config Extensions.
From S2P Require Import RegistryCache StructuredAuth SkrDetails AuditLog ConverterApi.
From S2P Require Import FsmState FsmProvision FsmConfigure FsmDelete Fsm.

Local Open Scope string_scope.

#[local] Existing Instances MetaRef.lib MetaRef.laws.

Module Demo.

#[export] Instance gardenerLib : GardenerLib := {|
  errorCodeText _ := "ERR";
  HasNonRetryableErrorCode errs := existsb (fun e => negb (Nat.eqb (length (leCodes e)) 0)) errs;
  GetCondition cs t := snd <$> list_find (fun c => scType c = t) cs;
  semverCompare a b := if String.eqb a b then Ok 0%Z else Err (newError "not comparable")
|}.

#[export] Instance cacheLib : RegistryCacheLib := {|
  RegistryCacheConfiguredUpdateStatusReady _ _ c := c;
  RegistryCacheConfiguredUpdateStatusFailed _ _ _ c := c;
  RegistryCacheConfiguredUpdateStatusPendingUnknown _ _ c := c
|}.

(** A converter that makes an empty Shoot of the right name. *)
Definition shootFor (cfg : ConverterConfig) (rt : Runtime) : Shoot :=
  mkShoot "Shoot" "core.gardener.cloud/v1beta1"
    (metaNamed (rsName (rShoot (rtSpec rt))) ("garden-" +:+ ProjectName (ccGardener cfg)))
    emptyShootSpec emptyShootStatus.

#[export] Instance converter : ShootConverter := {|
  toShootCreate opts rt := Ret (mkConversion rt [] (Ok (shootFor (coConverterConfig opts) rt)));
  toShootPatch opts rt := Ret (mkConversion rt (poResources opts) (Ok (shootFor (poConverterConfig opts) rt)))
|}.

#[export] Instance converterOk : ConverterOk.
Proof.
  refine {| createPanics _ _ := False; patchPanics _ _ := False |};
    intros R G opts rt h Q _ HQ _; (apply HQ; [apply extends_refl|done|done|..]; by intros).
Defined.

#[export] Instance authCodec : Codec AuthenticationConfiguration :=
  {| marshal _ := Ok "auth"; unmarshal _ := Err (newError "opaque") |}.
#[export] Instance windowCodec : Codec WindowMap :=
  {| marshal _ := Ok "windows"; unmarshal _ := Err (newError "opaque") |}.
#[export] Instance registryCodec : Codec RegistryConfig :=
  {| marshal _ := Ok "registry"; unmarshal _ := Err (newError "opaque") |}.
#[export] Instance infoCodec : Codec KymaProvisioningInfo :=
  {| marshal _ := Ok "details"; unmarshal _ := Err (newError "opaque") |}.
#[export] Instance auditCodec : Codec AuditlogExtensionConfig :=
  {| marshal _ := Ok "audit"; unmarshal _ := Err (newError "opaque") |}.

Definition noOidc : OidcProvider := mkOidcProvider "client" "groups" "https://issuer" [] "sub" "-".

Definition converterConfig : ConverterConfig :=
  mkConverterConfig
    (mkKubernetesConfig (mkKubeApiServer "" "" ∅ ∅) ∅ "1.33" false false noOidc)
    (mkDNSConfig "" "" "")
    (mkProviderConfig (mkAWSConfig false) (mkGDCHConfig "" "" "" "") (mkWorkerConfig "" ""))
    (mkMachineImageConfig "gardenlinux" "1") (mkGardenerConfig "kyma" true) "" "" [] false "tenants".

(** An operator with the dedicated audit log on and no bootstrapper. *)
Definition cfg : RCCfg :=
  mkRCCfg Second Second Second Second Second Second Finalizer "garden-kyma" false false false true
    (NewDataProvider (mkDefaultProvider ∅ "kcp-system")) true false None
    (mkConfig converterConfig (mkClusterConfig noOidc)).

Lemma noInstaller i : BootstrapperInstaller cfg = Some i -> InstallerOk i (fun _ => False).
Proof. discriminate. Qed.

Definition labels : gmap string string :=
  list_to_map ((fun k => (k, "demo")) <$> requiredLabelKeys).

Definition spec : RuntimeSpec :=
  mkRuntimeSpec
    (mkRuntimeShoot "shoot" "" "eu" "eu" None "" None None
       (mkRuntimeKubernetes None (mkRuntimeAPIServer (mkOIDC None None None None ∅ [] None None) None None))
       (mkRuntimeProvider "aws" [] None None None)
       (mkRuntimeNetworking None "" "" "" None None) None)
    (mkSecurity ["admin"] (mkFilter None false)) [] None.

(** A Runtime with the given finalizers, annotations, deletion time and
    conditions. *)
Definition runtime (fin : list string) (ann : gmap string string) (del : option Z)
    (conds : list Condition) : Runtime :=
  mkRuntime (mkMeta "rt" "" "kcp-system" "" "1" 1 del labels ann fin []) spec
    (mkStatus (if del is Some _ then RuntimeStateTerminating else "") conds false None [] "").

Definition provisioned : Condition :=
  mkCondition ConditionTypeRuntimeProvisioned ConditionUnknown 1 ConditionReasonInitialized "".

Definition deprovisioned : Condition :=
  mkCondition ConditionTypeRuntimeDeprovisioned ConditionTrue 1 ConditionReasonGardenerCRDeleted
    "Gardener Cluster CR successfully deleted".

(** A Shoot as Gardener reports it, before its first operation. *)
Definition shoot (ann : gmap string string) (del : option Z) : Shoot :=
  let sp := emptyShootSpec in
  mkShoot "Shoot" "core.gardener.cloud/v1beta1"
    (mkMeta "shoot" "" "garden-kyma" "" "1" 1 del ∅ ann [] [])
    (mkShootSpec (ssPurpose sp) (ssRegion sp) (ssControlPlane sp) (ssCloudProfile sp)
       (Some (mkShootDNS (Some "demo.example") [])) (ssExtensions sp) (ssKubernetes sp)
       (ssNetworking sp) (mkShootProvider "aws" None (Some "infra") [] None) (ssSecretBindingName sp)
       (ssCredentialsBindingName sp) (ssSeedName sp) (ssSeedSelector sp) (ssResources sp)
       (ssTolerations sp) (ssExposureClassName sp) (ssAccessRestrictions sp) (ssMaintenance sp))
    emptyShootStatus.

(** The Shoot after a successful creation. *)
Definition readyShoot (ann : gmap string string) : Shoot :=
  let sh := shoot ann None in
  mkShoot (shootKind sh) (shootAPIVersion sh) (shootMeta sh) (shootSpec sh)
    (mkShootStatus
       (Some (mkLastOperation "" 1 100 LastOperationStateSucceeded LastOperationTypeReconcile)) [] 1).

Definition notFound : GoError := mkError ReasonNotFound "not found".

(** Servers that hold the given Shoot and GardenerCluster and nothing else, and
    accept every write. *)
Definition servers (sh : option Shoot) (cluster : option GardenerCluster) : oracle := fun _ c =>
  match c return resp c with
  | CGet Garden KShoot _ => match sh with Some s => Ok s | None => Err notFound end
  | CGet Kcp KGardenerCluster _ => match cluster with Some s => Ok s | None => Err notFound end
  | CGet _ _ _ => Err notFound
  | CList _ _ _ _ => Ok []
  | CCreate _ _ o | CUpdate _ _ o | CUpdateStatus _ _ o | CPatch _ _ o _ => Ok o
  | CDelete _ _ _ | CDeleteAllOf _ _ _ | CBuildClient _ => Ok tt
  | CAdminKubeconfig _ _ | CReadFile _ => Err notFound
  | CDiscover _ => Err notFound
  | CNow => 100%Z
  | CNewUUID => "uuid"
  | CCtxDone => None
  | CMetric _ | CEvent _ _ _ _ => tt
  end.

(** The calls of a reconciliation against them, first one first. *)
Definition calls (v : Runtime) (o : oracle) : list call :=
  rev (callOf <$> snd (Effects.run o (Run cfg v) [])).

End Demo.
