(* ===== verification/FsmProps.v ===== *)
(** * Safety of a reconciliation

    Each theorem states which calls [Run] makes on one kind of object, for
    every Runtime and whatever the three clusters answer.  The interfaces of
    the converter, the audit log provider and the bootstrapper are assumed. *)

From S2P Require Import Prelude Sscanf Kube Gardener RuntimeApi Objects Effects Config Extensions.
From S2P Require Import RegistryCache StructuredAuth SkrDetails AuditLog ConverterApi.
From S2P Require Import FsmState FsmProvision FsmPatch FsmConfigure FsmDelete Fsm.
From S2P Require Import FsmCalls FsmSafety FsmSteps FsmExample.

Local Open Scope string_scope.

Section Props.
Context `{MetaLib} `{GardenerLib} `{ShootConverter} `{RegistryCacheLib}.
Context `{Codec AuthenticationConfiguration} `{Codec WindowMap} `{Codec RegistryConfig}.
Context `{Codec KymaProvisioningInfo} `{Codec AuditlogExtensionConfig}.
Context (m : RCCfg) (v : Runtime).
Context `{!ConverterOk} `{!DataProviderOk (AuditLogDataProvider m)}.
Context (cause : event -> Prop).
Context (HInst : forall i, BootstrapperInstaller m = Some i -> InstallerOk i cause).

Lemma Run_weaken (G : guar) :
  (forall h c, allowed m v h c -> G h c) -> wp anyEnv G (Run m v) [] (fun _ _ => True).
Proof.
  intros HG. eapply wp_weaken; [done|exact HG|]. eapply wp_mono; [|by apply Run_keeps]. done.
Qed.

(** C1. The finalizer protects the resources of a runtime: a reconciliation
    writes the Runtime without the finalizer it carried only when the Runtime is
    being deleted, Gardener has answered that its Shoot does not exist, and every
    registry cache secret listed for it in the Garden cluster has been deleted or
    was gone. *)
Theorem finalizer_removed_last `{!MetaLaws} :
  wp anyEnv
    (fun h c =>
       match c with
       | CUpdate Kcp KRuntime rt =>
           CfgFinalizer m ∈ Finalizers (rtMeta v) -> CfgFinalizer m ∉ Finalizers (rtMeta rt) ->
           timeIsZero (DeletionTimestamp (rtMeta v)) = false /\
           shootMissing m v h /\ allDeleted (secretManagerFor m v) (fun _ => true) h
       | CPatch Kcp KRuntime _ _ | CDelete Kcp KRuntime _ | CCreate Kcp KRuntime _ => False
       | _ => True
       end) (Run m v) [] (fun _ _ => True).
Proof.
  apply Run_weaken. intros h [] Ha; try done; destruct c, k; try done. cbn in Ha.
  intros Hin Hout. destruct Ha as [_ [(_ & Hno & _)|[(Hd & _ & Hmiss & Hall & _)|(_ & _ & _ & E)]]].
  - apply contains_finalizer in Hin. unfold hasFinalizer in Hno. congruence.
  - split_and!; [|done..]. by apply negb_true_iff.
  - rewrite E in Hout. done.
Qed.

(** C2. A Shoot is deleted only when its Runtime is being deleted, after the
    GardenerCluster of the runtime has been found absent and the structured
    authentication config map the Shoot names has been deleted or was gone, and
    only a Shoot that carries the deletion confirmation, as read or as the server
    returned it for the confirming patch. *)
Theorem shoot_deleted_last :
  wp anyEnv
    (fun h c =>
       match c with
       | CDelete Garden KShoot sh =>
           timeIsZero (DeletionTimestamp (rtMeta v)) = false /\
           clusterGone v h /\ confirmedShoot m v h sh /\ authConfigGone h sh
       | CDelete Kcp KGardenerCluster cluster =>
           timeIsZero (DeletionTimestamp (rtMeta v)) = false /\
           Ev (CGet Kcp KGardenerCluster (clusterKey v)) (Ok cluster) ∈ h
       | _ => True
       end) (Run m v) [] (fun _ _ => True).
Proof.
  apply Run_weaken. intros h [] Ha; try done; destruct c, k; try done; cbn in Ha.
  - destruct Ha as (Hd & _ & ?). by apply negb_true_iff in Hd.
  - destruct Ha as (Hd & ?). by apply negb_true_iff in Hd.
Qed.

(** C3. A Shoot is created only for a Runtime that is not being deleted,
    carries the finalizer, the labels the operator requires and the Provisioned
    condition, and whose Shoot Gardener has answered not to exist; the Shoot has
    the name the Runtime asks for and lies in the project's namespace. *)
Theorem shoot_created_once_missing :
  wp anyEnv
    (fun h c =>
       match c with
       | CCreate Garden KShoot sh =>
           timeIsZero (DeletionTimestamp (rtMeta v)) = true /\
           ContainsFinalizer (rtMeta v) (CfgFinalizer m) = true /\
           ValidateRequiredLabels v = None /\
           is_Some (FindStatusCondition (Conditions (rtStatus v)) ConditionTypeRuntimeProvisioned) /\
           shootMissing m v h /\
           objName KShoot sh =
             mkNN ("garden-" +:+ ProjectName (ccGardener (ConverterCfg m))) (rsName (rShoot (rtSpec v)))
       | _ => True
       end) (Run m v) [] (fun _ _ => True).
Proof.
  apply Run_weaken. intros h [] Ha; try done; destruct c, k; try done; cbn in Ha.
  destruct Ha as (Hd & ? & ? & ? & ? & Hn & Hns). cbn [objName]. rewrite Hn, Hns.
  by apply negb_false_iff in Hd.
Qed.

(** When [sFnSelectShootProcessing] lets the Shoot be patched. *)
Lemma shouldPatchShoot_due sh :
  shouldPatchShoot v sh = Ok true <->
  ShouldSuspendReconciliation (Annotations (rtMeta v)) = false /\
  (ShouldForceReconciliation (Annotations (rtMeta v)) = true \/
   Annotations (shootMeta sh) !! generationAnnotation = None \/
   exists text g, Annotations (shootMeta sh) !! generationAnnotation = Some text /\
     ParseInt64 text = Ok g /\ (g < Generation (rtMeta v))%Z).
Proof.
  unfold shouldPatchShoot. destruct (ShouldSuspendReconciliation _); [split; [done|by intros [? _]]|].
  destruct (ShouldForceReconciliation _); [split; [|done]; split; [done|by left]|].
  destruct (Annotations (shootMeta sh) !! _) as [text|]; [|split; [|done]; split; [done|right; by left]].
  destruct (ParseInt64 text) as [g|e] eqn:Ep.
  2: { split; [done|]. intros (_ & [?|[?|(text' & g' & [= <-] & Ep' & _)]]); congruence. }
  split.
  - intros [= Hlt%Z.ltb_lt]. split; [done|]. right. right. by exists text, g.
  - intros (_ & [?|[?|(text' & g' & [= <-] & Ep' & Hlt)]]); [done..|]. rewrite Ep in Ep'.
    injection Ep' as <-. f_equal. by apply Z.ltb_lt.
Qed.

(** C4. The Shoot of a live Runtime is updated or applied only when
    reconciliation is not suspended by annotation and is forced, or the Shoot has
    no recorded Runtime generation, or an older one than the Runtime's; the
    updates keep the Shoot's metadata and status, the applied object is named as
    the Runtime asks; the only apply on a Runtime being deleted sets the deletion
    confirmation on the Shoot that was read. *)
Theorem shoot_patched_when_due :
  let due h sh0 :=
    shootFound m v h sh0 /\ ShouldSuspendReconciliation (Annotations (rtMeta v)) = false /\
    (ShouldForceReconciliation (Annotations (rtMeta v)) = true \/
     Annotations (shootMeta sh0) !! generationAnnotation = None \/
     exists text g, Annotations (shootMeta sh0) !! generationAnnotation = Some text /\
       ParseInt64 text = Ok g /\ (g < Generation (rtMeta v))%Z) in
  wp anyEnv
    (fun h c =>
       match c with
       | CUpdate Garden KShoot sh =>
           deleting v = false /\ exists sh0, due h sh0 /\
             shootMeta sh = shootMeta sh0 /\ shootStatus sh = shootStatus sh0
       | CPatch Garden KShoot sh Apply =>
           if deleting v then exists sh0, shootFound m v h sh0 /\ sh = confirmedCopy sh0
           else exists sh0, due h sh0 /\
             objName KShoot sh = mkNN (gardenNamespace m) (rsName (rShoot (rtSpec v)))
       | _ => True
       end) (Run m v) [] (fun _ _ => True).
Proof.
  cbv zeta. apply Run_weaken. intros h [] Ha; try done; destruct c, k; try done; cbn in Ha.
  - destruct Ha as (sh0 & (Hd & ? & Hdue%shouldPatchShoot_due) & ?). split; [done|]. by exists sh0.
  - destruct mode as [|base]; [|done].
    destruct Ha as [(sh0 & (Hd & ? & Hdue%shouldPatchShoot_due) & Hn & Hns)|(Hd & _ & sh0 & ? & _ & ?)];
      rewrite Hd; [|by exists sh0].
    exists sh0. cbn [objName]. by rewrite Hn, Hns.
Qed.

(** C21. A suspended Runtime: with the suspend annotation on a Runtime that is
    not being deleted, its existing Shoot is neither updated nor applied nor
    deleted; the only write left is the merge patch that points the audit log
    extension to the dedicated instance, and only when dedicated audit logging is
    enabled in the operator. *)
Theorem suspended_shoot_untouched
    (Hsuspended : Annotations (rtMeta v) !! SuspendReconcileAnnotation = Some "true")
    (Hlive : timeIsZero (DeletionTimestamp (rtMeta v)) = true) :
  wp anyEnv
    (fun h c =>
       match c with
       | CUpdate Garden KShoot _ | CPatch Garden KShoot _ Apply | CDelete Garden KShoot _
       | CUpdateStatus Garden KShoot _ => False
       | CPatch Garden KShoot sh (MergeFrom _ base) =>
           DedicatedAuditLoggingEnabled m = true /\
           exists d, applyDedicatedAuditLogToShoot base d = Ok sh
       | _ => True
       end) (Run m v) [] (fun _ _ => True).
Proof.
  assert (deleting v = false) as Hd by (by apply negb_false_iff).
  assert (forall sh, shouldPatchShoot v sh <> Ok true) as Hno.
  { intros sh [Hs _]%shouldPatchShoot_due. unfold ShouldSuspendReconciliation in Hs.
    by rewrite Hsuspended in Hs. }
  apply Run_weaken. intros h [] Ha; try done; destruct c, k; try done; cbn in Ha.
  - destruct Ha as (sh0 & (_ & _ & Hdue) & _). by apply (Hno sh0).
  - destruct mode as [|base]; [|by destruct Ha as (_ & ? & ? & _)].
    destruct Ha as [(sh0 & (_ & _ & Hdue) & _)|(Hd' & _)]; [by apply (Hno sh0)|congruence].
  - destruct Ha as [Hd' _]. congruence.
Qed.

(** C20. The status of the Runtime is written at most once in a reconciliation,
    and only if it differs from the status the reconciliation started with; every
    event reports, on the Runtime as stored by that write, a condition that was
    absent at the start or had another status, reason or message. *)
Theorem status_and_events :
  wp anyEnv
    (fun h c =>
       match c with
       | CUpdateStatus Kcp KRuntime rt => statusUnwritten h /\ rtStatus rt <> rtStatus v
       | CEvent i _ _ _ =>
           (exists rt, Ev (CUpdateStatus Kcp KRuntime rt) (Ok i) ∈ h) /\
           exists condition, condition ∈ Conditions (rtStatus i) /\ c = conditionEvent i condition /\
             forall old, FindStatusCondition (Conditions (rtStatus v)) (condType condition) = Some old ->
               (condStatus old, condReason old, condMessage old) <>
               (condStatus condition, condReason condition, condMessage condition)
       | _ => True
       end) (Run m v) [] (fun _ _ => True).
Proof.
  apply Run_weaken. intros h [] Ha; try done; try (destruct c, k; done). destruct Ha as [? (c & ? & Hu & Hc)].
  split; [done|]. exists c. split_and!; [done..|]. intros old Ho Heq. unfold unchanged in Hu.
  rewrite Ho in Hu. injection Heq as E1 E2 E3. rewrite E1, E2, E3, !String.eqb_refl in Hu.
  by rewrite bool_decide_true in Hu.
Qed.

(** C19. A reconciliation does not panic: with a converter that does not, it
    panics only after an API server has answered with an object that lacks what
    the code takes for granted (a Shoot being deleted without last operation, a
    Shoot without infrastructure configuration or with a registry cache extension
    without provider configuration, a seed without scheduling settings, a stored
    Runtime without last operation), or an answer that makes the bootstrapper's
    query of its state panic. *)
Theorem panics_only_on_ill_formed_answers
    (Hcreate : forall opts rt, ~ createPanics opts rt) (Hpatch : forall opts rt, ~ patchPanics opts rt) :
  wp anyEnv anyCall (Run m v) []
    (fun o h => o = Panicked -> exists e, e ∈ h /\ (illFormed e \/ cause e)).
Proof.
  eapply wp_weaken with (G := allowed m v); [done|done|]. eapply wp_mono; [|by apply Run_keeps].
  intros o h Hc Ho.
  destruct (Hc Ho) as [(e & ? & ?)|[(e & ? & ?)|[(opts & rt & Hp)|(sh & opts & rt & _ & _ & Hp)]]]; [by eauto..| |].
  - by destruct (Hcreate opts rt).
  - by destruct (Hpatch opts rt).
Qed.

End Props.

(** ** The theorems apply to the demonstration configuration, and its runs
    make the calls they speak of *)

#[local] Existing Instances MetaRef.lib MetaRef.laws.
Import Demo.

(** A deleted Runtime. *)
Definition deletedRuntime : Runtime := runtime [Finalizer] ∅ (Some 5%Z) [deprovisioned].
(** A live Runtime, with annotations. *)
Definition liveRuntime (ann : gmap string string) : Runtime := runtime [Finalizer] ann None [provisioned].

Definition anyCallIs (f : call -> bool) (v : Runtime) (o : oracle) : bool := existsb f (calls v o).

Lemma finalizer_removed_last_witness :
  wp anyEnv
    (fun h c =>
       match c with
       | CUpdate Kcp KRuntime rt =>
           CfgFinalizer cfg ∈ Finalizers (rtMeta deletedRuntime) ->
           CfgFinalizer cfg ∉ Finalizers (rtMeta rt) ->
           timeIsZero (DeletionTimestamp (rtMeta deletedRuntime)) = false /\
           shootMissing cfg deletedRuntime h /\
           allDeleted (secretManagerFor cfg deletedRuntime) (fun _ => true) h
       | CPatch Kcp KRuntime _ _ | CDelete Kcp KRuntime _ | CCreate Kcp KRuntime _ => False
       | _ => True
       end) (Run cfg deletedRuntime) [] (fun _ _ => True) /\
  anyCallIs (fun c => match c return bool with
      | CUpdate Kcp KRuntime rt => bool_decide (Finalizers (rtMeta rt) = [])
      | _ => false end) deletedRuntime (servers None None) = true.
Proof. split; [exact (finalizer_removed_last cfg deletedRuntime (fun _ => False) noInstaller)|vm_compute; reflexivity]. Defined.

Lemma shoot_deleted_last_witness :
  wp anyEnv
    (fun h c =>
       match c with
       | CDelete Garden KShoot sh =>
           timeIsZero (DeletionTimestamp (rtMeta deletedRuntime)) = false /\
           clusterGone deletedRuntime h /\ confirmedShoot cfg deletedRuntime h sh /\
           authConfigGone h sh
       | CDelete Kcp KGardenerCluster cluster =>
           timeIsZero (DeletionTimestamp (rtMeta deletedRuntime)) = false /\
           Ev (CGet Kcp KGardenerCluster (clusterKey deletedRuntime)) (Ok cluster) ∈ h
       | _ => True
       end) (Run cfg deletedRuntime) [] (fun _ _ => True) /\
  anyCallIs (fun c => match c return bool with CDelete Garden KShoot _ => true | _ => false end)
    deletedRuntime (servers (Some (shoot ∅ None)) None) = true.
Proof. split; [exact (shoot_deleted_last cfg deletedRuntime (fun _ => False) noInstaller)|vm_compute; reflexivity]. Defined.

Lemma shoot_created_once_missing_witness :
  let v := liveRuntime ∅ in
  wp anyEnv
    (fun h c =>
       match c with
       | CCreate Garden KShoot sh =>
           timeIsZero (DeletionTimestamp (rtMeta v)) = true /\
           ContainsFinalizer (rtMeta v) (CfgFinalizer cfg) = true /\
           ValidateRequiredLabels v = None /\
           is_Some (FindStatusCondition (Conditions (rtStatus v)) ConditionTypeRuntimeProvisioned) /\
           shootMissing cfg v h /\
           objName KShoot sh =
             mkNN ("garden-" +:+ ProjectName (ccGardener (ConverterCfg cfg))) (rsName (rShoot (rtSpec v)))
       | _ => True
       end) (Run cfg v) [] (fun _ _ => True) /\
  anyCallIs (fun c => match c return bool with CCreate Garden KShoot _ => true | _ => false end)
    v (servers None None) = true.
Proof. split; [exact (shoot_created_once_missing cfg _ (fun _ => False) noInstaller)|vm_compute; reflexivity]. Defined.

Lemma shoot_patched_when_due_witness :
  let v := liveRuntime ∅ in
  wp anyEnv
    (fun h c =>
       match c with
       | CPatch Garden KShoot sh Apply =>
           exists sh0, shootFound cfg v h sh0 /\
             objName KShoot sh = mkNN (gardenNamespace cfg) (rsName (rShoot (rtSpec v)))
       | _ => True
       end) (Run cfg v) [] (fun _ _ => True) /\
  anyCallIs (fun c => match c return bool with CPatch Garden KShoot _ Apply => true | _ => false end)
    v (servers (Some (readyShoot ∅)) None) = true.
Proof.
  split; [|vm_compute; reflexivity]. eapply wp_weaken; [| |exact (shoot_patched_when_due cfg _ (fun _ => False) noInstaller)]; [done|].
  intros h [] Hg; try done; destruct c, k, mode; try done. destruct Hg as (sh0 & (Hf & _) & Hn). by exists sh0.
Defined.

Lemma suspended_shoot_untouched_witness :
  let v := liveRuntime {[ SuspendReconcileAnnotation := "true" ]} in
  wp anyEnv
    (fun h c =>
       match c with
       | CUpdate Garden KShoot _ | CPatch Garden KShoot _ Apply | CDelete Garden KShoot _
       | CUpdateStatus Garden KShoot _ => False
       | CPatch Garden KShoot sh (MergeFrom _ base) =>
           DedicatedAuditLoggingEnabled cfg = true /\
           exists d, applyDedicatedAuditLogToShoot base d = Ok sh
       | _ => True
       end) (Run cfg v) [] (fun _ _ => True) /\
  anyCallIs (fun c => match c return bool with CPatch Garden KShoot _ _ => true | _ => false end)
    v (servers (Some (readyShoot ∅)) None) = false.
Proof.
  split; [|vm_compute; reflexivity].
  exact (suspended_shoot_untouched cfg (liveRuntime {[ SuspendReconcileAnnotation := "true" ]})
           (fun _ => False) noInstaller eq_refl eq_refl).
Defined.

Lemma status_and_events_witness :
  let v := liveRuntime ∅ in
  wp anyEnv
    (fun h c =>
       match c with
       | CUpdateStatus Kcp KRuntime rt => statusUnwritten h /\ rtStatus rt <> rtStatus v
       | CEvent i _ _ _ =>
           (exists rt, Ev (CUpdateStatus Kcp KRuntime rt) (Ok i) ∈ h) /\
           exists condition, condition ∈ Conditions (rtStatus i) /\ c = conditionEvent i condition /\
             forall old, FindStatusCondition (Conditions (rtStatus v)) (condType condition) = Some old ->
               (condStatus old, condReason old, condMessage old) <>
               (condStatus condition, condReason condition, condMessage condition)
       | _ => True
       end) (Run cfg v) [] (fun _ _ => True) /\
  anyCallIs (fun c => match c return bool with CEvent _ _ _ _ => true | _ => false end)
    v (servers None None) = true.
Proof. split; [exact (status_and_events cfg _ (fun _ => False) noInstaller)|vm_compute; reflexivity]. Defined.

(** The demonstration converter does not panic; the ill-formed answer is a Shoot
    being deleted whose last operation is missing. *)
Lemma panics_only_on_ill_formed_answers_witness :
  wp anyEnv anyCall (Run cfg deletedRuntime) []
    (fun o h => o = Panicked -> exists e, e ∈ h /\ (illFormed e \/ False)) /\
  fst (Effects.run (servers (Some (shoot ∅ (Some 7%Z))) None) (Run cfg deletedRuntime) []) = Panicked.
Proof.
  split; [|vm_compute; reflexivity].
  exact (panics_only_on_ill_formed_answers cfg deletedRuntime (fun _ => False) noInstaller
           (fun _ _ f => f) (fun _ _ f => f)).
Defined.
