(* ===== verification/FsmProgress.v ===== *)
(** * Progress and error handling of the state machine

    What a reconciliation achieves when the clusters cooperate, and how the
    errors of a Shoot write are classified. *)

From S2P Require Import Prelude Kube Gardener RuntimeApi Objects Effects Config Extensions.
From S2P Require Import RegistryCache StructuredAuth SkrDetails AuditLog ConverterApi.
From S2P Require Import FsmState FsmProvision FsmPatch FsmConfigure FsmDelete Fsm.
From S2P Require Import FsmCalls FsmSafety FsmExample.

Local Open Scope string_scope.

Section Progress.
Context `{MetaLib} `{GardenerLib} `{ShootConverter} `{RegistryCacheLib}.
Context `{Codec AuthenticationConfiguration} `{Codec WindowMap} `{Codec RegistryConfig}.
Context `{Codec KymaProvisioningInfo} `{Codec AuditlogExtensionConfig}.
Context (m : RCCfg).

(** One turn of the loop of [Run]. *)
Lemma wp_runLoop R G n fn res s h (Q : outcome (option (Result * option GoError)) -> history -> Prop) :
  G h CCtxDone ->
  (forall err, R h (Ev CCtxDone (Some err)) ->
     Q (Done (Some (outcomeOf res (Some err)))) (Ev CCtxDone (Some err) :: h)) ->
  (R h (Ev CCtxDone None) ->
   swp R G (step m fn) s (Ev CCtxDone None :: h)
     (fun t s' h' =>
        match t with
        | (Some fn', res', None) => wp R G (runLoop m n fn' res' s') h' Q
        | (_, res', err) => Q (Done (Some (outcomeOf res' err))) h'
        end) (Q Panicked)) ->
  wp R G (runLoop m (S n) fn res s) h Q.
Proof.
  intros HG Hdone Hgo. cbn [runLoop]. wp_norm. split; [done|]. intros [err|] Hr; [by apply Hdone|].
  apply wp_seq. eapply wp_mono; [|by apply Hgo].
  by intros [[[[[fn'|] res'] [e|]] s']|] h'.
Qed.

(** The environment in which a deletion can complete: the context lives, the
    Shoot is gone, the secrets can be listed and deleted, the Runtime updated. *)
Definition deletionCompletes : rely := fun _ e =>
  match e with
  | Ev CCtxDone r => r = None
  | Ev (CGet Garden KShoot _) r => exists e, r = Err e /\ IsNotFound e = true
  | Ev (CList Garden KSecret _ _) r => exists items, r = Ok items
  | Ev (CDelete Garden KSecret _) r => failsUnlessNotFound r = None
  | Ev (CUpdate Kcp KRuntime _) r => exists stored, r = Ok stored
  | _ => True
  end.

Lemma DeleteAll_succeeds man h (Q : outcome (option GoError) -> history -> Prop) :
  (forall h', suffix h h' -> Q (Done None) h') ->
  wp deletionCompletes anyCall (DeleteAll man) h Q.
Proof.
  intros HQ. unfold DeleteAll, listManaged. wp_norm. split; [done|]. intros r [items ->]. cbn.
  apply (wp_forEach _ _ _ _ (fun _ h' => suffix h h')); [by apply suffix_cons_r| |].
  - intros i s h' _ Hh. unfold deleteSecret. wp_norm. split; [done|]. intros r Hr. cbn in Hr. rewrite Hr.
    cbn. by apply suffix_cons_r.
  - intros h' Hh. by apply HQ.
Qed.

Lemma initialize_deletes `{!MetaLaws} s h (Q : transition -> systemState -> history -> Prop) P :
  sshoot s = None ->
  timeIsZero (DeletionTimestamp (rtMeta (instance s))) = false ->
  ContainsFinalizer (rtMeta (instance s)) (CfgFinalizer m) = true ->
  mapGet (Labels (rtMeta (instance s))) LabelKymaRuntimeID <> "" ->
  (forall s' h' rt stored, Ev (CUpdate Kcp KRuntime rt) (Ok stored) ∈ h' ->
     CfgFinalizer m ∉ Finalizers (rtMeta rt) -> Q (None, None, None) s' h') ->
  swp deletionCompletes anyCall (sFnInitialize m) s h Q P.
Proof.
  intros Hs Hdel Hfin Hlabel HQ. unfold sFnInitialize. apply swp_bind, swp_getInstance.
  apply swp_bind, swp_modify. rewrite Hdel, Hfin. cbn [negb andb].
  destruct (String.eqb_spec (mapGet (Labels (rtMeta (instance s))) LabelKymaRuntimeID) "") as [?|_]; [done|].
  replace (exposeShootStatusInfo s) with s by (unfold exposeShootStatusInfo; by rewrite Hs).
  apply swp_bind, swp_getState. rewrite Hs. apply swp_bind, swp_lift, DeleteAll_succeeds. intros h' _.
  unfold removeFinalizerAndStop. apply swp_bind, swp_getInstance, swp_bind, swp_modify, swp_bind.
  unfold updateInstance. apply swp_bind, swp_getInstance, swp_bind, swp_call; [done|].
  intros r [stored ->]. apply swp_bind, swp_modify, swp_ret, swp_bind, swp_getInstance, swp_bind.
  apply swp_call; [done|]. intros [] _. apply swp_ret. eapply HQ; [right; left|].
  cbn [instance with_instance rtMeta runtime_with_meta]. rewrite remove_finalizer. by intros [? _].
Qed.

(** C22. A deletion completes: when the Runtime is being deleted and carries
    the finalizer and the runtime id label, the Shoot is gone, and the secrets and
    the Runtime can be written, one reconciliation removes the finalizer and
    returns without error and without asking to be called again. *)
Theorem deletion_completes `{!MetaLaws} (v : Runtime)
    (Hdel : timeIsZero (DeletionTimestamp (rtMeta v)) = false)
    (Hfin : CfgFinalizer m ∈ Finalizers (rtMeta v))
    (Hlabel : mapGet (Labels (rtMeta v)) LabelKymaRuntimeID <> "") :
  wp deletionCompletes anyCall (Run m v) []
    (returns (fun out h =>
       out = Some (mkResult false 0, None) /\
       exists rt stored, Ev (CUpdate Kcp KRuntime rt) (Ok stored) ∈ h /\
         CfgFinalizer m ∉ Finalizers (rtMeta rt))).
Proof.
  apply contains_finalizer in Hfin. apply (wp_runLoop _ _ 14); [done|done|]. intros _.
  cbn [step]. unfold sFnTakeSnapshot. apply swp_bind, swp_modify, swp_bind, swp_getInstance.
  apply swp_bind, swp_call; [done|]. intros r (e & -> & En). cbn [failsUnlessNotFound]. rewrite En.
  apply swp_bind, swp_ret, swp_ret. apply (wp_runLoop _ _ 13); [done|done|]. intros _.
  cbn [step]. apply initialize_deletes; [done..|]. intros s' h' rt stored Hev Hno.
  split; [done|]. by exists rt, stored.
Qed.

(** handleUpdateError classifies the error of a Shoot write: without error
    it changes nothing; a conflict or a forbidden error leaves the Runtime Pending
    and asks for a retry after the Gardener delay; any other error counts a stop,
    marks the Runtime Failed and stops. *)
Theorem handleUpdateError_spec `{!MetaLaws} (err : option GoError) (msg : string) (s : systemState) :
  swp anyEnv (fun _ c => c = CNow \/ (c = CMetric IncRuntimeFSMStopCounter /\
                exists e, err = Some e /\ IsConflict e = false /\ IsForbidden e = false))
    (handleUpdateError m err msg) s []
    (fun t s' _ =>
       match err with
       | None => t = (None, None, None) /\ s' = s
       | Some e =>
           if IsConflict e || IsForbidden e then
             t = (Some (SfnUpdateStatus (Some (mkResult false (GardenerRequeueDuration m))) None), None, None) /\
             IsStateWithConditionAndStatusSet (instance s') RuntimeStatePending
               ConditionTypeRuntimeProvisioned ConditionReasonProcessing ConditionUnknown = true
           else
             t = (Some (SfnUpdateStatus None None), None, None) /\
             IsStateWithConditionAndStatusSet (instance s') RuntimeStateFailed
               ConditionTypeRuntimeProvisioned ConditionReasonProcessingErr ConditionFalse = true
       end) (fun _ => False).
Proof.
  unfold handleUpdateError. destruct err as [e|]; [|by apply swp_ret].
  destruct (IsConflict e) eqn:Ec; [|destruct (IsForbidden e) eqn:Ef]; cbn [orb].
  - apply swp_bind, swp_bind, swp_call; [by left|]. intros now _.
    apply swp_modify, swp_ret. split; [done|apply setState_found].
  - apply swp_bind, swp_bind, swp_call; [by left|]. intros now _.
    apply swp_modify, swp_ret. split; [done|apply setState_found].
  - apply swp_bind, swp_call; [right; split; [done|by exists e]|]. intros [] _.
    apply swp_bind, swp_bind, swp_call; [by left|]. intros now _.
    apply swp_modify, swp_ret. split; [done|apply setState_found].
Qed.

End Progress.

(** ** Witnesses *)

#[local] Existing Instances MetaRef.lib MetaRef.laws.
Import Demo.

Lemma deletion_completes_witness :
  let v := runtime [Finalizer] ∅ (Some 5%Z) [] in
  wp deletionCompletes anyCall (Run cfg v) []
    (returns (fun out h =>
       out = Some (mkResult false 0, None) /\
       exists rt stored, Ev (CUpdate Kcp KRuntime rt) (Ok stored) ∈ h /\
         CfgFinalizer cfg ∉ Finalizers (rtMeta rt))) /\
  fst (Effects.run (servers None None) (Run cfg v) []) = Done (Some (mkResult false 0, None)).
Proof.
  split; [|vm_compute; reflexivity].
  apply (deletion_completes cfg); [reflexivity|cbn; left|vm_compute; discriminate].
Defined.

Lemma handleUpdateError_spec_witness :
  let e := mkError ReasonConflict "conflict" in
  let s := mkState (runtime [] ∅ None []) emptyStatus None in
  swp anyEnv (fun _ c => c = CNow \/ (c = CMetric IncRuntimeFSMStopCounter /\
                exists e', Some e = Some e' /\ IsConflict e' = false /\ IsForbidden e' = false))
    (handleUpdateError cfg (Some e) "msg") s []
    (fun t s' _ =>
       t = (Some (SfnUpdateStatus (Some (mkResult false (GardenerRequeueDuration cfg))) None), None, None) /\
       IsStateWithConditionAndStatusSet (instance s') RuntimeStatePending
         ConditionTypeRuntimeProvisioned ConditionReasonProcessing ConditionUnknown = true)
    (fun _ => False).
Proof. intros e s. exact (handleUpdateError_spec cfg (Some e) "msg" s). Defined.
