(* ===== verification/Serving.v ===== *)
(** * Servers that do what they are asked

    The ground of the theorems about progress: what it means that a request is
    granted, which objects a provisioning is about, and what the turns of the loop of
    [Run] do when the server stores the status it is sent. *)

From S2P Require Import Prelude Kube Gardener RuntimeApi Objects Effects Config Extensions.
From S2P Require Import RegistryCache StructuredAuth SkrDetails AuditLog ConverterApi.
From S2P Require Import FsmState FsmProvision FsmPatch FsmConfigure FsmDelete Fsm FsmProgress.

Local Open Scope string_scope.

(** The request is granted. *)
Definition granted (e : event) : Prop :=
  match e with
  | Ev (CGet _ _ _) r => isOk r = true
  | Ev (CList _ _ _ _) r => isOk r = true
  | Ev (CCreate _ _ _) r => isOk r = true
  | Ev (CUpdate _ _ _) r => isOk r = true
  | Ev (CUpdateStatus _ _ _) r => isOk r = true
  | Ev (CPatch _ _ _ _) r => isOk r = true
  | Ev (CDelete _ _ _) r => isOk r = true
  | Ev (CDeleteAllOf _ _ _) r => isOk r = true
  | Ev (CBuildClient _) r => isOk r = true
  | Ev (CAdminKubeconfig _ _) r => isOk r = true
  | Ev CCtxDone r => r = None
  | _ => True
  end.

(** The kind of the object a call writes, and its cluster. *)
Definition written (c : call) : option (cluster * kind) :=
  match c with
  | CCreate cl k _ | CUpdate cl k _ | CUpdateStatus cl k _ | CPatch cl k _ _ | CDelete cl k _ | CDeleteAllOf cl k _ =>
      Some (cl, k)
  | _ => None
  end.

(** What a provisioning is about: the Runtime, its Shoot, its GardenerCluster and the
    secrets of the control plane. *)
Definition tracked (x : cluster * kind) : bool :=
  match x with (Garden, KShoot) | (Kcp, KGardenerCluster) | (Kcp, KSecret) | (Kcp, KRuntime) => true | _ => false end.
Definition untracked (c : call) : Prop := match written c with Some x => tracked x = false | None => True end.

(** Of that only the status of the Runtime is written. *)
Definition passWrite (c : call) : Prop :=
  match c with CUpdateStatus Kcp KRuntime _ => True | _ => untracked c end.
Definition passCall : guar := fun _ => passWrite.

Lemma untracked_pass c : untracked c -> passWrite c.
Proof. case_call c; done. Qed.

(** The Runtime as the server stored it last. *)
Fixpoint storedIn (h : history) : option Runtime :=
  match h with
  | [] => None
  | Ev (CUpdate Kcp KRuntime _) (Ok v) :: _ | Ev (CUpdateStatus Kcp KRuntime _) (Ok v) :: _ => Some v
  | _ :: h => storedIn h
  end.
Definition stored (h : history) (v' : Runtime) : Prop := storedIn h = Some v'.

(** What a write of the status leaves of the metadata. *)
Definition sameObject (a b : ObjectMeta) : Prop :=
  Name b = Name a /\ Namespace b = Namespace a /\ Generation b = Generation a /\
  DeletionTimestamp b = DeletionTimestamp a /\ Labels b = Labels a /\ Annotations b = Annotations a /\
  Finalizers b = Finalizers a.

#[export] Instance sameObject_preorder : PreOrder sameObject.
Proof. split; [by intros a; split_and!|]. unfold sameObject. intros a b c ? ?. destruct_and!. split_and!; congruence. Qed.

(** What the server makes of the status of the instance of a Runtime that it holds
    as [v]. *)
Definition storedFrom (v i v' : Runtime) : Prop :=
  sameObject (rtMeta v) (rtMeta v') /\ rtSpec v' = rtSpec v /\ rtStatus v' = rtStatus i.

(** The environment and the guarantee of a reconciliation of [v] that is not
    cancelled and whose status is stored. *)
Class Serves (R : rely) (G : guar) (v : Runtime) : Prop := {
  serves_ctx h err : R h (Ev CCtxDone err) -> err = None;
  serves_status h o r :
    R h (Ev (CUpdateStatus Kcp KRuntime o) r) -> exists v', r = Ok v' /\ storedFrom v o v';
  serves_pass h c : passWrite c -> G h c
}.

(** What a history of a confined program consists of. *)
Lemma wp_trace {A} R (P : call -> Prop) (p : prog A) h Q :
  wp R (fun _ => P) p h Q -> wp R (fun _ => P) p h (fun o h' => Q o h' /\ extends P h h').
Proof.
  revert h. induction p as [a| |c k IH]; intros h; cbn; [intros HQ; by split; [|apply extends_refl]..|].
  intros [Hc Hk]. split; [done|]. intros r Hr. eapply wp_mono; [|by apply IH, Hk].
  intros o h' [HQ Hh]. split; [done|]. by eapply extends_cons.
Qed.

(** The environment matters for the calls of the guarantee only. *)
Lemma wp_environment {A} (R R' : rely) (G G' : guar) (p : prog A) h Q :
  (forall h c r, G h c -> R' h (Ev c r) -> R h (Ev c r)) -> (forall h c, G h c -> G' h c) ->
  wp R G p h Q -> wp R' G' p h Q.
Proof.
  intros HR HG. revert h. induction p as [a| |c k IH]; intros h; cbn; [done..|].
  intros [Hg Hk]. split; [auto|]. intros r Hr. apply IH, Hk. by apply HR.
Qed.

Section Turns.
Context `{MetaLib} `{GardenerLib} `{ShootConverter} `{RegistryCacheLib}.
Context `{Codec AuthenticationConfiguration} `{Codec WindowMap} `{Codec RegistryConfig}.
Context `{Codec KymaProvisioningInfo} `{Codec AuditlogExtensionConfig}.
Context (m : RCCfg) (v : Runtime) (R : rely) (G : guar) `{!Serves R G v}.

(** The context is not cancelled. *)
Lemma wp_turn n fn res s h (Q : outcome (option (Result * option GoError)) -> history -> Prop) :
  swp R G (step m fn) s (Ev CCtxDone None :: h)
    (fun t s' h' =>
       match t with
       | (Some fn', res', None) => wp R G (runLoop m n fn' res' s') h' Q
       | (_, res', err) => Q (Done (Some (outcomeOf res' err))) h'
       end) (Q Panicked) ->
  wp R G (runLoop m (S n) fn res s) h Q.
Proof.
  intros Ho. apply wp_runLoop; [by apply serves_pass| |done]. intros err Herr. by apply serves_ctx in Herr.
Qed.

Lemma granted_events i old new h (Q : outcome unit -> history -> Prop) :
  (forall h', storedIn h' = storedIn h -> extends passWrite h h' -> Q (Done tt) h') -> wp R G (emitEvents i old new) h Q.
Proof.
  revert h. induction new as [|c new IH]; intros h HQ; cbn [emitEvents]; [apply HQ; [done|apply extends_refl]|].
  destruct (unchanged old c); [by apply IH|]. split; [by apply serves_pass|]. intros [] _. apply IH. intros h' Hs He.
  apply HQ; [done|]. eapply (extends_cons _ _ _ (conditionEvent i c)); [exact I|exact He].
Qed.

(** The end of a reconciliation: the status is stored if it has changed. *)
Lemma settle n result res s h (Q : option (Result * option GoError) -> history -> Prop) :
  (rtStatus (instance s) = snapshot s -> Q (Some (outcomeOf result None)) (Ev CCtxDone None :: h)) ->
  (forall v' h', rtStatus (instance s) <> snapshot s -> storedFrom v (instance s) v' -> stored h' v' ->
     extends passWrite h h' -> Q (Some (outcomeOf result None)) h') ->
  wp R G (runLoop m (S (S n)) (SfnUpdateStatus result None) res s) h (returns Q).
Proof.
  intros Heq HQ. apply wp_turn. cbn [step]. unfold sFnUpdateStatus.
  apply swp_bind, swp_ret, swp_bind, swp_getState. case_bool_decide as Hst; [apply swp_ret; by apply Heq|].
  apply swp_bind, swp_call; [by apply serves_pass|]. intros r Hr. apply serves_status in Hr as (v' & -> & Hv').
  apply swp_bind, swp_modify, swp_bind. unfold setRuntimeStates. apply swp_bind, swp_getInstance, swp_call; [by apply serves_pass|].
  intros [] _. apply swp_ret. apply wp_turn. cbn [step]. unfold sFnEmmitEventfunc.
  apply swp_bind, swp_getState, swp_bind, swp_lift, granted_events. intros h2 Hs He. apply swp_ret.
  apply (HQ v'); [done|done|unfold stored; by rewrite Hs|]. eapply extends_trans; [|exact He].
  eexists [_; _; _; _]. split; [reflexivity|]. by repeat constructor.
Qed.

Lemma finish n result res s h (Q : option (Result * option GoError) -> history -> Prop) :
  rtStatus (instance s) <> snapshot s ->
  (forall v' h', storedFrom v (instance s) v' -> stored h' v' -> extends passWrite h h' ->
     Q (Some (outcomeOf result None)) h') ->
  wp R G (runLoop m (S (S n)) (SfnUpdateStatus result None) res s) h (returns Q).
Proof. intros Hne HQ. apply settle; [done|]. intros v' h' _. apply HQ. Qed.

End Turns.
