(* ===== verification/FsmConverge.v ===== *)
(** * Convergence of a provisioning

    A reconciliation records one condition at a time and asks to be called again.
    When the Shoot is up and the clusters do what they are asked, every
    reconciliation records the next condition that is missing, until the one that
    makes the Runtime Ready. *)

From S2P Require Import Prelude Kube Gardener RuntimeApi Objects Effects Config Extensions.
From S2P Require Import RegistryCache StructuredAuth SkrDetails Rbac AuditLog ConverterApi.
From S2P Require Import Bootstrapper FsmState FsmProvision FsmPatch FsmConfigure FsmDelete Fsm.
From S2P Require Import FsmCalls FsmSafety FsmSteps FsmExample FsmProgress Serving.

Local Open Scope string_scope.

Section Convergence.
Context `{MetaLaws} `{GardenerLib} `{ShootConverter} `{RegistryCacheLib}.
Context `{Codec AuthenticationConfiguration} `{Codec WindowMap} `{Codec RegistryConfig}.
Context `{Codec KymaProvisioningInfo} `{Codec AuditlogExtensionConfig}.
Context (m : RCCfg) (sh : Shoot) (gc : result GardenerCluster -> Prop) (also : event -> Prop).

(** The GardenerCluster is there and ready. *)
Definition isReady (r : result GardenerCluster) : Prop := exists cluster, r = Ok cluster /\ gcState cluster = ReadyState.
Definition clusterReady : Prop := exists r, gc r /\ isReady r.

(** The clusters cooperate with a reconciliation of [v]: the Shoot is [sh], the
    answer for the GardenerCluster is one of [gc], secrets have data when it is ready,
    every other request is granted, the server stores the status it is sent, and all
    of [also]. *)
Definition healthy (v : Runtime) : rely := fun _ e =>
  also e /\
  match e with
  | Ev (CGet Garden KShoot key) r => key = shootKey m v -> r = Ok sh
  | Ev (CGet Kcp KGardenerCluster key) r => key = clusterKey v -> gc r
  | Ev (CGet Kcp KRuntime _) _ => True
  | Ev (CGet Garden KConfigMap _) r => failsUnlessNotFound r = None
  | Ev (CGet Kcp KSecret _) r => clusterReady -> exists secret, r = Ok secret /\ is_Some (secretData secret)
  | Ev (CUpdateStatus Kcp KRuntime o) r =>
      exists stored, r = Ok stored /\ sameObject (rtMeta v) (rtMeta stored) /\ rtSpec stored = rtSpec v /\
        rtStatus stored = rtStatus o
  | _ => granted e
  end.

(** A Shoot that was created or reconciled successfully. *)
Definition shootUp : Prop :=
  is_Some (dns ← ssDNS (shootSpec sh); dnsDomain dns) /\ is_Some (spInfrastructureConfig (ssProvider (shootSpec sh))) /\
  exists op, stLastOperation (shootStatus sh) = Some op /\ loState op = LastOperationStateSucceeded /\
    (loType op = LastOperationTypeCreate \/ loType op = LastOperationTypeReconcile).

(** A Runtime under way, whose Shoot is as it asks for. *)
Definition underway (v : Runtime) : Prop :=
  timeIsZero (DeletionTimestamp (rtMeta v)) = true /\ CfgFinalizer m ∈ Finalizers (rtMeta v) /\
  mapGet (Labels (rtMeta v)) LabelKymaRuntimeID <> "" /\ shouldPatchShoot v sh = Ok false /\
  DedicatedAuditLoggingEnabled m && IsDedicatedAuditLogEnabled v = false /\
  (State (rtStatus v) = "" \/ State (rtStatus v) = RuntimeStatePending).

(** The bootstrapper, when there is one, finds its work done. *)
Definition bootstrapped (v : Runtime) : Prop :=
  clusterReady -> forall installer, (if RuntimeBootstrapperEnabled m then BootstrapperInstaller m else None) = Some installer ->
    forall rt h,
      wp (healthy v) passCall (Configure installer rt) h (returns (fun err _ => err = None)) /\
      wp (healthy v) passCall (InstallationInfo installer rt) h
        (returns (fun r _ => exists manifests, r = Ok (StatusReady, manifests))) /\
      wp (healthy v) passCall (Cleanup installer rt) h (returns (fun _ _ => True)).

(** ** The conditions on the way *)

Definition provisionedReason : string :=
  match stLastOperation (shootStatus sh) with
  | Some op =>
      if bool_decide (loType op = LastOperationTypeCreate) then ConditionReasonShootCreationCompleted
      else ConditionReasonConfigurationCompleted
  | None => ""
  end.

Definition milestones (v : Runtime) : list (string * string) :=
  (ConditionTypeRuntimeProvisioned, provisionedReason) ::
  (ConditionTypeRuntimeKubeconfigReady, ConditionReasonGardenerCRReady) ::
  (if RegistryCacheConfigControllerEnabled m && Nat.ltb 0 (length (rCaching (rtSpec v)))
   then [(ConditionTypeRegistryCacheConfigured, ConditionReasonRegistryCacheConfigured)] else []).

Definition reached (i : Runtime) (x : string * string) : bool :=
  IsStateWithConditionAndStatusSet i RuntimeStatePending x.1 x.2 ConditionTrue.

(** The milestones that are still ahead. *)
Definition ahead (v : Runtime) : nat :=
  length (List.filter (fun x => negb (reached v x)) (milestones v)).

(** ** What is to be shown *)

Definition ready (v : Runtime) : Prop :=
  State (rtStatus v) = RuntimeStateReady /\ ProvisioningCompleted (rtStatus v) = true /\
  IsConditionSetWithStatus v ConditionTypeRuntimeConfigured ConditionReasonAdministratorsConfigured ConditionTrue = true.

(** Within [n] reconciliations, each of the Runtime the one before has stored,
    the Runtime is Ready; until then every one asks to be called again. *)
Fixpoint readyWithin (n : nat) (v : Runtime) : Prop :=
  match n with
  | O => False
  | S n =>
      wp (healthy v) passCall (Run m v) [] (returns (fun out h => exists v', stored h v' /\
        ((ready v' /\ out = Some (mkResult false 0, None)) \/
         (out = Some (mkResult false (StatusRequeueDelay m), None) /\ readyWithin n v'))))
  end.

(** ** Cooperation *)

Section Pass.
Context (v : Runtime).
Abbreviation R := (healthy v).

Lemma granted_forEach {A} (l : list A) (f : A -> prog (option GoError)) h (Q : outcome (option GoError) -> history -> Prop) :
  (forall x h', wp R passCall (f x) h' (returns (fun e h'' => e = None /\ suffix h' h''))) ->
  (forall h', suffix h h' -> Q (Done None) h') -> wp R passCall (forEach l f) h Q.
Proof.
  intros Hf HQ. apply (wp_forEach _ _ _ _ (fun _ h' => suffix h h')); [done| |done].
  intros i x h' _ Hs. eapply wp_mono; [|apply Hf]. intros [o|] h'' Hr; [|done]. destruct Hr as [-> Hs'].
  by etransitivity.
Qed.

Lemma granted_client i h (Q : outcome (result unit) -> history -> Prop) :
  clusterReady -> (forall h', suffix h h' -> Q (Done (Ok tt)) h') -> wp R passCall (runtimeClientGet i) h Q.
Proof.
  intros Hcl HQ. unfold runtimeClientGet, getKubeconfigSecret, GetRuntimeClientWithScheme. wp_norm. split; [done|].
  intros r [_ Hr]. destruct (Hr Hcl) as (secret & -> & [d Hd]). wp_norm. rewrite Hd. wp_norm. rewrite Hd. split; [done|].
  intros b [_ Hb]. apply isOk_true in Hb as [[] ->]. apply HQ. by do 2 apply suffix_cons_r.
Qed.

Lemma granted_unused man caches h (Q : outcome (option GoError) -> history -> Prop) :
  (forall h', suffix h h' -> Q (Done None) h') -> wp R passCall (DeleteUnused man caches) h Q.
Proof.
  intros HQ. unfold DeleteUnused, listManaged. wp_norm. split; [done|]. intros r [_ Hr].
  apply isOk_true in Hr as [items ->]. cbn. apply granted_forEach.
  - intros s h'. destruct (isUnused _ s); [|done]. unfold deleteSecret. wp_norm. split; [done|].
    intros r [_ Hr]. apply isOk_true in Hr as [[] ->]. split; [done|]. by apply suffix_cons_r.
  - intros h' Hs. apply HQ. etransitivity; [|exact Hs]. by apply suffix_cons_r.
Qed.

Lemma granted_cacheStatus i reason h (Q : outcome (option GoError) -> history -> Prop) :
  (forall h', suffix h h' -> Q (Done None) h') -> wp R passCall (SetStatusReady i reason) h Q.
Proof.
  intros HQ. unfold SetStatusReady, forEachCache. apply granted_forEach; [|done]. intros cache h'. wp_norm.
  split; [done|]. intros r [_ Hr]. apply isOk_true in Hr as [c ->]. wp_norm. split; [done|]. intros now _. wp_norm.
  split; [done|]. intros r [_ Hr]. apply isOk_true in Hr as [c' ->]. split; [done|]. by do 3 apply suffix_cons_r.
Qed.

Lemma granted_bindings l h (Q : outcome (option GoError) -> history -> Prop) :
  (forall h', suffix h h' -> Q (Done None) h') ->
  wp R passCall (newDelCRBs l) h Q /\ wp R passCall (newAddCRBs l) h Q.
Proof.
  intros HQ. split; (apply granted_forEach; [|done]); intros crb h'; wp_norm; (split; [done|]); intros r [_ Hr];
    apply isOk_true in Hr as [x ->]; (split; [done|]); by apply suffix_cons_r.
Qed.

Lemma granted_oidc id l err h (Q : outcome (option GoError) -> history -> Prop) :
  (forall c, c ∈ l -> is_Some (oidcIssuerURL (roOIDC c)) /\ is_Some (oidcClientID (roOIDC c))) ->
  err = None -> (forall h', suffix h h' -> Q (Done None) h') -> wp R passCall (createOidcResources id l err) h Q.
Proof.
  revert id err h. induction l as [|c l IH]; intros id err h Hall -> HQ; cbn [createOidcResources]; [by apply HQ|].
  destruct (Hall c) as [[u Hu] [i Hi]]; [by left|]. unfold createOpenIDConnectResource. rewrite Hu, Hi. wp_norm.
  split; [done|]. intros r [_ Hr]. apply isOk_true in Hr as [x ->]. apply IH; [intros ? ?; apply Hall; by right|done|].
  intros h' Hs. apply HQ. etransitivity; [|exact Hs]. by apply suffix_cons_r.
Qed.

Lemma healthy_serves (G : guar) : (forall h c, passWrite c -> G h c) -> Serves R G v.
Proof.
  intros HG. split; [|intros h o r (_ & v' & -> & Hm & Hs & Hst); by exists v'|done]. by intros h err [_ Herr].
Qed.

#[export] Instance pass_serves : Serves R passCall v.
Proof. by apply healthy_serves. Qed.

(** ** The state during a pass *)

Definition pending (i : Runtime) : Prop := State (rtStatus i) = "" \/ State (rtStatus i) = RuntimeStatePending.

Definition inPass (s : systemState) : Prop :=
  snapshot s = rtStatus v /\ sshoot s = Some sh /\ rtMeta (instance s) = rtMeta v /\
  rCaching (rtSpec (instance s)) = rCaching (rtSpec v) /\
  rAuditLogAccessEnabled (rtSpec (instance s)) = rAuditLogAccessEnabled (rtSpec v) /\
  ShootLastOperation (rtStatus (instance s)) = stLastOperation (shootStatus sh) /\ pending (instance s) /\
  forall x, x ∈ milestones v -> reached v x = true -> reached (instance s) x = true.

Lemma milestone_types x y : x ∈ milestones v -> y ∈ milestones v -> x.1 = y.1 -> x = y.
Proof.
  unfold milestones. destruct (_ && _); rewrite !elem_of_cons, ?elem_of_nil; intros Hx Hy;
    destruct_or? Hx; destruct_or? Hy; subst; done.
Qed.

Lemma reached_pending now c r st msg i x :
  (x.1 = c -> x.2 = r /\ st = ConditionTrue) -> reached i x = true ->
  reached (UpdateStatePending now c r st msg i) x = true.
Proof.
  intros Hx Hr. unfold reached in *. destruct (decide (x.1 = c)) as [Heq|Hne].
  - destruct (Hx Heq) as [Hr2 Hst]. rewrite Heq, Hr2, <- Hst. apply setState_found.
  - unfold IsStateWithConditionAndStatusSet, IsConditionSetWithStatus in *. cbn.
    rewrite find_set_ne by done. by destruct (negb (String.eqb (State (rtStatus i)) RuntimeStatePending)).
Qed.

(** Recording a condition keeps what is reached. *)
Lemma inPass_pending now c r st msg s :
  (forall x, x ∈ milestones v -> x.1 = c -> x.2 = r /\ st = ConditionTrue) -> inPass s ->
  inPass (with_instance s (UpdateStatePending now c r st msg (instance s))).
Proof.
  intros Hx (? & ? & ? & ? & ? & ? & Hp & Hm). split_and!; try done; [by right|].
  intros x Hin Hr. apply reached_pending; [by apply Hx|by apply Hm].
Qed.

Lemma off_milestones c r st x :
  x ∈ milestones v -> x.1 = c ->
  c <> ConditionTypeRuntimeProvisioned -> c <> ConditionTypeRuntimeKubeconfigReady ->
  c <> ConditionTypeRegistryCacheConfigured -> x.2 = r /\ st = ConditionTrue.
Proof.
  intros Hin Hc H_1 H_2 H_3. exfalso. subst c. revert Hin. unfold milestones.
  destruct (_ && _); rewrite !elem_of_cons, ?elem_of_nil; intros Hin; destruct_or? Hin; subst; done.
Qed.

(** Recording a condition that is no milestone. *)
Lemma swp_off_milestones c r st msg s h (Q : unit -> systemState -> history -> Prop) P :
  c <> ConditionTypeRuntimeProvisioned -> c <> ConditionTypeRuntimeKubeconfigReady ->
  c <> ConditionTypeRegistryCacheConfigured -> inPass s ->
  (forall s' h', inPass s' -> Q tt s' h') -> swp R passCall (statePending c r st msg) s h Q P.
Proof.
  intros H_1 H_2 H_3 Hs HQ. unfold statePending. apply swp_bind, swp_lift. split; [done|]. intros now _.
  apply swp_modify, HQ, inPass_pending; [|done]. intros x Hin Hc. by apply (off_milestones c).
Qed.

(** What one reconciliation achieves: the next milestone, or the end. *)
Definition stepped (out : option (Result * option GoError)) (h : history) : Prop :=
  exists v', stored h v' /\ sameObject (rtMeta v) (rtMeta v') /\ rtSpec v' = rtSpec v /\
    out = Some (mkResult false (StatusRequeueDelay m), None) /\ pending v' /\ ahead v' < ahead v.
Definition finished (out : option (Result * option GoError)) (h : history) : Prop :=
  exists v', stored h v' /\ sameObject (rtMeta v) (rtMeta v') /\ rtSpec v' = rtSpec v /\
    ready v' /\ out = Some (mkResult false 0, None).

(** How a pass ends. *)
Context (ends : option (Result * option GoError) -> history -> Prop).

(** A pass that goes on with [fn] on [n] fuel ends so. *)
Definition goesOn (G : guar) (n : nat) (fn : stateFn) (s : systemState) (h : history) : Prop :=
  forall res, wp R G (runLoop m n fn res s) h (returns ends).

Lemma filter_shorter {A} (f g : A -> bool) (l : list A) x :
  (forall y, y ∈ l -> f y = false -> g y = false) -> x ∈ l -> f x = true -> g x = false ->
  length (List.filter g l) < length (List.filter f l).
Proof.
  assert (forall l : list A, (forall y, y ∈ l -> f y = false -> g y = false) ->
    length (List.filter g l) <= length (List.filter f l)) as Hle.
  { clear. induction l as [|y l IH]; intros Hi; cbn; [lia|].
    assert (length (List.filter g l) <= length (List.filter f l)) by (apply IH; intros; apply Hi; [by right|done]).
    destruct (f y) eqn:Hf; [destruct (g y); cbn; lia|]. rewrite (Hi y); [done|by left|done]. }
  induction l as [|y l IH]; intros Hi Hin Hf Hg; [inversion Hin|].
  apply elem_of_cons in Hin as [->|Hin]; cbn.
  - rewrite Hf, Hg. cbn. apply Nat.lt_succ_r, Hle. intros z Hz. apply Hi. by right.
  - assert (length (List.filter g l) < length (List.filter f l)) as Hlt
      by (apply IH; [intros z Hz; apply Hi; by right|done..]).
    destruct (f y) eqn:Hfy; [destruct (g y); cbn; lia|]. rewrite (Hi y); [done|by left|done].
Qed.

(** What is left after a state function with [n] fuel. *)
Definition next (G : guar) (n : nat) : transition -> systemState -> history -> Prop := fun t s h =>
  match t with
  | (Some fn, res, None) => wp R G (runLoop m n fn res s) h (returns ends)
  | (_, res, err) => ends (Some (outcomeOf res err)) h
  end.

Lemma turn G `{!Serves R G v} n fn s h :
  swp R G (step m fn) s (Ev CCtxDone None :: h) (next G n) (fun _ => False) -> goesOn G (S n) fn s h.
Proof. intros Ha res. by apply (wp_turn m v R G). Qed.

(** [ensureStatusConditionIsSetAndContinue] for a milestone. *)
Lemma ensure_ok G `{!Serves R G v} n c r msg fn s h :
  (c, r) ∈ milestones v -> inPass s -> goesOn G (S (S n)) fn s h ->
  (forall out h', stepped out h' -> extends passWrite h h' -> ends out h') ->
  swp R G (ensureStatusConditionIsSetAndContinue (StatusRequeueDelay m) c r msg fn) s h (next G (S (S n))) (fun _ => False).
Proof.
  intros Hin Hs Hnext Hends. unfold ensureStatusConditionIsSetAndContinue. apply swp_bind, swp_getInstance. cbv beta.
  change (IsStateWithConditionAndStatusSet _ _ c r _) with (reached (instance s) (c, r)).
  destruct (reached (instance s) (c, r)) eqn:Hr; cbn [negb].
  { apply swp_ret. by apply Hnext. }
  unfold statePending, updateStatusAndRequeueAfter. apply swp_bind, swp_bind, swp_lift. split; [by apply serves_pass|].
  intros now _. apply swp_modify, swp_ret. set (i := UpdateStatePending _ _ _ _ _ _).
  assert (reached i (c, r) = true) as Hi by apply setState_found.
  assert (inPass (with_instance s i)) as Hs'.
  { apply inPass_pending; [|done]. intros x Hx Hc. by rewrite (milestone_types x (c, r)). }
  destruct Hs' as (Hsnap & _ & _ & _ & _ & _ & Hp & Hm).
  assert (reached v (c, r) = false) as Hv.
  { destruct (reached v (c, r)) eqn:E; [|done]. destruct Hs as (_ & _ & _ & _ & _ & _ & _ & Hm0).
    rewrite (Hm0 _ Hin E) in Hr. done. }
  apply (finish m v R G).
  - rewrite Hsnap. cbn [instance with_instance]. intros Heq. revert Hi Hv. unfold reached, IsStateWithConditionAndStatusSet,
      IsConditionSetWithStatus. rewrite Heq. congruence.
  - intros v' h' (Hmeta & Hspec & Hst) Hstored He. apply Hends; [|by eapply (extends_cons _ _ _ CNow)]. exists v'. split_and!; try done.
    { unfold pending. rewrite Hst. exact Hp. }
    assert (forall x, reached v' x = reached i x) as Hreach.
    { intros x. unfold reached, IsStateWithConditionAndStatusSet, IsConditionSetWithStatus. by rewrite Hst. }
    unfold ahead. replace (milestones v') with (milestones v) by (unfold milestones; by rewrite Hspec).
    apply (filter_shorter _ _ _ (c, r)); [|done|by rewrite Hv|by rewrite Hreach, Hi].
    intros x Hx E. apply negb_false_iff in E. rewrite Hreach. apply negb_false_iff. by apply Hm.
Qed.

(** ** The state functions *)

Section Functions.
Context (Hcl : clusterReady) (Hup : shootUp) (Hv : underway v) (Hboot : bootstrapped v).
Context (Hmarshal : forall info : KymaProvisioningInfo, isOk (marshal info) = true).
Context (Hstep : forall out h, stepped out h -> ends out h) (Hdone : forall out h, finished out h -> ends out h).

Lemma swp_client s h (Q : result unit -> systemState -> history -> Prop) P :
  (forall h', Q (Ok tt) s h') -> swp R passCall RuntimeClientGetter s h Q P.
Proof.
  intros HQ. unfold RuntimeClientGetter. apply swp_bind, swp_getInstance, swp_lift, granted_client; [done|]. intros h' _. apply HQ.
Qed.

Lemma bindings_pass n s h : inPass s -> goesOn passCall (S (S (S n))) SfnApplyClusterRoleBindings s h.
Proof.
  intros Hs. apply turn; [exact _|]. cbn [step]. unfold sFnApplyClusterRoleBindings. apply swp_bind, swp_client. intros h1.
  apply swp_bind, swp_call; [done|]. intros r [_ Hr]. apply isOk_true in Hr as [crbs ->].
  apply swp_bind, swp_getInstance, swp_bind, swp_lift. apply granted_bindings. intros h2 _.
  apply swp_bind, swp_lift. apply granted_bindings. intros h3 _.
  pose proof Hs as (Hsnap & _ & _ & _ & Haccess & _). destruct Hv as (_ & _ & _ & _ & Haudit & Hpend).
  unfold IsDedicatedAuditLogEnabled in *. rewrite Haccess, Haudit. unfold stateReady, completeProvisioning, updateStatusAndStop.
  apply swp_bind, swp_bind, swp_lift. split; [done|]. intros now _.
  apply swp_modify, swp_bind, swp_modify, swp_ret. cbn [next]. set (i := UpdateStateReady _ _ _ _ _).
  assert (IsStateWithConditionAndStatusSet i RuntimeStateReady ConditionTypeRuntimeConfigured
    ConditionReasonAdministratorsConfigured ConditionTrue = true) as Hi by apply setState_found.
  apply (finish m v R passCall); cbn [instance with_instance].
  - intros Heq. apply (f_equal State) in Heq. revert Heq. cbn [snapshot with_instance]. rewrite Hsnap.
    destruct (negb _); cbn; intros Heq; rewrite <- Heq in Hpend; by destruct Hpend.
  - intros v' h' (Hmeta & Hspec & Hst) Hstored _. apply Hdone. exists v'. split_and!; try done.
    unfold ready, IsConditionSetWithStatus. rewrite Hst. revert Hi. unfold IsStateWithConditionAndStatusSet, IsConditionSetWithStatus.
    destruct (IsProvisioningCompletedStatusSet i) eqn:Hc; cbn [negb]; intros Hi;
      (split_and!; [done|done|exact Hi]).
Qed.

Lemma swp_provisioning_info s h (Q : option GoError -> systemState -> history -> Prop) P :
  inPass s -> (forall h', Q None s h') -> swp R passCall applyKymaProvisioningInfoCM s h Q P.
Proof.
  intros (_ & Hshoot & _ & _ & _ & Hop & _) HQ. destruct Hup as (_ & [infra Hinfra] & op & Hlast & _).
  unfold applyKymaProvisioningInfoCM. apply swp_bind, (swp_getShoot _ _ _ _ sh); [done|].
  apply swp_bind. apply swp_mono with (Q := fun r s' _ => s' = s /\ isOk r = true) (P := P); [|done|].
  - intros r s' h1 [-> Hr]. apply isOk_true in Hr as [region ->]. apply swp_bind, swp_getInstance, swp_bind, swp_lift.
    unfold ToKymaProvisioningInfoConfigMap, ToKymaProvisioningInfo. rewrite Hop, Hlast, Hinfra. cbn [deref wp mbind prog_bind prog_bind_def mret prog_ret].
    match goal with |- context [marshal ?info] => pose proof (Hmarshal info) as Hm; apply isOk_true in Hm as [raw ->] end.
    apply swp_bind, swp_client. intros h2. apply swp_bind, swp_call; [done|]. intros r [_ Hr].
    apply isOk_true in Hr as [stored' ->]. apply swp_ret, HQ.
  - destruct (ssSeedName (shootSpec sh)); [|by apply swp_ret]. apply swp_bind, swp_call; [done|]. intros r [_ Hr].
    apply isOk_true in Hr as [seed ->]. by apply swp_ret.
Qed.

Lemma swp_oidc flag l s h (Q : option GoError -> systemState -> history -> Prop) P :
  additionalOidc (instance s) = Some l ->
  (forall c, c ∈ l -> is_Some (oidcIssuerURL (roOIDC c)) /\ is_Some (oidcClientID (roOIDC c))) ->
  (forall h', Q None s h') -> swp R passCall (recreateOpenIDConnectResources flag) s h Q P.
Proof.
  intros Hl Hall HQ. unfold recreateOpenIDConnectResources, deleteExistingKymaOpenIDConnectResources.
  apply swp_bind, swp_client. intros h1. apply swp_bind, swp_lift. wp_norm. split; [done|]. intros r [_ Hr].
  apply isOk_true in Hr as [[] ->]. cbn [errOf wp]. destruct flag; [by apply swp_ret|].
  apply swp_bind, swp_getInstance, swp_bind, swp_lift. rewrite Hl. cbn [deref wp]. apply swp_lift, granted_oidc; [done..|].
  intros h2 _. apply HQ.
Qed.

Lemma defaulted_keeps i rt flag :
  additionalOidcEmptyOrUndefined m i = (rt, flag) ->
  rtMeta rt = rtMeta i /\ rtStatus rt = rtStatus i /\ rCaching (rtSpec rt) = rCaching (rtSpec i) /\
  rAuditLogAccessEnabled (rtSpec rt) = rAuditLogAccessEnabled (rtSpec i).
Proof. unfold additionalOidcEmptyOrUndefined. by destruct (additionalOIDCConfigUndefined _); intros [= <- _]. Qed.

Lemma inPass_instance s rt :
  rtMeta rt = rtMeta (instance s) -> rtStatus rt = rtStatus (instance s) ->
  rCaching (rtSpec rt) = rCaching (rtSpec (instance s)) ->
  rAuditLogAccessEnabled (rtSpec rt) = rAuditLogAccessEnabled (rtSpec (instance s)) ->
  inPass s -> inPass (with_instance s rt).
Proof.
  intros Hm Hst Hc Ha (? & ? & ? & ? & ? & ? & Hp & Hr).
  split_and!; cbn [snapshot sshoot instance with_instance]; try congruence; [unfold pending; by rewrite Hst|].
  intros x Hx Hvx. specialize (Hr x Hx Hvx). revert Hr.
  unfold reached, IsStateWithConditionAndStatusSet, IsConditionSetWithStatus. by rewrite Hst.
Qed.

Lemma configure_pass n s h : inPass s -> goesOn passCall (S (S (S (S n)))) SfnConfigureSKR s h.
Proof.
  intros Hs. apply turn; [exact _|]. cbn [step]. unfold sFnConfigureSKR, switchState.
  apply swp_bind, swp_provisioning_info; [done|]. intros h1. pose proof Hs as (_ & Hshoot & _).
  apply swp_bind, (swp_getShoot _ _ _ _ sh); [done|]. destruct (negb (isOidcExtensionEnabled sh)).
  { apply swp_bind, swp_off_milestones; [done..|]. intros s2 h2 Hs2. apply swp_ret. by apply bindings_pass. }
  apply swp_bind, swp_getInstance. destruct (additionalOidcEmptyOrUndefined m (instance s)) as [rt flag] eqn:Eo.
  destruct (defaulted_keeps _ _ _ Eo) as (Hm & Hst & Hc & Ha). apply oidc_defined in Eo as (_ & _ & _ & l & Hl & Hall).
  apply swp_bind, swp_modify, swp_bind, (swp_oidc _ l); [done..|]. intros h2.
  apply swp_bind, swp_off_milestones; [done..|by apply inPass_instance|]. intros s3 h3 Hs3. apply swp_ret.
  by apply bindings_pass.
Qed.

Lemma cleanup_pass n s h : inPass s -> goesOn passCall (S (S (S (S (S n))))) SfnCleanupRegistryCacheGardenSecrets s h.
Proof.
  intros Hs. apply turn; [exact _|]. cbn [step]. unfold sFnCleanupRegistryCacheGardenSecrets, switchState.
  pose proof Hs as (_ & _ & _ & Hcaching & _).
  destruct (RegistryCacheConfigControllerEnabled m) eqn:Hen; cbn [negb]; [|apply swp_ret; by apply configure_pass].
  apply swp_bind, swp_client. intros h1. apply swp_bind, swp_getInstance, swp_bind, swp_lift, granted_unused.
  intros h2 _. destruct (Nat.ltb 0 (length (rCaching (rtSpec (instance s))))) eqn:Hn; [|apply swp_ret; by apply configure_pass].
  apply swp_bind, swp_lift, granted_cacheStatus. intros h3 _. apply ensure_ok; [exact _| |done|by apply configure_pass|by intros ? ? ? _; apply Hstep].
  unfold milestones. rewrite <- Hcaching, Hen, Hn. right. right. by left.
Qed.

Lemma bootstrapper_pass n s h : inPass s -> goesOn passCall (S (S (S (S (S (S n)))))) SfnInitializeRuntimeBootstrapper s h.
Proof.
  intros Hs. apply turn; [exact _|]. cbn [step]. unfold sFnInitializeRuntimeBootstrapper, switchState. pose proof Hboot as Hb.
  unfold bootstrapped in Hb. specialize (Hb Hcl). destruct (if RuntimeBootstrapperEnabled m then _ else _) as [installer|];
    [|apply swp_ret; by apply cleanup_pass].
  specialize (Hb installer eq_refl). apply swp_bind, swp_getInstance, swp_bind, swp_lift.
  eapply wp_mono; [|apply Hb]. intros [err|] h1 Hq; [|done]. cbn in Hq. subst err. apply swp_bind, swp_lift.
  eapply wp_mono; [|apply Hb]. intros [r|] h2 Hq; [|done]. destruct Hq as [ms ->]. apply swp_bind, swp_lift.
  eapply wp_mono; [|apply Hb]. intros [err|] h3 Hq; [|done]. unfold bootstrapperPending.
  apply swp_bind, swp_off_milestones; [done..|]. intros s4 h4 Hs4. apply swp_ret. by apply cleanup_pass.
Qed.

Lemma namespace_pass n s h : inPass s -> goesOn passCall (S (S (S (S (S (S (S n))))))) SfnCreateKymaNamespace s h.
Proof.
  intros Hs. apply turn; [exact _|]. cbn [step]. unfold sFnCreateKymaNamespace, createKymaSystemNamespace, switchState.
  apply swp_bind, swp_bind, swp_client. intros h1. apply swp_bind, swp_call; [done|]. intros r [_ Hr].
  apply isOk_true in Hr as [ns ->]. apply swp_ret, swp_bind, swp_off_milestones; [done..|]. intros s2 h2 Hs2.
  apply swp_ret. by apply bootstrapper_pass.
Qed.

End Functions.

Lemma kubeconfig_pass n s h :
  (forall r, gc r -> isReady r) -> shootUp -> underway v -> bootstrapped v ->
  (forall info : KymaProvisioningInfo, isOk (marshal info) = true) ->
  (forall out h, stepped out h -> ends out h) -> (forall out h, finished out h -> ends out h) -> inPass s -> goesOn passCall (S (S (S (S (S (S (S (S n)))))))) SfnHandleKubeconfig s h.
Proof.
  intros Hgc Hup Hv Hboot Hmarshal Hstep Hdone Hs. apply turn; [exact _|]. cbn [step]. unfold sFnHandleKubeconfig.
  apply swp_bind, swp_getInstance, swp_bind, swp_call; [done|].
  pose proof Hs as (_ & _ & Hmeta & _). intros r [_ Hr]. assert (gc r) as Hrgc by (apply Hr; by rewrite Hmeta).
  assert clusterReady as Hcl by (exists r; split; [done|by apply Hgc]).
  destruct (Hgc r Hrgc) as (cluster & -> & Hready).
  rewrite Hready, String.eqb_refl. cbn [negb].
  apply ensure_ok; [exact _| |done|by apply namespace_pass|by intros ? ? ? _; apply Hstep]. right. by left.
Qed.

(** ** Up to the kubeconfig *)

(** Nothing has been written yet. *)
Definition fresh (h : history) : Prop := Forall (fun e => untracked (callOf e)) h.

Section Start.
Context (G : guar) `{!Serves R G v}.
Context (Hup : shootUp) (Hv : underway v).

Context (Hstep : forall out h h', fresh h -> stepped out h' -> extends passWrite h h' -> ends out h').

(** With a GardenerCluster for which the pass goes on. *)
Context (Hkube : forall n s h, fresh h -> inPass s ->
  goesOn G (S (S (S (S (S (S (S (S n)))))))) SfnHandleKubeconfig s h).

Lemma wait_pass n s h :
  fresh h -> inPass s ->
  match stLastOperation (shootStatus sh) with
  | Some op =>
      goesOn G (S (S (S (S (S (S (S (S (S n)))))))))
        (if bool_decide (loType op = LastOperationTypeCreate) then SfnWaitForShootCreation else SfnWaitForShootReconcile) s h
  | None => True
  end.
Proof.
  intros Hh Hs. destruct Hup as (_ & _ & op & Hop & Hstate & _). rewrite Hop.
  assert ((ConditionTypeRuntimeProvisioned, provisionedReason) ∈ milestones v) as Hin by by left.
  unfold provisionedReason in Hin. rewrite Hop in Hin.
  apply turn; [exact _|]. pose proof Hs as (_ & Hshoot & _).
  destruct (bool_decide (loType op = LastOperationTypeCreate)); cbn [step];
    [unfold sFnWaitForShootCreation|unfold sFnWaitForShootReconcile];
    apply swp_bind, (swp_getShoot _ _ _ _ sh); try done; rewrite Hop; apply swp_bind, swp_lift; cbn [deref wp];
    rewrite Hstate; (apply ensure_ok; [exact _|exact Hin|done|apply Hkube; [by constructor|done]|
    intros out h' Hst He; by eapply (Hstep out (Ev CCtxDone None :: h)); [constructor|..]]).
Qed.

(** The state in which a Shoot is selected. *)
Definition exposed (s : systemState) : Prop := inPass s /\ shouldPatchShoot (instance s) sh = Ok false.

Lemma select_pass n s h :
  fresh h -> exposed s -> goesOn G (S (S (S (S (S (S (S (S (S (S n)))))))))) SfnSelectShootProcessing s h.
Proof.
  intros Hh [Hs Hpatch]. pose proof Hs as (_ & Hshoot & _ & _ & _ & _ & Hp & _).
  apply turn; [exact _|]. cbn [step]. unfold sFnSelectShootProcessing.
  destruct Hup as ([domain Hdomain] & _ & op & Hop & Hstate & Htype).
  apply swp_bind, (swp_getShoot _ _ _ _ sh); [done|]. rewrite Hdomain, Hop.
  unfold LogLastErrors. apply swp_bind, swp_bind, swp_getState. rewrite Hshoot. apply swp_bind, swp_lift.
  rewrite Hop. cbn [deref wp]. apply swp_ret, swp_bind, swp_getInstance. rewrite Hpatch.
  assert (fresh (Ev CCtxDone None :: h)) as Hh' by by constructor.
  pose proof (wait_pass n s _ Hh' Hs) as Hwait. rewrite Hop in Hwait. unfold selectWaitState. cbv zeta.
  assert (String.eqb (State (rtStatus (instance s))) RuntimeStatePending || String.eqb (State (rtStatus (instance s))) "" = true)
    as -> by (destruct Hp as [-> | ->]; done).
  cbn [andb]. unfold switchState.
  destruct (bool_decide (loType op = LastOperationTypeCreate)) eqn:Hty; [apply swp_ret; apply Hwait|].
  destruct Htype as [E|E]; [by rewrite E in Hty|]. rewrite (bool_decide_true (loType op = _)) by done.
  apply swp_ret. apply Hwait.
Qed.

Lemma run_pass h : fresh h -> wp R G (Run m v) h (returns ends).
Proof.
  intros Hh.
  destruct Hv as (Hdel & Hfin & Hlabel & Hpatch & _ & Hp). apply contains_finalizer in Hfin.
  apply (wp_turn m v R G 14). cbn [step]. unfold sFnTakeSnapshot, switchState.
  apply swp_bind, swp_modify, swp_bind, swp_getInstance, swp_bind, swp_call; [by apply serves_pass|]. intros r [_ Hr].
  specialize (Hr eq_refl). subst r. cbn [failsUnlessNotFound]. apply swp_bind, swp_modify, swp_ret.
  apply (wp_turn m v R G 13). cbn [step]. unfold sFnInitialize, switchState.
  apply swp_bind, swp_getInstance, swp_bind, swp_modify.
  cbn [instance saveRuntimeStatus with_shoot]. rewrite Hdel, Hfin. cbn [negb andb].
  destruct (String.eqb_spec (mapGet (Labels (rtMeta v)) LabelKymaRuntimeID) ""); [done|].
  apply swp_bind, swp_getState, swp_ret.
  apply (select_pass 3); [by repeat (constructor; [done|])|]. split; [|exact Hpatch]. split_and!; try done.
Qed.

End Start.

End Pass.

(** The environment and the bootstrapper only look at what a status write keeps. *)
Lemma healthy_same v v' h e :
  sameObject (rtMeta v) (rtMeta v') -> rtSpec v' = rtSpec v -> healthy v' h e -> healthy v h e.
Proof.
  intros (E1 & E2 & E3 & E4 & E5 & E6 & E7) Hspec. destruct e as [c r].
  assert (shootKey m v' = shootKey m v) as Ek by (unfold shootKey; by rewrite Hspec).
  assert (clusterKey v' = clusterKey v) as Ec by (unfold clusterKey; by rewrite E2, E5).
  case_call c; try exact (fun x => x); try (unfold healthy; rewrite ?Ek, ?Ec; exact (fun x => x)).
  intros (Hal & stored' & Hr & (F1 & F2 & F3 & F4 & F5 & F6 & F7) & Hsp & Hst). split; [done|].
  exists stored'. split_and!; try congruence. split_and!; congruence.
Qed.

Lemma bootstrapped_same v v' :
  sameObject (rtMeta v) (rtMeta v') -> rtSpec v' = rtSpec v -> bootstrapped v -> bootstrapped v'.
Proof.
  intros Hm Hs Hb Hcl installer Hi rt h.
  assert (forall A (q : prog A) Q, wp (healthy v) passCall q h Q -> wp (healthy v') passCall q h Q) as Hw.
  { intros A q Q. apply wp_weaken; [|done]. intros h' e. by apply healthy_same. }
  split_and!; apply Hw, (Hb Hcl installer Hi rt h).
Qed.

Lemma underway_same v v' :
  sameObject (rtMeta v) (rtMeta v') -> rtSpec v' = rtSpec v -> pending v' -> underway v -> underway v'.
Proof.
  intros (E1 & E2 & E3 & E4 & E5 & E6 & E7) Hs Hp (H_1 & H_2 & H_3 & H_4 & H_5 & _). unfold underway, shouldPatchShoot,
    IsDedicatedAuditLogEnabled in *. rewrite E3, E4, E5, E6, E7, Hs. by split_and!.
Qed.

Lemma ahead_bound v : ahead v <= 3.
Proof.
  unfold ahead, milestones. etransitivity; [apply List.filter_length_le|]. destruct (_ && _); cbn; lia.
Qed.

Lemma converges n v :
  (forall r, gc r -> isReady r) -> shootUp -> underway v -> bootstrapped v ->
  (forall info : KymaProvisioningInfo, isOk (marshal info) = true) -> ahead v < n -> readyWithin n v.
Proof.
  intros Hgc Hup Hv Hb Hmarshal. revert v Hv Hb. induction n as [|n IH]; intros v Hv Hb Hn; [lia|]. cbn [readyWithin].
  eapply wp_mono; [|apply (run_pass v (fun out h => stepped v out h \/ finished v out h) passCall Hup Hv); [..|constructor]]; cycle 1.
  { intros out h h' _ ? _. by left. }
  { intros n' s h _ Hs res. by apply kubeconfig_pass; try done; [left|right]. }
  intros [out|] h Hq; [|done]. destruct Hq as [(v' & Hst & Hm & Hs & Hout & Hp & Ha)|(v' & Hst & _ & _ & Hr)];
    exists v'; (split; [done|]); [|by left]. right. split; [done|].
  apply IH; [by eapply underway_same|by eapply bootstrapped_same|lia].
Qed.

(** C5. A provisioning converges. When the Shoot is up to date and its last operation
    succeeded, the GardenerCluster is ready, the bootstrapper (if there is one) finds
    its work done, and the clusters grant what they are asked, a Runtime under way is
    Ready after at most four reconciliations: every reconciliation returns without
    error, having stored a status; it either is the last one, which stores Ready with
    the provisioning completed and does not ask to be called again, or asks to be
    called again after the delay for status changes and has recorded one more of the
    conditions on the way. [installer_bootstrapped] shows that the installer of
    internal/rtbootstrapper finds its work done when the runtime cluster runs the
    Deployment of the manifests. *)
Theorem provisioning_converges (v : Runtime)
    (Hgc : forall r, gc r -> isReady r) (Hup : shootUp) (Hv : underway v) (Hboot : bootstrapped v)
    (Hmarshal : forall info : KymaProvisioningInfo, isOk (marshal info) = true) :
  readyWithin 4 v /\ readyWithin (S (ahead v)) v.
Proof.
  split; apply converges; try done; [|lia]. pose proof (ahead_bound v). lia.
Qed.

End Convergence.

(** ** The installer *)

Section Installed.
Context `{YamlLib} `{Codec Unstructured}.
Context (config : BootstrapperConfig) (manifests : string) (u : Unstructured).

(** The manifests are those of the control plane, and the runtime cluster runs their
    Deployment. *)
Definition installed (e : event) : Prop :=
  match e with
  | Ev (CGet Kcp KConfigMap key) (Ok cm) => key = manifestsKey config -> manifestsOf cm = manifests
  | Ev (CGet Skr KDeployment _) (Ok dep) => deploymentUp dep /\ versionOf (uMeta u) = versionOf (depMeta dep)
  | _ => True
  end.

Context (m : RCCfg) (sh : Shoot) (gc : result GardenerCluster -> Prop) (v : Runtime).
Abbreviation R := (healthy m sh gc installed v).

Lemma granted_apply k key equal desired checking applying h :
  wp R passCall (applyUnlessEqual k key equal desired checking applying) h (returns (fun err _ => err = None)).
Proof.
  unfold applyUnlessEqual. wp_norm. split; [done|]. intros r [_ Hr]. apply isOk_true in Hr as [o ->].
  cbn [failsUnlessNotFound]. destruct (equal o); [done|]. wp_norm. split; [done|]. intros r [_ Hr].
  by apply isOk_true in Hr as [x ->].
Qed.

Lemma granted_then p q h :
  wp R passCall p h (returns (fun err _ => err = None)) ->
  (forall h', wp R passCall q h' (returns (fun err _ => err = None))) ->
  wp R passCall (thenUnlessErr p q) h (returns (fun err _ => err = None)).
Proof.
  intros Hp Hq. apply wp_thenUnlessErr. eapply wp_mono; [|exact Hp]. intros [err|] h' Hr; [|done].
  cbn in Hr. subst err. apply Hq.
Qed.

Lemma granted_read {A} name (get : prog (result A)) h (Q : outcome (result (option A)) -> history -> Prop) :
  wp R passCall get h (returns (fun r _ => isOk r = true)) ->
  (forall a h', Q (Done (Ok a)) h') -> wp R passCall (optionally name get) h Q.
Proof.
  intros Hget HQ. unfold optionally. destruct (negb _); [|apply HQ]. apply (wp_seq R passCall get).
  eapply wp_mono; [|exact Hget]. intros [r|] h' Hr; [|done]. apply isOk_true in Hr as [a ->]. apply HQ.
Qed.

Lemma configure_granted rt h :
  clusterReady gc -> wp R passCall (ConfiguratorConfigure config rt) h (returns (fun err _ => err = None)).
Proof.
  intros Hcl. unfold ConfiguratorConfigure, getConfigMap, getResource. wp_norm. split; [done|].
  intros r [_ Hr]. apply isOk_true in Hr as [cm ->]. cbn [mapErr].
  apply wp_seq, granted_read.
  { unfold getPullSecret, getResource. wp_norm. split; [done|]. intros r [_ Hr]. by destruct (Hr Hcl) as (secret & -> & _). }
  intros pull h1. apply wp_seq, granted_read.
  { unfold getClusterTrustBundle. wp_norm. split; [done|]. intros r [_ Hr]. by apply isOk_true in Hr as [b ->]. }
  intros bundle h2. apply wp_seq, granted_client; [done|]. intros h3 _. unfold applyResourcesToRuntimeCluster.
  apply granted_then; [apply granted_apply|]. intros h4.
  apply granted_then; [destruct pull; [apply granted_apply|done]|]. intros h5.
  destruct bundle; [apply granted_apply|done].
Qed.

(** The real installer finds its work done. *)
Lemma installer_bootstrapped :
  getDeploymentToBeApplied manifests = Ok (Some u) ->
  (forall i, BootstrapperInstaller m = Some i -> i = NewInstaller config) -> bootstrapped m sh gc installed v.
Proof.
  intros Hu Hm Hcl i Hi rt h. destruct (RuntimeBootstrapperEnabled m); [|done]. rewrite (Hm i Hi).
  split_and!; [by apply configure_granted| |done]. cbn [FsmState.InstallationInfo NewInstaller].
  unfold Bootstrapper.InstallationInfo, getManifests. wp_norm. split; [done|]. intros r [Hal Hr].
  apply isOk_true in Hr as [cm ->]. fold (manifestsOf cm). rewrite (Hal eq_refl). wp_norm.
  apply wp_seq, granted_client; [done|]. intros h1 _. wp_norm. split; [done|]. intros r [Hal' Hr].
  apply isOk_true in Hr as [dep ->]. destruct Hal' as [Hup Hversion]. pose proof Hup as (replicas & Hrep & _).
  destruct (isDeploymentReady_spec dep replicas Hrep) as (b & -> & Hb). rewrite (proj2 Hb Hup). wp_norm.
  unfold isDeploymentToBeUpdated. rewrite Hu. wp_norm. cbn [deref mbind prog_bind prog_bind_def].
  fold (versionOf (uMeta u)) (versionOf (depMeta dep)). rewrite Hversion, String.eqb_refl.
  by exists manifests.
Qed.

End Installed.

(** ** An example *)

#[local] Existing Instances MetaRef.lib MetaRef.laws.
Import Demo.

(** A Shoot that carries the generation of the Runtime. *)
Definition currentShoot : Shoot := readyShoot {[generationAnnotation := "1"]}.
Definition readyCluster : GardenerCluster :=
  mkGardenerCluster (metaNamed "demo" "kcp-system") "shoot" "kubeconfig-demo" "kcp-system" "config" ReadyState [].

(** With a bootstrapper, whose Deployment runs in the wanted version. *)
Definition deployed : Unstructured :=
  mkUnstructured (mkGVK "apps" "v1" "Deployment") (metaNamed "rtb" "kyma-system") "".
#[local] Instance demoYaml : YamlLib := {| decodeYAML _ := Decoded deployed; unmarshalYAML _ := None |}.
#[local] Instance demoUnstructured : Codec Unstructured :=
  {| marshal u := Ok (uContent u); unmarshal _ := Err (newError "no document") |}.
Definition demoInstaller : BootstrapperConfig :=
  mkBootstrapperConfig (mkKCPConfig "pull" "trust" "rtb" "manifests") (mkSKRConfig "kyma-system" "pull" "trust" "rtb" "rtb").
Definition cfgBootstrapped : RCCfg :=
  mkRCCfg Second Second Second Second Second Second Finalizer "garden-kyma" false false false true
    (NewDataProvider (mkDefaultProvider ∅ "kcp-system")) true true (Some (NewInstaller demoInstaller))
    (RCConfig cfg).

Lemma provisioning_converges_witness :
  readyWithin cfgBootstrapped currentShoot isReady (installed demoInstaller "deployment" deployed) 4
    (runtime [Finalizer] ∅ None []) /\
  readyWithin cfgBootstrapped currentShoot isReady (installed demoInstaller "deployment" deployed) 3
    (runtime [Finalizer] ∅ None []).
Proof.
  apply (provisioning_converges cfgBootstrapped currentShoot isReady (installed demoInstaller "deployment" deployed)
    (runtime [Finalizer] ∅ None [])).
  - done.
  - split; [by eexists|]. split; [by eexists|]. eexists. split; [reflexivity|]. split; [reflexivity|by right].
  - split; [reflexivity|]. split; [by left|]. split; [discriminate|]. split; [vm_compute; reflexivity|].
    split; [reflexivity|by left].
  - apply (installer_bootstrapped demoInstaller); [vm_compute; reflexivity|]. by intros i [= <-].
  - intros info. reflexivity.
Defined.

(** The servers of the example, with the kubeconfig, the configuration of the
    bootstrapper and its Deployment, and what they stored. *)
Definition runningDeployment : Deployment :=
  mkDeployment (metaNamed "rtb" "kyma-system") (Some 1%Z) 1 [mkDeploymentCondition "Available" "True"].

Definition cooperative : oracle := fun h c =>
  match c return resp c with
  | CGet _ KSecret _ => Ok (mkSecret (metaNamed "kubeconfig-demo" "kcp-system") "" None (Some ∅) ∅)
  | CGet _ KConfigMap _ => Ok (mkConfigMap (metaNamed "rtb" "kcp-system") {["manifests.yaml" := "deployment"]})
  | CGet _ KClusterTrustBundle _ => Ok (mkTrustBundle (metaNamed "trust" "") (mkTrustBundleSpec "" ""))
  | CGet _ KDeployment _ => Ok runningDeployment
  | c => servers (Some currentShoot) (Some readyCluster) h c
  end.

Fixpoint lastStored (h : history) (v : Runtime) : Runtime :=
  match h with
  | [] => v
  | Ev (CUpdateStatus Kcp KRuntime _) (Ok stored) :: _ => stored
  | _ :: h => lastStored h v
  end.

Definition pass (m : RCCfg) (v : Runtime) : Runtime :=
  lastStored (snd (Effects.run cooperative (Run m v) [])) v.
Definition statesAfter (m : RCCfg) (v : Runtime) : list string :=
  (fun rt => State (rtStatus rt)) <$> [v; pass m v; pass m (pass m v); pass m (pass m (pass m v))].

Example three_passes :
  let v := runtime [Finalizer] ∅ None [] in
  statesAfter cfg v = [""; RuntimeStatePending; RuntimeStatePending; RuntimeStateReady] /\
  statesAfter cfgBootstrapped v = statesAfter cfg v.
Proof. by vm_compute. Qed.
