(* ===== verification/World.v ===== *)
(** * The objects of one Runtime, and the kubeconfig controller among them

    What the servers hold of a Runtime: the resource itself, its Shoot, its
    GardenerCluster and the secret with its kubeconfig.  A reconciliation reads them
    as they stood when it started ([during]) and leaves them changed by what it wrote
    ([after]). *)

From Stdlib Require Import SpecFloat.
From S2P Require Import Prelude Kube Gardener RuntimeApi Objects Effects Duration Rfc3339 Floats Config.
From S2P Require Import Extensions RegistryCache StructuredAuth SkrDetails AuditLog ConverterApi.
From S2P Require Import FsmState KubeconfigController FsmProvision FsmPatch FsmConfigure FsmDelete Fsm FsmSafety.
From S2P Require Import FsmProgress Serving.

Local Open Scope string_scope.

Record world := mkWorld {
  wRuntime : Runtime;
  wShoot : option (Shoot * nat);            (* as it was created, and how far Gardener has come with it *)
  wCluster : option GardenerCluster;
  wSecret : option Secret
}.
Definition with_runtime (w : world) (v : Runtime) : world := mkWorld v (wShoot w) (wCluster w) (wSecret w).
Definition with_wshoot (w : world) (x : option (Shoot * nat)) : world := mkWorld (wRuntime w) x (wCluster w) (wSecret w).
Definition with_cluster (w : world) (c : GardenerCluster) : world := mkWorld (wRuntime w) (wShoot w) (Some c) (wSecret w).
Definition with_secret (w : world) (s : Secret) : world := mkWorld (wRuntime w) (wShoot w) (wCluster w) (Some s).

(** The calls by which a reconciliation changes them. *)
Definition worldWrite (c : call) : Prop :=
  match c with
  | CCreate Garden KShoot _ | CCreate Kcp KGardenerCluster _ | CUpdateStatus Kcp KGardenerCluster _
  | CCreate Kcp KSecret _ | CUpdate Kcp KSecret _ | CUpdate Kcp KRuntime _ | CUpdateStatus Kcp KRuntime _ => True
  | _ => untracked c
  end.
Definition worldCall : guar := fun _ => worldWrite.

Definition written_to (e : event) (w : world) : world :=
  match e with
  | Ev (CCreate Garden KShoot o) (Ok _) => with_wshoot w (Some (o, 0))
  | Ev (CCreate Kcp KGardenerCluster _) (Ok c) | Ev (CUpdateStatus Kcp KGardenerCluster _) (Ok c) => with_cluster w c
  | Ev (CCreate Kcp KSecret _) (Ok s) | Ev (CUpdate Kcp KSecret _) (Ok s) => with_secret w s
  | Ev (CUpdate Kcp KRuntime _) (Ok v) | Ev (CUpdateStatus Kcp KRuntime _) (Ok v) => with_runtime w v
  | _ => w
  end.
Definition after (h : history) (w : world) : world := foldr written_to w h.

(** The object under the key, if it is that. *)
Definition under {A} (name : A -> NamespacedName) (key : NamespacedName) (o : option A) : option A :=
  a ← o; if bool_decide (name a = key) then Some a else None.
Definition answers {A} (o : option A) (r : result A) : Prop :=
  match o with Some a => r = Ok a | None => exists e, r = Err e /\ IsNotFound e = true end.

Definition kubeconfigKey (v : Runtime) : NamespacedName :=
  mkNN (Namespace (rtMeta v)) ("kubeconfig-" +:+ mapGet (Labels (rtMeta v)) LabelKymaRuntimeID).

(** Only the status may differ. *)
Definition sameCluster (c c' : GardenerCluster) : Prop :=
  sameObject (gcMeta c) (gcMeta c') /\ gcShootName c' = gcShootName c /\ gcSecretName c' = gcSecretName c /\
  gcSecretNamespace c' = gcSecretNamespace c /\ gcSecretKey c' = gcSecretKey c.

(** What the server stores of a secret: stringData is merged into data and not kept. *)
Definition storedSecret (o s : Secret) : Prop :=
  sameObject (secretMeta o) (secretMeta s) /\ secretStringData s = ∅ /\
  secretData s = Some (secretStringData o ∪ default ∅ (secretData o)).

Section World.
Context `{MetaLib}.
Context (gardener : Shoot -> nat -> Shoot).
(** Which kubeconfigs Gardener issues for the Shoot of that name. *)
Context (issued : NamespacedName -> string -> Prop) (also : event -> Prop).

Definition shootOf (w : world) : option Shoot := (fun x => gardener x.1 x.2) <$> wShoot w.

(** The servers answer with what they hold, store what they are sent, and grant every
    other request; and all of [also]. *)
Definition during (w : world) : rely := fun _ e =>
  also e /\
  match e with
  | Ev (CGet Kcp KRuntime key) r => answers (under (objName KRuntime) key (Some (wRuntime w))) r
  | Ev (CGet Garden KShoot key) r => answers (under (objName KShoot) key (shootOf w)) r
  | Ev (CGet Kcp KGardenerCluster key) r => answers (under (objName KGardenerCluster) key (wCluster w)) r
  | Ev (CGet Kcp KSecret key) r =>
      if bool_decide (key = kubeconfigKey (wRuntime w)) then answers (under (objName KSecret) key (wSecret w)) r
      else exists s, r = Ok s /\ is_Some (secretData s)
  | Ev (CGet Garden KConfigMap _) r => failsUnlessNotFound r = None
  | Ev (CAdminKubeconfig shoot _) r => exists kubeconfig, r = Ok kubeconfig /\ issued (objName KShoot shoot) kubeconfig
  | Ev (CList Kcp KSecret "" selector) r =>
      r = Ok (match wSecret w with
              | Some s => if selectorMatches selector (Labels (secretMeta s)) then [s] else []
              | None => []
              end)
  | Ev (CCreate Garden KShoot _) r => wShoot w = None -> isOk r = true
  | Ev (CCreate Kcp KGardenerCluster o) r =>
      wCluster w = None -> exists c, r = Ok c /\ sameCluster o c /\ gcState c = ""
  | Ev (CUpdateStatus Kcp KGardenerCluster o) r =>
      forall c, wCluster w = Some c -> exists c', r = Ok c' /\ sameCluster c c' /\ gcState c' = gcState o
  | Ev (CCreate Kcp KSecret o) r => wSecret w = None -> exists s, r = Ok s /\ storedSecret o s
  | Ev (CUpdate Kcp KSecret o) r =>
      forall s, wSecret w = Some s -> objName KSecret s = objName KSecret o -> exists s', r = Ok s' /\ storedSecret o s'
  | Ev (CUpdate Kcp KRuntime o) r =>
      exists v, r = Ok v /\ sameObject (rtMeta o) (rtMeta v) /\ rtSpec v = rtSpec o /\ rtStatus v = rtStatus (wRuntime w)
  | Ev (CUpdateStatus Kcp KRuntime o) r => exists v, r = Ok v /\ storedFrom (wRuntime w) o v
  | _ => granted e
  end.

#[export] Instance during_serves w : Serves (during w) worldCall (wRuntime w).
Proof.
  split.
  - by intros h err [_ Herr].
  - intros h o r [_ Hr]. exact Hr.
  - intros h c. case_call c; cbn; done.
Qed.

(** ** The effect of a history *)

Lemma with_same w : with_runtime w (wRuntime w) = w.
Proof. by destruct w. Qed.

Lemma after_stored h w v : storedIn h = Some v -> wRuntime (after h w) = v.
Proof.
  induction h as [|[c r] h IH]; [done|]. case_call c; cbn; try exact IH; destruct r; cbn; intros; simplify_eq; eauto.
Qed.

Lemma after_pass h h' w :
  extends passWrite h h' -> exists v, after h' w = with_runtime (after h w) v.
Proof.
  intros (k & -> & Hk). induction Hk as [|[c r] k Hc Hk IH]; [exists (wRuntime (after h w)); by rewrite with_same|].
  destruct IH as [v IH]. rewrite <- app_comm_cons. unfold after in *. cbn [foldr]. rewrite IH.
  case_call c; cbn in Hc; try discriminate Hc; try (by eexists); destruct r; by eexists.
Qed.

(** A reconciliation that stored the Runtime and wrote nothing else of the world. *)
Lemma after_finish h h' w v :
  extends passWrite h h' -> stored h' v -> after h' w = with_runtime (after h w) v.
Proof.
  intros He Hs. destruct (after_pass _ _ w He) as [v' Ha]. rewrite Ha. f_equal.
  apply (after_stored _ w) in Hs. by rewrite Ha in Hs.
Qed.

Lemma after_untracked h h' w : extends untracked h h' -> after h' w = after h w.
Proof.
  intros (k & -> & Hk). induction Hk as [|[c r] k Hc Hk IH]; [done|].
  rewrite <- app_comm_cons. unfold after in *. cbn [foldr]. rewrite IH. case_call c; cbn in Hc; done.
Qed.

(** ** Consistent worlds *)

Context (m : RCCfg) (last : nat).

Definition shootNameSelector (shootName : string) : gmap string string := {["kyma-project.io/shoot-name" := shootName]}.

(** The GardenerCluster that the state machine made for [v]; no rotation is forced. *)
Definition clusterOf (v : Runtime) (c : GardenerCluster) : Prop :=
  objName KGardenerCluster c = clusterKey v /\ gcShootName c = rsName (rShoot (rtSpec v)) /\
  shootNameSelector (gcShootName c) ⊆ Labels (gcMeta c) /\
  mkNN (gcSecretNamespace c) (gcSecretName c) = kubeconfigKey v /\ gcSecretKey c = "config" /\
  secretRotationForced c = false.

(** The secret that the kubeconfig controller made for it: under the key that the
    clients of the runtime cluster are built from it holds a kubeconfig that Gardener
    issued for the Shoot of [v]. *)
Definition secretOf (v : Runtime) (s : Secret) : Prop :=
  objName KSecret s = kubeconfigKey v /\ shootNameSelector (rsName (rShoot (rtSpec v))) ⊆ Labels (secretMeta s) /\
  secretStringData s = ∅ /\
  exists data kubeconfig, secretData s = Some data /\ data !! "config" = Some kubeconfig /\
    issued (shootKey m v) kubeconfig.

(** The Shoot comes before the GardenerCluster and that before the secret; a ready
    GardenerCluster has one. *)
Definition consistent (w : world) : Prop :=
  let v := wRuntime w in
  match wShoot w with
  | Some (o, n) => objName KShoot o = shootKey m v /\ n <= last
  | None => wCluster w = None
  end /\
  match wCluster w with
  | Some c => clusterOf v c /\ (gcState c = ReadyState -> is_Some (wSecret w))
  | None => wSecret w = None
  end /\
  forall s, wSecret w = Some s -> secretOf v s.

(** ** A reconciliation of the GardenerCluster *)

Context (controller : GardenerClusterController).

(** The world with the kubeconfig in place. *)
Definition kubeconfigReady (w w' : world) : Prop :=
  exists c s, w' = with_secret (with_cluster w c) s /\ clusterOf (wRuntime w) c /\ gcState c = ReadyState /\
    secretOf (wRuntime w) s.

Lemma under_eq {A} (name : A -> NamespacedName) key a : name a = key -> under name key (Some a) = Some a.
Proof. intros E. unfold under. cbn. by rewrite bool_decide_true. Qed.

Lemma sameCluster_of v c c' : sameCluster c c' -> clusterOf v c -> clusterOf v c'.
Proof.
  intros ((E1 & E2 & _ & _ & E3 & E4 & _) & F1 & F2 & F3 & F4) (Hname & Hshoot & Hlabel & Hsecret & Hkey & Hforced).
  unfold clusterOf, secretRotationForced in *. cbn in *. rewrite E1, E2, E3, E4, F1, F2, F3, F4. by split_and!.
Qed.

Lemma storedSecret_of v o s kubeconfig :
  storedSecret o s -> objName KSecret o = kubeconfigKey v ->
  shootNameSelector (rsName (rShoot (rtSpec v))) ⊆ Labels (secretMeta o) ->
  (secretStringData o ∪ default ∅ (secretData o)) !! "config" = Some kubeconfig ->
  issued (shootKey m v) kubeconfig -> secretOf v s.
Proof.
  intros ((E1 & E2 & _ & _ & E3 & _) & Hstring & Hd) Hname Hlabel Hk Hissued. unfold secretOf. cbn in *.
  rewrite E1, E2, E3. split_and!; [done..|]. by exists (secretStringData o ∪ default ∅ (secretData o)), kubeconfig.
Qed.

Context (Hnames : forall o n, objName KShoot (gardener o n) = objName KShoot o).
Context (Hproject : kpShootNamespace (KubeconfigProvider controller) = ShootNamesapace m).

Lemma labels_of_new c kubeconfig now :
  shootNameSelector (gcShootName c) ⊆ Labels (gcMeta c) ->
  shootNameSelector (gcShootName c) ⊆ Labels (secretMeta (newSecret c kubeconfig now)).
Proof.
  unfold shootNameSelector. intros Hl%map_singleton_subseteq_l. apply map_singleton_subseteq_l. cbn. by rewrite !lookup_insert_ne.
Qed.

(** What a round ends with. *)
Definition roundDone (w : world) (out : Result * option GoError) (h : history) : Prop :=
  (exists d, out = (mkResult true d, None)) /\ kubeconfigReady w (after h w).

(** The status is stored, when the secret is. *)
Lemma persist_round w c c' s d h :
  wCluster w = Some c -> clusterOf (wRuntime w) c -> gcState c' = ReadyState -> secretOf (wRuntime w) s ->
  after h w = with_secret w s \/ after h w = w /\ wSecret w = Some s ->
  wp (during w) worldCall (persistAndRequeue c' d) h (returns (roundDone w)).
Proof.
  intros Hc Hof Hready Hs Ha. unfold persistAndRequeue, persistStatusChange, resultWithRequeue, resultWithoutRequeue.
  wp_norm. split; [done|]. intros r [_ Hr]. destruct (Hr c Hc) as (c'' & -> & Hsame & Hst). wp_norm.
  split; [done|]. intros [] _. split; [by eexists|]. exists c'', s. split_and!; [|by eapply sameCluster_of|congruence|done].
  unfold after in *. cbn [foldr written_to]. destruct Ha as [-> |[-> Hsec]]; [done|].
  unfold with_secret, with_cluster. cbn. by rewrite Hsec.
Qed.

Lemma handle_round w c secret now d h :
  consistent w -> wCluster w = Some c -> secret = wSecret w -> after h w = w ->
  wp (during w) worldCall (handleKubeconfig controller secret c now) h
    (fun o h' => match o with
     | Done (c', (status, err)) =>
         err = None /\ status <> ksRotated /\ wp (during w) worldCall (persistAndRequeue c' d) h' (returns (roundDone w))
     | Panicked => False
     end).
Proof.
  intros (Hshoot & Hcluster & Hsecret) Hc -> Ha. rewrite Hc in *. destruct Hcluster as [Hof _].
  destruct (wShoot w) as [[o n]|] eqn:Ew; [|done]. destruct Hshoot as [Hkey _].
  pose proof Hof as (Hname & Hshootname & Hlabel & Hsec & Hgckey & Hforced).
  unfold handleKubeconfig, Fetch. wp_norm. split; [done|]. intros r [_ Hr].
  unfold shootOf in Hr. rewrite Ew in Hr. cbn [fmap option_fmap option_map] in Hr. rewrite under_eq in Hr.
  2: { etransitivity; [apply Hnames|]. etransitivity; [exact Hkey|]. by rewrite Hproject, Hshootname. }
  cbn in Hr. subst r. wp_norm. split; [done|]. intros r [_ (kubeconfig & -> & Hissued)].
  rewrite Hnames, Hkey in Hissued. wp_norm.
  rewrite Hforced. unfold secretNeedsToBeRotated. rewrite Hforced, orb_false_r.
  destruct (wSecret w) as [s|] eqn:Es.
  - specialize (Hsecret s eq_refl) as Hs. pose proof Hs as (Hkeys & Hlabels & Hstring & _).
    destruct (secretRotationTimePassed (Some s) (rotationPeriod controller) now); cbn [negb].
    + unfold updateExistingSecret. apply wp_seq. wp_norm. split; [done|]. intros r [_ Hr].
      destruct (Hr s Es eq_refl) as (s' & -> & Hst). wp_norm. split; [done|]. intros t _. wp_norm. split; [done|].
      intros [] _. wp_norm. split_and!; [done..|]. apply (persist_round w c _ s'); try done.
      * apply (storedSecret_of _ _ _ kubeconfig Hst); [done..| |done]. cbn. rewrite Hstring, Hgckey.
        by rewrite (left_id_L ∅ _), lookup_insert.
      * left. unfold after in *. cbn [foldr written_to]. by rewrite Ha.
    + wp_norm. split; [done|]. intros t _. wp_norm. split; [done|]. intros [] _. wp_norm.
      split_and!; [done..|]. apply (persist_round w c _ s); try done. by right.
  - cbn [secretRotationTimePassed negb]. unfold createNewSecret. apply wp_seq. wp_norm. split; [done|]. intros r [_ Hr].
    destruct (Hr Es) as (s' & -> & Hst). wp_norm. split; [done|]. intros t _. wp_norm. split; [done|].
    intros [] _. wp_norm. split_and!; [done..|]. apply (persist_round w c _ s'); try done.
    + apply (storedSecret_of _ _ _ kubeconfig Hst); [done| | |done]; [rewrite <- Hshootname; by apply labels_of_new|].
      cbn. rewrite Hgckey. by rewrite lookup_union_l', lookup_singleton.
    + left. unfold after in *. cbn [foldr written_to]. by rewrite Ha.
Qed.

(** A reconciliation of the GardenerCluster makes it ready, with its secret. *)
Lemma cluster_round `{!MetaLaws} w c :
  consistent w -> wCluster w = Some c ->
  wp (during w) worldCall (ClusterReconcile controller (objName KGardenerCluster c)) [] (returns (roundDone w)).
Proof.
  intros Hw Hc. pose proof Hw as (_ & Hcluster & Hsecret). rewrite Hc in Hcluster. destruct Hcluster as [Hof _].
  unfold ClusterReconcile. wp_norm. split; [done|]. intros r [_ Hr]. rewrite Hc, under_eq in Hr by done. cbn in Hr. subst r.
  assert (forall s, wSecret w = Some s ->
    selectorMatches (shootNameSelector (gcShootName c)) (Labels (secretMeta s)) = true) as Hfound.
  { intros s Es. apply selector_matches. destruct Hof as (_ & -> & _). by apply Hsecret. }
  unfold reconcileCluster, getSecret. wp_norm. split; [done|]. intros r [_ Hr]. fold (shootNameSelector (gcShootName c)) in Hr.
  assert (r = Ok (match wSecret w with Some s => [s] | None => [] end)) as ->.
  { rewrite Hr. f_equal. destruct (wSecret w) as [s|]; [by rewrite Hfound|done]. }
  assert (forall h now d, after h w = w ->
    wp (during w) worldCall
      ('(cluster, (status, err)) ← handleKubeconfig controller (wSecret w) c now;
       match err with
       | Some err =>
           '(cluster, _) ← persistStatusChange cluster;
           resultWithoutRequeue cluster (if IsNotFound err then None else Some err)
       | None =>
           match status with
           | ksRotated =>
               err ← removeForceRotationAnnotation cluster;
               match err with
               | Some err => resultWithoutRequeue cluster (Some err)
               | None => persistAndRequeue cluster d
               end
           | _ => persistAndRequeue cluster d
           end
       end) h (returns (roundDone w))) as Hhandle.
  { intros h now d Ha. apply wp_seq. eapply wp_mono; [|by apply (handle_round w c _ now d)].
    intros [[c' [status err]]|] h' Hq; [|done]. destruct Hq as (-> & Hst & Hq). by destruct status. }
  destruct (wSecret w) as [s|]; wp_norm; (split; [done|]); intros now _; by apply Hhandle.
Qed.

End World.
