(* ===== verification/Operator.v ===== *)
(** * The operator put together (cmd/main.go)

    The state machine with the converter, the audit log provider and the
    bootstrapper of this repository in place of the interfaces it is verified
    against, and the watcher of the configuration these components read. *)

From Stdlib Require Import SpecFloat.
From S2P Require Import Prelude Kube Gardener RuntimeApi Objects Effects Config Extenders Provider.
From S2P Require Import RegistryCache StructuredAuth SkrDetails AuditLog ConverterApi GVisor Workers Extensions Converter.
From S2P Require Import FsmState Bootstrapper FsmProvision FsmPatch FsmConfigure FsmDelete Fsm.
From S2P Require Import FsmCalls FsmSafety FsmSteps ConfigReload RegistryCacheController.
From S2P Require Import Duration Floats KubeconfigController.
From S2P Require FsmExample.

Local Open Scope string_scope.

(** ** Start-up *)

(** The flags of the program that the components depend on. *)
(*@ src/cmd/main.go:121-136 main *)
Record flags := mkFlags {
  auditLogMandatory : bool;
  dedicatedAuditLoggingEnabled : bool;
  registryCacheConfigControllerEnabled : bool;
  apiServerAclEnabled : bool;
  networkRestrictionGlobalEnabled : bool;
  runtimeBootstrapperEnabled : bool;
  rtbConfig : BootstrapperConfig;                  (* the runtimeBootstrapper... names *)
  gardenerProjectName : string;
  statusRequeueDelay : Z
}.

(*@consts src/cmd/main.go:85-101 *)
Definition defaultControlPlaneRequeueDuration : Z := 10 * Second.
Definition defaultGardenerRequeueDuration : Z := 15 * Second.
Definition defaultShootCreateRequeueDuration : Z := 60 * Second.
Definition defaultShootDeleteRequeueDuration : Z := 90 * Second.
Definition defaultShootReconcileRequeueDuration : Z := 30 * Second.
Definition defaultControlPlaneSystemNamespace : string := "kcp-system".

(** The maps are shared with the configuration, so that the change is seen by
    everything that holds a copy of it. *)
(*@ src/cmd/main.go:592-611 enableClusterTrustBundleFeatureForSKR *)
Definition enableClusterTrustBundleFeatureForSKR (c : ConverterConfig) : ConverterConfig :=
  let k := ccKubernetes c in
  let api := kcKubeApiServer k in
  mkConverterConfig
    (mkKubernetesConfig
       (mkKubeApiServer (ACLConfigMapName api) (MaxTokenExpiration api)
          (<["certificates.k8s.io/v1beta1/clustertrustbundles" := true]> (RuntimeConfig api))
          (<["ClusterTrustBundleProjection" := true]> (<["ClusterTrustBundle" := true]> (FeatureGates api))))
       (<["ClusterTrustBundleProjection" := true]> (KubeletFeatureGates k)) (DefaultVersion k)
       (EnableKubernetesVersionAutoUpdate k) (EnableMachineImageVersionAutoUpdate k) (DefaultOperatorOidc k))
    (ccDNS c) (ccProvider c) (ccMachineImage c) (ccGardener c) (ccAuditLogPolicyConfigMapName c)
    (ccWindowMapPath c) (ccTolerations c) (ccEnableDualStackIP c) (ccTenantConfigPath c).

(** The kubeconfig controller, for the flags minimal-rotation-time and
    kubeconfig-expiration-time. *)
(*@ src/cmd/main.go:239-256 main *)
Definition kubeconfigController (project : string) (minimalRotationTimeRatio : spec_float) (expirationTime : Z) :
    GardenerClusterController :=
  mkController (mkProvider ("garden-" +:+ project) (toDuration (Seconds expirationTime)))
    (int64 (toDuration (f64mul minimalRotationTimeRatio (Minutes expirationTime)) * Minute)) minimalRotationTimeRatio.

(** With the defaults, 0.6 of a day, a kubeconfig is renewed after 13h 40m 48s. *)
Definition defaultKubeconfigController : GardenerClusterController :=
  kubeconfigController "kyma" (f64div (f64 6) (f64 10)) (24 * Hour).
Example default_rotation :
  rotationPeriod defaultKubeconfigController = (864 * Minute)%Z /\
  kpExpirationInSeconds (KubeconfigProvider defaultKubeconfigController) = 86400%Z /\
  nextRequeue testNow testNow (864 * Minute) rotationPeriodRatio = (49248 * Second)%Z.
Proof. by vm_compute. Qed.

Section Startup.
Context `{YamlLib} `{Codec Unstructured}.
Context (fl : flags).

(*@ src/cmd/main.go:583-590 configureRuntimeBootstrapper *)
Definition configureRuntimeBootstrapper (config : BootstrapperConfig) : prog (result RuntimeBootstrapperInstaller) :=
  err ← Validate config;
  mret (match err with Some e => Err e | None => Ok (NewInstaller config) end).

Definition kcpNames : KCPConfig := KCPCfg (rtbConfig fl).
Definition trustBundleWanted : bool := negb (String.eqb (kcpClusterTrustBundleName kcpNames) "").

(** The configuration after start-up. *)
(*@ src/cmd/main.go:323-329 main *)
Definition startupConfig (config : Config) : Config :=
  if runtimeBootstrapperEnabled fl && trustBundleWanted
  then mkConfig (enableClusterTrustBundleFeatureForSKR (cfgConverterConfig config)) (cfgClusterConfig config)
  else config.

(*@ src/cmd/main.go:406-425 main *)
Definition operatorConfig (config : Config) (auditLogDataProvider : DataProvider) : RCCfg :=
  mkRCCfg defaultGardenerRequeueDuration defaultShootCreateRequeueDuration defaultShootDeleteRequeueDuration
    defaultShootReconcileRequeueDuration defaultControlPlaneRequeueDuration (statusRequeueDelay fl) Finalizer
    ("garden-" +:+ gardenerProjectName fl) (auditLogMandatory fl) (apiServerAclEnabled fl)
    (networkRestrictionGlobalEnabled fl) (dedicatedAuditLoggingEnabled fl) auditLogDataProvider
    (registryCacheConfigControllerEnabled fl) (runtimeBootstrapperEnabled fl)
    (if runtimeBootstrapperEnabled fl then Some (NewInstaller (rtbConfig fl)) else None)
    (startupConfig config).

Definition inControlPlane (name : string) : NamespacedName := mkNN defaultControlPlaneSystemNamespace name.
Definition aclConfigMapName (config : Config) : string :=
  ACLConfigMapName (kcKubeApiServer (ccKubernetes (cfgConverterConfig config))).

(** The watcher of the configuration, unless neither feature is enabled. *)
(*@ src/cmd/main.go:311-404 main *)
Definition configReloadWatcher (config : Config) : option ConfigReloadWatcher :=
  if apiServerAclEnabled fl || runtimeBootstrapperEnabled fl then
    Some
      (mkConfigReloadWatcher defaultControlPlaneSystemNamespace
         ((if runtimeBootstrapperEnabled fl
           then [inControlPlane (kcpConfigName kcpNames); inControlPlane (kcpManifestsConfigMapName kcpNames)]
           else []) ++
          (if apiServerAclEnabled fl then [inControlPlane (aclConfigMapName config)] else []))%list
         (if runtimeBootstrapperEnabled fl && negb (String.eqb (kcpPullSecretName kcpNames) "")
          then [inControlPlane (kcpPullSecretName kcpNames)] else [])
         (if runtimeBootstrapperEnabled fl && trustBundleWanted
          then Some (mkNN "" (kcpClusterTrustBundleName kcpNames)) else None)
         (Some (fun configObject runtime =>
            if String.eqb (nn_Name configObject) (aclConfigMapName config)
            then AclNeedsToBeEnabled (apiServerAclEnabled fl) runtime else true)))
  else None.

End Startup.

(** A Shoot whose audit log extension has no configuration. *)
Definition auditLogUnconfigured (e : event) : Prop :=
  match e with
  | Ev (CGet Garden KShoot _) (Ok sh) =>
      exists ext, ext ∈ ssExtensions (shootSpec sh) /\ extType ext = AuditlogExtensionType /\
        extProviderConfig ext = None
  | _ => False
  end.

(** The watcher notices a change of the object. *)
Definition watched (w : ConfigReloadWatcher) (k : kind) (key : NamespacedName) : Prop :=
  watchAccepts w k (UpdateEvent key) = true.

Section Operator.
Context `{MetaLib} `{GardenerLaws} `{RegistryCacheLib} `{SortLaws} `{HyperscalerCodecs} `{GVisorLib} `{ExtensionCodecs}.
Context `{Codec VXLanConfig} `{SliceCapacities} `{YamlLib} `{Codec Unstructured}.
Context `{Codec AuthenticationConfiguration} `{Codec WindowMap} `{Codec KymaProvisioningInfo}.
Context (fl : flags) (config : Config) (p : DefaultDataProvider) (v : Runtime).
Abbreviation m := (operatorConfig fl config (NewDataProvider p)).

#[local] Instance operator_provider : DataProviderOk (AuditLogDataProvider m) := NewDataProvider_ok p.
#[local] Existing Instance converterOk.

Lemma operator_installer i :
  BootstrapperInstaller m = Some i -> InstallerOk i (bootstrapCause (rtbConfig fl)).
Proof. cbn. destruct (runtimeBootstrapperEnabled fl); [|done]. intros [= <-]. apply NewInstaller_ok. Qed.

Lemma operator_keeps :
  wp anyEnv (allowed m v) (Run m v) [] (fun o h => o = Panicked -> panicCause m v (bootstrapCause (rtbConfig fl)) h).
Proof. exact (Run_keeps m v _ operator_installer). Qed.

(** C8. The whole operator, with its own converter, audit log provider and
    bootstrapper. Besides reads, metrics, calls to the runtime cluster and updates of
    AuditLog resources a reconciliation of any Runtime makes only these calls, each after
    answers that justify it ([allowed]): it creates, updates, patches and deletes the
    Shoot of the Runtime; creates copies of registry cache secrets, marks listed ones
    dirty, and deletes only secrets listed with the labels of the operator and this
    Runtime (when it is being deleted and its Shoot is missing, otherwise dirty or
    orphaned ones); creates, updates and deletes the one authentication config map;
    creates the GardenerCluster after it was not found and deletes it as it was read;
    updates the Runtime for the finalizer and the force annotation; writes its status
    once, if it changed; records events of changed conditions. It panics only after an
    answer with an object that lacks what the code takes for granted. *)
Theorem operator_safe :
  wp anyEnv (allowed m v) (Run m v) [] (fun o h =>
    o = Panicked -> exists e, e ∈ h /\ (illFormed e \/ bootstrapCause (rtbConfig fl) e \/ auditLogUnconfigured e)).
Proof.
  eapply wp_mono; [|apply operator_keeps]. intros o h Hc Ho.
  destruct (Hc Ho) as [(e & ? & ?)|[(e & ? & ?)|[(opts & rt & [])|(sh & opts & rt & Hf & Hext & Hp)]]]; [by eauto..|].
  destruct Hp as (_ & ext & Hfind & Hnone). rewrite Hext in Hfind. apply find_some in Hfind as [Hin Hty].
  eexists. split; [exact Hf|]. right. right. exists ext. split_and!; [by apply list_elem_of_In| |done].
  by apply hasType_iff.
Qed.

(** ** The configuration that is read is watched *)

(** Reads of the control plane for the bootstrapper: configuration the watcher
    notices changes of, and the kubeconfig of the runtime. *)
Definition watchedRead (w : ConfigReloadWatcher) : guar := fun _ c =>
  match c with
  | CGet Kcp k key =>
      watched w k key \/
      k = KSecret /\ key = mkNN (Namespace (rtMeta v)) ("kubeconfig-" +:+ mapGet (Labels (rtMeta v)) LabelKymaRuntimeID)
  | _ => True
  end.

Lemma noticed_here key (ps : list ObjectUpdatedPredicate) :
  key ∈ ps -> existsb (fun p => predicateAccepts p (UpdateEvent key)) ps = true.
Proof.
  intros Hk. apply existsb_exists. exists key. split; [by apply list_elem_of_In|].
  cbn. unfold matchUpdate. by rewrite !String.eqb_refl.
Qed.

(** What the watcher of an operator with the bootstrapper notices. *)
Lemma watched_bootstrapper w :
  runtimeBootstrapperEnabled fl = true -> configReloadWatcher fl config = Some w ->
  watched w KConfigMap (mkNN "kcp-system" (kcpConfigName (kcpNames fl))) /\
  watched w KConfigMap (mkNN "kcp-system" (kcpManifestsConfigMapName (kcpNames fl))) /\
  (kcpPullSecretName (kcpNames fl) <> "" ->
     watched w KSecret (mkNN "kcp-system" (kcpPullSecretName (kcpNames fl)))) /\
  (kcpClusterTrustBundleName (kcpNames fl) <> "" ->
     watched w KClusterTrustBundle (mkNN "" (kcpClusterTrustBundleName (kcpNames fl)))).
Proof.
  intros Hen. unfold configReloadWatcher, trustBundleWanted. rewrite Hen, orb_true_r. intros [= <-]. cbn [andb].
  unfold watched.
  split_and!; cbn [watchAccepts crConfigMapPredicates crSecretPredicates crClusterTrustBundlePredicate].
  - apply noticed_here. by left.
  - apply noticed_here. right. by left.
  - intros Hn. destruct (String.eqb_spec (kcpPullSecretName (kcpNames fl)) ""); [done|]. apply noticed_here. by left.
  - intros Hn. destruct (String.eqb_spec (kcpClusterTrustBundleName (kcpNames fl)) ""); [done|].
    cbn. unfold matchUpdate. by rewrite !String.eqb_refl.
Qed.

Lemma watched_acl w :
  apiServerAclEnabled fl = true -> configReloadWatcher fl config = Some w ->
  watched w KConfigMap (mkNN "kcp-system" (aclConfigMapName config)) /\
  isSelected w (mkNN "kcp-system" (aclConfigMapName config)) v = AclNeedsToBeEnabled true v.
Proof.
  intros Hen. unfold configReloadWatcher. rewrite Hen. intros [= <-]. unfold watched. cbn [watchAccepts crConfigMapPredicates orb]. split.
  - apply noticed_here, elem_of_app. right. by left.
  - unfold isSelected. cbn. by rewrite String.eqb_refl.
Qed.

(** One step of the proof that the reads of a program are watched. *)
Ltac watch_step side :=
  match goal with
  | |- wp _ _ (_ ≫= _) _ _ => apply wp_seq
  | |- wp _ _ (callP _) _ _ => split; [cbn [watchedRead]; solve [side]|intros ? _]
  | |- wp _ _ (mret _) _ _ => cbn [mret prog_ret wp]
  | |- wp _ _ (Ret _) _ _ => cbn [wp]
  | |- wp _ _ Panic _ _ => cbn [wp]
  | |- wp _ _ (match ?x with _ => _ end) _ _ => let E := fresh "E" in destruct x eqn:E
  | |- True => exact I
  end.

Lemma watched_configure w h :
  runtimeBootstrapperEnabled fl = true -> configReloadWatcher fl config = Some w ->
  wp anyEnv (watchedRead w) (Configure (NewInstaller (rtbConfig fl)) v) h (fun _ _ => True).
Proof.
  intros Hen Hw. destruct (watched_bootstrapper w Hen Hw) as (H_1 & H_2 & H_3 & H_4). unfold kcpNames in *.
  cbn [Configure NewInstaller]. unfold ConfiguratorConfigure, getConfigMap, getPullSecret, getClusterTrustBundle,
    getResource, optionally, runtimeClientGet, getKubeconfigSecret, GetRuntimeClientWithScheme,
    applyResourcesToRuntimeCluster, applyConfigMap, applySecret, applyClusterTrustBundle, thenUnlessErr, unlessNil.
  unfold applyUnlessEqual.
  repeat watch_step ltac:(first [exact I | by right | left; done_by_bools; repeat match goal with
    | E : String.eqb _ _ = false |- _ => apply String.eqb_neq in E end; auto]).
Qed.

Lemma watched_info w h :
  runtimeBootstrapperEnabled fl = true -> configReloadWatcher fl config = Some w ->
  wp anyEnv (watchedRead w) (FsmState.InstallationInfo (NewInstaller (rtbConfig fl)) v) h (fun _ _ => True).
Proof.
  intros Hen Hw. destruct (watched_bootstrapper w Hen Hw) as (_ & H_2 & _). unfold kcpNames in *.
  cbn [FsmState.InstallationInfo NewInstaller]. unfold InstallationInfo, getManifests, runtimeClientGet,
    getKubeconfigSecret, GetRuntimeClientWithScheme, isDeploymentReady, isDeploymentToBeUpdated, deref.
  repeat watch_step ltac:(first [exact I | by right | by left]).
Qed.

(** The Runtime asks for an ACL. *)
Definition wantsAcl : Prop :=
  let sp := rShoot (rtSpec v) in
  (rpType (rsProvider sp) = "aws" \/ rpType (rsProvider sp) = "azure") /\
  exists cidr cidrs, raACL (rkKubeAPIServer (rsKubernetes sp)) = Some (cidr :: cidrs).

Lemma wantsAcl_spec : AclNeedsToBeEnabled true v = true <-> wantsAcl.
Proof.
  unfold AclNeedsToBeEnabled, wantsAcl. cbv zeta. cbn [andb].
  rewrite andb_true_iff, orb_true_iff, !String.eqb_eq. apply and_iff_compat_l.
  destruct (raACL _) as [[|cidr cidrs]|]; cbn; naive_solver.
Qed.

(** C37. The configuration that is read is watched: with the bootstrapper or the API
    server ACL enabled there is a watcher. With the bootstrapper enabled, whatever
    object of the control plane its configuration or the query of its state reads
    for a Runtime is the kubeconfig of that runtime or an object whose updates the
    operator's watcher notices; and with the API server ACL enabled, with or without
    the bootstrapper, the same holds of what the ACL of a Runtime is made of, and
    of an update of the config map of the ACL the watcher tells exactly the
    Runtimes that need an ACL: those on AWS and Azure with a CIDR that is allowed. *)
Theorem configuration_watched :
  (runtimeBootstrapperEnabled fl || apiServerAclEnabled fl = true -> is_Some (configReloadWatcher fl config)) /\
  forall w, configReloadWatcher fl config = Some w ->
    (runtimeBootstrapperEnabled fl = true ->
       wp anyEnv (watchedRead w) (Configure (NewInstaller (rtbConfig fl)) v) [] (fun _ _ => True) /\
       wp anyEnv (watchedRead w) (FsmState.InstallationInfo (NewInstaller (rtbConfig fl)) v) [] (fun _ _ => True)) /\
    (apiServerAclEnabled fl = true ->
       wp anyEnv (watchedRead w) (createAcl (cfgConverterConfig config) v) [] (fun _ _ => True) /\
       (isSelected w (mkNN "kcp-system" (aclConfigMapName config)) v = true <-> wantsAcl)).
Proof.
  split; [|intros w Hw; split].
  - intros Hon. unfold configReloadWatcher. rewrite orb_comm, Hon. by eexists.
  - intros Hen. split; [by apply watched_configure|by apply watched_info].
  - intros Hacl. destruct (watched_acl w Hacl Hw) as [Hk Hs]. split; [|rewrite Hs; apply wantsAcl_spec]. unfold createAcl, loadIPsFromConfigMap.
    repeat watch_step ltac:(by left).
Qed.

End Operator.

(** ** The kubeconfig secret between the controllers *)

(** The secret has every label of the selector. *)
Definition selectedBy (selector : gmap string string) (s : Secret) : Prop := selector ⊆ Labels (secretMeta s).

(** The components find each other's objects: the secret the kubeconfig
    controller creates for the GardenerCluster that the state machine made for a
    Runtime is the object the state machine and the bootstrapper read the
    kubeconfig of that Runtime from, and the one an event of the watcher in that
    runtime cluster enqueues; the controller finds it again by the name of the
    Shoot, and by the name of the GardenerCluster once that is deleted; the
    registry cache controller takes it for a secret of this operator and reads the
    Runtime with its runtime id; and the GardenerCluster is the one the state
    machine waits for and deletes. *)
Theorem kubeconfig_secret_found runtime shoot domain kubeconfig now
    (Hdomain : (dns ← ssDNS (shootSpec shoot); dnsDomain dns) = Some domain) :
  exists cluster, makeGardenerClusterForRuntime runtime shoot = Ret cluster /\
    let s := newSecret cluster kubeconfig now in
    let runtimeID := mapGet (Labels (rtMeta runtime)) LabelKymaRuntimeID in
    let key := mkNN (Namespace (secretMeta s)) (Name (secretMeta s)) in
    (exists rest, getKubeconfigSecret runtimeID (Namespace (rtMeta runtime)) = Vis (CGet Kcp KSecret key) rest) /\
    skrEventRequest (Namespace (rtMeta runtime)) (UnstructuredObject {["runtime-id" := JString runtimeID]}) = Some key /\
    selectedBy {["kyma-project.io/shoot-name" := gcShootName cluster]} s /\
    selectedBy {[clusterCRNameLabel := Name (gcMeta cluster)]} s /\
    secretControlledByKIM s = true /\ mapGet (Labels (secretMeta s)) RuntimeIDLabel = runtimeID /\
    mkNN (Namespace (gcMeta cluster)) (Name (gcMeta cluster)) = mkNN (Namespace (rtMeta runtime)) runtimeID.
Proof.
  unfold makeGardenerClusterForRuntime. rewrite Hdomain. eexists. split; [reflexivity|]. cbv zeta. split_and!.
  - by eexists.
  - done.
  - by apply map_singleton_subseteq_l.
  - apply map_singleton_subseteq_l. cbn. apply lookup_insert_eq.
  - done.
  - done.
  - done.
Qed.

(** ** An example *)

#[local] Existing Instance exampleExtensionCodecs.
#[local] Instance exampleYaml : YamlLib := {| decodeYAML _ := DecodedEOF; unmarshalYAML _ := None |}.
#[local] Instance exampleUnstructured : Codec Unstructured := {|
  marshal _ := Err (newError "unsupported value");
  unmarshal _ := Err (newError "unsupported bytes")
|}.

Definition exampleNames : BootstrapperConfig :=
  mkBootstrapperConfig (mkKCPConfig "pull" "bundle" "config" "manifests")
    (mkSKRConfig "kyma-system" "pull" "bundle" "config" "rt-bootstrapper").
Definition exampleFlags : flags := mkFlags true true true true true true exampleNames "kyma" Second.

Definition exampleWatcher : ConfigReloadWatcher :=
  default (mkConfigReloadWatcher "" [] [] None None)
    (configReloadWatcher exampleFlags (RCConfig FsmExample.Demo.cfg)).

Lemma configuration_watched_witness :
  (wp anyEnv (watchedRead (FsmExample.Demo.runtime [] ∅ None []) exampleWatcher)
     (Configure (NewInstaller exampleNames) (FsmExample.Demo.runtime [] ∅ None [])) [] (fun _ _ => True)) /\
  watched exampleWatcher KSecret (mkNN "kcp-system" "pull").
Proof.
  split.
  - by apply (configuration_watched exampleFlags (RCConfig FsmExample.Demo.cfg)).
  - reflexivity.
Defined.

Lemma kubeconfig_secret_found_witness :
  exists cluster,
    makeGardenerClusterForRuntime (FsmExample.Demo.runtime [] ∅ None []) (FsmExample.Demo.shoot ∅ None) = Ret cluster /\
    Name (secretMeta (newSecret cluster "kubeconfig" 0)) = "kubeconfig-demo".
Proof.
  destruct (kubeconfig_secret_found (FsmExample.Demo.runtime [] ∅ None []) (FsmExample.Demo.shoot ∅ None)
              "demo.example" "kubeconfig" 0 eq_refl) as (cluster & Hc & _).
  exists cluster. split; [exact Hc|]. injection Hc as <-. reflexivity.
Defined.

#[local] Existing Instances MetaRef.lib numberVersions numberVersions_laws exampleSort exampleSort_laws exampleCodecs
  exampleGVisor FsmExample.Demo.cacheLib FsmExample.Demo.authCodec FsmExample.Demo.windowCodec FsmExample.Demo.infoCodec.
#[local] Instance exampleNetworking : Codec VXLanConfig := noCodec.
#[local] Instance exampleCapacities : SliceCapacities := {| workersSpare _ := 3; resourcesSpare _ := 0 |}.

Lemma operator_safe_witness :
  let m := operatorConfig exampleFlags (RCConfig FsmExample.Demo.cfg)
             (NewDataProvider (mkDefaultProvider ∅ "kcp-system")) in
  let v := FsmExample.Demo.runtime [] ∅ None [] in
  wp anyEnv (allowed m v) (Run m v) [] (fun o h =>
    o = Panicked -> exists e, e ∈ h /\ (illFormed e \/ bootstrapCause exampleNames e \/ auditLogUnconfigured e)).
Proof. cbv zeta. apply (operator_safe exampleFlags). Defined.
