(* ===== verification/Provisioning.v ===== *)
(** * From the creation of a Runtime to Ready

    The state machine, the kubeconfig controller and Gardener, taking turns over the
    objects of one Runtime: from a Runtime without a Shoot they reach one that is
    Ready, with its Shoot created, its GardenerCluster ready and its kubeconfig in
    place. *)

From S2P Require Import Prelude Kube Gardener RuntimeApi Objects Effects Config Extensions.
From S2P Require Import RegistryCache StructuredAuth SkrDetails Rbac AuditLog ConverterApi.
From S2P Require Import Bootstrapper FsmState KubeconfigController FsmProvision FsmPatch FsmConfigure FsmDelete Fsm.
From S2P Require Import FsmCalls FsmSafety FsmSteps FsmExample FsmProgress Serving FsmConverge World.
From S2P Require Import Sscanf ErrorHandler.
From S2P Require Import Operator.

Local Open Scope string_scope.

Section Provisioning.
Context `{MetaLaws} `{GardenerLib} `{ConverterOk} `{RegistryCacheLib}.
Context `{Codec AuthenticationConfiguration} `{Codec WindowMap} `{Codec RegistryConfig}.
Context `{Codec KymaProvisioningInfo} `{Codec AuditlogExtensionConfig}.
Context (m : RCCfg) (controller : GardenerClusterController) (v0 : Runtime).
Context (gardener : Shoot -> nat -> Shoot) (last : nat) (issued : NamespacedName -> string -> Prop).
Context (also : event -> Prop) (made : Shoot -> Prop).

Abbreviation serving w := (during gardener issued also w).
Abbreviation consistent := (World.consistent issued m last).
Abbreviation secretOf := (World.secretOf issued m).

(** ** The assumptions *)

(** [v0] as far as its user determines it. *)
Definition sameSubject (v : Runtime) : Prop :=
  rtSpec v = rtSpec v0 /\ sameObject (meta_with_finalizers (rtMeta v0) []) (meta_with_finalizers (rtMeta v) []).

(** A Runtime that can be provisioned without a dedicated audit log. *)
Definition provisionable (v : Runtime) : Prop :=
  sameSubject v /\
  timeIsZero (DeletionTimestamp (rtMeta v)) = true /\ ValidateRequiredLabels v = None /\
  isTrue (rsEnforceSeedLocation (rShoot (rtSpec v))) = false /\
  DedicatedAuditLoggingEnabled m && IsDedicatedAuditLogEnabled v = false /\ pending v.

(** A Shoot on its way: Gardener has not yet assigned its domain, or not yet begun, or
    is creating it, possibly after errors that it retries. *)
Definition inProgress (sh : Shoot) : Prop :=
  (dns ← ssDNS (shootSpec sh); dnsDomain dns) = None \/ stLastOperation (shootStatus sh) = None \/
  exists op, stLastOperation (shootStatus sh) = Some op /\ loType op = LastOperationTypeCreate /\
    (loState op ∈ [LastOperationStateProcessing; LastOperationStatePending; LastOperationStateAborted; LastOperationStateError] /\
       scansNoMatchingSeeds (loDescription op) = false \/
     loState op = LastOperationStateFailed /\ IsRetryable (stLastErrors (shootStatus sh)) = true).

(** The Shoot the converter made for [v]. *)
Definition shootFor (v : Runtime) (o : Shoot) : Prop :=
  objName KShoot o = shootKey m v /\ shouldPatchShoot v o = Ok false /\ made o.

(** Gardener creates the Shoots it is asked for in [last] steps, and leaves their
    names and annotations alone. *)
Definition gardenerCreates : Prop := forall o,
  (forall n, objName KShoot (gardener o n) = objName KShoot o /\
     Annotations (shootMeta (gardener o n)) = Annotations (shootMeta o)) /\
  (forall n, n < last -> inProgress (gardener o n)) /\ shootUp (gardener o last).

(** The options of a conversion that the state machine asks for. *)
Definition createsWith (opts : CreateOpts) : Prop :=
  coConverterConfig opts = ConverterCfg m /\ coApiServerAclEnabled opts = ApiServerAclEnabled m /\
  coNetworkRestrictionGlobalEnabled opts = NetworkRestrictionGlobalEnabled m.

(** The conversion succeeds, and its Shoot is current and [made] as it should. *)
Definition converts : Prop := forall w opts h,
  provisionable (wRuntime w) -> createsWith opts ->
  wp (serving w) (fun _ => untracked) (toShootCreate opts (wRuntime w)) h (returns (fun cv _ =>
    exists o, cvShoot cv = Ok o /\ shouldPatchShoot (wRuntime w) o = Ok false /\ made o)).

(** The shared audit log of the provider and region is configured if it is mandatory. *)
Definition auditLogged : Prop := forall R h,
  wp R (fun _ => untracked)
    (GetSharedAuditLogData (AuditLogDataProvider m) (rpType (rsProvider (rShoot (rtSpec v0)))) (rsRegion (rShoot (rtSpec v0)))) h
    (returns (fun r _ => AuditLogMandatory m = true -> isOk r = true)).

Definition delays : list Z :=
  [GardenerRequeueDuration m; RequeueDurationShootCreate m; ControlPlaneRequeueDuration m; StatusRequeueDelay m].

(** ** Rounds *)

(** The controller-runtime calls the reconciler again, without an error. *)
Definition again (out : option (Result * option GoError)) : Prop :=
  exists result, out = Some (result, None) /\ result <> mkResult false 0.

(** Gardener has gone on with the Shoot. *)
Definition gardenerStep (w w' : world) : Prop :=
  match wShoot w with
  | None => w' = w
  | Some (o, n) => exists n', w' = with_wshoot w (Some (o, n')) /\ n' <= last /\ (n < n' \/ n' = last)
  end.

(** The kubeconfig controller is called for the GardenerCluster if there is one, and
    asks to be called again. *)
Definition clusterRound (w : world) (Q : world -> Prop) : Prop :=
  match wCluster w with
  | None => Q w
  | Some c =>
      wp (serving w) worldCall (ClusterReconcile controller (objName KGardenerCluster c)) [] (returns (fun out h =>
        (exists d, out = (mkResult true d, None)) /\ Q (after h w)))
  end.

(** The Runtime is Ready, with all that belongs to it. *)
Definition complete (w : world) : Prop :=
  ready (wRuntime w) /\ (exists o, wShoot w = Some (o, last) /\ made o) /\
  exists c s, wCluster w = Some c /\ gcState c = ReadyState /\ wSecret w = Some s /\ secretOf (wRuntime w) s.

(** Within [n] rounds, each a reconciliation of the Runtime, one of the
    GardenerCluster and a step of Gardener, the Runtime is Ready; until then every
    reconciliation of the Runtime asks to be called again. *)
Fixpoint completeWithin (n : nat) (w : world) : Prop :=
  match n with
  | O => False
  | S n =>
      wp (serving w) worldCall (Reconcile m (objName KRuntime (wRuntime w))) [] (returns (fun out h =>
        (complete (after h w) /\ out = Some (mkResult false 0, None)) \/
        (again out /\ clusterRound (after h w) (fun w1 => forall w2, gardenerStep w1 w2 -> completeWithin n w2))))
  end.

(** How many rounds are needed. *)
Definition rounds (w : world) : nat :=
  match wShoot w with
  | None =>
      (if ContainsFinalizer (rtMeta (wRuntime w)) (CfgFinalizer m) then 0 else 1) +
      (if FindStatusCondition (Conditions (rtStatus (wRuntime w))) ConditionTypeRuntimeProvisioned is Some _ then 0 else 1) +
      (last + 9)
  | Some (o, n) =>
      if Nat.ltb n last then (last - n) + 8
      else
        match wCluster w with
        | Some c =>
            if String.eqb (gcState c) ReadyState then S (ahead m (gardener o last) (wRuntime w)) else 5
        | None => 5 + ahead m (gardener o last) (wRuntime w)
        end
  end.

(** The worlds on the way. *)
Definition onTheWay (w : world) : Prop :=
  consistent w /\ provisionable (wRuntime w) /\
  match wShoot w with
  | Some (o, _) => shootFor (wRuntime w) o /\ CfgFinalizer m ∈ Finalizers (rtMeta (wRuntime w))
  | None => True
  end.

(** ** What the reconciliations keep *)

(** The Runtime differs at most in its status, without having failed, and in its
    finalizers, of which that of the operator is kept. *)
Definition keeps (v v' : Runtime) : Prop :=
  rtSpec v' = rtSpec v /\ sameObject (meta_with_finalizers (rtMeta v) []) (meta_with_finalizers (rtMeta v') []) /\
  (CfgFinalizer m ∈ Finalizers (rtMeta v) -> CfgFinalizer m ∈ Finalizers (rtMeta v')) /\ pending v'.

Lemma keeps_onTheWay w v' : keeps (wRuntime w) v' -> onTheWay w -> onTheWay (with_runtime w v').
Proof.
  intros (Hspec & Hobj & Hfin & Hpend) ((Hs & Hc & Hsec) & ((Hspec0 & Hobj0) & Hd & Hl & Hseed & Ha & _) & Hsh).
  pose proof Hobj as (E1 & E2 & E3 & E4 & E5 & E6 & _).
  destruct w as [v shoot cluster secret]. cbn in *.
  assert (shootKey m v' = shootKey m v) as K1 by (unfold shootKey; by rewrite Hspec).
  assert (clusterKey v' = clusterKey v) as K2 by (unfold clusterKey; by rewrite E2, E5).
  assert (kubeconfigKey v' = kubeconfigKey v) as K3 by (unfold kubeconfigKey; by rewrite E2, E5).
  split_and!; cbn.
  - unfold World.consistent, clusterOf, World.secretOf in *. cbn in *. rewrite K1, K2, K3, Hspec. by split_and!.
  - split; [split; [by rewrite Hspec|by etransitivity]|].
    unfold ValidateRequiredLabels, IsDedicatedAuditLogEnabled in *. rewrite E4, E5, Hspec. by split_and!.
  - destruct shoot as [[o n]|]; [|done]. destruct Hsh as [(Hn & Hp & Hmade) Hf]. split; [|by apply Hfin].
    unfold shootFor, shouldPatchShoot in *. rewrite K1, E3, E6. by split_and!.
Qed.

Lemma storedFrom_keeps v i v' : storedFrom v i v' -> pending i -> keeps v v'.
Proof.
  intros ((E1 & E2 & E3 & E4 & E5 & E6 & E7) & Hspec & Hst) Hp. unfold keeps, pending. rewrite Hspec, Hst, E7.
  split_and!; try done.
Qed.

(** ** A reconciliation in a world *)

Section Round.
Context (w : world).
Abbreviation v := (wRuntime w).
Context (R : rely) (G : guar) `{!Serves R G v}.

Context (Q : option (Result * option GoError) -> history -> Prop).

(** What is left after a state function with [n] fuel. *)
Definition turnTo (n : nat) : transition -> systemState -> history -> Prop := fun t s h =>
  match t with
  | (Some fn, res, None) => wp R G (runLoop m n fn res s) h (returns Q)
  | (_, res, err) => Q (Some (outcomeOf res err)) h
  end.

Lemma turning n fn res s h :
  swp R G (step m fn) s (Ev CCtxDone None :: h) (turnTo n) (fun _ => False) ->
  wp R G (runLoop m (S n) fn res s) h (returns Q).
Proof. intros Ho. by apply (wp_turn m v R G). Qed.

(** A condition is recorded and the reconciliation ends. *)
Lemma pend c r st msg d n s h :
  snapshot s = rtStatus v -> wRuntime (after h w) = v ->
  (forall now v' h', storedFrom v (UpdateStatePending now c r st msg (instance s)) v' ->
     after h' w = with_runtime (after h w) v' -> Q (Some (mkResult false d, None)) h') ->
  swp R G (_ ← statePending c r st msg; updateStatusAndRequeueAfter d) s h (turnTo (S (S n))) (fun _ => False).
Proof.
  intros Hsnap Hrt HQ. unfold statePending, updateStatusAndRequeueAfter. apply swp_bind, swp_bind, swp_lift.
  split; [by apply serves_pass|]. intros now _. apply swp_modify, swp_ret. cbn [turnTo].
  apply (settle m v R G); cbn [instance snapshot with_instance].
  - intros Heq. apply (HQ now v); [split_and!; [done|done|by rewrite Heq, Hsnap]|].
    change (after (Ev CCtxDone None :: Ev CNow now :: h) w) with (after h w).
    transitivity (with_runtime (after h w) (wRuntime (after h w))); [by rewrite with_same|by rewrite Hrt].
  - intros v' h' _ Hv' Hst He. apply (HQ now v'); [done|].
    by rewrite (after_finish _ _ w v' He Hst).
Qed.

End Round.

(** The snapshot is taken. *)
Lemma start w Q :
  provisionable (wRuntime w) ->
  (forall sh, shootOf gardener w = Some sh -> objName KShoot sh = shootKey m (wRuntime w)) ->
  (forall h, after h w = w ->
     swp (serving w) worldCall (sFnInitialize m) (mkState (wRuntime w) (rtStatus (wRuntime w)) (shootOf gardener w)) h (turnTo (serving w) worldCall Q 13) (fun _ => False)) ->
  wp (serving w) worldCall (Reconcile m (objName KRuntime (wRuntime w))) [] (returns Q).
Proof.
  intros Hv Hkey Hgo. unfold Reconcile. wp_norm. split; [done|]. intros r [_ Hr].
  rewrite under_eq in Hr by done. cbn in Hr. subst r. apply (turning w _ _ _ 14). cbn [step]. unfold sFnTakeSnapshot, switchState.
  apply swp_bind, swp_modify, swp_bind, swp_getInstance, swp_bind, swp_call; [done|]. intros r [_ Hr].
  destruct (shootOf gardener w) as [sh|] eqn:Esh.
  - rewrite under_eq in Hr by by apply Hkey. cbn in Hr. subst r. cbn [failsUnlessNotFound].
    apply swp_bind, swp_modify, swp_ret. cbn [turnTo]. apply (turning w _ _ _ 13). by apply Hgo.
  - destruct Hr as (e & -> & He). cbn [failsUnlessNotFound]. rewrite He. apply swp_bind, swp_ret, swp_ret. cbn [turnTo].
    apply (turning w _ _ _ 13). by apply Hgo.
Qed.

(** The rest of the round leaves fewer of them. *)
Definition forward (w w1 : world) : Prop :=
  onTheWay w1 /\
  forall w2 w3, match wCluster w1 with Some _ => kubeconfigReady issued m w1 w2 | None => w2 = w1 end ->
    gardenerStep w2 w3 -> rounds w3 < rounds w.

(** What a reconciliation of the Runtime comes to. *)
Definition advanced (w : world) (out : option (Result * option GoError)) (h : history) : Prop :=
  (complete (after h w) /\ out = Some (mkResult false 0, None)) \/ (again out /\ forward w (after h w)).

Context (Hdelays : Forall (fun d => d <> 0%Z) delays).

Lemma again_after d : d ∈ delays -> again (Some (mkResult false d, None)).
Proof.
  intros Hd. exists (mkResult false d). split; [done|]. intros [= ->]. by apply (proj1 (Forall_forall _ _) Hdelays 0%Z Hd).
Qed.

(** ** Until the Shoot is created *)

Lemma noShoot_rounds w :
  wShoot w = None -> rounds w =
    (if ContainsFinalizer (rtMeta (wRuntime w)) (CfgFinalizer m) then 0 else 1) +
    (if FindStatusCondition (Conditions (rtStatus (wRuntime w))) ConditionTypeRuntimeProvisioned is Some _ then 0 else 1) +
    (last + 9).
Proof. intros E. unfold rounds. by rewrite E. Qed.

(** Without a Shoot only the Runtime changes in a round. *)
Lemma forward_alone w v' :
  wShoot w = None -> onTheWay (with_runtime w v') -> rounds (with_runtime w v') < rounds w ->
  forward w (with_runtime w v').
Proof.
  intros Hs Hw Hr. split; [done|]. intros w2 w3. pose proof Hw as ((Hc & _) & _). cbn in *. rewrite Hs in Hc. rewrite Hc.
  intros ->. unfold gardenerStep. cbn. rewrite Hs. by intros ->.
Qed.

Lemma finalizer_round w :
  onTheWay w -> wShoot w = None -> ContainsFinalizer (rtMeta (wRuntime w)) (CfgFinalizer m) = false ->
  wp (serving w) worldCall (Reconcile m (objName KRuntime (wRuntime w))) [] (returns (advanced w)).
Proof.
  intros Hw Hs Hfin. pose proof Hw as (_ & Hv & _). pose proof Hv as (_ & Hdel & _ & _ & _ & Hpend).
  apply start; [done|by unfold shootOf; rewrite Hs|]. intros h Ha. unfold shootOf. rewrite Hs.
  unfold sFnInitialize. apply swp_bind, swp_getInstance, swp_bind, swp_modify. cbn [instance]. rewrite Hdel, Hfin.
  cbn [negb andb]. unfold addFinalizerAndRequeue, requeue. apply swp_bind, swp_modify, swp_bind. unfold updateInstance.
  apply swp_bind, swp_getInstance, swp_bind, swp_call; [done|]. intros r (_ & v' & -> & Hm & Hspec & Hst).
  apply swp_bind, swp_modify, swp_ret, swp_ret. cbn [turnTo]. right. split; [by eexists|].
  change (after _ w) with (with_runtime (after h w) v'). rewrite Ha. cbn in Hm, Hspec.
  destruct Hm as (E1 & E2 & E3 & E4 & E5 & E6 & E7).
  pose proof (add_finalizer_meta (rtMeta (wRuntime w)) (CfgFinalizer m)) as Hadd.
  assert (forall A (f : ObjectMeta -> A), (forall o l, f (meta_with_finalizers o l) = f o) ->
    f (AddFinalizer (rtMeta (wRuntime w)) (CfgFinalizer m)) = f (rtMeta (wRuntime w))) as Hf.
  { intros A f Hi. rewrite <- Hadd at 2. by rewrite Hi. }
  assert (CfgFinalizer m ∈ Finalizers (rtMeta v')) as Hin by (rewrite E7; apply add_finalizer; by left).
  apply forward_alone; [done| |].
  - apply keeps_onTheWay; [|done]. unfold keeps, pending. rewrite Hst, Hspec. split_and!; [done| |done|done].
    unfold sameObject. cbn. rewrite E1, E2, E3, E4, E5, E6. split_and!; try done; by apply Hf.
  - rewrite !noShoot_rounds by done. cbn. rewrite Hst, Hfin, (proj2 (contains_finalizer _ _) Hin). lia.
Qed.

Lemma labelled v : ValidateRequiredLabels v = None -> mapGet (Labels (rtMeta v)) LabelKymaRuntimeID <> "".
Proof.
  unfold ValidateRequiredLabels. cbn. destruct (String.eqb _ ""); [done|].
  by destruct (String.eqb_spec (mapGet (Labels (rtMeta v)) LabelKymaRuntimeID) "").
Qed.

(** Recording a pending condition leaves the Runtime under way. *)
Lemma keeps_recorded now c r st msg v i v' :
  storedFrom v (UpdateStatePending now c r st msg i) v' -> keeps v v'.
Proof. intros Hv'. eapply storedFrom_keeps; [done|]. by right. Qed.

Lemma found_pending now c r st msg v i v' :
  storedFrom v (UpdateStatePending now c r st msg i) v' -> is_Some (FindStatusCondition (Conditions (rtStatus v')) c).
Proof.
  intros (_ & _ & ->). cbn.
  destruct (find_set (Conditions (rtStatus i)) (mkCondition c st now r msg)) as (c' & Hf & _). by exists c'.
Qed.

(** The state functions up to the creation, when there is no Shoot. *)
Lemma initialize_alone w Q :
  onTheWay w -> wShoot w = None -> ContainsFinalizer (rtMeta (wRuntime w)) (CfgFinalizer m) = true ->
  (forall h, after h w = w -> let s := mkState (wRuntime w) (rtStatus (wRuntime w)) None in
     swp (serving w) worldCall
       (match FindStatusCondition (Conditions (rtStatus (wRuntime w))) ConditionTypeRuntimeProvisioned with
        | None =>
            _ ← statePending ConditionTypeRuntimeProvisioned ConditionReasonInitialized ConditionUnknown "Runtime initialized";
            updateStatusAndRequeueAfter (StatusRequeueDelay m)
        | Some _ => switchState SfnCreateShoot
        end) s h (turnTo (serving w) worldCall Q 13) (fun _ => False)) ->
  wp (serving w) worldCall (Reconcile m (objName KRuntime (wRuntime w))) [] (returns Q).
Proof.
  intros (_ & Hv & _) Hs Hfin Hgo. pose proof Hv as (_ & Hdel & Hlabels & _).
  apply start; [done|by unfold shootOf; rewrite Hs|]. intros h Ha. unfold shootOf. rewrite Hs.
  unfold sFnInitialize. apply swp_bind, swp_getInstance, swp_bind, swp_modify. cbn [instance]. rewrite Hdel, Hfin.
  cbn [negb andb]. destruct (String.eqb_spec (mapGet (Labels (rtMeta (wRuntime w))) LabelKymaRuntimeID) "") as [E|_];
    [by apply labelled in E|]. apply swp_bind, swp_getState. by apply Hgo.
Qed.

Lemma initialized_round w :
  onTheWay w -> wShoot w = None -> ContainsFinalizer (rtMeta (wRuntime w)) (CfgFinalizer m) = true ->
  FindStatusCondition (Conditions (rtStatus (wRuntime w))) ConditionTypeRuntimeProvisioned = None ->
  wp (serving w) worldCall (Reconcile m (objName KRuntime (wRuntime w))) [] (returns (advanced w)).
Proof.
  intros Hw Hs Hfin Hcond. apply initialize_alone; [done..|]. intros h Ha. rewrite Hcond. cbv zeta.
  apply (pend w (serving w) worldCall); [done|by rewrite Ha|]. intros now v' h' Hv' Hafter. right. split.
  { apply again_after. do 3 right. by left. }
  rewrite Hafter, Ha. pose proof (keeps_recorded _ _ _ _ _ _ _ _ Hv') as Hk.
  apply forward_alone; [done|by apply keeps_onTheWay|]. rewrite !noShoot_rounds by done. cbn.
  destruct (found_pending _ _ _ _ _ _ _ _ Hv') as [c ->]. destruct Hv' as ((_ & _ & _ & _ & _ & _ & E7) & _ & _).
  assert (ContainsFinalizer (rtMeta v') (CfgFinalizer m) = true) as ->.
  { apply contains_finalizer. rewrite E7. by apply contains_finalizer. }
  rewrite Hfin, Hcond. lia.
Qed.

Context (Hgardener : gardenerCreates) (Hconverts : converts) (Haudit : auditLogged).
Context (Hnamespace : ShootNamesapace m = gardenNamespace m).
Context (Hauth : forall c : AuthenticationConfiguration, isOk (marshal c) = true).

(** A part that writes nothing of the world. *)
Lemma quietly {A} w (p : prog A) h (Q : outcome A -> history -> Prop) (Post : A -> history -> Prop) :
  wp (serving w) (fun _ => untracked) p h (returns Post) ->
  (forall a h', Post a h' -> after h' w = after h w -> Q (Done a) h') -> wp (serving w) worldCall p h Q.
Proof.
  intros Hp HQ. apply (wp_weaken (serving w) _ (fun _ => untracked)); [done|intros ? c; case_call c; done|].
  eapply wp_mono; [|apply wp_trace, Hp]. intros [a|] h' [Hpost He]; [|done]. apply HQ; [done|]. by apply after_untracked.
Qed.

Lemma structured_config w cmKey oidc h :
  wp (serving w) (fun _ => untracked) (CreateOrUpdateStructuredAuthConfigMap cmKey oidc) h
    (returns (fun err _ => err = None)).
Proof.
  unfold CreateOrUpdateStructuredAuthConfigMap, authConfigMap. wp_norm. split; [done|]. intros r [_ Hr].
  destruct r as [cm|e]; cbn in Hr |- *; rewrite ?Hr.
  all: destruct (proj1 (isOk_true _) (Hauth (toAuthenticationConfiguration oidc))) as [bytes ->]; cbn;
    (split; [done|]); intros x [_ Hx]; by apply isOk_true in Hx as [y ->].
Qed.

(** What the interface of the converter adds. *)
Lemma conversion_done w opts h :
  provisionable (wRuntime w) -> createsWith opts ->
  wp (serving w) (fun _ => untracked) (toShootCreate opts (wRuntime w)) h (returns (fun cv _ =>
    rtStatus (cvRuntime cv) = rtStatus (wRuntime w) /\ exists o, cvShoot cv = Ok o /\ shootFor (wRuntime w) o)).
Proof.
  intros Hv Hopts. set (Q := mayPanic (fun cv (_ : history) =>
    sameIdentity (wRuntime w) (cvRuntime cv) /\ namesShoot (coConverterConfig opts) (wRuntime w) (cvShoot cv))).
  assert (wp (serving w) (fun _ => untracked) (toShootCreate opts (wRuntime w)) h Q) as Hid.
  { apply create_ok; [intros ? c; case_call c; done|by intros ? ? _ ? ?|done]. }
  eapply wp_mono; [|apply (wp_conj _ _ _ _ _ _ (Hconverts w opts h Hv Hopts) Hid)].
  intros [cv|] h' [Hq Hn]; [|done]. destruct Hq as (o & Ho & Hpatch & Hmade). destruct Hn as [(_ & Hst & _) Hn].
  split; [done|]. exists o. split; [done|]. split; [|by split]. rewrite Ho in Hn. destruct Hn as [Hn Hns]. cbn.
  unfold shootKey. rewrite Hn, Hns, (proj1 Hopts), Hnamespace. done.
Qed.

Lemma window_only path region : only untracked (GetMaintenanceWindow path region).
Proof. unfold GetMaintenanceWindow, getDataFromFile. repeat only_step. Qed.

(** The world with the Shoot created. *)
Lemma forward_created w o v' :
  onTheWay w -> wShoot w = None -> keeps (wRuntime w) v' -> CfgFinalizer m ∈ Finalizers (rtMeta (wRuntime w)) ->
  shootFor (wRuntime w) o -> rounds w = last + 9 -> forward w (with_runtime (with_wshoot w (Some (o, 0))) v').
Proof.
  intros Hw Hs Hk Hfin Ho Hr. pose proof Hw as ((Hc & Hsec & _) & Hv & _). rewrite Hs in Hc. rewrite Hc in Hsec.
  assert (onTheWay (with_wshoot w (Some (o, 0)))) as Hw1.
  { split_and!; [|done|by split]. split_and!; cbn; [split; [apply Ho|lia]|by rewrite Hc|by rewrite Hsec]. }
  split; [by apply keeps_onTheWay|]. intros w2 w3. cbn. rewrite Hc. intros ->. unfold gardenerStep. cbn.
  intros (n' & -> & Hle & _). rewrite Hr. unfold rounds.
  cbn [with_runtime with_wshoot wShoot wCluster wRuntime]. rewrite Hc. destruct (Nat.ltb_spec n' last); [lia|].
  pose proof (ahead_bound m (gardener o last) v'). lia.
Qed.

Lemma creation_round w :
  onTheWay w -> wShoot w = None -> ContainsFinalizer (rtMeta (wRuntime w)) (CfgFinalizer m) = true ->
  is_Some (FindStatusCondition (Conditions (rtStatus (wRuntime w))) ConditionTypeRuntimeProvisioned) ->
  wp (serving w) worldCall (Reconcile m (objName KRuntime (wRuntime w))) [] (returns (advanced w)).
Proof.
  intros Hw Hs Hfin [cond Hcond]. pose proof Hw as (_ & Hv & _). pose proof Hv as ([Hspec _] & _ & Hlabels & Hseed & Hded & _).
  apply initialize_alone; [done..|]. intros h Ha. rewrite Hcond. cbv zeta. apply swp_ret. cbn [turnTo].
  apply (turning w (serving w) worldCall). cbn [step]. unfold sFnCreateShoot, createShootReserve, createShootRest.
  apply swp_bind, swp_getInstance. cbn [instance]. rewrite Hseed. apply swp_bind, swp_getInstance. cbn [instance].
  rewrite Hded. apply swp_bind, swp_getInstance, swp_bind, swp_lift. eapply quietly; [apply structured_config|].
  intros err h1 -> Ha1. apply swp_bind, swp_lift.
  cbn [instance]. rewrite Hspec. eapply quietly; [apply Haudit|]. intros data h2 Hdata Ha2.
  assert (negb (isOk data) && AuditLogMandatory m = false) as ->.
  { destruct (isOk data) eqn:E; [done|]. destruct (AuditLogMandatory m); [by rewrite Hdata in E|done]. }
  apply swp_bind.
  assert (forall h3 (Q' : option MaintenanceTimeWindow -> systemState -> history -> Prop) s,
    (forall x h4, after h4 w = after h3 w -> Q' x s h4) ->
    swp (serving w) worldCall (getMaintenanceTimeWindow m) s h3 Q' (fun _ => False)) as Hwindow.
  { intros h3 Q' s HQ. unfold getMaintenanceTimeWindow. apply swp_bind, swp_getInstance.
    match goal with |- context [if ?b then lift _ ≫= _ else _] => destruct b end; [|apply swp_ret; by apply HQ]. apply swp_bind.
    apply (swp_only _ _ untracked); [apply window_only|intros ? c; case_call c; done|]. intros a h4 He. apply swp_ret; apply HQ.
    by apply after_untracked. }
  apply Hwindow. intros window h3 Ha3. apply swp_bind. unfold convertCreate. apply swp_bind, swp_getInstance. cbn [instance].
  rewrite Hlabels. apply swp_bind, swp_lift. eapply quietly; [by apply conversion_done|].
  intros cv h4 (Hst & o & Ho & Hfor) Ha4. apply swp_bind, swp_modify, swp_ret. rewrite Ho.
  apply swp_bind, swp_call; [done|]. intros r [_ Hr]. specialize (Hr Hs). apply isOk_true in Hr as [o' ->].
  assert (after (Ev (CCreate Garden KShoot o) (Ok o') :: h4) w = with_wshoot w (Some (o, 0))) as Ha5.
  { change (after (_ :: h4) w) with (with_wshoot (after h4 w) (Some (o, 0))). rewrite Ha4, Ha3, Ha2, Ha1.
    change (after (_ :: h) w) with (after h w). by rewrite Ha. }
  apply (pend w (serving w) worldCall); [done|by rewrite Ha5|]. intros now v' h' Hv' Hafter. right. split; [by apply again_after; left|].
  rewrite Hafter, Ha5. apply forward_created; [done..|by eapply keeps_recorded|by apply contains_finalizer|done|].
  rewrite noShoot_rounds by done. by rewrite Hfin, Hcond.
Qed.

(** ** While Gardener creates the Shoot *)

Lemma up_rounds w o n : wShoot w = Some (o, n) -> last <= n -> rounds w <= 8.
Proof.
  intros Hs Hn. unfold rounds. rewrite Hs. destruct (Nat.ltb_spec n last); [lia|].
  pose proof (ahead_bound m (gardener o last) (wRuntime w)). destruct (wCluster w); [|lia].
  destruct (String.eqb _ _); lia.
Qed.

Lemma keeps_refl v : pending v -> keeps v v.
Proof. intros Hp. by split_and!. Qed.

Lemma forward_creating w o n v' :
  onTheWay w -> wShoot w = Some (o, n) -> n < last -> keeps (wRuntime w) v' -> forward w (with_runtime w v').
Proof.
  intros Hw Hs Hn Hk. split; [by apply keeps_onTheWay|]. intros w2 w3 Hw2 Hstep.
  assert (wShoot w2 = Some (o, n)) as Hs2.
  { cbn in Hw2. destruct (wCluster w); [|by subst]. by destruct Hw2 as (c & s & -> & _). }
  unfold gardenerStep in Hstep. rewrite Hs2 in Hstep. destruct Hstep as (n' & -> & Hle & Hgo).
  assert (rounds w = (last - n) + 8) as ->.
  { unfold rounds. rewrite Hs. by destruct (Nat.ltb_spec n last); [|lia]. }
  destruct (decide (n' < last)) as [Hn'|Hn'].
  - unfold rounds. cbn [with_wshoot wShoot]. destruct (Nat.ltb_spec n' last); lia.
  - pose proof (up_rounds (with_wshoot w2 (Some (o, n'))) o n' eq_refl). lia.
Qed.

(** Waiting for the creation. *)
Lemma wait_creating w sh n s h :
  inProgress sh -> (dns ← ssDNS (shootSpec sh); dnsDomain dns) <> None -> stLastOperation (shootStatus sh) <> None ->
  sshoot s = Some sh -> snapshot s = rtStatus (wRuntime w) -> after h w = w ->
  (forall v', keeps (wRuntime w) v' -> forward w (with_runtime w v')) ->
  swp (serving w) worldCall (sFnWaitForShootCreation m) s h (turnTo (serving w) worldCall (advanced w) (S (S n))) (fun _ => False).
Proof.
  intros [?|[?|(op & Eop & Htype & Hstate)]] Hdns Hop Hs Hsnap Ha Hgo; [done..|].
  assert (forall r st msg, swp (serving w) worldCall
    (_ ← statePending ConditionTypeRuntimeProvisioned r st msg; updateStatusAndRequeueAfter (RequeueDurationShootCreate m))
    s h (turnTo (serving w) worldCall (advanced w) (S (S n))) (fun _ => False)) as Hpending.
  { intros r st msg. apply (pend w (serving w) worldCall); [done|by rewrite Ha|]. intros now v' h' Hv' Hafter. right.
    split; [apply again_after; right; by left|]. rewrite Hafter, Ha. by eapply Hgo, keeps_recorded. }
  unfold sFnWaitForShootCreation. apply swp_bind, (swp_getShoot _ _ _ _ sh); [done|]. apply swp_bind, swp_lift.
  rewrite Eop. cbn [deref wp]. destruct Hstate as [[Hin Hseeds]|[-> Hretry]]; [|rewrite Hretry; apply Hpending].
  rewrite !elem_of_cons, elem_of_nil in Hin.
  destruct_or? Hin; try done; rewrite Hin; apply swp_bind, swp_lift; unfold stateNoMatchingSeeds; rewrite Eop;
    cbn [deref]; wp_norm; cbn [wp]; rewrite Hseeds; apply Hpending.
Qed.

Lemma creating_round w o n :
  onTheWay w -> wShoot w = Some (o, n) -> n < last ->
  wp (serving w) worldCall (Reconcile m (objName KRuntime (wRuntime w))) [] (returns (advanced w)).
Proof.
  intros Hw Hs Hn. pose proof Hw as ((Hc & _) & Hv & Hsh). rewrite Hs in Hc, Hsh. destruct Hc as [Hkey _].
  destruct Hsh as [(_ & Hpatch & _) Hfin]. pose proof Hv as (_ & Hdel & Hlabels & _ & _ & Hpend). destruct (Hgardener o) as (Hkeep & Hprog & _).
  specialize (Hprog n Hn). destruct (Hkeep n) as [Hname Hann]. set (sh := gardener o n) in *.
  assert (forall v', keeps (wRuntime w) v' -> forward w (with_runtime w v')) as Hgo by (intros v'; by apply (forward_creating w o n)).
  assert (shootOf gardener w = Some sh) as Hsw by (unfold shootOf; by rewrite Hs).
  apply start; [done|rewrite Hsw; intros ? [= <-]; by rewrite Hname|]. intros h Ha. rewrite Hsw.
  apply contains_finalizer in Hfin. unfold sFnInitialize, switchState.
  apply swp_bind, swp_getInstance, swp_bind, swp_modify. cbn [instance]. rewrite Hdel, Hfin. cbn [negb andb].
  destruct (String.eqb_spec (mapGet (Labels (rtMeta (wRuntime w))) LabelKymaRuntimeID) "") as [E|_]; [by apply labelled in E|].
  apply swp_bind, swp_getState, swp_ret. cbn [turnTo]. apply (turning w (serving w) worldCall). cbn [step]. unfold sFnSelectShootProcessing.
  apply swp_bind, (swp_getShoot _ _ _ _ sh); [done|].
  assert (forall h' s, after h' w = w ->
    swp (serving w) worldCall (_ ← setRuntimeStates; requeueAfter (GardenerRequeueDuration m)) s h' (turnTo (serving w) worldCall (advanced w) 12) (fun _ => False)) as Hlater.
  { intros h' s Hh'. apply swp_bind. unfold setRuntimeStates, requeueAfter. apply swp_bind, swp_getInstance, swp_call; [done|].
    intros [] _. apply swp_ret. right. split; [by apply again_after; left|].
    change (after _ w) with (after h' w). rewrite Hh', <- (with_same w). by apply Hgo, keeps_refl. }
  destruct (dns ← ssDNS (shootSpec sh); dnsDomain dns) as [domain|] eqn:Edns; [|by apply Hlater].
  destruct (stLastOperation (shootStatus sh)) as [op|] eqn:Eop; [|by apply Hlater].
  unfold LogLastErrors. apply swp_bind, swp_bind, swp_getState. cbn [exposeShootStatusInfo sshoot with_instance].
  apply swp_bind, swp_lift. rewrite Eop. cbn [deref wp]. apply swp_ret, swp_bind, swp_getInstance.
  unfold shouldPatchShoot in *. cbn [exposeShootStatusInfo sshoot instance with_instance rtMeta runtime_with_status].
  rewrite Hann, Hpatch. unfold selectWaitState, switchState. cbv zeta. cbn [State rtStatus runtime_with_status].
  assert (String.eqb (State (rtStatus (wRuntime w))) RuntimeStatePending || String.eqb (State (rtStatus (wRuntime w))) "" = true)
    as -> by (destruct Hpend as [-> | ->]; done).
  assert (loType op = LastOperationTypeCreate) as -> by (destruct Hprog as [?|[?|(op' & E & Htype & _)]]; congruence).
  cbn [andb]. rewrite bool_decide_true by done. apply swp_ret. cbn [turnTo]. apply (turning w (serving w) worldCall). cbn [step].
  eapply wait_creating; try done; congruence.
Qed.

(** ** Once the Shoot is up *)

(** The writes of such a reconciliation. *)
Definition upWrite (w : world) (c : call) : Prop :=
  match wCluster w, c with None, CCreate Kcp KGardenerCluster _ => True | _, _ => passWrite c end.

(** The servers as [FsmConverge] sees them. *)
Definition upRely (w : world) (sh : Shoot) : rely :=
  healthy m sh (answers (wCluster w)) (during gardener issued also w []) (wRuntime w).

Lemma during_up w o h c r :
  onTheWay w -> wShoot w = Some (o, last) -> upWrite w c -> serving w h (Ev c r) -> upRely w (gardener o last) h (Ev c r).
Proof.
  intros Hw Hs Hc Hr. split; [exact Hr|]. destruct Hr as [_ Hr]. pose proof Hw as ((Hshoot & Hcluster & Hsecret) & _ & _).
  rewrite Hs in Hshoot. destruct Hshoot as [Hkey _]. destruct (Hgardener o) as (Hkeep & _). destruct (Hkeep last) as [Hname _].
  unfold upWrite in Hc. revert Hc Hr. case_call c; try exact (fun _ x => x); try (by destruct (wCluster w)).
  - intros _ Hr ->. destruct (wCluster w) as [c|]; [|done]. destruct Hcluster as [Hof _]. by rewrite under_eq in Hr by apply Hof.
  - intros _ Hr (r' & Hgc & c & -> & Hready). destruct (wCluster w) as [c'|]; [|by destruct Hgc as (? & ? & _)].
    injection Hgc as ->. destruct Hcluster as [_ Hsec]. destruct (Hsec Hready) as [s Es]. revert Hr. case_bool_decide as Ek; [|done].
    destruct (Hsecret s Es) as (Hn & _ & _ & data & k & Hd & _). rewrite Es, under_eq by congruence. cbn. intros ->. by exists s.
  - intros _ Hr ->. unfold shootOf in Hr. rewrite Hs in Hr. cbn [fmap option_fmap option_map fst snd] in Hr.
    rewrite under_eq in Hr by (etransitivity; [exact Hname|exact Hkey]). exact Hr.
  - intros _. destruct ns; [|done]. by intros ->.
  - destruct (wCluster w) eqn:E; [done|]. intros _ Hr. by destruct (Hr eq_refl) as (c & -> & _).
  - intros _. by intros (k & -> & _).
Qed.

Lemma underway_up w o : onTheWay w -> wShoot w = Some (o, last) -> underway m (gardener o last) (wRuntime w).
Proof.
  intros (_ & (_ & Hdel & Hlabels & _ & Hded & Hpend) & Hsh) Hs. rewrite Hs in Hsh. destruct Hsh as [(_ & Hpatch & _) Hfin].
  destruct (Hgardener o) as (Hkeep & _). destruct (Hkeep last) as [_ Hann].
  split_and!; try done; [by apply labelled|]. unfold shouldPatchShoot in *. by rewrite Hann.
Qed.

(** A reconciliation of the Runtime is one of [FsmConverge]'s. *)
Lemma up_round w o (P : call -> Prop) ends :
  onTheWay w -> wShoot w = Some (o, last) ->
  (forall c, passWrite c -> P c) -> (forall c, P c -> upWrite w c) ->
  (forall out h h', fresh h -> stepped m (gardener o last) (wRuntime w) out h' -> extends passWrite h h' -> ends out h') ->
  (forall n s h, fresh h -> inPass m (gardener o last) (wRuntime w) s ->
     goesOn m (gardener o last) (answers (wCluster w)) (during gardener issued also w []) (wRuntime w) ends (fun _ => P)
       (8 + n) SfnHandleKubeconfig s h) ->
  (forall out h, ends out h -> extends P [] h -> advanced w out h) ->
  wp (serving w) worldCall (Reconcile m (objName KRuntime (wRuntime w))) [] (returns (advanced w)).
Proof.
  intros Hw Hs HP HPw Hstep Hkube Hends. apply (wp_environment (upRely w (gardener o last)) _ (fun _ => P)).
  - intros h c r Hc. apply during_up; [done..|by apply HPw].
  - intros h c Hc%HPw. unfold upWrite in Hc. revert Hc. destruct (wCluster w); case_call c; done.
  - eapply wp_mono; [|apply (wp_trace _ _ _ _ (returns ends))].
    { intros [out|] h [Hq He]; [by apply Hends|exact Hq]. }
    unfold Reconcile. wp_norm. split; [by apply HP|]. intros r [[_ Hr] _]. rewrite under_eq in Hr by done. cbn in Hr. subst r.
    eapply run_pass; try done.
    + by apply healthy_serves.
    + apply Hgardener.
    + by apply underway_up.
    + by constructor.
Qed.

Lemma step_up w o w' : wShoot w = Some (o, last) -> gardenerStep w w' -> w' = w.
Proof.
  intros Hs. unfold gardenerStep. rewrite Hs. intros (n' & -> & Hle & Hn). assert (n' = last) as -> by lia.
  destruct w. cbn in *. by subst.
Qed.

Lemma rounds_up w o :
  wShoot w = Some (o, last) ->
  rounds w =
    match wCluster w with
    | Some c => if String.eqb (gcState c) ReadyState then S (ahead m (gardener o last) (wRuntime w)) else 5
    | None => 5 + ahead m (gardener o last) (wRuntime w)
    end.
Proof. intros Hs. unfold rounds. rewrite Hs. by destruct (Nat.ltb_spec last last); [lia|]. Qed.

(** After a reconciliation that leaves a GardenerCluster, the kubeconfig controller
    makes it ready. *)
Lemma forward_up w w1 o c :
  onTheWay w1 -> wShoot w1 = Some (o, last) -> wCluster w1 = Some c ->
  S (ahead m (gardener o last) (wRuntime w1)) < rounds w -> forward w w1.
Proof.
  intros Hw1 Hs Hc Hr. split; [done|]. intros w2 w3. rewrite Hc. intros (c' & s & -> & _ & Hready & _) Hstep.
  apply (step_up _ o) in Hstep as ->; [|done]. rewrite (rounds_up _ o) by done. cbn. by rewrite Hready.
Qed.

Lemma stepped_keeps o v out h :
  stepped m (gardener o last) v out h ->
  exists v', stored h v' /\ keeps v v' /\ out = Some (mkResult false (StatusRequeueDelay m), None) /\
    ahead m (gardener o last) v' < ahead m (gardener o last) v.
Proof.
  intros (v' & Hst & Hm & Hspec & -> & Hp & Ha). exists v'. split_and!; try done.
  by apply (storedFrom_keeps v v').
Qed.

(** The reconciliation has recorded a milestone. *)
Lemma stepped_advanced w o out h :
  onTheWay w -> wShoot w = Some (o, last) -> stepped m (gardener o last) (wRuntime w) out h ->
  extends passWrite [] h -> advanced w out h.
Proof.
  intros Hw Hs (v' & Hst & Hk & -> & Ha)%stepped_keeps He. right. split; [apply again_after; do 3 right; by left|].
  rewrite (after_finish _ _ w v' He Hst). cbn [after foldr]. assert (onTheWay (with_runtime w v')) as Hw1 by by apply keeps_onTheWay.
  pose proof (ahead_bound m (gardener o last) (wRuntime w)). pose proof (rounds_up w o Hs) as Hr.
  destruct (wCluster w) as [c|] eqn:Ec.
  - apply (forward_up _ _ o c); [done..|]. rewrite Hr. cbn [with_runtime wRuntime]. destruct (String.eqb _ _); lia.
  - split; [done|]. intros w2 w3. cbn [with_runtime wCluster]. rewrite Ec. intros -> Hstep.
    apply (step_up _ o) in Hstep as ->; [|done]. rewrite (rounds_up _ o), Hr by done. cbn [with_runtime wCluster wRuntime].
    rewrite Ec. lia.
Qed.

(** The secret of a Runtime belongs to it whatever its status. *)
Lemma secretOf_same v v' s :
  sameObject (rtMeta v) (rtMeta v') -> rtSpec v' = rtSpec v -> secretOf v s -> secretOf v' s.
Proof.
  intros (_ & E2 & _ & _ & E5 & _) Hspec. unfold World.secretOf, kubeconfigKey, shootKey. by rewrite E2, E5, Hspec.
Qed.

Context (Hboot : forall o gc v, bootstrapped m (gardener o last) gc also v).
Context (Hmarshal : forall info : KymaProvisioningInfo, isOk (marshal info) = true).

Lemma ready_round w o c :
  onTheWay w -> wShoot w = Some (o, last) -> wCluster w = Some c -> gcState c = ReadyState ->
  wp (serving w) worldCall (Reconcile m (objName KRuntime (wRuntime w))) [] (returns (advanced w)).
Proof.
  intros Hw Hs Hc Hready.
  apply (up_round w o passWrite (fun out h =>
    stepped m (gardener o last) (wRuntime w) out h \/ finished (wRuntime w) out h)); try done.
  - intros c'. unfold upWrite. by rewrite Hc.
  - intros out h h' _ ? _. by left.
  - intros n s h _ Hin. apply kubeconfig_pass; try done; [|apply Hgardener|by apply underway_up| |by left|by right].
    + rewrite Hc. cbn. intros r ->. by exists c.
    + intros Hcl i Hi rt h'.
      assert (forall A (q : prog A) Q,
        wp (healthy m (gardener o last) (answers (wCluster w)) also (wRuntime w)) passCall q h' Q ->
        wp (healthy m (gardener o last) (answers (wCluster w)) (during gardener issued also w []) (wRuntime w)) passCall q h' Q) as Hweak.
      { intros A q Q. apply wp_weaken; [|done]. intros h0 e [[Hal _] Hr]. by split. }
      split_and!; apply Hweak, (Hboot o _ _ Hcl i Hi rt h').
  - intros out h [Hst|(v' & Hst & Hm & Hspec & Hv' & ->)] He; [by eapply stepped_advanced|].
    left. split; [|done]. rewrite (after_finish _ _ w v' He Hst). cbn [after foldr].
    destruct Hw as ((_ & Hcluster & Hsecret) & _ & Hsh). rewrite Hs in Hsh. rewrite Hc in Hcluster. destruct Hcluster as [_ Hsec].
    destruct (Hsec Hready) as [s Es]. split_and!; [done|exists o; split; [done|apply Hsh]|]. exists c, s. split_and!; try done.
    eapply secretOf_same; [exact Hm|exact Hspec|by apply Hsecret].
Qed.

Lemma fresh_extends h : fresh h -> extends passWrite [] h.
Proof. intros Hh. exists h. split; [by rewrite app_nil_r|]. eapply Forall_impl; [exact Hh|]. intros e. apply untracked_pass. Qed.

Lemma fresh_after w h : fresh h -> after h w = w.
Proof. intros Hh. apply (after_untracked [] h w). exists h. by rewrite app_nil_r. Qed.

(** The GardenerCluster is there, but not ready yet. *)
Lemma waiting_round w o c :
  onTheWay w -> wShoot w = Some (o, last) -> wCluster w = Some c -> gcState c <> ReadyState ->
  wp (serving w) worldCall (Reconcile m (objName KRuntime (wRuntime w))) [] (returns (advanced w)).
Proof.
  intros Hw Hs Hc Hready.
  apply (up_round w o passWrite (fun out h =>
    stepped m (gardener o last) (wRuntime w) out h /\ extends passWrite [] h \/
    out = Some (mkResult false (ControlPlaneRequeueDuration m), None) /\ fresh h)); try done.
  - intros c'. unfold upWrite. by rewrite Hc.
  - intros out h h' Hh Hst He. left. split; [done|]. eapply extends_trans; [by apply fresh_extends|done].
  - intros n s h Hh Hin. apply turn; [by apply healthy_serves|]. cbn [step]. unfold sFnHandleKubeconfig.
    apply swp_bind, swp_getInstance, swp_bind, swp_call; [done|]. intros r [_ Hr].
    destruct Hin as (_ & _ & Hmeta & _). assert (r = Ok c) as ->.
    { rewrite Hc in Hr. apply Hr. by rewrite Hmeta. }
    destruct (String.eqb_spec (gcState c) ReadyState); [done|]. cbn [negb]. unfold requeueAfter. apply swp_ret.
    right. split; [done|]. by repeat (constructor; [done|]).
  - intros out h [[Hst He]|[-> Hh]] _; [by eapply stepped_advanced|]. right.
    split; [apply again_after; do 2 right; by left|]. rewrite fresh_after by done. apply (forward_up _ _ o c); [done..|].
    rewrite (rounds_up w o Hs), Hc. destruct (String.eqb_spec (gcState c) ReadyState); [done|].
    pose proof (ahead_bound m (gardener o last) (wRuntime w)). lia.
Qed.

(** The GardenerCluster that is made belongs to the Runtime. *)
Lemma made_clusterOf v i sh domain :
  rtMeta i = rtMeta v -> Name (shootMeta sh) = rsName (rShoot (rtSpec v)) ->
  (dns ← ssDNS (shootSpec sh); dnsDomain dns) = Some domain ->
  exists c, makeGardenerClusterForRuntime i sh = Ret c /\ clusterOf v c.
Proof.
  intros Hm Hn Hd. unfold makeGardenerClusterForRuntime. rewrite Hd, Hm. eexists. split; [reflexivity|].
  unfold clusterOf. cbn. rewrite Hn. split_and!; [done|done| |done|done|done]. by apply map_singleton_subseteq_l.
Qed.

(** The world with the GardenerCluster created. *)
Lemma forward_made w o c c' v' :
  onTheWay w -> wShoot w = Some (o, last) -> wCluster w = None -> clusterOf (wRuntime w) c -> sameCluster c c' ->
  gcState c' = "" -> keeps (wRuntime w) v' -> forward w (with_runtime (with_cluster w c') v').
Proof.
  intros Hw Hs Hc Hof Hsame Hst Hk. assert (onTheWay (with_cluster w c')) as Hw1.
  { destruct Hw as ((Hsh & _ & Hsec) & Hv & Hfor). split_and!; [|done|done]. unfold consistent. cbn. split_and!; [|..|done].
    - rewrite Hs in *. done.
    - by eapply sameCluster_of.
    - rewrite Hst. done. }
  apply (forward_up _ _ o c'); [by apply keeps_onTheWay|done..|]. rewrite (rounds_up w o Hs), Hc. cbn [with_runtime wRuntime].
  pose proof (ahead_bound m (gardener o last) v'). lia.
Qed.

Definition madeCluster (w : world) (out : option (Result * option GoError)) (h : history) : Prop :=
  out = Some (mkResult false (ControlPlaneRequeueDuration m), None) /\
  exists c c' v', after h w = with_runtime (with_cluster w c') v' /\ clusterOf (wRuntime w) c /\ sameCluster c c' /\
    gcState c' = "" /\ keeps (wRuntime w) v'.

Lemma make_cluster w o s h n :
  onTheWay w -> wShoot w = Some (o, last) -> wCluster w = None -> fresh h ->
  inPass m (gardener o last) (wRuntime w) s ->
  swp (upRely w (gardener o last)) (fun _ => upWrite w) (sFnHandleKubeconfig m) s h
    (turnTo (upRely w (gardener o last)) (fun _ => upWrite w) (madeCluster w) (S (S n))) (fun _ => False).
Proof.
  intros Hw Hs Hc Hh Hin. destruct (Hgardener o) as (Hkeep & _ & (domain & Hd) & _). destruct (Hkeep last) as [Hname _].
  pose proof Hw as ((Hsh & _ & _) & _ & _). rewrite Hs in Hsh. destruct Hsh as [Hkey _].
  destruct Hin as (Hsnap & Hshoot & Hmeta & _). assert (forall c, passWrite c -> upWrite w c) as HP.
  { intros c. unfold upWrite. rewrite Hc. case_call c; done. }
  assert (Serves (upRely w (gardener o last)) (fun _ => upWrite w) (wRuntime w)) as Hserves.
  { apply healthy_serves. by intros _. }
  unfold sFnHandleKubeconfig. apply swp_bind, swp_getInstance, swp_bind, swp_call; [by apply HP|]. intros r [_ Hr].
  rewrite Hc in Hr. destruct Hr as (e & -> & He); [by rewrite Hmeta|]. rewrite He. cbn [negb].
  apply swp_bind, (swp_getShoot _ _ _ _ (gardener o last)); [done|].
  destruct (made_clusterOf (wRuntime w) (instance s) (gardener o last) domain Hmeta) as (c & -> & Hof); [|done|].
  { injection Hname as _ Hn1. injection Hkey as _ Hn2. congruence. }
  apply swp_bind, swp_lift. cbn [wp]. apply swp_bind, swp_call; [unfold upWrite; by rewrite Hc|].
  intros r [[_ Hr] _]. destruct (Hr Hc) as (c' & -> & Hsame & Hst).
  match goal with |- swp _ _ _ _ ?h' _ _ => assert (after h' w = with_cluster w c') as Ha end.
  { change (with_cluster (after h w) c' = with_cluster w c'). by rewrite fresh_after. }
  apply (pend w (upRely w (gardener o last)) (fun _ => upWrite w)); [done|by rewrite Ha|]. intros now v' h' Hv' Hafter. split; [done|].
  exists c, c', v'. rewrite Hafter, Ha. split_and!; try done. by eapply keeps_recorded.
Qed.

Lemma missing_round w o :
  onTheWay w -> wShoot w = Some (o, last) -> wCluster w = None ->
  wp (serving w) worldCall (Reconcile m (objName KRuntime (wRuntime w))) [] (returns (advanced w)).
Proof.
  intros Hw Hs Hc. assert (forall c, passWrite c -> upWrite w c) as HP.
  { intros c. unfold upWrite. rewrite Hc. case_call c; done. }
  apply (up_round w o (upWrite w) (fun out h =>
    stepped m (gardener o last) (wRuntime w) out h /\ extends passWrite [] h \/ madeCluster w out h)); try done.
  - intros out h h' Hh Hst He. left. split; [done|]. eapply extends_trans; [by apply fresh_extends|done].
  - intros n s h Hh Hin. apply turn; [apply healthy_serves; by intros _|]. cbn [step].
    eapply swp_mono; [| |apply (make_cluster w o s _ (5 + n)); try done; by constructor]; [|done].
    intros [[[fn|] res] [e|]] s' h'; cbn [turnTo next];
      [by right|intros Hgo; eapply wp_mono; [|exact Hgo]; intros [out|] h''; [by right|done]|by right|by right].
  - intros out h [[Hst He]|(-> & c & c' & v' & Ha & Hof & Hsame & Hst & Hk)] _; [by eapply stepped_advanced|]. right.
    split; [apply again_after; do 2 right; by left|]. rewrite Ha. by eapply forward_made.
Qed.

(** ** The rounds together *)

Lemma runtime_round w :
  onTheWay w -> wp (serving w) worldCall (Reconcile m (objName KRuntime (wRuntime w))) [] (returns (advanced w)).
Proof.
  intros Hw. destruct (wShoot w) as [[o n]|] eqn:Hs.
  - destruct (decide (n < last)) as [Hn|Hn]; [by eapply creating_round|].
    assert (n = last) as ->.
    { destruct Hw as ((Hsh & _) & _). rewrite Hs in Hsh. destruct Hsh. lia. }
    destruct (wCluster w) as [c|] eqn:Hc; [|by eapply missing_round].
    destruct (decide (gcState c = ReadyState)); [by eapply ready_round|by eapply waiting_round].
  - destruct (ContainsFinalizer (rtMeta (wRuntime w)) (CfgFinalizer m)) eqn:Hfin; [|by apply finalizer_round].
    destruct (FindStatusCondition (Conditions (rtStatus (wRuntime w))) ConditionTypeRuntimeProvisioned) eqn:Hcond;
      [by apply creation_round|by apply initialized_round].
Qed.

Context (Hproject : kpShootNamespace (KubeconfigProvider controller) = ShootNamesapace m).

Lemma kubeconfig_onTheWay w w' : onTheWay w -> is_Some (wCluster w) -> kubeconfigReady issued m w w' -> onTheWay w'.
Proof.
  intros ((Hsh & Hcl & _) & Hv & Hfor) [c0 Hc0] (c & s & -> & Hof & _ & Hs). split_and!; [|done|done].
  split_and!; cbn.
  - destruct (wShoot w) as [[o n]|]; [done|congruence].
  - split; [done|by eexists].
  - by intros ? [= <-].
Qed.

Lemma step_onTheWay w w' : onTheWay w -> gardenerStep w w' -> onTheWay w'.
Proof.
  intros Hw. unfold gardenerStep. destruct (wShoot w) as [[o n]|] eqn:Hs; [|by intros ->].
  intros (n' & -> & Hle & _). destruct Hw as ((Hsh & Hcl & Hsec) & Hv & Hfor). rewrite Hs in *. destruct Hsh as [Hkey _].
  by split_and!.
Qed.

Lemma complete_within w n : onTheWay w -> rounds w <= n -> completeWithin n w.
Proof.
  revert w. induction n as [|n IH]; intros w Hw Hn.
  { exfalso. revert Hn. unfold rounds. destruct (wShoot w) as [[o k]|]; [|lia].
    destruct (Nat.ltb_spec k last); [lia|]. destruct (wCluster w); [destruct (String.eqb _ _)|]; lia. }
  cbn [completeWithin]. eapply wp_mono; [|by apply runtime_round]. intros [out|] h Hq; [|done].
  destruct Hq as [?|[Hagain [Hw1 Hf]]]; [by left|]. right. split; [done|]. unfold clusterRound.
  destruct (wCluster (after h w)) as [c|] eqn:Hc.
  - assert (forall o k, objName KShoot (gardener o k) = objName KShoot o) as Hnames by (intros o k; apply Hgardener).
    eapply wp_mono; [|apply (cluster_round gardener issued also m last controller Hnames Hproject); [apply Hw1|exact Hc]].
    intros [out2|] h2 Hq; [|done]. destruct Hq as [Hout Hk]. split; [done|]. intros w2 Hstep. apply IH.
    + eapply step_onTheWay; [|exact Hstep]. eapply kubeconfig_onTheWay; [exact Hw1|by rewrite Hc|exact Hk].
    + specialize (Hf _ _ Hk Hstep). lia.
  - intros w2 Hstep. apply IH; [by eapply step_onTheWay|]. specialize (Hf _ _ eq_refl Hstep). lia.
Qed.

(** A new Runtime becomes Ready: from nothing but the Runtime within eleven rounds
    beyond the steps Gardener needs to create a Shoot, and from any world on the way
    within its [rounds]. *)
Theorem runtime_provisioned (Hv : provisionable v0) :
  completeWithin (last + 11) (mkWorld v0 None None None) /\
  forall w, onTheWay w -> completeWithin (rounds w) w.
Proof.
  split; [|by intros w Hw; apply complete_within]. apply complete_within; [by split_and!|].
  rewrite noShoot_rounds by done. destruct (ContainsFinalizer _ _), (FindStatusCondition _ _); lia.
Qed.

End Provisioning.

(** ** An example *)

#[local] Existing Instances MetaRef.lib MetaRef.laws Demo.gardenerLib Demo.cacheLib Demo.authCodec Demo.windowCodec
  Demo.registryCodec Demo.infoCodec Demo.auditCodec demoYaml demoUnstructured.

(** A converter that records the generation. *)
Definition currentFor (cfg : ConverterConfig) (rt : Runtime) : Shoot :=
  let o := Demo.shootFor cfg rt in
  mkShoot (shootKind o) (shootAPIVersion o)
    (meta_with_annotations (shootMeta o) {[generationAnnotation := pretty (Generation (rtMeta rt))]})
    (shootSpec o) (shootStatus o).

#[local] Instance currentConverter : ShootConverter := {|
  toShootCreate opts rt := Ret (mkConversion rt [] (Ok (currentFor (coConverterConfig opts) rt)));
  toShootPatch opts rt := Ret (mkConversion rt (poResources opts) (Ok (currentFor (poConverterConfig opts) rt)))
|}.

#[local] Instance currentConverterOk : ConverterOk.
Proof.
  refine {| createPanics _ _ := False; patchPanics _ _ := False |};
    intros R G opts rt h Q _ HQ _; (apply HQ; [apply extends_refl|done|done|..]; by intros).
Defined.

(** Gardener takes two steps: it assigns the domain and begins, then it is done. *)
Definition demoGardener (o : Shoot) (n : nat) : Shoot :=
  let sh := Demo.readyShoot ∅ in
  mkShoot (shootKind o) (shootAPIVersion o) (shootMeta o)
    (match n with 0 => shootSpec o | _ => shootSpec sh end)
    (match n with
     | 0 => emptyShootStatus
     | 1 => mkShootStatus (Some (mkLastOperation "" 1 40 LastOperationStateProcessing LastOperationTypeCreate)) [] 1
     | _ => mkShootStatus (Some (mkLastOperation "" 2 100 LastOperationStateSucceeded LastOperationTypeCreate)) [] 1
     end).

(** It issues one kubeconfig per Shoot. *)
Definition demoKubeconfig (shoot : NamespacedName) : string := "kubeconfig of " +:+ nn_Name shoot.
Definition demoIssued (shoot : NamespacedName) (kubeconfig : string) : Prop := kubeconfig = demoKubeconfig shoot.

Definition demoController : GardenerClusterController := defaultKubeconfigController.
Definition newRuntime : Runtime := Demo.runtime [] ∅ None [].
Abbreviation installedDemo := (installed demoInstaller "deployment" deployed).

Lemma demo_current v cfg :
  sameSubject newRuntime v -> shouldPatchShoot v (currentFor cfg v) = Ok false.
Proof.
  intros (_ & _ & _ & Hgen & _ & _ & Hann & _). cbn in Hgen, Hann. unfold shouldPatchShoot, currentFor. cbn.
  rewrite Hann, Hgen. by vm_compute.
Qed.

Lemma demo_creates (lib : GardenerLib) : @gardenerCreates lib demoGardener 2.
Proof.
  intros o. split; [done|]. split.
  - intros n Hn. destruct n as [|[|n]]; [by right; left| |lia]. do 2 right. eexists. split; [reflexivity|].
    split; [done|]. left. split; [by left|reflexivity].
  - split; [by eexists|]. split; [by eexists|]. eexists. split; [reflexivity|]. split; [done|by left].
Qed.

(** The Shoot is that of the example's converter. *)
Definition demoMade (o : Shoot) : Prop := exists cfg v, o = currentFor cfg v.

Lemma runtime_provisioned_witness :
  completeWithin cfgBootstrapped demoController demoGardener 2 demoIssued installedDemo demoMade 13 (mkWorld newRuntime None None None).
Proof.
  apply (runtime_provisioned cfgBootstrapped demoController newRuntime demoGardener 2 demoIssued installedDemo demoMade).
  - by repeat constructor.
  - apply demo_creates.
  - intros w opts h (Hs & _) Hopts. eexists. split; [reflexivity|]. split; [by apply demo_current|by do 2 eexists].
  - intros R h. done.
  - done.
  - done.
  - intros o gc v. apply (installer_bootstrapped demoInstaller); [by vm_compute|]. by intros i [= <-].
  - done.
  - done.
  - by split_and!; [..|left].
Defined.

(** The servers of the example, and what they hold after a round. *)
Definition demoServers (w : world) : oracle := fun h c =>
  let get {A} (o : option A) : result A := match o with Some a => Ok a | None => Err Demo.notFound end in
  match c return resp c with
  | CGet Kcp KRuntime _ => Ok (wRuntime w)
  | CGet Garden KShoot _ => get (shootOf demoGardener w)
  | CGet Kcp KGardenerCluster _ => get (wCluster w)
  | CGet Kcp KSecret key =>
      if bool_decide (key = kubeconfigKey (wRuntime w)) then get (wSecret w)
      else Ok (mkSecret (metaNamed "pull" "kcp-system") "" None (Some ∅) ∅)
  | CGet Garden KConfigMap _ => Err Demo.notFound
  | CList Kcp KSecret _ _ => Ok (option_list (wSecret w))
  | CCreate Kcp KSecret o | CUpdate Kcp KSecret o =>
      Ok (mkSecret (secretMeta o) (secretType o) None (Some (secretStringData o ∪ default ∅ (secretData o))) ∅)
  | CAdminKubeconfig shoot _ => Ok (demoKubeconfig (objName KShoot shoot))
  | c => cooperative h c
  end.

Definition nextWorld {A} (p : prog A) (w : world) : world := after (snd (Effects.run (demoServers w) p [])) w.
Definition demoRound (w : world) : world :=
  let w := nextWorld (Reconcile cfgBootstrapped (objName KRuntime (wRuntime w))) w in
  let w := match wCluster w with
           | Some c => nextWorld (ClusterReconcile demoController (objName KGardenerCluster c)) w
           | None => w
           end in
  match wShoot w with Some (o, n) => with_wshoot w (Some (o, Nat.min 2 (S n))) | None => w end.

(** The state of the Runtime, the progress of the Shoot, the state of the
    GardenerCluster and the kubeconfig in the secret, round by round. *)
Definition observed (w : world) : string * option nat * option string * option string :=
  (State (rtStatus (wRuntime w)), snd <$> wShoot w, gcState <$> wCluster w,
   s ← wSecret w; data ← secretData s; data !! "config").

Example eight_rounds :
  observed <$> (fix go n w := match n with O => [w] | S n => w :: go n (demoRound w) end) 8 (mkWorld newRuntime None None None) =
  let stored := Some "kubeconfig of shoot" in
  [("", None, None, None); ("", None, None, None); (RuntimeStatePending, None, None, None);
   (RuntimeStatePending, Some 1, None, None); (RuntimeStatePending, Some 2, None, None);
   (RuntimeStatePending, Some 2, None, None); (RuntimeStatePending, Some 2, Some ReadyState, stored);
   (RuntimeStatePending, Some 2, Some ReadyState, stored); (RuntimeStateReady, Some 2, Some ReadyState, stored)].
Proof. by vm_compute. Qed.
