(* ===== verification/OperatorProvisioning.v ===== *)
(** * The operator makes a new Runtime Ready

    The rounds of Provisioning with the converter, the audit log provider, the
    bootstrapper and the kubeconfig controller as cmd/main.go puts them together. *)

From Stdlib Require Import SpecFloat.
From S2P Require Import Prelude Kube Gardener RuntimeApi Objects Effects Floats Duration Config Sscanf Extenders Provider.
From S2P Require Import RegistryCache StructuredAuth SkrDetails AuditLog ConverterApi GVisor Workers Extensions Converter.
From S2P Require Import FsmState Bootstrapper KubeconfigController FsmProvision FsmPatch FsmConfigure FsmDelete Fsm FsmSafety.
From S2P Require Import Serving FsmConverge World Operator Provisioning.
From S2P Require FsmExample.

Local Open Scope string_scope.

(** ** The converter makes current Shoots *)

Section Current.
Context `{GardenerLib} `{SortLib} `{HyperscalerCodecs} `{GVisorLib} `{ExtensionCodecs} `{Codec VXLanConfig}.
Context `{SliceCapacities}.

Lemma generation_recorded rt : getAnnotations rt !! generationAnnotation = Some (pretty (Generation (rtMeta rt))).
Proof.
  unfold getAnnotations. destruct (rsLicenceType _) as [licence|]; [destruct (negb _)|]; by vm_compute.
Qed.

(** A Shoot that carries the annotations of a Runtime need not be patched, unless that
    is asked for. *)
Lemma annotated_current rt sh :
  Annotations (shootMeta sh) = getAnnotations rt -> (0 <= Generation (rtMeta rt) < 2 ^ 63)%Z ->
  ShouldForceReconciliation (Annotations (rtMeta rt)) = false -> shouldPatchShoot rt sh = Ok false.
Proof.
  intros Hsh Hgen Hforce. unfold shouldPatchShoot. destruct (ShouldSuspendReconciliation _); [done|].
  rewrite Hforce, Hsh, generation_recorded, ParseInt64_pretty by done. by rewrite Z.ltb_irrefl.
Qed.

Lemma created_annotations opts rt shoot :
  createdFrom opts rt shoot -> Annotations (shootMeta shoot) = getAnnotations rt.
Proof. by intros (profile & provider & workers & extensions & tokens & -> & _). Qed.

End Current.

Section OperatorProvisioning.
Context `{MetaLaws} `{GardenerLaws} `{RegistryCacheLib} `{SortLaws} `{HyperscalerCodecs} `{GVisorLib} `{ExtensionCodecs}.
Context `{Codec VXLanConfig} `{SliceCapacities} `{YamlLib} `{Codec Unstructured}.
Context `{Codec AuthenticationConfiguration} `{Codec WindowMap} `{Codec KymaProvisioningInfo}.
Context (fl : flags) (config : Config) (p : DefaultDataProvider) (ratio : spec_float) (expirationTime : Z).
Context (v0 : Runtime) (gardener : Shoot -> nat -> Shoot) (last : nat) (issued : NamespacedName -> string -> Prop).
Context (also : event -> Prop).
Abbreviation m := (operatorConfig fl config (NewDataProvider p)).
Abbreviation controller := (kubeconfigController (gardenerProjectName fl) ratio expirationTime).

#[local] Existing Instance converterOk.

(** The flag and the configuration name the same project of Gardener. *)
Definition sameProject : Prop := gardenerProjectName fl = ProjectName (ccGardener (cfgConverterConfig config)).

(** The Runtime asks for no patch, and its generation is one the API server assigns. *)
Definition unforced : Prop :=
  ShouldForceReconciliation (Annotations (rtMeta v0)) = false /\ (0 <= Generation (rtMeta v0) < 2 ^ 63)%Z.

(** The converter can make a Shoot of the Runtime. *)
Definition convertible : Prop := forall w opts h,
  provisionable m v0 (wRuntime w) -> createsWith m opts ->
  wp (during gardener issued also w) (fun _ => untracked) (toShootCreate opts (wRuntime w)) h
    (returns (fun cv _ => isOk (cvShoot cv) = true)).

(** The configuration has an audit log for the provider and region of the Runtime. *)
Definition tenantConfigured : Prop :=
  isOk (GetAuditLogData (sharedConfig p) (rpType (rsProvider (rShoot (rtSpec v0)))) (rsRegion (rShoot (rtSpec v0)))) = true.

(** The runtime cluster runs the Deployment of the bootstrapper's manifests. *)
Definition deploymentRuns : Prop := exists manifests u,
  getDeploymentToBeApplied manifests = Ok (Some u) /\ forall e, also e -> installed (rtbConfig fl) manifests u e.

(** A Shoot that the converter made for the Runtime, as it is specified. *)
Definition asSpecified (o : Shoot) : Prop := exists opts v,
  provisionable m v0 v /\ createsWith m opts /\ createdFrom opts v o.

Lemma operator_converts : unforced -> convertible -> converts m v0 gardener issued also asSpecified.
Proof.
  intros [Hforce Hgen] Hconv w opts h Hv Hopts.
  assert (wp (during gardener issued also w) (fun _ => untracked) (toShootCreate opts (wRuntime w)) h
    (fun o _ => match o with Done cv => forall shoot, cvShoot cv = Ok shoot -> createdFrom opts (wRuntime w) shoot
                           | Panicked => True end)) as Hcreated.
  { eapply wp_confined; [apply created_confined|intros ? c; case_call c; done|by intros cv h'|done]. }
  eapply wp_mono; [|apply (wp_conj _ _ _ _ _ _ (Hconv w opts h Hv Hopts) Hcreated)].
  intros [cv|] h' [Hok Hfrom]; [|done]. apply isOk_true in Hok as [o Ho]. exists o. split; [done|].
  split; [|by exists opts, (wRuntime w); split_and!; [| |apply Hfrom]].
  destruct Hv as ((_ & Hmeta) & _). destruct Hmeta as (_ & _ & Hg & _ & _ & Ha & _). cbn in Hg, Ha.
  apply annotated_current; [by eapply created_annotations, Hfrom|by rewrite Hg|by rewrite Ha].
Qed.

Lemma bootstrapped_mono cfg sh gc (some more : event -> Prop) v :
  (forall e, more e -> some e) -> bootstrapped cfg sh gc some v -> bootstrapped cfg sh gc more v.
Proof.
  intros Hmore Hb Hcl i Hi rt h. destruct (Hb Hcl i Hi rt h) as (Hc & Hinfo & Hclean).
  split_and!; (eapply wp_weaken; [|done|eassumption]); intros h' e [Hal He]; (split; [by apply Hmore|exact He]).
Qed.

Lemma operator_bootstrapped sh gc v :
  (runtimeBootstrapperEnabled fl = true -> deploymentRuns) -> bootstrapped m sh gc also v.
Proof.
  intros Hrun. destruct (runtimeBootstrapperEnabled fl) eqn:Hen.
  - destruct (Hrun eq_refl) as (manifests & u & Hu & Halso). eapply bootstrapped_mono; [exact Halso|].
    apply (installer_bootstrapped (rtbConfig fl) manifests u); [done|]. cbn. rewrite Hen. by intros i [= <-].
  - intros _ i. cbn. by rewrite Hen.
Qed.

(** C6. The operator makes a new Runtime Ready. Given flags and a configuration that
    agree on the project, a labelled Runtime without dedicated audit log whose Shoot can
    be made, and servers that hold what is written to them, grant every request and run
    the bootstrapper's Deployment, then the state machine (with the converter, the
    audit log provider and the bootstrapper of this repository), the kubeconfig
    controller and Gardener, taking turns, make it Ready: from nothing but the Runtime
    within eleven rounds beyond the steps Gardener needs, and from any world on the
    way within its [rounds]. Until then every reconciliation returns without error and
    is called again; none panics; of the Runtime, Shoot, GardenerCluster and secrets
    they write no more than [worldWrite]. At the end the Runtime is Ready, the
    provisioning completed, the Shoot the specified one, the GardenerCluster ready, and
    the secret that the kubeconfig of the Runtime is read from holds, under the key
    config that clients are built from, a kubeconfig that Gardener issued for this
    very Shoot ([secretOf]). *)
Theorem operator_provisions
    (Hproject : sameProject) (Hdelay : (0 < statusRequeueDelay fl)%Z) (Hv : provisionable m v0 v0) (Hforce : unforced)
    (Hconv : convertible) (Htenant : auditLogMandatory fl = true -> tenantConfigured)
    (Hrun : runtimeBootstrapperEnabled fl = true -> deploymentRuns) (Hgardener : gardenerCreates gardener last)
    (Hauth : forall c : AuthenticationConfiguration, isOk (marshal c) = true)
    (Hinfo : forall info : KymaProvisioningInfo, isOk (marshal info) = true) :
  completeWithin m controller gardener last issued also asSpecified (last + 11) (mkWorld v0 None None None) /\
  forall w, onTheWay m v0 last issued asSpecified w ->
    completeWithin m controller gardener last issued also asSpecified (rounds m gardener last w) w.
Proof.
  apply runtime_provisioned; try done.
  - repeat constructor; [done..|]. cbn. lia.
  - by apply operator_converts.
  - intros R h. cbn. by destruct (auditLogMandatory fl); [apply Htenant|].
  - unfold gardenNamespace, ConverterCfg. cbn [operatorConfig RCConfig ShootNamesapace]. rewrite Hproject.
    unfold startupConfig. by destruct (_ && _).
  - intros o gc v. by apply operator_bootstrapped.
Qed.

End OperatorProvisioning.

(** ** An example *)

#[local] Existing Instances MetaRef.lib MetaRef.laws numberVersions numberVersions_laws exampleSort exampleSort_laws
  exampleGVisor FsmExample.Demo.cacheLib FsmExample.Demo.authCodec FsmExample.Demo.windowCodec FsmExample.Demo.infoCodec
  demoYaml demoUnstructured.
#[local] Instance nothingSpare : SliceCapacities := {| workersSpare _ := 0; resourcesSpare _ := 0 |}.

(** Bytes that are not looked at. *)
Definition writes {A} (bytes : Raw) : Codec A := {| marshal _ := Ok bytes; unmarshal _ := Err (newError "unsupported") |}.
#[local] Instance writtenNetworking : Codec VXLanConfig := writes "networking".
#[local] Instance writtenConfigs : HyperscalerCodecs := {|
  awsInfra := writes "infrastructure"; awsControlPlane := writes "control plane"; awsWorker := writes "worker";
  azureInfra := noCodec; azureControlPlane := noCodec; gcpInfra := noCodec; gcpControlPlane := noCodec;
  openStackInfra := noCodec; openStackControlPlane := noCodec; alicloudInfra := noCodec;
  alicloudControlPlane := noCodec; gdchInfra := noCodec; gdchControlPlane := noCodec
|}.
#[local] Instance writtenExtensions : ExtensionCodecs := {|
  auditlogConfigCodec := writes "audit log"; certConfigCodec := writes "cert"; dnsConfigCodec := writes "dns";
  filterConfigCodec := writes "filter"; aclConfigCodec := writes "acl"; registryConfigCodec := writes "registry";
  stringListCodec := writes "list"; stringCodec := writes "string"
|}.

(** An operator with a mandatory audit log and the bootstrapper, and a Runtime on AWS. *)
Definition provisioningFlags : flags := mkFlags true false false false true true demoInstaller "kyma" Second.
Definition provisioningTenants : DefaultDataProvider :=
  mkDefaultProvider {["aws" := {["eu" := mkAuditLogData "tenant" "https://audit" "audit-secret" ""]}]} "kcp-system".
Definition awsRuntime : Runtime :=
  let rt := exampleRuntime "aws" None [exampleWorker "w" ["a"; "b"] None] None in
  mkRuntime (mkMeta "rt" "" "kcp-system" "" "1" 1 None FsmExample.Demo.labels ∅ [] []) (rtSpec rt) (rtStatus rt).
Abbreviation provisioningConfig :=
  (operatorConfig provisioningFlags (RCConfig FsmExample.Demo.cfg) (NewDataProvider provisioningTenants)).

(** The conversion ends without a call, and well. *)
Definition convertedAtOnce (p : prog conversion) : bool :=
  match p with Ret cv => isOk (cvShoot cv) | _ => false end.

Lemma converted_wp R G p h :
  convertedAtOnce p = true -> wp R G p h (returns (fun cv _ => isOk (cvShoot cv) = true)).
Proof. by destruct p. Qed.

Lemma aws_convertible w opts h :
  provisionable provisioningConfig awsRuntime (wRuntime w) -> createsWith provisioningConfig opts ->
  wp (during demoGardener demoIssued (installed demoInstaller "deployment" deployed) w) (fun _ => untracked) (toShootCreate opts (wRuntime w)) h
    (returns (fun cv _ => isOk (cvShoot cv) = true)).
Proof.
  intros ([Hspec Hmeta] & _) (Hc & Ha & Hn). apply converted_wp.
  destruct (wRuntime w) as [[name gname ns uid rv gen del labels ann fin mf] spec status].
  destruct opts as [cfg data window acl global]. cbn in Hspec, Hmeta, Hc, Ha, Hn |- *. subst.
  destruct Hmeta as (E1 & E2 & E3 & E4 & E5 & E6 & _). cbn in E1, E2, E3, E4, E5, E6. subst. destruct data as [[|? ?] [|? ?] [|? ?]].
  all: vm_compute; reflexivity.
Qed.

Lemma operator_provisions_witness :
  completeWithin provisioningConfig defaultKubeconfigController demoGardener 2 demoIssued
    (installed demoInstaller "deployment" deployed)
    (asSpecified provisioningFlags (RCConfig FsmExample.Demo.cfg) provisioningTenants awsRuntime) 13 (mkWorld awsRuntime None None None).
Proof.
  apply (operator_provisions provisioningFlags (RCConfig FsmExample.Demo.cfg) provisioningTenants
    (f64div (f64 6) (f64 10)) (24 * Hour) awsRuntime demoGardener 2 demoIssued (installed demoInstaller "deployment" deployed)).
  - reflexivity.
  - reflexivity.
  - by split_and!; [..|left].
  - by split.
  - exact aws_convertible.
  - reflexivity.
  - intros _. exists "deployment", deployed. split; [by vm_compute|done].
  - apply demo_creates.
  - done.
  - done.
Defined.

(** ** Two names of the project

    Nothing checks that the flag gardener-project-name and the configuration name the
    same project.  When they do not, the Shoot that was created is never found. *)
Definition strayFlags : flags := mkFlags true false false false true true demoInstaller "other" Second.
Abbreviation strayConfig :=
  (operatorConfig strayFlags (RCConfig FsmExample.Demo.cfg) (NewDataProvider provisioningTenants)).

(** Servers that look at the key of a Shoot and create none twice. *)
Definition keyedServers (w : world) : oracle := fun h c =>
  match c return resp c with
  | CGet Garden KShoot key =>
      match under (objName KShoot) key (shootOf demoGardener w) with Some o => Ok o | None => Err FsmExample.Demo.notFound end
  | CCreate Garden KShoot o =>
      match wShoot w with Some _ => Err (mkError ReasonAlreadyExists "already exists") | None => Ok o end
  | c => demoServers w h c
  end.

Definition keyedRound (m : RCCfg) (w : world) : world :=
  let w := after (snd (Effects.run (keyedServers w) (Reconcile m (objName KRuntime (wRuntime w))) [])) w in
  match wShoot w with Some (o, _) => with_wshoot w (Some (o, 2)) | None => w end.

Definition stateAndReason (w : world) : string * list string :=
  (State (rtStatus (wRuntime w)), condReason <$> Conditions (rtStatus (wRuntime w))).

Example never_found :
  stateAndReason <$>
    (fix go n w := match n with O => [w] | S n => w :: go n (keyedRound strayConfig w) end) 6
      (mkWorld awsRuntime None None None) =
  [("", []); ("", []); (RuntimeStatePending, ["Initialised"]); (RuntimeStatePending, ["Pending"]);
   (RuntimeStatePending, ["GardenerErr"]); (RuntimeStatePending, ["GardenerErr"]); (RuntimeStatePending, ["GardenerErr"])].
Proof. by vm_compute. Qed.
