(* ===== verification/Startup.v ===== *)
(** * Start-up of the operator (cmd/main.go, pkg/config, pkg/auditlog/shared.go)

    Reading and validating the configuration files, and the other checks the
    program makes before the controllers start; a failed one ends the process. *)

From S2P Require Import Prelude Kube Gardener RuntimeApi Objects Effects Config Extenders.
From S2P Require Import AuditLog ConverterApi FsmState Bootstrapper Operator.

Local Open Scope string_scope.

(** Package json's decoder for a type: the first value of a text. *)
Class JsonDecoder (A : Type) := decodeJSON : Raw -> result A.

(** The struct validator (github.com/go-playground/validator), by the tags of
    the fields: the error of a value that breaks one. *)
Class ValidatorLib := {
  validateConfig : Config -> option GoError;
  validateAuditLogData : AuditLogData -> option GoError
}.

(** ** Files *)

(*@ src/pkg/config/config.go:132-140 Load *)
Definition Load `{JsonDecoder Config} (path : string) : prog (result Config) :=
  r ← callP (CReadFile path);
  mret (match r with Ok file => decodeJSON file | Err e => Err e end).

(** The order in which the loop visits the map is arbitrary in Go; it only
    matters to which of several errors is reported. *)
Fixpoint firstInvalid `{ValidatorLib} (data : list AuditLogData) : option GoError :=
  match data with
  | [] => None
  | auditLogData :: rest =>
      match validateAuditLogData auditLogData with Some err => Some err | None => firstInvalid rest end
  end.

Definition allAuditLogData (c : Configuration) : list AuditLogData :=
  map_to_list c ≫= fun x => snd <$> map_to_list x.2.

(*@ src/pkg/auditlog/shared.go:51-74 LoadConfiguration *)
Definition LoadConfiguration `{JsonDecoder Configuration} `{ValidatorLib} (path : string) :
    prog (result Configuration) :=
  r ← callP (CReadFile path);
  mret
    (match r with
     | Err e => Err e
     | Ok file =>
         match decodeJSON (A := Configuration) file with
         | Err e => Err e
         | Ok data =>
             match firstInvalid (allAuditLogData data) with
             | Some e => Err e
             | None => Ok data
             end
         end
     end).

(** ** The checks *)

Section Startup.
Context `{YamlLib} `{Codec Unstructured} `{JsonDecoder Config} `{JsonDecoder Configuration} `{ValidatorLib}.
Context (fl : flags) (converterConfigFilepath : string).

(** With a delay of zero a requeue would be a stop. *)
(*@ src/cmd/main.go:197-200 main *)
Definition checkStatusRequeueDelay : result unit :=
  guardErr (statusRequeueDelay fl <=? 0)%Z (newError "invalid --status-requeue-delay; must be greater than zero").

(** The checks of the configuration files. *)
(*@ src/cmd/main.go:260-352 main *)
Definition startupFiles : prog (result RCCfg) :=
  config ← Load converterConfigFilepath;
  match config with
  | Err e => mret (Err e)
  | Ok config =>
      match validateConfig config with
      | Some e => mret (Err e)
      | None =>
          if apiServerAclEnabled fl && String.eqb (aclConfigMapName config) ""
          then mret (Err (newError "acl configMap name need to be set when API server ACL is enabled"))
          else
            auditLogSharedConfig ← LoadConfiguration (ccTenantConfigPath (cfgConverterConfig config));
            match auditLogSharedConfig with
            | Err e => mret (Err e)
            | Ok auditLogSharedConfig =>
                match ValidateTokenExpirationTime
                        (MaxTokenExpiration (kcKubeApiServer (ccKubernetes (cfgConverterConfig config)))) with
                | Err e => mret (Err e)
                | Ok _ =>
                    let m := operatorConfig fl config
                               (NewDataProvider (mkDefaultProvider auditLogSharedConfig defaultControlPlaneSystemNamespace)) in
                    if runtimeBootstrapperEnabled fl then
                      installer ← configureRuntimeBootstrapper (rtbConfig fl);
                      mret (match installer with Err e => Err e | Ok _ => Ok m end)
                    else mret (Ok m)
                end
            end
      end
  end.

(** The configuration of the state machine, or the error the process ends with. *)
Definition startup : prog (result RCCfg) :=
  match checkStatusRequeueDelay with Err e => mret (Err e) | Ok _ => startupFiles end.

(** ** Lemmas *)

Lemma firstInvalid_None l : firstInvalid l = None <-> Forall (fun d => validateAuditLogData d = None) l.
Proof.
  induction l as [|d l IH]; cbn; [by split|]. rewrite Forall_cons, <- IH.
  destruct (validateAuditLogData d); naive_solver.
Qed.

Lemma data_listed c provider region d :
  GetAuditLogData c provider region = Ok d -> d ∈ allAuditLogData c.
Proof.
  unfold GetAuditLogData, allAuditLogData. destruct (c !! provider) as [m|] eqn:Hc; [|done].
  destruct (m !! region) as [d'|] eqn:Hm; [|done]. intros [= ->].
  apply list_elem_of_bind. exists (provider, m). split; [|by apply elem_of_map_to_list].
  apply list_elem_of_fmap. exists (region, d). split; [done|]. by apply elem_of_map_to_list.
Qed.

(** Start-up writes nothing. *)
Definition readOnly : guar := fun _ c =>
  match c with CGet _ _ _ | CReadFile _ => True | _ => False end.

Lemma firstYamlError_None docs : firstYamlError docs = None -> Forall (fun doc => unmarshalYAML doc = None) docs.
Proof.
  induction docs as [|doc docs IH]; cbn; [by constructor|]. destruct (unmarshalYAML doc) eqn:E; [done|].
  intros Hd. constructor; [done|]. by apply IH.
Qed.

Ltac passed := repeat apply suffix_cons_r; assumption || reflexivity.

(** What each check finds, in the order they are made. *)
Definition manifestsReady (h : history) : Prop := exists cm,
  Ev (CGet Kcp KConfigMap (inControlPlane (kcpManifestsConfigMapName (kcpNames fl)))) (Ok cm) ∈ h /\
  Forall (fun doc => unmarshalYAML doc = None) (manifestDocs (mapGet (cmData cm) "manifests.yaml")).
Definition configReady (h : history) : Prop := exists cm,
  Ev (CGet Kcp KConfigMap (inControlPlane (kcpConfigName (kcpNames fl)))) (Ok cm) ∈ h.
Definition pullSecretReady (h : history) : Prop := kcpPullSecretName (kcpNames fl) <> "" -> exists s,
  Ev (CGet Kcp KSecret (inControlPlane (kcpPullSecretName (kcpNames fl)))) (Ok s) ∈ h /\
  secretType s = "kubernetes.io/dockerconfigjson".
Definition trustBundleReady (h : history) : Prop := kcpClusterTrustBundleName (kcpNames fl) <> "" -> exists b,
  Ev (CGet Kcp KClusterTrustBundle (mkNN "" (kcpClusterTrustBundleName (kcpNames fl)))) (Ok b) ∈ h.

(** What the validation of the bootstrapper's flags found. *)
Definition bootstrapperReady (h : history) : Prop :=
  manifestsReady h /\ skrDeploymentName (SKRCfg (rtbConfig fl)) <> "" /\ configReady h /\ pullSecretReady h /\
  trustBundleReady h.

(** A check of which [K] holds when it passes. *)
Definition checks (K : history -> Prop) (p : prog (option GoError)) : Prop :=
  forall h, wp anyEnv readOnly p h (returns (fun e h' => suffix h h' /\ (e = None -> K h'))).

Lemma checks_manifests : checks manifestsReady (verifyManifestsConfigMap (kcpManifestsConfigMapName (kcpNames fl))).
Proof.
  intros h. unfold verifyManifestsConfigMap, getResource. destruct (String.eqb _ _); [by split|].
  prog_norm. split; [exact I|]. intros [cm|e] _; cbn; (split; [passed|]); [|done].
  intros Hy. exists cm. split; [by left|]. by apply firstYamlError_None.
Qed.

Lemma checks_config : checks configReady (verifyConfigMap (kcpConfigName (kcpNames fl))).
Proof.
  intros h. unfold verifyConfigMap, getResource. destruct (String.eqb _ _); [by split|].
  prog_norm. split; [exact I|]. intros [cm|e] _; cbn; (split; [passed|]); [|done]. intros _. exists cm. by left.
Qed.

Lemma checks_pullSecret : checks pullSecretReady (verifyPullSecret (kcpPullSecretName (kcpNames fl))).
Proof.
  intros h. unfold verifyPullSecret, getResource. destruct (String.eqb_spec (kcpPullSecretName (kcpNames fl)) "") as [E|E].
  { split; [done|]. by intros _ Hn. }
  cbn [negb]. prog_norm. split; [exact I|]. intros [s|e] _; cbn; [|by split; [passed|]].
  destruct (String.eqb_spec (secretType s) "kubernetes.io/dockerconfigjson"); (split; [passed|]); [|done].
  intros _ _. exists s. split; [by left|done].
Qed.

Lemma checks_trustBundle : checks trustBundleReady (verifyClusterTrustBundle (kcpClusterTrustBundleName (kcpNames fl))).
Proof.
  intros h. unfold verifyClusterTrustBundle.
  destruct (String.eqb_spec (kcpClusterTrustBundleName (kcpNames fl)) "") as [E|E].
  { split; [done|]. by intros _ Hn. }
  cbn [negb]. prog_norm. split; [exact I|]. intros [b|e] _; cbn; (split; [passed|]); [|done]. intros _ _. exists b. by left.
Qed.

Lemma checks_pure (P : Prop) (e : option GoError) : (e = None -> P) -> checks (fun _ => P) (mret e).
Proof. intros He h. by split. Qed.

(** What a check finds stays known, so checks compose. *)
Lemma checks_then K K' p q :
  (forall h h', suffix h h' -> K h -> K h') -> checks K p -> checks K' q ->
  checks (fun h => K h /\ K' h) (thenUnlessErr p q).
Proof.
  intros Hmono Hp Hq h. apply wp_thenUnlessErr. eapply wp_mono; [|apply Hp].
  intros [[e|]|] h' Hr; [|destruct Hr as [Hs HK]|done]; [by destruct Hr|].
  eapply wp_mono; [|apply Hq]. intros [e|] h'' Hr; [|done]. destruct Hr as [Hs' HK']. split; [by etransitivity|].
  intros He. split; [|by apply HK']. eapply Hmono; [exact Hs'|by apply HK].
Qed.

Lemma Validate_ok : checks bootstrapperReady (Validate (rtbConfig fl)).
Proof.
  pose proof (suffix_elem) as Hin. unfold Validate, bootstrapperReady. fold (kcpNames fl).
  apply checks_then; [|apply checks_manifests|].
  { intros h h' Hs (cm & ? & ?). exists cm. split; [by eapply Hin|done]. }
  apply checks_then; [done|apply (checks_pure (skrDeploymentName (SKRCfg (rtbConfig fl)) <> ""))|].
  { unfold verifyDeploymentName. by destruct (String.eqb_spec (skrDeploymentName (SKRCfg (rtbConfig fl))) ""). }
  apply checks_then; [|apply checks_config|].
  { intros h h' Hs (cm & ?). exists cm. by eapply Hin. }
  apply checks_then; [|apply checks_pullSecret|apply checks_trustBundle].
  intros h h' Hs Hp Hn. destruct (Hp Hn) as (s & ? & ?). exists s. split; [by eapply Hin|done].
Qed.

(** The trust bundle feature leaves the lifetime of tokens alone. *)
Lemma maxTokenExpiration_startup config :
  MaxTokenExpiration (kcKubeApiServer (ccKubernetes (cfgConverterConfig (startupConfig fl config)))) =
  MaxTokenExpiration (kcKubeApiServer (ccKubernetes (cfgConverterConfig config))).
Proof. unfold startupConfig. by destruct (_ && _). Qed.

(** What must have been read and found for the configuration [m] to be used. *)
Definition checkedConfig (m : RCCfg) (h : history) : Prop :=
  exists file config tenants shared,
    Ev (CReadFile converterConfigFilepath) (Ok file) ∈ h /\ decodeJSON file = Ok config /\
    validateConfig config = None /\
    Ev (CReadFile (ccTenantConfigPath (cfgConverterConfig config))) (Ok tenants) ∈ h /\
    decodeJSON tenants = Ok shared /\
    m = operatorConfig fl config (NewDataProvider (mkDefaultProvider shared defaultControlPlaneSystemNamespace)) /\
    (apiServerAclEnabled fl = true -> aclConfigMapName config <> "") /\
    (forall provider region d, GetAuditLogData shared provider region = Ok d -> validateAuditLogData d = None) /\
    (forall rt sh, exists sh', NewExpirationTimeExtender
       (MaxTokenExpiration (kcKubeApiServer (ccKubernetes (cfgConverterConfig (RCConfig m))))) rt sh = Ok sh') /\
    (runtimeBootstrapperEnabled fl = true -> bootstrapperReady h) /\
    (0 < StatusRequeueDelay m)%Z.

(** C38. The controllers only start with a configuration that was checked: start-up
    writes nothing and does not panic, and when it ends well, the configuration is
    the one of the file, and valid; the state machine waits after a write of the
    status instead of stopping; the ACL has a config map when it is enabled;
    every shared audit log the provider can hand out passed the validation, which
    the data of a dedicated one never does; no conversion of a Runtime fails on the
    lifetime of tokens; and with the bootstrapper enabled
    its manifests parse and what it is to copy exists. *)
Theorem startup_checked :
  wp anyEnv readOnly startup [] (returns (fun r h => forall m, r = Ok m -> checkedConfig m h)).
Proof.
  unfold startup, checkStatusRequeueDelay, guardErr. destruct (Z.leb_spec (statusRequeueDelay fl) 0) as [|Hdelay]; [by cbn|].
  unfold startupFiles, Load, LoadConfiguration. prog_norm. split; [exact I|]. intros [file|e] _; prog_norm; [|by cbn].
  destruct (decodeJSON file) as [config|e] eqn:Hfile; [|by cbn].
  destruct (validateConfig config) eqn:Hvalid; [by cbn|].
  destruct (apiServerAclEnabled fl && _) eqn:Hacl; [by cbn|]. prog_norm. split; [exact I|].
  intros [tenants|e] _; prog_norm; [|by cbn].
  destruct (decodeJSON tenants) as [shared|e] eqn:Htenants; [|by cbn].
  destruct (firstInvalid _) eqn:Hinvalid; [by cbn|]. apply firstInvalid_None in Hinvalid.
  destruct (ValidateTokenExpirationTime _) as [tb|e] eqn:Htoken; [|by cbn].
  set (h := [_; _]). set (m := operatorConfig _ _ _).
  assert (forall h', suffix h h' -> (runtimeBootstrapperEnabled fl = true -> bootstrapperReady h') ->
    checkedConfig m h') as Hm.
  { intros h' Hs Hb. exists file, config, tenants, shared. split_and!; try done.
    - eapply suffix_elem; [exact Hs|]. right. by left.
    - eapply suffix_elem; [exact Hs|]. by left.
    - intros Hen E. rewrite Hen, E in Hacl. done.
    - intros provider region d Hd. rewrite Forall_forall in Hinvalid. by eapply Hinvalid, data_listed.
    - intros rt sh. unfold NewExpirationTimeExtender.
      change (RCConfig m) with (startupConfig fl config). rewrite maxTokenExpiration_startup, Htoken. by eexists. }
  destruct (runtimeBootstrapperEnabled fl) eqn:Hen.
  - unfold configureRuntimeBootstrapper. apply wp_seq, wp_seq. eapply wp_mono; [|apply Validate_ok].
    intros [[e|]|] h' Hr; [by cbn| |done]. destruct Hr as [Hs Hready]. cbn. intros m' [= <-].
    apply Hm; [exact Hs|]. intros _. by apply Hready.
  - cbn. intros m' [= <-]. by apply Hm.
Qed.

End Startup.
