(* ===== verification/RuntimeSystem.v ===== *)
(** * The controllers together, over the Runtime resources

    The state machine, the registry cache controller, the watcher of the
    configuration and the kubeconfig controller run in one process, each with any
    number of reconciliations under way, on Runtime resources that users change
    meanwhile.  They read from caches that may be stale and write whole objects
    back.  This file models the server and the interleavings, and shows that no
    controller overwrites what another one or a user has written: the fields of a
    Runtime have one owner each, but for the annotation that forces a
    reconciliation, which the watcher sets and the state machine removes. *)

From Stdlib Require Import SpecFloat.
From S2P Require Import Prelude Kube Gardener RuntimeApi Objects Effects Config Extenders Provider.
From S2P Require Import RegistryCache StructuredAuth SkrDetails AuditLog VersionLog ConverterApi GVisor Workers.
From S2P Require Import Extensions Converter FsmState Bootstrapper FsmProvision FsmPatch FsmConfigure FsmDelete Fsm.
From S2P Require Import FsmCalls FsmSafety FsmSteps ConfigReload RegistryCacheController.
From S2P Require Import KubeconfigController Operator.
From S2P Require FsmExample.

Local Open Scope string_scope.

(** ** The server *)

Definition rtKey (v : Runtime) : NamespacedName := objName KRuntime v.
Definition rtVersion (v : Runtime) : string := ResourceVersion (rtMeta v).

(** Every version of every Runtime the server has stored, the latest first. *)
Definition log := list Runtime.
Abbreviation current := (current rtKey).

Definition fresh (l : log) (new : Runtime) : Prop :=
  rtVersion new <> "" /\ rtVersion new ∉ (rtVersion <$> l).

(** Optimistic concurrency: a write that names a version must name the current
    one.  The server keys the object and gives it a new version. *)
Definition accepted (l : log) (o cur new : Runtime) : Prop :=
  current l (rtKey o) = Some cur /\ (rtVersion o = "" \/ rtVersion o = rtVersion cur) /\
  rtKey new = rtKey cur /\ fresh l new.

(** What the server does not take from a client; it keeps the generation and the
    managed fields itself. *)
Definition serverKept (a b : ObjectMeta) : Prop :=
  Name b = Name a /\ Namespace b = Namespace a /\ GenerateName b = GenerateName a /\ UID b = UID a /\
  DeletionTimestamp b = DeletionTimestamp a.

(** What a client determines of the metadata. *)
Definition sameMeta (a b : ObjectMeta) : Prop :=
  Labels b = Labels a /\ Annotations b = Annotations a /\ Finalizers b = Finalizers a.

(** An update stores the metadata and the specification sent, and not the status.
    (A deleted Runtime whose last finalizer goes stays in the log as its last version,
    so that more interleavings are looked at than a server allows.) *)
Definition updated (l : log) (o new : Runtime) : Prop :=
  exists cur, accepted l o cur new /\ serverKept (rtMeta cur) (rtMeta new) /\ sameMeta (rtMeta o) (rtMeta new) /\
    rtSpec new = rtSpec o /\ rtStatus new = rtStatus cur.

(** A server-side apply merges what is sent: it changes nothing of what is sent as
    it is stored, and when every stored annotation is sent the annotations become
    the ones sent. *)
Definition applied (l : log) (o new : Runtime) : Prop :=
  exists cur, accepted l o cur new /\ serverKept (rtMeta cur) (rtMeta new) /\
    (Labels (rtMeta o) = Labels (rtMeta cur) -> Labels (rtMeta new) = Labels (rtMeta cur)) /\
    (Finalizers (rtMeta o) = Finalizers (rtMeta cur) -> Finalizers (rtMeta new) = Finalizers (rtMeta cur)) /\
    (dom (Annotations (rtMeta cur)) ⊆ dom (Annotations (rtMeta o)) -> Annotations (rtMeta new) = Annotations (rtMeta o)) /\
    (rtSpec o = rtSpec cur -> rtSpec new = rtSpec cur) /\ rtStatus new = rtStatus cur.

(** The status is a subresource: a write of it stores nothing else. *)
Definition statusUpdated (l : log) (o new : Runtime) : Prop :=
  exists cur, accepted l o cur new /\ serverKept (rtMeta cur) (rtMeta new) /\ sameMeta (rtMeta cur) (rtMeta new) /\
    rtSpec new = rtSpec cur.

(** A write that fails for the client may still have been accepted. *)
Definition writes (stores : Runtime -> Prop) (r : result Runtime) (l l' : log) : Prop :=
  (l' = l /\ exists e, r = Err e) \/
  exists new, stores new /\ l' = new :: l /\ (r = Ok new \/ exists e, r = Err e).

(** The server answers a call.  A read returns versions that are or were stored;
    the other writes of Runtimes may do anything, and calls about other objects
    leave the Runtimes alone. *)
Definition serves (l : log) (e : event) (l' : log) : Prop :=
  match e with
  | Ev (CGet Kcp KRuntime key) r =>
      l' = l /\ match r with Ok v => v ∈ l /\ rtKey v = key | Err _ => True end
  | Ev (CList Kcp KRuntime _ _) r =>
      l' = l /\ match r with Ok items => Forall (fun v => v ∈ l) items | Err _ => True end
  | Ev (CUpdate Kcp KRuntime o) r => writes (updated l o) r l l'
  | Ev (CPatch Kcp KRuntime o Apply) r => writes (applied l o) r l l'
  | Ev (CUpdateStatus Kcp KRuntime o) r => writes (statusUpdated l o) r l l'
  | Ev (CCreate Kcp KRuntime _) _ | Ev (CPatch Kcp KRuntime _ (MergeFrom _ _)) _
  | Ev (CDelete Kcp KRuntime _) _ | Ev (CDeleteAllOf Kcp KRuntime _) _ => True
  | _ => l' = l
  end.

(** ** The controllers *)

(** One reconciliation. *)
Inductive job :=
| JRuntime (req : NamespacedName)
| JCaching (req : NamespacedName)
| JReload (w : ConfigReloadWatcher) (req : NamespacedName)
| JKubeconfig (c : GardenerClusterController) (req : NamespacedName).

Definition forceAnnotation : string := "operator.kyma-project.io/force-patch-reconciliation".
Definition operatorFinalizer : string := "runtime-controller.infrastructure-manager.kyma-project.io/deletion-hook".

(** All of the specification but the caches. *)
Definition sameButCaches (a b : RuntimeSpec) : Prop :=
  rShoot b = rShoot a /\ rSecurity b = rSecurity a /\ rAuditLogAccessEnabled b = rAuditLogAccessEnabled a.

(** What a controller may change of a Runtime apart from the status. The state
    machine adds or removes the finalizer of the operator, or removes the annotation
    that forces a reconciliation, and writes back what its conversion has put into
    the memory it shares with the Runtime, which is not more than [sameUserSpec]
    leaves open; the registry cache controller changes the caches; the watcher sets
    the annotation; the kubeconfig controller does not write Runtimes. *)
Definition ownChange (j : job) (v new : Runtime) : Prop :=
  let a := rtMeta v in let b := rtMeta new in
  Labels b = Labels a /\
  match j with
  | JRuntime _ =>
      sameUserSpec (rtSpec v) (rtSpec new) /\
      (Annotations b = Annotations a /\
         (forall f, f <> operatorFinalizer -> (f ∈ Finalizers b <-> f ∈ Finalizers a)) \/
       Annotations b = delete forceAnnotation (Annotations a) /\ Finalizers b = Finalizers a)
  | JCaching _ => sameButCaches (rtSpec v) (rtSpec new) /\ Annotations b = Annotations a /\ Finalizers b = Finalizers a
  | JReload _ _ =>
      rtSpec new = rtSpec v /\ Annotations b = <[forceAnnotation := "true"]> (Annotations a) /\ Finalizers b = Finalizers a
  | JKubeconfig _ _ => False
  end.

Definition writesStatus (j : job) : Prop := match j with JRuntime _ => True | _ => False end.

(** The new version of a Runtime a job has stored over [cur]: a change of its own
    that leaves the status alone or, for the state machine, a status; what the server
    does not take from a client is as it was. *)
Definition owned (j : job) (cur new : Runtime) : Prop :=
  serverKept (rtMeta cur) (rtMeta new) /\
  (ownChange j cur new /\ rtStatus new = rtStatus cur \/
   writesStatus j /\ sameMeta (rtMeta cur) (rtMeta new) /\ rtSpec new = rtSpec cur).

(** A version some earlier read returned. *)
Definition seen (h : history) (v : Runtime) : Prop :=
  (exists key, Ev (CGet Kcp KRuntime key) (Ok v) ∈ h) \/
  exists ns sel items, Ev (CList Kcp KRuntime ns sel) (Ok items) ∈ h /\ v ∈ items.

(** [o] is the version [v] with a change of the job's own. *)
Definition derived (j : job) (v o : Runtime) : Prop :=
  rtKey o = rtKey v /\ rtVersion o = rtVersion v /\ ownChange j v o.

(** Calls of a job. *)
Definition runtimeGuar (j : job) : guar := fun h c =>
  match c with
  | CUpdate Kcp KRuntime o => exists v, seen h v /\ derived j v o
  | CPatch Kcp KRuntime o Apply =>
      match j with JReload _ _ => exists v, seen h v /\ derived j v o | _ => False end
  | CUpdateStatus Kcp KRuntime _ => writesStatus j
  | CCreate Kcp KRuntime _ | CPatch Kcp KRuntime _ (MergeFrom _ _)
  | CDelete Kcp KRuntime _ | CDeleteAllOf Kcp KRuntime _ => False
  | _ => True
  end.

(** ** The system *)

Record thread := mkThread { thJob : job; thProg : prog unit; thHist : history }.

Definition config : Type := log * list thread.

(** Who makes a step. *)
Inductive actor := User | Manager | Controller (j : job).

Section System.
Context `{MetaLaws} `{GardenerLaws} `{RegistryCacheLib} `{SortLaws} `{HyperscalerCodecs} `{GVisorLib} `{ExtensionCodecs}.
Context `{Codec VXLanConfig} `{SliceCapacities} `{YamlLib} `{Codec Unstructured}.
Context `{Codec AuthenticationConfiguration} `{Codec WindowMap} `{Codec KymaProvisioningInfo} `{SemanticLib}.
Context (fl : flags) (cfg : Config) (p : DefaultDataProvider) (KcpNamespace : string) (ReconcilePeriod : Z).
Abbreviation m := (operatorConfig fl cfg (NewDataProvider p)).

#[local] Existing Instance converterOk.

Definition perform (j : job) : prog unit :=
  match j with
  | JRuntime req => Reconcile m req ≫= fun _ => mret tt
  | JCaching req => RegistryCacheReconcile KcpNamespace ReconcilePeriod req ≫= fun _ => mret tt
  | JReload w req => ReloadReconcile w req ≫= fun _ => mret tt
  | JKubeconfig c req => ClusterReconcile c req ≫= fun _ => mret tt
  end.

(** Users store any version of any Runtime; the manager starts any
    reconciliation; a reconciliation makes its next call. *)
Inductive sysStep : actor -> config -> config -> Prop :=
| sys_user l ths new : fresh l new -> sysStep User (l, ths) (new :: l, ths)
| sys_start l ths j : sysStep Manager (l, ths) (l, (ths ++ [mkThread j (perform j) []])%list)
| sys_call l ths i j c k h r l' :
    ths !! i = Some (mkThread j (Vis c k) h) -> serves l (Ev c r) l' ->
    sysStep (Controller j) (l, ths) (l', <[i := mkThread j (k r) (Ev c r :: h)]> ths).

Definition anyStep (c c' : config) : Prop := exists a, sysStep a c c'.
(** No user writes. *)
Definition ownStep (c c' : config) : Prop := exists a, a <> User /\ sysStep a c c'.

(** ** The jobs keep to their fields *)

Definition anyEnd {A} : outcome A -> history -> Prop := fun _ _ => True.

Lemma meta_finalizers_same (a b : ObjectMeta) fs :
  meta_with_finalizers a fs = b ->
  Name a = Name b /\ Namespace a = Namespace b /\ ResourceVersion a = ResourceVersion b /\ Labels a = Labels b /\
  Annotations a = Annotations b.
Proof. by intros <-. Qed.

(** The writes of the state machine are of the version it was given. *)
Definition machineCall (v : Runtime) (c : call) : Prop :=
  match c with
  | CUpdate Kcp KRuntime o => derived (JRuntime (rtKey v)) v o
  | CCreate Kcp KRuntime _ | CPatch Kcp KRuntime _ _ | CDelete Kcp KRuntime _ | CDeleteAllOf Kcp KRuntime _ => False
  | _ => True
  end.

Lemma allowed_machine v h c : allowed m v h c -> machineCall v c.
Proof.
  case_call c; try exact (fun _ => I); try by intros []. 2: by destruct c, k.
  assert (sameUserSpec (rtSpec v) (rtSpec o) ->
    meta_with_finalizers (rtMeta o) (Finalizers (rtMeta v)) = rtMeta v ->
    (forall f, f <> operatorFinalizer -> (f ∈ Finalizers (rtMeta o) <-> f ∈ Finalizers (rtMeta v))) ->
    derived (JRuntime (rtKey v)) v o) as Hfin.
  { intros Hs Hm Hf. apply meta_finalizers_same in Hm as (E1 & E2 & E3 & E4 & E5).
    unfold derived, rtKey, rtVersion, ownChange. cbn [objName]. rewrite E1, E2, E3. split_and!; try done. by left. }
  intros [Hs Hm]. destruct Hm as [(_ & _ & Ho)|[(_ & _ & _ & _ & Ho)|(_ & _ & _ & Ho)]]; cbn [machineCall].
  - apply Hfin; [done|rewrite Ho; apply add_finalizer_meta|]. intros f Hf. rewrite Ho, add_finalizer. naive_solver.
  - apply Hfin; [done|rewrite Ho; apply remove_finalizer_meta|]. intros f Hf. rewrite Ho, remove_finalizer. naive_solver.
  - unfold derived, rtKey, rtVersion, ownChange. cbn [objName]. rewrite Ho. split_and!; try done. by right.
Qed.

Lemma seen_cons h e v : seen h v -> seen (e :: h) v.
Proof.
  intros [[key ?]|(ns & sel & items & ? & ?)]; [left; exists key; by right|].
  right. exists ns, sel, items. split; [by right|done].
Qed.

Lemma machine_guarded req v (h : history) c :
  Ev (CGet Kcp KRuntime req) (Ok v) ∈ h -> machineCall v c -> runtimeGuar (JRuntime req) h c.
Proof.
  intros Hv. case_call c; try exact (fun _ => I); try by intros []. 2: by destruct c, k.
  intros Hd. exists v. split; [left; by exists req|exact Hd].
Qed.

Lemma caching_guarded req req' h c : cachingCall KcpNamespace req h c -> runtimeGuar (JCaching req') h c.
Proof.
  case_call c; try exact (fun _ => I); try by intros [].
  intros (secret & rt0 & caches & _ & _ & [h0 ->] & _ & _ & Hm & _ & Hs & Hsec & Ha & _).
  exists rt0. split; [left; eexists; by left|]. unfold derived, rtKey, rtVersion, ownChange. cbn [objName].
  rewrite Hm. by split_and!.
Qed.

Lemma reload_guarded w req req' h c : reloadCall w req h c -> runtimeGuar (JReload w req') h c.
Proof.
  case_call c; try exact (fun _ => I); try by intros []. destruct mode; [|by intros []].
  intros (items & item & Hl & Hin & _ & Hs & _ & E1 & _ & E2 & _ & E3 & _ & _ & E4 & E5 & _ & Hf & Hother). exists item.
  split; [right; by exists (crNamespace w), ∅, items|]. unfold derived, rtKey, rtVersion, ownChange. cbn [objName].
  rewrite E1, E2, E3. split_and!; try done. apply map_eq. intros k.
  destruct (decide (k = forceAnnotation)) as [->|Hk]; [by rewrite lookup_insert_eq|].
  by rewrite lookup_insert_ne, Hother.
Qed.

Lemma kubeconfig_guarded ctl req req' h c : kubeconfigCall ctl req h c -> runtimeGuar (JKubeconfig ctl req') h c.
Proof. case_call c; first [exact (fun _ => I)|by intros []]. Qed.

Lemma machine_ok req : wp anyEnv (runtimeGuar (JRuntime req)) (Reconcile m req) [] anyEnd.
Proof.
  unfold Reconcile. wp_norm. split; [exact I|]. intros [v|e] _; wp_norm; [|done].
  apply (wp_frame _ _ (machineCall v) _ [] _ anyEnd); [| |done].
  - eapply wp_weaken; [done|intros h c; apply (allowed_machine v h)|]. eapply wp_mono; [done|apply operator_keeps].
  - intros k c. apply machine_guarded, elem_of_app. right. by left.
Qed.

Lemma job_ok j : wp anyEnv (runtimeGuar j) (perform j) [] anyEnd.
Proof.
  destruct j as [req|req|w req|ctl req]; unfold perform; apply wp_seq; (eapply wp_mono; [by intros [?|]|]).
  - apply machine_ok.
  - eapply wp_weaken; [done|intros h c; apply (caching_guarded req)|apply RegistryCacheReconcile_ok].
  - eapply wp_weaken; [done|intros h c; apply (reload_guarded w req)|apply ReloadReconcile_ok].
  - eapply wp_weaken; [done|intros h c; apply (kubeconfig_guarded ctl req)|apply ClusterReconcile_ok].
Qed.

(** ** The invariant *)

Definition logOk (l : log) : Prop := NoDup (rtVersion <$> l) /\ Forall (fun v => rtVersion v <> "") l.

Definition threadOk (l : log) (t : thread) : Prop :=
  wp anyEnv (runtimeGuar (thJob t)) (thProg t) (thHist t) anyEnd /\ forall v, seen (thHist t) v -> v ∈ l.

Definition sysOk (c : config) : Prop := logOk (fst c) /\ Forall (threadOk (fst c)) (snd c).

(** The log after a step of a job. *)
Definition extendedBy (j : job) (l l' : log) : Prop :=
  l' = l \/
  exists cur new, l' = new :: l /\ current l (rtKey new) = Some cur /\ fresh l new /\ owned j cur new.

Lemma logOk_cons l new : logOk l -> fresh l new -> logOk (new :: l).
Proof. intros [Hn Hv] [Hne Hf]. split; [by apply NoDup_cons|by constructor]. Qed.

Lemma threadOk_extended l new t : threadOk l t -> threadOk (new :: l) t.
Proof. intros [? Hs]. split; [done|]. intros v Hv. right. auto. Qed.

(** A write derived from a version that was read is accepted only if that is still
    the current one. *)
Lemma accepted_current j l v o cur new :
  logOk l -> v ∈ l -> derived j v o -> accepted l o cur new -> cur = v /\ current l (rtKey new) = Some cur /\ fresh l new.
Proof.
  intros [Hn Hne] Hv (Hk & Hver & _) (Hcur & Hvo & Hkn & Hfresh).
  apply current_Some in Hcur as Hin. destruct Hin as [Hin Hkc].
  split; [|split; [by rewrite Hkn, Hkc|done]]. apply (same_version rtVersion l); [done..|].
  rewrite Forall_forall in Hne. destruct Hvo as [Hvo|Hvo]; [|congruence].
  exfalso. apply (Hne v Hv). congruence.
Qed.

Lemma ownChange_stored j v o new :
  ownChange j v o -> sameMeta (rtMeta o) (rtMeta new) -> rtSpec new = rtSpec o -> ownChange j v new.
Proof. unfold ownChange. intros Ho (-> & -> & ->) ->. exact Ho. Qed.

Lemma writes_extended j stores (r : result Runtime) l l' :
  writes stores r l l' ->
  (forall new, stores new -> exists cur, current l (rtKey new) = Some cur /\ fresh l new /\ owned j cur new) ->
  extendedBy j l l'.
Proof.
  intros [[-> _]|(new & Hs & -> & _)] Hst; [by left|]. destruct (Hst new Hs) as (cur & ? & ? & ?).
  right. by exists cur, new.
Qed.

Lemma update_owned j l v o new :
  logOk l -> v ∈ l -> derived j v o -> updated l o new ->
  exists cur, current l (rtKey new) = Some cur /\ fresh l new /\ owned j cur new.
Proof.
  intros Hl Hv Hd (cur & Ha & Hkept & Hmeta & Hsp & Hst).
  destruct (accepted_current _ _ _ _ _ _ Hl Hv Hd Ha) as (-> & Hc & Hf). exists v. split_and!; [done..|].
  split; [done|left]. destruct Hd as (_ & _ & Ho). split; [by eapply ownChange_stored|done].
Qed.

(** Server-side apply is used only to set the annotation. *)
Lemma apply_owned w req l v o new :
  logOk l -> v ∈ l -> derived (JReload w req) v o -> applied l o new ->
  exists cur, current l (rtKey new) = Some cur /\ fresh l new /\ owned (JReload w req) cur new.
Proof.
  intros Hl Hv Hd (cur & Ha & Hkept & Hlab & Hfin & Hann & Hsp & Hst).
  destruct (accepted_current _ _ _ _ _ _ Hl Hv Hd Ha) as (-> & Hc & Hf). exists v. split_and!; [done..|].
  destruct Hd as (_ & _ & Ho & Hs & Ha' & Hf'). split; [done|left]. split; [|done]. split_and!; auto.
  rewrite Hann; [done|]. rewrite Ha', dom_insert. set_solver.
Qed.

Lemma status_owned j l o new :
  writesStatus j -> statusUpdated l o new ->
  exists cur, current l (rtKey new) = Some cur /\ fresh l new /\ owned j cur new.
Proof.
  intros Hj (cur & (Hcur & _ & Hk & Hf) & Hkept & Hmeta & Hsp). exists cur. rewrite Hk.
  apply current_Some in Hcur as Hin. destruct Hin as [_ ->]. split_and!; [done..|]. split; [done|by right].
Qed.

Lemma serves_extended l j c (f : resp c -> prog unit) h r l' :
  logOk l -> threadOk l (mkThread j (Vis c f) h) -> serves l (Ev c r) l' -> extendedBy j l l'.
Proof.
  intros Hl [[HG _] Hseen] Hs. cbn [thJob thProg thHist] in *. clear f.
  case_call c; try (left; exact Hs); try (left; exact (proj1 Hs)); try done.
  - destruct HG as (v & Hv & Hd). eapply writes_extended; [exact Hs|]. intros new. apply (update_owned j l v o); auto.
  - eapply writes_extended; [exact Hs|]. intros new. by apply status_owned.
  - destruct mode; [|done]. destruct j; try done. destruct HG as (v & Hv & Hd).
    eapply writes_extended; [exact Hs|]. intros new. apply (apply_owned w req l v o); auto.
  - destruct c; try (left; exact Hs). destruct k; try (left; exact Hs). done.
Qed.

Lemma serves_seen l c r l' h v :
  (forall v, seen h v -> v ∈ l) -> serves l (Ev c r) l' -> seen (Ev c r :: h) v -> v ∈ l.
Proof.
  intros Hh Hs [(key & [Heq|Hin]%elem_of_cons)|(ns & sel & items & [Heq|Hin]%elem_of_cons & Hv)].
  - revert Hs. rewrite <- Heq. by intros [_ [Hv _]].
  - apply Hh. left. by exists key.
  - revert Hs. rewrite <- Heq. intros [_ Hall]. rewrite Forall_forall in Hall. by apply Hall.
  - apply Hh. right. by exists ns, sel, items.
Qed.

Lemma sysStep_owned j c c' : sysOk c -> sysStep (Controller j) c c' -> extendedBy j (fst c) (fst c').
Proof.
  intros [Hl Hths] Hs. inversion Hs as [| |l ths i j' c0 k h r l' Hi Hserve]; subst.
  rewrite Forall_forall in Hths. eapply serves_extended; [done| |done].
  by eapply Hths, list_elem_of_lookup_2.
Qed.

Lemma extendedBy_ok j l l' : logOk l -> extendedBy j l l' -> logOk l' /\ (forall t, threadOk l t -> threadOk l' t).
Proof.
  intros Hl [->|(cur & new & -> & _ & Hf & _)]; [done|]. split; [by apply logOk_cons|].
  intros t. apply threadOk_extended.
Qed.

Lemma sysStep_keeps a c c' : sysOk c -> sysStep a c c' -> sysOk c'.
Proof.
  intros Hok Hs. pose proof Hok as [Hl Hths].
  destruct Hs as [l ths new Hf|l ths j|l ths i j c k h r l' Hi Hserve]; cbn [fst snd] in *.
  - split; cbn; [by apply logOk_cons|]. eapply Forall_impl; [exact Hths|]. intros t. apply threadOk_extended.
  - split; cbn; [done|]. apply Forall_app. split; [done|]. apply Forall_singleton. split; [apply job_ok|].
    intros v [(key & Hv)|(ns & sel & items & Hv & _)]; inversion Hv.
  - pose proof Hths as Hall. rewrite Forall_forall in Hall.
    pose proof (Hall _ (list_elem_of_lookup_2 _ _ _ Hi)) as Ht.
    destruct (extendedBy_ok j l l' Hl) as [Hl' Hgrow]; [by eapply serves_extended|].
    split; cbn [fst snd]; [done|]. apply Forall_insert; [by eapply Forall_impl|]. destruct Ht as [[_ Hk] Hseen].
    apply Hgrow. split; cbn [thJob thProg thHist] in *; [by apply Hk|]. intros v. by eapply serves_seen.
Qed.

Lemma anySteps_ok c c' : sysOk c -> rtc anyStep c c' -> sysOk c'.
Proof. intros Hc Hr. induction Hr as [|c1 c2 c3 [a Hs] _ IH]; [done|]. apply IH. by eapply sysStep_keeps. Qed.

Lemma ownStep_any c c' : ownStep c c' -> anyStep c c'.
Proof. intros (a & _ & Hs). by exists a. Qed.

(** ** What a user has written stays *)

(** [new] has what a user has written to [cur]: the metadata but for the annotation
    and the finalizer of the operator, and the specification but for the caches and
    what [sameUserSpec] leaves open. *)
Definition userKept (cur new : Runtime) : Prop :=
  let a := rtMeta cur in let b := rtMeta new in
  serverKept a b /\ Labels b = Labels a /\
  (forall k, k <> forceAnnotation -> Annotations b !! k = Annotations a !! k) /\
  (forall f, f <> operatorFinalizer -> (f ∈ Finalizers b <-> f ∈ Finalizers a)) /\
  sameUserSpec (rtSpec (runtime_with_caching cur (rCaching (rtSpec new)))) (rtSpec new).

Lemma sameUserSpec_caching a b l :
  sameUserSpec (rtSpec a) (rtSpec b) ->
  sameUserSpec (rtSpec (runtime_with_caching a l)) (rtSpec (runtime_with_caching b l)).
Proof. intros (? & ? & ? & q & ? & ?). split_and!; [done..|]. by exists q. Qed.

Lemma runtime_with_caching_id v : rtSpec (runtime_with_caching v (rCaching (rtSpec v))) = rtSpec v.
Proof. by destruct v as [? [] ?]. Qed.

#[local] Instance userKept_preorder : PreOrder userKept.
Proof.
  split.
  - intros v. split_and!; try done. rewrite runtime_with_caching_id. reflexivity.
  - intros a b c (K1 & L1 & A1 & F1 & S1) (K2 & L2 & A2 & F2 & S2). split; [|split_and!; [congruence|..]].
    + unfold serverKept in *. destruct_and!. split_and!; congruence.
    + intros k Hk. by rewrite A2, A1.
    + intros f Hf. by rewrite F2, F1.
    + etransitivity; [|exact S2]. by apply (sameUserSpec_caching _ _ (rCaching (rtSpec c))) in S1.
Qed.

Lemma owned_kept j cur new : owned j cur new -> userKept cur new.
Proof.
  intros [Hkept [[[Hlab Hch] _]|(_ & (E1 & E2 & E3) & Hs)]]; cycle 1.
  { split_and!; [done|done|by rewrite E2|by rewrite E3|]. rewrite Hs, runtime_with_caching_id. reflexivity. }
  split; [done|]. split; [done|]. destruct j as [req|req|w req|ctl req]; [| | |done].
  - destruct Hch as [Hs Hm]. split; [|split].
    + intros k Hk. destruct Hm as [[-> _]|[-> _]]; [done|]. by rewrite lookup_delete_ne.
    + intros f Hf. destruct Hm as [[_ Hm]|[_ ->]]; [by apply Hm|done].
    + pose proof Hs as (_ & Hca & _). rewrite Hca, runtime_with_caching_id. exact Hs.
  - destruct Hch as ((E1 & E2 & E3) & -> & ->). split_and!; [done..|].
    assert (rtSpec new = rtSpec (runtime_with_caching cur (rCaching (rtSpec new)))) as <-; [|reflexivity].
    destruct new as [? [] ?]; cbn in *; congruence.
  - destruct Hch as (Hs & -> & ->). split_and!; [|done|rewrite Hs, runtime_with_caching_id; reflexivity].
    intros k Hk. by rewrite lookup_insert_ne.
Qed.

Lemma current_cons (l : log) new k cur :
  current l k = Some cur ->
  current (new :: l) k = Some (if decide (rtKey new = k) then new else cur).
Proof. intros Hc. cbn. by case_decide. Qed.

Lemma ownStep_kept c c' k cur :
  sysOk c -> ownStep c c' -> current (fst c) k = Some cur ->
  exists new, current (fst c') k = Some new /\ userKept cur new.
Proof.
  intros Hok (a & Ha & Hs) Hcur. destruct a as [| |j]; [done| |].
  - inversion Hs; subst. exists cur. by split.
  - destruct (sysStep_owned _ _ _ Hok Hs) as [->|(old & new & -> & Hold & _ & Ho)]; [by exists cur|].
    eexists. split; [by apply current_cons|]. case_decide as Hk; [|done]. subst k.
    assert (old = cur) as -> by congruence. by eapply owned_kept.
Qed.

Lemma ownSteps_kept c c' k cur :
  sysOk c -> rtc ownStep c c' -> current (fst c) k = Some cur ->
  exists new, current (fst c') k = Some new /\ userKept cur new.
Proof.
  intros Hok Hr. revert cur. induction Hr as [c|c1 c2 c3 Hs _ IH]; intros cur Hcur; [by exists cur|].
  destruct (ownStep_kept _ _ _ _ Hok Hs Hcur) as (mid & Hmid & Hk).
  destruct (IH (anySteps_ok _ _ Hok (rtc_once _ _ (ownStep_any _ _ Hs))) mid Hmid) as (new & Hnew & Hk').
  exists new. split; [done|]. by etransitivity.
Qed.

(** ** Properties *)

(** C9. Controllers keep to their fields of a Runtime, whatever happens concurrently.
    Reconciliations of the state machine, the registry cache controller, the watcher
    of the configuration and the kubeconfig controller interleave in any way with each
    other and with writes of users; what they read may be stale, and a write may have
    been stored although it is reported to have failed. A step of a controller leaves
    the stored Runtimes alone or replaces the current version of one by one that
    differs, resource version, generation and managed fields apart, only in: status,
    operator finalizer, removed force annotation, and workers as far as a conversion
    may change them (state machine); the caches (registry cache controller); the set
    force annotation (watcher); nothing (kubeconfig controller). Until a user writes
    again, the user's metadata but for that annotation and finalizer, and the
    specification but for the caches and those workers, stay. *)
Theorem field_owners (l0 : log) (c : config) :
  logOk l0 -> rtc anyStep (l0, []) c ->
  (forall j c', sysStep (Controller j) c c' ->
     fst c' = fst c \/
     exists cur new, fst c' = new :: fst c /\ current (fst c) (rtKey new) = Some cur /\ owned j cur new) /\
  (forall c' k cur, rtc ownStep c c' -> current (fst c) k = Some cur ->
     exists new, current (fst c') k = Some new /\ userKept cur new).
Proof.
  intros Hl Hr. assert (sysOk c) as Hok by (eapply anySteps_ok; [|exact Hr]; by split).
  split; [|by intros; eapply ownSteps_kept].
  intros j c' Hs. destruct (sysStep_owned _ _ _ Hok Hs) as [|(cur & new & ? & ? & _ & ?)]; [by left|].
  right. by exists cur, new.
Qed.

End System.

(** ** A race: while the watcher annotates a Runtime, its user changes it; the
    patch of the stale version is refused, and a second attempt annotates what the
    user wrote. *)

#[local] Existing Instances MetaRef.lib MetaRef.laws numberVersions numberVersions_laws exampleSort exampleSort_laws
  exampleCodecs exampleGVisor exampleExtensionCodecs FsmExample.Demo.cacheLib FsmExample.Demo.authCodec
  FsmExample.Demo.windowCodec FsmExample.Demo.infoCodec Operator.exampleYaml Operator.exampleUnstructured
  Operator.exampleNetworking Operator.exampleCapacities.
#[local] Instance exampleSemantic : SemanticLib := {| semanticDeepEqual _ _ := false |}.

(** The demo Runtime as version [version], with audit log access or without. *)
Definition exampleVersion (version : string) (access : bool) : Runtime :=
  let v := FsmExample.Demo.runtime [] ∅ None [] in
  mkRuntime (mkMeta "rt" "" "kcp-system" "" version 1 None (Labels (rtMeta v)) ∅ [] [])
    (mkRuntimeSpec (rShoot (rtSpec v)) (rSecurity (rtSpec v)) (rCaching (rtSpec v)) (Some access)) (rtStatus v).

Definition examplePool : DefaultDataProvider := mkDefaultProvider ∅ "kcp-system".
Abbreviation exampleStep := (sysStep exampleFlags (RCConfig FsmExample.Demo.cfg) examplePool "kcp-system" Minute).
Abbreviation exampleAny := (anyStep exampleFlags (RCConfig FsmExample.Demo.cfg) examplePool "kcp-system" Minute).

Definition exampleReload : ConfigReloadWatcher := mkConfigReloadWatcher "kcp-system" [] [] None None.
Definition exampleRequest : NamespacedName := mkNN "kcp-system" "config".

(** What the server makes of the annotated version 2. *)
Definition annotatedVersion : Runtime :=
  let o := withForceAnnotation (exampleVersion "2" true) in
  runtime_with_meta o (mkMeta "rt" "" "kcp-system" "" "3" 1 None (Labels (rtMeta o)) (Annotations (rtMeta o)) [] []).

Lemma list_served l ns items :
  Forall (fun v => v ∈ l) items -> serves l (Ev (CList Kcp KRuntime ns ∅) (Ok items)) l.
Proof. by split. Qed.
Lemma apply_refused l o e : serves l (Ev (CPatch Kcp KRuntime o Apply) (Err e)) l.
Proof. left. split; [done|by exists e]. Qed.
Lemma apply_served l o new : applied l o new -> serves l (Ev (CPatch Kcp KRuntime o Apply) (Ok new)) (new :: l).
Proof. intros Ha. right. exists new. split_and!; [done..|by left]. Qed.

(** One more step. *)
Ltac sys_step := eapply rtc_l; [eexists|].

Lemma field_owners_witness :
  exists c, rtc exampleAny ([exampleVersion "1" false], []) c /\
    fst c = [annotatedVersion; exampleVersion "2" true; exampleVersion "1" false] /\
    (forall j c', exampleStep (Controller j) c c' ->
       fst c' = fst c \/
       exists cur new, fst c' = new :: fst c /\ current (fst c) (rtKey new) = Some cur /\ owned j cur new).
Proof.
  assert (exists c, rtc exampleAny ([exampleVersion "1" false], []) c /\
    fst c = [annotatedVersion; exampleVersion "2" true; exampleVersion "1" false]) as (c & Hr & Hc).
  { eexists. split.
    - sys_step; [apply (sys_start _ _ _ _ _ _ _ (JReload exampleReload exampleRequest))|].
      sys_step; [eapply (sys_call _ _ _ _ _ _ _ 0); [reflexivity|]; apply (list_served _ _ [exampleVersion "1" false])|].
      { repeat constructor. }
      sys_step; [apply (sys_user _ _ _ _ _ _ _ (exampleVersion "2" true))|].
      { split; [discriminate|]. intros Hin. vm_compute in Hin. apply list_elem_of_singleton in Hin. discriminate Hin. }
      sys_step; [eapply (sys_call _ _ _ _ _ _ _ 0); [reflexivity|]; apply (apply_refused _ _ (newError "conflict"))|].
      sys_step; [apply (sys_start _ _ _ _ _ _ _ (JReload exampleReload exampleRequest))|].
      sys_step; [eapply (sys_call _ _ _ _ _ _ _ 1); [reflexivity|]; apply (list_served _ _ [exampleVersion "2" true])|].
      { repeat constructor. }
      sys_step; [eapply (sys_call _ _ _ _ _ _ _ 1); [reflexivity|]; apply (apply_served _ _ annotatedVersion)|].
      { exists (exampleVersion "2" true). split; [|unfold serverKept; split_and!; intros; reflexivity]. split; [reflexivity|]. split; [by right|].
        split; [reflexivity|]. split; [discriminate|].
        intros Hin. vm_compute in Hin. repeat (apply elem_of_cons in Hin as [Hin|Hin]; [discriminate Hin|]). inversion Hin. }
      apply rtc_refl.
    - reflexivity. }
  exists c. split; [exact Hr|]. split; [exact Hc|].
  apply (field_owners exampleFlags (RCConfig FsmExample.Demo.cfg) examplePool "kcp-system" Minute [exampleVersion "1" false]);
    [|exact Hr]. split; [apply NoDup_singleton|]. repeat constructor; discriminate.
Defined.
