(* ===== verification/Permissions.v ===== *)
(** * The operator and the permissions it has on the control plane

    The markers of the controllers say what the role of the operator may do on the
    control plane, and a second role, that of the leader election, is bound to the
    same service account; cmd/main.go restricts the cache, through which most
    components read, to one namespace.  This file says which calls that admits, and
    shows that the controllers keep to it. *)

From S2P Require Import Prelude Kube Gardener RuntimeApi Objects Effects Config Extenders Provider.
From S2P Require Import RegistryCache StructuredAuth Seeds Rbac SkrDetails AuditLog VersionLog ConverterApi GVisor Workers.
From S2P Require Import Extensions Converter Bootstrapper FsmState FsmProvision FsmPatch FsmConfigure FsmDelete Fsm.
From S2P Require Import FsmProgress Operator.

Local Open Scope string_scope.

(** ** The roles *)

(** A rule of a role in one namespace. *)
Record PolicyRule := mkRule {
  prGroup : string;
  prResource : string;
  prVerbs : list string;
  prNamespace : string
}.

Definition kimGroup : string := "infrastructuremanager.kyma-project.io".

(*@ src/internal/controller/runtime/runtime_controller.go:51-55 Reconcile *)
Definition runtimeRules : list PolicyRule :=
  [mkRule kimGroup "runtimes" ["get"; "list"; "watch"; "create"; "update"; "patch"] "kcp-system";
   mkRule kimGroup "runtimes/status" ["get"; "list"; "delete"; "create"; "update"; "patch"] "kcp-system";
   mkRule kimGroup "runtimes/finalizers" ["get"; "list"; "delete"; "create"; "update"; "patch"] "kcp-system";
   mkRule "auditlogmanager.kyma-project.io" "auditlogs" ["get"; "list"; "watch"; "update"; "patch"] "kcp-system";
   mkRule "auditlogmanager.kyma-project.io" "auditlogs/status" ["get"; "list"; "watch"] "kcp-system"].

(*@ src/internal/controller/kubeconfig/gardener_cluster_controller.go:82-85 Reconcile *)
Definition gardenerClusterRules : list PolicyRule :=
  [mkRule kimGroup "gardenerclusters" ["get"; "list"; "watch"; "create"; "update"; "patch"; "delete"] "kcp-system";
   mkRule "" "secrets" ["get"; "list"; "watch"; "create"; "update"; "delete"] "kcp-system";
   mkRule kimGroup "gardenerclusters/finalizers" ["get"; "list"; "delete"; "create"; "update"; "patch"] "kcp-system";
   mkRule kimGroup "gardenerclusters/status" ["get"; "list"; "delete"; "create"; "update"; "patch"] "kcp-system"].

(*@ src/internal/controller/configreload/config_reload_controller.go:54-57 Reconcile *)
Definition configReloadRules : list PolicyRule :=
  [mkRule "" "secrets" ["watch"; "list"] "kcp-system";
   mkRule "" "configmaps" ["watch"; "list"] "kcp-system";
   mkRule "certificates.k8s.io" "clustertrustbundles" ["watch"; "list"] "kcp-system";
   mkRule kimGroup "runtimes" ["list"; "patch"] "kcp-system"].

(** The role that config/rbac binds to the service account beside the one of the
    markers; it is in the namespace of the operator as well. *)
(*@ src/config/rbac/leader_election_role.yaml:13-44 leader-election-role *)
Definition leaderElectionRules : list PolicyRule :=
  [mkRule "" "configmaps" ["get"; "list"; "watch"; "create"; "update"; "patch"; "delete"] "kcp-system";
   mkRule "coordination.k8s.io" "leases" ["get"; "list"; "watch"; "create"; "update"; "patch"; "delete"] "kcp-system";
   mkRule "" "events" ["create"; "patch"] "kcp-system"].

(** Permissions add up. *)
Definition role : list PolicyRule :=
  (runtimeRules ++ gardenerClusterRules ++ configReloadRules ++ leaderElectionRules)%list.

(** Group and resource of the kinds of the control plane. *)
Definition resourceOf (k : kind) : option (string * string) :=
  match k with
  | KRuntime => Some (kimGroup, "runtimes")
  | KGardenerCluster => Some (kimGroup, "gardenerclusters")
  | KAuditLog => Some ("auditlogmanager.kyma-project.io", "auditlogs")
  | KSecret => Some ("", "secrets")
  | KConfigMap => Some ("", "configmaps")
  | KClusterTrustBundle => Some ("certificates.k8s.io", "clustertrustbundles")
  | _ => None
  end.

(** A role of a namespace grants nothing on resources outside of it; the resources
    of the cluster, and requests across all namespaces, have the namespace "". *)
Definition admits (group resource verb ns : string) : bool :=
  existsb (fun r => String.eqb (prGroup r) group && String.eqb (prResource r) resource &&
                    String.eqb (prNamespace r) ns && bool_decide (verb ∈ prVerbs r)) role.
Definition may (k : kind) (subresource verb ns : string) : bool :=
  match resourceOf k with
  | Some (group, resource) => admits group (resource +:+ subresource) verb ns
  | None => false
  end.

(** The recorder creates an event in the namespace of its object, and counts the
    repetitions of one by patching it. *)
Definition mayRecord (ns : string) : bool := forallb (fun verb => admits "" "events" verb ns) ["create"; "patch"].

(** ** The cache *)

(** The namespaces a kind is cached for, where they are restricted. *)
(*@ src/cmd/main.go:544-581 restrictWatchedNamespace *)
Definition restrictWatchedNamespace (dedicatedAuditLoggingEnabled : bool) (k : kind) : option (list string) :=
  match k with
  | KConfigMap | KSecret | KRuntime | KGardenerCluster => Some [defaultControlPlaneSystemNamespace]
  | KAuditLog => if dedicatedAuditLoggingEnabled then Some [defaultControlPlaneSystemNamespace] else None
  | _ => None
  end.

(** A cache fills itself by listing and watching: the kind in each of its
    namespaces, or in the whole cluster. *)
Definition canFill (dedicated : bool) (k : kind) : bool :=
  forallb (fun ns => may k "" "list" ns && may k "" "watch" ns) (default [""] (restrictWatchedNamespace dedicated k)).

(** Reads through the cache: of an object in one of its namespaces, or of a
    namespace, where the empty one stands for all that are cached. *)
Definition cached (dedicated : bool) (k : kind) (ns : string) : bool :=
  match restrictWatchedNamespace dedicated k with Some nss => bool_decide (ns ∈ nss) | None => true end.
Definition cachedRead (dedicated : bool) (k : kind) (ns : string) : bool := cached dedicated k ns && canFill dedicated k.
Definition cachedList (dedicated : bool) (k : kind) (ns : string) : bool :=
  (String.eqb ns "" || cached dedicated k ns) && canFill dedicated k.

(** ** Requests to the control plane *)

(** How a component reads. *)
Inductive reader := ThroughCache | Direct.

Definition readAllowed (dedicated : bool) (rd : reader) (k : kind) (verb ns : string) : bool :=
  match rd with
  | ThroughCache => if String.eqb verb "get" then cachedRead dedicated k ns else cachedList dedicated k ns
  | Direct => may k "" verb ns
  end.

Definition nsOf (k : kind) (o : objT k) : string := nn_Namespace (objName k o).

(** The requests that succeed by the role and the cache; those to other clusters
    are not judged. *)
Definition permitted (dedicated : bool) (rd : reader) (c : call) : Prop :=
  match c with
  | CGet Kcp k key => readAllowed dedicated rd k "get" (nn_Namespace key) = true
  | CList Kcp k ns _ => readAllowed dedicated rd k "list" ns = true
  | CCreate Kcp k o => may k "" "create" (nsOf k o) = true
  | CUpdate Kcp k o => may k "" "update" (nsOf k o) = true
  | CUpdateStatus Kcp k o => may k "/status" "update" (nsOf k o) = true
  | CPatch Kcp k o _ => may k "" "patch" (nsOf k o) = true
  | CDelete Kcp k o => may k "" "delete" (nsOf k o) = true
  | CDeleteAllOf Kcp k _ => False
  | CEvent i _ _ _ => mayRecord (nsOf KRuntime i) = true
  | _ => True
  end.

(** ** The objects of the control plane *)

(** The answers of its server: an object that is read has the namespace asked for,
    those of the cache have a namespace that is cached, what is stored keeps its
    namespace; and the secrets of GardenerClusters are in the namespace of the
    operator. *)
Definition placed (e : event) : Prop :=
  match e with
  | Ev (CGet Kcp KGardenerCluster key) (Ok o) =>
      nsOf KGardenerCluster o = nn_Namespace key /\ gcSecretNamespace o = defaultControlPlaneSystemNamespace
  | Ev (CGet Kcp k key) (Ok o) => nsOf k o = nn_Namespace key
  | Ev (CList Kcp k ns _) (Ok items) =>
      Forall (fun o => nsOf k o = if String.eqb ns "" then defaultControlPlaneSystemNamespace else ns) items
  | Ev (CUpdate Kcp KRuntime o) (Ok stored) => nsOf KRuntime stored = nsOf KRuntime o
  | Ev (CUpdateStatus Kcp KRuntime o) (Ok stored) => nsOf KRuntime stored = nsOf KRuntime o
  | Ev (CUpdateStatus Kcp KGardenerCluster o) (Ok stored) => nsOf KGardenerCluster stored = nsOf KGardenerCluster o
  | _ => True
  end.
Definition placement : rely := fun _ => placed.

Example role_admits :
  canFill true KAuditLog = true /\ canFill false KAuditLog = false /\
  may KRuntime "" "create" "kcp-system" = true /\ may KRuntime "" "delete" "kcp-system" = false.
Proof. by vm_compute. Qed.

(** ** Programs that keep to it *)

Definition here (ns : string) : Prop := ns = defaultControlPlaneSystemNamespace.

Section Permitted.
Context (fine : call -> Prop).
Abbreviation G := (fun _ => fine).

Definition permits {A} (p : prog A) : Prop := forall h, wp placement G p h (fun _ _ => True).

Lemma permits_ret {A} (a : A) : permits (Ret a).
Proof. by intros h. Qed.
Lemma permits_panic {A} : permits (@Panic A).
Proof. by intros h. Qed.
Lemma permits_deref {A} (x : option A) : permits (deref x).
Proof. destruct x; [apply permits_ret|apply permits_panic]. Qed.

Lemma permits_bind {A B} (p : prog A) (f : A -> prog B) :
  permits p -> (forall a, permits (f a)) -> permits (p ≫= f).
Proof. intros Hp Hf h. apply wp_seq. eapply wp_mono; [|apply Hp]. intros [a|] h' _; [apply Hf|done]. Qed.

(** What is placed may be used after an answer. *)
Lemma permits_call_bind {B} c (f : resp c -> prog B) :
  fine c -> (forall r, placed (Ev c r) -> permits (f r)) -> permits (callP c ≫= f).
Proof. intros Hc Hf h. split; [exact Hc|]. intros r Hr. apply Hf, Hr. Qed.

Lemma permits_vis {B} c (f : resp c -> prog B) :
  fine c -> (forall r, placed (Ev c r) -> permits (f r)) -> permits (Vis c f).
Proof. exact (permits_call_bind c f). Qed.

Lemma permits_call c : fine c -> permits (callP c).
Proof. intros Hc h. split; [exact Hc|]. done. Qed.

Lemma permits_forEach {A} (l : list A) (f : A -> prog (option GoError)) :
  (forall x, permits (f x)) -> permits (forEach l f).
Proof.
  intros Hf. induction l as [|x l IH]; cbn [forEach]; [apply permits_ret|]. apply permits_bind; [apply Hf|].
  intros [e|]; [apply permits_ret|apply IH].
Qed.

(** ** State functions *)

(** The Runtime of the reconciliation is in the operator's namespace. *)
Definition homeState (s : systemState) : Prop := here (nsOf KRuntime (instance s)).

(** [T] holds of the value. *)
Definition stays {A} (T : A -> Prop) (f : SM A) : Prop := forall s h,
  homeState s -> swp placement G f s h (fun a s' _ => T a /\ homeState s') (fun _ => True).
Abbreviation stays_any := (stays (fun _ => True)).

Lemma stays_ret {A} (T : A -> Prop) a : T a -> stays T (mret a).
Proof. intros Ha s h Hs. by apply swp_ret. Qed.

Lemma stays_weaken {A} (T T' : A -> Prop) f : (forall a, T a -> T' a) -> stays T f -> stays T' f.
Proof. intros HT Hf s h Hs. eapply swp_mono; [|done|by apply Hf]. intros a s' _ [? ?]. split; [by apply HT|done]. Qed.

Lemma stays_bind {A B} (T : A -> Prop) (T' : B -> Prop) (f : SM A) (k : A -> SM B) :
  stays T f -> (forall a, T a -> stays T' (k a)) -> stays T' (f ≫= k).
Proof.
  intros Hf Hk s h Hs. apply swp_bind. eapply swp_mono; [|done|by apply Hf]. intros a s' h' [Ha Hs']. by apply Hk.
Qed.

Lemma stays_instance {B} (T : B -> Prop) (k : Runtime -> SM B) :
  (forall i, here (nsOf KRuntime i) -> stays T (k i)) -> stays T (getInstance ≫= k).
Proof. intros Hk s h Hs. apply swp_bind, swp_getInstance. by apply Hk. Qed.

Lemma stays_state {B} (T : B -> Prop) (k : systemState -> SM B) :
  (forall s, homeState s -> stays T (k s)) -> stays T (getState ≫= k).
Proof. intros Hk s h Hs. apply swp_bind, swp_getState. by apply Hk. Qed.

Lemma stays_getShoot : stays_any getShoot.
Proof. intros s h Hs. unfold swp, getShoot. destruct (sshoot s); [by cbn|done]. Qed.

Lemma stays_modify f : (forall s, homeState s -> homeState (f s)) -> stays_any (modifyS f).
Proof. intros Hf s h Hs. apply swp_modify. split; [done|]. by apply Hf. Qed.

Lemma stays_onInstance f :
  (forall i, here (nsOf KRuntime i) -> here (nsOf KRuntime (f i))) -> stays_any (onInstance f).
Proof. intros Hf. apply stays_modify. intros s Hs. by apply Hf. Qed.

Lemma stays_lift {A} (p : prog A) : permits p -> stays_any (lift p).
Proof.
  intros Hp s h Hs. apply swp_lift. eapply wp_mono; [|apply Hp]. by intros [a|] h' _.
Qed.

(** A lifted program of which more is known. *)
Lemma stays_lift_wp {A} (T : A -> Prop) (p : prog A) :
  (forall h, wp placement G p h (mayPanic (fun a _ => T a))) -> stays T (lift p).
Proof.
  intros Hp s h Hs. apply swp_lift. eapply wp_mono; [|apply Hp]. by intros [a|] h'.
Qed.

Lemma stays_call c : fine c -> stays (fun r => placed (Ev c r)) (callS c).
Proof. intros Hc s h Hs. apply swp_call; [exact Hc|]. intros r Hr. by split. Qed.

End Permitted.

(** ** The rules on requests *)

Section Requests.
Context (dedicated : bool).

(** The kinds whose cache is always restricted. *)
Definition homeKind (k : kind) : bool :=
  match k with KConfigMap | KSecret | KRuntime | KGardenerCluster => true | _ => false end.

Lemma read_home k ns : homeKind k = true -> here ns -> cachedRead dedicated k ns = true.
Proof. unfold here. by destruct k; intros E ->. Qed.

Lemma list_home k ns : homeKind k = true -> ns = "" \/ here ns -> cachedList dedicated k ns = true.
Proof. unfold here. by destruct k; intros E [-> | ->]. Qed.

Lemma list_auditLogs ns : dedicated = true -> here ns -> cachedList dedicated KAuditLog ns = true.
Proof. unfold here. by intros -> ->. Qed.

Lemma may_home k sub verb ns : here ns -> may k sub verb defaultControlPlaneSystemNamespace = true -> may k sub verb ns = true.
Proof. unfold here. by intros ->. Qed.

Lemma record_home ns : here ns -> mayRecord ns = true.
Proof. unfold here. by intros ->. Qed.

End Requests.

(** ** The state machine *)

Create HintDb permits discriminated.

Section Machine.
Context `{MetaLaws} `{GardenerLib} `{ShootConverter} `{RegistryCacheLib} `{!ConverterOk}.
Context `{Codec AuthenticationConfiguration} `{Codec WindowMap} `{Codec RegistryConfig}.
Context `{Codec KymaProvisioningInfo} `{Codec AuditlogExtensionConfig}.
Context (m : RCCfg) (extra : call -> Prop).
Abbreviation D := (DedicatedAuditLoggingEnabled m).

(** The requests, and the others that are taken for granted. *)
Definition fine (c : call) : Prop := permitted D ThroughCache c \/ extra c.

(** What the interfaces have to promise. *)
Context (Hprovider : D = true -> forall a b flag,
  permits fine (ReserveAuditLog (AuditLogDataProvider m) a b) /\
  permits fine (GetDedicatedAuditLogData (AuditLogDataProvider m) a flag) /\
  permits fine (ClaimAuditLog (AuditLogDataProvider m) a b) /\
  permits fine (ReleaseDedicated (AuditLogDataProvider m) a)).
Context (Hshared : forall a b, permits fine (GetSharedAuditLogData (AuditLogDataProvider m) a b)).
Context (Hinstaller : forall i rt manifests,
  (if RuntimeBootstrapperEnabled m then BootstrapperInstaller m else None) = Some i -> here (nsOf KRuntime rt) ->
  permits fine (Configure i rt) /\ permits fine (FsmState.InstallationInfo i rt) /\
  permits fine (Install i rt manifests) /\ permits fine (Cleanup i rt)).

(** Functions that need the feature are chosen only with it. *)
Fixpoint okFn (fn : stateFn) : Prop :=
  match fn with
  | SfnMigrateToDedicatedAuditLog | SfnCopyAuditLogReadCredentials => D = true
  | SfnEmitEvent (Some fn) _ _ => okFn fn
  | _ => True
  end.
Definition okT (t : transition) : Prop := match t with (Some fn, _, _) => okFn fn | _ => True end.

(** *** Automation *)

Ltac request :=
  first
    [ left; exact I
    | left; apply read_home; [reflexivity|assumption]
    | left; apply list_home; [reflexivity|first [by left|right; assumption]]
    | left; apply may_home; [assumption|by vm_compute]
    | left; apply record_home; assumption ].

Ltac permit :=
  lazymatch goal with
  | |- permits _ (callP _ ≫= _) => apply permits_call_bind; [request|intros ? ?; permit]
  | |- permits _ (Now ≫= _) => apply permits_call_bind; [request|intros ? ?; permit]
  | |- permits _ (metric _ ≫= _) => apply permits_call_bind; [request|intros ? ?; permit]
  | |- permits _ (match ?x with _ => _ end ≫= _) => apply permits_bind; [permit|intros ?; permit]
  | |- permits _ (_ ≫= _) => apply permits_bind; [permit|intros ?; permit]
  | |- permits _ (mret _) => apply permits_ret
  | |- permits _ (Ret _) => apply permits_ret
  | |- permits _ (deref _) => apply permits_deref
  | |- permits _ (callP _) => apply permits_call; request
  | |- permits _ Now => apply permits_call; request
  | |- permits _ (forEach _ _) => apply permits_forEach; intros ?; cbn [gssSecretNameGenerator]; cbv beta; permit
  | |- permits _ (match ?x with _ => _ end) => destruct x; permit
  | |- _ => solve [eauto with permits]
  end.

Lemma permits_runtimeClient i : here (nsOf KRuntime i) -> permits fine (runtimeClientGet i).
Proof.
  intros Hi. unfold runtimeClientGet, getKubeconfigSecret, GetRuntimeClientWithScheme. permit.
Qed.
Lemma permits_deleteAll man : permits fine (DeleteAll man).
Proof. unfold DeleteAll, listManaged, deleteSecret. permit. Qed.
Lemma permits_deleteUnused man l : permits fine (DeleteUnused man l).
Proof. unfold DeleteUnused, listManaged, deleteSecret. permit. Qed.
Lemma permits_names man : permits fine (GetCacheUIDToSecretNameMap man).
Proof. unfold GetCacheUIDToSecretNameMap, listManaged. permit. Qed.
Lemma permits_forEachCache i f : permits fine (forEachCache i f).
Proof. unfold forEachCache. permit. Qed.
Lemma permits_sync ns rid l : permits fine (Do (NewGardenSecretSyncer DefaultGardenSecretNameGenerator ns rid) l).
Proof.
  unfold Do, syncCache, copySecretFromRuntimeToGardenCluster, replaceSecretInGardenCluster, getRuntimeSecret, newGardenSecret,
    NewGardenSecretSyncer, DefaultGardenSecretNameGenerator. permit.
Qed.
Lemma permits_authConfig cmKey oidc : permits fine (CreateOrUpdateStructuredAuthConfigMap cmKey oidc).
Proof. unfold CreateOrUpdateStructuredAuthConfigMap. permit. Qed.
Lemma permits_deleteAuthConfig shoot : permits fine (DeleteStructuredConfigMap shoot).
Proof. unfold DeleteStructuredConfigMap. cbv zeta. permit. Qed.
Lemma permits_window path region : permits fine (GetMaintenanceWindow path region).
Proof. unfold GetMaintenanceWindow, getDataFromFile. permit. Qed.
Lemma permits_bindings l : permits fine (newDelCRBs l) /\ permits fine (newAddCRBs l).
Proof. unfold newDelCRBs, newAddCRBs. split; permit. Qed.
Lemma permits_regions p seeds acc : permits fine (collectRegions p seeds acc).
Proof. revert acc. induction seeds as [|s seeds IH]; intros acc; cbn [collectRegions]; unfold seedCanBeUsed; permit. Qed.
Lemma permits_oidc id l err : permits fine (createOidcResources id l err).
Proof.
  revert id err. induction l as [|c l IH]; intros id err; cbn [createOidcResources]; [permit|].
  unfold createOpenIDConnectResource. permit.
Qed.
Lemma permits_events i old new : here (nsOf KRuntime i) -> permits fine (emitEvents i old new).
Proof.
  intros Hi. induction new as [|c new IH]; cbn [emitEvents]; [permit|]. destruct (unchanged old c); [done|].
  apply permits_vis; [request|]. done.
Qed.

#[local] Hint Resolve permits_runtimeClient permits_deleteAll permits_deleteUnused permits_names permits_forEachCache
  permits_sync permits_authConfig permits_deleteAuthConfig permits_window permits_regions permits_oidc permits_events
  : permits.

(** *** State functions *)

Abbreviation keeps := (stays fine).
Abbreviation keeps_any := (stays fine (fun _ => True)).

(** The feature is on where it is asked for. *)
Ltac feature :=
  match goal with
  | Hd : DedicatedAuditLoggingEnabled _ && _ = true |- _ => by apply andb_true_iff in Hd as [? _]
  | Hd : negb (DedicatedAuditLoggingEnabled _) = false |- _ => by apply negb_false_iff in Hd
  | Hd : DedicatedAuditLoggingEnabled _ = true |- _ => exact Hd
  end.
Ltac stay :=
  cbv zeta;
  lazymatch goal with
  | |- stays _ _ (getInstance ≫= _) => apply stays_instance; intros ? ?; stay
  | |- stays _ _ (getState ≫= _) => apply stays_state; intros ? ?; stay
  | |- stays _ _ (match ?x with _ => _ end ≫= _) =>
      apply (stays_bind _ (fun _ => True)); [stay|intros ? _; stay]
  | |- stays _ _ (_ ≫= _) => eapply stays_bind; [stay|cbv beta; intros ? ?; stay]
  | |- stays _ _ (mret _) => apply stays_ret; cbn [okT okFn]; first [done|feature]
  | |- stays _ _ getShoot => apply stays_getShoot
  | |- stays _ _ (callS ?c) => apply (stays_call _ c); request
  | |- stays _ _ (metricS ?op) => apply (stays_call _ (CMetric op)); request
  | |- stays _ _ (lift _) => apply stays_lift; permit
  | |- stays _ _ (onInstance _) => apply stays_onInstance; intros ? ?; solve [eauto with permits]
  | |- stays _ _ (modifyS _) => apply stays_modify; intros ? ?; solve [eauto with permits]
  | |- stays _ _ (match ?x with _ => _ end) => destruct x eqn:?; stay
  | |- _ => solve [eauto with permits]
  end.

Lemma keeps_record c r st msg :
  keeps_any (statePending c r st msg) /\ keeps_any (stateReady c r msg) /\
  keeps_any (stateFailed c r msg) /\ keeps_any (stateDeletion c r st msg).
Proof.
  unfold statePending, stateReady, stateFailed, stateDeletion.
  split_and!; (eapply stays_bind; [apply stays_lift; permit|]); intros now _; by apply stays_onInstance.
Qed.

Lemma keeps_pending c r st msg : keeps_any (statePending c r st msg).
Proof. apply keeps_record. Qed.
Lemma keeps_ready c r msg : keeps_any (stateReady c r msg).
Proof. apply (keeps_record c r ConditionTrue). Qed.
Lemma keeps_failed c r msg : keeps_any (stateFailed c r msg).
Proof. apply (keeps_record c r ConditionTrue). Qed.
Lemma keeps_deletion c r st msg : keeps_any (stateDeletion c r st msg).
Proof. apply keeps_record. Qed.
#[local] Hint Resolve keeps_pending keeps_ready keeps_failed keeps_deletion : permits.

Lemma keeps_client : keeps_any RuntimeClientGetter.
Proof. unfold RuntimeClientGetter. stay. Qed.

Lemma keeps_failed_stop c r msg : keeps okT (updateStateFailedWithErrorAndStop c r msg).
Proof. unfold updateStateFailedWithErrorAndStop, updateStatusAndStop. stay. Qed.
Lemma keeps_switch fn : okFn fn -> keeps okT (switchState fn).
Proof. intros Hfn. by apply stays_ret. Qed.
Lemma keeps_update : keeps_any updateInstance.
Proof.
  unfold updateInstance. apply stays_instance. intros i Hi. eapply stays_bind; [apply (stays_call _ (CUpdate Kcp KRuntime i)); request|].
  cbv beta. intros [stored|e] Hst; [|by apply stays_ret]. eapply stays_bind; [|intros _ _; by apply stays_ret].
  apply stays_onInstance. intros _ _. unfold here in *. etransitivity; [exact Hst|exact Hi].
Qed.
Lemma keeps_completed : keeps_any completeProvisioning.
Proof. apply stays_onInstance. intros i Hi. by destruct (negb _). Qed.
#[local] Hint Resolve keeps_client keeps_failed_stop keeps_switch keeps_update keeps_completed : permits.

(** *** The functions one by one *)

Ltac stay_fn :=
  unfold selectWaitState, bootstrapperPending, ensureStatusConditionIsSetAndContinue,
    ensureTerminatingStatusConditionAndContinue, updateStatusAndRequeueAfter, requeueAfter, updateStatusAndStop,
    updateStatusAndStopWithError, requeue, stop, stopWithMetrics, switchState; stay.

Lemma home_finalizers i fs mm :
  meta_with_finalizers mm fs = rtMeta i -> here (nsOf KRuntime i) -> here (nsOf KRuntime (runtime_with_meta i mm)).
Proof. unfold here. cbn. by intros <-. Qed.
Lemma home_add i f : here (nsOf KRuntime i) -> here (nsOf KRuntime (runtime_with_meta i (AddFinalizer (rtMeta i) f))).
Proof. eapply home_finalizers, add_finalizer_meta. Qed.
Lemma home_remove i f :
  here (nsOf KRuntime i) -> here (nsOf KRuntime (runtime_with_meta i (RemoveFinalizer (rtMeta i) f))).
Proof. eapply home_finalizers, remove_finalizer_meta. Qed.
Lemma home_annotations i a :
  here (nsOf KRuntime i) -> here (nsOf KRuntime (runtime_with_meta i (meta_with_annotations (rtMeta i) a))).
Proof. done. Qed.
Lemma home_expose s : homeState s -> homeState (exposeShootStatusInfo s).
Proof. unfold homeState, exposeShootStatusInfo. by destruct (sshoot s). Qed.
Lemma home_save s : homeState s -> homeState (saveRuntimeStatus s).
Proof. done. Qed.
Lemma home_shoot s sh : homeState s -> homeState (with_shoot s sh).
Proof. done. Qed.
#[local] Hint Resolve home_add home_remove home_annotations home_expose home_save home_shoot : permits.

Lemma keeps_snapshot : keeps okT (sFnTakeSnapshot m).
Proof. unfold sFnTakeSnapshot. stay_fn. Qed.

Lemma keeps_initialize : keeps okT (sFnInitialize m).
Proof. unfold sFnInitialize, addFinalizerAndRequeue, removeFinalizerAndStop. stay_fn. Qed.

Lemma converter_fine h c : converterCall c -> (fun _ : history => fine) h c.
Proof. case_call c; try by intros []. intros Hk. left. by apply read_home. Qed.

Lemma home_same i rt : sameIdentity i rt -> here (nsOf KRuntime i) -> here (nsOf KRuntime rt).
Proof. intros (Hm & _ & _). unfold nsOf. cbn. by rewrite Hm. Qed.

Lemma keeps_convertCreate opts : keeps_any (convertCreate opts).
Proof.
  unfold convertCreate. apply stays_instance. intros i Hi. destruct (ValidateRequiredLabels i); [stay|].
  apply (stays_bind _ (fun cv => here (nsOf KRuntime (cvRuntime cv)))).
  - apply stays_lift_wp. intros h. apply create_ok; [apply converter_fine| |done].
    intros cv h' _ Hid _. by eapply home_same.
  - intros cv Hcv. eapply stays_bind; [by apply stays_onInstance|]. intros _ _. stay.
Qed.

Lemma keeps_convertPatch opts : keeps_any (convertPatch opts).
Proof.
  unfold convertPatch. apply stays_instance. intros i Hi. destruct (ValidateRequiredLabels i); [stay|].
  apply (stays_bind _ (fun cv => here (nsOf KRuntime (cvRuntime cv)))).
  - apply stays_lift_wp. intros h. apply patch_ok; [apply converter_fine| |done].
    intros cv h' _ Hid _ _. by eapply home_same.
  - intros cv Hcv. eapply stays_bind; [by apply stays_onInstance|]. intros _ _. stay.
Qed.

#[local] Hint Resolve keeps_convertCreate keeps_convertPatch : permits.

(** The provider of dedicated audit logs is asked only when the feature is on. *)
Lemma permits_provider a b flag : D = true ->
  permits fine (ReserveAuditLog (AuditLogDataProvider m) a b) /\
  permits fine (GetDedicatedAuditLogData (AuditLogDataProvider m) a flag) /\
  permits fine (ClaimAuditLog (AuditLogDataProvider m) a b) /\
  permits fine (ReleaseDedicated (AuditLogDataProvider m) a).
Proof. intros HD. by apply Hprovider. Qed.

#[local] Hint Extern 1 (permits _ (ReserveAuditLog _ _ _)) => apply (permits_provider _ _ true); feature : permits.
#[local] Hint Extern 1 (permits _ (GetDedicatedAuditLogData _ _ _)) => apply (permits_provider _ ""); feature : permits.
#[local] Hint Extern 1 (permits _ (ClaimAuditLog _ _ _)) => apply (permits_provider _ _ true); feature : permits.
#[local] Hint Extern 1 (permits _ (ReleaseDedicated _ _)) => apply (permits_provider _ "" true); feature : permits.
#[local] Hint Extern 1 (permits _ (GetSharedAuditLogData _ _ _)) => apply Hshared : permits.
#[local] Hint Extern 1 (okFn _) => first [exact I|cbn [okFn]; feature] : permits.

Lemma keeps_window : keeps_any (getMaintenanceTimeWindow m).
Proof. unfold getMaintenanceTimeWindow. stay. Qed.
#[local] Hint Resolve keeps_window : permits.

Lemma keeps_createRest : keeps okT (createShootRest m).
Proof. unfold createShootRest. stay_fn. Qed.

Lemma keeps_create : keeps okT (sFnCreateShoot m).
Proof.
  pose proof keeps_createRest. unfold sFnCreateShoot, createShootReserve, seedForRegionAvailable. stay_fn.
Qed.

Lemma keeps_logErrors : keeps_any LogLastErrors.
Proof. unfold LogLastErrors. stay. Qed.
Lemma keeps_states : keeps_any setRuntimeStates.
Proof. unfold setRuntimeStates. stay. Qed.
#[local] Hint Resolve keeps_logErrors keeps_states : permits.

Lemma keeps_select : keeps okT (sFnSelectShootProcessing m).
Proof. unfold sFnSelectShootProcessing. stay_fn. Qed.

Lemma keeps_wait : keeps okT (sFnWaitForShootCreation m) /\ keeps okT (sFnWaitForShootReconcile m).
Proof. unfold sFnWaitForShootCreation, sFnWaitForShootReconcile, stateNoMatchingSeeds. split; stay_fn. Qed.

Lemma keeps_sync : keeps okT (sFnSyncRegistryCacheGardenSecrets m).
Proof. unfold sFnSyncRegistryCacheGardenSecrets, SetStatusPending, SetStatusFailed. stay_fn. Qed.

(** A function that chooses a transition among other things. *)
Lemma keeps_shared : keeps (fun x => okT x.2) (getSharedAuditLogDataWithErrorHandling m).
Proof.
  unfold getSharedAuditLogDataWithErrorHandling. stay_fn.
Qed.

Lemma keeps_claim rid : D = true -> keeps (fun x => okT x.2) (claimDedicatedAuditLog m rid).
Proof. intros HD. unfold claimDedicatedAuditLog. stay_fn. Qed.
#[local] Hint Resolve keeps_shared : permits.
#[local] Hint Extern 1 (keeps _ (claimDedicatedAuditLog _ _)) => apply keeps_claim; feature : permits.

Lemma keeps_resolve : keeps (fun x => okT x.2) (resolveAuditLogData m).
Proof. unfold resolveAuditLogData. stay_fn. Qed.
#[local] Hint Resolve keeps_resolve : permits.

Lemma keeps_options d : keeps_any (getPatchOptions m d).
Proof. unfold getPatchOptions. stay. Qed.

Lemma keeps_unlessNext t k : okT t -> keeps okT k -> keeps okT (unlessNext t k).
Proof. intros Ht Hk. unfold unlessNext. destruct t as [[[fn|] res] err]; [by apply stays_ret|done]. Qed.

Lemma keeps_updateError err msg : keeps okT (handleUpdateError m err msg).
Proof. unfold handleUpdateError. stay_fn. Qed.
Lemma keeps_force : keeps_any handleForceReconciliationAnnotation.
Proof. unfold handleForceReconciliationAnnotation. stay. Qed.
Lemma keeps_cacheFailed : keeps_any setRegistryCacheStatusFailed.
Proof. unfold setRegistryCacheStatusFailed, SetStatusFailed. stay. Qed.
#[local] Hint Resolve keeps_options keeps_updateError keeps_force keeps_cacheFailed : permits.

Lemma keeps_replace shoot updated b : keeps okT (replaceCollections m shoot updated b).
Proof. unfold replaceCollections. stay_fn. Qed.
Lemma keeps_binding shoot : keeps okT (replaceBinding m shoot).
Proof. unfold replaceBinding. stay_fn. Qed.

Lemma keeps_applyPatch shoot updated : keeps okT (applyPatch m shoot updated).
Proof.
  unfold applyPatch. eapply stays_bind; [stay|]. cbv beta. intros r _. eapply stays_bind; [apply keeps_updateError|].
  intros t Ht. apply keeps_unlessNext; [done|]. stay_fn.
Qed.

Lemma keeps_converted opts : keeps okT (patchConverted m opts).
Proof.
  unfold patchConverted. eapply stays_bind; [apply keeps_convertPatch|]. intros [updated|e] _; [|stay_fn].
  eapply stays_bind; [apply stays_getShoot|]. intros shoot _. apply stays_instance. intros i Hi.
  eapply stays_bind; [unfold HasRegistryCacheCountChanged; stay|]. cbv beta. intros [changed|e] _; [|stay_fn].
  eapply stays_bind; [apply keeps_replace|]. intros t Ht. apply keeps_unlessNext; [done|].
  eapply stays_bind; [apply keeps_binding|]. intros t' Ht'. apply keeps_unlessNext; [done|]. apply keeps_applyPatch.
Qed.

Lemma keeps_patch : keeps okT (sFnPatchExistingShoot m).
Proof.
  pose proof keeps_converted. unfold sFnPatchExistingShoot. eapply stays_bind; [apply keeps_resolve|].
  intros [d t] Ht. apply keeps_unlessNext; [done|]. stay_fn.
Qed.

(** The GardenerCluster that is made, and the one that is deleted. *)
Lemma keeps_kubeconfig : keeps okT (sFnHandleKubeconfig m).
Proof.
  unfold sFnHandleKubeconfig. apply stays_instance. intros i Hi. cbv zeta.
  eapply stays_bind; [stay|]. cbv beta. intros [cluster|e] _; [stay_fn|].
  destruct (negb (IsNotFound e)); [stay_fn|]. eapply stays_bind; [apply stays_getShoot|]. intros shoot _.
  apply (stays_bind _ (fun c => here (nsOf KGardenerCluster c))).
  - apply stays_lift_wp. intros h. unfold makeGardenerClusterForRuntime. cbv zeta.
    apply wp_seq. eapply wp_mono; [|apply permits_deref]. by intros [domain|] h' _.
  - intros cluster Hc. stay_fn.
Qed.

Lemma keeps_systemNamespace : keeps_any createKymaSystemNamespace.
Proof. unfold createKymaSystemNamespace. stay. Qed.
#[local] Hint Resolve keeps_systemNamespace : permits.
Lemma keeps_namespace : keeps okT (sFnCreateKymaNamespace m).
Proof. unfold sFnCreateKymaNamespace. stay_fn. Qed.

Lemma keeps_cleanup : keeps okT (sFnCleanupRegistryCacheGardenSecrets m).
Proof. unfold sFnCleanupRegistryCacheGardenSecrets, SetStatusReady. stay_fn. Qed.

Lemma keeps_bootstrapper : keeps okT (sFnInitializeRuntimeBootstrapper m).
Proof.
  unfold sFnInitializeRuntimeBootstrapper. destruct (if RuntimeBootstrapperEnabled m then _ else _) as [b|] eqn:Hb;
    [|stay_fn].
  apply stays_instance. intros i Hi. pose proof (fun manifests => Hinstaller b i manifests eq_refl Hi) as Hp.
  assert (permits fine (Configure b i)) by apply (Hp "").
  assert (permits fine (FsmState.InstallationInfo b i)) by apply (Hp "").
  assert (permits fine (Cleanup b i)) by apply (Hp "").
  assert (forall manifests, permits fine (Install b i manifests)) by apply Hp.
  stay_fn.
Qed.

Lemma keeps_provisioningInfo : keeps_any applyKymaProvisioningInfoCM.
Proof.
  unfold applyKymaProvisioningInfoCM, ToKymaProvisioningInfoConfigMap, ToKymaProvisioningInfo. stay.
Qed.

Lemma keeps_recreate b : keeps_any (recreateOpenIDConnectResources b).
Proof. unfold recreateOpenIDConnectResources, deleteExistingKymaOpenIDConnectResources. stay. Qed.
#[local] Hint Resolve keeps_provisioningInfo keeps_recreate : permits.

Lemma home_defaulted i rt b :
  additionalOidcEmptyOrUndefined m i = (rt, b) -> here (nsOf KRuntime i) -> here (nsOf KRuntime rt).
Proof. unfold additionalOidcEmptyOrUndefined. by destruct (additionalOIDCConfigUndefined _); intros [= <- _]. Qed.
#[local] Hint Resolve home_defaulted : permits.

Lemma keeps_configure : keeps okT (sFnConfigureSKR m).
Proof. unfold sFnConfigureSKR, handleProvisioningInfoError, updateConditionFailed. stay_fn. Qed.

Lemma keeps_administrators : keeps okT (sFnApplyClusterRoleBindings m).
Proof.
  pose proof (fun l => proj1 (permits_bindings l)). pose proof (fun l => proj2 (permits_bindings l)).
  unfold sFnApplyClusterRoleBindings, updateCRBApplyPending. stay_fn.
Qed.

Lemma keeps_patchAuditLog d : keeps_any (patchShootAuditLog d).
Proof. unfold patchShootAuditLog. stay. Qed.
Lemma keeps_copy name : keeps_any (copyReadCredentialsToSKR name).
Proof. unfold copyReadCredentialsToSKR. stay. Qed.
#[local] Hint Resolve keeps_patchAuditLog keeps_copy : permits.

Lemma keeps_migrate : keeps okT (sFnMigrateToDedicatedAuditLog m).
Proof. unfold sFnMigrateToDedicatedAuditLog. stay_fn. Qed.
Lemma keeps_credentials : D = true -> keeps okT (sFnCopyAuditLogReadCredentials m).
Proof. intros HD. unfold sFnCopyAuditLogReadCredentials, credentialsPending. stay_fn. Qed.

Lemma keeps_confirm : keeps_any confirmDeletion.
Proof. unfold confirmDeletion. stay. Qed.
#[local] Hint Resolve keeps_confirm : permits.
Lemma keeps_delete : keeps okT (sFnDeleteShoot m).
Proof. unfold sFnDeleteShoot, deleteShootRest. stay_fn. Qed.

Lemma keeps_deleteCluster : keeps okT (sFnDeleteKubeconfig m).
Proof.
  unfold sFnDeleteKubeconfig. apply stays_instance. intros i Hi. cbv zeta. eapply stays_bind; [stay|]. cbv beta.
  intros [cluster|e] Hc; [|stay_fn]. eapply stays_bind; [apply stays_getShoot|]. intros _ _.
  assert (here (nsOf KGardenerCluster cluster)) by (unfold here in *; destruct Hc as [-> _]; exact Hi).
  stay_fn.
Qed.

Lemma keeps_status res err : keeps okT (sFnUpdateStatus res err).
Proof.
  unfold sFnUpdateStatus. apply (stays_bind _ (fun _ => True)); [stay|]. intros _ _.
  apply stays_state. intros s Hs. destruct (bool_decide _); [stay|].
  eapply stays_bind; [stay|]. cbv beta. intros [stored|e] Hst; [|stay].
  apply (stays_bind _ (fun _ => True)); [|intros _ _; stay]. apply stays_onInstance. intros _ _.
  unfold here in *. etransitivity; [exact Hst|exact Hs].
Qed.

Lemma keeps_emit next res err : okT (next, res, err) -> keeps okT (sFnEmmitEventfunc next res err).
Proof.
  intros Hn. unfold sFnEmmitEventfunc. apply stays_state. intros s Hs. apply (stays_bind _ (fun _ => True)).
  - by apply stays_lift, permits_events.
  - intros _ _. stay.
Qed.

Lemma keeps_step fn : okFn fn -> keeps okT (step m fn).
Proof.
  destruct fn; cbn [okFn step]; intros Hfn; try apply keeps_wait;
    first [apply keeps_snapshot|apply keeps_initialize|apply keeps_create|apply keeps_select|apply keeps_sync|
           apply keeps_patch|apply keeps_kubeconfig|apply keeps_namespace|apply keeps_bootstrapper|
           apply keeps_cleanup|apply keeps_configure|apply keeps_administrators|apply keeps_migrate|
           by apply keeps_credentials|apply keeps_deleteCluster|apply keeps_delete|apply keeps_status|idtac].
  - unfold sFnStopWithMetrics, stop. stay.
  - apply keeps_emit. by destruct next.
Qed.

Lemma permits_loop n fn res s : okFn fn -> homeState s -> permits fine (runLoop m n fn res s).
Proof.
  revert fn res s. induction n as [|n IH]; intros fn res s Hfn Hs h; [done|]. apply wp_runLoop; [left; exact I|done|].
  intros _. eapply swp_mono; [|done|by apply keeps_step]. intros [[[fn'|] res'] err] s' h' [Ht Hs']; [|done].
  destruct err; [done|]. by apply IH.
Qed.

(** A reconciliation of a Runtime of the operator's namespace makes permitted
    requests only. *)
Lemma permits_run v : here (nsOf KRuntime v) -> permits fine (Run m v).
Proof. intros Hv. by apply permits_loop. Qed.

Lemma permits_reconcile req : here (nn_Namespace req) -> permits fine (Reconcile m req).
Proof.
  intros Hreq. unfold Reconcile. apply permits_call_bind; [left; by apply read_home|]. intros [v|e] Hv; [|permit].
  apply permits_run. unfold here in *. by rewrite <- Hreq.
Qed.

End Machine.
