(* ===== verification/OperatorPermissions.v ===== *)
(** * All controllers keep to the permissions of the operator

    The components of the operator, as cmd/main.go puts them together, make only
    requests to the control plane that its roles admit and its cache serves; and
    what the bootstrapper needs beyond them. *)

From Stdlib Require Import SpecFloat.
From S2P Require Import Prelude Kube Gardener RuntimeApi Objects Effects Config Extenders Provider.
From S2P Require Import RegistryCache StructuredAuth Seeds Rbac SkrDetails AuditLog VersionLog ConverterApi GVisor Workers.
From S2P Require Import Extensions Converter Bootstrapper FsmState FsmProvision FsmPatch FsmConfigure FsmDelete Fsm.
From S2P Require Import FsmCalls FsmSafety FsmSteps ConfigReload RegistryCacheController.
From S2P Require Import KubeconfigController Operator RuntimeSystem Permissions.
From S2P Require FsmExample.

Local Open Scope string_scope.

(** ** Programs with a value *)

Section Yields.
Context (fine : call -> Prop).

(** The requests are fine, and [T] holds of the value. *)
Definition gives {A} (T : A -> Prop) (p : prog A) : Prop :=
  forall h, wp placement (fun _ => fine) p h (mayPanic (fun a _ => T a)).

Lemma gives_permits {A} (T : A -> Prop) (p : prog A) : gives T p -> permits fine p.
Proof. intros Hp h. eapply wp_mono; [done|apply Hp]. Qed.

Lemma permits_gives {A} (p : prog A) : permits fine p -> gives (fun _ => True) p.
Proof. intros Hp h. eapply wp_mono; [|apply Hp]. by intros [a|]. Qed.

Lemma gives_ret {A} (T : A -> Prop) a : T a -> gives T (Ret a).
Proof. by intros Ha h. Qed.

Lemma gives_bind {A B} (T : A -> Prop) (T' : B -> Prop) (p : prog A) (f : A -> prog B) :
  gives T p -> (forall a, T a -> gives T' (f a)) -> gives T' (p ≫= f).
Proof. intros Hp Hf h. apply wp_seq. eapply wp_mono; [|apply Hp]. intros [a|] h' Ha; [by apply Hf|done]. Qed.

Lemma gives_call {B} (T : B -> Prop) c (f : resp c -> prog B) :
  fine c -> (forall r, placed (Ev c r) -> gives T (f r)) -> gives T (callP c ≫= f).
Proof. intros Hc Hf h. split; [exact Hc|]. intros r Hr. apply Hf, Hr. Qed.

Lemma permits_value {A B} (T : A -> Prop) (p : prog A) (f : A -> prog B) :
  gives T p -> (forall a, T a -> permits fine (f a)) -> permits fine (p ≫= f).
Proof.
  intros Hp Hf. apply (gives_permits (fun _ => True)), (gives_bind T); [done|]. intros a Ha. by apply permits_gives, Hf.
Qed.

End Yields.

(** One step of a proof that the requests of a program are permitted. *)
Ltac request :=
  first
    [ exact I
    | apply read_home; [reflexivity|done]
    | apply list_home; [reflexivity|first [by left|by right]]
    | apply may_home; [done|by vm_compute] ].

Ltac permit :=
  cbv zeta;
  lazymatch goal with
  | |- permits _ (callP ?c ≫= _) => apply (permits_call_bind _ c); [request|intros ? ?; permit]
  | |- permits _ (Now ≫= _) => apply (permits_call_bind _ CNow); [exact I|intros ? ?; permit]
  | |- permits _ (metric ?op ≫= _) => apply (permits_call_bind _ (CMetric op)); [exact I|intros ? ?; permit]
  | |- permits _ (_ ≫= _) => apply permits_bind; [permit|intros ?; cbv beta; permit]
  | |- permits _ (mret _) => apply permits_ret
  | |- permits _ (Ret _) => apply permits_ret
  | |- permits _ (deref _) => apply permits_deref
  | |- permits _ (callP _) => apply permits_call; request
  | |- permits _ (match ?x with _ => _ end) => destruct x; permit
  | |- _ => solve [auto]
  end.

Ltac give :=
  cbv zeta;
  lazymatch goal with
  | |- gives _ _ (callP ?c ≫= _) => apply (gives_call _ _ c); [request|intros ? ?; give]
  | |- gives _ _ (Now ≫= _) => apply (gives_call _ _ CNow); [exact I|intros ? ?; give]
  | |- gives _ _ (metric ?op ≫= _) => apply (gives_call _ _ (CMetric op)); [exact I|intros ? ?; give]
  | |- gives _ _ (mret _) => apply gives_ret; try done
  | |- gives _ _ (Ret _) => apply gives_ret; try done
  | |- gives _ _ (deref _ ≫= _) => apply (gives_bind _ (fun _ => True)); [apply permits_gives, permits_deref|intros ? _; give]
  | |- gives _ _ (match ?x with _ => _ end) => destruct x eqn:?; give
  | |- _ => idtac
  end.

(** ** The pool of audit logs *)

Section Pool.
Context (dedicated : bool) (p : DefaultDataProvider).
Context (Hon : dedicated = true) (Hpool : here (poolNamespace p)).
Abbreviation fine := (permitted dedicated ThroughCache).

Definition pooled (r : result (option AuditLog)) : Prop :=
  match r with Ok (Some a) => here (nsOf KAuditLog a) | _ => True end.

Lemma gives_list {B} sel (T : B -> Prop) (f : result (list AuditLog) -> prog B) :
  (forall r, match r with Ok items => Forall (fun a => here (nsOf KAuditLog a)) items | Err _ => True end ->
     gives fine T (f r)) ->
  gives fine T (listAuditLogs p sel ≫= f).
Proof.
  intros Hf. unfold listAuditLogs. apply gives_call; [by apply list_auditLogs|]. intros [items|e] Hr; apply Hf; [|done].
  unfold placed in Hr. rewrite Hpool in Hr. exact Hr.
Qed.

Lemma found_home items a : Forall (fun a => here (nsOf KAuditLog a)) items -> a ∈ items -> here (nsOf KAuditLog a).
Proof. rewrite Forall_forall. auto. Qed.

Lemma gives_finders rid region :
  gives fine pooled (findAuditLogCRByReservation p rid) /\ gives fine pooled (findAuditLogCRByRuntimeID p rid) /\
  gives fine pooled (findAvailableAuditLogCR p region).
Proof.
  unfold findAuditLogCRByReservation, findAuditLogCRByRuntimeID, findAvailableAuditLogCR.
  split_and!; apply gives_list; intros [items|e] Hitems; apply gives_ret; try done; cbn [pooled].
  - destruct items as [|a items]; [done|]. by inversion Hitems.
  - destruct (firstAssigned rid items) as [a|] eqn:Ha; [|done]. apply firstAssigned_Some in Ha as [? _].
    by eapply found_home.
  - destruct (firstAvailable region items) as [a|] eqn:Ha; [|done]. apply firstAvailable_Some in Ha as [? _].
    by eapply found_home.
Qed.

Lemma permits_found {B} (q : prog (result (option AuditLog))) (f : result (option AuditLog) -> prog B) :
  (exists rid region, q = findAuditLogCRByReservation p rid \/ q = findAuditLogCRByRuntimeID p rid \/
     q = findAvailableAuditLogCR p region) ->
  (forall r, pooled r -> permits fine (f r)) -> permits fine (q ≫= f).
Proof.
  intros (rid & region & Hq) Hf. destruct (gives_finders rid region) as (H_1 & H_2 & H_3).
  apply (permits_value _ pooled); [|done]. by destruct Hq as [->|[->| ->]].
Qed.

Ltac found :=
  lazymatch goal with
  | |- permits _ (findAvailableAuditLogCR _ ?x ≫= _) => apply permits_found; [exists "", x; auto|]
  | |- permits _ (_ _ ?x ≫= _) => apply permits_found; [exists x, ""; auto|]
  end; intros [[?|]|?] ?; try permit.

Lemma permits_pool a b flag :
  permits fine (ReserveAuditLog (NewDataProvider p) a b) /\
  permits fine (GetDedicatedAuditLogData (NewDataProvider p) a flag) /\
  permits fine (ClaimAuditLog (NewDataProvider p) a b) /\
  permits fine (ReleaseDedicated (NewDataProvider p) a).
Proof.
  cbn [ReserveAuditLog GetDedicatedAuditLogData ClaimAuditLog ReleaseDedicated NewDataProvider].
  assert (forall rid, permits fine (getDedicatedAuditLogDataWithoutClaim p rid)) as Hwithout.
  { intros rid. unfold getDedicatedAuditLogDataWithoutClaim. found. found. }
  split_and!.
  - unfold reserveAuditLog, reserveAuditLogCR. destruct (String.eqb b ""); [permit|]. found. found.
  - unfold getDedicatedAuditLogData, claimAndGetDedicatedAuditLogData. destruct flag; [|done]. found.
  - unfold claimAuditLog. apply permits_bind; [done|]. intros [d|e]; [permit|]. found.
  - unfold releaseDedicated, releaseAuditLogCR. found.
Qed.

End Pool.

(** ** The bootstrapper *)

Section Installer.
Context `{YamlLib} `{Codec Unstructured}.
Context (dedicated : bool) (config : BootstrapperConfig).

(** The read that the roles do not admit: of the trust bundle, if one is named. *)
Definition bundleRead (c : call) : Prop :=
  match c with
  | CGet Kcp KClusterTrustBundle key =>
      kcpClusterTrustBundleName (KCPCfg config) <> "" /\ key = mkNN "" (kcpClusterTrustBundleName (KCPCfg config))
  | _ => False
  end.

(** What it reads through a client of its own: its configuration. *)
Definition ownRead (c : call) : Prop :=
  match c with
  | CGet Kcp KConfigMap key =>
      key = inControlPlane (kcpConfigName (KCPCfg config)) \/ key = inControlPlane (kcpManifestsConfigMapName (KCPCfg config))
  | CGet Kcp KSecret key => key = inControlPlane (kcpPullSecretName (KCPCfg config))
  | _ => bundleRead c
  end.
Definition fineOr : call -> Prop := fun c => permitted dedicated ThroughCache c \/ bundleRead c.

(** Without the cache these reads need the verb get. *)
Lemma own_reads_admitted c : ownRead c -> permitted dedicated Direct c \/ bundleRead c.
Proof. case_call c; try (by intros []); [by intros ->; left|by intros [-> | ->]; left|by right]. Qed.

Ltac request_own :=
  first
    [ left; exact I
    | right; split; [by apply String.eqb_neq, negb_true_iff|reflexivity]
    | left; apply read_home; [reflexivity|done] ].

Ltac install :=
  lazymatch goal with
  | |- permits _ (callP ?c ≫= _) => apply (permits_call_bind _ c); [request_own|intros ? ?; install]
  | |- permits _ (_ ≫= _) => apply permits_bind; [install|intros ?; cbv beta; install]
  | |- permits _ (mret _) => apply permits_ret
  | |- permits _ (Ret _) => apply permits_ret
  | |- permits _ (deref _) => apply permits_deref
  | |- permits _ (callP _) => apply permits_call; request_own
  | |- permits _ (forEach _ _) => apply permits_forEach; intros ?; install
  | |- permits _ (match ?x with _ => _ end) => destruct x eqn:?; install
  | |- _ => solve [auto]
  end.

Lemma permits_client rt : here (nsOf KRuntime rt) -> permits fineOr (runtimeClientGet rt).
Proof. intros Hrt. unfold runtimeClientGet, getKubeconfigSecret, GetRuntimeClientWithScheme. install. Qed.

Lemma permits_apply k key equal desired a b : permits fineOr (applyUnlessEqual k key equal desired a b).
Proof. unfold applyUnlessEqual. install. Qed.

Lemma permits_configure rt : here (nsOf KRuntime rt) -> permits fineOr (ConfiguratorConfigure config rt).
Proof.
  intros Hrt. pose proof (permits_client rt Hrt). pose proof permits_apply.
  unfold ConfiguratorConfigure, getConfigMap, optionally, getPullSecret, getClusterTrustBundle, getResource,
    applyResourcesToRuntimeCluster, thenUnlessErr, unlessNil, applyConfigMap, applySecret, applyClusterTrustBundle.
  install.
Qed.

Lemma permits_manifests rt manifests : here (nsOf KRuntime rt) -> permits fineOr (ApplyManifests rt manifests).
Proof.
  intros Hrt. unfold ApplyManifests, applyDoc, applyObject, runtimeDynamicClientGet, getKubeconfigSecret,
    GetDynamicRuntimeClient. install.
Qed.

Lemma permits_info rt : here (nsOf KRuntime rt) ->
  permits fineOr (FsmState.InstallationInfo (NewInstaller config) rt).
Proof.
  intros Hrt. pose proof (permits_client rt Hrt). cbn [FsmState.InstallationInfo NewInstaller].
  unfold Bootstrapper.InstallationInfo, getManifests, isDeploymentReady, isDeploymentToBeUpdated. install.
Qed.

End Installer.

(** ** The other controllers *)

Section Controllers.
Context `{MetaLib} `{SemanticLib}.
Context (dedicated : bool).
Abbreviation fine := (permitted dedicated ThroughCache).

Lemma permits_caching period req : here (nn_Namespace req) ->
  permits fine (RegistryCacheReconcile defaultControlPlaneSystemNamespace period req).
Proof.
  intros Hreq. unfold RegistryCacheReconcile, GetRuntimeClientWithScheme, applyRegistryCacheConfig, updateRuntime,
    fetchConfigs, moduleEnabled. permit.
Qed.

Definition homeCluster (c : GardenerCluster) : Prop := here (nsOf KGardenerCluster c) /\ here (gcSecretNamespace c).

Lemma gives_errorState reason err cluster : homeCluster cluster -> gives fine homeCluster (errorState reason err cluster).
Proof. intros Hc. unfold errorState. give. Qed.

Lemma gives_readyState reason cluster : homeCluster cluster -> gives fine homeCluster (readyState reason cluster).
Proof. intros Hc. unfold readyState. give. Qed.

Context (ctl : GardenerClusterController).

Ltac with_cluster :=
  lazymatch goal with
  | |- gives _ _ (errorState _ _ _ ≫= _) => eapply gives_bind; [by apply gives_errorState|intros ? ?; give; with_cluster]
  | |- gives _ _ (readyState _ _ ≫= _) => eapply gives_bind; [by apply gives_readyState|intros ? ?; give; with_cluster]
  | |- _ => idtac
  end.

Lemma gives_create kubeconfig cluster now : homeCluster cluster ->
  gives fine (fun x => homeCluster x.1) (createNewSecret ctl kubeconfig cluster now).
Proof.
  intros Hc. pose proof Hc as [_ Hns]. unfold createNewSecret. give; with_cluster.
Qed.

Lemma gives_update kubeconfig cluster secret t : homeCluster cluster -> here (nsOf KSecret secret) ->
  gives fine (fun x => homeCluster x.1) (updateExistingSecret ctl kubeconfig cluster secret t).
Proof. intros Hc Hs. unfold updateExistingSecret. give; with_cluster. Qed.

(** The secret found for a cluster. *)
Definition homeSecret (s : option Secret) : Prop := match s with Some s => here (nsOf KSecret s) | None => True end.

Lemma gives_handle secret cluster now : homeCluster cluster -> homeSecret secret ->
  gives fine (fun x => homeCluster x.1) (handleKubeconfig ctl secret cluster now).
Proof.
  intros Hc Hs. unfold handleKubeconfig. apply (gives_bind _ (fun _ => True)).
  { apply permits_gives. unfold Fetch. permit. }
  intros [kubeconfig|e] _; [|with_cluster].
  destruct (secretRotationForced cluster).
  - apply (gives_bind _ (fun _ => True)).
    { apply permits_gives. unfold removeKubeconfig. destruct secret; permit. }
    intros [e|] _; [with_cluster|give].
  - destruct (negb _); [with_cluster|]. destruct secret as [secret|].
    + eapply gives_bind; [by apply gives_update|]. intros [c e] Hc'. by apply gives_ret.
    + eapply gives_bind; [by apply gives_create|]. intros [c e] Hc'. by apply gives_ret.
Qed.

Lemma gives_getSecret shootName :
  gives fine (fun r => match r with Ok s => here (nsOf KSecret s) | Err _ => True end) (getSecret shootName).
Proof.
  unfold getSecret. apply gives_call; [by apply list_home; [|left]|]. intros [[|s [|s' items]]|e] Hr; apply gives_ret; try done.
  by inversion Hr.
Qed.

Lemma permits_persist cluster : homeCluster cluster -> permits fine (persistStatusChange cluster).
Proof. intros [Hc _]. unfold persistStatusChange. permit. Qed.

Lemma permits_unforce cluster : homeCluster cluster -> permits fine (removeForceRotationAnnotation cluster).
Proof.
  intros [Hc _]. unfold removeForceRotationAnnotation. destruct (secretRotationForced cluster); [|permit].
  apply permits_call_bind; [by apply read_home|]. intros [c|e] Hr; [|permit]. destruct Hr as [Hr _].
  assert (here (nsOf KGardenerCluster c)) by (unfold here in *; etransitivity; [exact Hr|exact Hc]). permit.
Qed.

Lemma permits_result cluster err requeue :
  permits fine (resultWithoutRequeue cluster err) /\ permits fine (resultWithRequeue cluster requeue).
Proof. unfold resultWithoutRequeue, resultWithRequeue. split; permit. Qed.

Lemma permits_cluster cluster : homeCluster cluster -> permits fine (reconcileCluster ctl cluster).
Proof.
  intros Hc. pose proof (fun c err => proj1 (permits_result c err 0)) as Hstop.
  pose proof (fun c d => proj2 (permits_result c None d)) as Hagain.
  assert (forall c, homeCluster c -> forall (k : GardenerCluster * option GoError -> prog (Result * option GoError)), (forall x, permits fine (k x)) -> 
    permits fine (persistStatusChange c ≫= k)) as Hpersist.
  { intros c Hc' k Hk. apply permits_bind; [by apply permits_persist|done]. }
  assert (forall c, homeCluster c -> forall d, permits fine (persistAndRequeue c d)) as Hrequeue.
  { intros c Hc' d. unfold persistAndRequeue. apply Hpersist; [done|]. intros [c' [e|]]; [apply Hstop|apply Hagain]. }
  unfold reconcileCluster. eapply permits_value; [apply gives_getSecret|]. intros secret Hs.
  destruct (failsUnlessNotFound secret).
  { eapply permits_value; [by apply gives_errorState|]. intros c' Hc'. apply Hpersist; [done|]. intros [c'' _]. apply Hstop. }
  cbv zeta. apply (permits_call_bind _ CNow); [exact I|]. intros now _.
  eapply permits_value; [apply gives_handle; [done|by destruct secret]|]. intros [c' [status [e|]]] Hc'.
  { apply Hpersist; [done|]. intros [c'' _]. apply Hstop. }
  destruct status; try by apply Hrequeue. apply permits_bind; [by apply permits_unforce|].
  intros [e|]; [apply Hstop|by apply Hrequeue].
Qed.

Lemma permits_kubeconfig req : here (nn_Namespace req) -> permits fine (ClusterReconcile ctl req).
Proof.
  intros Hreq. unfold ClusterReconcile. apply permits_call_bind; [by apply read_home|]. intros [cluster|e] Hr.
  - apply permits_cluster. destruct Hr as [Hns Hsec]. split; [|exact Hsec]. unfold here in *. etransitivity; [exact Hns|exact Hreq].
  - destruct (IsNotFound e); [|apply (proj1 (permits_result _ _ 0))]. unfold deleteKubeconfigSecret, resultWithoutRequeue.
    apply (permits_call_bind _ (CMetric _)); [exact I|]. intros _ _.
    apply (permits_call_bind _ (CMetric _)); [exact I|]. intros _ _. apply permits_bind; [|intros ?; permit].
    apply permits_call_bind; [by apply list_home; [|left]|]. intros [items|e'] Hr'; cbn [failsUnlessNotFound].
    + destruct items as [|s [|s' items]]; [permit| |permit]. assert (here (nsOf KSecret s)) by by inversion Hr'. permit.
    + destruct (IsNotFound e'); permit.
Qed.

(** The watcher has a client of its own. *)
Lemma permits_notify w req items b : Forall (fun item => here (nsOf KRuntime item)) items ->
  permits (permitted dedicated Direct) (notifyRuntimes w req items b).
Proof.
  revert b. induction items as [|item items IH]; intros b Hall; cbn [notifyRuntimes]; [permit|].
  inversion Hall; subst. destruct (negb _); [auto|]. destruct (alreadyForced item); [auto|]. permit.
Qed.

Lemma permits_reload w req : here (crNamespace w) -> permits (permitted dedicated Direct) (ReloadReconcile w req).
Proof.
  intros Hw. unfold ReloadReconcile. apply permits_call_bind; [by apply may_home|]. intros [items|e] Hr; [|permit].
  apply permits_bind; [|intros ?; permit]. apply permits_notify. unfold placed in Hr. rewrite Hw in Hr. exact Hr.
Qed.

End Controllers.

(** ** The operator *)

Section Operator.
Context `{MetaLaws} `{GardenerLaws} `{RegistryCacheLib} `{SortLaws} `{HyperscalerCodecs} `{GVisorLib} `{ExtensionCodecs}.
Context `{Codec VXLanConfig} `{SliceCapacities} `{YamlLib} `{Codec Unstructured}.
Context `{Codec AuthenticationConfiguration} `{Codec WindowMap} `{Codec KymaProvisioningInfo} `{SemanticLib}.
Context (fl : flags) (cfg : Config) (shared : Configuration) (ReconcilePeriod : Z).

#[local] Existing Instance converterOk.

Abbreviation D := (dedicatedAuditLoggingEnabled fl).
(** The provider as cmd/main.go makes it. *)
Definition operatorProvider : DefaultDataProvider := mkDefaultProvider shared defaultControlPlaneSystemNamespace.
Abbreviation m := (operatorConfig fl cfg (NewDataProvider operatorProvider)).

(** The jobs of the operator: the caches know no other namespace, and the watcher
    is the one that start-up makes. *)
Definition atHome (j : job) : Prop :=
  match j with
  | JRuntime req | JCaching req | JKubeconfig _ req => here (nn_Namespace req)
  | JReload w _ => configReloadWatcher fl cfg = Some w
  end.

(** How the job reads, and what it may request. *)
Definition readerOf (j : job) : reader := match j with JReload _ _ => Direct | _ => ThroughCache end.
Definition mayRequest (j : job) (c : call) : Prop :=
  permitted D (readerOf j) c \/
  match j with
  | JRuntime _ => runtimeBootstrapperEnabled fl = true /\ bundleRead (rtbConfig fl) c
  | _ => False
  end.

Lemma watcher_home w : configReloadWatcher fl cfg = Some w -> here (crNamespace w).
Proof. unfold configReloadWatcher. destruct (_ || _); [|done]. by intros [= <-]. Qed.

Lemma permits_weaken {A} (fine fine' : call -> Prop) (p : prog A) :
  (forall c, fine c -> fine' c) -> permits fine p -> permits fine' p.
Proof. intros Hf Hp h. eapply wp_weaken; [| |apply Hp]; [done|]. intros h' c. apply Hf. Qed.

Lemma permits_machine req : here (nn_Namespace req) -> permits (mayRequest (JRuntime req)) (Reconcile m req).
Proof.
  intros Hreq. apply (permits_reconcile m (fun c => runtimeBootstrapperEnabled fl = true /\ bundleRead (rtbConfig fl) c)); [| | |done].
  - intros HD a b flag. pose proof (permits_pool D operatorProvider HD eq_refl a b flag) as (P1 & P2 & P3 & P4).
    split_and!; (eapply permits_weaken; [|eassumption]); by left.
  - intros a b h. exact I.
  - cbn [RuntimeBootstrapperEnabled BootstrapperInstaller operatorConfig].
    intros i rt manifests Hi Hrt. destruct (runtimeBootstrapperEnabled fl) eqn:Hen; [|done]. injection Hi as <-.
    split_and!; (eapply permits_weaken with (fine := fineOr D (rtbConfig fl)); [intros c [?|?]; [by left|by right]|]).
    + by apply permits_configure.
    + by apply permits_info.
    + by apply permits_manifests.
    + apply permits_ret.
Qed.


End Operator.

(** ** What the roles lack *)

(** They are roles of one namespace. *)
Lemma admits_namespace group resource verb ns : admits group resource verb ns = true -> here ns.
Proof.
  unfold admits. rewrite existsb_exists. intros (r & Hr & Hm).
  assert (Forall (fun r => here (prNamespace r)) role) as Hall by (by repeat constructor).
  rewrite Forall_forall in Hall. apply list_elem_of_In in Hr. specialize (Hall r Hr). unfold here in *.
  repeat (apply andb_true_iff in Hm as [Hm ?]). by match goal with E : String.eqb _ ns = true |- _ => apply String.eqb_eq in E as <- end.
Qed.

(** The trust bundles, which have no namespace, can neither be read nor cached. *)
Lemma bundle_denied config c : bundleRead config c -> ~ permitted true Direct c.
Proof. case_call c; try (by intros []). intros [_ ->]. by cbn. Qed.

Lemma bundle_cache_denied dedicated : canFill dedicated KClusterTrustBundle = false.
Proof. reflexivity. Qed.

(** The markers alone do not admit to read a config map: the bootstrapper relies on
    the role of the leader election. *)
Example markers_read_no_config_map :
  existsb (fun r => String.eqb (prResource r) "configmaps" && bool_decide ("get" ∈ prVerbs r))
    (runtimeRules ++ gardenerClusterRules ++ configReloadRules) = false /\
  may KConfigMap "" "get" "kcp-system" = true.
Proof. by vm_compute. Qed.

(** The server enforces the roles on the reads of a client without cache. *)
Definition enforced : rely := fun _ e =>
  match e with
  | Ev (CGet Kcp k key) (Ok _) => may k "" "get" (nn_Namespace key) = true
  | _ => True
  end.

(** With these permissions the validation of a bootstrapper with a trust bundle
    fails, so that the operator does not start with it. *)
Lemma bootstrapper_denied `{YamlLib} `{Codec Unstructured} (config : BootstrapperConfig) :
  kcpClusterTrustBundleName (KCPCfg config) <> "" ->
  wp enforced anyCall (configureRuntimeBootstrapper config) [] (mayPanic (fun r _ => exists e, r = Err e)).
Proof.
  intros Hname. unfold configureRuntimeBootstrapper, Validate. apply wp_seq.
  assert (forall p q : prog (option GoError), (forall h, wp enforced anyCall q h (mayPanic (fun e _ => is_Some e))) ->
    forall h, wp enforced anyCall (thenUnlessErr p q) h (mayPanic (fun e _ => is_Some e))) as Hthen.
  { intros p q Hq h. apply wp_thenUnlessErr. eapply (wp_confined _ _ _ _ _ _ _ _ (confined_any p)); [done| |done].
    intros [e|] h' _ _; [by eexists|apply Hq]. }
  eapply (wp_mono _ _ _ _ (mayPanic (fun e _ => is_Some e))); [intros [e|] h' He; [destruct He as [e' ->]; by eexists|done]|].
  do 4 (apply Hthen; intros ?). unfold verifyClusterTrustBundle.
  rewrite (proj2 (String.eqb_neq _ _) Hname). split; [done|]. intros [b|e] Hr; [discriminate Hr|by eexists].
Qed.

(** ** An example *)

#[local] Existing Instances MetaRef.lib MetaRef.laws numberVersions numberVersions_laws exampleSort exampleSort_laws
  exampleCodecs exampleGVisor exampleExtensionCodecs FsmExample.Demo.cacheLib FsmExample.Demo.authCodec
  FsmExample.Demo.windowCodec FsmExample.Demo.infoCodec Operator.exampleYaml Operator.exampleUnstructured
  Operator.exampleNetworking Operator.exampleCapacities RuntimeSystem.exampleSemantic.

Definition exampleRun : job := JRuntime (mkNN "kcp-system" "rt").

