(* ===== verification/CredentialBindings.v ===== *)
(** * Migration of secret bindings (hack/credentialbindings)

    The tool that makes a CredentialsBinding of every SecretBinding of a Gardener
    project. *)

From S2P Require Import Prelude.

Local Open Scope string_scope.

(** ** Data (the types of Gardener, as far as they are used) *)

Record SecretBinding := mkSecretBinding {
  sbName : string;
  sbNamespace : string;
  sbLabels : gmap string string;
  sbAnnotations : gmap string string;
  sbProvider : option string;                      (* .Provider.Type *)
  sbSecretNamespace : string;                      (* .SecretRef *)
  sbSecretName : string
}.

Record CredentialsBinding := mkCredentialsBinding {
  cbAPIVersion : string;
  cbKind : string;
  cbName : string;
  cbNamespace : string;
  cbLabels : gmap string string;
  cbAnnotations : gmap string string;
  cbRefKind : string;                              (* .CredentialsRef *)
  cbRefAPIVersion : string;
  cbRefNamespace : string;
  cbRefName : string;
  cbProviderType : string
}.

(*@ src/hack/credentialbindings/main.go:74-102 createCredentialBinding *)
Definition createCredentialBinding (secretBinding : SecretBinding) : result CredentialsBinding :=
  match sbProvider secretBinding with
  | None => Err (newError "SecretBinding is missing provider type")
  | Some provider =>
      Ok (mkCredentialsBinding "security.gardener.cloud/v1alpha1" "CredentialsBinding"
            (sbName secretBinding) (sbNamespace secretBinding) (sbLabels secretBinding) (sbAnnotations secretBinding)
            "Secret" "v1" (sbSecretNamespace secretBinding) (sbSecretName secretBinding) provider)
  end.

(** ** The run *)

(** What the tool does: a request with its answer, and lines of its output. *)
Inductive action :=
| Created (b : CredentialsBinding) (answer : option GoError)
| Printed (line : string)
| Logged (line : string).

Definition sbKey (b : SecretBinding) : string := sbNamespace b +:+ "/" +:+ sbName b.
Definition failedLine (b : SecretBinding) (err : GoError) : string :=
  "failed to create CredentialBinding for SecretBinding " +:+ sbKey b +:+ ": " +:+ errText err.

Section Tool.
(** The API server of Gardener: its answer to a creation after what was done. *)
Context (create : list action -> CredentialsBinding -> option GoError).
(** The default format of fmt. *)
Context (show : CredentialsBinding -> string).
Context (dryRun : bool).

(** The body of the loop, after the actions [done] (the latest first). *)
(*@ src/hack/credentialbindings/main.go:54-70 main *)
Definition migrate (before : list action) (secretBinding : SecretBinding) : list action :=
  let before := Printed ("SecretBinding: " +:+ sbKey secretBinding) :: before in
  match createCredentialBinding secretBinding with
  | Err err => Logged (failedLine secretBinding err) :: before
  | Ok binding =>
      if dryRun then Printed ("Following CredentialBinding would be created: " +:+ show binding) :: before
      else
        let err := create before binding in
        let before := Created binding err :: before in
        let before := match err with Some err => Logged (failedLine secretBinding err) :: before | None => before end in
        Printed ("CredentialBinding " +:+ cbNamespace binding +:+ "/" +:+ cbName binding +:+ " created successfully") :: before
  end.

(** The loop goes on after a failure. *)
(*@ src/hack/credentialbindings/main.go:48-71 main *)
Definition migrateAll (listed : result (list SecretBinding)) : list action :=
  match listed with
  | Err err => [Logged ("failed to list SecretBindings: " +:+ errText err)]
  | Ok items => rev (foldl migrate [] items)
  end.

(** ** Lemmas *)

Definition requestOf (a : action) : option CredentialsBinding := match a with Created b _ => Some b | _ => None end.
Definition requests (l : list action) : list CredentialsBinding := omap requestOf l.

Definition wanted (items : list SecretBinding) : list CredentialsBinding :=
  omap (fun b => match createCredentialBinding b with Ok c => Some c | Err _ => None end) items.

Lemma requests_app l l' : requests (l ++ l') = (requests l ++ requests l')%list.
Proof. apply omap_app. Qed.

Lemma migrate_requests before b :
  requests (migrate before b) =
  ((if dryRun then [] else wanted [b]) ++ requests before)%list.
Proof.
  unfold migrate, wanted. cbn [omap list_omap]. destruct (createCredentialBinding b) as [c|err]; [|by destruct dryRun].
  destruct dryRun; [done|]. by destruct (create _ c).
Qed.

Lemma foldl_requests items before :
  requests (foldl migrate before items) = ((if dryRun then [] else rev (wanted items)) ++ requests before)%list.
Proof.
  revert before. induction items as [|b items IH]; intros before; cbn [foldl]; [by destruct dryRun|].
  rewrite IH, migrate_requests. destruct dryRun; [done|]. unfold wanted. cbn [omap list_omap].
  destruct (createCredentialBinding b); cbn; [by rewrite <- app_assoc|done].
Qed.

Lemma omap_rev {A B} (f : A -> option B) l : omap f (rev l) = rev (omap f l).
Proof.
  induction l as [|x l IH]; [done|]. cbn [rev]. rewrite omap_app, IH. cbn. destruct (f x); [done|]. apply app_nil_r.
Qed.

(** Once the bindings are listed: a dry run creates nothing. Otherwise one creation is requested for every
    SecretBinding with a provider, in order, whatever the answers; the new binding
    has its name, namespace, labels, annotations, provider and secret. *)
Theorem migration_complete (items : list SecretBinding) :
  requests (migrateAll (Ok items)) = if dryRun then [] else wanted items.
Proof.
  cbn [migrateAll]. unfold requests. rewrite omap_rev. fold (requests (foldl migrate [] items)). rewrite foldl_requests.
  rewrite app_nil_r. destruct dryRun; [done|]. by rewrite rev_involutive.
Qed.

End Tool.

(** The success of a creation is reported although it failed. *)
Definition exampleBinding : SecretBinding := mkSecretBinding "binding" "garden-kyma" ∅ ∅ (Some "aws") "garden-kyma" "secret".
Definition refuse : list action -> CredentialsBinding -> option GoError := fun _ _ => Some (newError "forbidden").
Example success_after_failure :
  Printed "CredentialBinding garden-kyma/binding created successfully" ∈
    migrateAll refuse cbName false (Ok [exampleBinding]).
Proof. apply list_elem_of_In. vm_compute. tauto. Qed.
